(* ===== verification/_CoqProject ===== *)
-Q . S2P
Prelude.v
Strs.v
Float.v
Net.v
Geo.v
External.v
Models.v
Serde.v
Instances.v
Documents.v
DhcpOptions.v
Dhcp4.v
Dhcp6.v
Lease.v
Db.v
DbDhcp.v
DbDns.v
DhcpServer.v
DhcpExamples.v
LeaseTime.v
Dnssec.v
Store.v
DhcpDns.v
DbFilter.v
Filter.v
Upstream.v
Cache.v
Stats.v
DbAdmin.v
Schema.v
Config.v
Mdns.v
State.v
Web.v
Tasks.v
Reports.v
Auth.v
DynDns.v
Transfer.v
ApiZones.v
ApiFilter.v
ApiDhcp.v
Sync.v
Integrity.v
Resolve.v
Handler.v
Replicate.v
Router.v
Privacy.v
Serve.v
Startup.v
Services.v
Program.v
Bounds.v
Unlogged.v
Wellformed.v
Typed.v
Concurrent.v
DnsExamples.v
WebExamples.v
ProgramExamples.v
