(* ===== verification/Prelude.v ===== *)
(** * Nomina: a verification of the DNS and DHCP server

    Nomina is a home and office network server: an authoritative and forwarding
    DNS server with split-horizon views, filtering, DNSSEC signing, zone transfers
    and mDNS discovery, a DHCPv4/DHCPv6 server, and a web interface that edits the
    SQLite database behind both.  This library models the program in Rocq, from a
    single packet to the running process, and proves what makes it correct.

    ** The program and its parts

    A query goes from the protocol handler (src/dns/handler.rs, doh.rs) to
    [resolve_query] (src/dns/resolve.rs).  It consults, in this order, the ASN
    block list, the hosts learned by mDNS, the synthesized apex records of a
    signed zone, and the authoritative store (src/store.rs), which is an in-memory
    image of the database's zones.  A name outside every local zone goes to the
    filter (src/filter.rs: rewrites, allow rules, blocklists, lookalike names),
    then to a conditional forwarder (src/dns/conditional.rs), then to the answer
    cache (src/dns/cache.rs) and the upstream (src/dns/upstream.rs).  Every query
    is counted (src/stats.rs).  src/state.rs holds these structures and rebuilds
    them from the database.

    A DHCP frame is parsed (src/dhcp/v4.rs, v6.rs), the scope selected, an address
    chosen by [allocate] (src/dhcp/lease.rs), the lease written, one reply sent,
    and the client's name registered in DNS through the same database
    (src/dhcp/server.rs), after which the store is reloaded.

    A web request passes the allow-list, the audit, the security headers and the
    body limit (src/web/mod.rs), the session and CSRF check (src/web/auth.rs) and a handler
    (src/web/api.rs, dyndns.rs), which writes the database and reloads the
    structures it changed.  src/main.rs starts all of this, with its background
    workers, from the files a previous run left.

    ** Files

    - [Prelude]: results, machine integers and byte order, slices, the stable
      sorts, the tactics and hint databases shared by all files.
    - [Strs], [Float], [Net]: the strings, floats, addresses and interfaces of the
      Rust standard library and of [getifaddrs], as far as the source uses them.
    - [External]: third-party crates as classes of operations, with their laws;
      [Instances]: executable instances of these classes for the witnesses.
    - [Models]: src/models.rs; [Serde]: how serde writes and reads a value, as
      codecs; [Documents]: the serde attributes of src/models.rs.  [Config]:
      src/config.rs and the overlays of main.  [Geo]: src/geo.rs.
    - [DhcpOptions]: src/dhcp/options.rs.  [Dhcp4], [Dhcp6]: the two codecs.
      [Lease]: src/dhcp/lease.rs.
    - [Db]: the tables and the statement monad of src/db.rs; [DbDhcp], [DbDns],
      [DbFilter], [DbAdmin]: its statements by group of tables; [Schema]:
      src/schema.rs, the rows as SQLite holds them and their decoders.
    - [DhcpServer]: src/dhcp/server.rs; [LeaseTime]: a lease over a sequence of
      served messages.
    - [Dnssec]: src/dns/dnssec.rs.  [Store]: src/store.rs.  [DhcpDns]: the DHCP
      server over this store, from a grant to the DNS answer.
    - [Filter]: src/filter.rs, [parse_blocklist] of src/web/fetch.rs and
      src/dns/homograph.rs.
    - [Upstream]: src/dns/upstream.rs and conditional.rs.  [Cache]:
      src/dns/cache.rs.  [Stats]: src/stats.rs.  [Mdns]: src/dns/mdns.rs.
    - [State]: src/state.rs.  [Resolve]: src/dns/resolve.rs.  [Handler]:
      src/dns/handler.rs, doh.rs and the request side of tsig.rs.
    - [Web]: src/error.rs, responses and the handler monad.  [Auth]:
      src/web/auth.rs and the account handlers.  [DynDns]: src/web/dyndns.rs.
      [ApiZones], [ApiFilter], [ApiDhcp], [Reports]: the handlers of
      src/web/api.rs.  [Transfer]: src/dns/axfr.rs, secondary.rs and tsig.rs;
      [Replicate]: a secondary whose primary is this program.
    - [Router]: src/web/mod.rs, the routing table with every handler and the
      middleware.  [Privacy]: what the reports disclose.
    - [Sync]: the in-memory structures follow the database.  [Integrity]: the
      constraints of migrations/ on all tables, and that every statement and every
      handler keeps them.  [Serve]: whole requests; the session gate, the audit
      trail.
    - [Startup]: src/main.rs up to the point where the servers run, with
      src/tls.rs and privileges.rs; [Services]: what the bound sockets become.
      [Program]: the process as a state machine,
      with the workers and timers of main.  [Bounds]: the caps of its cache,
      statistics, queues and logs.  [Unlogged]: the query log while it is off;
      [Wellformed]: the settings; [Typed]: what every run stores can be read back.
    - [Tasks]: handlers as tasks of single steps; [Concurrent]: requests, reloads
      and workers that overlap.
    - [DhcpExamples], [DnsExamples], [WebExamples], [ProgramExamples]: concrete
      runs, which are the witnesses of the theorems.

    Definitions have the names of the functions they model.  Where two functions
    share a name, the model's has a prefix ([cache_get], [mdns_lookup], [api_] for
    a web handler) or, for the two codecs, its file's name.  Fields carry a prefix
    per struct.

    ** How the code is represented

    A pure function is a function.  A database call is a function from the
    database to the database and a result ([Db.M]); an error inside a transaction
    restores the database, outside it keeps what earlier statements wrote.  A
    DHCP handler takes the shared state to the new state, the datagrams sent and a
    result; a web handler is a [Web.Step] on the application state, which keeps
    what it wrote before an error.  A Rust panic is [None] of an [option].
    Integers are [Z], with the wrap-around or the saturation written where the
    source has it; floats are binary64.  A hash map is a [gmap], a hash set a
    [gset], a vector a list.  An operation under a lock is one step.  A handler is
    written as it runs alone; that it is a sequence of such steps, and what others
    may do between them, is [Concurrent], and for the DHCP server's two DISCOVERs
    [v4_interleaved].  Clocks, the network, random choices and whether a datagram
    could be sent are arguments.  A column of JSON or of an enumeration's name is
    its decoded value in [Db.Db], and its text in [Schema.RawDb].

    The whole program is the relation [Program.reachable]: actions start a process
    from the files on disk, give it an event (a request, a query, a frame, a
    datagram, a turn of a worker or a timer), stop it or kill it.  There an event
    runs to its end before the next.  In [Concurrent.overlap] any number of tasks
    are under way and any of them takes the next step.

    Components meet in interfaces where the code lets them: the DHCP server is
    proved against any way of loading the zones ([DhcpServer.StoreLoad]), which
    [DhcpDns] instantiates with the store; a handler's effect on an invariant is
    proved from the statements it runs ([preserves], [keeps], [hkeeps]); a handler is
    cut into tasks by combinators that carry the proof that the task, left alone, is
    the handler, and that its steps keep the invariant ([Tasks.Interleaved]); a
    stored type has a [Codec] with its law ([CodecOk]), and the codec of a structure
    is put together from those of its fields.

    Third-party code is a parameter, one class per crate: hickory's names, record
    text, queries, wire format, resolvers, signatures and zone files
    ([HickoryNames], [HickoryText], [DnsQueries], [DnsWire], [MdnsWire],
    [HickoryResolvers], [Signers], [DnssecTools], [TSigners], [ZoneFiles]), ipnet
    ([IpNets]), time ([Rfc3339], [DateTimes]), argon2, SHA-256 and base64
    ([Credentials]), the Unicode tables ([Unicode]), maxminddb ([MaxMind]), serde's
    decoding of requests ([Decoders]), serde_json's text ([JsonText]), the derives of
    hickory's types in the cache file ([HickorySerde]), the texts of errors
    ([ErrorTexts]), rustls
    and rcgen ([TlsTools]) and the system calls of privileges ([Unix]).  A theorem
    that relies on documented behaviour of one of them names a class of laws:
    [Rfc3339Laws] and [DateTimeLaws] (what is formatted parses back),
    [JsonTextLaws] (a value in range and nested at most 127 deep is read back from
    its text), [HickorySerdeLaws] (a record type, response code or record that fits
    is read back from its form),
    [CredentialLaws] (a hash verifies its password, base64 round
    trips), [UnixLaws] (what POSIX says of the identity calls) and
    [DhcpDns.AddressText] (the text of an IPv4 address is the data of an [A]
    record).  The instances of the examples satisfy them.

    ** What is proved

    - The process ([Program], [Bounds], [Unlogged], [Startup]): the database is
      consistent at every moment of every run, across kills and restarts; when
      events do not overlap, the live structures follow the database except after
      two named events, and a restart heals them; the cache, the statistics, the
      queues and the logs stay within their caps (the login throttle has none); the
      query counters add up; the settings stay well formed; with the query log off
      the log, the recent queries and the rankings stay empty (the blocked clients
      of the map and the worker that locates blocked names do not depend on that
      setting); dropped privileges cannot be regained; the status page lists exactly
      the listeners that are served.
    - Storage ([Schema], [Typed]): at every moment of every run each stored row,
      JSON column and enumeration is read back as the value it was written for, by
      the plain reads and by the joins; the settings of an earlier or later build
      are read with the declared defaults, and refused exactly when a field without
      a default is missing.
    - Overlap ([Concurrent]): the invariants of the database hold between any two
      steps of overlapping requests, refreshes, transfers and reloads, the default
      views stay, and each live structure is that of some state of the database.
      Two theorems exhibit what does not hold: two deletions can leave an older
      store in place, and a change of the settings can be lost.
    - Whole requests ([Serve], [Auth], [Privacy]): nothing but the public
      endpoints without a live session and CSRF token; the audit trail of the changes
      made in a session (the logout is recorded without its user); the allow-list; the security headers of every answer; login, lockout, session lifetime, one-time set-up; [/metrics]
      tells nothing of who asked what; the points of the map are exact.
    - The web API ([ApiZones], [ApiFilter], [ApiDhcp], [DynDns]): a created record
      in an enabled zone is served at once; a refused change of the settings leaves
      everything, an accepted one is stored; a DynDNS token changes its own host
      names only, and they point where the request said.
    - Transfers ([Transfer], [Replicate], [Handler], [Store]): a zone is served to
      permitted and signed requests only; the transfer stream; the frames written
      are the messages read; the read loop is bounded while the messages carry
      records (empty ones can keep it going); a fetched zone replaces the old one, and
      a secondary of this program's own primary becomes its copy when the answer
      fits one message.
    - Allocation ([Lease]): an address handed out is the client's reservation or
      a free address of the pool; when allocation fails and which address it
      takes otherwise; a client keeps its address.
    - The DHCP server ([DhcpServer]): a handler never overwrites a lease another
      client holds, one ACK or NAK per REQUEST with the lease it promises, what a
      reply on the wire contains, RELEASE, scope selection, host names, and the
      integrity of the tables after any sequence of frames and edits.  One
      theorem exhibits the race between two concurrent DISCOVERs.  [LeaseTime]: an
      acknowledged address goes to no other client before the lease expires.
      [DhcpDns]: the acknowledged address is what DNS answers for the client's
      name.
    - The codecs ([Dhcp4], [Dhcp6], [DhcpOptions]): round trips, what the parsers
      accept, the shape of encoded options and when encoding panics.
    - The database ([DbDhcp], [DbDns], [DbFilter], [DbAdmin]): invariants over
      reachable databases, and the exact effect and idempotence of a DynDNS update.
    - The store ([Store]): loading is faithful, a lookup never leaks a record of
      another view, what each outcome means, the CNAME chase is bounded.
    - Filtering ([Filter]): decisions against a specification on the tables; the
      effect of refreshing a blocklist.
    - Cache, statistics, throttle ([Cache], [Stats], [State]): time to live,
      capacity, save and load through the JSON file, panic condition; exact rates,
      caps and privacy; when a login is locked out, and that the throttle grows with
      every new name.
    - The query path ([Resolve], [Handler]): local names are answered by the store;
      for blocked and local names the answer does not depend on other servers; an
      answer is repeated from the cache for its TTL and no longer; load balancing,
      absence of panics, one count per query; DNS over HTTPS answers a query as DNS
      does.
    - Signing ([Dnssec]): which record sets are signed, and the NSEC3 successor.

    ** Fuel and bounds

    The option loops of the codecs have one unit of fuel more than there are
    bytes ([parse_options_loop_fuel]); every turn consumes a byte.  The pool scan
    has one unit per candidate address, which is the whole IPv4 range and the
    source's own limit of 65,536 for IPv6 ([scan_spec]).  The CNAME chase
    recurses on the source's depth counter, at most nine turns.  The read loop of a
    transfer runs over the messages of the connection, which are cut out of its
    bytes with a unit of fuel per byte; more changes nothing ([read_messages_fuel]).  [chunks] has one unit per
    element ([chunks_spec]).  The digits of a float have fuel for twenty, and
    seventeen always identify a binary64.  A stored document is at most five levels
    deep, a cache file at most 103 by the law assumed of hickory, and [json_depth]
    is serde_json's limit for reading.  All other loops are structural.

    ** What is not modelled

    The overlap of requests cuts the handlers of the management server and the
    workers into steps; a DNS or DoH query, which reads each structure and writes
    counters and the cache, is one step between theirs, and a DHCP handler is its
    statements and its reload, in any order.  In [Program] an event is atomic, the audit
    task included, and a task that panics takes no step; the audit that starts later is
    in [Concurrent].  The accept loops
    of the servers, HTTP and TLS framing, ACME, logging and tracing are input and
    output.  Of a response's headers the ones the code names are modelled, not those
    axum derives from the body or the method.  The decoding
    of requests, TOML and query strings is serde's and enters as parameters; a rejected
    body is a 400 with an empty text, where axum's status and text tell more.  The
    accessors of src/state.rs that only read a field are that field. *)

From Stdlib Require Export ZArith Lia.
From stdpp Require Export base list strings gmap sets numbers sorting.
From Stdlib Require Import Permutation.

#[export] Set Default Goal Selector "!".

Global Open Scope Z_scope.

(** ** Rust results *)

(** [Result<A, E>]. *)
Inductive result (A E : Type) : Type :=
| Ok (a : A)
| Err (e : E).
Arguments Ok {A E} a.
Arguments Err {A E} e.

Declare Scope rust_scope.
Delimit Scope rust_scope with rust.

(** The [?] operator on results and on options, and [let-else]. *)
Notation "'let?' x := e 'in' k" :=
  (match e with Ok x => k | Err err => Err err end)
  (at level 10, x name, e at level 200, k at level 200) : rust_scope.
Notation "'let!' x := e 'in' k" :=
  (match e with Some x => k | None => None end)
  (at level 10, x name, e at level 200, k at level 200) : rust_scope.
Global Open Scope rust_scope.

(** [Result::ok]. *)
Definition ok {A E} (r : result A E) : option A :=
  match r with Ok a => Some a | Err _ => None end.

(** [Option::ok_or]. *)
Definition ok_or {A E} (o : option A) (e : E) : result A E :=
  match o with Some a => Ok a | None => Err e end.

Definition is_ok {A E} (r : result A E) : bool :=
  match r with Ok _ => true | Err _ => false end.

(** ** Tactics *)

Create HintDb nomina.
Create Rewrite HintDb nomina.

(** Case analysis on the innermost scrutinee of the goal, keeping equations. *)
Ltac case_goal :=
  match goal with
  | |- context [match ?x with _ => _ end] =>
      lazymatch x with
      | context [match _ with _ => _ end] => fail
      | _ => destruct x eqn:?
      end
  end.
(** The same in a hypothesis. *)
Ltac case_hyp H :=
  match type of H with
  | context [match ?x with _ => _ end] =>
      lazymatch x with
      | context [match _ with _ => _ end] => fail
      | _ => destruct x eqn:?
      end
  end.

(** Reflect the boolean tests of the program into propositions. *)
Ltac breflect :=
  repeat match goal with
  | H : _ && _ = true |- _ => apply andb_true_iff in H as [? ?]
  | H : _ || _ = false |- _ => apply orb_false_iff in H as [? ?]
  | H : negb _ = true |- _ => apply negb_true_iff in H
  | H : negb _ = false |- _ => apply negb_false_iff in H
  | H : (_ =? _) = true |- _ => apply Z.eqb_eq in H
  | H : (_ =? _) = false |- _ => apply Z.eqb_neq in H
  | H : (_ <=? _) = true |- _ => apply Z.leb_le in H
  | H : (_ <=? _) = false |- _ => apply Z.leb_gt in H
  | H : (_ <? _) = true |- _ => apply Z.ltb_lt in H
  | H : (_ <? _) = false |- _ => apply Z.ltb_ge in H
  | H : bool_decide _ = true |- _ => apply bool_decide_eq_true in H
  | H : bool_decide _ = false |- _ => apply bool_decide_eq_false in H
  end.

(** Closes a closed equation by evaluating both sides in the virtual machine. *)
Ltac vm_refl := match goal with |- _ = ?y => vm_cast_no_check (@eq_refl _ y) end.

(** ** Machine integers *)

Definition u8_max : Z := 255.
Definition u16_max : Z := 65535.
Definition u32_max : Z := 4294967295.
Definition u64_max : Z := 18446744073709551615.
Definition i64_min : Z := -9223372036854775808.
Definition i64_max : Z := 9223372036854775807.
Definition as_i64 (z : Z) : Z := (z + 9223372036854775808) mod 18446744073709551616 - 9223372036854775808.

Definition is_u8 (n : Z) : Prop := 0 <= n <= u8_max.
Definition is_u16 (n : Z) : Prop := 0 <= n <= u16_max.
Definition is_u32 (n : Z) : Prop := 0 <= n <= u32_max.
Definition is_u64 (n : Z) : Prop := 0 <= n <= 18446744073709551615.
Definition is_u128 (n : Z) : Prop := 0 <= n < 2 ^ 128.

(** [n as u8], [n as u16], [n as u32] truncate. *)
Definition as_u8 (n : Z) : Z := n mod 256.
Definition as_u16 (n : Z) : Z := n mod 65536.
Definition as_u32 (n : Z) : Z := n mod 4294967296.

(** [fetch_add(1)] wraps around. *)
Definition u64_succ (n : Z) : Z := (n + 1) mod 18446744073709551616.
(** [a - b] on [u64], in a release build. *)
Definition u64_sub (a b : Z) : Z := (a - b) mod 18446744073709551616.

(** ** Byte strings and big-endian integers *)

#[warnings="-notation-for-abbreviation"]
Notation bytes_ok := (Forall is_u8).

(** Split a byte string along its constructors and appends. *)
Ltac solve_bytes :=
  repeat match goal with
  | |- Forall _ [] => apply List.Forall_nil
  | |- Forall _ (_ :: _) => apply List.Forall_cons
  | |- Forall _ (_ ++ _) => apply Forall_app; split
  | |- Forall _ (take _ _) => apply Forall_take
  | |- Forall _ (drop _ _) => apply Forall_drop
  end;
  auto with nomina.

(** [to_be_bytes] of a [8*k]-bit integer. *)
Fixpoint to_be (k : nat) (n : Z) : list Z :=
  match k with
  | O => []
  | S k' => (n / 256 ^ Z.of_nat k') mod 256 :: to_be k' n
  end.

(** [from_be_bytes]. *)
Fixpoint from_be_acc (acc : Z) (l : list Z) : Z :=
  match l with
  | [] => acc
  | b :: l' => from_be_acc (acc * 256 + b) l'
  end.
Definition from_be (l : list Z) : Z := from_be_acc 0 l.

Lemma length_to_be k n : length (to_be k n) = k.
Proof. induction k; simpl; auto. Qed.

Lemma to_be_bytes_ok k n : bytes_ok (to_be k n).
Proof.
  induction k; simpl; constructor; auto.
  unfold is_u8, u8_max. pose proof (Z.mod_pos_bound (n / 256 ^ Z.of_nat k) 256). lia.
Qed.

Lemma from_be_acc_shift l acc :
  from_be_acc acc l = acc * 256 ^ Z.of_nat (length l) + from_be l.
Proof.
  unfold from_be. revert acc. induction l as [|b l IH]; intros acc.
  - cbn [from_be_acc length Z.of_nat]. rewrite Z.pow_0_r. lia.
  - cbn [from_be_acc length]. rewrite IH, (IH (0 * 256 + b)).
    rewrite Nat2Z.inj_succ, Z.pow_succ_r by lia. ring.
Qed.

Lemma from_be_cons b l :
  from_be (b :: l) = b * 256 ^ Z.of_nat (length l) + from_be l.
Proof. unfold from_be at 1. cbn [from_be_acc]. rewrite from_be_acc_shift. ring. Qed.

(** Reading back what [to_be_bytes] wrote gives the integer at its width. *)
Lemma from_to_be k n : from_be (to_be k n) = n mod 256 ^ Z.of_nat k.
Proof.
  induction k.
  - simpl. rewrite Z.mod_1_r. reflexivity.
  - cbn [to_be]. rewrite from_be_cons, length_to_be, IHk.
    rewrite Nat2Z.inj_succ, Z.pow_succ_r by lia.
    assert (0 < 256 ^ Z.of_nat k) by (apply Z.pow_pos_nonneg; lia).
    rewrite (Z.mul_comm 256), Z.rem_mul_r by lia. ring.
Qed.

Lemma from_be_bound l : bytes_ok l -> 0 <= from_be l < 256 ^ Z.of_nat (length l).
Proof.
  induction 1 as [|b l Hb _ IH]; [cbn; lia|].
  rewrite from_be_cons. cbn [length]. rewrite Nat2Z.inj_succ, Z.pow_succ_r by lia.
  unfold is_u8, u8_max in Hb. nia.
Qed.

(** Writing what was read gives the bytes back. *)
Lemma to_from_be l : bytes_ok l -> to_be (length l) (from_be l) = l.
Proof.
  induction 1 as [|b l Hb Hl IH]; [reflexivity|].
  pose proof (from_be_bound l Hl) as Hbd. cbn [length to_be].
  rewrite from_be_cons. f_equal.
  - rewrite Z.div_add_l, Z.div_small by lia.
    unfold is_u8, u8_max in Hb. rewrite Z.mod_small; lia.
  - etransitivity; [|exact IH].
    assert (forall k m, (k <= length l)%nat ->
      to_be k (m * 256 ^ Z.of_nat (length l) + from_be l) = to_be k (from_be l)) as E; [|apply E; lia].
    induction k as [|k IHk]; intros m Hk; [reflexivity|]. cbn [to_be]. f_equal; [|apply IHk; lia].
    assert (Z.of_nat (length l) = Z.of_nat k + 1 + Z.of_nat (length l - k - 1)) as -> by lia.
    rewrite !Z.pow_add_r by lia.
    assert (0 < 256 ^ Z.of_nat k) by (apply Z.pow_pos_nonneg; lia).
    replace (m * (256 ^ Z.of_nat k * 256 ^ 1 * 256 ^ Z.of_nat (length l - k - 1)) + from_be l)
      with ((m * 256 ^ Z.of_nat (length l - k - 1) * 256) * 256 ^ Z.of_nat k + from_be l) by ring.
    rewrite Z.div_add_l by lia. rewrite Z.add_comm, Z_mod_plus_full. reflexivity.
Qed.

(** ** Slices *)

(** [&l[i..j]], for [i <= j <= len]. *)
Definition slice {A} (i j : nat) (l : list A) : list A := take (j - i) (drop i l).

(** The byte at [i]; every use in the program is in range. *)
Definition byte_at (l : list Z) (i : nat) : Z := nth i l 0.

Lemma slice_app_l {A} (a b : list A) : slice 0 (length a) (a ++ b) = a.
Proof. unfold slice. rewrite drop_0, Nat.sub_0_r, take_app_length. reflexivity. Qed.

Lemma slice_app_r {A} i j (a b : list A) :
  slice (length a + i) (length a + j) (a ++ b) = slice i j b.
Proof.
  unfold slice. rewrite drop_app_add. f_equal. lia.
Qed.

Lemma from_be4 n : is_u32 n ->
  from_be [(n / 256 ^ 3) mod 256; (n / 256 ^ 2) mod 256; (n / 256 ^ 1) mod 256; (n / 256 ^ 0) mod 256] = n.
Proof.
  intros Hn. change (from_be (to_be 4 n) = n). rewrite from_to_be.
  apply Z.mod_small. unfold is_u32, u32_max in Hn. change (256 ^ Z.of_nat 4) with 4294967296. lia.
Qed.

Lemma from_be2 n : is_u16 n -> from_be [(n / 256 ^ 1) mod 256; (n / 256 ^ 0) mod 256] = n.
Proof.
  intros Hn. change (from_be (to_be 2 n) = n). rewrite from_to_be.
  apply Z.mod_small. unfold is_u16, u16_max in Hn. change (256 ^ Z.of_nat 2) with 65536. lia.
Qed.

Lemma nth_bytes l i : bytes_ok l -> is_u8 (byte_at l i).
Proof.
  intros Hl. unfold byte_at. destruct (Nat.lt_ge_cases i (length l)) as [Hi|Hi].
  - rewrite List.Forall_forall in Hl. apply Hl, nth_In, Hi.
  - rewrite nth_overflow by done. unfold is_u8, u8_max. lia.
Qed.
#[export] Hint Resolve nth_bytes : nomina.

Lemma slice_bytes i j l : bytes_ok l -> bytes_ok (slice i j l).
Proof. intros Hl. unfold slice. by apply Forall_take, Forall_drop. Qed.
#[export] Hint Resolve slice_bytes : nomina.

Lemma length_slice {A} i j (l : list A) :
  (i <= j)%nat -> (j <= length l)%nat -> length (slice i j l) = (j - i)%nat.
Proof. intros ? ?. unfold slice. rewrite length_take, length_drop. lia. Qed.

Lemma from_be4_u32 a b c d : is_u8 a -> is_u8 b -> is_u8 c -> is_u8 d -> is_u32 (from_be [a; b; c; d]).
Proof.
  intros. pose proof (from_be_bound [a; b; c; d]) as Hb. unfold is_u32, u32_max.
  assert (bytes_ok [a; b; c; d]) as H' by solve_bytes. specialize (Hb H').
  change (256 ^ Z.of_nat (length [a; b; c; d])) with 4294967296 in Hb. lia.
Qed.

Lemma from_be2_u16 a b : is_u8 a -> is_u8 b -> is_u16 (from_be [a; b]).
Proof.
  intros. pose proof (from_be_bound [a; b]) as Hb. unfold is_u16, u16_max.
  assert (bytes_ok [a; b]) as H' by solve_bytes. specialize (Hb H').
  change (256 ^ Z.of_nat (length [a; b])) with 65536 in Hb. lia.
Qed.
#[export] Hint Resolve from_be4_u32 from_be2_u16 : nomina.

Definition is_u8b (n : Z) : bool := (0 <=? n) && (n <=? 255).
Lemma bytes_okb l : forallb is_u8b l = true -> bytes_ok l.
Proof.
  intros H. apply List.Forall_forall. intros x Hx. rewrite forallb_forall in H. apply H in Hx.
  unfold is_u8b in Hx. breflect. unfold is_u8, u8_max. lia.
Qed.

(** ** Association updates ("find the slot, else push") *)

(** [if let Some(slot) = v.iter_mut().find(p) { *slot = x } else { v.push(x) }]. *)
Fixpoint replace_or_push {A} (p : A -> bool) (x : A) (l : list A) : list A :=
  match l with
  | [] => [x]
  | y :: l' => if p y then x :: l' else y :: replace_or_push p x l'
  end.

Lemma find_replace_or_push_same {A} (p : A -> bool) x l :
  p x = true -> List.find p (replace_or_push p x l) = Some x.
Proof.
  intros Hx. induction l as [|y l IH]; simpl; [by rewrite Hx|].
  destruct (p y) eqn:E; simpl; [by rewrite Hx|by rewrite E].
Qed.

Lemma find_replace_or_push_other {A} (p q : A -> bool) x l :
  q x = false -> (forall y, p y = true -> q y = false) ->
  List.find q (replace_or_push p x l) = List.find q l.
Proof.
  intros Hx Hpq. induction l as [|y l IH]; simpl; [by rewrite Hx|].
  destruct (p y) eqn:E; simpl.
  - by rewrite Hx, (Hpq y E).
  - by rewrite IH.
Qed.

Lemma Forall_replace_or_push {A} (P : A -> Prop) p x l :
  P x -> Forall P l -> Forall P (replace_or_push p x l).
Proof. intros Hx. induction 1; simpl; [auto|]. case_goal; constructor; auto. Qed.

(** ** Lists *)

(** [sort_by_key]: a stable insertion sort on an integer key. *)
Fixpoint insert_by_key {A} (key : A -> Z) (x : A) (l : list A) : list A :=
  match l with
  | [] => [x]
  | y :: l' => if key x <=? key y then x :: l else y :: insert_by_key key x l'
  end.
Fixpoint sort_by_key {A} (key : A -> Z) (l : list A) : list A :=
  match l with
  | [] => []
  | x :: l' => insert_by_key key x (sort_by_key key l')
  end.

Lemma insert_by_key_perm {A} (key : A -> Z) x l : insert_by_key key x l ≡ₚ x :: l.
Proof.
  induction l as [|y l IH]; simpl; [done|]. case_goal; [done|].
  rewrite IH. apply perm_swap.
Qed.

Lemma sort_by_key_perm {A} (key : A -> Z) l : sort_by_key key l ≡ₚ l.
Proof. induction l as [|x l IH]; simpl; [done|]. by rewrite insert_by_key_perm, IH. Qed.

Definition sorted_by {A} (key : A -> Z) (l : list A) : Prop :=
  StronglySorted (fun a b => key a <= key b) l.

Lemma sort_by_key_sorted {A} (key : A -> Z) l : sorted_by key (sort_by_key key l).
Proof.
  induction l as [|x l IH]; simpl; [constructor|]. revert IH.
  generalize (sort_by_key key l). intros m Hm. induction Hm as [|y m Hm IH Hy]; simpl.
  - repeat constructor.
  - case_goal; breflect.
    + constructor; [by constructor|]. constructor; [done|].
      eapply Forall_impl; [exact Hy|]. simpl. lia.
    + constructor; [exact IH|]. rewrite insert_by_key_perm. constructor; [lia|done].
Qed.

(** The first element satisfying [p] of a sorted list has the least key. *)
Lemma find_sorted_least {A} (key : A -> Z) p l x y :
  sorted_by key l -> List.find p l = Some x -> In y l -> p y = true -> key x <= key y.
Proof.
  induction 1 as [|z l Hl IH Hz]; simpl; [done|]. destruct (p z) eqn:E.
  - intros [= ->] [->|Hin] _; [lia|]. rewrite List.Forall_forall in Hz. by apply Hz.
  - intros Hf [->|Hin] Hp; [congruence|]. by apply IH.
Qed.

Lemma find_some_iff {A} (p : A -> bool) l :
  (exists x, List.find p l = Some x) <-> exists x, In x l /\ p x = true.
Proof.
  split.
  - intros [x Hx]. exists x. by apply List.find_some.
  - intros (x & Hin & Hp). destruct (List.find p l) eqn:E; [eauto|].
    by rewrite (List.find_none _ _ E x Hin) in Hp.
Qed.

Lemma find_app {A} (p : A -> bool) l1 l2 :
  List.find p (l1 ++ l2) = match List.find p l1 with Some x => Some x | None => List.find p l2 end.
Proof. induction l1 as [|x l1 IH]; cbn; [done|]. by destruct (p x). Qed.

(** [ORDER BY]: a stable insertion sort on a boolean order. *)
Fixpoint insert_with {A} (le : A -> A -> bool) (x : A) (l : list A) : list A :=
  match l with
  | [] => [x]
  | y :: l' => if le x y then x :: l else y :: insert_with le x l'
  end.
Fixpoint sort_with {A} (le : A -> A -> bool) (l : list A) : list A :=
  match l with
  | [] => []
  | x :: l' => insert_with le x (sort_with le l')
  end.

Lemma sort_with_perm {A} (le : A -> A -> bool) l : sort_with le l ≡ₚ l.
Proof.
  induction l as [|x l IH]; simpl; [done|]. rewrite <- IH at 2. generalize (sort_with le l). clear.
  induction l as [|y l IH]; simpl; [done|]. case_goal; [done|]. rewrite IH. apply perm_swap.
Qed.

Lemma in_sort_with {A} (le : A -> A -> bool) l x : In x (sort_with le l) <-> In x l.
Proof. by rewrite <- !list_elem_of_In, sort_with_perm. Qed.

Lemma sort_with_sorted {A} (le : A -> A -> bool) l :
  (forall a b, le a b = true \/ le b a = true) ->
  (forall a b c, le a b = true -> le b c = true -> le a c = true) ->
  StronglySorted (fun a b => le a b = true) (sort_with le l).
Proof.
  intros Htot Htr. induction l as [|x l IH]; cbn; [constructor|].
  assert (forall z m, In z (insert_with le x m) -> In z (x :: m)) as Hins.
  { intros z m. induction m as [|w m IHm]; cbn; [done|]. destruct (le x w); cbn; [done|].
    intros [?|Hz]; [auto|]. destruct (IHm Hz); auto. }
  induction IH as [|y m Hm IH Hy]; cbn; [repeat constructor|].
  destruct (le x y) eqn:E.
  - constructor; [by constructor|]. constructor; [done|]. eapply Forall_impl; [exact Hy|]. intros z. by apply Htr.
  - constructor; [done|]. rewrite List.Forall_forall in Hy |- *. intros z Hz.
    apply Hins in Hz as [<-|Hz]; [|by apply Hy]. destruct (Htot x y); congruence.
Qed.

(** The first image satisfying [p] comes from the least element with such an image. *)
Lemma find_omap_first {A B} (R : A -> A -> Prop) (f : A -> option B) (p : B -> bool) l y :
  StronglySorted R l -> List.find p (omap f l) = Some y ->
  exists x, In x l /\ f x = Some y /\ p y = true /\
    forall x' y', In x' l -> f x' = Some y' -> p y' = true -> x' = x \/ R x x'.
Proof.
  induction 1 as [|x l Hl IH Hx]; [done|]. cbn. rewrite List.Forall_forall in Hx.
  destruct (f x) as [z|] eqn:E; cbn; [destruct (p z) eqn:Ep|].
  - intros [= ->]. exists x. split_and!; [by left|done|done|]. intros x' y' [->|Hin]; auto.
  - intros Hf. destruct (IH Hf) as (x0 & ? & ? & ? & Hmin). exists x0. split_and!; [by right|done|done|].
    intros x' y' [->|Hin]; [congruence|eauto].
  - intros Hf. destruct (IH Hf) as (x0 & ? & ? & ? & Hmin). exists x0. split_and!; [by right|done|done|].
    intros x' y' [->|Hin]; [congruence|eauto].
Qed.

Lemma existsb_false {A} (p : A -> bool) l : existsb p l = false <-> forall x, In x l -> p x = false.
Proof.
  split.
  - intros H x Hx. destruct (p x) eqn:E; [|done]. assert (existsb p l = true); [|congruence].
    apply existsb_exists. eauto.
  - intros H. destruct (existsb p l) eqn:E; [|done]. apply existsb_exists in E as (x & Hx & Hp).
    by rewrite H in Hp.
Qed.

(** ** Hints *)

#[export] Hint Resolve to_be_bytes_ok length_to_be Forall_replace_or_push : nomina.
#[export] Hint Rewrite length_to_be @length_app @length_cons : nomina.
