(* ===== verification/Strs.v ===== *)
(** * Rust strings

    [String] and [&str] are modelled as Rocq [string]s of UTF-8 bytes, with the
    standard-library operations the program applies to them.  A slice that may
    not fall on a character boundary panics in Rust: such operations return
    [option], with [None] for the panic. *)

From S2P Require Import Prelude.
From Stdlib Require Export Ascii.
From Stdlib Require Import DecimalString.

(** ** Characters *)

Definition code (c : ascii) : Z := Z.of_N (Ascii.N_of_ascii c).
Definition chr (n : Z) : ascii := Ascii.ascii_of_N (Z.to_N n).

Definition in_range (lo hi : Z) (c : ascii) : bool := (lo <=? code c) && (code c <=? hi).
Definition is_upper (c : ascii) : bool := in_range 65 90 c.
Definition is_lower (c : ascii) : bool := in_range 97 122 c.
Definition is_digit (c : ascii) : bool := in_range 48 57 c.
Definition is_ascii_alphanumeric (c : ascii) : bool := is_upper c || is_lower c || is_digit c.

Definition lower (c : ascii) : ascii := if is_upper c then chr (code c + 32) else c.
Definition upper (c : ascii) : ascii := if is_lower c then chr (code c - 32) else c.

Fixpoint str_map (f : ascii -> ascii) (s : string) : string :=
  match s with
  | EmptyString => EmptyString
  | String c s' => String (f c) (str_map f s')
  end.
Fixpoint str_forall (p : ascii -> bool) (s : string) : bool :=
  match s with
  | EmptyString => true
  | String c s' => p c && str_forall p s'
  end.
Fixpoint str_filter (p : ascii -> bool) (s : string) : string :=
  match s with
  | EmptyString => EmptyString
  | String c s' => if p c then String c (str_filter p s') else str_filter p s'
  end.

(** [to_ascii_lowercase], [to_ascii_uppercase], [eq_ignore_ascii_case]. *)
Definition to_ascii_lowercase (s : string) : string := str_map lower s.
Definition to_ascii_uppercase (s : string) : string := str_map upper s.
Definition eq_ignore_ascii_case (a b : string) : bool :=
  bool_decide (to_ascii_lowercase a = to_ascii_lowercase b).

(** [is_empty], [len] (in bytes), [contains(char)], [starts_with], [ends_with]. *)
Definition is_empty (s : string) : bool := match s with EmptyString => true | _ => false end.
Definition len (s : string) : Z := Z.of_nat (String.length s).
Definition contains_char (c : ascii) (s : string) : bool :=
  negb (str_forall (fun d => negb (bool_decide (d = c))) s).

Fixpoint strip_prefix (p s : string) : option string :=
  match p, s with
  | EmptyString, _ => Some s
  | String c p', String d s' => if decide (c = d) then strip_prefix p' s' else None
  | String _ _, EmptyString => None
  end.
Definition starts_with (s p : string) : bool :=
  match strip_prefix p s with Some _ => true | None => false end.

Fixpoint strip_suffix (suf s : string) : option string :=
  if decide (s = suf) then Some EmptyString
  else match s with
       | EmptyString => None
       | String c s' => match strip_suffix suf s' with
                        | Some r => Some (String c r)
                        | None => None
                        end
       end.
Definition ends_with (s suf : string) : bool :=
  match strip_suffix suf s with Some _ => true | None => false end.

(** [trim_end_matches(c)] and [trim_start_matches(c)]. *)
Fixpoint trim_end_matches (c : ascii) (s : string) : string :=
  match s with
  | EmptyString => EmptyString
  | String d s' =>
      let r := trim_end_matches c s' in
      if is_empty r && bool_decide (d = c) then EmptyString else String d r
  end.
Fixpoint trim_start_matches (c : ascii) (s : string) : string :=
  match s with
  | EmptyString => EmptyString
  | String d s' => if decide (d = c) then trim_start_matches c s' else s
  end.
Definition trim_matches (c : ascii) (s : string) : string :=
  trim_end_matches c (trim_start_matches c s).

(** [split(c)]: always at least one piece. *)
Fixpoint split (c : ascii) (s : string) : list string :=
  match s with
  | EmptyString => [EmptyString]
  | String d s' =>
      if decide (d = c) then EmptyString :: split c s'
      else match split c s' with
           | p :: ps => String d p :: ps
           | [] => [String d EmptyString]
           end
  end.

(** [join(sep)]. *)
Fixpoint join (sep : string) (l : list string) : string :=
  match l with
  | [] => EmptyString
  | [s] => s
  | s :: l' => s +:+ sep +:+ join sep l'
  end.

(** [split_once(c)]. *)
Fixpoint split_once (c : ascii) (s : string) : option (string * string) :=
  match s with
  | EmptyString => None
  | String d s' =>
      if decide (d = c) then Some (EmptyString, s')
      else match split_once c s' with
           | Some (a, b) => Some (String d a, b)
           | None => None
           end
  end.

(** [s.replace(c, r)] for a one-byte pattern. *)
Fixpoint replace_char (c : ascii) (r : string) (s : string) : string :=
  match s with
  | EmptyString => EmptyString
  | String d s' => if decide (d = c) then r +:+ replace_char c r s' else String d (replace_char c r s')
  end.

(** ** UTF-8 characters *)

(** The characters of a string, each as the string of its bytes. *)
Fixpoint chars (s : string) : list string :=
  match s with
  | EmptyString => []
  | String a s1 =>
      if code a <? 192 then String a EmptyString :: chars s1
      else match s1 with
           | EmptyString => [String a EmptyString]
           | String b s2 =>
               if code a <? 224 then String a (String b EmptyString) :: chars s2
               else match s2 with
                    | EmptyString => [String a (String b EmptyString)]
                    | String c s3 =>
                        if code a <? 240 then String a (String b (String c EmptyString)) :: chars s3
                        else match s3 with
                             | EmptyString => [String a (String b (String c EmptyString))]
                             | String d s4 =>
                                 String a (String b (String c (String d EmptyString))) :: chars s4
                             end
                    end
           end
  end.

Definition str_of_codes (l : list Z) : string := String.string_of_list_ascii (chr <$> l).

(** The Unicode [White_Space] characters. *)
Definition white_space : list string :=
  ((fun n => str_of_codes [n]) <$> [9; 10; 11; 12; 13; 32]) ++
  (str_of_codes <$>
     [[194; 133]; [194; 160]; [225; 154; 128];
      [226; 128; 128]; [226; 128; 129]; [226; 128; 130]; [226; 128; 131]; [226; 128; 132];
      [226; 128; 133]; [226; 128; 134]; [226; 128; 135]; [226; 128; 136]; [226; 128; 137];
      [226; 128; 138]; [226; 128; 168]; [226; 128; 169]; [226; 128; 175]; [226; 129; 159];
      [227; 128; 128]]).
Definition is_whitespace (c : string) : bool := bool_decide (c ∈ white_space).

Fixpoint drop_while {A} (p : A -> bool) (l : list A) : list A :=
  match l with
  | [] => []
  | x :: l' => if p x then drop_while p l' else l
  end.
Definition concat_str (l : list string) : string := foldr String.append EmptyString l.

(** [trim]. *)
Definition trim (s : string) : string :=
  concat_str (reverse (drop_while is_whitespace (reverse (drop_while is_whitespace (chars s))))).

(** Non-empty pieces between characters satisfying [p]: [split(p).filter(non-empty)],
    and with [is_whitespace] it is [split_whitespace]. *)
Fixpoint tokens_acc (p : string -> bool) (cur : string) (l : list string) : list string :=
  match l with
  | [] => if is_empty cur then [] else [cur]
  | c :: l' =>
      if p c then (if is_empty cur then [] else [cur]) ++ tokens_acc p EmptyString l'
      else tokens_acc p (cur +:+ c) l'
  end.
Definition tokens (p : string -> bool) (s : string) : list string := tokens_acc p EmptyString (chars s).
Definition split_whitespace (s : string) : list string := tokens is_whitespace s.

(** [as_bytes]. *)
Definition as_bytes (s : string) : list Z := code <$> String.list_ascii_of_string s.

(** [std::str::from_utf8]. *)
Definition is_cont (b : Z) : bool := (128 <=? b) && (b <=? 191).
Fixpoint utf8_valid (l : list Z) : bool :=
  match l with
  | [] => true
  | a :: l1 =>
      if a <? 128 then utf8_valid l1
      else match l1 with
           | b :: l2 =>
               if (194 <=? a) && (a <=? 223) then is_cont b && utf8_valid l2
               else match l2 with
                    | c :: l3 =>
                        if (224 <=? a) && (a <=? 239) then
                          is_cont b && is_cont c &&
                          (if a =? 224 then 160 <=? b else true) &&
                          (if a =? 237 then b <=? 159 else true) && utf8_valid l3
                        else match l3 with
                             | d :: l4 =>
                                 (240 <=? a) && (a <=? 244) && is_cont b && is_cont c && is_cont d &&
                                 (if a =? 240 then 144 <=? b else true) &&
                                 (if a =? 244 then b <=? 143 else true) && utf8_valid l4
                             | [] => false
                             end
                    | [] => false
                    end
           | [] => false
           end
  end.
Definition from_utf8 (l : list Z) : option string :=
  if utf8_valid l then Some (str_of_codes l) else None.

(** ** Numbers *)

(** [to_string] of an unsigned integer. *)
Definition show_u (n : Z) : string := NilZero.string_of_uint (N.to_uint (Z.to_N n)).
Definition show_i (n : Z) : string := if n <? 0 then "-" +:+ show_u (- n) else show_u n.

Definition hex_digit (n : Z) : ascii := if n <? 10 then chr (48 + n) else chr (87 + n).
(** [format!("{b:02x}")] of a byte. *)
Definition hex2 (b : Z) : string :=
  String (hex_digit (b / 16)) (String (hex_digit (b mod 16)) EmptyString).

(** The value of a digit in a radix of at most 16. *)
Definition digit_val (radix : Z) (c : ascii) : option Z :=
  let n := code c in
  let v := if (48 <=? n) && (n <=? 57) then n - 48
           else if (97 <=? n) && (n <=? 102) then n - 87
           else if (65 <=? n) && (n <=? 70) then n - 55
           else 99 in
  if v <? radix then Some v else None.

Fixpoint digits_acc (radix max acc : Z) (s : string) : option Z :=
  match s with
  | EmptyString => Some acc
  | String c s' =>
      let! d := digit_val radix c in
      let acc' := acc * radix + d in
      if acc' <=? max then digits_acc radix max acc' s' else None
  end.

(** [from_str_radix] of an unsigned type with greatest value [max]: a leading
    [+] is accepted, an empty string and an overflow are errors. *)
Definition from_str_radix (radix max : Z) (s : string) : option Z :=
  let body := match s with
              | String c s' => if decide (c = "+"%char) then s' else s
              | EmptyString => s
              end in
  if is_empty body then None else digits_acc radix max 0 body.
Definition parse_uint (max : Z) (s : string) : option Z := from_str_radix 10 max s.
(** [str::parse::<i64>]. *)
Definition parse_i64 (s : string) : option Z :=
  match strip_prefix "-" s with
  | Some r => if starts_with r "+" then None else Z.opp <$> parse_uint (i64_max + 1) r
  | None => parse_uint i64_max s
  end.

(** ** Lemmas *)

Lemma append_nil_l s : "" +:+ s = s.
Proof. done. Qed.

Lemma append_cons c a b : String c a +:+ b = String c (a +:+ b).
Proof. done. Qed.

Lemma append_nil_r s : s +:+ "" = s.
Proof. induction s as [|c s IH]; [done|]. by rewrite append_cons, IH. Qed.

Lemma append_assoc a b c : (a +:+ b) +:+ c = a +:+ (b +:+ c).
Proof. induction a as [|x a IH]; [done|]. by rewrite !append_cons, IH. Qed.

Lemma length_append a b : String.length (a +:+ b) = (String.length a + String.length b)%nat.
Proof. induction a as [|x a IH]; [done|]. rewrite append_cons. cbn [String.length]. by rewrite IH. Qed.

Lemma append_inj_l a b c : a +:+ b = a +:+ c -> b = c.
Proof. induction a as [|x a IH]; [done|]. rewrite !append_cons. intros [=]. auto. Qed.

Lemma append_inj_r a b c : a +:+ c = b +:+ c -> a = b.
Proof.
  revert b. induction a as [|x a IH]; intros b H.
  - destruct b as [|y b]; [done|]. apply (f_equal String.length) in H.
    rewrite !length_append in H. cbn [String.length] in H. lia.
  - destruct b as [|y b].
    + apply (f_equal String.length) in H. rewrite !length_append in H. cbn [String.length] in H. lia.
    + rewrite !append_cons in H. injection H as -> H. f_equal. by apply IH.
Qed.

Lemma strip_suffix_spec suf s r : strip_suffix suf s = Some r <-> s = r +:+ suf.
Proof.
  revert r. induction s as [|c s IH]; intros r; cbn [strip_suffix].
  - destruct (decide _) as [<-|Hne].
    + split; [by intros [= <-]|]. by destruct r.
    + split; [done|]. destruct r; [|done]. rewrite append_nil_l. congruence.
  - destruct (decide _) as [<-|Hne].
    + split; [by intros [= <-]|]. intros H. destruct r as [|d r]; [done|].
      apply (f_equal String.length) in H. rewrite length_append in H. cbn [String.length] in H. lia.
    + split.
      * destruct (strip_suffix suf s) as [q|] eqn:E; [|done]. intros [= <-].
        rewrite append_cons. f_equal. by apply IH.
      * destruct r as [|d r]; [rewrite append_nil_l; congruence|]. rewrite append_cons. intros [= -> Hs].
        apply IH in Hs. by rewrite Hs.
Qed.

(** [ends_with] is the existence of a front part. *)
Lemma ends_with_spec s suf : ends_with s suf = true <-> exists r, s = r +:+ suf.
Proof.
  unfold ends_with. destruct (strip_suffix suf s) as [q|] eqn:E.
  - split; [|done]. intros _. exists q. by apply strip_suffix_spec.
  - split; [done|]. intros [r Hr]. apply strip_suffix_spec in Hr. congruence.
Qed.

Lemma strip_prefix_spec p s r : strip_prefix p s = Some r <-> s = p +:+ r.
Proof.
  revert s. induction p as [|c p IH]; intros s; cbn [strip_prefix].
  - rewrite append_nil_l. split; [by intros [= ->]|by intros ->].
  - destruct s as [|d s]; [split; [done|by rewrite append_cons]|].
    destruct (decide _) as [->|Hne].
    + rewrite IH, append_cons. split; [by intros ->|by intros [= ->]].
    + split; [done|]. rewrite append_cons. congruence.
Qed.

Lemma code_range c : 0 <= code c < 256.
Proof. unfold code. pose proof (N_ascii_bounded c). lia. Qed.

Lemma code_chr n : 0 <= n < 256 -> code (chr n) = n.
Proof. intros H. unfold code, chr. rewrite N_ascii_embedding; lia. Qed.

Lemma chr_code c : chr (code c) = c.
Proof. unfold code, chr. rewrite N2Z.id. apply ascii_N_embedding. Qed.

Lemma lower_lower c : lower (lower c) = lower c.
Proof.
  unfold lower at 2 3. destruct (is_upper c) eqn:E; [|unfold lower; by rewrite E].
  unfold lower, is_upper, in_range in *. breflect. rewrite code_chr by lia.
  destruct (_ && _) eqn:E'; [breflect; lia|done].
Qed.

Lemma str_map_append f a b : str_map f (a +:+ b) = str_map f a +:+ str_map f b.
Proof. induction a as [|x a IH]; [done|]. rewrite !append_cons. cbn [str_map]. by rewrite append_cons, IH. Qed.

Lemma lowercase_append a b :
  to_ascii_lowercase (a +:+ b) = to_ascii_lowercase a +:+ to_ascii_lowercase b.
Proof. apply str_map_append. Qed.

Lemma lowercase_idem s : to_ascii_lowercase (to_ascii_lowercase s) = to_ascii_lowercase s.
Proof.
  unfold to_ascii_lowercase. induction s as [|c s IH]; [done|]. cbn. by rewrite lower_lower, IH.
Qed.

Lemma eq_ignore_case_spec a b :
  eq_ignore_ascii_case a b = true <-> to_ascii_lowercase a = to_ascii_lowercase b.
Proof. unfold eq_ignore_ascii_case. apply bool_decide_eq_true. Qed.

Lemma eq_ignore_case_refl a : eq_ignore_ascii_case a a = true.
Proof. by apply eq_ignore_case_spec. Qed.

Lemma eq_ignore_case_sym a b : eq_ignore_ascii_case a b = eq_ignore_ascii_case b a.
Proof. unfold eq_ignore_ascii_case. apply bool_decide_ext. naive_solver. Qed.

Lemma eq_ignore_case_lower_l a b :
  eq_ignore_ascii_case (to_ascii_lowercase a) b = eq_ignore_ascii_case a b.
Proof. unfold eq_ignore_ascii_case. by rewrite lowercase_idem. Qed.

Lemma eq_ignore_case_trans a b c :
  eq_ignore_ascii_case a b = true -> eq_ignore_ascii_case b c = true ->
  eq_ignore_ascii_case a c = true.
Proof. rewrite !eq_ignore_case_spec. congruence. Qed.

Lemma concat_chars s : concat_str (chars s) = s.
Proof.
  assert (forall n s, (String.length s <= n)%nat -> concat_str (chars s) = s) as H; [|by eapply H].
  clear s. induction n as [|n IH]; intros s Hs.
  - destruct s; [done|cbn in Hs; lia].
  - destruct s as [|a s]; [done|]. cbn in Hs. cbn [chars].
    repeat case_goal; subst; cbn [concat_str foldr]; cbn in Hs; rewrite ?append_cons; cbn;
      repeat f_equal; try apply IH; lia.
Qed.

(** A string with no white space at either end is its own [trim]. *)
Lemma trim_id s :
  drop_while is_whitespace (chars s) = chars s ->
  drop_while is_whitespace (reverse (chars s)) = reverse (chars s) ->
  trim s = s.
Proof. unfold trim. intros -> ->. rewrite reverse_involutive. apply concat_chars. Qed.

(** ** Visible ASCII text: tokens, cookies *)

(** The ASCII characters that are no white space and no control character. *)
Definition is_graphic (c : ascii) : bool := in_range 33 126 c.

Lemma str_forall_append p a b : str_forall p (a +:+ b) = str_forall p a && str_forall p b.
Proof. induction a as [|c a IH]; [done|]. rewrite append_cons. cbn. by rewrite IH, andb_assoc. Qed.

Lemma str_forall_weaken (p q : ascii -> bool) s :
  (forall c, p c = true -> q c = true) -> str_forall p s = true -> str_forall q s = true.
Proof. intros H. induction s as [|c s IH]; [done|]. cbn. rewrite !andb_true_iff. intros [? ?]; auto. Qed.

Definition graphic_space_ok (n : Z) : bool :=
  negb (is_graphic (chr n)) || ((code (chr n) <? 192) && negb (is_whitespace (String (chr n) EmptyString))).
Lemma graphic_space_all : forallb graphic_space_ok (seqZ 0 256) = true.
Proof. vm_refl. Qed.
Lemma graphic_no_space c :
  is_graphic c = true -> code c <? 192 = true /\ is_whitespace (String c EmptyString) = false.
Proof.
  intros H. pose proof graphic_space_all as Ha. rewrite forallb_forall in Ha.
  specialize (Ha (code c)). unfold graphic_space_ok in Ha. rewrite chr_code, H in Ha. cbn [negb orb] in Ha.
  rewrite andb_true_iff, negb_true_iff in Ha. apply Ha. apply list_elem_of_In, elem_of_seqZ.
  pose proof (code_range c). lia.
Qed.

Lemma chars_graphic s :
  str_forall is_graphic s = true ->
  chars s = (fun c => String c EmptyString) <$> String.list_ascii_of_string s /\
  Forall (fun c => is_whitespace c = false) (chars s).
Proof.
  induction s as [|c s IH]; [done|]. cbn [str_forall]. rewrite andb_true_iff. intros [Hc Hs].
  destruct (graphic_no_space c Hc) as [H1 H2]. destruct (IH Hs) as [IH1 IH2].
  cbn [chars String.list_ascii_of_string]. rewrite H1. split; [by rewrite IH1|by constructor].
Qed.

Lemma drop_while_none {A} (p : A -> bool) l : Forall (fun x => p x = false) l -> drop_while p l = l.
Proof. destruct 1 as [|x l Hx Hl]; [done|]. cbn. by rewrite Hx. Qed.

Lemma trim_graphic s : str_forall is_graphic s = true -> trim s = s.
Proof.
  intros Hs. destruct (chars_graphic s Hs) as [_ Hw]. apply trim_id; apply drop_while_none; [done|].
  by rewrite reverse_Permutation.
Qed.

Lemma trim_space_graphic s : str_forall is_graphic s = true -> trim (String " " s) = s.
Proof.
  intros Hs. destruct (chars_graphic s Hs) as [_ Hw]. unfold trim.
  assert (chars (String " " s) = " " :: chars s) as -> by done. cbn [drop_while].
  assert (is_whitespace " " = true) as -> by done. rewrite (drop_while_none _ _ Hw), drop_while_none.
  - rewrite reverse_involutive. apply concat_chars.
  - by rewrite reverse_Permutation.
Qed.

(** A separator that does not occur in the first piece. *)
Lemma split_append c a b :
  str_forall (fun d => negb (bool_decide (d = c))) a = true -> split c (a +:+ String c b) = a :: split c b.
Proof.
  induction a as [|d a IH]; [intros _; change (EmptyString +:+ String c b) with (String c b); cbn [split]; by destruct (decide (c = c))|].
  rewrite append_cons. cbn [str_forall split].
  rewrite andb_true_iff, negb_true_iff, bool_decide_eq_false. intros [Hd Ha].
  rewrite decide_False by done. by rewrite IH.
Qed.
Lemma split_none c a : str_forall (fun d => negb (bool_decide (d = c))) a = true -> split c a = [a].
Proof.
  induction a as [|d a IH]; [done|]. cbn [str_forall split].
  rewrite andb_true_iff, negb_true_iff, bool_decide_eq_false. intros [Hd Ha].
  rewrite decide_False by done. by rewrite IH.
Qed.
Lemma split_once_append c a b :
  str_forall (fun d => negb (bool_decide (d = c))) a = true -> split_once c (a +:+ String c b) = Some (a, b).
Proof.
  induction a as [|d a IH]; [intros _; change (EmptyString +:+ String c b) with (String c b); cbn [split_once]; by destruct (decide (c = c))|].
  rewrite append_cons. cbn [str_forall split_once].
  rewrite andb_true_iff, negb_true_iff, bool_decide_eq_false. intros [Hd Ha].
  rewrite decide_False by done. by rewrite IH.
Qed.

#[export] Hint Rewrite append_nil_r append_assoc length_append lowercase_append lowercase_idem : nomina.
#[export] Hint Resolve eq_ignore_case_refl : nomina.
