(* ===== verification/Float.v ===== *)
(** * Rust's [f64]

    The program computes rates, percentages and coordinates in binary64.  A
    number is one of the Standard Library's [SpecFloat], with the arithmetic and
    the rounding of IEEE 754; casts, [round] and [Display] are written out from
    the Rust standard library. *)

From S2P Require Import Prelude Strs.
From Stdlib Require Import SpecFloat.

Definition f64 : Type := spec_float.
#[export] Instance f64_eq_dec : EqDecision f64.
Proof. unfold EqDecision, Decision, f64. repeat decide equality. Defined.

(** [n as f64], to the nearest. *)
Definition f64_of_Z (n : Z) : f64 := binary_normalize 53 1024 n 0 false.
Definition f64_mul : f64 -> f64 -> f64 := SFmul 53 1024.
Definition f64_div : f64 -> f64 -> f64 := SFdiv 53 1024.

(** The decimal literal [n / 10^k], for numbers below 2^53. *)
Definition f64_literal (n k : Z) : f64 := f64_div (f64_of_Z n) (f64_of_Z (10 ^ k)).

(** [f64::round]: to the nearest integer, halves away from zero. *)
Definition f64_round (x : f64) : f64 :=
  match x with
  | S754_finite s m e =>
      if 0 <=? e then x
      else
        let d := 2 ^ (- e) in
        let q := Z.pos m / d + (if d <=? 2 * (Z.pos m mod d) then 1 else 0) in
        if q =? 0 then S754_zero s else binary_normalize 53 1024 (cond_Zopp s q) 0 s
  | _ => x
  end.

(** [f64::is_finite]. *)
Definition is_finite (x : f64) : bool :=
  match x with S754_nan | S754_infinity _ => false | _ => true end.

(** [x as i64]: towards zero, saturating; NaN is 0. *)
Definition f64_to_i64 (x : f64) : Z :=
  let clamp n := Z.max (- 2 ^ 63) (Z.min n (2 ^ 63 - 1)) in
  match x with
  | S754_finite s m e => clamp (cond_Zopp s (if 0 <=? e then Z.pos m * 2 ^ e else Z.pos m / 2 ^ (- e)))
  | S754_infinity s => clamp (cond_Zopp s (2 ^ 64))
  | _ => 0
  end.

(** ** Display

    The shortest digits that read back as the same number ([flt2dec]'s Dragon
    algorithm).  The number is [mant / scale], the numbers that round to it lie
    less than [minus / scale] below and [plus / scale] above, or as far if
    [inclusive]. *)

(** [10^k] times a fraction's denominator, or its numerator. *)
Definition scaled (k n : Z) : Z := if 0 <=? k then n * 10 ^ k else n.

(** [a < b], or [a <= b] if the ends belong to the interval. *)
Definition within (inclusive : bool) (a b : Z) : bool := if inclusive then a <=? b else a <? b.

(** The digits, and whether the last is to be rounded up.  Seventeen digits always
    suffice. *)
Fixpoint shortest_digits (fuel : nat) (inclusive : bool) (mant minus plus scale : Z) : list Z * bool :=
  match fuel with
  | O => ([], false)
  | S fuel' =>
      let d := mant / scale in
      let mant := mant mod scale in
      let down := within inclusive mant minus in
      let up := within inclusive scale (mant + plus) in
      if down || up then ([d], up && (negb down || (scale <=? 2 * mant)))
      else let '(l, r) := shortest_digits fuel' inclusive (10 * mant) (10 * minus) (10 * plus) scale in (d :: l, r)
  end.

(** Rounding the last digit up; the flag says that all digits were nines. *)
Fixpoint round_up (l : list Z) : list Z * bool :=
  match l with
  | [] => ([], true)
  | d :: l' =>
      let '(l', carry) := round_up l' in
      if carry then (if d =? 9 then (0 :: l', true) else (d + 1 :: l', false)) else (d :: l', false)
  end.
(** A carry into a new first digit drops the last one, which is zero. *)
Definition rounded (l : list Z) (k : Z) : list Z * Z :=
  match round_up l with
  | (l', true) => (1 :: take (length l - 1) l', k + 1)
  | (l', false) => (l', k)
  end.

(** The least [k], from a start, with the upper end below [10^k]. *)
Fixpoint scale_exponent (fuel : nat) (inclusive : bool) (high one k : Z) : Z :=
  match fuel with
  | O => k
  | S fuel' => if within inclusive (scaled k one) (scaled (- k) high)
               then scale_exponent fuel' inclusive high one (k + 1) else k
  end.

(** Digits and decimal exponent: [0.d1d2... * 10^k]. *)
Definition shortest (m e : Z) : list Z * Z :=
  let inclusive := Z.even m in
  (** the numbers below a power of two are twice as close *)
  let tight := (m =? 2 ^ 52) && (-1074 <? e) in
  let unit := if tight then 4 else 2 in
  let minus := 1 in
  let plus := if tight then 2 else 1 in
  let num n := if 0 <=? e then n * 2 ^ e else n in
  let one := unit * (if 0 <=? e then 1 else 2 ^ (- e)) in
  let start := (Z.log2 m + e) * 30103 / 100000 - 1 in
  let k := scale_exponent 5 inclusive (num (unit * m + plus)) one start in
  let frac n := scaled (- k) (num n) in
  let '(l, up) := shortest_digits 20 inclusive (10 * frac (unit * m)) (10 * frac minus) (10 * frac plus)
                    (scaled k one) in
  if up then rounded l k else (l, k).

Definition digits_str (l : list Z) : string := concat_str (show_u <$> l).
Definition zeros (n : Z) : string := digits_str (replicate (Z.to_nat n) 0).

(** [digits_to_dec_str]. *)
Definition dec_str (l : list Z) (k : Z) : string :=
  let n := Z.of_nat (length l) in
  if k <=? 0 then "0." +:+ zeros (- k) +:+ digits_str l
  else if k <? n then digits_str (take (Z.to_nat k) l) +:+ "." +:+ digits_str (drop (Z.to_nat k) l)
  else digits_str l +:+ zeros (k - n).

(** [Display]. *)
Definition f64_show (x : f64) : string :=
  match x with
  | S754_nan => "NaN"
  | S754_infinity s => (if s then "-" else "") +:+ "inf"
  | S754_zero s => (if s then "-" else "") +:+ "0"
  | S754_finite s m e => let '(l, k) := shortest (Z.pos m) e in (if s then "-" else "") +:+ dec_str l k
  end.

(** [(x * 10^k).round() / 10^k]. *)
Definition f64_round_to (k : Z) (x : f64) : f64 :=
  f64_div (f64_round (f64_mul x (f64_of_Z (10 ^ k)))) (f64_of_Z (10 ^ k)).

(** ** Samples *)

Example show_samples :
  f64_show <$> [f64_of_Z 0; f64_of_Z 86400; f64_literal 17 2; f64_literal 15 1; f64_of_Z (2 ^ 60);
                f64_div (f64_of_Z 1) (f64_of_Z 3); f64_literal 1 1; f64_of_Z (-3); f64_literal 525200 4;
                f64_div (f64_of_Z 1) (f64_of_Z (2 ^ 20)); f64_of_Z (10 ^ 23); f64_literal 9999999 7;
                f64_div (f64_of_Z 1) (f64_of_Z 0)] =
  ["0"; "86400"; "0.17"; "1.5"; "1152921504606847000"; "0.3333333333333333"; "0.1"; "-3"; "52.52";
   "0.00000095367431640625"; "100000000000000000000000"; "0.9999999"; "inf"].
Proof. vm_compute. reflexivity. Qed.

Example round_samples :
  f64_show ∘ f64_round <$> [f64_literal 25 1; f64_literal (-25) 1; f64_literal 49 2; f64_literal 1004999 3] =
    ["3"; "-3"; "0"; "1005"] /\
  f64_to_i64 <$> [f64_literal (-27) 1; f64_of_Z (2 ^ 70); S754_nan] = [-2; 2 ^ 63 - 1; 0] /\
  f64_show <$> (f64_round_to 2 <$> [f64_div (f64_of_Z 7) (f64_of_Z 60); f64_div (f64_of_Z 37) (f64_of_Z 10)]) = ["0.12"; "3.7"].
Proof. vm_compute. done. Qed.
