(* ===== verification/Net.v ===== *)
(** * IP addresses ([std::net])

    [Ipv4Addr] and [Ipv6Addr] are their 32-bit and 128-bit values.  The text
    parser follows the standard library's recursive-descent parser: a failed
    read leaves the input where it was, so a reader is a function from the
    remaining text to an optional value and rest. *)

From S2P Require Import Prelude Strs.

Inductive IpAddr : Type :=
| V4 (a : Z)
| V6 (a : Z).

#[export] Instance IpAddr_eq_dec : EqDecision IpAddr.
Proof. solve_decision. Defined.
#[export] Program Instance IpAddr_countable : Countable IpAddr :=
  inj_countable' (fun ip => match ip with V4 a => inl a | V6 a => inr a end)
                 (fun s => match s with inl a => V4 a | inr a => V6 a end) _.
Next Obligation. by intros []. Qed.

Definition ip_ok (ip : IpAddr) : Prop :=
  match ip with V4 a => is_u32 a | V6 a => is_u128 a end.
Definition is_ipv4 (ip : IpAddr) : bool := match ip with V4 _ => true | V6 _ => false end.
Definition is_ipv6 (ip : IpAddr) : bool := negb (is_ipv4 ip).

(** ** Bytes *)

Definition UNSPECIFIED : Z := 0.
Definition Ipv4Addr_new (a b c d : Z) : Z := from_be [a; b; c; d].
Definition octets4 (a : Z) : list Z := to_be 4 a.
Definition octets6 (a : Z) : list Z := to_be 16 a.
Definition segments (a : Z) : list Z := (fun i => (a / 65536 ^ i) mod 65536) <$> [7; 6; 5; 4; 3; 2; 1; 0].
Definition from_segments (l : list Z) : Z := fold_left (fun acc s => acc * 65536 + s) l 0.

(** ** Display *)

Definition show_v4 (a : Z) : string := join "." (show_u <$> octets4 a).

(** [format!("{:x}")] of a 16-bit segment. *)
Definition hex16 (n : Z) : string :=
  let ds := [n / 4096; (n / 256) mod 16; (n / 16) mod 16; n mod 16] in
  let sig := match drop_while (fun d => d =? 0) ds with [] => [0] | l => l end in
  String.string_of_list_ascii (hex_digit <$> sig).

(** The longest run of zero segments: (start, length), the first one on a tie. *)
Fixpoint zero_span (i : nat) (cur longest : nat * nat) (l : list Z) : nat * nat :=
  match l with
  | [] => longest
  | s :: l' =>
      if s =? 0 then
        let cur' := if (snd cur =? 0)%nat then (i, 1%nat) else (fst cur, S (snd cur)) in
        zero_span (S i) cur' (if (snd longest <? snd cur')%nat then cur' else longest) l'
      else zero_span (S i) (0%nat, 0%nat) longest l'
  end.

Definition show_v6 (a : Z) : string :=
  let segs := segments a in
  if a / 4294967296 =? 65535 then "::ffff:" +:+ show_v4 (a mod 4294967296)
  else
    let '(start, n) := zero_span 0 (0%nat, 0%nat) (0%nat, 0%nat) segs in
    if (1 <? n)%nat then
      join ":" (hex16 <$> take start segs) +:+ "::" +:+ join ":" (hex16 <$> drop (start + n) segs)
    else join ":" (hex16 <$> segs).

Definition show_ip (ip : IpAddr) : string :=
  match ip with V4 a => show_v4 a | V6 a => show_v6 a end.

(** ** Parsing *)

Definition reader (A : Type) := string -> option (A * string).

(** The leading digits in a radix, and what follows. *)
Fixpoint take_digits (radix : Z) (s : string) : list Z * string :=
  match s with
  | EmptyString => ([], s)
  | String c s' =>
      match digit_val radix c with
      | Some d => let '(ds, r) := take_digits radix s' in (d :: ds, r)
      | None => ([], s)
      end
  end.
Definition digits_value (radix : Z) (ds : list Z) : Z := fold_left (fun acc d => acc * radix + d) ds 0.

Definition read_number (radix : Z) (max_digits : nat) (allow_zero_prefix : bool) (max : Z) : reader Z :=
  fun s =>
    let '(ds, r) := take_digits radix s in
    let has_leading_zero := match s with String c _ => bool_decide (c = "0"%char) | _ => false end in
    if (max_digits <? length ds)%nat then None
    else if (length ds =? 0)%nat then None
    else if negb allow_zero_prefix && has_leading_zero && (1 <? length ds)%nat then None
    else let v := digits_value radix ds in
         if v <=? max then Some (v, r) else None.

Definition read_given_char (c : ascii) : reader unit :=
  fun s => match s with
           | String d r => if decide (d = c) then Some (tt, r) else None
           | EmptyString => None
           end.

(** A separator is expected before every item but the first. *)
Definition read_separator {A} (sep : ascii) (index : nat) (inner : reader A) : reader A :=
  fun s =>
    match index with
    | O => inner s
    | _ => match read_given_char sep s with
           | Some (_, r) => inner r
           | None => None
           end
    end.

Definition read_octet : reader Z := read_number 10 3 false 255.
Definition read_ipv4_addr : reader Z := fun s =>
  match read_separator "."%char 0 read_octet s with
  | None => None
  | Some (a, s1) =>
    match read_separator "."%char 1 read_octet s1 with
    | None => None
    | Some (b, s2) =>
      match read_separator "."%char 2 read_octet s2 with
      | None => None
      | Some (c, s3) =>
        match read_separator "."%char 3 read_octet s3 with
        | None => None
        | Some (d, s4) => Some (Ipv4Addr_new a b c d, s4)
        end
      end
    end
  end.

(** At most [k] more groups, the next one being number [i]: the groups read,
    whether the last two came from an embedded IPv4 address, and the rest. *)
Fixpoint read_groups (k i : nat) (s : string) : list Z * bool * string :=
  match k with
  | O => ([], false, s)
  | S k' =>
      let v4 := match k' with O => None | _ => read_separator ":"%char i read_ipv4_addr s end in
      match v4 with
      | Some (a, r) => ([a / 65536; a mod 65536], true, r)
      | None =>
          match read_separator ":"%char i (read_number 16 4 true 65535) s with
          | Some (g, r) => let '(gs, v, r') := read_groups k' (S i) r in (g :: gs, v, r')
          | None => ([], false, s)
          end
      end
  end.

Definition read_ipv6_addr : reader Z := fun s =>
  let '(head, head_ipv4, r) := read_groups 8 0 s in
  if (length head =? 8)%nat then Some (from_segments head, r)
  else if head_ipv4 then None
  else
    match read_given_char ":"%char r with
    | None => None
    | Some (_, r1) =>
      match read_given_char ":"%char r1 with
      | None => None
      | Some (_, r2) =>
          let '(tail, _, r3) := read_groups (8 - (length head + 1)) 0 r2 in
          let zeros := replicate (8 - length head - length tail) 0 in
          Some (from_segments (head ++ zeros ++ tail), r3)
      end
    end.

(** The whole text must be consumed. *)
Definition parse_with {A} (rd : reader A) (s : string) : option A :=
  match rd s with
  | Some (a, EmptyString) => Some a
  | _ => None
  end.

(** [str::parse::<Ipv4Addr>], [::<Ipv6Addr>], [::<IpAddr>]. *)
Definition parse_v4 (s : string) : option Z :=
  if (15 <? String.length s)%nat then None else parse_with read_ipv4_addr s.
Definition parse_v6 (s : string) : option Z := parse_with read_ipv6_addr s.
Definition parse_ip (s : string) : option IpAddr :=
  parse_with (fun s => match read_ipv4_addr s with
                       | Some (a, r) => Some (V4 a, r)
                       | None => match read_ipv6_addr s with
                                 | Some (a, r) => Some (V6 a, r)
                                 | None => None
                                 end
                       end) s.

(** ** Address classes *)

Definition oct4 (a : Z) (i : nat) : Z := byte_at (octets4 a) i.
Definition oct6 (a : Z) (i : nat) : Z := byte_at (octets6 a) i.
Definition seg (a : Z) (i : nat) : Z := nth i (segments a) 0.

Definition v4_is_private (a : Z) : bool :=
  (oct4 a 0 =? 10) || ((oct4 a 0 =? 172) && (16 <=? oct4 a 1) && (oct4 a 1 <=? 31))
  || ((oct4 a 0 =? 192) && (oct4 a 1 =? 168)).
Definition v4_is_loopback (a : Z) : bool := oct4 a 0 =? 127.
Definition v4_is_link_local (a : Z) : bool := (oct4 a 0 =? 169) && (oct4 a 1 =? 254).
Definition v4_is_broadcast (a : Z) : bool := a =? 4294967295.
Definition v4_is_documentation (a : Z) : bool :=
  ((oct4 a 0 =? 192) && (oct4 a 1 =? 0) && (oct4 a 2 =? 2))
  || ((oct4 a 0 =? 198) && (oct4 a 1 =? 51) && (oct4 a 2 =? 100))
  || ((oct4 a 0 =? 203) && (oct4 a 1 =? 0) && (oct4 a 2 =? 113)).
Definition v4_is_multicast (a : Z) : bool := (224 <=? oct4 a 0) && (oct4 a 0 <=? 239).
Definition v6_is_loopback (a : Z) : bool := a =? 1.
Definition v6_is_multicast (a : Z) : bool := Z.land (seg a 0) 65280 =? 65280.

(** ** Lemmas *)

Lemma octets4_eq a : octets4 a =
  [(a / 16777216) mod 256; (a / 65536) mod 256; (a / 256) mod 256; a mod 256].
Proof. unfold octets4. cbn [to_be]. by rewrite Z.div_1_r. Qed.

Lemma Ipv4Addr_new_octets a : is_u32 a ->
  Ipv4Addr_new ((a / 16777216) mod 256) ((a / 65536) mod 256) ((a / 256) mod 256) (a mod 256) = a.
Proof.
  intros H. unfold Ipv4Addr_new. rewrite <- octets4_eq. unfold octets4. rewrite from_to_be.
  unfold is_u32, u32_max in H. rewrite Z.mod_small; [done|]. cbn. lia.
Qed.

Lemma Ipv4Addr_new_u32 a b c d :
  is_u8 a -> is_u8 b -> is_u8 c -> is_u8 d -> is_u32 (Ipv4Addr_new a b c d).
Proof.
  intros. unfold Ipv4Addr_new, is_u32, u32_max.
  assert (bytes_ok [a; b; c; d]) as Hb by solve_bytes.
  pose proof (from_be_bound _ Hb) as Hbd. cbn [length Z.of_nat Pos.of_succ_nat Pos.succ] in Hbd. lia.
Qed.

Lemma octets4_new a b c d :
  is_u8 a -> is_u8 b -> is_u8 c -> is_u8 d -> octets4 (Ipv4Addr_new a b c d) = [a; b; c; d].
Proof.
  intros. unfold octets4, Ipv4Addr_new. apply (to_from_be [a; b; c; d]). solve_bytes.
Qed.

Definition no_digit_head (radix : Z) (s : string) : bool :=
  match s with
  | EmptyString => true
  | String c _ => match digit_val radix c with Some _ => false | None => true end
  end.

Lemma take_digits_append radix a b :
  snd (take_digits radix a) = "" -> no_digit_head radix b = true ->
  take_digits radix (a +:+ b) = (fst (take_digits radix a), b).
Proof.
  intros Ha Hb. induction a as [|c a IH].
  - rewrite append_nil_l. cbn. destruct b as [|c b]; [done|]. cbn in *. by destruct (digit_val radix c).
  - rewrite append_cons. cbn [take_digits] in *. destruct (digit_val radix c) as [d|]; [|done].
    destruct (take_digits radix a) as [ds r] eqn:E. cbn in Ha, IH. subst r. by rewrite IH.
Qed.

(** What [to_string] writes for an octet, checked for all 256 of them. *)
Definition octet_text_ok (o : Z) : bool :=
  let s := show_u o in
  let '(ds, r) := take_digits 10 s in
  is_empty r && (length ds <=? 3)%nat && negb (length ds =? 0)%nat &&
  (negb (match s with String c _ => bool_decide (c = "0"%char) | _ => false end) || (length ds <=? 1)%nat)
  && (digits_value 10 ds =? o) && (String.length s <=? 3)%nat.
Lemma octet_text_ok_all : forallb octet_text_ok (seqZ 0 256) = true.
Proof. vm_compute. reflexivity. Qed.

Lemma octet_text o : is_u8 o -> octet_text_ok o = true.
Proof.
  intros Ho. pose proof octet_text_ok_all as H. rewrite forallb_forall in H. apply H.
  apply list_elem_of_In, elem_of_seqZ. unfold is_u8, u8_max in Ho. lia.
Qed.

Lemma read_octet_show o rest :
  is_u8 o -> no_digit_head 10 rest = true -> read_octet (show_u o +:+ rest) = Some (o, rest).
Proof.
  intros Ho Hr. pose proof (octet_text o Ho) as H. unfold octet_text_ok in H.
  destruct (take_digits 10 (show_u o)) as [ds r] eqn:E. breflect.
  destruct r; [|done]. unfold read_octet, read_number.
  rewrite take_digits_append by (by rewrite ?E). rewrite E. cbn [fst].
  destruct (show_u o) as [|c s'] eqn:Es; [cbn in E; injection E as <-; by cbn in *|].
  rewrite append_cons.
  repeat match goal with
  | H : (_ <=? _)%nat = true |- _ => apply Nat.leb_le in H
  | H : (_ =? _)%nat = false |- _ => apply Nat.eqb_neq in H
  end.
  destruct (Nat.ltb_spec 3 (length ds)); [lia|].
  destruct (Nat.eqb_spec (length ds) 0); [lia|].
  assert (negb false && bool_decide (c = "0"%char) && (1 <? length ds)%nat = false) as ->.
  { destruct (bool_decide (c = "0"%char)); cbn [negb andb orb] in *; [|done]. apply Nat.ltb_ge.
    match goal with H : (_ <=? 1)%nat = true |- _ => by apply Nat.leb_le in H end. }
  match goal with H : digits_value _ _ = o |- _ => rewrite H end.
  unfold is_u8, u8_max in Ho. destruct (Z.leb_spec o 255); [done|lia].
Qed.

Lemma mod_u8 n : is_u8 (n mod 256).
Proof. unfold is_u8, u8_max. pose proof (Z.mod_pos_bound n 256). lia. Qed.
#[export] Hint Resolve mod_u8 : nomina.

Lemma read_dot {A} (k : reader A) s :
  match read_given_char "." (String "." s) with Some (_, r) => k r | None => None end = k s.
Proof. done. Qed.

(** Reading the dotted quad of an address gives the address back. *)
Lemma read_ipv4_show a rest :
  is_u32 a -> no_digit_head 10 rest = true -> read_ipv4_addr (show_v4 a +:+ rest) = Some (a, rest).
Proof.
  intros Ha Hr. unfold show_v4. rewrite octets4_eq. cbn [fmap list_fmap join].
  rewrite !append_assoc, !append_cons, !append_nil_l. unfold read_ipv4_addr. cbn [read_separator].
  rewrite read_octet_show by auto with nomina.
  rewrite read_dot, read_octet_show by auto with nomina.
  rewrite read_dot, read_octet_show by auto with nomina.
  rewrite read_dot, read_octet_show by auto with nomina.
  by rewrite Ipv4Addr_new_octets.
Qed.

Lemma show_v4_length a : (String.length (show_v4 a) <= 15)%nat.
Proof.
  unfold show_v4. rewrite octets4_eq. cbn [fmap list_fmap join]. rewrite !length_append. cbn [String.length].
  assert (forall n, (String.length (show_u (n mod 256)) <= 3)%nat) as H.
  { intros n. pose proof (octet_text (n mod 256) (mod_u8 n)) as H. unfold octet_text_ok in H.
    destruct (take_digits 10 _) as [ds r]. apply andb_true_iff in H as [_ H]. by apply Nat.leb_le. }
  pose proof (H (a / 16777216)). pose proof (H (a / 65536)). pose proof (H (a / 256)). pose proof (H a). lia.
Qed.

(** [Ipv4Addr] text round trip. *)
Lemma parse_v4_show a : is_u32 a -> parse_v4 (show_v4 a) = Some a.
Proof.
  intros Ha. unfold parse_v4, parse_with. pose proof (show_v4_length a).
  destruct (Nat.ltb_spec 15 (String.length (show_v4 a))); [lia|].
  rewrite <- (append_nil_r (show_v4 a)) at 1. by rewrite read_ipv4_show.
Qed.

Lemma parse_ip_show_v4 a : is_u32 a -> parse_ip (show_v4 a) = Some (V4 a).
Proof.
  intros Ha. unfold parse_ip, parse_with. rewrite <- (append_nil_r (show_v4 a)) at 1. cbv beta.
  by rewrite read_ipv4_show.
Qed.

Lemma take_digits_bound radix s :
  2 <= radix <= 16 -> Forall (fun d => 0 <= d < radix) (fst (take_digits radix s)).
Proof.
  intros Hr. induction s as [|c s IH]; cbn [take_digits]; [constructor|].
  destruct (digit_val radix c) as [d|] eqn:E; [|constructor].
  destruct (take_digits radix s) as [ds r]. cbn [fst] in *. constructor; [|done].
  unfold digit_val in E. pose proof (code_range c).
  repeat case_hyp E; try done; injection E as <-; breflect; lia.
Qed.

Lemma digits_value_nonneg radix ds :
  2 <= radix -> Forall (fun d => 0 <= d < radix) ds -> 0 <= digits_value radix ds.
Proof.
  intros Hr Hds. unfold digits_value.
  assert (forall acc, 0 <= acc -> 0 <= fold_left (fun acc d => acc * radix + d) ds acc) as H; [|apply H; lia].
  induction Hds as [|d ds Hd _ IH]; intros acc Hacc; simpl; [done|]. apply IH. nia.
Qed.

Lemma read_number_bound radix k z max s v r :
  2 <= radix <= 16 -> read_number radix k z max s = Some (v, r) -> 0 <= v <= max.
Proof.
  intros Hr. unfold read_number. pose proof (take_digits_bound radix s Hr) as Hd.
  destruct (take_digits radix s) as [ds r']. cbn [fst] in Hd.
  apply digits_value_nonneg in Hd; [|lia].
  intros H. repeat case_hyp H; simplify_eq; breflect; lia.
Qed.

Lemma read_octet_u8 s v r : read_octet s = Some (v, r) -> is_u8 v.
Proof. intros H. apply read_number_bound in H; [|lia]. done. Qed.

(** Whatever the text, a parsed IPv4 address fits in 32 bits. *)
Lemma read_ipv4_u32 s a r : read_ipv4_addr s = Some (a, r) -> is_u32 a.
Proof.
  unfold read_ipv4_addr, read_separator. intros H.
  repeat case_hyp H; simplify_eq. apply Ipv4Addr_new_u32; eapply read_octet_u8; eauto.
Qed.

Lemma read_groups_bound k i s gs v r :
  read_groups k i s = (gs, v, r) -> (length gs <= k)%nat /\ Forall is_u16 gs.
Proof.
  revert i s gs v r. induction k as [|k IH]; intros i s gs v r; cbn [read_groups].
  - intros [= <- _ _]. split; [done|constructor].
  - cbv zeta.
    match goal with |- context [match ?x with Some _ => _ | None => _ end] =>
      lazymatch x with match k with _ => _ end => destruct x as [[a r0]|] eqn:E4 end end.
    + intros [= <- _ _]. destruct k; [done|]. split; [cbn; lia|].
      assert (is_u32 a) as Ha.
      { unfold read_separator in E4. repeat case_hyp E4; try done; by eapply read_ipv4_u32. }
      unfold is_u32, u32_max in Ha. unfold is_u16, u16_max.
      repeat constructor; [apply Z.div_pos; lia| |apply Z.mod_pos_bound; lia|].
      * apply Z.lt_succ_r, Z.div_lt_upper_bound; lia.
      * pose proof (Z.mod_pos_bound a 65536). lia.
    + destruct (read_separator ":"%char i (read_number 16 4 true 65535) s) as [[g r0]|] eqn:E;
        [|intros; simplify_eq; split; [cbn; lia|constructor]].
      destruct (read_groups k (S i) r0) as [[gs' v'] r'] eqn:Eg. intros [= <- _ _].
      apply IH in Eg as [? ?]. split; [cbn; lia|]. constructor; [|done].
      unfold read_separator in E. repeat case_hyp E; try done;
        eapply (read_number_bound 16 4 true 65535); eauto; lia.
Qed.

Lemma from_segments_bound l :
  Forall is_u16 l -> 0 <= from_segments l < 65536 ^ Z.of_nat (length l).
Proof.
  unfold from_segments. assert (forall acc, Forall is_u16 l -> 0 <= acc ->
    acc * 65536 ^ Z.of_nat (length l) <= fold_left (fun acc s => acc * 65536 + s) l acc
      < (acc + 1) * 65536 ^ Z.of_nat (length l)) as H.
  { induction l as [|s l IH]; intros acc Hl Hacc; cbn [fold_left length]; [cbn; lia|].
    apply Forall_cons in Hl as [Hs Hl]. unfold is_u16, u16_max in Hs.
    rewrite Nat2Z.inj_succ, Z.pow_succ_r by lia. specialize (IH (acc * 65536 + s) Hl). nia. }
  intros Hl. specialize (H 0 Hl). lia.
Qed.

Lemma read_ipv6_u128 s a r : read_ipv6_addr s = Some (a, r) -> is_u128 a.
Proof.
  unfold read_ipv6_addr. destruct (read_groups 8 0 s) as [[head h4] r0] eqn:E.
  apply read_groups_bound in E as [Hlen Hhead]. intros H.
  assert (forall l, Forall is_u16 l -> length l = 8%nat -> is_u128 (from_segments l)) as Hseg.
  { intros l Hl H8. pose proof (from_segments_bound l Hl) as Hb. rewrite H8 in Hb. exact Hb. }
  destruct (Nat.eqb_spec (length head) 8) as [H8|Hne].
  { injection H as <- _. by apply Hseg. }
  destruct h4; [done|]. do 2 (case_hyp H; [|done]; destruct p as [? ?]).
  destruct (read_groups (8 - (length head + 1)) 0 _) as [[tl v] r3] eqn:E. injection H as <- _.
  apply read_groups_bound in E as [Hlen' Htl]. apply Hseg.
  - apply Forall_app. split; [done|]. apply Forall_app. split; [|done].
    apply Forall_replicate. unfold is_u16, u16_max. lia.
  - rewrite !length_app, length_replicate. lia.
Qed.

(** Whatever the text, a parsed address fits its width. *)
Lemma parse_ip_ok s ip : parse_ip s = Some ip -> ip_ok ip.
Proof.
  unfold parse_ip, parse_with. intros H. destruct (read_ipv4_addr s) as [[x r]|] eqn:E.
  - repeat case_hyp H; simplify_eq. by eapply read_ipv4_u32.
  - destruct (read_ipv6_addr s) as [[x r]|] eqn:E6; [|done].
    repeat case_hyp H; simplify_eq. by eapply read_ipv6_u128.
Qed.

(** ** Network interfaces *)

(** An entry of [getifaddrs] with the flags the program looks at; [ia_address] is
    [None] for another address family. *)
Record IfAddr : Type := mkIfAddr {
  ia_name : string; ia_up : bool; ia_loopback : bool; ia_multicast : bool; ia_address : option IpAddr }.

(** [as_sockaddr_in]. *)
Definition ia_v4 (i : IfAddr) : option Z := match ia_address i with Some (V4 a) => Some a | _ => None end.
