(* ===== verification/Geo.v ===== *)
(** * GeoIP and ASN databases ([src/geo.rs])

    The two optional MaxMind databases and what they say of an address.  The
    file format is the maxminddb crate's: a class. *)

From S2P Require Import Prelude Strs Float Net.

(** maxminddb, and the Unicode table of [str::to_uppercase].  A value that is
    missing or of another type is [None], as after [.ok().flatten()]. *)
Class MaxMind := {
  Reader : Type;
  (** what [Reader::lookup] finds; [None] is an error *)
  Found : Type;
  mm_lookup : Reader -> IpAddr -> option Found;
  decode_string : Found -> list string -> option string;
  decode_f64 : Found -> list string -> option f64;
  decode_u32 : Found -> list string -> option Z;
  has_data : Found -> bool;
  (** [res.network()] and its [Display] *)
  found_network : Found -> option string;
  to_uppercase : string -> string;
}.

Record ClientGeo : Type := mkClientGeo {
  cg_country : option string; cg_continent : option string; cg_city : option string;
  cg_lat : option f64; cg_lon : option f64; cg_asn : option Z; cg_asn_org : option string }.
Definition ClientGeo_default : ClientGeo := mkClientGeo None None None None None None None.

Section Geo.
Context `{MM : MaxMind}.

Record GeoDb : Type := mkGeoDb { gd_geoip : option Reader; gd_asn : option Reader }.

(** [GeoDb::load]; [open_readfile] is [None] for a file that fails to open. *)
Definition geo_load (open_readfile : string -> option Reader) (geoip asn : option string) : GeoDb :=
  mkGeoDb (geoip ≫= open_readfile) (asn ≫= open_readfile).

Definition geo_enabled (d : GeoDb) : bool := bool_decide (is_Some (gd_geoip d)) || bool_decide (is_Some (gd_asn d)).
Definition has_geoip (d : GeoDb) : bool := bool_decide (is_Some (gd_geoip d)).
Definition has_asn (d : GeoDb) : bool := bool_decide (is_Some (gd_asn d)).

(** [GeoDb::lookup]. *)
Definition geo_lookup (d : GeoDb) (ip : IpAddr) : ClientGeo :=
  let city := gd_geoip d ≫= fun r => mm_lookup r ip in
  let asn := gd_asn d ≫= fun r => mm_lookup r ip in
  mkClientGeo
    (to_uppercase <$> (city ≫= fun res => decode_string res ["country"; "iso_code"]))
    (to_uppercase <$> (city ≫= fun res => decode_string res ["continent"; "code"]))
    (city ≫= fun res => decode_string res ["city"; "names"; "en"])
    (city ≫= fun res => decode_f64 res ["location"; "latitude"])
    (city ≫= fun res => decode_f64 res ["location"; "longitude"])
    (asn ≫= fun res => decode_u32 res ["autonomous_system_number"])
    (asn ≫= fun res => decode_string res ["autonomous_system_organization"]).

(** [GeoDb::network]: the first database with data for the address. *)
Definition geo_network (d : GeoDb) (ip : IpAddr) : option string :=
  head (omap (fun r => let! res := mm_lookup r ip in if has_data res then found_network res else None)
          (omap id [gd_asn d; gd_geoip d])).

(** Without a database nothing is known. *)
Lemma geo_lookup_disabled d ip : geo_enabled d = false -> geo_lookup d ip = ClientGeo_default /\ geo_network d ip = None.
Proof. destruct d as [[r|] [r'|]]; cbn; try done. Qed.

(** Coordinates come from the city database, numbers from the other. *)
Lemma geo_lookup_has d ip :
  (is_Some (cg_lat (geo_lookup d ip)) -> has_geoip d = true) /\ (is_Some (cg_asn (geo_lookup d ip)) -> has_asn d = true).
Proof. destruct d as [[r|] [r'|]]; split; intros [x H]; done. Qed.
End Geo.
