(* ===== verification/External.v ===== *)
(** * Third-party code as parameters

    The program calls crates whose code is not part of the repository:
    hickory (DNS names and record data), ipnet (CIDR blocks) and time (RFC 3339
    timestamps), and the cryptography.  Each is a class of operations; the laws a theorem relies on
    are classes of their own, stated as the crates document them. *)

From S2P Require Import Prelude Strs Net.

(** ** hickory: record types

    [RecordType] is a public enum of hickory; the constructors are the ones the
    program names, and every other type is its 16-bit code. *)
Inductive RecordType : Type :=
| A | AAAA | ANAME | CAA | CERT | CNAME | CSYNC | HINFO | HTTPS | MX | NAPTR | NS
| OPENPGPKEY | PTR | SMIMEA | SRV | SSHFP | SVCB | TLSA | TXT
| SOA | ANY | AXFR | IXFR | DNSKEY | RRSIG | NSEC | NSEC3 | NSEC3PARAM
| OtherType (code : Z).

#[export] Instance RecordType_eq_dec : EqDecision RecordType.
Proof. solve_decision. Defined.

(** For maps keyed by a record type. *)
Definition RecordType_enc (t : RecordType) : nat + Z :=
  match t with
  | A => inl 0 | AAAA => inl 1 | ANAME => inl 2 | CAA => inl 3 | CERT => inl 4 | CNAME => inl 5 | CSYNC => inl 6
  | HINFO => inl 7 | HTTPS => inl 8 | MX => inl 9 | NAPTR => inl 10 | NS => inl 11 | OPENPGPKEY => inl 12
  | PTR => inl 13 | SMIMEA => inl 14 | SRV => inl 15 | SSHFP => inl 16 | SVCB => inl 17 | TLSA => inl 18
  | TXT => inl 19 | SOA => inl 20 | ANY => inl 21 | AXFR => inl 22 | IXFR => inl 23 | DNSKEY => inl 24
  | RRSIG => inl 25 | NSEC => inl 26 | NSEC3 => inl 27 | NSEC3PARAM => inl 28
  | OtherType c => inr c
  end%nat.
Definition RecordType_dec (x : nat + Z) : RecordType :=
  match x with
  | inl n => default (OtherType 0)
      ([A; AAAA; ANAME; CAA; CERT; CNAME; CSYNC; HINFO; HTTPS; MX; NAPTR; NS; OPENPGPKEY; PTR; SMIMEA; SRV; SSHFP;
        SVCB; TLSA; TXT; SOA; ANY; AXFR; IXFR; DNSKEY; RRSIG; NSEC; NSEC3; NSEC3PARAM] !! n)
  | inr c => OtherType c
  end.
#[export] Instance RecordType_countable : Countable RecordType.
Proof. apply (inj_countable' RecordType_enc RecordType_dec). by intros []. Defined.

(** [ResponseCode]. *)
Inductive ResponseCode : Type :=
| NoError | FormErr | ServFail | NXDomain | NotImp | Refused | OtherCode (code : Z).

#[export] Instance ResponseCode_eq_dec : EqDecision ResponseCode.
Proof. solve_decision. Defined.

(** ** hickory: names *)
Class HickoryNames := {
  Name : Type;
  Name_eq_dec :: EqDecision Name;
  (** [Name::from_utf8] / [Name::from_ascii] *)
  Name_from_utf8 : string -> option Name;
  Name_from_ascii : string -> option Name;
  (** [Display] *)
  Name_to_string : Name -> string;
  (** [set_fqdn(true)] *)
  set_fqdn : Name -> Name;
  (** [z.zone_of(n)]: [n] is [z] or lies under it *)
  zone_of : Name -> Name -> bool;
  num_labels : Name -> Z;
  (** [parse_arpa_name().addr()] *)
  parse_arpa_name : Name -> option IpAddr;
  (** record data of the types the program does not look into *)
  OtherData : Type;
  OtherData_eq_dec :: EqDecision OtherData;
}.

(** ** hickory: record data and records *)
Section RData.
Context `{!HickoryNames}.

Record SOAData : Type := mkSOA {
  soa_mname : Name; soa_rname : Name; soa_serial : Z;
  soa_refresh : Z; soa_retry : Z; soa_expire : Z; soa_minimum : Z }.

Inductive RData : Type :=
| RD_A (a : Z)
| RD_AAAA (a : Z)
| RD_CNAME (n : Name)
| RD_PTR (n : Name)
| RD_SRV (priority weight port : Z) (target : Name)
| RD_SOA (s : SOAData)
| RD_Other (t : RecordType) (d : OtherData).

(** [RData::record_type]. *)
Definition rdata_type (d : RData) : RecordType :=
  match d with
  | RD_A _ => A | RD_AAAA _ => AAAA | RD_CNAME _ => CNAME | RD_PTR _ => PTR
  | RD_SRV _ _ _ _ => SRV | RD_SOA _ => SOA | RD_Other t _ => t
  end.

(** [Record::from_rdata(name, ttl, data)]. *)
Record DRecord : Type := mkRecord { rec_name : Name; rec_ttl : Z; rec_data : RData }.
Definition rec_type (r : DRecord) : RecordType := rdata_type (rec_data r).

#[global] Instance SOAData_eq_dec : EqDecision SOAData.
Proof. solve_decision. Defined.
#[global] Instance RData_eq_dec : EqDecision RData.
Proof. solve_decision. Defined.
#[global] Instance DRecord_eq_dec : EqDecision DRecord.
Proof. solve_decision. Defined.
End RData.

(** The text forms of record types and record data. *)
Class HickoryText `{!HickoryNames} := {
  (** [RecordType::from_str], [Display], and the code [Ord] compares *)
  RecordType_from_str : string -> option RecordType;
  RecordType_to_string : RecordType -> string;
  RecordType_code : RecordType -> Z;
  (** [RData::try_from_str] and [Display] *)
  RData_try_from_str : RecordType -> string -> option RData;
  RData_to_string : RData -> string;
  (** [format!("{:?}", rcode)] *)
  ResponseCode_debug : ResponseCode -> string;
}.

(** ** ipnet *)
Class IpNets := {
  IpNet : Type;
  parse_ipnet : string -> option IpNet;
  ipnet_contains : IpNet -> IpAddr -> bool;
  Ipv4Net : Type;
  parse_ipv4net : string -> option Ipv4Net;
  ipv4net_contains : Ipv4Net -> Z -> bool;
  ipv4net_netmask : Ipv4Net -> Z;
}.

(** ** time: RFC 3339 timestamps of whole seconds *)
Class Rfc3339 := {
  (** [OffsetDateTime::from_unix_timestamp(t).unwrap_or(UNIX_EPOCH).format(&Rfc3339).unwrap_or_default()] *)
  format_unix : Z -> string;
  (** [OffsetDateTime::parse(s, &Rfc3339)], then [unix_timestamp] *)
  parse_unix : string -> option Z;
}.

(** A timestamp of the years 1970 to 9999 reads back as itself. *)
Definition rfc3339_range (t : Z) : Prop := 0 <= t <= 253402300799.
Class Rfc3339Laws `{!Rfc3339} := {
  parse_format_unix t : rfc3339_range t -> parse_unix (format_unix t) = Some t;
}.

(** [OffsetDateTime] as nanoseconds since 1970: [format(&Rfc3339)], which fails
    outside the years 0 to 9999, and [OffsetDateTime::parse(s, &Rfc3339)]. *)
Class DateTimes := {
  datetime_format : Z -> option string;
  datetime_parse : string -> option Z;
}.
Definition datetime_range (t : Z) : Prop := 0 <= t < 253402300800 * 1000000000.
Class DateTimeLaws `{!DateTimes} := {
  datetime_parse_format t : datetime_range t -> (datetime_format t ≫= datetime_parse) = Some t;
}.

(** ** DNSSEC: hickory's and ring's cryptography, [base64] and [data_encoding]

    A key is opaque; the record data of the DNSSEC types is what hickory builds. *)
Class Signers `{!HickoryNames} := {
  SigningKey : Type;
  (** the base64 PKCS#8 secret of a zone: the key and its DNSKEY data *)
  load_key : string -> option (SigningKey * OtherData);
  (** [RRSIG::from_rrset] for the signer name, at an inception time *)
  rrsig_from_rrset : SigningKey -> Name -> Name -> RecordType -> list DRecord -> Z -> option OtherData;
  (** [NSEC::new], [NSEC3::new] (iterations, salt, next hash) and [NSEC3PARAM::new] *)
  nsec_new : Name -> list RecordType -> OtherData;
  nsec3_new : Z -> list Z -> list Z -> list RecordType -> OtherData;
  nsec3param_new : Z -> list Z -> OtherData;
  (** the SHA-1 owner hash with salt and iterations *)
  nsec3_hash : list Z -> Name -> Z -> option (list Z);
  (** [BASE32_DNSSEC.encode], then [Label::from_ascii] *)
  base32_label : list Z -> option string;
  (** [prepend_label] *)
  prepend_label : Name -> string -> option Name;
  (** [HEXLOWER_PERMISSIVE.decode] *)
  hex_decode : string -> option (list Z);
}.

(** Keys as the API makes and shows them: [EcdsaSigningKey::generate_pkcs8] from
    random bytes, [STANDARD.encode], [HEXLOWER.encode], [calculate_key_tag] and
    [DS::from_key] of the public key. *)
Class DnssecTools `{!HickoryNames} `{!Signers} := {
  generate_pkcs8 : list Z -> option (list Z);
  base64_encode : list Z -> string;
  hex_lower : list Z -> string;
  calculate_key_tag : SigningKey -> option Z;
  ds_from_key : SigningKey -> Name -> option OtherData;
}.

(** ** hickory: zone files

    The records of a zone file, RRset by RRset, or the text of the error. *)
Class ZoneFiles `{!HickoryNames} := {
  zone_parser : string -> Name -> (list DRecord) + string;
}.

(** ** Password hashing, digests and encodings: [argon2], [sha2], [base64]

    [argon2_hash] takes the random salt; [argon2_verify] is [false] for a text
    that is no hash. *)
Class Credentials := {
  argon2_hash : list Z -> string -> option string;
  argon2_verify : string -> string -> bool;
  sha256 : list Z -> list Z;
  (** [STANDARD_NO_PAD.encode], [URL_SAFE_NO_PAD.encode], [URL_SAFE_NO_PAD.decode]
      and [STANDARD.decode] *)
  base64_encode_no_pad : list Z -> string;
  base64_url_encode : list Z -> string;
  base64_url_decode : string -> option (list Z);
  base64_decode : string -> option (list Z);
}.

(** The URL-safe base64 alphabet. *)
Definition base64_url_char (c : ascii) : bool :=
  is_ascii_alphanumeric c || (code c =? 45) || (code c =? 95).

Definition is_byte (b : Z) : Prop := 0 <= b < 256.

(** A password verifies against its own hash; base64 text is in its alphabet and
    decodes to the bytes it was made from. *)
Class CredentialLaws `{!Credentials} := {
  argon2_verify_hash salt p h : argon2_hash salt p = Some h -> argon2_verify p h = true;
  base64_url_alphabet b : str_forall base64_url_char (base64_url_encode b) = true;
  base64_url_decode_encode b : Forall is_byte b -> base64_url_decode (base64_url_encode b) = Some b;
}.

(** ** hickory: TSIG signers (RFC 8945) *)
Inductive TsigAlgorithm : Type := HmacSha1 | HmacSha256 | HmacSha512.
Class TSigners `{!HickoryNames} := {
  TSigner : Type;
  (** [TSigner::new(secret, algorithm, name, FUDGE)] *)
  tsigner_new : list Z -> TsigAlgorithm -> Name -> option TSigner;
  (** [verify_message_byte(bytes, None, true)], at a Unix time *)
  verify_message : TSigner -> Z -> list Z -> bool;
}.

(** ** hickory: wire messages

    A query and the EDNS record are opaque but for what the program reads of
    them; a message is the fields it reads or writes. *)
Class DnsQueries `{!HickoryNames} := {
  Query : Type;
  query_name : Query -> Name;
  query_type : Query -> RecordType;
  Edns : Type;
  (** [edns.flags().dnssec_ok] *)
  edns_dnssec_ok : Edns -> bool;
}.

Inductive OpCode : Type := OpQuery | OpOther (code : Z).

Section WireMessage.
Context `{HN : !HickoryNames} `{DQ : !DnsQueries}.
Record WireMessage : Type := mkWireMessage {
  wm_id : Z; wm_response : bool; wm_op_code : OpCode; wm_recursion_desired : bool;
  wm_recursion_available : bool; wm_authoritative : bool; wm_response_code : ResponseCode;
  wm_queries : list Query; wm_answers : list DRecord; wm_authorities : list DRecord; wm_edns : option Edns }.
(** [Message::response(id, op_code)]. *)
Definition WireMessage_response (id : Z) (op : OpCode) : WireMessage :=
  mkWireMessage id true op false false false NoError [] [] [] None.
End WireMessage.

(** [Message::from_vec] and [Message::to_vec]. *)
Class DnsWire `{!HickoryNames} `{!DnsQueries} := {
  message_from_vec : list Z -> option WireMessage;
  message_to_vec : WireMessage -> option (list Z);
}.

(** ** idna, unicode-script and the Unicode character table

    A character is its UTF-8 text.  [is_alphabetic] is the table of
    [char::is_alphabetic]. *)
Class Unicode := {
  (** the name of [idna::domain_to_unicode]'s result *)
  domain_to_unicode : string -> string;
  is_alphabetic : string -> bool;
  Script : Type;
  Script_eq_dec :: EqDecision Script;
  script : string -> Script;
  (** [Script::Common] and [Script::Inherited] *)
  neutral_script : Script -> bool;
}.
