(* ===== verification/Models.v ===== *)
(** * The shared domain types and helpers of [src/models.rs]

    Field names carry a prefix per struct; 64-bit and 32-bit integers are [Z].
    The DHCP types come first, then the DNS ones, then the helpers. *)

From S2P Require Import Prelude Strs Net External.

(** ** DHCP *)

Inductive IpFamily : Type := FamV4 | FamV6.
#[export] Instance IpFamily_eq_dec : EqDecision IpFamily.
Proof. solve_decision. Defined.

Inductive LeaseState : Type := Offered | Active | Declined | Released | Expired.
#[export] Instance LeaseState_eq_dec : EqDecision LeaseState.
Proof. solve_decision. Defined.

Inductive DhcpOptionKind : Type := KIp | KIpList | KU8 | KU16 | KU32 | KBool | KText | KHex.
#[export] Instance DhcpOptionKind_eq_dec : EqDecision DhcpOptionKind.
Proof. solve_decision. Defined.

Record DhcpOption : Type := mkDhcpOption {
  do_code : Z; do_name : option string; do_value : string; do_kind : DhcpOptionKind }.

Record DhcpScope : Type := mkDhcpScope {
  sc_id : Z; sc_name : string; sc_enabled : bool; sc_family : IpFamily;
  sc_subnet : string; sc_range_start : string; sc_range_end : string;
  sc_lease_secs : Z; sc_dns_register : bool; sc_dns_zone : option string;
  sc_server_id : option string; sc_interface : option string;
  sc_options : list DhcpOption; sc_created_at : string }.

Record DhcpReservation : Type := mkDhcpReservation {
  rs_id : Z; rs_scope_id : Z; rs_identifier : string; rs_ip : string;
  rs_hostname : option string; rs_options : list DhcpOption; rs_created_at : string }.

Record DhcpLease : Type := mkDhcpLease {
  ls_id : Z; ls_scope_id : Z; ls_family : IpFamily; ls_ip : string; ls_identifier : string;
  ls_hostname : option string; ls_starts_at : string; ls_expires_at : string;
  ls_state : LeaseState; ls_created_at : string }.

(** ** Views, zones, records *)

Record View : Type := mkView {
  vw_id : Z; vw_name : string; vw_networks : list string;
  vw_countries : list string; vw_continents : list string; vw_asns : list Z;
  vw_priority : Z; vw_is_default : bool; vw_created_at : string }.

Record Soa : Type := mkSoa {
  so_primary_ns : string; so_admin_email : string;
  so_refresh : Z; so_retry : Z; so_expire : Z; so_minimum : Z }.

(** [Soa::default_for]. *)
Definition Soa_default_for (zone : string) : Soa :=
  mkSoa ("ns1." +:+ zone +:+ ".") ("hostmaster." +:+ zone +:+ ".") 3600 600 604800 60.

Record Zone : Type := mkZone {
  zn_id : Z; zn_name : string; zn_enabled : bool; zn_soa : Soa; zn_default_ttl : Z;
  zn_serial : Z; zn_record_count : Z; zn_is_secondary : bool;
  zn_primary_addr : option string; zn_last_check : option string;
  zn_last_error : option string; zn_dnssec : bool;
  zn_created_at : string; zn_updated_at : string }.

Record DnsRecord : Type := mkDnsRecord {
  dr_id : Z; dr_zone_id : Z; dr_view_id : option Z; dr_name : string; dr_fqdn : string;
  dr_rtype : string; dr_ttl : option Z; dr_data : string; dr_enabled : bool;
  dr_created_at : string; dr_updated_at : string }.

(** ** Settings enums *)

Inductive ForwardProtocol : Type := Udp | Tcp | Tls | Https.
Record Forwarder : Type := mkForwarder {
  fw_addr : string; fw_protocol : ForwardProtocol; fw_port : Z; fw_tls_name : option string }.

Inductive ResolutionMode : Type := Forward | Recursive | ResOff.
Inductive LoadBalance : Type := LbOff | RoundRobin | Random.
Inductive BlockMode : Type := BlockNxDomain | ZeroIp | BlockRefused.
Inductive HomographMode : Type := HmOff | Mixed | AllIdn.
Inductive QueryLog : Type := QlOff | Anonymized | Full.
Inductive BlocklistFormat : Type := Hosts | Domains.
Inductive RuleAction : Type := Deny | Allow.
#[export] Instance LoadBalance_eq_dec : EqDecision LoadBalance.
Proof. solve_decision. Defined.
#[export] Instance QueryLog_eq_dec : EqDecision QueryLog.
Proof. solve_decision. Defined.
#[export] Instance HomographMode_eq_dec : EqDecision HomographMode.
Proof. solve_decision. Defined.

Record BlockRule : Type := mkBlockRule {
  br_id : Z; br_domain : string; br_action : RuleAction; br_comment : option string;
  br_created_at : string }.
Record Rewrite : Type := mkRewrite {
  rw_id : Z; rw_domain : string; rw_target : string; rw_enabled : bool;
  rw_comment : option string; rw_created_at : string }.
Record ConditionalForward : Type := mkConditionalForward {
  cf_id : Z; cf_domain : string; cf_forwarders : list Forwarder; cf_enabled : bool;
  cf_created_at : string }.

(** ** Settings and management rows *)

Record TsigKey : Type := mkTsigKey { tk_name : string; tk_algorithm : string; tk_secret : string }.

Record Settings : Type := mkSettings {
  st_forwarders : list Forwarder; st_resolution_mode : ResolutionMode; st_block_mode : BlockMode;
  st_blocking_enabled : bool; st_query_log : QueryLog; st_homograph_protection : HomographMode;
  st_cache_size : Z; st_cache_min_ttl : Z; st_cache_max_ttl : Z;
  st_dnssec_validate_upstream : bool; st_allow_axfr_from : list string;
  st_tsig_keys : list TsigKey; st_axfr_require_tsig : bool; st_load_balance : LoadBalance;
  st_blocked_asns : list Z; st_mdns_enabled : bool; st_mdns_zone : string; st_mdns_ttl : Z;
  st_mdns_publish_public : bool;
  st_dns_listen : list string; st_dot_listen : list string; st_doh_listen : list string;
  st_doq_listen : list string; st_doh3_listen : list string; st_doh_path : string;
  st_tcp_timeout_secs : Z;
  st_tls_hostname : string; st_tls_acme : bool; st_tls_acme_domains : list string;
  st_tls_acme_contact : string; st_tls_acme_staging : bool; st_tls_cert_path : string;
  st_tls_key_path : string; st_tls_auto_self_signed : option bool;
  st_geoip_db : string; st_asn_db : string;
  st_web_allow_networks : list string; st_blocklist_refresh_hours : Z }.

Definition Settings_default : Settings :=
  mkSettings [mkForwarder "1.1.1.1" Udp 53 None; mkForwarder "9.9.9.9" Udp 53 None]
    Forward BlockNxDomain true QlOff HmOff 1024 0 86400 false [] [] false LbOff [] false "" 120 false
    [] [] [] [] [] "" 0 "" false [] "" false "" "" None "" "" [] 0.

Record User : Type := mkUser {
  ur_id : Z; ur_username : string; ur_must_change_password : bool; ur_created_at : string }.
Record DynDnsToken : Type := mkDynDnsToken {
  dt_id : Z; dt_label : string; dt_username : string; dt_hostnames : list string;
  dt_view_id : option Z; dt_ttl : Z; dt_enabled : bool; dt_last_update_at : option string;
  dt_last_ip : option string; dt_created_at : string }.
Record SecondaryZone : Type := mkSecondaryZone {
  sz_zone_id : Z; sz_name : string; sz_primary_addr : string; sz_refresh_secs : Z;
  sz_serial : Z; sz_record_count : Z; sz_last_check : option string;
  sz_last_error : option string; sz_tsig_key : option string }.
Record Blocklist : Type := mkBlocklist {
  bl_id : Z; bl_name : string; bl_url : string; bl_format : BlocklistFormat; bl_enabled : bool;
  bl_entry_count : Z; bl_last_updated : option string; bl_last_error : option string;
  bl_created_at : string }.
Record AuditEntry : Type := mkAuditEntry {
  au_id : Z; au_at : string; au_username : string; au_action : string; au_status : Z; au_ip : string }.

(** ** Domain matching *)

(** [domain_covers]: the domain itself and every name under it; a leading [*.]
    of the pattern is ignored. *)
Definition domain_covers (pattern name : string) : bool :=
  let p := match strip_prefix "*." pattern with Some p => p | None => pattern end in
  bool_decide (name = p) || ends_with name ("." +:+ p).

Lemma domain_covers_spec pattern name :
  domain_covers pattern name = true <->
  let p := match strip_prefix "*." pattern with Some p => p | None => pattern end in
  name = p \/ exists front, name = front +:+ "." +:+ p.
Proof.
  unfold domain_covers. cbv zeta. rewrite orb_true_iff, bool_decide_eq_true, ends_with_spec. done.
Qed.

(** ** Record types *)

Definition SUPPORTED_RECORD_TYPES : list string :=
  ["A"; "AAAA"; "ANAME"; "CAA"; "CERT"; "CNAME"; "CSYNC"; "HINFO"; "HTTPS"; "MX"; "NAPTR"; "NS";
   "OPENPGPKEY"; "PTR"; "SMIMEA"; "SRV"; "SSHFP"; "SVCB"; "TLSA"; "TXT"].

Section Names.
Context `{!HickoryNames, !HickoryText}.

Inductive ModelError : Type :=
| UnsupportedRecordType (s : string)
| InvalidRecordType (s : string)
| EmptyZoneName
| InvalidZoneName
| InvalidRecordName
| InvalidData (t : RecordType)
| InvalidAdminEmail.

Definition parse_record_type (s : string) : result RecordType ModelError :=
  let up := to_ascii_uppercase (trim s) in
  if negb (bool_decide (up ∈ SUPPORTED_RECORD_TYPES)) then Err (UnsupportedRecordType s)
  else ok_or (RecordType_from_str up) (InvalidRecordType s).

Definition canonical_zone_name (name : string) : result string ModelError :=
  let trimmed := to_ascii_lowercase (trim_end_matches "."%char (trim name)) in
  if is_empty trimmed then Err EmptyZoneName
  else let? _n := ok_or (Name_from_utf8 (trimmed +:+ ".")) InvalidZoneName in
       Ok trimmed.

Definition record_fqdn_name (record_name zone : string) : result Name ModelError :=
  let rec := trim_end_matches "."%char (trim record_name) in
  let fqdn := if is_empty rec || bool_decide (rec = "@") then zone +:+ "."
              else rec +:+ "." +:+ zone +:+ "." in
  let? name := ok_or (Name_from_utf8 fqdn) InvalidRecordName in
  Ok (set_fqdn name).

Definition record_fqdn_string (record_name zone : string) : string :=
  let rec := trim_end_matches "."%char (trim record_name) in
  if is_empty rec || bool_decide (rec = "@") then to_ascii_lowercase zone
  else to_ascii_lowercase rec +:+ "." +:+ to_ascii_lowercase zone.

(** The [qualify] closure of [prequalify_data]. *)
Definition qualify (zone tok : string) : string :=
  let t := trim tok in
  if is_empty t || bool_decide (t = "@") then zone +:+ "."
  else if ends_with t "." then t
  else if contains_char "."%char t then t +:+ "."
  else t +:+ "." +:+ zone +:+ ".".

Definition prequalify_data (rtype : RecordType) (data zone : string) : string :=
  match rtype with
  | CNAME | NS | PTR => qualify zone data
  | MX =>
      match split_whitespace data with
      | [pref; exchange] => pref +:+ " " +:+ qualify zone exchange
      | _ => data
      end
  | SRV =>
      match split_whitespace data with
      | [prio; weight; port; target] =>
          prio +:+ " " +:+ weight +:+ " " +:+ port +:+ " " +:+ qualify zone target
      | _ => data
      end
  | _ => data
  end.

Definition parse_rdata (rtype : RecordType) (data zone : string) : result RData ModelError :=
  ok_or (RData_try_from_str rtype (prequalify_data rtype data zone)) (InvalidData rtype).

Definition soa_rname (admin : string) : result Name ModelError :=
  let s := trim admin in
  let dns := match split_once "@"%char s with
             | Some (local, domain) => replace_char "."%char "\." local +:+ "." +:+ domain
             | None => s
             end in
  let dns := if ends_with dns "." then dns else dns +:+ "." in
  let? name := ok_or (Name_from_utf8 dns) InvalidAdminEmail in
  Ok (set_fqdn name).
End Names.

(** The name [qualify] produces always ends with a dot: a stored name is absolute. *)
Lemma qualify_absolute zone tok : ends_with (qualify zone tok) "." = true.
Proof.
  unfold qualify. repeat case_goal; try done; apply ends_with_spec.
  - by exists zone.
  - by exists (trim tok).
  - exists (trim tok +:+ "." +:+ zone). by rewrite !append_assoc.
Qed.
