(* ===== verification/Serde.v ===== *)
(** * What serde derives for the stored documents ([src/models.rs], the JSON columns of [src/db.rs])

    A JSON text is read and written by [serde_json], a parameter ([JsonText]);
    between the text and a type stands the document, a [Value].  A [Codec] is
    what [#[derive(Serialize, Deserialize)]] gives a type: how a value of it is
    written as a document, and which documents it is read from, with the
    attributes of the source ([rename], [rename_all], [alias], [default]).

    A structure is read from an object or from an array; an unknown field is
    skipped, a field that occurs twice is an error, and one that does not occur is
    an error or its default.  An enumeration is read from a string or from an
    object with one entry, [{"name": null}].  The laws of a codec ([CodecOk]) are
    the round trip, and that what it writes is [printable]: what [serde_json] prints
    and reads back unchanged. *)

From S2P Require Import Prelude Strs Float External Models.

(** ** Documents *)

Inductive Value : Type :=
  | VNull
  | VBool (b : bool)
  | VNum (n : Z)
  | VFloat (x : f64)
  | VStr (s : string)
  | VArr (l : list Value)
  | VObj (fs : list (string * Value)).

(** The depth [serde_json] reads ([recursion_limit] of its parser). *)
Definition json_depth : nat := 127.

(** Without floats, with integers of 64 bits, and no deeper than [n]. *)
Fixpoint printable (n : nat) (v : Value) : bool :=
  match n with
  | O => false
  | S n =>
      match v with
      | VNull | VBool _ | VStr _ => true
      | VNum z => (- 9223372036854775808 <=? z) && (z <=? 18446744073709551615)
      | VFloat _ => false
      | VArr l => forallb (printable n) l
      | VObj fs => forallb (fun kv => printable n (snd kv)) fs
      end
  end.

(** [serde_json::to_string] and [from_str], on the way to and from the typed value. *)
Class JsonText : Type := {
  JsonDoc : Type;
  json_to_string : Value -> JsonDoc;
  json_from_str : JsonDoc -> option Value }.
Class JsonTextLaws (J : JsonText) : Prop := {
  json_text_roundtrip v : printable json_depth v = true -> json_from_str (json_to_string v) = Some v }.

(** ** Codecs *)

Record Codec (A : Type) : Type := mkCodec {
  ser : A -> Value;
  de : Value -> option A;
  fits : A -> Prop }.
Arguments mkCodec {A}.
Arguments ser {A}.
Arguments de {A}.
Arguments fits {A}.

Class CodecOk {A} (n : nat) (c : Codec A) : Prop := {
  de_ser a : fits c a -> de c (ser c a) = Some a;
  ser_printable a : fits c a -> printable n (ser c a) = true }.

Definition str_codec : Codec string :=
  mkCodec VStr (fun v => match v with VStr s => Some s | _ => None end) (fun _ => True).
Definition bool_codec : Codec bool :=
  mkCodec VBool (fun v => match v with VBool b => Some b | _ => None end) (fun _ => True).

(** An integer type with the values from [lo] to [hi]; a float is refused. *)
Definition int_codec (lo hi : Z) : Codec Z :=
  mkCodec VNum (fun v => match v with VNum n => if (lo <=? n) && (n <=? hi) then Some n else None | _ => None end)
    (fun n => lo <= n <= hi).
Definition u16_codec : Codec Z := int_codec 0 65535.
Definition u32_codec : Codec Z := int_codec 0 4294967295.
Definition u64_codec : Codec Z := int_codec 0 18446744073709551615.
Definition i32_codec : Codec Z := int_codec (-2147483648) 2147483647.

Definition list_codec {A} (c : Codec A) : Codec (list A) :=
  mkCodec (fun l => VArr (ser c <$> l)) (fun v => match v with VArr l => mapM (de c) l | _ => None end)
    (Forall (fits c)).

(** [Option<T>], for a [T] that is not written as [null]. *)
Definition option_codec {A} (c : Codec A) : Codec (option A) :=
  mkCodec (fun o => match o with Some a => ser c a | None => VNull end)
    (fun v => match v with VNull => Some None | _ => Some <$> de c v end)
    (fun o => match o with Some a => fits c a /\ ser c a <> VNull | None => True end).

(** An enumeration of unit variants: the name each is written with, and the
    names (and aliases) each is read from. *)
Definition enum_codec {A} (name : A -> string) (variants : list (string * A)) : Codec A :=
  let read s := snd <$> List.find (fun kv => String.eqb (fst kv) s) variants in
  mkCodec (fun a => VStr (name a))
    (fun v => match v with VStr s => read s | VObj [(s, VNull)] => read s | _ => None end)
    (fun _ => True).

(** ** Structures *)

(** What was seen of each declared field, in the order of the declaration. *)
Definition occurs (fs : list (string * Value)) (name : string) : option (option Value) :=
  match List.filter (fun kv => String.eqb (fst kv) name) fs with
  | [] => Some None
  | [kv] => Some (Some (snd kv))
  | _ => None
  end.
Definition slots (names : list string) (v : Value) : option (list (option Value)) :=
  match v with
  | VObj fs => mapM (occurs fs) names
  | VArr l =>
      if (length l <=? length names)%nat
      then Some ((Some <$> l) ++ replicate (length names - length l) None) else None
  | _ => None
  end.

(** One field after the other; [missing] is the value of a field that was not seen. *)
Definition Fields (A : Type) : Type := list (option Value) -> option (A * list (option Value)).
Definition field {A} (c : Codec A) (missing : option A) : Fields A := fun l =>
  match l with
  | [] => None
  | None :: l => (fun a => (a, l)) <$> missing
  | Some v :: l => (fun a => (a, l)) <$> de c v
  end.
Definition then_field {A B} (p : Fields A) (k : A -> Fields B) : Fields B := fun l =>
  match p l with Some (a, l) => k a l | None => None end.
Definition built {A} (a : A) : Fields A := fun l => match l with [] => Some (a, []) | _ => None end.
Notation "'field*' x := p 'in' k" := (then_field p (fun x => k))
  (at level 10, x name, p at level 200, k at level 200) : rust_scope.

Definition struct_codec {A} (names : list string) (write : A -> list Value) (read : Fields A) (ok : A -> Prop)
  : Codec A :=
  mkCodec (fun a => VObj (zip names (write a)))
    (fun v => match slots names v with Some l => fst <$> read l | None => None end) ok.

(** ** The laws of the combinators *)

Lemma printable_le n m v : (n <= m)%nat -> printable n v = true -> printable m v = true.
Proof.
  revert m v. induction n as [|n IH]; [done|]. intros [|m] v Hle Hv; [lia|].
  destruct v; cbn in *; try done.
  - rewrite forallb_forall in *. intros x Hx. apply IH; [lia|auto].
  - rewrite forallb_forall in *. intros x Hx. apply IH; [lia|auto].
Qed.

Lemma printable_obj n fs : printable (S n) (VObj fs) = forallb (fun kv => printable n (snd kv)) fs.
Proof. done. Qed.

#[export] Instance str_codec_ok : CodecOk 1 str_codec.
Proof. by split. Qed.
#[export] Instance bool_codec_ok : CodecOk 1 bool_codec.
Proof. by split. Qed.
Lemma int_codec_ok lo hi : -9223372036854775808 <= lo -> hi <= 18446744073709551615 -> CodecOk 1 (int_codec lo hi).
Proof.
  intros Hlo Hhi. split; intros n Hn; cbn in *.
  - destruct (Z.leb_spec lo n), (Z.leb_spec n hi); cbn; [done|lia..].
  - apply andb_true_iff. split; apply Z.leb_le; lia.
Qed.
#[export] Instance u16_codec_ok : CodecOk 1 u16_codec.
Proof. by apply int_codec_ok. Qed.
#[export] Instance u32_codec_ok : CodecOk 1 u32_codec.
Proof. by apply int_codec_ok. Qed.
#[export] Instance u64_codec_ok : CodecOk 1 u64_codec.
Proof. by apply int_codec_ok. Qed.
#[export] Instance i32_codec_ok : CodecOk 1 i32_codec.
Proof. by apply int_codec_ok. Qed.

#[export] Instance list_codec_ok {A} n (c : Codec A) : CodecOk n c -> CodecOk (S n) (list_codec c).
Proof.
  intros Hc. split; intros l Hl; cbn in *.
  - induction Hl as [|a l Ha Hl IH]; [done|]. cbn. rewrite de_ser by done. cbn. by rewrite IH.
  - apply forallb_forall. intros v Hv. apply list_elem_of_In, list_elem_of_fmap in Hv as (a & -> & Ha).
    apply ser_printable. by eapply Forall_forall in Hl.
Qed.
#[export] Instance option_codec_ok {A} n (c : Codec A) : CodecOk n c -> CodecOk (S n) (option_codec c).
Proof.
  intros Hc. split; intros [a|] Ha; try done; destruct Ha as [Ha Hn].
  - pose proof (@de_ser _ n c Hc a Ha) as E. cbn. destruct (ser c a) eqn:Es; by rewrite ?E.
  - apply (printable_le n); [lia|]. by apply (@ser_printable _ n c Hc).
Qed.
Lemma enum_codec_ok {A} (name : A -> string) variants :
  (forall a, snd <$> List.find (fun kv => String.eqb (fst kv) (name a)) variants = Some a) ->
  CodecOk 1 (enum_codec name variants).
Proof. intros Hv. split; intros a _; [apply Hv|done]. Qed.

Lemma filter_eqb_none {V} (fs : list (string * V)) k :
  k ∉ fst <$> fs -> List.filter (fun kv => String.eqb (fst kv) k) fs = [].
Proof.
  induction fs as [|kv fs IH]; [done|]. intros Hk. rewrite fmap_cons, not_elem_of_cons in Hk.
  destruct Hk as [Hne Hk]. cbn. destruct (String.eqb_spec (fst kv) k); [congruence|]. by apply IH.
Qed.

(** What the slots hold when an object has each declared field, or lacks some of
    them, and fields of other names after them. *)
Definition kept (keep : string -> bool) (kv : string * Value) : option Value :=
  if keep (fst kv) then Some (snd kv) else None.

Lemma occurs_kept keep fs extra k v :
  NoDup (fst <$> fs) -> (forall x, x ∈ fst <$> fs -> x ∉ fst <$> extra) -> (k, v) ∈ fs ->
  occurs (List.filter (fun kv => keep (fst kv)) fs ++ extra) k = Some (kept keep (k, v)).
Proof.
  intros Hnd Hextra Hin. unfold occurs, kept. rewrite List.filter_app, (filter_eqb_none extra), app_nil_r;
    [|apply Hextra, list_elem_of_fmap; by exists (k, v)].
  cbn. clear Hextra. induction fs as [|kv fs IH]; [inversion Hin|].
  rewrite fmap_cons, NoDup_cons in Hnd. destruct Hnd as [Hk Hnd]. apply elem_of_cons in Hin as [<-|Hin].
  - cbn.
    assert (Hrest : List.filter (fun kv => String.eqb (fst kv) k) (List.filter (fun kv => keep (fst kv)) fs) = []).
    { apply filter_eqb_none. intros (kv & -> & Hkv)%list_elem_of_fmap. apply Hk, list_elem_of_fmap.
      exists kv. split; [done|]. by apply list_elem_of_In, filter_In in Hkv as [?%list_elem_of_In _]. }
    destruct (keep k); cbn; rewrite ?String.eqb_refl, Hrest; done.
  - rewrite <- (IH Hnd Hin). cbn.
    destruct (keep (fst kv)); [|done]. cbn. destruct (String.eqb_spec (fst kv) k) as [E|]; [|done].
    exfalso. apply Hk. rewrite E. apply list_elem_of_fmap. by exists (k, v).
Qed.

Lemma slots_kept keep fs extra :
  NoDup (fst <$> fs) -> (forall x, x ∈ fst <$> fs -> x ∉ fst <$> extra) ->
  slots (fst <$> fs) (VObj (List.filter (fun kv => keep (fst kv)) fs ++ extra)) = Some (kept keep <$> fs).
Proof.
  intros Hnd Hextra. cbn.
  assert (Hsub : forall fs', (forall kv, kv ∈ fs' -> kv ∈ fs) ->
    mapM (occurs (List.filter (fun kv => keep (fst kv)) fs ++ extra)) (fst <$> fs') = Some (kept keep <$> fs')).
  { induction fs' as [|[k v] fs' IH]; [done|]. intros Hfs. cbn [fmap list_fmap mapM fst].
    rewrite (occurs_kept keep fs extra k v) by (try done; apply Hfs; by left). cbn.
    fold (mapM (M := option) (occurs (List.filter (fun kv => keep (fst kv)) fs ++ extra))).
    rewrite IH; [done|]. intros kv Hkv. apply Hfs. by right. }
  by apply Hsub.
Qed.

Lemma slots_zip names vs : NoDup names -> length vs = length names ->
  slots names (VObj (zip names vs)) = Some (Some <$> vs).
Proof.
  intros Hnd Hlen.
  assert (Hn : fst <$> zip names vs = names) by (by apply fst_zip; rewrite Hlen).
  pose proof (slots_kept (fun _ => true) (zip names vs) []) as Hs.
  rewrite Hn, app_nil_r in Hs. rewrite (List.forallb_filter_id) in Hs by (by apply forallb_forall).
  rewrite Hs; [|done|intros x _ H; inversion H].
  f_equal. change (kept (fun _ => true)) with (Some ∘ (snd : string * Value -> Value)).
  rewrite list_fmap_compose, snd_zip; [done|]. by rewrite Hlen.
Qed.

Lemma then_field_ser {A B} n (c : Codec A) {Hc : CodecOk n c} missing (k : A -> Fields B) a l :
  fits c a -> then_field (field c missing) k (Some (ser c a) :: l) = k a l.
Proof. intros Ha. unfold then_field, field. by rewrite de_ser. Qed.

(** A field that may have been left out, when it has a default. *)
Lemma then_field_kept {A B} n (c : Codec A) {Hc : CodecOk n c} keep name d (k : A -> Fields B) a l :
  fits c a ->
  then_field (field c (Some d)) k (kept keep (name, ser c a) :: l) = k (if keep name then a else d) l.
Proof. intros Ha. unfold then_field, field, kept. cbn. destruct (keep name); cbn; [by rewrite de_ser|done]. Qed.
Lemma then_field_required {A B} n (c : Codec A) {Hc : CodecOk n c} keep name missing (k : A -> Fields B) a l :
  fits c a -> keep name = true ->
  then_field (field c missing) k (kept keep (name, ser c a) :: l) = k a l.
Proof. intros Ha Hk. unfold kept. cbn. rewrite Hk. by apply (then_field_ser n). Qed.

Lemma struct_codec_ok {A} n names write (read : Fields A) ok :
  NoDup names -> (forall a, length (write a) = length names) ->
  (forall a, ok a -> read (Some <$> write a) = Some (a, [])) ->
  (forall a, ok a -> Forall (fun v => printable n v = true) (write a)) ->
  CodecOk (S n) (struct_codec names write read ok).
Proof.
  intros Hnd Hlen Hread Hprint. split; intros a Ha; cbn in Ha.
  - cbn. pose proof (slots_zip names (write a) Hnd (Hlen a)) as Hs. cbn in Hs. rewrite Hs.
    by rewrite Hread.
  - cbn. apply forallb_forall. intros [k v] Hkv. apply in_combine_r in Hkv. cbn.
    specialize (Hprint a Ha). rewrite Forall_forall in Hprint. apply Hprint. by apply list_elem_of_In.
Qed.

(** ** hickory's own derives *)

(** The crate's [serde] feature gives these types a form that [fits] the text, at
    most a hundred deep. *)
Class HickorySerde `{HN : HickoryNames} : Type := {
  RecordType_codec : Codec RecordType;
  ResponseCode_codec : Codec ResponseCode;
  DRecord_codec : Codec DRecord }.
Class HickorySerdeLaws `{HN : HickoryNames} (H : HickorySerde) : Prop := {
  RecordType_codec_ok :: CodecOk 100 RecordType_codec;
  ResponseCode_codec_ok :: CodecOk 100 ResponseCode_codec;
  DRecord_codec_ok :: CodecOk 100 DRecord_codec }.

(** What a codec reads of what it writes, checked: the values it is a codec for. *)
Definition checked_codec {A} (n : nat) (ser : A -> Value) (de : Value -> option A) : Codec A :=
  mkCodec ser de (fun a => de (ser a) = Some a /\ printable n (ser a) = true).
Lemma checked_codec_ok {A} n (ser : A -> Value) de : CodecOk n (checked_codec n ser de).
Proof. split; intros a [? ?]; done. Qed.
