(* ===== verification/Instances.v ===== *)
(** * Concrete instances of the third-party classes

    Small executable stand-ins for the crates, used only by the witnesses: a
    theorem about the program is stated for every instance of the classes of
    [External], and its witness evaluates the program at these. *)

From S2P Require Import Prelude Strs Float Net Geo External Models Serde.

(** ** Timestamps: eight big-endian bytes *)

Definition string_of_bytes (l : list Z) : string := String.string_of_list_ascii (chr <$> l).

Lemma as_bytes_of_bytes l : bytes_ok l -> as_bytes (string_of_bytes l) = l.
Proof.
  intros Hl. unfold as_bytes, string_of_bytes. rewrite String.list_ascii_of_string_of_list_ascii.
  rewrite <- list_fmap_compose. induction Hl as [|b l Hb _ IH]; [done|].
  cbn. f_equal; [|exact IH]. apply code_chr. unfold is_u8, u8_max in Hb. lia.
Qed.

#[export] Instance byte_time : Rfc3339 := {|
  format_unix t := string_of_bytes (to_be 8 t);
  parse_unix s := if (String.length s =? 8)%nat then Some (from_be (as_bytes s)) else None;
|}.

#[export] Instance byte_time_laws : Rfc3339Laws.
Proof.
  constructor. intros t Ht. unfold rfc3339_range in Ht. cbn [parse_unix format_unix byte_time].
  assert (String.length (string_of_bytes (to_be 8 t)) = 8%nat) as -> by done.
  rewrite Nat.eqb_refl, as_bytes_of_bytes by auto with nomina. f_equal.
  rewrite from_to_be. apply Z.mod_small. change (256 ^ Z.of_nat 8) with 18446744073709551616. lia.
Qed.

(** A date and time as the big-endian bytes of its nanoseconds. *)
#[export] Instance byte_datetimes : DateTimes := {|
  datetime_format t := Some (string_of_bytes (to_be 9 t));
  datetime_parse s := if bool_decide (String.length s = 9%nat) then Some (from_be (as_bytes s)) else None;
|}.

Lemma length_of_bytes l : String.length (string_of_bytes l) = length l.
Proof. unfold string_of_bytes. induction l as [|b l IH]; [done|]. cbn. by rewrite <- IH. Qed.

#[export] Instance byte_datetime_laws : DateTimeLaws.
Proof.
  constructor. intros t Ht. unfold mbind, option_bind. cbn [datetime_format datetime_parse byte_datetimes].
  rewrite length_of_bytes, length_to_be, bool_decide_eq_true_2 by done.
  rewrite as_bytes_of_bytes by apply to_be_bytes_ok. rewrite from_to_be. unfold datetime_range in Ht.
  rewrite Z.mod_small; [done|]. change (256 ^ Z.of_nat 9) with 4722366482869645213696. lia.
Qed.

(** ** CIDR blocks *)

Definition parse_cidr4 (s : string) : option (Z * Z) :=
  let! p := split_once "/"%char s in
  let! a := parse_v4 (fst p) in
  let! n := parse_uint 32 (snd p) in
  Some (a, n).
Definition cidr4_contains (net : Z * Z) (a : Z) : bool :=
  let w := 2 ^ (32 - snd net) in a / w =? fst net / w.

Definition parse_cidr6 (s : string) : option (Z * Z) :=
  let! p := split_once "/"%char s in
  let! a := parse_v6 (fst p) in
  let! n := parse_uint 128 (snd p) in
  Some (a, n).
Definition cidr6_contains (net : Z * Z) (a : Z) : bool :=
  let w := 2 ^ (128 - snd net) in a / w =? fst net / w.

#[export] Instance cidr_nets : IpNets := {|
  IpNet := (Z * Z) + (Z * Z);
  parse_ipnet s := match parse_cidr4 s with
                   | Some n => Some (inl n)
                   | None => inr <$> parse_cidr6 s
                   end;
  ipnet_contains n ip := match n, ip with
                         | inl n, V4 a => cidr4_contains n a
                         | inr n, V6 a => cidr6_contains n a
                         | _, _ => false
                         end;
  Ipv4Net := Z * Z;
  parse_ipv4net := parse_cidr4;
  ipv4net_contains := cidr4_contains;
  ipv4net_netmask n := 2 ^ 32 - 2 ^ (32 - snd n);
|}.

(** ** Names: lists of labels *)

Definition labels_of (s : string) : option (list string) :=
  let t := match strip_suffix "." s with Some t => t | None => s end in
  if is_empty t then Some []
  else
    let ls := split "."%char t in
    if existsb is_empty ls then None else Some ls.

#[export] Instance label_names : HickoryNames := {|
  Name := list string;
  Name_eq_dec := _;
  Name_from_utf8 := labels_of;
  Name_from_ascii := labels_of;
  Name_to_string n := join "." n +:+ ".";
  set_fqdn n := n;
  zone_of z n := bool_decide (to_ascii_lowercase <$> z = drop (length n - length z) (to_ascii_lowercase <$> n));
  num_labels n := Z.of_nat (length n);
  parse_arpa_name _ := None;
  OtherData := string;
  OtherData_eq_dec := _;
|}.

Definition type_table : list (string * RecordType * Z) :=
  [("A", A, 1); ("NS", NS, 2); ("CNAME", CNAME, 5); ("SOA", SOA, 6); ("PTR", PTR, 12); ("MX", MX, 15);
   ("TXT", TXT, 16); ("AAAA", AAAA, 28); ("SRV", SRV, 33)].

#[export] Instance simple_text : HickoryText := {|
  RecordType_from_str s := (fun e => snd (fst e)) <$> List.find (fun e => bool_decide (fst (fst e) = s)) type_table;
  RecordType_to_string t :=
    match List.find (fun e => bool_decide (snd (fst e) = t)) type_table with Some e => fst (fst e) | None => "TYPE" end;
  RecordType_code t :=
    match List.find (fun e => bool_decide (snd (fst e) = t)) type_table with Some e => snd e | None => 65535 end;
  RData_try_from_str t s :=
    match t with
    | A => RD_A <$> parse_v4 s
    | AAAA => RD_AAAA <$> parse_v6 (trim s)
    | CNAME => RD_CNAME <$> labels_of (trim s)
    | PTR => RD_PTR <$> labels_of (trim s)
    | SRV =>
        match split_whitespace s with
        | [priority; weight; port; target] =>
            let! p := parse_uint 65535 priority in
            let! w := parse_uint 65535 weight in
            let! o := parse_uint 65535 port in
            RD_SRV p w o <$> labels_of target
        | _ => None
        end
    | _ => Some (RD_Other t s)
    end;
  RData_to_string d :=
    match d with
    | RD_A a => show_v4 a | RD_AAAA a => show_v6 a
    | RD_CNAME n | RD_PTR n => join "." n +:+ "."
    | RD_SRV priority weight port n =>
        show_u priority +:+ " " +:+ show_u weight +:+ " " +:+ show_u port +:+ " " +:+ join "." n +:+ "."
    | RD_SOA _ => "SOA" | RD_Other _ s => s
    end;
  ResponseCode_debug c :=
    match c with
    | NoError => "NoError" | FormErr => "FormErr" | ServFail => "ServFail" | NXDomain => "NXDomain"
    | NotImp => "NotImp" | Refused => "Refused" | OtherCode _ => "Unknown"
    end;
|}.

(** ** Signatures that name what they cover *)

#[export] Instance plain_signers : Signers := {|
  SigningKey := string;
  load_key secret := if is_empty secret then None else Some (secret, "DNSKEY " +:+ secret);
  rrsig_from_rrset key _ name t rs _ := Some (RecordType_to_string t +:+ " " +:+ join "." name);
  nsec_new next _ := "NSEC " +:+ join "." next;
  nsec3_new _ _ next _ := "NSEC3 " +:+ concat_str (hex2 <$> next);
  nsec3param_new _ salt := "NSEC3PARAM " +:+ concat_str (hex2 <$> salt);
  nsec3_hash salt name _ := Some (as_bytes (join "." name) ++ salt);
  base32_label h := Some (concat_str (hex2 <$> h));
  prepend_label n l := Some (l :: n);
  hex_decode s := Some (as_bytes s);
|}.

(** ** Credentials: a hash is the password, base64 is two letters per byte *)

Definition letter (n : Z) : ascii := chr (97 + n mod 16).
Definition letter_value (c : ascii) : Z := code c - 97.
Definition letters_encode (b : list Z) : string :=
  String.string_of_list_ascii (concat ((fun x => [letter (x / 16); letter x]) <$> b)).
Fixpoint letters_decode (l : list ascii) : option (list Z) :=
  match l with
  | [] => Some []
  | x :: y :: l' => (fun r => letter_value x * 16 + letter_value y :: r) <$> letters_decode l'
  | _ => None
  end.

#[export] Instance plain_credentials : Credentials := {|
  argon2_hash _ p := Some p;
  argon2_verify p h := bool_decide (p = h);
  sha256 b := b;
  base64_encode_no_pad := string_of_bytes;
  base64_url_encode := letters_encode;
  base64_url_decode s := letters_decode (String.list_ascii_of_string s);
  base64_decode s := Some (as_bytes s);
|}.

Lemma code_letter n : code (letter n) = 97 + n mod 16.
Proof. unfold letter. apply code_chr. pose proof (Z.mod_pos_bound n 16). lia. Qed.

Lemma letter_url n : base64_url_char (letter n) = true.
Proof.
  unfold base64_url_char, is_ascii_alphanumeric, is_lower, in_range. rewrite code_letter.
  pose proof (Z.mod_pos_bound n 16 ltac:(lia)).
  assert ((97 <=? 97 + n mod 16) && (97 + n mod 16 <=? 122) = true) as -> by (apply andb_true_iff; lia).
  by rewrite orb_true_r.
Qed.

#[export] Instance plain_credential_laws : CredentialLaws.
Proof.
  constructor.
  - intros salt p h [= ->]. by apply bool_decide_eq_true.
  - intros b. cbn. unfold letters_encode. induction b as [|x b IH]; [done|]. cbn. by rewrite !letter_url.
  - intros b Hb. cbn. unfold letters_encode. rewrite String.list_ascii_of_string_of_list_ascii.
    induction Hb as [|x b Hx _ IH]; [done|]. cbn [fmap list_fmap concat app letters_decode]. rewrite IH. cbn. do 2 f_equal.
    unfold letter_value. rewrite !code_letter. unfold is_byte in Hx.
    rewrite (Z.mod_small (x / 16)) by (split; [apply Z.div_pos|apply Z.div_lt_upper_bound]; lia).
    pose proof (Z.div_mod x 16). lia.
Qed.

(** ** Signed messages: the bytes are the secret *)

#[export] Instance plain_tsigners : TSigners := {|
  TSigner := list Z;
  tsigner_new secret _ _ := Some secret;
  verify_message secret _ bytes := bool_decide (bytes = secret);
|}.

#[export] Instance plain_tools : DnssecTools := {|
  generate_pkcs8 b := Some b;
  base64_encode := string_of_bytes;
  hex_lower b := concat_str (hex2 <$> b);
  calculate_key_tag k := Some (len k);
  ds_from_key k n := Some ("DS " +:+ join "." n);
|}.

#[export] Instance plain_zone_files : ZoneFiles := {| zone_parser _ _ := inr "no zone file" |}.

(** ** Messages: the name to look up, and the addresses found *)

#[export] Instance plain_queries : DnsQueries := {|
  Query := list string * RecordType;
  query_name := fst;
  query_type := snd;
  Edns := bool;
  edns_dnssec_ok b := b;
|}.

#[export] Instance plain_wire : DnsWire := {|
  message_from_vec b :=
    (fun n => mkWireMessage 7 false OpQuery true false false NoError [(n, A)] [] [] None)
      <$> labels_of (string_of_bytes b);
  message_to_vec m :=
    Some (concat ((fun r => match rec_data r with RD_A a => to_be 4 a | _ => [] end) <$> wm_answers m));
|}.

(** ** GeoIP databases *)

(** A database is a table of addresses. *)
Record Place : Type := mkPlace {
  pl_country : string; pl_city : string; pl_lat : f64; pl_lon : f64; pl_asn : option Z; pl_network : string }.

#[export] Instance table_maxmind : MaxMind := {|
  Reader := list (IpAddr * Place);
  Found := Place;
  mm_lookup r ip := snd <$> List.find (fun x => bool_decide (fst x = ip)) r;
  decode_string p path :=
    if bool_decide (path = ["country"; "iso_code"]) then Some (pl_country p)
    else if bool_decide (path = ["city"; "names"; "en"]) then Some (pl_city p) else None;
  decode_f64 p path :=
    if bool_decide (path = ["location"; "latitude"]) then Some (pl_lat p)
    else if bool_decide (path = ["location"; "longitude"]) then Some (pl_lon p) else None;
  decode_u32 p path := if bool_decide (path = ["autonomous_system_number"]) then pl_asn p else None;
  has_data _ := true;
  found_network p := Some (pl_network p);
  to_uppercase := to_ascii_uppercase |}.

(** ** Documents *)

(** A document is its own text. *)
#[export] Instance value_text : JsonText := {| JsonDoc := Value; json_to_string v := v; json_from_str v := Some v |}.
#[export] Instance value_text_laws : JsonTextLaws value_text.
Proof. by split. Qed.

(** The crate's types as their text forms; a record is an array of four. *)
Definition plain_rcodes : list ResponseCode := [NoError; FormErr; ServFail; NXDomain; NotImp; Refused].
#[export] Instance plain_serde : HickorySerde := {|
  RecordType_codec := checked_codec 100 (fun t => VStr (RecordType_to_string t))
    (fun v => match v with VStr s => RecordType_from_str s | _ => None end);
  ResponseCode_codec := checked_codec 100 (fun c => VStr (ResponseCode_debug c))
    (fun v => match v with VStr s => List.find (fun c => bool_decide (ResponseCode_debug c = s)) plain_rcodes | _ => None end);
  DRecord_codec := checked_codec 100
    (fun r => VArr [VStr (join "." (rec_name r)); VNum (rec_ttl r); VStr (RecordType_to_string (rec_type r));
                    VStr (RData_to_string (rec_data r))])
    (fun v => match v with
              | VArr [VStr n; VNum ttl; VStr t; VStr d] =>
                  let! name := labels_of n in
                  let! rtype := RecordType_from_str t in
                  mkRecord name ttl <$> RData_try_from_str rtype d
              | _ => None
              end) |}.
#[export] Instance plain_serde_laws : HickorySerdeLaws plain_serde.
Proof. split; apply checked_codec_ok. Qed.
