(* ===== verification/Documents.v ===== *)
(** * The documents the database stores ([src/models.rs], its serde attributes)

    The codecs of the types a JSON column holds - zone authority ([Soa]), upstreams
    ([Forwarder]), DHCP options, the settings with their TSIG keys - and of the
    enumerations, whose names are also stored as plain text.  The settings of an
    earlier build, which lack the fields added since, are read with the declared
    defaults in their place. *)

From S2P Require Import Prelude Strs Float Models Serde.

(** ** Enumerations *)

Definition ForwardProtocol_name (p : ForwardProtocol) : string :=
  match p with Udp => "udp" | Tcp => "tcp" | Tls => "tls" | Https => "https" end.
Definition ForwardProtocol_codec : Codec ForwardProtocol :=
  enum_codec ForwardProtocol_name [("udp", Udp); ("tcp", Tcp); ("tls", Tls); ("https", Https)].

Definition ResolutionMode_name (m : ResolutionMode) : string :=
  match m with Forward => "forward" | Recursive => "recursive" | ResOff => "off" end.
Definition ResolutionMode_codec : Codec ResolutionMode :=
  enum_codec ResolutionMode_name [("forward", Forward); ("recursive", Recursive); ("off", ResOff)].

Definition LoadBalance_name (b : LoadBalance) : string :=
  match b with LbOff => "off" | RoundRobin => "round_robin" | Random => "random" end.
Definition LoadBalance_codec : Codec LoadBalance :=
  enum_codec LoadBalance_name [("off", LbOff); ("round_robin", RoundRobin); ("random", Random)].

(** [nx_domain] is read, and never written. *)
Definition BlockMode_name (m : BlockMode) : string :=
  match m with BlockNxDomain => "nxdomain" | ZeroIp => "zero_ip" | BlockRefused => "refused" end.
Definition BlockMode_codec : Codec BlockMode :=
  enum_codec BlockMode_name
    [("nxdomain", BlockNxDomain); ("nx_domain", BlockNxDomain); ("zero_ip", ZeroIp); ("refused", BlockRefused)].

Definition HomographMode_name (m : HomographMode) : string :=
  match m with HmOff => "off" | Mixed => "mixed" | AllIdn => "all_idn" end.
Definition HomographMode_codec : Codec HomographMode :=
  enum_codec HomographMode_name [("off", HmOff); ("mixed", Mixed); ("all_idn", AllIdn)].

Definition QueryLog_name (q : QueryLog) : string :=
  match q with QlOff => "off" | Anonymized => "anonymized" | Full => "full" end.
Definition QueryLog_codec : Codec QueryLog :=
  enum_codec QueryLog_name [("off", QlOff); ("anonymized", Anonymized); ("full", Full)].

Definition BlocklistFormat_name (f : BlocklistFormat) : string :=
  match f with Hosts => "hosts" | Domains => "domains" end.
Definition BlocklistFormat_codec : Codec BlocklistFormat :=
  enum_codec BlocklistFormat_name [("hosts", Hosts); ("domains", Domains)].

Definition RuleAction_name (a : RuleAction) : string := match a with Deny => "deny" | Allow => "allow" end.
Definition RuleAction_codec : Codec RuleAction := enum_codec RuleAction_name [("deny", Deny); ("allow", Allow)].

Definition IpFamily_name (f : IpFamily) : string := match f with FamV4 => "v4" | FamV6 => "v6" end.
Definition IpFamily_codec : Codec IpFamily := enum_codec IpFamily_name [("v4", FamV4); ("v6", FamV6)].

Definition LeaseState_name (s : LeaseState) : string :=
  match s with
  | Offered => "offered" | Active => "active" | Declined => "declined" | Released => "released"
  | Expired => "expired"
  end.
Definition LeaseState_codec : Codec LeaseState :=
  enum_codec LeaseState_name
    [("offered", Offered); ("active", Active); ("declined", Declined); ("released", Released);
     ("expired", Expired)].

Definition DhcpOptionKind_name (k : DhcpOptionKind) : string :=
  match k with
  | KIp => "ip" | KIpList => "ip_list" | KU8 => "u8" | KU16 => "u16" | KU32 => "u32" | KBool => "bool"
  | KText => "text" | KHex => "hex"
  end.
Definition DhcpOptionKind_codec : Codec DhcpOptionKind :=
  enum_codec DhcpOptionKind_name
    [("ip", KIp); ("ip_list", KIpList); ("u8", KU8); ("u16", KU16); ("u32", KU32); ("bool", KBool);
     ("text", KText); ("hex", KHex)].

(** ** Structures *)

Definition Soa_ok (s : Soa) : Prop :=
  fits i32_codec (so_refresh s) /\ fits i32_codec (so_retry s) /\ fits i32_codec (so_expire s) /\
  fits u32_codec (so_minimum s).
Definition Soa_codec : Codec Soa :=
  struct_codec ["primary_ns"; "admin_email"; "refresh"; "retry"; "expire"; "minimum"]
    (fun s => [ser str_codec (so_primary_ns s); ser str_codec (so_admin_email s); ser i32_codec (so_refresh s);
               ser i32_codec (so_retry s); ser i32_codec (so_expire s); ser u32_codec (so_minimum s)])
    (field* ns := field str_codec None in
     field* email := field str_codec None in
     field* refresh := field i32_codec None in
     field* retry := field i32_codec None in
     field* expire := field i32_codec None in
     field* minimum := field u32_codec None in
     built (mkSoa ns email refresh retry expire minimum)) Soa_ok.

Definition Forwarder_ok (f : Forwarder) : Prop := fits u16_codec (fw_port f).
Definition Forwarder_codec : Codec Forwarder :=
  struct_codec ["addr"; "protocol"; "port"; "tls_name"]
    (fun f => [ser str_codec (fw_addr f); ser ForwardProtocol_codec (fw_protocol f); ser u16_codec (fw_port f);
               ser (option_codec str_codec) (fw_tls_name f)])
    (field* addr := field str_codec None in
     field* protocol := field ForwardProtocol_codec None in
     field* port := field u16_codec None in
     field* tls_name := field (option_codec str_codec) (Some None) in
     built (mkForwarder addr protocol port tls_name)) Forwarder_ok.

Definition TsigKey_codec : Codec TsigKey :=
  struct_codec ["name"; "algorithm"; "secret"]
    (fun k => [ser str_codec (tk_name k); ser str_codec (tk_algorithm k); ser str_codec (tk_secret k)])
    (field* name := field str_codec None in
     field* algorithm := field str_codec None in
     field* secret := field str_codec None in
     built (mkTsigKey name algorithm secret)) (fun _ => True).

Definition DhcpOption_ok (o : DhcpOption) : Prop := fits u16_codec (do_code o).
Definition DhcpOption_codec : Codec DhcpOption :=
  struct_codec ["code"; "name"; "value"; "kind"]
    (fun o => [ser u16_codec (do_code o); ser (option_codec str_codec) (do_name o); ser str_codec (do_value o);
               ser DhcpOptionKind_codec (do_kind o)])
    (field* code := field u16_codec None in
     field* name := field (option_codec str_codec) (Some None) in
     field* value := field str_codec None in
     field* kind := field DhcpOptionKind_codec None in
     built (mkDhcpOption code name value kind)) DhcpOption_ok.

(** ** The settings *)

Definition default_true : bool := true.
Definition default_mdns_ttl : Z := 120.

Definition Settings_fields : list string :=
  ["forwarders"; "resolution_mode"; "block_mode"; "blocking_enabled"; "query_log"; "homograph_protection";
   "cache_size"; "cache_min_ttl"; "cache_max_ttl"; "dnssec_validate_upstream"; "allow_axfr_from"; "tsig_keys";
   "axfr_require_tsig"; "load_balance"; "blocked_asns"; "mdns_enabled"; "mdns_zone"; "mdns_ttl";
   "mdns_publish_public"; "dns_listen"; "dot_listen"; "doh_listen"; "doq_listen"; "doh3_listen"; "doh_path";
   "tcp_timeout_secs"; "tls_hostname"; "tls_acme"; "tls_acme_domains"; "tls_acme_contact"; "tls_acme_staging";
   "tls_cert_path"; "tls_key_path"; "tls_auto_self_signed"; "geoip_db"; "asn_db"; "web_allow_networks";
   "blocklist_refresh_hours"].

Definition strs_codec : Codec (list string) := list_codec str_codec.

Definition Settings_write (s : Settings) : list Value :=
  [ser (list_codec Forwarder_codec) (st_forwarders s); ser ResolutionMode_codec (st_resolution_mode s);
   ser BlockMode_codec (st_block_mode s); ser bool_codec (st_blocking_enabled s);
   ser QueryLog_codec (st_query_log s); ser HomographMode_codec (st_homograph_protection s);
   ser u64_codec (st_cache_size s); ser u32_codec (st_cache_min_ttl s); ser u32_codec (st_cache_max_ttl s);
   ser bool_codec (st_dnssec_validate_upstream s); ser strs_codec (st_allow_axfr_from s);
   ser (list_codec TsigKey_codec) (st_tsig_keys s); ser bool_codec (st_axfr_require_tsig s);
   ser LoadBalance_codec (st_load_balance s); ser (list_codec u32_codec) (st_blocked_asns s);
   ser bool_codec (st_mdns_enabled s); ser str_codec (st_mdns_zone s); ser u32_codec (st_mdns_ttl s);
   ser bool_codec (st_mdns_publish_public s);
   ser strs_codec (st_dns_listen s); ser strs_codec (st_dot_listen s); ser strs_codec (st_doh_listen s);
   ser strs_codec (st_doq_listen s); ser strs_codec (st_doh3_listen s); ser str_codec (st_doh_path s);
   ser u32_codec (st_tcp_timeout_secs s);
   ser str_codec (st_tls_hostname s); ser bool_codec (st_tls_acme s); ser strs_codec (st_tls_acme_domains s);
   ser str_codec (st_tls_acme_contact s); ser bool_codec (st_tls_acme_staging s);
   ser str_codec (st_tls_cert_path s); ser str_codec (st_tls_key_path s);
   ser (option_codec bool_codec) (st_tls_auto_self_signed s);
   ser str_codec (st_geoip_db s); ser str_codec (st_asn_db s);
   ser strs_codec (st_web_allow_networks s); ser u32_codec (st_blocklist_refresh_hours s)].

Definition Settings_read : Fields Settings :=
  field* forwarders := field (list_codec Forwarder_codec) None in
  field* resolution_mode := field ResolutionMode_codec (Some Forward) in
  field* block_mode := field BlockMode_codec (Some BlockNxDomain) in
  field* blocking_enabled := field bool_codec (Some default_true) in
  field* query_log := field QueryLog_codec (Some QlOff) in
  field* homograph_protection := field HomographMode_codec (Some HmOff) in
  field* cache_size := field u64_codec None in
  field* cache_min_ttl := field u32_codec None in
  field* cache_max_ttl := field u32_codec None in
  field* dnssec_validate_upstream := field bool_codec (Some false) in
  field* allow_axfr_from := field strs_codec (Some []) in
  field* tsig_keys := field (list_codec TsigKey_codec) (Some []) in
  field* axfr_require_tsig := field bool_codec (Some false) in
  field* load_balance := field LoadBalance_codec (Some LbOff) in
  field* blocked_asns := field (list_codec u32_codec) (Some []) in
  field* mdns_enabled := field bool_codec (Some false) in
  field* mdns_zone := field str_codec (Some "") in
  field* mdns_ttl := field u32_codec (Some default_mdns_ttl) in
  field* mdns_publish_public := field bool_codec (Some false) in
  field* dns_listen := field strs_codec (Some []) in
  field* dot_listen := field strs_codec (Some []) in
  field* doh_listen := field strs_codec (Some []) in
  field* doq_listen := field strs_codec (Some []) in
  field* doh3_listen := field strs_codec (Some []) in
  field* doh_path := field str_codec (Some "") in
  field* tcp_timeout_secs := field u32_codec (Some 0) in
  field* tls_hostname := field str_codec (Some "") in
  field* tls_acme := field bool_codec (Some false) in
  field* tls_acme_domains := field strs_codec (Some []) in
  field* tls_acme_contact := field str_codec (Some "") in
  field* tls_acme_staging := field bool_codec (Some false) in
  field* tls_cert_path := field str_codec (Some "") in
  field* tls_key_path := field str_codec (Some "") in
  field* tls_auto_self_signed := field (option_codec bool_codec) (Some None) in
  field* geoip_db := field str_codec (Some "") in
  field* asn_db := field str_codec (Some "") in
  field* web_allow_networks := field strs_codec (Some []) in
  field* blocklist_refresh_hours := field u32_codec (Some 0) in
  built (mkSettings forwarders resolution_mode block_mode blocking_enabled query_log homograph_protection
    cache_size cache_min_ttl cache_max_ttl dnssec_validate_upstream allow_axfr_from tsig_keys axfr_require_tsig
    load_balance blocked_asns mdns_enabled mdns_zone mdns_ttl mdns_publish_public
    dns_listen dot_listen doh_listen doq_listen doh3_listen doh_path tcp_timeout_secs
    tls_hostname tls_acme tls_acme_domains tls_acme_contact tls_acme_staging tls_cert_path tls_key_path
    tls_auto_self_signed geoip_db asn_db web_allow_networks blocklist_refresh_hours).

(** The ranges of the integer fields. *)
Definition Settings_ok (s : Settings) : Prop :=
  Forall Forwarder_ok (st_forwarders s) /\ fits u64_codec (st_cache_size s) /\
  fits u32_codec (st_cache_min_ttl s) /\ fits u32_codec (st_cache_max_ttl s) /\
  Forall (fits u32_codec) (st_blocked_asns s) /\ fits u32_codec (st_mdns_ttl s) /\
  fits u32_codec (st_tcp_timeout_secs s) /\ fits u32_codec (st_blocklist_refresh_hours s).
Definition Settings_codec : Codec Settings :=
  struct_codec Settings_fields Settings_write Settings_read Settings_ok.

(** ** The codecs round-trip *)

(** Close the round trip of an enumeration. *)
Ltac enum_ok := apply enum_codec_ok; by intros [].

#[export] Instance ForwardProtocol_codec_ok : CodecOk 1 ForwardProtocol_codec.
Proof. enum_ok. Qed.
#[export] Instance ResolutionMode_codec_ok : CodecOk 1 ResolutionMode_codec.
Proof. enum_ok. Qed.
#[export] Instance LoadBalance_codec_ok : CodecOk 1 LoadBalance_codec.
Proof. enum_ok. Qed.
#[export] Instance BlockMode_codec_ok : CodecOk 1 BlockMode_codec.
Proof. enum_ok. Qed.
#[export] Instance HomographMode_codec_ok : CodecOk 1 HomographMode_codec.
Proof. enum_ok. Qed.
#[export] Instance QueryLog_codec_ok : CodecOk 1 QueryLog_codec.
Proof. enum_ok. Qed.
#[export] Instance BlocklistFormat_codec_ok : CodecOk 1 BlocklistFormat_codec.
Proof. enum_ok. Qed.
#[export] Instance RuleAction_codec_ok : CodecOk 1 RuleAction_codec.
Proof. enum_ok. Qed.
#[export] Instance IpFamily_codec_ok : CodecOk 1 IpFamily_codec.
Proof. enum_ok. Qed.
#[export] Instance LeaseState_codec_ok : CodecOk 1 LeaseState_codec.
Proof. enum_ok. Qed.
#[export] Instance DhcpOptionKind_codec_ok : CodecOk 1 DhcpOptionKind_codec.
Proof. enum_ok. Qed.

Lemma fits_opt_str o : fits (option_codec str_codec) o.
Proof. by destruct o. Qed.
Lemma fits_opt_bool o : fits (option_codec bool_codec) o.
Proof. by destruct o. Qed.
Lemma fits_strs l : fits strs_codec l.
Proof. by apply Forall_true. Qed.
Lemma fits_tsig_keys l : fits (list_codec TsigKey_codec) l.
Proof. by apply Forall_true. Qed.
Create HintDb codec.
#[export] Hint Resolve fits_opt_str fits_opt_bool fits_strs fits_tsig_keys : codec.
#[export] Hint Extern 1 (fits _ _) => first [exact I | assumption] : codec.

(** Read the fields of a structure one by one, and check the depth of what is written. *)
Ltac read_fields x :=
  cbn [fmap list_fmap]; repeat (erewrite then_field_ser by first [apply _ | auto with codec]); by destruct x.
Ltac fields_printable :=
  repeat constructor; eapply printable_le; try (apply ser_printable; solve [auto with codec]); lia.
Ltac distinct := apply (bool_decide_unpack (NoDup _)); by vm_compute.

#[export] Instance Soa_codec_ok : CodecOk 2 Soa_codec.
Proof.
  apply struct_codec_ok; [distinct|done|intros s (Hr & Ht & He & Hm)..]; [read_fields s|fields_printable].
Qed.
#[export] Instance Forwarder_codec_ok : CodecOk 3 Forwarder_codec.
Proof.
  apply struct_codec_ok; [distinct|done|intros f Hp; unfold Forwarder_ok in Hp..];
    [read_fields f|fields_printable].
Qed.
#[export] Instance TsigKey_codec_ok : CodecOk 2 TsigKey_codec.
Proof. apply struct_codec_ok; [distinct|done|intros k _..]; [read_fields k|fields_printable]. Qed.
#[export] Instance DhcpOption_codec_ok : CodecOk 3 DhcpOption_codec.
Proof.
  apply struct_codec_ok; [distinct|done|intros o Hp; unfold DhcpOption_ok in Hp..];
    [read_fields o|fields_printable].
Qed.

Lemma fits_forwarders l : Forall Forwarder_ok l -> fits (list_codec Forwarder_codec) l.
Proof. done. Qed.
Lemma fits_u32s l : Forall (fits u32_codec) l -> fits (list_codec u32_codec) l.
Proof. done. Qed.
#[export] Hint Resolve fits_forwarders fits_u32s : codec.

#[export] Instance Settings_codec_ok : CodecOk 5 Settings_codec.
Proof.
  apply struct_codec_ok; [distinct|done|intros s (H1 & H2 & H3 & H4 & H5 & H6 & H7 & H8)..];
    [unfold Settings_read, Settings_write; read_fields s|fields_printable].
Qed.

(** ** The settings of an earlier build *)

Definition Settings_required : list string := ["forwarders"; "cache_size"; "cache_min_ttl"; "cache_max_ttl"].

(** The settings, with the declared default of each field that is not kept. *)
Definition upgraded (keep : string -> bool) (s : Settings) : Settings :=
  mkSettings
    (st_forwarders s) (if keep "resolution_mode" then st_resolution_mode s else Forward)
    (if keep "block_mode" then st_block_mode s else BlockNxDomain)
    (if keep "blocking_enabled" then st_blocking_enabled s else default_true)
    (if keep "query_log" then st_query_log s else QlOff)
    (if keep "homograph_protection" then st_homograph_protection s else HmOff) (st_cache_size s)
    (st_cache_min_ttl s) (st_cache_max_ttl s)
    (if keep "dnssec_validate_upstream" then st_dnssec_validate_upstream s else false)
    (if keep "allow_axfr_from" then st_allow_axfr_from s else [])
    (if keep "tsig_keys" then st_tsig_keys s else [])
    (if keep "axfr_require_tsig" then st_axfr_require_tsig s else false)
    (if keep "load_balance" then st_load_balance s else LbOff)
    (if keep "blocked_asns" then st_blocked_asns s else [])
    (if keep "mdns_enabled" then st_mdns_enabled s else false) (if keep "mdns_zone" then st_mdns_zone s else "")
    (if keep "mdns_ttl" then st_mdns_ttl s else default_mdns_ttl)
    (if keep "mdns_publish_public" then st_mdns_publish_public s else false)
    (if keep "dns_listen" then st_dns_listen s else []) (if keep "dot_listen" then st_dot_listen s else [])
    (if keep "doh_listen" then st_doh_listen s else []) (if keep "doq_listen" then st_doq_listen s else [])
    (if keep "doh3_listen" then st_doh3_listen s else []) (if keep "doh_path" then st_doh_path s else "")
    (if keep "tcp_timeout_secs" then st_tcp_timeout_secs s else 0)
    (if keep "tls_hostname" then st_tls_hostname s else "") (if keep "tls_acme" then st_tls_acme s else false)
    (if keep "tls_acme_domains" then st_tls_acme_domains s else [])
    (if keep "tls_acme_contact" then st_tls_acme_contact s else "")
    (if keep "tls_acme_staging" then st_tls_acme_staging s else false)
    (if keep "tls_cert_path" then st_tls_cert_path s else "")
    (if keep "tls_key_path" then st_tls_key_path s else "")
    (if keep "tls_auto_self_signed" then st_tls_auto_self_signed s else None)
    (if keep "geoip_db" then st_geoip_db s else "") (if keep "asn_db" then st_asn_db s else "")
    (if keep "web_allow_networks" then st_web_allow_networks s else [])
    (if keep "blocklist_refresh_hours" then st_blocklist_refresh_hours s else 0).

(** The object of [s] without the fields that are not kept, and with the fields [extra]. *)
Definition Settings_object (keep : string -> bool) (extra : list (string * Value)) (s : Settings) : Value :=
  VObj (List.filter (fun kv => keep (fst kv)) (zip Settings_fields (Settings_write s)) ++ extra).

(** Read past the fields that are there or have a default, up to one that was left out. *)
Ltac read_kept :=
  repeat first
    [ erewrite then_field_required by first [eassumption | apply _ | auto with codec]
    | erewrite then_field_kept by first [apply _ | auto with codec] ].
Ltac missing_field K := unfold then_field at 1, field at 1, kept at 1; cbn [fst snd]; by rewrite K.

Lemma Settings_de_object keep extra s :
  Settings_ok s -> (forall x, x ∈ Settings_fields -> x ∉ fst <$> extra) ->
  de Settings_codec (Settings_object keep extra s) =
    if forallb keep Settings_required then Some (upgraded keep s) else None.
Proof.
  intros (H1 & H2 & H3 & H4 & H5 & H6 & H7 & H8) Hextra.
  assert (Hf : fst <$> zip Settings_fields (Settings_write s) = Settings_fields) by (by apply fst_zip).
  unfold Settings_codec, struct_codec, Settings_object. cbn [de].
  rewrite <- Hf at 1. rewrite slots_kept; [|rewrite Hf; distinct|by rewrite Hf].
  unfold Settings_required, Settings_fields, Settings_write. cbn [zip zip_with fmap list_fmap forallb].
  unfold Settings_read.
  destruct (keep "forwarders") eqn:K1; [|missing_field K1].
  destruct (keep "cache_size") eqn:K2; [|read_kept; missing_field K2].
  destruct (keep "cache_min_ttl") eqn:K3; [|read_kept; missing_field K3].
  destruct (keep "cache_max_ttl") eqn:K4; [|read_kept; missing_field K4].
  by read_kept.
Qed.
