(* ===== verification/DhcpOptions.v ===== *)
(** * DHCP option registry and value encoding ([src/dhcp/options.rs])

    [encode_option] returns [None] where the Rust code panics: [decode_hex]
    slices the cleaned text two bytes at a time, and a slice that does not fall
    on a character boundary panics. *)

From S2P Require Import Prelude Strs Net External Models.

Record OptionDef : Type := mkOptionDef { od_code : Z; od_name : string; od_kind : DhcpOptionKind }.

Definition V4_CATALOG : list OptionDef := [
  mkOptionDef 1 "Subnet Mask" KIp;
  mkOptionDef 2 "Time Offset" KU32;
  mkOptionDef 3 "Router" KIpList;
  mkOptionDef 4 "Time Server" KIpList;
  mkOptionDef 6 "Domain Name Server" KIpList;
  mkOptionDef 7 "Log Server" KIpList;
  mkOptionDef 12 "Host Name" KText;
  mkOptionDef 15 "Domain Name" KText;
  mkOptionDef 26 "Interface MTU" KU16;
  mkOptionDef 28 "Broadcast Address" KIp;
  mkOptionDef 42 "NTP Servers" KIpList;
  mkOptionDef 44 "NetBIOS Name Servers" KIpList;
  mkOptionDef 46 "NetBIOS Node Type" KU8;
  mkOptionDef 47 "NetBIOS Scope" KText;
  mkOptionDef 51 "Lease Time" KU32;
  mkOptionDef 54 "Server Identifier" KIp;
  mkOptionDef 58 "Renewal (T1) Time" KU32;
  mkOptionDef 59 "Rebinding (T2) Time" KU32;
  mkOptionDef 9 "LPR Server" KIpList;
  mkOptionDef 40 "NIS Domain" KText;
  mkOptionDef 41 "NIS Servers" KIpList;
  mkOptionDef 66 "TFTP Server Name (next-server)" KText;
  mkOptionDef 67 "Bootfile Name" KText;
  mkOptionDef 43 "Vendor-Specific Information (PXE)" KHex;
  mkOptionDef 60 "Vendor Class Identifier (e.g. PXEClient)" KText;
  mkOptionDef 93 "Client System Architecture" KU16;
  mkOptionDef 94 "Client Network Interface" KHex;
  mkOptionDef 97 "Client Machine Identifier (UUID)" KHex;
  mkOptionDef 150 "TFTP Server Address" KIpList;
  mkOptionDef 209 "PXE Configuration File" KText;
  mkOptionDef 210 "PXE Path Prefix" KText;
  mkOptionDef 211 "PXE Reboot Time" KU32;
  mkOptionDef 119 "Domain Search" KText;
  mkOptionDef 121 "Classless Static Route" KHex;
  mkOptionDef 249 "Microsoft Classless Static Route" KHex;
  mkOptionDef 252 "WPAD Proxy Auto-Config" KText
].

Definition V6_CATALOG : list OptionDef := [
  mkOptionDef 7 "Preference" KU8;
  mkOptionDef 21 "SIP Servers Domain List" KText;
  mkOptionDef 22 "SIP Servers IPv6 List" KIpList;
  mkOptionDef 23 "DNS Recursive Name Server" KIpList;
  mkOptionDef 24 "Domain Search List" KText;
  mkOptionDef 27 "NIS Servers" KIpList;
  mkOptionDef 28 "NIS+ Servers" KIpList;
  mkOptionDef 29 "NIS Domain Name" KText;
  mkOptionDef 31 "SNTP Servers" KIpList;
  mkOptionDef 56 "NTP Server" KHex
].

Definition v4_catalog : list OptionDef := V4_CATALOG.
Definition v6_catalog : list OptionDef := V6_CATALOG.
Definition v4_def (code : Z) : option OptionDef := List.find (fun d => od_code d =? code) V4_CATALOG.
Definition v6_def (code : Z) : option OptionDef := List.find (fun d => od_code d =? code) V6_CATALOG.

Inductive OptionError : Type :=
| InvalidIp (s : string)
| EmptyIpList
| InvalidInteger (s : string)
| InvalidBool (s : string)
| OddHex
| InvalidHex (pair : string).

Definition ip_bytes (ip : IpAddr) : list Z :=
  match ip with V4 a => octets4 a | V6 a => octets6 a end.

Definition parse_int (max : Z) (s : string) : result Z OptionError :=
  ok_or (parse_uint max (trim s)) (InvalidInteger s).

Definition parse_bool (s : string) : result bool OptionError :=
  let t := to_ascii_lowercase (trim s) in
  if bool_decide (t ∈ ["true"; "1"; "yes"; "on"]) then Ok true
  else if bool_decide (t ∈ ["false"; "0"; "no"; "off"]) then Ok false
  else Err (InvalidBool s).

(** The characters [decode_hex] ignores. *)
Definition is_separator (c : ascii) : bool :=
  bool_decide (c ∈ [":"%char; " "%char; "-"%char; chr 9; chr 10; chr 13]).

(** A byte position is a character boundary unless a continuation byte is there. *)
Definition at_boundary (s : string) : bool :=
  match s with
  | EmptyString => true
  | String c _ => negb (is_cont (code c))
  end.

(** The loop of [decode_hex]; [None] is a panic of the slice [&clean[i..i + 2]]. *)
Fixpoint decode_pairs (s : string) : option (result (list Z) OptionError) :=
  match s with
  | EmptyString => Some (Ok [])
  | String a s1 =>
      match s1 with
      | EmptyString => None
      | String b s2 =>
          if negb (at_boundary s && at_boundary s2) then None
          else
            let pair := String a (String b EmptyString) in
            match from_str_radix 16 255 pair with
            | None => Some (Err (InvalidHex pair))
            | Some v =>
                match decode_pairs s2 with
                | None => None
                | Some (Err e) => Some (Err e)
                | Some (Ok l) => Some (Ok (v :: l))
                end
            end
      end
  end.

Definition decode_hex (s : string) : option (result (list Z) OptionError) :=
  let clean := str_filter (fun c => negb (is_separator c)) s in
  if Nat.odd (String.length clean) then Some (Err OddHex) else decode_pairs clean.

(** The loop over the addresses of an [IpList] value. *)
Fixpoint encode_ips (toks : list string) : result (list Z) OptionError :=
  match toks with
  | [] => Ok []
  | tok :: toks' =>
      let? ip := ok_or (parse_ip tok) (InvalidIp tok) in
      let? rest := encode_ips toks' in
      Ok (ip_bytes ip ++ rest)
  end.

Definition encode_option (opt : DhcpOption) : option (result (list Z) OptionError) :=
  let v := do_value opt in
  match do_kind opt with
  | KIp => Some (let? ip := ok_or (parse_ip (trim v)) (InvalidIp v) in Ok (ip_bytes ip))
  | KIpList =>
      Some (let? out := encode_ips (tokens (fun c => bool_decide (c = ",") || is_whitespace c) v) in
            match out with [] => Err EmptyIpList | _ => Ok out end)
  | KU8 => Some (let? n := parse_int u8_max v in Ok [n])
  | KU16 => Some (let? n := parse_int u16_max v in Ok (to_be 2 n))
  | KU32 => Some (let? n := parse_int u32_max v in Ok (to_be 4 n))
  | KBool => Some (let? b := parse_bool v in Ok [if b : bool then 1 else 0])
  | KText => Some (Ok (as_bytes v))
  | KHex => decode_hex v
  end.

(** ** Lemmas *)

Lemma digits_acc_bound radix max acc s n :
  2 <= radix <= 16 -> 0 <= acc <= max -> digits_acc radix max acc s = Some n -> 0 <= n <= max.
Proof.
  intros Hr. revert acc. induction s as [|c s IH]; intros acc Hacc; cbn [digits_acc].
  - intros [= <-]. lia.
  - intros H. repeat case_hyp H; try done. breflect. eapply IH; [|exact H].
    match goal with E : digit_val _ _ = Some _ |- _ => unfold digit_val in E;
      pose proof (code_range c); repeat case_hyp E; try done; injection E as <-; breflect; nia end.
Qed.

Lemma from_str_radix_bound radix max s n :
  2 <= radix <= 16 -> 0 <= max -> from_str_radix radix max s = Some n -> 0 <= n <= max.
Proof.
  intros Hr Hm. unfold from_str_radix. cbv zeta.
  match goal with |- context [is_empty ?b] => generalize b end. intros b H. case_hyp H; [done|].
  eapply digits_acc_bound; [done| |exact H]. lia.
Qed.

Lemma parse_int_bound max s n : 0 <= max -> parse_int max s = Ok n -> 0 <= n <= max.
Proof.
  unfold parse_int, parse_uint, ok_or. intros Hm H. case_hyp H; [|done]. injection H as <-.
  eapply from_str_radix_bound; [|done|eassumption]. lia.
Qed.

Lemma ip_bytes_ok ip : bytes_ok (ip_bytes ip).
Proof. destruct ip; apply to_be_bytes_ok. Qed.
#[export] Hint Resolve ip_bytes_ok : nomina.

Lemma encode_ips_ok toks l : encode_ips toks = Ok l -> bytes_ok l /\ (4 | Z.of_nat (length l)).
Proof.
  revert l. induction toks as [|t toks IH]; intros l; cbn [encode_ips].
  - intros [= <-]. split; [constructor|]. by exists 0.
  - intros H. repeat case_hyp H; try done. injection H as <-.
    destruct (IH _ eq_refl) as [Hb Hd]. split; [solve_bytes|].
    rewrite length_app, Nat2Z.inj_add. apply Z.divide_add_r; [|done].
    match goal with |- (4 | Z.of_nat (length (ip_bytes ?i))) => destruct i end; cbn; [by exists 1|by exists 4].
Qed.

Lemma decode_pairs_bytes s l : decode_pairs s = Some (Ok l) -> bytes_ok l.
Proof.
  assert (forall n s l, (String.length s <= n)%nat -> decode_pairs s = Some (Ok l) -> bytes_ok l) as H.
  { clear. induction n as [|n IH]; intros s l Hs.
    - destruct s; [|cbn in Hs; lia]. cbn. intros [= <-]. constructor.
    - destruct s as [|a [|b s]]; [cbn; intros [= <-]; constructor|done|]. cbn [decode_pairs].
      intros H. repeat case_hyp H; try done. injection H as <-. constructor.
      + eapply from_str_radix_bound; [| |eassumption]; unfold u8_max; lia.
      + eapply IH; [|eassumption]. cbn in Hs. lia. }
  by eapply H.
Qed.

Lemma as_bytes_ok s : bytes_ok (as_bytes s).
Proof.
  unfold as_bytes. apply List.Forall_forall. intros x Hx. apply in_map_iff in Hx as (c & <- & _).
  pose proof (code_range c). unfold is_u8, u8_max. lia.
Qed.
#[export] Hint Resolve as_bytes_ok decode_pairs_bytes : nomina.

(** Every successful encoding is a byte string. *)
Lemma encode_option_bytes opt l : encode_option opt = Some (Ok l) -> bytes_ok l.
Proof.
  unfold encode_option. destruct (do_kind opt); intros H.
  - repeat case_hyp H; simplify_eq. solve_bytes.
  - repeat case_hyp H; simplify_eq. by eapply encode_ips_ok.
  - repeat case_hyp H; simplify_eq.
    match goal with E : parse_int _ _ = Ok _ |- _ => apply parse_int_bound in E; [|done] end. solve_bytes.
  - repeat case_hyp H; simplify_eq. solve_bytes.
  - repeat case_hyp H; simplify_eq. solve_bytes.
  - repeat case_hyp H; simplify_eq; solve_bytes; unfold is_u8, u8_max; lia.
  - simplify_eq. solve_bytes.
  - unfold decode_hex in H. case_hyp H; [done|]. eauto with nomina.
Qed.

(** An option value made of ASCII text never makes the encoder panic. *)
Definition is_ascii_str (s : string) : bool := str_forall (fun c => code c <? 128) s.

Lemma decode_pairs_ascii s :
  is_ascii_str s = true -> Nat.even (String.length s) = true -> exists r, decode_pairs s = Some r.
Proof.
  assert (forall n s, (String.length s <= n)%nat -> is_ascii_str s = true ->
            Nat.even (String.length s) = true -> exists r, decode_pairs s = Some r) as H.
  { clear. induction n as [|n IH]; intros s Hs Ha He.
    - destruct s; [|cbn in Hs; lia]. cbn. eauto.
    - destruct s as [|a [|b s]]; [cbn; eauto|done|]. cbn [decode_pairs].
      cbn in Ha. breflect. cbn in Hs, He. destruct (IH s) as [r Hr]; [lia|done|done|].
      assert (at_boundary (String a (String b s)) && at_boundary s = true) as ->.
      { apply andb_true_iff. split; cbn [at_boundary].
        - unfold is_cont. destruct (Z.leb_spec 128 (code a)); [lia|done].
        - destruct s as [|c s]; [done|]. cbn in H1. breflect. cbn. unfold is_cont.
          destruct (Z.leb_spec 128 (code c)); [lia|done]. }
      cbn [negb]. rewrite Hr. repeat case_goal; eauto. }
  by eapply H.
Qed.

Lemma str_filter_ascii p s : is_ascii_str s = true -> is_ascii_str (str_filter p s) = true.
Proof.
  induction s as [|c s IH]; [done|]. cbn. intros H. breflect. case_goal; [|auto].
  cbn. apply andb_true_iff. split; [by apply Z.ltb_lt|auto].
Qed.

Lemma encode_option_no_panic opt :
  is_ascii_str (do_value opt) = true -> exists r, encode_option opt = Some r.
Proof.
  intros Ha. unfold encode_option. destruct (do_kind opt); eauto.
  unfold decode_hex. destruct (Nat.odd _) eqn:E; [eauto|].
  apply decode_pairs_ascii; [by apply str_filter_ascii|].
  by rewrite <- Nat.negb_odd, E.
Qed.

(** The shape of an encoded value. *)
Definition encoded_shape (kind : DhcpOptionKind) (v : string) (l : list Z) : Prop :=
  match kind with
  | KIp => exists ip, parse_ip (trim v) = Some ip /\ l = ip_bytes ip
  | KIpList => l <> [] /\ (4 | Z.of_nat (length l))
  | KU8 => exists n, parse_uint 255 (trim v) = Some n /\ l = [n]
  | KU16 => length l = 2%nat /\ parse_uint 65535 (trim v) = Some (from_be l)
  | KU32 => length l = 4%nat /\ parse_uint 4294967295 (trim v) = Some (from_be l)
  | KBool => l = [0] \/ l = [1]
  | KText => l = as_bytes v
  | KHex => length l = Nat.div2 (String.length (str_filter (fun c => negb (is_separator c)) v))
  end.

Lemma decode_pairs_length s l : decode_pairs s = Some (Ok l) -> length l = Nat.div2 (String.length s).
Proof.
  assert (forall n s l, (String.length s <= n)%nat -> decode_pairs s = Some (Ok l) ->
            length l = Nat.div2 (String.length s)) as H.
  { clear. induction n as [|n IH]; intros s l Hs.
    - destruct s; [|cbn in Hs; lia]. cbn. by intros [= <-].
    - destruct s as [|a [|b s]]; [cbn; by intros [= <-]|done|]. cbn [decode_pairs].
      intros H. repeat case_hyp H; simplify_eq. cbn [length String.length Nat.div2]. f_equal. apply IH; [cbn in Hs; lia|done]. }
  by eapply H.
Qed.

(** ** Properties *)

(** a successful encoding is a byte string of the shape its kind declares: the
    octets of the address, a non-empty list of whole addresses, the integer at its
    width in network order, a 0/1 flag, the text's bytes, or half as many bytes as
    hexadecimal digits. *)
Theorem encode_option_shape opt l :
  encode_option opt = Some (Ok l) -> bytes_ok l /\ encoded_shape (do_kind opt) (do_value opt) l.
Proof.
  intros H. split; [by eapply encode_option_bytes|]. revert H. unfold encode_option, encoded_shape.
  assert (forall max (k : nat) n, max = 256 ^ Z.of_nat k - 1 -> parse_int max (do_value opt) = Ok n ->
            parse_uint max (trim (do_value opt)) = Some (from_be (to_be k n))) as Hint.
  { intros max k n Hmax Hp. assert (0 < 256 ^ Z.of_nat k) by (apply Z.pow_pos_nonneg; lia).
    pose proof (parse_int_bound max _ n ltac:(lia) Hp). unfold parse_int, ok_or in Hp.
    destruct (parse_uint max _); [|done]. injection Hp as ->. rewrite from_to_be, Z.mod_small by lia. done. }
  destruct (do_kind opt); intros H.
  - destruct (parse_ip _) eqn:E; [|done]. cbn in H. injection H as <-. eauto.
  - destruct (encode_ips _) as [out|] eqn:E; [|done]. apply encode_ips_ok in E as [_ ?].
    destruct out; simplify_eq. done.
  - unfold parse_int, u8_max in H. destruct (parse_uint _ _) eqn:E; [|done]. cbn in H. injection H as <-. eauto.
  - destruct (parse_int _ _) eqn:E; [|done]. injection H as <-. split; [done|exact (Hint u16_max 2%nat _ eq_refl E)].
  - destruct (parse_int _ _) eqn:E; [|done]. injection H as <-. split; [done|exact (Hint u32_max 4%nat _ eq_refl E)].
  - destruct (parse_bool _) as [[]|]; simplify_eq; auto.
  - by injection H as <-.
  - unfold decode_hex in H. case_hyp H; [done|]. by apply decode_pairs_length.
Qed.

(** an option value of ASCII text always encodes or returns an error; a [Hex]
    value with a two-byte character across a pair makes the encoder panic. *)
Theorem encode_option_panic :
  (forall opt, is_ascii_str (do_value opt) = true -> exists r, encode_option opt = Some r) /\
  encode_option (mkDhcpOption 43 None (String "a" (String (chr 195) (String (chr 169) "b"))) KHex) = None.
Proof. split; [exact encode_option_no_panic|]. vm_compute. reflexivity. Qed.

Lemma encode_option_shape_witness :
  bytes_ok [192; 168; 1; 1] /\ encoded_shape KIp " 192.168.1.1" [192; 168; 1; 1].
Proof.
  apply (encode_option_shape (mkDhcpOption 3 None " 192.168.1.1" KIp) [192; 168; 1; 1]). vm_compute. reflexivity.
Defined.
