(* ===== verification/Dhcp4.v ===== *)
(** * The DHCPv4 message codec ([src/dhcp/v4.rs])

    A frame is a list of bytes ([Z] in 0..255).  The option loop runs on the
    rest of the buffer with a fuel argument; [parse_options] gives it one more
    than the number of bytes, and [parse_options_loop_fuel] shows that this is
    always enough (each turn consumes at least one byte). *)

From S2P Require Import Prelude Strs Net External Models.

Definition MAGIC_COOKIE : list Z := [99; 130; 83; 99].
Definition COOKIE_OFFSET : nat := 236.
Definition MIN_LEN : nat := COOKIE_OFFSET + 4.
Definition PAD : Z := 0.
Definition END_ : Z := 255.
Definition OPT_HOSTNAME : Z := 12.
Definition OPT_REQUESTED_IP : Z := 50.
Definition OPT_MESSAGE_TYPE : Z := 53.
Definition OPT_SERVER_ID : Z := 54.
Definition OPT_PARAM_REQUEST_LIST : Z := 55.
Definition OPT_CLIENT_ID : Z := 61.

Module Dhcp4MessageType.
Inductive t : Type := Discover | Offer | Request | Decline | Ack | Nak | Release | Inform.
#[global] Instance t_eq_dec : EqDecision t.
Proof. solve_decision. Defined.

Definition from_u8 (v : Z) : option t :=
match v with
| 1 => Some Discover | 2 => Some Offer | 3 => Some Request | 4 => Some Decline
| 5 => Some Ack | 6 => Some Nak | 7 => Some Release | 8 => Some Inform
| _ => None
end.

Definition to_u8 (m : t) : Z :=
match m with
| Discover => 1 | Offer => 2 | Request => 3 | Decline => 4
| Ack => 5 | Nak => 6 | Release => 7 | Inform => 8
end.

Lemma from_to_u8 m : from_u8 (to_u8 m) = Some m.
Proof. by destruct m. Qed.
End Dhcp4MessageType.

(** An option as stored in a message: its code and its value. *)
Abbreviation raw_option := (Z * list Z)%type.

Record Dhcp4Message : Type := mkDhcp4Message {
  op : Z; htype : Z; hlen : Z; hops : Z; xid : Z; secs : Z; flags : Z;
  ciaddr : Z; yiaddr : Z; siaddr : Z; giaddr : Z;
  chaddr : list Z; sname : list Z; file : list Z;
  options : list raw_option }.

Definition Dhcp4Message_default : Dhcp4Message :=
  mkDhcp4Message 2 1 6 0 0 0 0 UNSPECIFIED UNSPECIFIED UNSPECIFIED UNSPECIFIED
    (replicate 16 0) (replicate 64 0) (replicate 128 0) [].

Inductive Dhcp4Error : Type :=
| FrameTooShort (len : nat)
| BadCookie
| MissingLength (code : Z)
| PastEnd (code len : Z).

(** ** Parsing *)

(** The [while] loop of [parse_options] on the bytes from [i] on. *)
Fixpoint parse_options_loop (fuel : nat) (buf : list Z)
    : option (result (list raw_option) Dhcp4Error) :=
  match fuel with
  | O => None
  | S fuel' =>
      match buf with
      | [] => Some (Ok [])
      | code :: buf1 =>
          if code =? PAD then parse_options_loop fuel' buf1
          else if code =? END_ then Some (Ok [])
          else match buf1 with
          | [] => Some (Err (MissingLength code))
          | len :: buf2 =>
              if (length buf2 <? Z.to_nat len)%nat then Some (Err (PastEnd code len))
              else
                match parse_options_loop fuel' (drop (Z.to_nat len) buf2) with
                | Some (Ok out) => Some (Ok ((code, take (Z.to_nat len) buf2) :: out))
                | r => r
                end
          end
      end
  end.

Definition parse_options (buf : list Z) : result (list raw_option) Dhcp4Error :=
  default (Ok []) (parse_options_loop (S (length buf)) buf).

Definition parse (buf : list Z) : result Dhcp4Message Dhcp4Error :=
  if (length buf <? MIN_LEN)%nat then Err (FrameTooShort (length buf))
  else if negb (bool_decide (slice COOKIE_OFFSET (COOKIE_OFFSET + 4) buf = MAGIC_COOKIE)) then
    Err BadCookie
  else
    let? options := parse_options (drop MIN_LEN buf) in
    let b := byte_at buf in
    Ok (mkDhcp4Message (b 0%nat) (b 1%nat) (b 2%nat) (b 3%nat)
          (from_be [b 4%nat; b 5%nat; b 6%nat; b 7%nat])
          (from_be [b 8%nat; b 9%nat]) (from_be [b 10%nat; b 11%nat])
          (Ipv4Addr_new (b 12%nat) (b 13%nat) (b 14%nat) (b 15%nat))
          (Ipv4Addr_new (b 16%nat) (b 17%nat) (b 18%nat) (b 19%nat))
          (Ipv4Addr_new (b 20%nat) (b 21%nat) (b 22%nat) (b 23%nat))
          (Ipv4Addr_new (b 24%nat) (b 25%nat) (b 26%nat) (b 27%nat))
          (slice 28 44 buf) (slice 44 108 buf) (slice 108 236 buf)
          options).

(** ** Building *)

(** One turn of the [for] loop of [build]. *)
Definition build_option (o : raw_option) : list Z :=
  let '(code, value) := o in
  if (code =? PAD) || (code =? END_) then []
  else
    let len := Nat.min (length value) 255 in
    code :: as_u8 (Z.of_nat len) :: take len value.

Definition build (m : Dhcp4Message) : list Z :=
  [op m; htype m; hlen m; hops m]
    ++ to_be 4 (xid m) ++ to_be 2 (secs m) ++ to_be 2 (flags m)
    ++ octets4 (ciaddr m) ++ octets4 (yiaddr m) ++ octets4 (siaddr m) ++ octets4 (giaddr m)
    ++ chaddr m ++ sname m ++ file m ++ MAGIC_COOKIE
    ++ concat (build_option <$> options m) ++ [END_].

(** ** Accessors *)

Definition option_of (m : Dhcp4Message) (code : Z) : option (list Z) :=
  snd <$> List.find (fun o => fst o =? code) (options m).

Definition ipv4_from (v : list Z) : option Z :=
  match v with
  | [a; b; c; d] => Some (Ipv4Addr_new a b c d)
  | _ => None
  end.

Definition message_type (m : Dhcp4Message) : option Dhcp4MessageType.t :=
  let! v := option_of m OPT_MESSAGE_TYPE in
  let! b := head v in
  Dhcp4MessageType.from_u8 b.

Definition requested_ip (m : Dhcp4Message) : option Z :=
  let! v := option_of m OPT_REQUESTED_IP in ipv4_from v.

Definition server_id (m : Dhcp4Message) : option Z :=
  let! v := option_of m OPT_SERVER_ID in ipv4_from v.

Definition client_id (m : Dhcp4Message) : option (list Z) := option_of m OPT_CLIENT_ID.

Definition hostname (m : Dhcp4Message) : option string :=
  let! v := option_of m OPT_HOSTNAME in
  let! s := from_utf8 v in
  Some (trim_end_matches (chr 0) s).

Definition parameter_request_list (m : Dhcp4Message) : option (list Z) :=
  option_of m OPT_PARAM_REQUEST_LIST.

Definition client_mac (m : Dhcp4Message) : string :=
  let n := Nat.min (Z.to_nat (hlen m)) 16 in
  join ":" (hex2 <$> take n (chaddr m)).

(** [self.options] replaced. *)
Definition with_options (m : Dhcp4Message) (o : list raw_option) : Dhcp4Message :=
  mkDhcp4Message (op m) (htype m) (hlen m) (hops m) (xid m) (secs m) (flags m)
    (ciaddr m) (yiaddr m) (siaddr m) (giaddr m) (chaddr m) (sname m) (file m) o.

Definition set_option (m : Dhcp4Message) (code : Z) (value : list Z) : Dhcp4Message :=
  with_options m (replace_or_push (fun o => fst o =? code) (code, value) (options m)).

Definition set_message_type (m : Dhcp4Message) (mt : Dhcp4MessageType.t) : Dhcp4Message :=
  set_option m OPT_MESSAGE_TYPE [Dhcp4MessageType.to_u8 mt].

(** ** The option loop *)

Lemma parse_options_loop_some fuel buf :
  (length buf < fuel)%nat -> exists r, parse_options_loop fuel buf = Some r.
Proof.
  revert buf. induction fuel as [|fuel IH]; intros buf Hf; [lia|]. cbn [parse_options_loop].
  destruct buf as [|code buf1]; [eauto|]. cbn [length] in Hf.
  destruct (code =? PAD); [apply IH; lia|]. destruct (code =? END_); [eauto|].
  destruct buf1 as [|len buf2]; [eauto|]. cbn [length] in Hf. case_goal; [eauto|].
  destruct (IH (drop (Z.to_nat len) buf2)) as [r ->]; [rewrite length_drop; lia|].
  destruct r; eauto.
Qed.

Lemma parse_options_loop_mono fuel fuel' buf r :
  parse_options_loop fuel buf = Some r -> (fuel <= fuel')%nat ->
  parse_options_loop fuel' buf = Some r.
Proof.
  revert fuel' buf r. induction fuel as [|fuel IH]; intros fuel' buf r; [done|].
  intros H Hf. destruct fuel' as [|fuel']; [lia|]. cbn [parse_options_loop] in *.
  destruct buf as [|code buf1]; [done|]. destruct (code =? PAD); [apply IH; [done|lia]|].
  destruct (code =? END_); [done|]. destruct buf1 as [|len buf2]; [done|].
  destruct (_ <? _)%nat; [done|].
  destruct (parse_options_loop fuel (drop _ _)) as [r'|] eqn:E; [|done].
  erewrite IH; [|exact E|lia]. done.
Qed.

Lemma parse_options_loop_fuel fuel buf :
  (length buf < fuel)%nat -> parse_options_loop fuel buf = Some (parse_options buf).
Proof.
  intros Hf. unfold parse_options.
  destruct (parse_options_loop_some (S (length buf)) buf) as [r Hr]; [lia|].
  rewrite Hr. eapply parse_options_loop_mono; [exact Hr|lia].
Qed.

(** The loop, one turn at a time. *)
Lemma parse_options_eq buf :
  parse_options buf =
  match buf with
  | [] => Ok []
  | code :: buf1 =>
      if code =? PAD then parse_options buf1
      else if code =? END_ then Ok []
      else match buf1 with
      | [] => Err (MissingLength code)
      | len :: buf2 =>
          if (length buf2 <? Z.to_nat len)%nat then Err (PastEnd code len)
          else let? out := parse_options (drop (Z.to_nat len) buf2) in
               Ok ((code, take (Z.to_nat len) buf2) :: out)
      end
  end.
Proof.
  unfold parse_options at 1. cbn [parse_options_loop]. destruct buf as [|code buf1]; [done|].
  case_goal; [rewrite parse_options_loop_fuel; [done|cbn; lia]|].
  case_goal; [done|]. destruct buf1 as [|len buf2]; [done|]. case_goal; [done|].
  rewrite parse_options_loop_fuel; [|rewrite length_drop; cbn; lia].
  by destruct (parse_options _).
Qed.

(** What [build] keeps of an option list. *)
Definition canon_options (l : list raw_option) : list raw_option :=
  (fun o => (fst o, take 255 (snd o))) <$>
    filter (fun o => (fst o =? PAD) || (fst o =? END_) = false) l.

(** The codes and lengths a parsed option can have. *)
Definition option_wf (o : raw_option) : Prop :=
  0 < fst o < 255 /\ (length (snd o) <= 255)%nat /\ bytes_ok (snd o).

Lemma canon_options_id l : Forall option_wf l -> canon_options l = l.
Proof.
  induction 1 as [|[c v] l (Hc & Hl & _) _ IH]; [done|]. unfold canon_options in *.
  cbn [fst snd] in *. rewrite filter_cons_True.
  - cbn. rewrite IH. f_equal. by rewrite take_ge by done.
  - apply orb_false_iff. split; apply Z.eqb_neq; unfold PAD, END_; cbn; lia.
Qed.

Lemma parse_options_build l rest :
  parse_options (concat (build_option <$> l) ++ END_ :: rest) = Ok (canon_options l).
Proof.
  induction l as [|[c v] l IH]; [by rewrite parse_options_eq|].
  cbn [fmap list_fmap concat]. unfold canon_options. rewrite <- app_assoc. unfold build_option at 1.
  destruct ((c =? PAD) || (c =? END_)) eqn:E.
  - rewrite filter_cons_False by (cbn; rewrite E; done). exact IH.
  - rewrite filter_cons_True by exact E. apply orb_false_iff in E as [E1 E2].
    cbv zeta. rewrite <- !app_comm_cons, parse_options_eq, E1, E2.
    unfold as_u8. rewrite Z.mod_small, Nat2Z.id by lia.
    set (n := Nat.min (length v) 255).
    assert (length (take n v) = n) as Hn by (rewrite length_take; lia).
    destruct (Nat.ltb_spec (length (take n v ++ concat (build_option <$> l) ++ END_ :: rest)) n)
      as [Hlt|_]; [rewrite length_app in Hlt; lia|].
    rewrite <- Hn at 1. rewrite drop_app_length. rewrite IH.
    rewrite <- Hn at 1. rewrite take_app_length. cbn [fmap list_fmap fst snd]. f_equal. f_equal.
    f_equal. unfold n. destruct (Nat.le_ge_cases (length v) 255).
    + rewrite Nat.min_l, !take_ge by lia. done.
    + by rewrite Nat.min_r by lia.
Qed.

Lemma parse_options_wf buf l : bytes_ok buf -> parse_options buf = Ok l -> Forall option_wf l.
Proof.
  remember (length buf) as n eqn:Hn. revert buf l Hn.
  induction n as [n IH] using (well_founded_induction lt_wf). intros buf l -> Hb.
  rewrite parse_options_eq. destruct buf as [|code buf1]; [intros [= <-]; constructor|].
  apply Forall_cons in Hb as [Hc Hb]. case_goal; [intros H; eapply IH; [|done..]; cbn; lia|].
  case_goal; [intros [= <-]; constructor|]. destruct buf1 as [|len buf2]; [done|].
  apply Forall_cons in Hb as [Hl Hb]. case_goal; [done|]. intros H.
  destruct (parse_options (drop _ _)) eqn:E; [|done]. injection H as <-.
  unfold PAD, END_, is_u8, u8_max in *. breflect. constructor.
  - split; [cbn; lia|]. split; cbn [fst snd].
    + rewrite length_take. lia.
    + by apply Forall_take.
  - eapply (IH (length (drop (Z.to_nat len) buf2))); [|done| |exact E].
    + rewrite length_drop. cbn. lia.
    + by apply Forall_drop.
Qed.

(** ** Messages *)

(** The widths of the fields of a message. *)
Record message_wf (m : Dhcp4Message) : Prop := {
  wf_op : is_u8 (op m); wf_htype : is_u8 (htype m); wf_hlen : is_u8 (hlen m);
  wf_hops : is_u8 (hops m); wf_xid : is_u32 (xid m); wf_secs : is_u16 (secs m);
  wf_flags : is_u16 (flags m); wf_ciaddr : is_u32 (ciaddr m); wf_yiaddr : is_u32 (yiaddr m);
  wf_siaddr : is_u32 (siaddr m); wf_giaddr : is_u32 (giaddr m);
  wf_chaddr : length (chaddr m) = 16%nat /\ bytes_ok (chaddr m);
  wf_sname : length (sname m) = 64%nat /\ bytes_ok (sname m);
  wf_file : length (file m) = 128%nat /\ bytes_ok (file m);
  wf_options : Forall (fun o => is_u8 (fst o) /\ bytes_ok (snd o)) (options m) }.

(** The first 28 bytes of a frame. *)
Definition header28 (m : Dhcp4Message) : list Z :=
  [op m; htype m; hlen m; hops m]
    ++ to_be 4 (xid m) ++ to_be 2 (secs m) ++ to_be 2 (flags m)
    ++ octets4 (ciaddr m) ++ octets4 (yiaddr m) ++ octets4 (siaddr m) ++ octets4 (giaddr m).

Lemma build_split m :
  build m = header28 m ++ chaddr m ++ sname m ++ file m ++ MAGIC_COOKIE
              ++ concat (build_option <$> options m) ++ [END_].
Proof. unfold build, header28. by rewrite <- !app_assoc. Qed.

(** Parsing what [build] wrote gives the message back, with the structural
    option codes removed and the long values cut at 255 bytes. *)
Lemma parse_build_canon m :
  message_wf m -> parse (build m) = Ok (with_options m (canon_options (options m))).
Proof.
  intros [? ? ? ? ? ? ? ? ? ? ? [Hc _] [Hs _] [Hf _] _]. rewrite build_split. unfold parse.
  set (tl := concat (build_option <$> options m) ++ [END_]).
  assert (length (header28 m) = 28%nat) as Hh by done.
  assert (forall i j (a b c : list Z), length a = i -> length b = (j - i)%nat ->
            slice i j (a ++ b ++ c) = b) as Hsl.
  { intros i j a b c <- Hb. unfold slice. by rewrite drop_app_length, <- Hb, take_app_length. }
  set (F := header28 m ++ chaddr m ++ sname m ++ file m ++ MAGIC_COOKIE ++ tl).
  assert ((length F <? MIN_LEN)%nat = false) as ->.
  { apply Nat.ltb_ge. unfold F. rewrite !length_app, Hh, Hc, Hs, Hf. cbn. lia. }
  assert (slice 28 44 F = chaddr m) as -> by (apply Hsl; done).
  assert (slice 44 108 F = sname m) as ->.
  { unfold F. rewrite (app_assoc (header28 m)). apply Hsl; rewrite ?length_app, ?Hh, ?Hc; done. }
  assert (slice 108 236 F = file m) as ->.
  { unfold F. do 2 rewrite (app_assoc _ _ (_ ++ _)). apply Hsl; rewrite ?length_app, ?Hh, ?Hc, ?Hs; done. }
  assert (slice COOKIE_OFFSET (COOKIE_OFFSET + 4) F = MAGIC_COOKIE) as ->.
  { unfold F. do 3 rewrite (app_assoc _ _ (_ ++ _)).
    apply Hsl; rewrite ?length_app, ?Hh, ?Hc, ?Hs, ?Hf; done. }
  assert (drop MIN_LEN F = tl) as ->.
  { unfold F. rewrite !app_assoc. apply drop_app_length'.
    rewrite !length_app, Hh, Hc, Hs, Hf. done. }
  rewrite bool_decide_eq_true_2 by done. cbn [negb].
  unfold tl at 1. rewrite parse_options_build.
  unfold F, byte_at, header28, Ipv4Addr_new, octets4. cbn [to_be app nth].
  change (Z.of_nat 3) with 3. change (Z.of_nat 2) with 2. change (Z.of_nat 1) with 1.
  change (Z.of_nat 0) with 0.
  rewrite !from_be4, !from_be2 by done. done.
Qed.

(** Every accepted frame gives a message of the declared widths. *)
Lemma parse_wf buf m :
  bytes_ok buf -> parse buf = Ok m -> message_wf m /\ Forall option_wf (options m).
Proof.
  intros Hb. unfold parse. destruct (Nat.ltb_spec (length buf) MIN_LEN) as [|Hlen]; [done|].
  case_goal; [done|]. destruct (parse_options _) as [l|] eqn:E; [|done]. intros [= <-].
  apply parse_options_wf in E as Hl; [|by apply Forall_drop]. split; [|exact Hl].
  unfold MIN_LEN, COOKIE_OFFSET in Hlen.
  constructor; cbn -[byte_at slice from_be]; unfold Ipv4Addr_new; auto 6 with nomina;
    try (split; [apply length_slice; lia|auto with nomina]).
  eapply Forall_impl; [exact Hl|]. intros [c v] (? & _ & ?). split; [|done].
  unfold is_u8, u8_max. cbn in *. lia.
Qed.

(** The grammar of the options region (RFC 2132): pads, an end marker, and
    code/length/value triples. *)
Inductive tlv_stream : list Z -> list raw_option -> Prop :=
| tlv_eof : tlv_stream [] []
| tlv_pad rest l : tlv_stream rest l -> tlv_stream (PAD :: rest) l
| tlv_end rest : tlv_stream (END_ :: rest) []
| tlv_option code value rest l :
    0 < code < 255 -> (length value <= 255)%nat -> tlv_stream rest l ->
    tlv_stream (code :: Z.of_nat (length value) :: value ++ rest) ((code, value) :: l).

Lemma parse_options_grammar buf l :
  bytes_ok buf -> parse_options buf = Ok l <-> tlv_stream buf l.
Proof.
  intros Hb. split.
  - revert l Hb. remember (length buf) as n eqn:Hn. revert buf Hn.
    induction n as [n IH] using (well_founded_induction lt_wf). intros buf -> l Hb.
    rewrite parse_options_eq. destruct buf as [|code buf1]; [intros [= <-]; constructor|].
    apply Forall_cons in Hb as [Hc Hb]. case_goal; breflect.
    { subst. intros H. constructor. eapply IH; [|done..]. cbn. lia. }
    case_goal; breflect; [subst; intros [= <-]; constructor|].
    destruct buf1 as [|len buf2]; [done|]. apply Forall_cons in Hb as [Hl Hb].
    destruct (Nat.ltb_spec (length buf2) (Z.to_nat len)) as [|Hle]; [done|]. intros H.
    destruct (parse_options (drop _ _)) as [out|] eqn:E; [|done]. injection H as <-.
    unfold PAD, END_, is_u8, u8_max in *.
    assert (length (take (Z.to_nat len) buf2) = Z.to_nat len) as Ht by (rewrite length_take; lia).
    rewrite <- (take_drop (Z.to_nat len) buf2) at 1.
    replace len with (Z.of_nat (length (take (Z.to_nat len) buf2))) at 1 by lia.
    constructor; [lia|lia|]. eapply (IH (length (drop (Z.to_nat len) buf2))).
    + rewrite length_drop. cbn. lia.
    + done.
    + by apply Forall_drop.
    + done.
  - induction 1 as [|rest l _ IH|rest|code value rest l Hc Hv _ IH]; rewrite parse_options_eq.
    + done.
    + apply Forall_cons in Hb as [_ Hb]. auto.
    + done.
    + apply Forall_cons in Hb as [_ Hb]. apply Forall_cons in Hb as [_ Hb].
      apply Forall_app in Hb as [_ Hb]. unfold PAD, END_. rewrite Nat2Z.id.
      do 2 (case_goal; [breflect; lia|]). case_goal.
      * apply Nat.ltb_lt in Heqb1. rewrite length_app in Heqb1. lia.
      * by rewrite drop_app_length, take_app_length, IH.
Qed.

(** ** Accessors after updates *)

Lemma option_of_set_same m code v : option_of (set_option m code v) code = Some v.
Proof.
  unfold option_of, set_option. cbn. rewrite find_replace_or_push_same; [done|]. cbn. lia.
Qed.

Lemma option_of_set_other m code code' v :
  code <> code' -> option_of (set_option m code v) code' = option_of m code'.
Proof.
  intros Hne. unfold option_of, set_option. cbn. f_equal. apply find_replace_or_push_other.
  - cbn. lia.
  - intros [c w]. cbn. lia.
Qed.
#[export] Hint Rewrite option_of_set_same : nomina.
#[export] Hint Rewrite option_of_set_other using (unfold OPT_MESSAGE_TYPE; congruence || lia) : nomina.

Lemma ipv4_from_octets a : is_u32 a -> ipv4_from (octets4 a) = Some a.
Proof. intros Ha. unfold octets4, ipv4_from, Ipv4Addr_new. cbn [to_be]. by rewrite from_be4. Qed.

(** ** Properties *)

(** C29: serializing a message and parsing the bytes gives the message back; options
    with the structural codes 0 and 255 are dropped and a value is cut at 255 bytes. *)
Theorem dhcp4_parse_build m :
  message_wf m -> parse (build m) = Ok (with_options m (canon_options (options m))).
Proof. apply parse_build_canon. Qed.

(** a frame the parser accepts is rebuilt by [build] into a frame that parses
    to the same message, and its option codes, lengths and fields are in range. *)
Theorem dhcp4_reserialize buf m :
  bytes_ok buf -> parse buf = Ok m ->
  message_wf m /\ Forall option_wf (options m) /\ parse (build m) = Ok m.
Proof.
  intros Hb Hp. destruct (parse_wf buf m Hb Hp) as [Hm Ho]. split_and!; [done..|].
  rewrite parse_build_canon by done. rewrite canon_options_id by done. by destruct m.
Qed.

(** the parser accepts exactly the frames of at least 240 bytes with the magic
    cookie whose options region follows the option grammar, and returns the
    options of that grammar; every other frame is an error value. *)
Theorem dhcp4_parse_accepts buf l :
  bytes_ok buf ->
  (exists m, parse buf = Ok m /\ options m = l) <->
  (MIN_LEN <= length buf)%nat /\ slice COOKIE_OFFSET (COOKIE_OFFSET + 4) buf = MAGIC_COOKIE /\
  tlv_stream (drop MIN_LEN buf) l.
Proof.
  intros Hb. rewrite <- parse_options_grammar by (by apply Forall_drop). unfold parse.
  destruct (Nat.ltb_spec (length buf) MIN_LEN) as [Hlt|Hge]; [split; [by intros (? & ? & ?)|lia]|].
  case_bool_decide as Hc; cbn [negb]; [|split; [by intros (? & ? & ?)|by intros (? & ? & ?)]].
  destruct (parse_options _) as [o|e] eqn:E.
  - split; [intros (m & [= <-] & <-); done|intros (_ & _ & [= <-]); eauto].
  - split; [by intros (? & ? & ?)|by intros (_ & _ & ?)].
Qed.

(** ** Witnesses: the DISCOVER of the unit tests *)

Definition sample_discover : Dhcp4Message :=
  let m := mkDhcp4Message 1 1 6 0 305419896 0 32768 0 0 0 0
             ([222; 173; 190; 239; 0; 1] ++ replicate 10 0) (replicate 64 0) (replicate 128 0) [] in
  let m := set_message_type m Dhcp4MessageType.Discover in
  let m := set_option m OPT_REQUESTED_IP [192; 168; 1; 50] in
  let m := set_option m OPT_CLIENT_ID [1; 222; 173; 190; 239; 0; 1] in
  let m := set_option m OPT_HOSTNAME (as_bytes "laptop") in
  set_option m OPT_PARAM_REQUEST_LIST [1; 3; 6; 15].

Lemma sample_discover_wf : message_wf sample_discover.
Proof.
  constructor; try (split; [reflexivity|apply bytes_okb; vm_compute; reflexivity]);
    try (vm_compute; split; discriminate).
  repeat (apply List.Forall_cons; [split; [vm_compute; split; discriminate
                                          |apply bytes_okb; vm_compute; reflexivity]|]).
  constructor.
Qed.

Example sample_discover_accessors :
  match parse (build sample_discover) with
  | Ok m => message_type m = Some Dhcp4MessageType.Discover /\
            requested_ip m = Some (Ipv4Addr_new 192 168 1 50) /\
            hostname m = Some "laptop" /\ client_mac m = "de:ad:be:ef:00:01"
  | Err _ => False
  end.
Proof. vm_compute. auto. Qed.

Lemma dhcp4_parse_build_witness :
  message_wf sample_discover /\ parse (build sample_discover) = Ok sample_discover.
Proof. split; [exact sample_discover_wf|apply (dhcp4_parse_build sample_discover sample_discover_wf)]. Defined.

Lemma dhcp4_reserialize_witness :
  parse (build sample_discover) = Ok sample_discover /\
  parse (build sample_discover) = Ok sample_discover.
Proof.
  split; [reflexivity|].
  apply (dhcp4_reserialize (build sample_discover) sample_discover);
    [apply bytes_okb; vm_compute; reflexivity|reflexivity].
Defined.

Lemma dhcp4_parse_accepts_witness :
  tlv_stream (drop MIN_LEN (build sample_discover)) (options sample_discover).
Proof.
  apply (dhcp4_parse_accepts (build sample_discover) (options sample_discover));
    [apply bytes_okb; vm_compute; reflexivity|].
  exists sample_discover. split; reflexivity.
Defined.
