(* ===== verification/Dhcp6.v ===== *)
(** * The DHCPv6 message codec ([src/dhcp/v6.rs])

    As for DHCPv4, the option loop has a fuel argument of one more than the
    number of bytes, which is enough because a turn consumes at least four. *)

From S2P Require Import Prelude Strs Net External Models.

Definition OPT_CLIENT_ID : Z := 1.
Definition OPT_SERVER_ID : Z := 2.
Definition OPT_IA_NA : Z := 3.
Definition OPT_IA_ADDR : Z := 5.

Module Dhcp6MessageType.
Inductive t : Type :=
| Solicit | Advertise | Request | Confirm | Renew | Rebind | Reply | Release | Decline
| InformationRequest.
#[global] Instance t_eq_dec : EqDecision t.
Proof. solve_decision. Defined.

Definition from_u8 (v : Z) : option t :=
match v with
| 1 => Some Solicit | 2 => Some Advertise | 3 => Some Request | 4 => Some Confirm
| 5 => Some Renew | 6 => Some Rebind | 7 => Some Reply | 8 => Some Release
| 9 => Some Decline | 11 => Some InformationRequest
| _ => None
end.

Definition to_u8 (m : t) : Z :=
match m with
| Solicit => 1 | Advertise => 2 | Request => 3 | Confirm => 4 | Renew => 5 | Rebind => 6
| Reply => 7 | Release => 8 | Decline => 9 | InformationRequest => 11
end.

Lemma from_to_u86 m : from_u8 (to_u8 m) = Some m.
Proof. by destruct m. Qed.
End Dhcp6MessageType.

Record IaAddress : Type := mkIaAddress { ia_addr : Z; ia_preferred : Z; ia_valid : Z }.
Record IaNa : Type := mkIaNa { iaid : Z; ia_t1 : Z; ia_t2 : Z; addresses : list IaAddress }.
Record Dhcp6Message : Type := mkDhcp6Message {
  msg_type : Dhcp6MessageType.t; transaction_id : list Z; options : list (Z * list Z) }.

(** [Dhcp6Message::new]. *)
Definition Dhcp6Message_new (t : Dhcp6MessageType.t) (tid : list Z) : Dhcp6Message :=
  mkDhcp6Message t tid [].

Inductive Dhcp6Error : Type :=
| FrameTooShort (len : nat)
| UnknownType (v : Z)
| TruncatedHeader
| PastEnd (code len : Z)
| IaNaTooShort
| IaAddrTooShort.

(** ** Options *)

Definition push_option (code : Z) (value : list Z) : list Z :=
  let len := Nat.min (length value) (Z.to_nat u16_max) in
  to_be 2 code ++ to_be 2 (as_u16 (Z.of_nat len)) ++ take len value.

Fixpoint parse_options_loop (fuel : nat) (buf : list Z)
    : option (result (list (Z * list Z)) Dhcp6Error) :=
  match fuel with
  | O => None
  | S fuel' =>
      match buf with
      | [] => Some (Ok [])
      | b0 :: b1 :: b2 :: b3 :: rest =>
          let code := from_be [b0; b1] in
          let len := from_be [b2; b3] in
          if (length rest <? Z.to_nat len)%nat then Some (Err (PastEnd code len))
          else
            match parse_options_loop fuel' (drop (Z.to_nat len) rest) with
            | Some (Ok out) => Some (Ok ((code, take (Z.to_nat len) rest) :: out))
            | r => r
            end
      | _ => Some (Err TruncatedHeader)
      end
  end.

Definition parse_options (buf : list Z) : result (list (Z * list Z)) Dhcp6Error :=
  default (Ok []) (parse_options_loop (S (length buf)) buf).

(** ** Messages *)

Definition parse (buf : list Z) : result Dhcp6Message Dhcp6Error :=
  match buf with
  | b0 :: b1 :: b2 :: b3 :: rest =>
      let? t := ok_or (Dhcp6MessageType.from_u8 b0) (UnknownType b0) in
      let? options := parse_options rest in
      Ok (mkDhcp6Message t [b1; b2; b3] options)
  | _ => Err (FrameTooShort (length buf))
  end.

Definition build (m : Dhcp6Message) : list Z :=
  Dhcp6MessageType.to_u8 (msg_type m) :: transaction_id m
    ++ concat ((fun o => push_option (fst o) (snd o)) <$> options m).

Definition option_of (m : Dhcp6Message) (code : Z) : option (list Z) :=
  snd <$> List.find (fun o => fst o =? code) (options m).

Definition set_option (m : Dhcp6Message) (code : Z) (value : list Z) : Dhcp6Message :=
  mkDhcp6Message (msg_type m) (transaction_id m)
    (replace_or_push (fun o => fst o =? code) (code, value) (options m)).

Definition to_hex (v : list Z) : string := concat_str (hex2 <$> v).
Definition client_duid (m : Dhcp6Message) : option string := to_hex <$> option_of m OPT_CLIENT_ID.
Definition server_duid (m : Dhcp6Message) : option string := to_hex <$> option_of m OPT_SERVER_ID.

Definition duid_ll (hw_type : Z) (link_layer : list Z) : list Z :=
  to_be 2 3 ++ to_be 2 hw_type ++ link_layer.

(** ** IA_NA *)

Definition encode_ia_na (ia : IaNa) : list Z :=
  to_be 4 (iaid ia) ++ to_be 4 (ia_t1 ia) ++ to_be 4 (ia_t2 ia)
    ++ concat ((fun a => push_option OPT_IA_ADDR
                           (octets6 (ia_addr a) ++ to_be 4 (ia_preferred a) ++ to_be 4 (ia_valid a)))
                 <$> addresses ia).

Definition parse_ia_addr (buf : list Z) : result IaAddress Dhcp6Error :=
  if (length buf <? 24)%nat then Err IaAddrTooShort
  else Ok (mkIaAddress (from_be (slice 0 16 buf)) (from_be (slice 16 20 buf)) (from_be (slice 20 24 buf))).

(** The [for] loop of [parse_ia_na]. *)
Fixpoint ia_addresses (opts : list (Z * list Z)) : result (list IaAddress) Dhcp6Error :=
  match opts with
  | [] => Ok []
  | (code, value) :: opts' =>
      if code =? OPT_IA_ADDR then
        let? a := parse_ia_addr value in
        let? rest := ia_addresses opts' in
        Ok (a :: rest)
      else ia_addresses opts'
  end.

Definition parse_ia_na (buf : list Z) : result IaNa Dhcp6Error :=
  if (length buf <? 12)%nat then Err IaNaTooShort
  else
    let? opts := parse_options (drop 12 buf) in
    let? addresses := ia_addresses opts in
    Ok (mkIaNa (from_be (slice 0 4 buf)) (from_be (slice 4 8 buf)) (from_be (slice 8 12 buf)) addresses).

Definition ia_na (m : Dhcp6Message) : option IaNa :=
  let! v := option_of m OPT_IA_NA in ok (parse_ia_na v).

(** ** The option loop *)

Lemma parse_options_loop_fuel6 fuel fuel' buf :
  (length buf < fuel)%nat -> (length buf < fuel')%nat ->
  exists r, parse_options_loop fuel buf = Some r /\ parse_options_loop fuel' buf = Some r.
Proof.
  revert fuel' buf. induction fuel as [|fuel IH]; intros fuel' buf Hf Hf'; [lia|].
  destruct fuel' as [|fuel']; [lia|]. cbn [parse_options_loop].
  destruct buf as [|b0 [|b1 [|b2 [|b3 rest]]]]; eauto. cbv zeta.
  case_goal; [eauto|]. cbn [length] in *.
  destruct (IH fuel' (drop (Z.to_nat (from_be [b2; b3])) rest)) as (r & -> & ->);
    rewrite ?length_drop; [lia..|]. destruct r; eauto.
Qed.

Lemma parse_options_eq6 buf :
  parse_options buf =
  match buf with
  | [] => Ok []
  | b0 :: b1 :: b2 :: b3 :: rest =>
      let code := from_be [b0; b1] in
      let len := from_be [b2; b3] in
      if (length rest <? Z.to_nat len)%nat then Err (PastEnd code len)
      else let? out := parse_options (drop (Z.to_nat len) rest) in
           Ok ((code, take (Z.to_nat len) rest) :: out)
  | _ => Err TruncatedHeader
  end.
Proof.
  unfold parse_options at 1. cbn [parse_options_loop].
  destruct buf as [|b0 [|b1 [|b2 [|b3 rest]]]]; try done. cbv zeta. case_goal; [done|].
  set (tl := drop (Z.to_nat (from_be [b2; b3])) rest).
  destruct (parse_options_loop_fuel6 (length (b0 :: b1 :: b2 :: b3 :: rest)) (S (length tl)) tl)
    as (r & Hr & Hr'); [unfold tl; rewrite length_drop; cbn; lia|lia|].
  unfold parse_options. rewrite Hr, Hr'. by destruct r.
Qed.

(** What a parsed option satisfies. *)
Definition option_wf (o : Z * list Z) : Prop :=
  is_u16 (fst o) /\ Z.of_nat (length (snd o)) <= u16_max /\ bytes_ok (snd o).

Lemma parse_push_option code value rest :
  is_u16 code -> Z.of_nat (length value) <= u16_max ->
  parse_options (push_option code value ++ rest) =
  (let? out := parse_options rest in Ok ((code, value) :: out)).
Proof.
  intros Hc Hv. unfold u16_max in Hv. unfold push_option. cbv zeta.
  rewrite Nat.min_l by (unfold u16_max; lia). unfold as_u16. rewrite Z.mod_small by lia.
  rewrite <- !app_assoc, parse_options_eq6. rewrite take_ge by lia.
  set (n := Z.of_nat (length value)) in *. cbn [to_be app].
  change (Z.of_nat 1) with 1. change (Z.of_nat 0) with 0. cbv zeta.
  rewrite !from_be2 by (unfold is_u16, u16_max; lia || done).
  unfold n. rewrite Nat2Z.id.
  destruct (Nat.ltb_spec (length (value ++ rest)) (length value)) as [Hlt|_].
  { rewrite length_app in Hlt. lia. }
  by rewrite drop_app_length, take_app_length.
Qed.

Lemma parse_options_pushes l rest :
  Forall option_wf l ->
  parse_options (concat ((fun o => push_option (fst o) (snd o)) <$> l) ++ rest) =
  (let? out := parse_options rest in Ok (l ++ out)).
Proof.
  induction 1 as [|[c v] l (Hc & Hv & _) _ IH]; cbn [fmap list_fmap concat app].
  - by destruct (parse_options rest).
  - rewrite <- app_assoc. cbn [fst snd] in *. rewrite parse_push_option, IH by done.
    by destruct (parse_options rest).
Qed.

Lemma parse_options_pushes_nil l :
  Forall option_wf l ->
  parse_options (concat ((fun o => push_option (fst o) (snd o)) <$> l)) = Ok l.
Proof.
  intros Hl. rewrite <- (app_nil_r (concat _)), parse_options_pushes by done.
  by rewrite parse_options_eq6, app_nil_r.
Qed.

Lemma parse_options_wf6 buf l : bytes_ok buf -> parse_options buf = Ok l -> Forall option_wf l.
Proof.
  remember (length buf) as n eqn:Hn. revert buf l Hn.
  induction n as [n IH] using (well_founded_induction lt_wf). intros buf l -> Hb.
  rewrite parse_options_eq6. destruct buf as [|b0 [|b1 [|b2 [|b3 rest]]]]; try done.
  { intros [= <-]. constructor. }
  cbv zeta. do 4 (apply Forall_cons in Hb as [? Hb]).
  pose proof (from_be2_u16 b2 b3 ltac:(done) ltac:(done)) as [? ?].
  case_goal; [done|]. intros H'. destruct (parse_options (drop _ _)) eqn:E; [|done].
  injection H' as <-. constructor.
  - split; [cbn [fst]; auto with nomina|]. split; cbn [snd]; [rewrite length_take; lia|by apply Forall_take].
  - eapply (IH (length (drop (Z.to_nat (from_be [b2; b3])) rest))); [|done| |exact E].
    + rewrite length_drop. cbn. lia.
    + by apply Forall_drop.
Qed.

(** ** Messages *)

Record message_wf (m : Dhcp6Message) : Prop := {
  wf_tid : length (transaction_id m) = 3%nat /\ bytes_ok (transaction_id m);
  wf_options : Forall option_wf (options m) }.

Lemma parse_build m : message_wf m -> parse (build m) = Ok m.
Proof.
  intros [[Ht _] Ho]. destruct m as [t tid o]. cbn in Ht, Ho.
  destruct tid as [|x [|y [|z [|? ?]]]]; try done. unfold build, parse. cbn [transaction_id options msg_type]. rewrite <- !app_comm_cons, app_nil_l.
  rewrite Dhcp6MessageType.from_to_u86. cbn [ok_or].
  by rewrite parse_options_pushes_nil.
Qed.

Lemma parse_wf6 buf m : bytes_ok buf -> parse buf = Ok m -> message_wf m.
Proof.
  intros Hb. unfold parse. destruct buf as [|b0 [|b1 [|b2 [|b3 rest]]]]; try done.
  do 4 (apply Forall_cons in Hb as [? Hb]).
  destruct (Dhcp6MessageType.from_u8 b0); cbn [ok_or]; [|done].
  destruct (parse_options rest) eqn:E; [|done]. intros [= <-].
  constructor; cbn [transaction_id options]; [|by eapply parse_options_wf6].
  split; [done|]. solve_bytes.
Qed.

Lemma option_of_set_same6 m code v : option_of (set_option m code v) code = Some v.
Proof.
  unfold option_of, set_option. cbn. rewrite find_replace_or_push_same; [done|]. cbn. lia.
Qed.

Lemma option_of_set_other6 m code code' v :
  code <> code' -> option_of (set_option m code v) code' = option_of m code'.
Proof.
  intros Hne. unfold option_of, set_option. cbn. f_equal. apply find_replace_or_push_other.
  - cbn. lia.
  - intros [c w]. cbn. lia.
Qed.

(** ** IA_NA *)

Definition ia_address_wf (a : IaAddress) : Prop :=
  is_u128 (ia_addr a) /\ is_u32 (ia_preferred a) /\ is_u32 (ia_valid a).
Definition ia_na_wf (ia : IaNa) : Prop :=
  is_u32 (iaid ia) /\ is_u32 (ia_t1 ia) /\ is_u32 (ia_t2 ia) /\ Forall ia_address_wf (addresses ia).

Lemma from_to_be_u32 n : is_u32 n -> from_be (to_be 4 n) = n.
Proof. exact (from_be4 n). Qed.

Lemma from_to_be_u128 n : is_u128 n -> from_be (to_be 16 n) = n.
Proof.
  intros Hn. rewrite from_to_be. apply Z.mod_small. exact Hn.
Qed.

Definition encode_ia_addr (a : IaAddress) : list Z :=
  octets6 (ia_addr a) ++ to_be 4 (ia_preferred a) ++ to_be 4 (ia_valid a).

Lemma parse_encode_ia_addr a : ia_address_wf a -> parse_ia_addr (encode_ia_addr a) = Ok a.
Proof.
  intros (Ha & Hp & Hv). unfold parse_ia_addr, encode_ia_addr, octets6.
  set (x := to_be 16 (ia_addr a)). set (y := to_be 4 (ia_preferred a)). set (z := to_be 4 (ia_valid a)).
  change (length (x ++ y ++ z) <? 24)%nat with false.
  change (slice 0 16 (x ++ y ++ z)) with x. change (slice 16 20 (x ++ y ++ z)) with y.
  change (slice 20 24 (x ++ y ++ z)) with z. unfold x, y, z.
  rewrite from_to_be_u128, !from_to_be_u32 by done. by destruct a.
Qed.

Lemma ia_addresses_encode l :
  Forall ia_address_wf l ->
  ia_addresses ((fun a => (OPT_IA_ADDR, encode_ia_addr a)) <$> l) = Ok l.
Proof.
  induction 1 as [|a l Ha _ IH]; [done|]. cbn [fmap list_fmap ia_addresses].
  rewrite Z.eqb_refl, parse_encode_ia_addr by done.
  change (list_fmap _ _ _ l) with ((fun a => (OPT_IA_ADDR, encode_ia_addr a)) <$> l). by rewrite IH.
Qed.

Lemma parse_encode_ia_na ia : ia_na_wf ia -> parse_ia_na (encode_ia_na ia) = Ok ia.
Proof.
  intros (Hi & H1 & H2 & Ha). unfold parse_ia_na, encode_ia_na.
  set (x := to_be 4 (iaid ia)). set (y := to_be 4 (ia_t1 ia)). set (z := to_be 4 (ia_t2 ia)).
  match goal with |- context [x ++ y ++ z ++ ?t] => set (tl := t) end.
  change (length (x ++ y ++ z ++ tl) <? 12)%nat with false.
  change (drop 12 (x ++ y ++ z ++ tl)) with tl.
  change (slice 0 4 (x ++ y ++ z ++ tl)) with x. change (slice 4 8 (x ++ y ++ z ++ tl)) with y.
  change (slice 8 12 (x ++ y ++ z ++ tl)) with z.
  assert (parse_options tl = Ok ((fun a => (OPT_IA_ADDR, encode_ia_addr a)) <$> addresses ia)) as ->.
  { unfold tl. pose proof (parse_options_pushes_nil ((fun a => (OPT_IA_ADDR, encode_ia_addr a)) <$> addresses ia)) as E.
    rewrite <- list_fmap_compose in E. unfold compose in E. cbn [fst snd] in E. apply E.
    apply Forall_fmap, Forall_true. intros a. split; [|split]; cbn [compose fst snd].
    - unfold is_u16, u16_max, OPT_IA_ADDR. lia.
    - vm_compute. discriminate.
    - unfold encode_ia_addr, octets6. solve_bytes. }
  rewrite ia_addresses_encode by done. unfold x, y, z. rewrite !from_to_be_u32 by done. by destruct ia.
Qed.

(** A parsed stream is the concatenation of its encoded options. *)
Lemma push_parsed_options buf l :
  bytes_ok buf -> parse_options buf = Ok l ->
  concat ((fun o => push_option (fst o) (snd o)) <$> l) = buf.
Proof.
  remember (length buf) as n eqn:Hn. revert buf l Hn.
  induction n as [n IH] using (well_founded_induction lt_wf). intros buf l -> Hb.
  rewrite parse_options_eq6. destruct buf as [|b0 [|b1 [|b2 [|b3 rest]]]]; try done.
  { by intros [= <-]. }
  cbv zeta. do 4 (apply Forall_cons in Hb as [? Hb]).
  pose proof (from_be2_u16 b2 b3 ltac:(done) ltac:(done)) as [? Hmax].
  destruct (Nat.ltb_spec (length rest) (Z.to_nat (from_be [b2; b3]))) as [|Hle]; [done|].
  intros H'. destruct (parse_options (drop _ _)) as [out|] eqn:E; [|done]. injection H' as <-.
  rewrite fmap_cons, concat_cons. cbn [fst snd].
  assert (Hd : bytes_ok (drop (Z.to_nat (from_be [b2; b3])) rest)) by by apply Forall_drop.
  assert (Hl : (length (drop (Z.to_nat (from_be [b2; b3])) rest) < length (b0 :: b1 :: b2 :: b3 :: rest))%nat)
    by (rewrite length_drop; cbn; lia).
  pose proof (IH _ Hl _ out eq_refl Hd E) as IHout. rewrite IHout.
  unfold push_option. rewrite length_take, Nat.min_l with (n := Z.to_nat (from_be [b2; b3])) by done.
  rewrite Nat.min_l by lia. unfold as_u16. rewrite Z.mod_small by (unfold u16_max in Hmax; lia).
  rewrite Z2Nat.id by done.
  change 2%nat with (length [b0; b1]) at 1. rewrite to_from_be by solve_bytes.
  change 2%nat with (length [b2; b3]). rewrite to_from_be by solve_bytes.
  rewrite take_take, Nat.min_id, <- !app_assoc. cbn [app]. by rewrite take_drop.
Qed.

(** ** Properties *)

(** C39: the DHCPv6 codec is a bijection between the accepted frames and the
    messages of the declared widths: a frame parses to a message exactly when
    the message is well formed and builds that frame. *)
Theorem dhcp6_parse_build buf m :
  bytes_ok buf -> parse buf = Ok m <-> message_wf m /\ build m = buf.
Proof.
  intros Hb. split; [|intros [Hm <-]; by apply parse_build].
  intros Hp. split; [by eapply parse_wf6|]. revert Hp. unfold parse.
  destruct buf as [|b0 [|b1 [|b2 [|b3 rest]]]]; try done. do 4 (apply Forall_cons in Hb as [? Hb]).
  destruct (Dhcp6MessageType.from_u8 b0) as [t|] eqn:Et; cbn [ok_or]; [|done].
  destruct (parse_options rest) as [l|] eqn:E; [|done]. intros [= <-].
  unfold build. cbn [msg_type transaction_id options]. rewrite push_parsed_options with (buf := rest) by done.
  unfold Dhcp6MessageType.from_u8 in Et. repeat case_hyp Et; by simplify_eq.
Qed.

(** the IA_NA a reply carries is the IA_NA the client reads: an
    association encoded into option 3 survives building and parsing the frame. *)
Theorem dhcp6_ia_na_roundtrip m ia :
  message_wf m -> ia_na_wf ia -> Z.of_nat (length (encode_ia_na ia)) <= u16_max ->
  exists m', parse (build (set_option m OPT_IA_NA (encode_ia_na ia))) = Ok m' /\ ia_na m' = Some ia.
Proof.
  intros [Ht Ho] Hia Hlen. exists (set_option m OPT_IA_NA (encode_ia_na ia)). split.
  - apply parse_build. constructor; [exact Ht|]. cbn [set_option options].
    apply Forall_replace_or_push; [|done]. split; [|split]; cbn [fst snd]; [|done|].
    + unfold OPT_IA_NA, is_u16, u16_max. lia.
    + unfold encode_ia_na. solve_bytes. apply Forall_concat, Forall_fmap, Forall_true.
      intros a. unfold compose, push_option, octets6. solve_bytes.
  - unfold ia_na. by rewrite option_of_set_same6, parse_encode_ia_na.
Qed.

(** ** Witnesses *)

Definition sample_solicit : Dhcp6Message :=
  set_option (Dhcp6Message_new Dhcp6MessageType.Solicit [170; 187; 204]) OPT_CLIENT_ID
    (duid_ll 1 [222; 173; 190; 239; 0; 1]).
Definition sample_ia : IaNa := mkIaNa 305419896 1000 2000 [mkIaAddress 42540766411282592856903984951653826562 3600 7200].

Lemma dhcp6_parse_build_witness : message_wf sample_solicit /\ build sample_solicit = build sample_solicit.
Proof.
  apply (dhcp6_parse_build (build sample_solicit) sample_solicit);
    [apply bytes_okb; vm_compute; reflexivity|reflexivity].
Defined.

Lemma sample_solicit_wf : message_wf sample_solicit.
Proof.
  eapply (parse_wf6 (build sample_solicit)); [|reflexivity]. apply bytes_okb. vm_compute. reflexivity.
Qed.

Lemma dhcp6_ia_na_roundtrip_witness :
  exists m', parse (build (set_option sample_solicit OPT_IA_NA (encode_ia_na sample_ia))) = Ok m' /\
             ia_na m' = Some sample_ia.
Proof.
  apply (dhcp6_ia_na_roundtrip sample_solicit sample_ia).
  - exact sample_solicit_wf.
  - split; [vm_compute; split; discriminate|]. split; [vm_compute; split; discriminate|].
    split; [vm_compute; split; discriminate|]. apply List.Forall_cons; [|constructor].
    split; [|split]; vm_compute; split; (discriminate || reflexivity).
  - vm_compute. discriminate.
Defined.
