(* ===== verification/Lease.v ===== *)
(** * Address allocation ([src/dhcp/lease.rs])

    The scan of step 4 has a fuel argument: one turn per candidate address, at
    most [MAX_V6_SCAN] of them for IPv6.  [scan_spec] shows that the loop with
    this fuel is the search of the candidate list, so the fuel never decides. *)

From S2P Require Import Prelude Strs Net External Instances Models.

Definition MAX_V6_SCAN : Z := 65536.
Definition u128_max : Z := 2 ^ 128 - 1.

Definition family_matches (ip : IpAddr) (family : IpFamily) : bool :=
  match ip, family with
  | V4 _, FamV4 | V6 _, FamV6 => true
  | _, _ => false
  end.

Definition ip_to_u128 (ip : IpAddr) : Z := match ip with V4 a => a | V6 a => a end.

Definition u128_to_ip (v : Z) (family : IpFamily) : IpAddr :=
  match family with FamV4 => V4 (as_u32 v) | FamV6 => V6 v end.

Section Alloc.
Context `{TIME : Rfc3339}.

Definition lease_expired (l : DhcpLease) (now_unix : Z) : bool :=
  match parse_unix (ls_expires_at l) with
  | Some t => t <=? now_unix
  | None => true
  end.

Definition is_holding (l : DhcpLease) (now_unix : Z) : bool :=
  match ls_state l with Active | Offered => true | _ => false end && negb (lease_expired l now_unix).

(** Step 1: the first reservation of the client whose address parses. *)
Fixpoint find_reservation (reservations : list DhcpReservation) (client_id : string) : option IpAddr :=
  match reservations with
  | [] => None
  | r :: rest =>
      if eq_ignore_ascii_case (rs_identifier r) client_id then
        match parse_ip (rs_ip r) with
        | Some ip => Some ip
        | None => find_reservation rest client_id
        end
      else find_reservation rest client_id
  end.

(** Insert an address of the family, given as text, into the set. *)
Definition mark (family : IpFamily) (text : string) (used : gset Z) : gset Z :=
  match parse_ip text with
  | Some ip => if family_matches ip family then {[ip_to_u128 ip]} ∪ used else used
  | None => used
  end.

(** The set [used]: the two [for] loops before step 2. *)
Definition used_addresses (family : IpFamily) (reservations : list DhcpReservation)
    (leases : list DhcpLease) (client_id : string) (now_unix : Z) : gset Z :=
  let used := fold_left (fun used r => mark family (rs_ip r) used) reservations ∅ in
  fold_left (fun used l =>
               if is_holding l now_unix && negb (eq_ignore_ascii_case (ls_identifier l) client_id)
               then mark family (ls_ip l) used else used)
    leases used.

(** Step 2: the client's own current lease, if it is in the pool. *)
Fixpoint find_own_lease (leases : list DhcpLease) (client_id : string) (now_unix start_n end_n : Z)
    (used : gset Z) : option IpAddr :=
  match leases with
  | [] => None
  | l :: rest =>
      let next := find_own_lease rest client_id now_unix start_n end_n used in
      if eq_ignore_ascii_case (ls_identifier l) client_id && is_holding l now_unix then
        match parse_ip (ls_ip l) with
        | Some ip =>
            let n := ip_to_u128 ip in
            if (start_n <=? n) && (n <=? end_n) && negb (bool_decide (n ∈ used)) then Some ip else next
        | None => next
        end
      else next
  end.

(** Step 3. *)
Definition honor_requested (requested_ip : option IpAddr) (family : IpFamily) (start_n end_n : Z)
    (used : gset Z) : option IpAddr :=
  let! req := requested_ip in
  if family_matches req family then
    let n := ip_to_u128 req in
    if (start_n <=? n) && (n <=? end_n) && negb (bool_decide (n ∈ used)) then Some req else None
  else None.

(** Step 4: the [loop]. *)
Fixpoint scan (fuel : nat) (used : gset Z) (end_n max_scan n probed : Z) : option Z :=
  match fuel with
  | O => None
  | S fuel' =>
      if negb (bool_decide (n ∈ used)) then Some n
      else if n =? end_n then None
      else
        let probed := probed + 1 in
        if max_scan <=? probed then None
        else scan fuel' used end_n max_scan (n + 1) probed
  end.

Definition max_scan_of (family : IpFamily) : Z :=
  match family with FamV4 => u128_max | FamV6 => MAX_V6_SCAN end.

(** How many addresses the scan can probe. *)
Definition scan_count (family : IpFamily) (start_n end_n : Z) : Z :=
  Z.min (end_n - start_n + 1) (max_scan_of family).

Definition allocate (scope : DhcpScope) (reservations : list DhcpReservation)
    (leases : list DhcpLease) (client_id : string) (requested_ip : option IpAddr) (now_unix : Z)
    : option IpAddr :=
  let family := sc_family scope in
  match find_reservation reservations client_id with
  | Some ip => Some ip
  | None =>
      let! start := parse_ip (sc_range_start scope) in
      let! end_ := parse_ip (sc_range_end scope) in
      if negb (family_matches start family) || negb (family_matches end_ family) then None
      else
        let start_n := ip_to_u128 start in
        let end_n := ip_to_u128 end_ in
        if end_n <? start_n then None
        else
          let used := used_addresses family reservations leases client_id now_unix in
          match find_own_lease leases client_id now_unix start_n end_n used with
          | Some ip => Some ip
          | None =>
              match honor_requested requested_ip family start_n end_n used with
              | Some ip => Some ip
              | None =>
                  let! n := scan (Z.to_nat (scan_count family start_n end_n)) used end_n
                              (max_scan_of family) start_n 0 in
                  Some (u128_to_ip n family)
              end
          end
  end.

(** ** What the set of used addresses holds *)

Definition denotes (family : IpFamily) (text : string) (n : Z) : Prop :=
  exists ip, parse_ip text = Some ip /\ family_matches ip family = true /\ ip_to_u128 ip = n.

(** Some reservation of the scope names the address. *)
Definition reserved (family : IpFamily) (reservations : list DhcpReservation) (n : Z) : Prop :=
  exists r, In r reservations /\ denotes family (rs_ip r) n.

(** Another client's unexpired offer or lease holds the address. *)
Definition held_by_other (family : IpFamily) (leases : list DhcpLease) (client_id : string)
    (now_unix n : Z) : Prop :=
  exists l, In l leases /\ is_holding l now_unix = true /\
    eq_ignore_ascii_case (ls_identifier l) client_id = false /\ denotes family (ls_ip l) n.

Lemma elem_of_mark family text used n : n ∈ mark family text used <-> denotes family text n \/ n ∈ used.
Proof.
  unfold mark, denotes. destruct (parse_ip text) as [ip|].
  - destruct (family_matches ip family) eqn:E.
    + rewrite elem_of_union, elem_of_singleton. split.
      * intros [->|?]; eauto.
      * intros [(? & [= ->] & _ & <-)|?]; auto.
    + split; [auto|]. intros [(? & [= ->] & ? & _)|?]; [congruence|done].
  - split; [auto|]. by intros [(? & ? & _)|?].
Qed.

Lemma elem_of_fold_left {A} (f : gset Z -> A -> gset Z) (P : A -> Prop) n :
  (forall a s, n ∈ f s a <-> P a \/ n ∈ s) ->
  forall l s, n ∈ fold_left f l s <-> n ∈ s \/ exists a, In a l /\ P a.
Proof.
  intros Hf. induction l as [|a l IH]; intros s; cbn [fold_left In].
  - split; [auto|]. by intros [?|(? & [] & _)].
  - rewrite IH, Hf. split.
    + intros [[?|?]|(b & ? & ?)]; eauto.
    + intros [?|(b & [<-|?] & ?)]; eauto.
Qed.

Lemma used_addresses_spec family reservations leases client_id now_unix n :
  n ∈ used_addresses family reservations leases client_id now_unix <->
  reserved family reservations n \/ held_by_other family leases client_id now_unix n.
Proof.
  unfold used_addresses. cbv zeta.
  rewrite (elem_of_fold_left (fun used l =>
      if is_holding l now_unix && negb (eq_ignore_ascii_case (ls_identifier l) client_id)
      then mark family (ls_ip l) used else used)
    (fun l => is_holding l now_unix = true /\ eq_ignore_ascii_case (ls_identifier l) client_id = false /\
              denotes family (ls_ip l) n) n).
  - rewrite (elem_of_fold_left (fun used r => mark family (rs_ip r) used)
               (fun r => denotes family (rs_ip r) n) n); [|intros; apply elem_of_mark].
    rewrite elem_of_empty. unfold reserved, held_by_other. tauto.
  - intros l s. destruct (is_holding l now_unix); cbn [andb]; [|intuition congruence].
    destruct (eq_ignore_ascii_case (ls_identifier l) client_id); cbn [negb]; [intuition congruence|].
    rewrite elem_of_mark. tauto.
Qed.

(** ** The scan *)

Lemma scan_spec used end_n max_scan n probed fuel :
  n <= end_n -> 0 <= probed < max_scan ->
  fuel = Z.to_nat (Z.min (end_n - n + 1) (max_scan - probed)) ->
  scan fuel used end_n max_scan n probed =
  List.find (fun k => negb (bool_decide (k ∈ used))) (seqZ n (Z.of_nat fuel)).
Proof.
  revert n probed. induction fuel as [|fuel IH]; intros n probed Hn Hp Hf; [lia|].
  rewrite seqZ_cons by lia. cbn [scan List.find].
  case_bool_decide; cbn [negb]; [|done]. cbv zeta.
  replace (Z.pred (Z.of_nat (S fuel))) with (Z.of_nat fuel) by lia.
  destruct (Z.eqb_spec n end_n) as [->|Hne].
  - destruct fuel; [done|lia].
  - destruct (Z.leb_spec max_scan (probed + 1)).
    + destruct fuel; [done|lia].
    + apply IH; lia.
Qed.

(** The first free candidate is free, a candidate, and the least free one. *)
Lemma find_free_spec (used : gset Z) n len k :
  List.find (fun k => negb (bool_decide (k ∈ used))) (seqZ n len) = Some k <->
  n <= k < n + len /\ (k ∉ used) /\ forall j, n <= j < k -> j ∈ used.
Proof.
  split.
  - intros Hf. pose proof (List.find_some _ _ Hf) as [Hin Hk]. breflect.
    apply list_elem_of_In, elem_of_seqZ in Hin. split_and!; [lia|lia|done|].
    intros j Hj. destruct (decide (j ∈ used)) as [|Hju]; [done|].
    enough (k <= j) by lia. eapply (find_sorted_least (fun z => z)); [|exact Hf| |].
    + apply Sorted_StronglySorted; [intros ? ? ?; lia|]. clear.
      destruct (Z.le_gt_cases 0 len) as [Hl|]; [|rewrite seqZ_nil by lia; constructor].
      revert n. pattern len. apply natlike_ind; [| |done].
      * intros n. rewrite seqZ_nil by lia. constructor.
      * intros x Hx IH n. rewrite seqZ_cons by lia. rewrite Z.pred_succ. constructor; [done|].
        destruct (Z.eq_dec x 0) as [->|]; [rewrite seqZ_nil by lia; constructor|].
        rewrite seqZ_cons by lia. constructor. lia.
    + apply list_elem_of_In, elem_of_seqZ. lia.
    + cbv beta. by rewrite bool_decide_eq_false_2.
  - intros (Hk & Hu & Hleast).
    replace len with ((k - n) + (n + len - k)) by lia. rewrite seqZ_app by lia.
    rewrite (seqZ_cons (n + (k - n))) by lia. replace (n + (k - n)) with k by lia.
    assert (forall l m, Forall (fun j => j ∈ used) l ->
      List.find (fun k => negb (bool_decide (k ∈ used))) (l ++ m) =
      List.find (fun k => negb (bool_decide (k ∈ used))) m) as Hskip.
    { clear. induction 1 as [|j l Hj _ IH]; [done|]. cbn. by rewrite bool_decide_eq_true_2. }
    rewrite Hskip; [cbn; by rewrite bool_decide_eq_false_2|].
    apply Forall_forall. intros j Hj. apply elem_of_seqZ in Hj. apply Hleast. lia.
Qed.

Lemma find_free_none (used : gset Z) n len :
  List.find (fun k => negb (bool_decide (k ∈ used))) (seqZ n len) = None <->
  forall j, n <= j < n + len -> j ∈ used.
Proof.
  split.
  - intros Hf j Hj. assert (In j (seqZ n len)) as Hin by (apply list_elem_of_In, elem_of_seqZ; lia).
    pose proof (List.find_none _ _ Hf j Hin) as Hn. cbn in Hn. by breflect.
  - intros Hall. destruct (List.find _ _) as [k|] eqn:E; [|done].
    apply find_free_spec in E as (Hk & Hu & _). by apply Hall in Hk.
Qed.

(** ** The allocation policy *)

(** The bounds of the pool, when the range is usable. *)
Definition pool_of (scope : DhcpScope) : option (Z * Z) :=
  let! start := parse_ip (sc_range_start scope) in
  let! end_ := parse_ip (sc_range_end scope) in
  if negb (family_matches start (sc_family scope)) || negb (family_matches end_ (sc_family scope)) then None
  else if ip_to_u128 end_ <? ip_to_u128 start then None
  else Some (ip_to_u128 start, ip_to_u128 end_).

(** No reservation and no other client's hold is on the address. *)
Definition free (scope : DhcpScope) (reservations : list DhcpReservation) (leases : list DhcpLease)
    (client_id : string) (now_unix n : Z) : Prop :=
  ~ reserved (sc_family scope) reservations n /\
  ~ held_by_other (sc_family scope) leases client_id now_unix n.

Lemma free_used scope reservations leases client_id now_unix n :
  free scope reservations leases client_id now_unix n <->
  (n ∉ used_addresses (sc_family scope) reservations leases client_id now_unix).
Proof. unfold free. rewrite used_addresses_spec. tauto. Qed.

(** The client has a reservation with a readable address. *)
Definition client_reservation (reservations : list DhcpReservation) (client_id : string) (ip : IpAddr) : Prop :=
  exists r, In r reservations /\ eq_ignore_ascii_case (rs_identifier r) client_id = true /\
    parse_ip (rs_ip r) = Some ip.

Lemma find_reservation_some reservations client_id ip :
  find_reservation reservations client_id = Some ip -> client_reservation reservations client_id ip.
Proof.
  unfold client_reservation. induction reservations as [|r rs IH]; cbn [find_reservation]; [done|].
  intros H. repeat case_hyp H; simplify_eq; [eexists; split; [by left|done]|..];
    destruct (IH H) as (r' & ? & ?); exists r'; (split; [by right|done]).
Qed.

Lemma find_reservation_none reservations client_id ip :
  find_reservation reservations client_id = None -> ~ client_reservation reservations client_id ip.
Proof.
  intros H (r & Hin & He & Hp). induction reservations as [|r' rs IH]; [done|].
  cbn [find_reservation] in H. destruct Hin as [->|Hin].
  - by rewrite He, Hp in H.
  - repeat case_hyp H; simplify_eq; auto.
Qed.

(** The client holds the address itself, whatever its family. *)
Definition own_lease (leases : list DhcpLease) (client_id : string) (now_unix : Z) (ip : IpAddr) : Prop :=
  exists l, In l leases /\ is_holding l now_unix = true /\
    eq_ignore_ascii_case (ls_identifier l) client_id = true /\ parse_ip (ls_ip l) = Some ip.

Lemma find_own_lease_some leases client_id now_unix lo hi used ip :
  find_own_lease leases client_id now_unix lo hi used = Some ip ->
  own_lease leases client_id now_unix ip /\ lo <= ip_to_u128 ip <= hi /\ (ip_to_u128 ip ∉ used).
Proof.
  unfold own_lease. induction leases as [|l ls IH]; cbn [find_own_lease]; [done|]. cbv zeta. intros H.
  repeat case_hyp H; simplify_eq; breflect;
    try (destruct (IH H) as ((l' & ? & ?) & ?); split; [exists l'; split; [by right|done]|done]).
  split; [|split; [lia|done]]. exists l. split; [by left|done].
Qed.

Lemma find_own_lease_none leases client_id now_unix lo hi used ip :
  find_own_lease leases client_id now_unix lo hi used = None ->
  own_lease leases client_id now_unix ip -> lo <= ip_to_u128 ip <= hi -> ip_to_u128 ip ∈ used.
Proof.
  intros H (l & Hin & Hh & He & Hp) Hr. induction leases as [|l' ls IH]; [done|].
  cbn [find_own_lease] in H. cbv zeta in H. destruct Hin as [->|Hin].
  - rewrite He, Hh, Hp in H. cbn [andb] in H. case_hyp H; [done|].
    destruct (decide (ip_to_u128 ip ∈ used)); [done|].
    rewrite bool_decide_eq_false_2 in Heqb by done. cbn in Heqb. lia.
  - repeat case_hyp H; simplify_eq; auto.
Qed.

Lemma honor_requested_some req family lo hi used ip :
  honor_requested req family lo hi used = Some ip <->
  req = Some ip /\ family_matches ip family = true /\ lo <= ip_to_u128 ip <= hi /\ (ip_to_u128 ip ∉ used).
Proof.
  unfold honor_requested. destruct req as [r|]; [|by split; [|intros (? & _)]]. cbv zeta. split.
  - intros H. repeat case_hyp H; simplify_eq. breflect. done.
  - intros ([= ->] & -> & ? & ?). rewrite bool_decide_eq_false_2 by done.
    case_goal; [done|lia].
Qed.

(** The whole function, over the pool and the set of used addresses. *)
Lemma allocate_eq scope reservations leases client_id req now_unix :
  allocate scope reservations leases client_id req now_unix =
  match find_reservation reservations client_id with
  | Some ip => Some ip
  | None =>
      let! pool := pool_of scope in
      let '(lo, hi) := pool in
      let used := used_addresses (sc_family scope) reservations leases client_id now_unix in
      match find_own_lease leases client_id now_unix lo hi used with
      | Some ip => Some ip
      | None =>
          match honor_requested req (sc_family scope) lo hi used with
          | Some ip => Some ip
          | None =>
              (fun n => u128_to_ip n (sc_family scope)) <$>
                List.find (fun k => negb (bool_decide (k ∈ used)))
                  (seqZ lo (scan_count (sc_family scope) lo hi))
          end
      end
  end.
Proof.
  unfold allocate, pool_of. destruct (find_reservation _ _); [done|].
  destruct (parse_ip (sc_range_start scope)) as [s|]; [|done].
  destruct (parse_ip (sc_range_end scope)) as [e|]; [|done].
  destruct (negb _ || _); [done|]. cbv zeta.
  destruct (Z.ltb_spec (ip_to_u128 e) (ip_to_u128 s)) as [|Hle]; [done|].
  destruct (find_own_lease _ _ _ _ _ _); [done|]. destruct (honor_requested _ _ _ _ _); [done|].
  set (c := scan_count (sc_family scope) (ip_to_u128 s) (ip_to_u128 e)).
  assert (0 < max_scan_of (sc_family scope)) by (destruct (sc_family scope); reflexivity).
  assert (0 <= c) by (unfold c, scan_count; lia).
  rewrite scan_spec; [|done|lia|unfold c, scan_count; f_equal; f_equal; lia].
  rewrite Z2Nat.id by done. by destruct (List.find _ _).
Qed.

Lemma pool_of_v4 scope lo hi :
  pool_of scope = Some (lo, hi) -> sc_family scope = FamV4 -> is_u32 hi.
Proof.
  unfold pool_of. intros H Hf. rewrite Hf in H.
  destruct (parse_ip (sc_range_start scope)) as [[s|s]|], (parse_ip (sc_range_end scope)) as [[e|e]|] eqn:E;
    try done. cbn in H. case_hyp H; simplify_eq. by apply (parse_ip_ok _ _ E).
Qed.

Lemma pool_of_le scope lo hi : pool_of scope = Some (lo, hi) -> lo <= hi.
Proof. unfold pool_of. intros H. repeat case_hyp H; simplify_eq. by breflect. Qed.

(** Addresses of the pool survive [u128_to_ip]. *)
Lemma u128_to_ip_pool scope lo hi n :
  pool_of scope = Some (lo, hi) -> 0 <= n <= hi ->
  ip_to_u128 (u128_to_ip n (sc_family scope)) = n /\
  family_matches (u128_to_ip n (sc_family scope)) (sc_family scope) = true.
Proof.
  intros Hp Hn. destruct (sc_family scope) eqn:Ef; cbn; [|done]. split; [|done].
  pose proof (pool_of_v4 _ _ _ Hp Ef) as [_ Hhi]. unfold as_u32. apply Z.mod_small.
  unfold u32_max in Hhi. lia.
Qed.

Lemma pool_of_nonneg scope lo hi : pool_of scope = Some (lo, hi) -> 0 <= lo.
Proof.
  unfold pool_of. intros H. destruct (parse_ip (sc_range_start scope)) as [ip|] eqn:E; [|done].
  assert (0 <= ip_to_u128 ip) by (apply parse_ip_ok in E; destruct ip; apply E).
  repeat case_hyp H; by simplify_eq.
Qed.

(** How far the scan goes: the whole of an IPv4 pool, 65,536 addresses of an IPv6 one. *)
Lemma scan_count_reach scope lo hi n :
  pool_of scope = Some (lo, hi) ->
  lo <= n < lo + scan_count (sc_family scope) lo hi <->
  lo <= n <= hi /\ (sc_family scope = FamV6 -> n < lo + MAX_V6_SCAN).
Proof.
  intros Ep. unfold scan_count. destruct (sc_family scope) eqn:Ef; cbn [max_scan_of].
  - pose proof (pool_of_v4 _ _ _ Ep Ef) as [_ Hhi]. pose proof (pool_of_nonneg _ _ _ Ep).
    unfold u32_max in Hhi. rewrite Z.min_l by (transitivity 4294967296; [lia|unfold u128_max; lia]).
    split; [intros ?; split; [lia|done]|lia].
  - split; [intros ?; split; [lia|lia]|]. intros [? Hv]. specialize (Hv eq_refl). lia.
Qed.

(** Failure, in terms of the set of used addresses. *)
Lemma allocate_none scope reservations leases client_id req now_unix :
  find_reservation reservations client_id = None ->
  allocate scope reservations leases client_id req now_unix = None <->
  match pool_of scope with
  | None => True
  | Some (lo, hi) =>
      let used := used_addresses (sc_family scope) reservations leases client_id now_unix in
      find_own_lease leases client_id now_unix lo hi used = None /\
      honor_requested req (sc_family scope) lo hi used = None /\
      (forall n, lo <= n < lo + scan_count (sc_family scope) lo hi -> n ∈ used)
  end.
Proof.
  intros Er. rewrite allocate_eq, Er. destruct (pool_of scope) as [[lo hi]|]; [|done]. cbv zeta.
  rewrite <- find_free_none. destruct (find_own_lease _ _ _ _ _ _); [by split; [|intros (? & _)]|].
  destruct (honor_requested _ _ _ _ _); [by split; [|intros (_ & ? & _)]|].
  destruct (List.find _ _); [by split; [|intros (_ & _ & ?)]|done].
Qed.

(** What the allocator promises its callers of an address it hands out. *)
Definition grantable (scope : DhcpScope) (reservations : list DhcpReservation) (leases : list DhcpLease)
    (client_id : string) (now_unix : Z) (ip : IpAddr) : Prop :=
  client_reservation reservations client_id ip \/
  (exists lo hi, pool_of scope = Some (lo, hi) /\ lo <= ip_to_u128 ip <= hi /\
    free scope reservations leases client_id now_unix (ip_to_u128 ip) /\
    (family_matches ip (sc_family scope) = true \/ own_lease leases client_id now_unix ip)).

Lemma allocate_grantable scope reservations leases client_id req now_unix ip :
  allocate scope reservations leases client_id req now_unix = Some ip ->
  grantable scope reservations leases client_id now_unix ip.
Proof.
  unfold grantable. rewrite allocate_eq. destruct (find_reservation _ _) eqn:Er; [|clear Er].
  { intros [= <-]. left. by apply find_reservation_some. }
  destruct (pool_of scope) as [[lo hi]|] eqn:Ep; [|done]. cbv zeta.
  destruct (find_own_lease _ _ _ _ _ _) eqn:Eo.
  { intros [= <-]. right. apply find_own_lease_some in Eo as (? & ? & ?).
    exists lo, hi. rewrite free_used. auto. }
  destruct (honor_requested _ _ _ _ _) eqn:Eh.
  { intros [= <-]. right. apply honor_requested_some in Eh as (_ & ? & ? & ?).
    exists lo, hi. rewrite free_used. auto. }
  intros H. destruct (List.find _ _) as [n|] eqn:Ef; [|done]. injection H as <-.
  apply find_free_spec in Ef as (Hn & Hu & _). unfold scan_count in Hn.
  pose proof (pool_of_nonneg _ _ _ Ep).
  destruct (u128_to_ip_pool scope lo hi n Ep ltac:(lia)) as [E1 E2].
  right. exists lo, hi. rewrite free_used, E1. split_and!; [done|lia|lia|done|auto].
Qed.

(** ** Properties *)

(** C10: an address handed out is the client's own reservation, or it lies in the
    pool and is neither reserved nor held by another client. *)
Theorem allocate_safe scope reservations leases client_id req now_unix ip :
  allocate scope reservations leases client_id req now_unix = Some ip ->
  client_reservation reservations client_id ip \/
  (exists lo hi, pool_of scope = Some (lo, hi) /\ lo <= ip_to_u128 ip <= hi /\
    free scope reservations leases client_id now_unix (ip_to_u128 ip) /\
    (family_matches ip (sc_family scope) = true \/ own_lease leases client_id now_unix ip)).
Proof. apply allocate_grantable. Qed.

(** allocation fails exactly when the client has no reservation and either the
    range is unusable or every candidate address (all of an IPv4 pool, the
    first 65,536 of an IPv6 pool), the client's own leases in the pool and
    the requested address are all taken. *)
Theorem allocate_exhausted scope reservations leases client_id req now_unix :
  allocate scope reservations leases client_id req now_unix = None <->
  (forall ip, ~ client_reservation reservations client_id ip) /\
  match pool_of scope with
  | None => True
  | Some (lo, hi) =>
      let free n := free scope reservations leases client_id now_unix n in
      (forall ip, own_lease leases client_id now_unix ip -> lo <= ip_to_u128 ip <= hi -> ~ free (ip_to_u128 ip)) /\
      (forall ip, req = Some ip -> family_matches ip (sc_family scope) = true ->
                  lo <= ip_to_u128 ip <= hi -> ~ free (ip_to_u128 ip)) /\
      (forall n, lo <= n <= hi -> (sc_family scope = FamV6 -> n < lo + MAX_V6_SCAN) -> ~ free n)
  end.
Proof.
  destruct (find_reservation reservations client_id) as [ip|] eqn:Er.
  { rewrite allocate_eq, Er. split; [done|]. intros [H _]. exfalso. eapply H, find_reservation_some, Er. }
  rewrite allocate_none by done.
  assert (forall ip, ~ client_reservation reservations client_id ip) as Hnone
    by (intros ip; by apply find_reservation_none).
  destruct (pool_of scope) as [[lo hi]|] eqn:Ep; [|tauto]. cbv zeta.
  assert (Hu : forall n, ~ free scope reservations leases client_id now_unix n <->
    n ∈ used_addresses (sc_family scope) reservations leases client_id now_unix).
  { intros n. rewrite free_used. split; [apply dec_stable|auto]. }
  setoid_rewrite Hu. setoid_rewrite (scan_count_reach _ _ _ _ Ep).
  set (used := used_addresses _ _ _ _ _) in *.
  split.
  - intros (Ho & Hh & Hs). split_and!; [done| | |].
    + intros ip Hip Hr. by eapply find_own_lease_none.
    + intros ip -> Hf Hr. destruct (decide (ip_to_u128 ip ∈ used)) as [|Hn]; [done|].
      enough (honor_requested (Some ip) (sc_family scope) lo hi used = Some ip) by congruence.
      by apply honor_requested_some.
    + auto.
  - intros (_ & Ho & Hh & Hs). split_and!.
    + destruct (find_own_lease _ _ _ _ _ _) as [ip|] eqn:Eo; [|done].
      apply find_own_lease_some in Eo as (? & ? & Hn). destruct Hn. auto.
    + destruct (honor_requested _ _ _ _ _) as [ip|] eqn:Eh; [|done].
      apply honor_requested_some in Eh as (? & ? & ? & Hn). destruct Hn. auto.
    + intros n [? ?]. auto.
Qed.

(** a client with no reservation, no lease of its own and no usable request gets
    the lowest free address of the pool: every lower one is reserved or held. *)
Theorem allocate_lowest scope reservations leases client_id now_unix ip :
  (forall ip, ~ client_reservation reservations client_id ip) ->
  (forall ip, ~ own_lease leases client_id now_unix ip) ->
  allocate scope reservations leases client_id None now_unix = Some ip <->
  exists lo hi n, pool_of scope = Some (lo, hi) /\ ip = u128_to_ip n (sc_family scope) /\
    lo <= n <= hi /\ (sc_family scope = FamV6 -> n < lo + MAX_V6_SCAN) /\
    free scope reservations leases client_id now_unix n /\
    (forall j, lo <= j < n -> ~ free scope reservations leases client_id now_unix j).
Proof.
  intros Hr Ho. rewrite allocate_eq.
  destruct (find_reservation _ _) eqn:Er; [by destruct (Hr i (find_reservation_some _ _ _ Er))|].
  destruct (pool_of scope) as [[lo hi]|] eqn:Ep; [|by split; [|intros (? & ? & ? & ? & _)]].
  cbv zeta. destruct (find_own_lease _ _ _ _ _ _) as [i|] eqn:Eo.
  { apply find_own_lease_some in Eo as (? & _). by destruct (Ho i). }
  cbn [honor_requested]. setoid_rewrite free_used.
  set (used := used_addresses _ _ _ _ _). split.
  - intros H. destruct (List.find _ _) as [n|] eqn:Ef; [|done]. injection H as <-.
    apply find_free_spec in Ef as (Hn & Hu & Hl). rewrite scan_count_reach in Hn by done.
    exists lo, hi, n. destruct Hn as [? ?]. split_and!; try done; try lia.
    intros j Hj Hn. by apply Hn, Hl.
  - intros (lo' & hi' & n & [= <- <-] & -> & Hn & H6 & Hu & Hl).
    rewrite (proj2 (find_free_spec used lo (scan_count (sc_family scope) lo hi) n)); [done|].
    rewrite scan_count_reach by done. split_and!; try done; try lia.
    intros j Hj. apply dec_stable. auto.
Qed.

(** a client keeps its address: with no reservation, a client whose current leases
    all name one address of the pool that is not reserved and that nobody
    else holds gets that address again, whatever it requests. *)
Theorem allocate_sticky scope reservations leases client_id req now_unix ip lo hi :
  (forall ip, ~ client_reservation reservations client_id ip) ->
  own_lease leases client_id now_unix ip ->
  (forall ip', own_lease leases client_id now_unix ip' -> ip' = ip) ->
  pool_of scope = Some (lo, hi) -> lo <= ip_to_u128 ip <= hi ->
  free scope reservations leases client_id now_unix (ip_to_u128 ip) ->
  allocate scope reservations leases client_id req now_unix = Some ip.
Proof.
  intros Hr Ho Huniq Ep Hin Hf. rewrite allocate_eq, Ep.
  destruct (find_reservation _ _) eqn:Er; [by destruct (Hr i (find_reservation_some _ _ _ Er))|].
  cbv zeta. rewrite free_used in Hf. destruct (find_own_lease _ _ _ _ _ _) as [i|] eqn:Eo.
  - apply find_own_lease_some in Eo as (Hi & _). by rewrite (Huniq i).
  - destruct Hf. by eapply find_own_lease_none.
Qed.
End Alloc.

(** ** Witnesses *)

Definition ex_scope : DhcpScope :=
  mkDhcpScope 1 "lan" true FamV4 "192.168.1.0/24" "192.168.1.10" "192.168.1.12" 3600 false None None None [] "".
Definition ex_reservation : DhcpReservation :=
  mkDhcpReservation 1 1 "aa:bb" "192.168.1.10" None [] "".
Definition ex_lease : DhcpLease :=
  mkDhcpLease 1 1 FamV4 "192.168.1.11" "cc:dd" None (format_unix 0) (format_unix 100) Active "".

Example allocate_ex1 :
  allocate ex_scope [ex_reservation] [ex_lease] "ee:ff" None 50 = Some (V4 (Ipv4Addr_new 192 168 1 12)).
Proof. vm_compute. reflexivity. Qed.
Example allocate_ex2 :
  allocate ex_scope [ex_reservation] [ex_lease] "AA:BB" None 50 = Some (V4 (Ipv4Addr_new 192 168 1 10)).
Proof. vm_compute. reflexivity. Qed.

Lemma allocate_safe_witness :
  let ip := V4 (Ipv4Addr_new 192 168 1 12) in
  client_reservation [ex_reservation] "ee:ff" ip \/
  (exists lo hi, pool_of ex_scope = Some (lo, hi) /\ lo <= ip_to_u128 ip <= hi /\
     free ex_scope [ex_reservation] [ex_lease] "ee:ff" 50 (ip_to_u128 ip) /\
     (family_matches ip (sc_family ex_scope) = true \/ own_lease [ex_lease] "ee:ff" 50 ip)).
Proof.
  intros ip. apply (allocate_safe ex_scope [ex_reservation] [ex_lease] "ee:ff" None 50 ip).
  vm_compute. reflexivity.
Defined.

Lemma no_own_lease_ex : forall ip, ~ own_lease [ex_lease] "ee:ff" 50 ip.
Proof. intros ip (l & [<-|[]] & _ & H & _). by vm_compute in H. Qed.
Lemma no_reservation_ex c :
  eq_ignore_ascii_case "aa:bb" c = false -> forall ip, ~ client_reservation [ex_reservation] c ip.
Proof. intros Hc ip (r & [<-|[]] & H & _). cbn in H. congruence. Qed.

Lemma allocate_lowest_witness :
  exists lo hi n, pool_of ex_scope = Some (lo, hi) /\
    V4 (Ipv4Addr_new 192 168 1 12) = u128_to_ip n (sc_family ex_scope) /\
    lo <= n <= hi /\ (sc_family ex_scope = FamV6 -> n < lo + MAX_V6_SCAN) /\
    free ex_scope [ex_reservation] [ex_lease] "ee:ff" 50 n /\
    (forall j, lo <= j < n -> ~ free ex_scope [ex_reservation] [ex_lease] "ee:ff" 50 j).
Proof.
  apply (allocate_lowest ex_scope [ex_reservation] [ex_lease] "ee:ff" 50).
  - apply no_reservation_ex. reflexivity.
  - exact no_own_lease_ex.
  - vm_compute. reflexivity.
Defined.

Lemma allocate_sticky_witness :
  allocate ex_scope [] [ex_lease] "cc:dd" (Some (V4 (Ipv4Addr_new 192 168 1 12))) 50 =
  Some (V4 (Ipv4Addr_new 192 168 1 11)).
Proof.
  apply (allocate_sticky ex_scope [] [ex_lease] "cc:dd" _ 50 _ (Ipv4Addr_new 192 168 1 10) (Ipv4Addr_new 192 168 1 12)).
  - intros ip (r & [] & _).
  - exists ex_lease. split; [by left|]. repeat split; vm_compute; reflexivity.
  - intros ip (l & [<-|[]] & _ & _ & Hp). vm_compute in Hp. by injection Hp as <-.
  - vm_compute. reflexivity.
  - vm_compute. split; discriminate.
  - split; [intros (r & [] & _)|]. intros (l & [<-|[]] & _ & Hc & _). by vm_compute in Hc.
Defined.
