(* ===== verification/Db.v ===== *)
(** * The database: tables and statements ([src/db.rs], [src/schema.rs], [migrations/])

    A table is the list of its rows in rowid order.  A statement is a function
    from the database to the database and a result: an error leaves what the
    earlier statements of the same call wrote, unless they run in a
    [transaction].  A column that stores JSON or an enum's name is the decoded
    value; [Schema] has the stored text.  [ts] is the text of the clock, [now()].  The rowid of a new row is one
    more than the largest one ([INTEGER PRIMARY KEY] without [AUTOINCREMENT]). *)

From S2P Require Import Prelude Strs Net External Models.

(** ** Rows that differ from the domain types *)

Record UserRow : Type := mkUserRow {
  us_id : Z; us_username : string; us_password_hash : string; us_must_change_password : bool;
  us_created_at : string }.
Record SessRow : Type := mkSessRow {
  ss_id : string; ss_user_id : Z; ss_csrf_token : string; ss_created_at : string; ss_expires_at : string }.
Record ZoneRow : Type := mkZoneRow {
  zr_id : Z; zr_name : string; zr_enabled : bool; zr_soa : Soa; zr_default_ttl : Z; zr_serial : Z;
  zr_created_at : string; zr_updated_at : string }.
Record RecordRow : Type := mkRecordRow {
  rr_id : Z; rr_zone_id : Z; rr_view_id : option Z; rr_name : string; rr_rtype : string;
  rr_ttl : option Z; rr_data : string; rr_enabled : bool; rr_created_at : string; rr_updated_at : string }.
Record BlocklistRow : Type := mkBlocklistRow {
  blr_id : Z; blr_name : string; blr_url : string; blr_format : BlocklistFormat; blr_enabled : bool;
  blr_last_updated : option string; blr_last_error : option string; blr_created_at : string }.
Record DnssecRow : Type := mkDnssecRow {
  dk_zone_id : Z; dk_algorithm : Z; dk_secret : string; dk_nsec3 : bool; dk_salt : option string;
  dk_iterations : Z; dk_created_at : string }.
Record SecondaryRow : Type := mkSecondaryRow {
  sy_zone_id : Z; sy_primary_addr : string; sy_refresh_secs : Z; sy_last_check : option string;
  sy_last_error : option string; sy_tsig_key : option string; sy_created_at : string }.
(** The [hostnames] column is the stored comma-separated text. *)
Record TokenRow : Type := mkTokenRow {
  tr_id : Z; tr_label : string; tr_username : string; tr_secret_hash : string; tr_hostnames : string;
  tr_view_id : option Z; tr_ttl : Z; tr_enabled : bool; tr_last_update_at : option string;
  tr_last_ip : option string; tr_created_at : string }.

(** A row of the query log: the columns [QlogRow] reads, and the rowid. *)
Record QlogRow : Type := mkQlogRow {
  ql_id : Z; ql_at : string; ql_client : string; ql_view : option string; ql_name : string; ql_qtype : string;
  ql_outcome : string; ql_rcode : string }.

Record Db : Type := mkDb {
  users : list UserRow;
  sessions : list SessRow;
  views : list View;
  zones : list ZoneRow;
  records : list RecordRow;
  settings : option Settings;
  blocklists : list BlocklistRow;
  blocklist_entries : list (Z * string);
  block_rules : list BlockRule;
  rewrites : list Rewrite;
  conditional_forwards : list ConditionalForward;
  dnssec_keys : list DnssecRow;
  secondary_zones : list SecondaryRow;
  dyndns_tokens : list TokenRow;
  audit_log : list AuditEntry;
  dhcp_scopes : list DhcpScope;
  dhcp_reservations : list DhcpReservation;
  dhcp_leases : list DhcpLease;
  query_log : list QlogRow }.

Definition empty_db : Db :=
  mkDb [] [] [] [] [] None [] [] [] [] [] [] [] [] [] [] [] [] [].

(** Replacing one table. *)
Definition set_users (t : list UserRow) (d : Db) : Db :=
  mkDb t (sessions d) (views d) (zones d) (records d) (settings d) (blocklists d) (blocklist_entries d) (block_rules d) (rewrites d) (conditional_forwards d) (dnssec_keys d) (secondary_zones d) (dyndns_tokens d) (audit_log d) (dhcp_scopes d) (dhcp_reservations d) (dhcp_leases d) (query_log d).
Definition set_sessions (t : list SessRow) (d : Db) : Db :=
  mkDb (users d) t (views d) (zones d) (records d) (settings d) (blocklists d) (blocklist_entries d) (block_rules d) (rewrites d) (conditional_forwards d) (dnssec_keys d) (secondary_zones d) (dyndns_tokens d) (audit_log d) (dhcp_scopes d) (dhcp_reservations d) (dhcp_leases d) (query_log d).
Definition set_views (t : list View) (d : Db) : Db :=
  mkDb (users d) (sessions d) t (zones d) (records d) (settings d) (blocklists d) (blocklist_entries d) (block_rules d) (rewrites d) (conditional_forwards d) (dnssec_keys d) (secondary_zones d) (dyndns_tokens d) (audit_log d) (dhcp_scopes d) (dhcp_reservations d) (dhcp_leases d) (query_log d).
Definition set_zones (t : list ZoneRow) (d : Db) : Db :=
  mkDb (users d) (sessions d) (views d) t (records d) (settings d) (blocklists d) (blocklist_entries d) (block_rules d) (rewrites d) (conditional_forwards d) (dnssec_keys d) (secondary_zones d) (dyndns_tokens d) (audit_log d) (dhcp_scopes d) (dhcp_reservations d) (dhcp_leases d) (query_log d).
Definition set_records (t : list RecordRow) (d : Db) : Db :=
  mkDb (users d) (sessions d) (views d) (zones d) t (settings d) (blocklists d) (blocklist_entries d) (block_rules d) (rewrites d) (conditional_forwards d) (dnssec_keys d) (secondary_zones d) (dyndns_tokens d) (audit_log d) (dhcp_scopes d) (dhcp_reservations d) (dhcp_leases d) (query_log d).
Definition set_settings (t : option Settings) (d : Db) : Db :=
  mkDb (users d) (sessions d) (views d) (zones d) (records d) t (blocklists d) (blocklist_entries d) (block_rules d) (rewrites d) (conditional_forwards d) (dnssec_keys d) (secondary_zones d) (dyndns_tokens d) (audit_log d) (dhcp_scopes d) (dhcp_reservations d) (dhcp_leases d) (query_log d).
Definition set_blocklists (t : list BlocklistRow) (d : Db) : Db :=
  mkDb (users d) (sessions d) (views d) (zones d) (records d) (settings d) t (blocklist_entries d) (block_rules d) (rewrites d) (conditional_forwards d) (dnssec_keys d) (secondary_zones d) (dyndns_tokens d) (audit_log d) (dhcp_scopes d) (dhcp_reservations d) (dhcp_leases d) (query_log d).
Definition set_blocklist_entries (t : list (Z * string)) (d : Db) : Db :=
  mkDb (users d) (sessions d) (views d) (zones d) (records d) (settings d) (blocklists d) t (block_rules d) (rewrites d) (conditional_forwards d) (dnssec_keys d) (secondary_zones d) (dyndns_tokens d) (audit_log d) (dhcp_scopes d) (dhcp_reservations d) (dhcp_leases d) (query_log d).
Definition set_block_rules (t : list BlockRule) (d : Db) : Db :=
  mkDb (users d) (sessions d) (views d) (zones d) (records d) (settings d) (blocklists d) (blocklist_entries d) t (rewrites d) (conditional_forwards d) (dnssec_keys d) (secondary_zones d) (dyndns_tokens d) (audit_log d) (dhcp_scopes d) (dhcp_reservations d) (dhcp_leases d) (query_log d).
Definition set_rewrites (t : list Rewrite) (d : Db) : Db :=
  mkDb (users d) (sessions d) (views d) (zones d) (records d) (settings d) (blocklists d) (blocklist_entries d) (block_rules d) t (conditional_forwards d) (dnssec_keys d) (secondary_zones d) (dyndns_tokens d) (audit_log d) (dhcp_scopes d) (dhcp_reservations d) (dhcp_leases d) (query_log d).
Definition set_conditional_forwards (t : list ConditionalForward) (d : Db) : Db :=
  mkDb (users d) (sessions d) (views d) (zones d) (records d) (settings d) (blocklists d) (blocklist_entries d) (block_rules d) (rewrites d) t (dnssec_keys d) (secondary_zones d) (dyndns_tokens d) (audit_log d) (dhcp_scopes d) (dhcp_reservations d) (dhcp_leases d) (query_log d).
Definition set_dnssec_keys (t : list DnssecRow) (d : Db) : Db :=
  mkDb (users d) (sessions d) (views d) (zones d) (records d) (settings d) (blocklists d) (blocklist_entries d) (block_rules d) (rewrites d) (conditional_forwards d) t (secondary_zones d) (dyndns_tokens d) (audit_log d) (dhcp_scopes d) (dhcp_reservations d) (dhcp_leases d) (query_log d).
Definition set_secondary_zones (t : list SecondaryRow) (d : Db) : Db :=
  mkDb (users d) (sessions d) (views d) (zones d) (records d) (settings d) (blocklists d) (blocklist_entries d) (block_rules d) (rewrites d) (conditional_forwards d) (dnssec_keys d) t (dyndns_tokens d) (audit_log d) (dhcp_scopes d) (dhcp_reservations d) (dhcp_leases d) (query_log d).
Definition set_dyndns_tokens (t : list TokenRow) (d : Db) : Db :=
  mkDb (users d) (sessions d) (views d) (zones d) (records d) (settings d) (blocklists d) (blocklist_entries d) (block_rules d) (rewrites d) (conditional_forwards d) (dnssec_keys d) (secondary_zones d) t (audit_log d) (dhcp_scopes d) (dhcp_reservations d) (dhcp_leases d) (query_log d).
Definition set_audit_log (t : list AuditEntry) (d : Db) : Db :=
  mkDb (users d) (sessions d) (views d) (zones d) (records d) (settings d) (blocklists d) (blocklist_entries d) (block_rules d) (rewrites d) (conditional_forwards d) (dnssec_keys d) (secondary_zones d) (dyndns_tokens d) t (dhcp_scopes d) (dhcp_reservations d) (dhcp_leases d) (query_log d).
Definition set_dhcp_scopes (t : list DhcpScope) (d : Db) : Db :=
  mkDb (users d) (sessions d) (views d) (zones d) (records d) (settings d) (blocklists d) (blocklist_entries d) (block_rules d) (rewrites d) (conditional_forwards d) (dnssec_keys d) (secondary_zones d) (dyndns_tokens d) (audit_log d) t (dhcp_reservations d) (dhcp_leases d) (query_log d).
Definition set_dhcp_reservations (t : list DhcpReservation) (d : Db) : Db :=
  mkDb (users d) (sessions d) (views d) (zones d) (records d) (settings d) (blocklists d) (blocklist_entries d) (block_rules d) (rewrites d) (conditional_forwards d) (dnssec_keys d) (secondary_zones d) (dyndns_tokens d) (audit_log d) (dhcp_scopes d) t (dhcp_leases d) (query_log d).
Definition set_dhcp_leases (t : list DhcpLease) (d : Db) : Db :=
  mkDb (users d) (sessions d) (views d) (zones d) (records d) (settings d) (blocklists d) (blocklist_entries d) (block_rules d) (rewrites d) (conditional_forwards d) (dnssec_keys d) (secondary_zones d) (dyndns_tokens d) (audit_log d) (dhcp_scopes d) (dhcp_reservations d) t (query_log d).
Definition set_query_log (t : list QlogRow) (d : Db) : Db :=
  mkDb (users d) (sessions d) (views d) (zones d) (records d) (settings d) (blocklists d) (blocklist_entries d) (block_rules d) (rewrites d) (conditional_forwards d) (dnssec_keys d) (secondary_zones d) (dyndns_tokens d) (audit_log d) (dhcp_scopes d) (dhcp_reservations d) (dhcp_leases d) t.

(** ** Statements *)

Inductive DbError : Type := UniqueViolation | ForeignKeyViolation | NotFound.

Definition M (A : Type) : Type := Db -> Db * result A DbError.
Definition ret {A} (a : A) : M A := fun d => (d, Ok a).
Definition fail {A} (e : DbError) : M A := fun d => (d, Err e).
Definition bind {A B} (m : M A) (k : A -> M B) : M B := fun d =>
  match m d with
  | (d', Ok a) => k a d'
  | (d', Err e) => (d', Err e)
  end.
Notation "'let*' x := m 'in' k" := (bind m (fun x => k))
  (at level 10, x name, m at level 200, k at level 200) : rust_scope.
Notation "m ;;; k" := (bind m (fun _ => k)) (at level 100, right associativity) : rust_scope.

Definition query {A} (f : Db -> A) : M A := fun d => (d, Ok (f d)).
Definition modify (f : Db -> Db) : M unit := fun d => (f d, Ok tt).

(** [conn.transaction]: an error rolls everything back. *)
Definition transaction {A} (m : M A) : M A := fun d =>
  match m d with
  | (d', Ok a) => (d', Ok a)
  | (_, Err e) => (d, Err e)
  end.

(** [if let Some(v) = o { ... }]. *)
Definition when_some {A} (o : option A) (f : A -> M unit) : M unit :=
  match o with Some a => f a | None => ret tt end.

(** [for x in l { ... }]. *)
Fixpoint for_each {A} (l : list A) (f : A -> M unit) : M unit :=
  match l with
  | [] => ret tt
  | x :: l' => f x ;;; for_each l' f
  end.

Definition next_id {A} (id : A -> Z) (t : list A) : Z := 1 + fold_right Z.max 0 (List.map id t).

(** [UPDATE ... WHERE p] and [DELETE ... WHERE p]. *)
Definition update_where {A} (p : A -> bool) (f : A -> A) (t : list A) : list A :=
  (fun r => if p r then f r else r) <$> t.
Definition delete_where {A} (p : A -> bool) (t : list A) : list A := List.filter (fun r => negb (p r)) t.

Lemma next_id_fresh {A} (id : A -> Z) t r : In r t -> id r < next_id id t.
Proof.
  unfold next_id. induction t as [|x t IH]; [done|]. cbn [List.map fold_right In].
  intros [->|Hin]; [lia|]. specialize (IH Hin). lia.
Qed.
#[export] Hint Resolve next_id_fresh : nomina.

Lemma in_delete_where {A} (p : A -> bool) t r : In r (delete_where p t) <-> In r t /\ p r = false.
Proof. unfold delete_where. by rewrite filter_In, negb_true_iff. Qed.

Lemma in_update_where {A} (p : A -> bool) f t r :
  In r (update_where p f t) <-> exists r0, In r0 t /\ r = (if p r0 then f r0 else r0).
Proof.
  unfold update_where. setoid_rewrite in_map_iff. split; intros (x & H1 & H2); exists x; auto.
Qed.

(** Updates that keep the key keep the keys of the table. *)
Lemma map_update_where {A B} (k : A -> B) (p : A -> bool) f t :
  (forall r, k (f r) = k r) -> k <$> update_where p f t = k <$> t.
Proof.
  intros Hk. unfold update_where. rewrite <- list_fmap_compose. apply list_fmap_ext.
  intros i r _. cbn. by destruct (p r).
Qed.

Lemma NoDup_delete_where {A B} (k : A -> B) (p : A -> bool) t :
  NoDup (k <$> t) -> NoDup (k <$> delete_where p t).
Proof.
  unfold delete_where. induction t as [|r t IH]; [done|]. rewrite fmap_cons, NoDup_cons. intros [Hn Ht].
  cbn. destruct (negb (p r)); [|auto]. rewrite fmap_cons, NoDup_cons. split; [|auto].
  intros Hin. apply Hn. apply list_elem_of_fmap in Hin as (x & -> & Hx).
  apply list_elem_of_fmap. exists x. split; [done|].
  apply list_elem_of_In in Hx. apply filter_In in Hx. apply list_elem_of_In. tauto.
Qed.

Lemma existsb_key {A B} `{EqDecision B} (k : A -> B) (l : list A) (b : B) (p : A -> bool) :
  (forall a, p a = bool_decide (k a = b)) -> existsb p l = false -> b ∉ k <$> l.
Proof.
  intros Hp He Hin. apply list_elem_of_fmap in Hin as (a & -> & Ha). apply list_elem_of_In in Ha.
  assert (existsb p l = true) as E; [|congruence].
  apply existsb_exists. exists a. split; [done|]. rewrite Hp. by apply bool_decide_eq_true.
Qed.

Lemma existsb_key_true {A B} `{EqDecision B} (k : A -> B) (l : list A) (b : B) (p : A -> bool) :
  (forall a, p a = bool_decide (k a = b)) -> existsb p l = true -> b ∈ k <$> l.
Proof.
  intros Hp He. apply existsb_exists in He as (a & Ha & E). rewrite Hp in E. breflect. subst.
  apply list_elem_of_fmap. exists a. split; [done|]. by apply list_elem_of_In.
Qed.

Lemma eqb_bool_decide (a b : Z) : (a =? b) = bool_decide (a = b).
Proof. destruct (Z.eqb_spec a b); [by rewrite bool_decide_eq_true_2|by rewrite bool_decide_eq_false_2]. Qed.

Lemma next_id_notin {A} (id : A -> Z) t : next_id id t ∉ id <$> t.
Proof.
  intros Hin. apply list_elem_of_fmap in Hin as (r & E & Hr). apply list_elem_of_In in Hr.
  pose proof (next_id_fresh id t r Hr). lia.
Qed.

Lemma NoDup_snoc {A} (l : list A) x : NoDup l -> x ∉ l -> NoDup (l ++ [x]).
Proof.
  intros Hl Hx. apply NoDup_app. split; [done|]. split; [|apply NoDup_singleton].
  intros y Hy Hin. apply list_elem_of_singleton in Hin. by subst.
Qed.

Lemma find_update_where {A} (p q : A -> bool) f t :
  (forall r, p (f r) = p r) ->
  List.find p (update_where q f t) = (fun r => if q r then f r else r) <$> List.find p t.
Proof.
  intros Hp. unfold update_where. induction t as [|r t IH]; [done|]. cbn.
  replace (p (if q r then f r else r)) with (p r) by (destruct (q r); auto). destruct (p r); [done|]. apply IH.
Qed.

Lemma update_where_twice {A} (p : A -> bool) f g t :
  (forall r, p (f r) = p r) -> update_where p g (update_where p f t) = update_where p (fun r => g (f r)) t.
Proof.
  intros Hp. unfold update_where. rewrite <- list_fmap_compose. apply list_fmap_ext. intros i r _. cbn.
  destruct (p r) eqn:E; [by rewrite Hp, E|by rewrite E].
Qed.

Lemma find_unique {A B} `{EqDecision B} (k : A -> B) (p : A -> bool) t r :
  (forall x, p x = bool_decide (k x = k r)) -> NoDup (k <$> t) -> In r t -> List.find p t = Some r.
Proof.
  intros Hp Hnd Hin. induction t as [|x t IH]; [done|]. rewrite fmap_cons, NoDup_cons in Hnd.
  destruct Hnd as [Hx Hnd]. cbn. rewrite Hp. destruct Hin as [->|Hin]; [by rewrite bool_decide_eq_true_2|].
  rewrite bool_decide_eq_false_2; [auto|]. intros E. apply Hx. rewrite E. apply list_elem_of_fmap.
  exists r. split; [done|]. by apply list_elem_of_In.
Qed.

(** Renaming the row of key [id] to a name no other row has keeps the names unique. *)
Lemma NoDup_rename {A} (key : A -> Z) (nm : A -> string) f id n t :
  (forall r, key (f r) = key r) -> (forall r, nm (f r) = n) -> NoDup (key <$> t) -> NoDup (nm <$> t) ->
  existsb (fun r => negb (key r =? id) && bool_decide (nm r = n)) t = false ->
  NoDup (nm <$> update_where (fun r => key r =? id) f t).
Proof.
  intros Hk Hn. unfold update_where. induction t as [|r t IH]; [done|].
  rewrite !fmap_cons, !NoDup_cons. intros [Hk1 Hk2] [Hn1 Hn2] He. cbn [existsb] in He. breflect.
  split; [|auto]. intros Hin. apply list_elem_of_fmap in Hin as (x & E & Hx).
  apply list_elem_of_fmap in Hx as (y & -> & Hy).
  assert (Hyk : key y ∈ key <$> t) by (apply list_elem_of_fmap; eauto).
  assert (Hyn : nm y ∈ nm <$> t) by (apply list_elem_of_fmap; eauto).
  destruct (Z.eqb_spec (key r) id) as [Er|Er], (Z.eqb_spec (key y) id) as [Ey|Ey].
  - apply Hk1. rewrite Er, <- Ey. done.
  - rewrite Hn in E. assert (existsb (fun r => negb (key r =? id) && bool_decide (nm r = n)) t = true);
      [|congruence]. apply existsb_exists. exists y. split; [by apply list_elem_of_In|].
    rewrite <- E, bool_decide_eq_true_2 by done. destruct (Z.eqb_spec (key y) id); [done|done].
  - rewrite Hn in E. rewrite bool_decide_eq_true_2 in H by done. by destruct (Z.eqb_spec (key r) id).
  - by rewrite E in Hn1.
Qed.

(** ** Invariants of statements *)

(** The statement keeps [P], whether it succeeds or fails. *)
Definition preserves {A} (P : Db -> Prop) (m : M A) : Prop := forall d, P d -> P (fst (m d)).

Section Preserves.
Context (P : Db -> Prop).

Lemma preserves_ret {A} (a : A) : preserves P (ret a).
Proof. by intros d Hd. Qed.
Lemma preserves_fail {A} e : preserves P (fail (A := A) e).
Proof. by intros d Hd. Qed.
Lemma preserves_query {A} (f : Db -> A) : preserves P (query f).
Proof. by intros d Hd. Qed.
Lemma preserves_bind {A B} (m : M A) (k : A -> M B) :
  preserves P m -> (forall a, preserves P (k a)) -> preserves P (bind m k).
Proof.
  intros Hm Hk d Hd. unfold bind. specialize (Hm d Hd). destruct (m d) as [d' [a|e]]; [by apply Hk|done].
Qed.
Lemma preserves_modify f : (forall d, P d -> P (f d)) -> preserves P (modify f).
Proof. intros Hf d Hd. by apply Hf. Qed.
Lemma preserves_transaction {A} (m : M A) : preserves P m -> preserves P (transaction m).
Proof.
  intros Hm d Hd. unfold transaction. specialize (Hm d Hd). by destruct (m d) as [d' [a|e]].
Qed.
Lemma preserves_when_some {A} (o : option A) f : (forall a, preserves P (f a)) -> preserves P (when_some o f).
Proof. intros Hf. destruct o; [apply Hf|apply preserves_ret]. Qed.
Lemma preserves_for_each {A} (l : list A) f : (forall a, preserves P (f a)) -> preserves P (for_each l f).
Proof.
  intros Hf. induction l as [|x l IH]; [apply preserves_ret|]. cbn. by apply preserves_bind.
Qed.
End Preserves.

Create HintDb preserve.
#[export] Hint Resolve preserves_ret preserves_fail preserves_query preserves_bind preserves_transaction
  preserves_when_some preserves_for_each : preserve.

(** Follow the structure of a statement down to its single-table updates. *)
Ltac preserve :=
  repeat match goal with
  | |- forall _, _ => intro
  | |- preserves _ (bind _ _) => apply preserves_bind
  | |- preserves _ (when_some _ _) => apply preserves_when_some
  | |- preserves _ (for_each _ _) => apply preserves_for_each
  | |- preserves _ (transaction _) => apply preserves_transaction
  | |- preserves _ (ret _) => apply preserves_ret
  | |- preserves _ (fail _) => apply preserves_fail
  | |- preserves _ (query _) => apply preserves_query
  | |- preserves _ (match ?x with _ => _ end) => destruct x
  | |- preserves _ _ => progress cbv zeta
  end; auto with preserve.

(** A statement that only reads. *)
#[export] Hint Extern 5 (preserves _ _) => solve [let d := fresh in let H := fresh in intros d H; exact H] : preserve.
