(* ===== verification/DbDhcp.v ===== *)
(** * DHCP tables ([src/db.rs], "DHCP scopes", "DHCP reservations", "DHCP leases") *)

From S2P Require Import Prelude Strs Net External Models Db.

(** ** Scopes *)

Definition list_dhcp_scopes : M (list DhcpScope) :=
  query (fun d => sort_with (fun a b => String.leb (sc_name a) (sc_name b)) (dhcp_scopes d)).

Definition dhcp_scope (id : Z) : M (option DhcpScope) :=
  query (fun d => List.find (fun s => sc_id s =? id) (dhcp_scopes d)).

Definition create_dhcp_scope (ts name : string) (enabled : bool) (family : IpFamily)
    (subnet range_start range_end : string) (lease_secs : Z) (dns_register : bool)
    (dns_zone server_id interface : option string) (opts : list DhcpOption) : M Z := fun d =>
  if existsb (fun s => bool_decide (sc_name s = name)) (dhcp_scopes d) then fail UniqueViolation d
  else
    let id := next_id sc_id (dhcp_scopes d) in
    (set_dhcp_scopes (dhcp_scopes d ++
       [mkDhcpScope id name enabled family subnet range_start range_end lease_secs dns_register
          dns_zone server_id interface opts ts]) d, Ok id).

(** One [UPDATE dhcp_scopes SET ... WHERE id = ?]. *)
Definition update_scope_row (id : Z) (f : DhcpScope -> DhcpScope) : M unit :=
  modify (fun d => set_dhcp_scopes (update_where (fun s => sc_id s =? id) f (dhcp_scopes d)) d).

(** The statement on [name] checks the [UNIQUE] constraint. *)
Definition update_scope_name (id : Z) (v : string) : M unit := fun d =>
  if existsb (fun s => sc_id s =? id) (dhcp_scopes d) &&
     existsb (fun s => negb (sc_id s =? id) && bool_decide (sc_name s = v)) (dhcp_scopes d)
  then fail UniqueViolation d
  else update_scope_row id (fun s => mkDhcpScope (sc_id s) v (sc_enabled s) (sc_family s) (sc_subnet s)
         (sc_range_start s) (sc_range_end s) (sc_lease_secs s) (sc_dns_register s) (sc_dns_zone s)
         (sc_server_id s) (sc_interface s) (sc_options s) (sc_created_at s)) d.

Definition update_dhcp_scope (id : Z) (name : option string) (enabled : option bool)
    (subnet range_start range_end : option string) (lease_secs : option Z)
    (dns_register : option bool) (dns_zone server_id interface : option (option string))
    (opts : option (list DhcpOption)) : M unit :=
  when_some name (update_scope_name id) ;;;
  when_some enabled (fun v => update_scope_row id (fun s =>
    mkDhcpScope (sc_id s) (sc_name s) v (sc_family s) (sc_subnet s) (sc_range_start s) (sc_range_end s)
      (sc_lease_secs s) (sc_dns_register s) (sc_dns_zone s) (sc_server_id s) (sc_interface s)
      (sc_options s) (sc_created_at s))) ;;;
  when_some subnet (fun v => update_scope_row id (fun s =>
    mkDhcpScope (sc_id s) (sc_name s) (sc_enabled s) (sc_family s) v (sc_range_start s) (sc_range_end s)
      (sc_lease_secs s) (sc_dns_register s) (sc_dns_zone s) (sc_server_id s) (sc_interface s)
      (sc_options s) (sc_created_at s))) ;;;
  when_some range_start (fun v => update_scope_row id (fun s =>
    mkDhcpScope (sc_id s) (sc_name s) (sc_enabled s) (sc_family s) (sc_subnet s) v (sc_range_end s)
      (sc_lease_secs s) (sc_dns_register s) (sc_dns_zone s) (sc_server_id s) (sc_interface s)
      (sc_options s) (sc_created_at s))) ;;;
  when_some range_end (fun v => update_scope_row id (fun s =>
    mkDhcpScope (sc_id s) (sc_name s) (sc_enabled s) (sc_family s) (sc_subnet s) (sc_range_start s) v
      (sc_lease_secs s) (sc_dns_register s) (sc_dns_zone s) (sc_server_id s) (sc_interface s)
      (sc_options s) (sc_created_at s))) ;;;
  when_some lease_secs (fun v => update_scope_row id (fun s =>
    mkDhcpScope (sc_id s) (sc_name s) (sc_enabled s) (sc_family s) (sc_subnet s) (sc_range_start s)
      (sc_range_end s) v (sc_dns_register s) (sc_dns_zone s) (sc_server_id s) (sc_interface s)
      (sc_options s) (sc_created_at s))) ;;;
  when_some dns_register (fun v => update_scope_row id (fun s =>
    mkDhcpScope (sc_id s) (sc_name s) (sc_enabled s) (sc_family s) (sc_subnet s) (sc_range_start s)
      (sc_range_end s) (sc_lease_secs s) v (sc_dns_zone s) (sc_server_id s) (sc_interface s)
      (sc_options s) (sc_created_at s))) ;;;
  when_some dns_zone (fun v => update_scope_row id (fun s =>
    mkDhcpScope (sc_id s) (sc_name s) (sc_enabled s) (sc_family s) (sc_subnet s) (sc_range_start s)
      (sc_range_end s) (sc_lease_secs s) (sc_dns_register s) v (sc_server_id s) (sc_interface s)
      (sc_options s) (sc_created_at s))) ;;;
  when_some server_id (fun v => update_scope_row id (fun s =>
    mkDhcpScope (sc_id s) (sc_name s) (sc_enabled s) (sc_family s) (sc_subnet s) (sc_range_start s)
      (sc_range_end s) (sc_lease_secs s) (sc_dns_register s) (sc_dns_zone s) v (sc_interface s)
      (sc_options s) (sc_created_at s))) ;;;
  when_some interface (fun v => update_scope_row id (fun s =>
    mkDhcpScope (sc_id s) (sc_name s) (sc_enabled s) (sc_family s) (sc_subnet s) (sc_range_start s)
      (sc_range_end s) (sc_lease_secs s) (sc_dns_register s) (sc_dns_zone s) (sc_server_id s) v
      (sc_options s) (sc_created_at s))) ;;;
  when_some opts (fun v => update_scope_row id (fun s =>
    mkDhcpScope (sc_id s) (sc_name s) (sc_enabled s) (sc_family s) (sc_subnet s) (sc_range_start s)
      (sc_range_end s) (sc_lease_secs s) (sc_dns_register s) (sc_dns_zone s) (sc_server_id s)
      (sc_interface s) v (sc_created_at s))).

(** Deleting a scope deletes its reservations and leases ([ON DELETE CASCADE]). *)
Definition delete_dhcp_scope (id : Z) : M unit := modify (fun d =>
  set_dhcp_leases (delete_where (fun l => ls_scope_id l =? id) (dhcp_leases d))
    (set_dhcp_reservations (delete_where (fun r => rs_scope_id r =? id) (dhcp_reservations d))
      (set_dhcp_scopes (delete_where (fun s => sc_id s =? id) (dhcp_scopes d)) d))).

(** ** Reservations *)

Definition list_dhcp_reservations (scope_id : Z) : M (list DhcpReservation) :=
  query (fun d => sort_with (fun a b => String.leb (rs_ip a) (rs_ip b))
                    (List.filter (fun r => rs_scope_id r =? scope_id) (dhcp_reservations d))).

Definition scope_exists (d : Db) (id : Z) : bool := existsb (fun s => sc_id s =? id) (dhcp_scopes d).

Definition create_dhcp_reservation (ts : string) (scope_id : Z) (identifier ip : string)
    (hostname : option string) (opts : list DhcpOption) : M Z := fun d =>
  if negb (scope_exists d scope_id) then fail ForeignKeyViolation d
  else
    let id := next_id rs_id (dhcp_reservations d) in
    (set_dhcp_reservations (dhcp_reservations d ++
       [mkDhcpReservation id scope_id (to_ascii_lowercase identifier) ip hostname opts ts]) d, Ok id).

Definition update_reservation_row (id : Z) (f : DhcpReservation -> DhcpReservation) : M unit :=
  modify (fun d => set_dhcp_reservations (update_where (fun r => rs_id r =? id) f (dhcp_reservations d)) d).

Definition update_dhcp_reservation (id : Z) (identifier ip : option string)
    (hostname : option (option string)) (opts : option (list DhcpOption)) : M unit :=
  when_some identifier (fun v => update_reservation_row id (fun r =>
    mkDhcpReservation (rs_id r) (rs_scope_id r) (to_ascii_lowercase v) (rs_ip r) (rs_hostname r)
      (rs_options r) (rs_created_at r))) ;;;
  when_some ip (fun v => update_reservation_row id (fun r =>
    mkDhcpReservation (rs_id r) (rs_scope_id r) (rs_identifier r) v (rs_hostname r)
      (rs_options r) (rs_created_at r))) ;;;
  when_some hostname (fun v => update_reservation_row id (fun r =>
    mkDhcpReservation (rs_id r) (rs_scope_id r) (rs_identifier r) (rs_ip r) v
      (rs_options r) (rs_created_at r))) ;;;
  when_some opts (fun v => update_reservation_row id (fun r =>
    mkDhcpReservation (rs_id r) (rs_scope_id r) (rs_identifier r) (rs_ip r) (rs_hostname r)
      v (rs_created_at r))).

Definition delete_dhcp_reservation (id : Z) : M unit := modify (fun d =>
  set_dhcp_reservations (delete_where (fun r => rs_id r =? id) (dhcp_reservations d)) d).

(** ** Leases *)

Definition list_dhcp_leases (scope_id : option Z) : M (list DhcpLease) :=
  query (fun d => sort_with (fun a b => String.leb (ls_ip a) (ls_ip b))
    match scope_id with
    | Some sid => List.filter (fun l => ls_scope_id l =? sid) (dhcp_leases d)
    | None => dhcp_leases d
    end).

(** The row the conflict target [(scope_id, ip)] names. *)
Definition lease_at (scope_id : Z) (ip : string) (l : DhcpLease) : bool :=
  (ls_scope_id l =? scope_id) && bool_decide (ls_ip l = ip).

Definition upsert_dhcp_lease (ts : string) (scope_id : Z) (family : IpFamily) (ip identifier : string)
    (hostname : option string) (starts_at expires_at : string) (state : LeaseState) : M Z := fun d =>
  let ident := to_ascii_lowercase identifier in
  match List.find (lease_at scope_id ip) (dhcp_leases d) with
  | Some l =>
      (set_dhcp_leases (update_where (lease_at scope_id ip) (fun r =>
         mkDhcpLease (ls_id r) (ls_scope_id r) family (ls_ip r) ident hostname starts_at expires_at
           state (ls_created_at r)) (dhcp_leases d)) d, Ok (ls_id l))
  | None =>
      if negb (scope_exists d scope_id) then fail ForeignKeyViolation d
      else
        let id := next_id ls_id (dhcp_leases d) in
        (set_dhcp_leases (dhcp_leases d ++
           [mkDhcpLease id scope_id family ip ident hostname starts_at expires_at state ts]) d, Ok id)
  end.

Definition delete_dhcp_lease (id : Z) : M unit := modify (fun d =>
  set_dhcp_leases (delete_where (fun l => ls_id l =? id) (dhcp_leases d)) d).

(** [expires_at < now] compares the texts. *)
Definition prune_expired_leases (now : string) : M nat := fun d =>
  let gone := List.filter (fun l => String.ltb (ls_expires_at l) now) (dhcp_leases d) in
  (set_dhcp_leases (delete_where (fun l => String.ltb (ls_expires_at l) now) (dhcp_leases d)) d,
   Ok (length gone)).

(** ** The lease table *)

Record dhcp_ok (d : Db) : Prop := {
  ok_scope_ids : NoDup (sc_id <$> dhcp_scopes d);
  ok_scope_names : NoDup (sc_name <$> dhcp_scopes d);
  ok_lease_ids : NoDup (ls_id <$> dhcp_leases d);
  ok_lease_keys : NoDup ((fun l => (ls_scope_id l, ls_ip l)) <$> dhcp_leases d);
  ok_lease_scope : forall l, In l (dhcp_leases d) -> ls_scope_id l ∈ sc_id <$> dhcp_scopes d;
  ok_lease_lower : forall l, In l (dhcp_leases d) -> to_ascii_lowercase (ls_identifier l) = ls_identifier l;
  ok_reservation_ids : NoDup (rs_id <$> dhcp_reservations d);
  ok_reservation_scope : forall r, In r (dhcp_reservations d) -> rs_scope_id r ∈ sc_id <$> dhcp_scopes d;
  ok_reservation_lower : forall r, In r (dhcp_reservations d) ->
    to_ascii_lowercase (rs_identifier r) = rs_identifier r }.

Lemma lease_at_spec sid ip l : lease_at sid ip l = true <-> ls_scope_id l = sid /\ ls_ip l = ip.
Proof. unfold lease_at. by rewrite andb_true_iff, Z.eqb_eq, bool_decide_eq_true. Qed.

Lemma lease_at_key sid ip l :
  lease_at sid ip l = bool_decide ((ls_scope_id l, ls_ip l) = (sid, ip)).
Proof.
  apply eq_true_iff_eq. rewrite lease_at_spec, bool_decide_eq_true. split; [by intros [-> ->]|by intros [= -> ->]].
Qed.

(** The row an upsert leaves at its key. *)
Lemma upsert_find ts sid fam ip ident host starts expires st d d' id :
  upsert_dhcp_lease ts sid fam ip ident host starts expires st d = (d', Ok id) ->
  exists created, List.find (lease_at sid ip) (dhcp_leases d') =
    Some (mkDhcpLease id sid fam ip (to_ascii_lowercase ident) host starts expires st created).
Proof.
  unfold upsert_dhcp_lease. cbv zeta. destruct (List.find _ _) as [l|] eqn:Ef.
  - intros [= <- <-]. cbn [dhcp_leases set_dhcp_leases]. rewrite find_update_where by done. rewrite Ef.
    cbn [fmap option_fmap option_map]. apply List.find_some in Ef as [_ Hl]. rewrite Hl.
    apply lease_at_spec in Hl as [<- <-]. eauto.
  - case_goal; [done|]. intros [= <- <-]. cbn [dhcp_leases set_dhcp_leases]. rewrite find_app, Ef. cbn [List.find].
    exists ts. unfold lease_at at 1. cbn [ls_scope_id ls_ip]. by rewrite Z.eqb_refl, bool_decide_eq_true_2.
Qed.

(** Every other row stays. *)
Lemma upsert_others ts sid fam ip ident host starts expires st d l :
  lease_at sid ip l = false ->
  In l (dhcp_leases (fst (upsert_dhcp_lease ts sid fam ip ident host starts expires st d))) <->
  In l (dhcp_leases d).
Proof.
  intros Hl. unfold upsert_dhcp_lease. cbv zeta. destruct (List.find _ _) as [x|] eqn:Ef.
  - cbn. rewrite in_update_where. split.
    + intros (y & Hy & ->). destruct (lease_at sid ip y) eqn:E; [|done].
      unfold lease_at in *. cbn in Hl. congruence.
    + intros Hin. exists l. by rewrite Hl.
  - case_goal; [done|]. cbn. rewrite in_app_iff. split; [|auto]. intros [?|[<-|[]]]; [done|].
    unfold lease_at in Hl. cbn in Hl. by rewrite Z.eqb_refl, bool_decide_eq_true_2 in Hl.
Qed.

Lemma upsert_dhcp_lease_ok ts sid fam ip ident host starts expires st :
  preserves dhcp_ok (upsert_dhcp_lease ts sid fam ip ident host starts expires st).
Proof.
  intros d Hd. pose proof Hd as [? ? Hi Hk Hs Hl ? ? ?]. unfold upsert_dhcp_lease. cbv zeta.
  destruct (List.find _ _) as [x|] eqn:Ef.
  - constructor; cbn [dhcp_scopes dhcp_leases dhcp_reservations set_dhcp_leases fst]; try done;
      rewrite ?map_update_where by done; try done.
    + intros l Hin. apply in_update_where in Hin as (l0 & Hl0 & ->). destruct (lease_at _ _ _); cbn; auto.
    + intros l Hin. apply in_update_where in Hin as (l0 & Hl0 & ->). destruct (lease_at _ _ _); cbn; auto.
      apply lowercase_idem.
  - destruct (scope_exists d sid) eqn:Es; cbn [negb]; [|done].
    constructor; cbn [dhcp_scopes dhcp_leases dhcp_reservations set_dhcp_leases fst]; try done; rewrite ?fmap_app.
    + apply NoDup_snoc; [done|apply next_id_notin].
    + apply NoDup_snoc; [done|]. cbn. intros Hin. apply list_elem_of_fmap in Hin as (l & E & Hin).
      apply list_elem_of_In in Hin. pose proof (List.find_none _ _ Ef l Hin) as Hno.
      rewrite lease_at_key, <- E, bool_decide_eq_true_2 in Hno; done.
    + intros l Hin. apply in_app_iff in Hin as [Hin|[<-|[]]]; [auto|]. cbn.
      eapply existsb_key_true; [|exact Es]. intros a. apply eqb_bool_decide.
    + intros l Hin. apply in_app_iff in Hin as [Hin|[<-|[]]]; [auto|]. cbn. apply lowercase_idem.
Qed.

Lemma delete_leases_ok (p : DhcpLease -> bool) d :
  dhcp_ok d -> dhcp_ok (set_dhcp_leases (delete_where p (dhcp_leases d)) d).
Proof.
  intros [? ? ? ? Hs Hl ? ? ?]. constructor; cbn; try done; try (by apply NoDup_delete_where);
    intros l Hin; apply in_delete_where in Hin as [Hin _]; auto.
Qed.

Lemma delete_dhcp_lease_ok id : preserves dhcp_ok (delete_dhcp_lease id).
Proof. apply preserves_modify. intros d. apply delete_leases_ok. Qed.
#[export] Hint Resolve upsert_dhcp_lease_ok delete_dhcp_lease_ok : preserve.

Lemma prune_expired_leases_ok now : preserves dhcp_ok (prune_expired_leases now).
Proof. intros d Hd. by apply delete_leases_ok. Qed.

Lemma scopes_replaced_ok d ss :
  dhcp_ok d -> NoDup (sc_id <$> ss) -> NoDup (sc_name <$> ss) ->
  (forall i, i ∈ sc_id <$> dhcp_scopes d -> i ∈ sc_id <$> ss) -> dhcp_ok (set_dhcp_scopes ss d).
Proof. intros [] ? ? Hsub. constructor; cbn; try done; eauto. Qed.

Lemma create_dhcp_scope_ok ts n e f s rs re ls dr dz si i o :
  preserves dhcp_ok (create_dhcp_scope ts n e f s rs re ls dr dz si i o).
Proof.
  intros d Hd. pose proof Hd as [? ? ? ? ? ? ? ? ?]. unfold create_dhcp_scope. case_goal; [done|].
  apply scopes_replaced_ok; rewrite ?fmap_app; [done| | |].
  - apply NoDup_snoc; [done|apply next_id_notin].
  - apply NoDup_snoc; [done|]. by eapply existsb_key.
  - intros v Hv. apply elem_of_app. auto.
Qed.

Lemma update_scope_row_ok id f :
  (forall s, sc_id (f s) = sc_id s) -> (forall s, sc_name (f s) = sc_name s) ->
  preserves dhcp_ok (update_scope_row id f).
Proof.
  intros Hi Hn. apply preserves_modify. intros d Hd. pose proof Hd as [? ? ? ? ? ? ? ? ?].
  apply scopes_replaced_ok; rewrite ?map_update_where by done; auto.
Qed.

Lemma update_where_none {A} (p : A -> bool) f t : existsb p t = false -> update_where p f t = t.
Proof.
  unfold update_where. induction t as [|x t IH]; [done|]. cbn. intros H. breflect. rewrite H. f_equal. auto.
Qed.

Lemma update_scope_name_ok id v : preserves dhcp_ok (update_scope_name id v).
Proof.
  intros d Hd. pose proof Hd as [Hi Hn ? ? ? ? ? ? ?]. unfold update_scope_name. case_goal; [done|].
  unfold update_scope_row, modify, fst.
  destruct (existsb (fun s => sc_id s =? id) (dhcp_scopes d)) eqn:Ex; cbn [andb] in Heqb.
  - apply scopes_replaced_ok; [done| | |].
    + by rewrite map_update_where.
    + by apply (NoDup_rename sc_id sc_name _ _ v).
    + by rewrite map_update_where.
  - rewrite update_where_none by done. by apply scopes_replaced_ok.
Qed.

Lemma update_dhcp_scope_ok id n e s rs re ls dr dz si i o :
  preserves dhcp_ok (update_dhcp_scope id n e s rs re ls dr dz si i o).
Proof.
  unfold update_dhcp_scope. preserve; [apply update_scope_name_ok|..]; by apply update_scope_row_ok.
Qed.

Lemma delete_dhcp_scope_ok id : preserves dhcp_ok (delete_dhcp_scope id).
Proof.
  apply preserves_modify. intros d [? ? ? ? Hs Hl ? Hrs Hrl].
  assert (forall i, i ∈ sc_id <$> dhcp_scopes d -> (i =? id) = false ->
            i ∈ sc_id <$> delete_where (fun s => sc_id s =? id) (dhcp_scopes d)) as Hkeep.
  { intros i Hi Hne. apply list_elem_of_fmap in Hi as (s & -> & Hin). apply list_elem_of_fmap.
    exists s. split; [done|]. apply list_elem_of_In, in_delete_where. by apply list_elem_of_In in Hin. }
  constructor; cbn; try (by apply NoDup_delete_where);
    intros x Hx; apply in_delete_where in Hx as [Hx Hne]; auto.
Qed.

Lemma create_dhcp_reservation_ok ts sid ident ip h o :
  preserves dhcp_ok (create_dhcp_reservation ts sid ident ip h o).
Proof.
  intros d Hd. pose proof Hd as [? ? ? ? ? ? Hi Hs Hl]. unfold create_dhcp_reservation.
  destruct (scope_exists d sid) eqn:Es; cbn [negb]; [|done]. constructor; cbn; try done; rewrite ?fmap_app.
  - apply NoDup_snoc; [done|apply next_id_notin].
  - intros l Hin. apply in_app_iff in Hin as [Hin|[<-|[]]]; [auto|]. cbn.
    eapply existsb_key_true; [|exact Es]. intros a. apply eqb_bool_decide.
  - intros l Hin. apply in_app_iff in Hin as [Hin|[<-|[]]]; [auto|]. cbn. apply lowercase_idem.
Qed.

Lemma update_reservation_row_ok id f :
  (forall r, rs_id (f r) = rs_id r) -> (forall r, rs_scope_id (f r) = rs_scope_id r) ->
  (forall r, to_ascii_lowercase (rs_identifier r) = rs_identifier r ->
             to_ascii_lowercase (rs_identifier (f r)) = rs_identifier (f r)) ->
  preserves dhcp_ok (update_reservation_row id f).
Proof.
  intros H1 H2 H3. apply preserves_modify. intros d [? ? ? ? ? ? Hi Hs Hl]. constructor; cbn; try done.
  - by rewrite map_update_where.
  - intros r Hr. apply in_update_where in Hr as (r0 & Hr0 & ->). destruct (_ =? _); rewrite ?H2; auto.
  - intros r Hr. apply in_update_where in Hr as (r0 & Hr0 & ->). destruct (_ =? _); auto.
Qed.

Lemma update_dhcp_reservation_ok id ident ip h o : preserves dhcp_ok (update_dhcp_reservation id ident ip h o).
Proof.
  unfold update_dhcp_reservation. preserve; apply update_reservation_row_ok; try done.
  intros. cbn. apply lowercase_idem.
Qed.

Lemma delete_dhcp_reservation_ok id : preserves dhcp_ok (delete_dhcp_reservation id).
Proof.
  apply preserves_modify. intros d [? ? ? ? ? ? ? Hs Hl]. constructor; cbn; try done;
    try (by apply NoDup_delete_where); intros l Hin; apply in_delete_where in Hin as [Hin _]; auto.
Qed.
#[export] Hint Resolve prune_expired_leases_ok create_dhcp_scope_ok update_dhcp_scope_ok delete_dhcp_scope_ok
  create_dhcp_reservation_ok update_dhcp_reservation_ok delete_dhcp_reservation_ok : preserve.
