(* ===== verification/DbDns.v ===== *)
(** * DNS tables ([src/db.rs], "views", "zones", "records", "DynDNS tokens", secondaries) *)

From S2P Require Import Prelude Strs Net External Models Db.

(** ** Views *)

Definition view_le (a b : View) : bool :=
  (vw_priority a <? vw_priority b) || ((vw_priority a =? vw_priority b) && (vw_id a <=? vw_id b)).

Definition list_views : M (list View) := query (fun d => sort_with view_le (views d)).
Definition view (id : Z) : M (option View) := query (fun d => List.find (fun v => vw_id v =? id) (views d)).

Definition view_name_taken (name : string) (d : Db) : bool :=
  existsb (fun v => bool_decide (vw_name v = name)) (views d).

Definition create_view (ts name : string) (networks : list string) (priority : Z)
    (countries continents : list string) (asns : list Z) : M Z := fun d =>
  if view_name_taken name d then fail UniqueViolation d
  else
    let id := next_id vw_id (views d) in
    (set_views (views d ++ [mkView id name networks countries continents asns priority false ts]) d, Ok id).

Definition update_view_row (id : Z) (f : View -> View) : M unit :=
  modify (fun d => set_views (update_where (fun v => vw_id v =? id) f (views d)) d).

Definition update_view (id : Z) (name : option string) (networks : option (list string))
    (priority : option Z) (countries continents : option (list string)) (asns : option (list Z)) : M unit :=
  when_some name (fun n d =>
    if existsb (fun v => vw_id v =? id) (views d) &&
       existsb (fun v => negb (vw_id v =? id) && bool_decide (vw_name v = n)) (views d)
    then fail UniqueViolation d
    else update_view_row id (fun v => mkView (vw_id v) n (vw_networks v) (vw_countries v)
           (vw_continents v) (vw_asns v) (vw_priority v) (vw_is_default v) (vw_created_at v)) d) ;;;
  when_some networks (fun x => update_view_row id (fun v => mkView (vw_id v) (vw_name v) x (vw_countries v)
    (vw_continents v) (vw_asns v) (vw_priority v) (vw_is_default v) (vw_created_at v))) ;;;
  when_some priority (fun x => update_view_row id (fun v => mkView (vw_id v) (vw_name v) (vw_networks v)
    (vw_countries v) (vw_continents v) (vw_asns v) x (vw_is_default v) (vw_created_at v))) ;;;
  when_some countries (fun x => update_view_row id (fun v => mkView (vw_id v) (vw_name v) (vw_networks v)
    x (vw_continents v) (vw_asns v) (vw_priority v) (vw_is_default v) (vw_created_at v))) ;;;
  when_some continents (fun x => update_view_row id (fun v => mkView (vw_id v) (vw_name v) (vw_networks v)
    (vw_countries v) x (vw_asns v) (vw_priority v) (vw_is_default v) (vw_created_at v))) ;;;
  when_some asns (fun x => update_view_row id (fun v => mkView (vw_id v) (vw_name v) (vw_networks v)
    (vw_countries v) (vw_continents v) x (vw_priority v) (vw_is_default v) (vw_created_at v))).

(** Records of the view go with it; a token's view becomes null. *)
Definition delete_view (id : Z) : M unit := modify (fun d =>
  set_dyndns_tokens (update_where (fun t => bool_decide (tr_view_id t = Some id))
      (fun t => mkTokenRow (tr_id t) (tr_label t) (tr_username t) (tr_secret_hash t) (tr_hostnames t)
                  None (tr_ttl t) (tr_enabled t) (tr_last_update_at t) (tr_last_ip t) (tr_created_at t))
      (dyndns_tokens d))
    (set_records (delete_where (fun r => bool_decide (rr_view_id r = Some id)) (records d))
      (set_views (delete_where (fun v => vw_id v =? id) (views d)) d))).

Definition ensure_default_view (ts : string) : M unit := fun d =>
  if existsb vw_is_default (views d) then ret tt d
  else if view_name_taken "default" d then fail UniqueViolation d
  else (set_views (views d ++
          [mkView (next_id vw_id (views d)) "default" ["0.0.0.0/0"; "::/0"] [] [] [] 1000 true ts]) d, Ok tt).

(** ** Zones *)

(** [ZONE_SELECT] and [ZoneRaw::into_zone]; the 64-bit columns are cast to 32 bits. *)
Definition into_zone (d : Db) (z : ZoneRow) : Zone :=
  let s := List.find (fun s => sy_zone_id s =? zr_id z) (secondary_zones d) in
  let primary_addr := sy_primary_addr <$> s in
  mkZone (zr_id z) (zr_name z) (zr_enabled z) (zr_soa z) (as_u32 (zr_default_ttl z)) (as_u32 (zr_serial z))
    (Z.of_nat (length (List.filter (fun r => rr_zone_id r =? zr_id z) (records d))))
    (match primary_addr with Some _ => true | None => false end) primary_addr
    (s ≫= sy_last_check) (s ≫= sy_last_error)
    (existsb (fun k => dk_zone_id k =? zr_id z) (dnssec_keys d))
    (zr_created_at z) (zr_updated_at z).

Definition list_zones : M (list Zone) := query (fun d =>
  sort_with (fun a b => String.leb (zn_name a) (zn_name b)) (into_zone d <$> zones d)).
Definition zone (id : Z) : M (option Zone) := query (fun d =>
  into_zone d <$> List.find (fun z => zr_id z =? id) (zones d)).

Definition create_zone (ts name : string) (soa : Soa) (default_ttl : Z) : M Z := fun d =>
  if existsb (fun z => bool_decide (zr_name z = name)) (zones d) then fail UniqueViolation d
  else
    let id := next_id zr_id (zones d) in
    (set_zones (zones d ++ [mkZoneRow id name true soa default_ttl 1 ts ts]) d, Ok id).

Definition update_zone_row (id : Z) (f : ZoneRow -> ZoneRow) : M unit :=
  modify (fun d => set_zones (update_where (fun z => zr_id z =? id) f (zones d)) d).

Definition bump_serial (ts : string) (id : Z) : M unit :=
  update_zone_row id (fun z => mkZoneRow (zr_id z) (zr_name z) (zr_enabled z) (zr_soa z) (zr_default_ttl z)
    (zr_serial z + 1) (zr_created_at z) ts).

Definition update_zone (ts : string) (id : Z) (enabled : option bool) (soa : option Soa)
    (default_ttl : option Z) : M unit :=
  when_some enabled (fun e => update_zone_row id (fun z => mkZoneRow (zr_id z) (zr_name z) e (zr_soa z)
    (zr_default_ttl z) (zr_serial z) (zr_created_at z) (zr_updated_at z))) ;;;
  when_some soa (fun s => update_zone_row id (fun z => mkZoneRow (zr_id z) (zr_name z) (zr_enabled z) s
    (zr_default_ttl z) (zr_serial z) (zr_created_at z) (zr_updated_at z))) ;;;
  when_some default_ttl (fun t => update_zone_row id (fun z => mkZoneRow (zr_id z) (zr_name z) (zr_enabled z)
    (zr_soa z) t (zr_serial z) (zr_created_at z) (zr_updated_at z))) ;;;
  bump_serial ts id.

(** Records, keys and the secondary row of the zone go with it. *)
Definition delete_zone (id : Z) : M unit := modify (fun d =>
  set_secondary_zones (delete_where (fun s => sy_zone_id s =? id) (secondary_zones d))
    (set_dnssec_keys (delete_where (fun k => dk_zone_id k =? id) (dnssec_keys d))
      (set_records (delete_where (fun r => rr_zone_id r =? id) (records d))
        (set_zones (delete_where (fun z => zr_id z =? id) (zones d)) d)))).

(** ** Records *)

Definition zone_exists (d : Db) (id : Z) : bool := existsb (fun z => zr_id z =? id) (zones d).
Definition view_exists (d : Db) (id : option Z) : bool :=
  match id with Some v => existsb (fun w => vw_id w =? v) (views d) | None => true end.

Definition record_from (r : RecordRow) (zone_name : string) : DnsRecord :=
  mkDnsRecord (rr_id r) (rr_zone_id r) (rr_view_id r) (rr_name r) (record_fqdn_string (rr_name r) zone_name)
    (rr_rtype r) (as_u32 <$> rr_ttl r) (rr_data r) (rr_enabled r) (rr_created_at r) (rr_updated_at r).

(** [ORDER BY name, rtype]. *)
Definition record_le (a b : RecordRow) : bool :=
  String.ltb (rr_name a) (rr_name b) ||
  (String.eqb (rr_name a) (rr_name b) && String.leb (rr_rtype a) (rr_rtype b)).

Definition zone_name_of (zone_id : Z) : M string := fun d =>
  match List.find (fun z => zr_id z =? zone_id) (zones d) with
  | Some z => (d, Ok (zr_name z))
  | None => (d, Err NotFound)
  end.

Definition list_records (zone_id : Z) : M (list DnsRecord) :=
  let* zone_name := zone_name_of zone_id in
  query (fun d => (fun r => record_from r zone_name) <$>
    sort_with record_le (List.filter (fun r => rr_zone_id r =? zone_id) (records d))).

Definition record (id : Z) : M (option DnsRecord) :=
  let* row := query (fun d => List.find (fun r => rr_id r =? id) (records d)) in
  match row with
  | None => ret None
  | Some r => let* zone_name := zone_name_of (rr_zone_id r) in ret (Some (record_from r zone_name))
  end.

Definition insert_record (ts : string) (zone_id : Z) (view_id : option Z) (name rtype : string)
    (ttl : option Z) (data : string) : M Z := fun d =>
  if negb (zone_exists d zone_id) || negb (view_exists d view_id) then fail ForeignKeyViolation d
  else
    let id := next_id rr_id (records d) in
    (set_records (records d ++ [mkRecordRow id zone_id view_id name rtype ttl data true ts ts]) d, Ok id).

Definition create_record (ts : string) (zone_id : Z) (view_id : option Z) (name rtype : string)
    (ttl : option Z) (data : string) : M Z :=
  let* id := insert_record ts zone_id view_id name rtype ttl data in
  bump_serial ts zone_id ;;;
  ret id.

Definition update_record_row (id : Z) (f : RecordRow -> RecordRow) : M unit :=
  modify (fun d => set_records (update_where (fun r => rr_id r =? id) f (records d)) d).

Definition update_record (ts : string) (id : Z) (view_id : option (option Z)) (name : option string)
    (ttl : option (option Z)) (data : option string) (enabled : option bool) : M unit :=
  when_some view_id (fun v d =>
    if existsb (fun r => rr_id r =? id) (records d) && negb (view_exists d v) then fail ForeignKeyViolation d
    else update_record_row id (fun r => mkRecordRow (rr_id r) (rr_zone_id r) v (rr_name r) (rr_rtype r)
           (rr_ttl r) (rr_data r) (rr_enabled r) (rr_created_at r) (rr_updated_at r)) d) ;;;
  when_some name (fun v => update_record_row id (fun r => mkRecordRow (rr_id r) (rr_zone_id r) (rr_view_id r)
    v (rr_rtype r) (rr_ttl r) (rr_data r) (rr_enabled r) (rr_created_at r) (rr_updated_at r))) ;;;
  when_some ttl (fun v => update_record_row id (fun r => mkRecordRow (rr_id r) (rr_zone_id r) (rr_view_id r)
    (rr_name r) (rr_rtype r) v (rr_data r) (rr_enabled r) (rr_created_at r) (rr_updated_at r))) ;;;
  when_some data (fun v => update_record_row id (fun r => mkRecordRow (rr_id r) (rr_zone_id r) (rr_view_id r)
    (rr_name r) (rr_rtype r) (rr_ttl r) v (rr_enabled r) (rr_created_at r) (rr_updated_at r))) ;;;
  when_some enabled (fun v => update_record_row id (fun r => mkRecordRow (rr_id r) (rr_zone_id r) (rr_view_id r)
    (rr_name r) (rr_rtype r) (rr_ttl r) (rr_data r) v (rr_created_at r) (rr_updated_at r))) ;;;
  update_record_row id (fun r => mkRecordRow (rr_id r) (rr_zone_id r) (rr_view_id r) (rr_name r) (rr_rtype r)
    (rr_ttl r) (rr_data r) (rr_enabled r) (rr_created_at r) ts) ;;;
  let* row := query (fun d => List.find (fun r => rr_id r =? id) (records d)) in
  match row with
  | Some r => bump_serial ts (rr_zone_id r)
  | None => fail NotFound
  end.

Definition delete_record (ts : string) (id : Z) : M (option Z) :=
  let* row := query (fun d => List.find (fun r => rr_id r =? id) (records d)) in
  match row with
  | Some r =>
      modify (fun d => set_records (delete_where (fun x => rr_id x =? id) (records d)) d) ;;;
      bump_serial ts (rr_zone_id r) ;;;
      ret (Some (rr_zone_id r))
  | None => ret None
  end.

(** ** DynDNS *)

Inductive DynUpdate : Type := Created | Updated | Unchanged | NoZone.
#[export] Instance DynUpdate_eq_dec : EqDecision DynUpdate.
Proof. solve_decision. Defined.

Definition split_hostnames (csv : string) : list string :=
  List.filter (fun h => negb (is_empty h))
    ((fun h => to_ascii_lowercase (trim_end_matches "."%char (trim h))) <$> split ","%char csv).
Definition join_hostnames (hostnames : list string) : string :=
  join "," (List.filter (fun h => negb (is_empty h))
    ((fun h => to_ascii_lowercase (trim_end_matches "."%char (trim h))) <$> hostnames)).

Record DynDnsAuthRow : Type := mkAuthRow {
  da_id : Z; da_secret_hash : string; da_hostnames : list string; da_view_id : option Z; da_ttl : Z;
  da_enabled : bool }.

Definition list_dyndns_tokens : M (list DynDnsToken) := query (fun d =>
  (fun t => mkDynDnsToken (tr_id t) (tr_label t) (tr_username t) (split_hostnames (tr_hostnames t))
              (tr_view_id t) (as_u32 (tr_ttl t)) (tr_enabled t) (tr_last_update_at t) (tr_last_ip t)
              (tr_created_at t)) <$>
    sort_with (fun a b => String.leb (tr_label a) (tr_label b)) (dyndns_tokens d)).

Definition create_dyndns_token (ts label username secret_hash : string) (hostnames : list string)
    (view_id : option Z) (ttl : Z) : M Z := fun d =>
  if existsb (fun t => bool_decide (tr_username t = username)) (dyndns_tokens d) then fail UniqueViolation d
  else if negb (view_exists d view_id) then fail ForeignKeyViolation d
  else
    let id := next_id tr_id (dyndns_tokens d) in
    (set_dyndns_tokens (dyndns_tokens d ++
       [mkTokenRow id label username secret_hash (join_hostnames hostnames) view_id ttl true None None ts]) d,
     Ok id).

Definition delete_dyndns_token (id : Z) : M unit := modify (fun d =>
  set_dyndns_tokens (delete_where (fun t => tr_id t =? id) (dyndns_tokens d)) d).

Definition dyndns_auth (username : string) : M (option DynDnsAuthRow) := query (fun d =>
  (fun t => mkAuthRow (tr_id t) (tr_secret_hash t) (split_hostnames (tr_hostnames t)) (tr_view_id t)
              (as_u32 (tr_ttl t)) (tr_enabled t)) <$>
    List.find (fun t => bool_decide (tr_username t = username)) (dyndns_tokens d)).

Definition touch_dyndns_token (ts : string) (id : Z) (ip : string) : M unit := modify (fun d =>
  set_dyndns_tokens (update_where (fun t => tr_id t =? id)
    (fun t => mkTokenRow (tr_id t) (tr_label t) (tr_username t) (tr_secret_hash t) (tr_hostnames t)
                (tr_view_id t) (tr_ttl t) (tr_enabled t) (Some ts) (Some ip) (tr_created_at t))
    (dyndns_tokens d)) d).

(** A zone's name as compared: no final dot, lower case. *)
Definition zone_key (z : Zone) : string := to_ascii_lowercase (trim_end_matches "."%char (zn_name z)).

Definition covers_host (zn host : string) : bool := bool_decide (host = zn) || ends_with host ("." +:+ zn).

(** The loop that keeps the longest matching zone among the accepted ones. *)
Definition best_zone (accept : string -> bool) (host : string) (zs : list Zone) : option (Z * string) :=
  fold_left (fun best z =>
    let zn := zone_key z in
    if accept zn && covers_host zn host &&
       match best with Some (_, n) => (String.length n <? String.length zn)%nat | None => true end
    then Some (zn_id z, zn) else best) zs None.

(** The owner relative to the zone: [&host[..host.len() - zone_name.len() - 1]]. *)
Definition relative_name (host zone_name : string) : string :=
  if bool_decide (host = zone_name) then "@"
  else String.substring 0 (String.length host - String.length zone_name - 1) host.

(** The first row of the owner and type in the view. *)
Definition dyn_row (zone_id : Z) (rel rtype : string) (view_id : option Z) (r : RecordRow) : bool :=
  (rr_zone_id r =? zone_id) && eq_ignore_ascii_case (rr_name r) rel && bool_decide (rr_rtype r = rtype) &&
  bool_decide (rr_view_id r = view_id).

Definition dyndns_set_address (ts host_fqdn : string) (ip : IpAddr) (view_id : option Z) (ttl : Z)
    : M DynUpdate :=
  let host := to_ascii_lowercase (trim_end_matches "."%char (trim host_fqdn)) in
  let* zs := list_zones in
  match best_zone (fun _ => true) host zs with
  | None => ret NoZone
  | Some (zone_id, zone_name) =>
      let rel := relative_name host zone_name in
      let rtype := if is_ipv4 ip then "A" else "AAAA" in
      let data := show_ip ip in
      let* existing := query (fun d => List.find (dyn_row zone_id rel rtype view_id) (records d)) in
      match existing with
      | Some r =>
          if bool_decide (rr_data r = data) then ret Unchanged
          else update_record ts (rr_id r) None None None (Some data) None ;;; ret Updated
      | None =>
          create_record ts zone_id view_id rel rtype (Some ttl) data ;;; ret Created
      end
  end.

(** ** Imports and secondaries *)

(** The inserts of one import, with a single timestamp. *)
Definition insert_imported (ts : string) (zone_id : Z) (rs : list (string * string * Z * string)) : M unit :=
  for_each rs (fun '(name, rtype, ttl, data) =>
    insert_record ts zone_id None name rtype (Some ttl) data ;;; ret tt).

Definition import_records (ts : string) (zone_id : Z) (replace : bool)
    (rs : list (string * string * Z * string)) : M nat :=
  transaction (
    (if replace then modify (fun d => set_records (delete_where (fun r => rr_zone_id r =? zone_id) (records d)) d)
     else ret tt) ;;;
    insert_imported ts zone_id rs ;;;
    bump_serial ts zone_id ;;;
    ret (length rs)).

Definition replace_secondary_zone (ts : string) (zone_id : Z) (soa : Soa) (serial : Z)
    (rs : list (string * string * Z * string)) : M nat :=
  transaction (
    update_zone_row zone_id (fun z => mkZoneRow (zr_id z) (zr_name z) (zr_enabled z) soa (zr_default_ttl z)
      serial (zr_created_at z) ts) ;;;
    modify (fun d => set_records (delete_where (fun r => rr_zone_id r =? zone_id) (records d)) d) ;;;
    insert_imported ts zone_id rs ;;;
    ret (length rs)).

Definition list_secondaries : M (list SecondaryZone) := query (fun d =>
  sort_with (fun a b => String.leb (sz_name a) (sz_name b))
    (omap (fun s =>
       (fun z => mkSecondaryZone (sy_zone_id s) (zr_name z) (sy_primary_addr s) (sy_refresh_secs s)
          (as_u32 (zr_serial z))
          (Z.of_nat (length (List.filter (fun r => rr_zone_id r =? zr_id z) (records d))))
          (sy_last_check s) (sy_last_error s) (sy_tsig_key s)) <$>
       List.find (fun z => zr_id z =? sy_zone_id s) (zones d)) (secondary_zones d))).

Definition secondary (zone_id : Z) : M (option string) := query (fun d =>
  List.find (fun s => sy_zone_id s =? zone_id) (secondary_zones d) ≫= sy_tsig_key).

Definition create_secondary (ts : string) (zone_id : Z) (primary_addr : string) (refresh_secs : Z)
    (tsig_key : option string) : M unit := fun d =>
  if existsb (fun s => sy_zone_id s =? zone_id) (secondary_zones d) then fail UniqueViolation d
  else if negb (zone_exists d zone_id) then fail ForeignKeyViolation d
  else (set_secondary_zones (secondary_zones d ++
          [mkSecondaryRow zone_id primary_addr refresh_secs None None tsig_key ts]) d, Ok tt).

Definition set_secondary_status (ts : string) (zone_id : Z) (last_error : option string)
    (refresh_secs : option Z) : M unit :=
  modify (fun d => set_secondary_zones (update_where (fun s => sy_zone_id s =? zone_id)
    (fun s => mkSecondaryRow (sy_zone_id s) (sy_primary_addr s) (sy_refresh_secs s) (Some ts) last_error
                (sy_tsig_key s) (sy_created_at s)) (secondary_zones d)) d) ;;;
  when_some refresh_secs (fun v => modify (fun d =>
    set_secondary_zones (update_where (fun s => sy_zone_id s =? zone_id)
      (fun s => mkSecondaryRow (sy_zone_id s) (sy_primary_addr s) v (sy_last_check s) (sy_last_error s)
                  (sy_tsig_key s) (sy_created_at s)) (secondary_zones d)) d)).

(** ** DNSSEC keys: one row per zone, replaced on conflict *)

Definition create_dnssec_key (ts : string) (zone_id algorithm : Z) (secret : string) (nsec3 : bool)
    (salt_hex : option string) (iterations : Z) : M unit := fun d =>
  let row := mkDnssecRow zone_id algorithm secret nsec3 salt_hex iterations ts in
  if existsb (fun k => dk_zone_id k =? zone_id) (dnssec_keys d) then
    (set_dnssec_keys (update_where (fun k => dk_zone_id k =? zone_id) (fun _ => row) (dnssec_keys d)) d, Ok tt)
  else if negb (zone_exists d zone_id) then fail ForeignKeyViolation d
  else (set_dnssec_keys (dnssec_keys d ++ [row]) d, Ok tt).

Definition dnssec_config (zone_id : Z) : M (option (string * bool * option string * Z)) := query (fun d =>
  (fun k => (dk_secret k, dk_nsec3 k, dk_salt k, as_u16 (dk_iterations k))) <$>
    List.find (fun k => dk_zone_id k =? zone_id) (dnssec_keys d)).

Definition delete_dnssec_key (zone_id : Z) : M unit := modify (fun d =>
  set_dnssec_keys (delete_where (fun k => dk_zone_id k =? zone_id) (dnssec_keys d)) d).

(** ** Referential integrity *)

(** Keys and names are unique, and every record's zone and view exist. *)
Record dns_ok (d : Db) : Prop := {
  ok_zone_ids : NoDup (zr_id <$> zones d);
  ok_zone_names : NoDup (zr_name <$> zones d);
  ok_view_ids : NoDup (vw_id <$> views d);
  ok_view_names : NoDup (vw_name <$> views d);
  ok_record_ids : NoDup (rr_id <$> records d);
  ok_record_zone : forall r, In r (records d) -> rr_zone_id r ∈ zr_id <$> zones d;
  ok_record_view : forall r v, In r (records d) -> rr_view_id r = Some v -> v ∈ vw_id <$> views d }.

Lemma update_zone_row_ok id f :
  (forall z, zr_id (f z) = zr_id z) -> (forall z, zr_name (f z) = zr_name z) ->
  preserves dns_ok (update_zone_row id f).
Proof.
  intros Hid Hname. apply preserves_modify. intros d []. constructor; cbn; try done.
  - by rewrite map_update_where.
  - by rewrite map_update_where.
  - intros r Hr. rewrite map_update_where by done. auto.
Qed.

Lemma update_record_row_ok id f :
  (forall r, rr_id (f r) = rr_id r) -> (forall r, rr_zone_id (f r) = rr_zone_id r) ->
  (forall r, rr_view_id (f r) = rr_view_id r) -> preserves dns_ok (update_record_row id f).
Proof.
  intros H1 H2 H3. apply preserves_modify. intros d []. constructor; cbn; try done.
  - by rewrite map_update_where.
  - intros r Hr. apply in_update_where in Hr as (r0 & Hr0 & ->). destruct (_ =? _); rewrite ?H2; auto.
  - intros r v Hr Hv. apply in_update_where in Hr as (r0 & Hr0 & ->).
    destruct (_ =? _); [rewrite H3 in Hv|]; eauto.
Qed.

Lemma bump_serial_ok ts id : preserves dns_ok (bump_serial ts id).
Proof. by apply update_zone_row_ok. Qed.

Lemma delete_records_ok (p : RecordRow -> bool) :
  preserves dns_ok (modify (fun d => set_records (delete_where p (records d)) d)).
Proof.
  apply preserves_modify. intros d []. constructor; cbn; try done.
  - by apply NoDup_delete_where.
  - intros r Hr. apply in_delete_where in Hr as [Hr _]. auto.
  - intros r v Hr. apply in_delete_where in Hr as [Hr _]. eauto.
Qed.

Lemma insert_record_ok ts zone_id view_id name rtype ttl data :
  preserves dns_ok (insert_record ts zone_id view_id name rtype ttl data).
Proof.
  intros d [? ? ? ? Hids Hz Hv]. unfold insert_record. case_goal; [done|]. breflect.
  constructor; cbn; try done.
  - rewrite fmap_app. apply NoDup_snoc; [done|apply next_id_notin].
  - intros r Hr. apply in_app_iff in Hr as [Hr|[<-|[]]]; [auto|]. cbn.
    eapply existsb_key_true; [|eassumption]. intros a. cbn. apply eqb_bool_decide.
  - intros r v Hr. apply in_app_iff in Hr as [Hr|[<-|[]]]; [eauto|]. cbn. intros ->.
    eapply existsb_key_true; [|eassumption]. intros a. cbn. apply eqb_bool_decide.
Qed.
#[export] Hint Resolve bump_serial_ok delete_records_ok insert_record_ok : preserve.

Lemma create_zone_ok ts name soa ttl : preserves dns_ok (create_zone ts name soa ttl).
Proof.
  intros d [Hi Hn ? ? ? Hz Hv]. unfold create_zone. case_goal; [done|].
  constructor; cbn; try done; rewrite ?fmap_app.
  - apply NoDup_snoc; [done|apply next_id_notin].
  - apply NoDup_snoc; [done|]. by eapply existsb_key.
  - intros r Hr. apply elem_of_app. auto.
Qed.

Lemma delete_zone_ok id : preserves dns_ok (delete_zone id).
Proof.
  apply preserves_modify. intros d [? ? ? ? ? Hz Hv]. constructor; cbn; try done.
  - by apply NoDup_delete_where.
  - by apply NoDup_delete_where.
  - by apply NoDup_delete_where.
  - intros r Hr. apply in_delete_where in Hr as [Hr Hne]. apply Hz in Hr.
    apply list_elem_of_fmap in Hr as (z & E & Hin). apply list_elem_of_fmap. exists z. split; [done|].
    apply list_elem_of_In, in_delete_where. apply list_elem_of_In in Hin. split; [done|]. by rewrite <- E.
  - intros r v Hr. apply in_delete_where in Hr as [Hr _]. eauto.
Qed.

Lemma views_replaced_ok d vs :
  dns_ok d -> NoDup (vw_id <$> vs) -> NoDup (vw_name <$> vs) ->
  (forall v, v ∈ vw_id <$> views d -> v ∈ vw_id <$> vs) -> dns_ok (set_views vs d).
Proof. intros [] ? ? Hsub. constructor; cbn; try done. eauto. Qed.

Lemma create_view_ok ts name nets p cs cts asns : preserves dns_ok (create_view ts name nets p cs cts asns).
Proof.
  intros d Hd. pose proof Hd as [? ? Hvi Hvn ? ? ?]. unfold create_view, view_name_taken. case_goal; [done|].
  apply views_replaced_ok; rewrite ?fmap_app; [done| | |].
  - apply NoDup_snoc; [done|apply next_id_notin].
  - apply NoDup_snoc; [done|]. by eapply existsb_key.
  - intros v Hv. apply elem_of_app. auto.
Qed.

Lemma ensure_default_view_ok ts : preserves dns_ok (ensure_default_view ts).
Proof.
  intros d Hd. pose proof Hd as [? ? Hvi Hvn ? ? ?]. unfold ensure_default_view, view_name_taken.
  case_goal; [done|]. case_goal; [done|]. apply views_replaced_ok; rewrite ?fmap_app; [done| | |].
  - apply NoDup_snoc; [done|apply next_id_notin].
  - apply NoDup_snoc; [done|]. by eapply existsb_key.
  - intros v Hv. apply elem_of_app. auto.
Qed.

Lemma update_view_row_ok id f :
  (forall v, vw_id (f v) = vw_id v) -> (forall v, vw_name (f v) = vw_name v) ->
  preserves dns_ok (update_view_row id f).
Proof.
  intros Hi Hn. apply preserves_modify. intros d Hd. pose proof Hd as [? ? ? ? ? ? ?].
  apply views_replaced_ok; rewrite ?map_update_where by done; auto.
Qed.

Lemma update_view_ok id name nets p cs cts asns : preserves dns_ok (update_view id name nets p cs cts asns).
Proof.
  unfold update_view. preserve; try (by apply update_view_row_ok).
  intros d Hd. pose proof Hd as [? ? Hi Hn ? ? ?]. case_goal; [done|]. cbn.
  destruct (existsb (fun v => vw_id v =? id) (views d)) eqn:Ex; cbn [andb] in Heqb.
  - apply views_replaced_ok; [done| | |].
    + by rewrite map_update_where.
    + by apply (NoDup_rename vw_id vw_name _ _ a).
    + by rewrite map_update_where.
  - assert (update_where (fun v => vw_id v =? id) (fun v => mkView (vw_id v) a (vw_networks v) (vw_countries v)
           (vw_continents v) (vw_asns v) (vw_priority v) (vw_is_default v) (vw_created_at v)) (views d) = views d)
      as ->; [|by apply views_replaced_ok].
    revert Ex. generalize (views d). clear. induction l as [|v l IH]; [done|]. cbn. intros He. breflect.
    rewrite (proj2 (Z.eqb_neq _ _)) by done. f_equal. auto.
Qed.

Lemma delete_view_ok id : preserves dns_ok (delete_view id).
Proof.
  apply preserves_modify. intros d [? ? ? ? ? Hz Hv]. constructor; cbn; try done.
  - by apply NoDup_delete_where.
  - by apply NoDup_delete_where.
  - by apply NoDup_delete_where.
  - intros r Hr. apply in_delete_where in Hr as [Hr _]. auto.
  - intros r v Hr Hrv. apply in_delete_where in Hr as [Hr Hne]. breflect.
    destruct (list_elem_of_fmap_1 _ _ _ (Hv r v Hr Hrv)) as (w & E & Hin).
    apply list_elem_of_fmap. exists w. split; [done|]. apply list_elem_of_In in Hin.
    apply list_elem_of_In, in_delete_where. split; [done|]. apply Z.eqb_neq. congruence.
Qed.

Lemma update_zone_ok ts id e soa ttl : preserves dns_ok (update_zone ts id e soa ttl).
Proof. unfold update_zone. preserve; by apply update_zone_row_ok. Qed.

Lemma create_record_ok ts zid vid name rtype ttl data :
  preserves dns_ok (create_record ts zid vid name rtype ttl data).
Proof. unfold create_record. preserve. Qed.

Lemma update_record_ok ts id vid name ttl data en :
  preserves dns_ok (update_record ts id vid name ttl data en).
Proof.
  unfold update_record. preserve; try (by apply update_record_row_ok).
  intros d Hd. pose proof Hd as [? ? ? ? Hi Hz Hv]. case_goal; [done|]. constructor; cbn; try done.
  - by rewrite map_update_where.
  - intros r Hr. apply in_update_where in Hr as (r0 & Hr0 & ->). destruct (_ =? _); cbn; auto.
  - intros r v Hr Hrv. apply in_update_where in Hr as (r0 & Hr0 & ->).
    destruct (Z.eqb_spec (rr_id r0) id); [|eauto]. cbn in Hrv. subst.
    apply andb_false_iff in Heqb as [E|E].
    + assert (existsb (fun r => rr_id r =? rr_id r0) (records d) = true); [|congruence].
      apply existsb_exists. exists r0. split; [done|]. apply Z.eqb_refl.
    + breflect. eapply existsb_key_true; [|exact E]. intros w. apply eqb_bool_decide.
Qed.

Lemma delete_record_ok ts id : preserves dns_ok (delete_record ts id).
Proof. unfold delete_record. preserve. Qed.

#[export] Hint Resolve create_zone_ok update_zone_ok delete_zone_ok create_view_ok update_view_ok delete_view_ok
  ensure_default_view_ok create_record_ok update_record_ok delete_record_ok : preserve.

Lemma dyndns_set_address_ok ts host ip vid ttl : preserves dns_ok (dyndns_set_address ts host ip vid ttl).
Proof. unfold dyndns_set_address. preserve. Qed.

Lemma import_records_ok ts zid rep rs : preserves dns_ok (import_records ts zid rep rs).
Proof. unfold import_records, insert_imported. preserve. Qed.

Lemma replace_secondary_zone_ok ts zid soa serial rs :
  preserves dns_ok (replace_secondary_zone ts zid soa serial rs).
Proof. unfold replace_secondary_zone, insert_imported. preserve. by apply update_zone_row_ok. Qed.
#[export] Hint Resolve dyndns_set_address_ok import_records_ok replace_secondary_zone_ok : preserve.

(** ** The statements as steps *)

Inductive DnsOp : Type :=
| OpCreateView (ts name : string) (nets : list string) (p : Z) (cs cts : list string) (asns : list Z)
| OpUpdateView (id : Z) (name : option string) (nets : option (list string)) (p : option Z)
    (cs cts : option (list string)) (asns : option (list Z))
| OpDeleteView (id : Z)
| OpDefaultView (ts : string)
| OpCreateZone (ts name : string) (soa : Soa) (ttl : Z)
| OpUpdateZone (ts : string) (id : Z) (e : option bool) (soa : option Soa) (ttl : option Z)
| OpDeleteZone (id : Z)
| OpCreateRecord (ts : string) (zid : Z) (vid : option Z) (name rtype : string) (ttl : option Z) (data : string)
| OpUpdateRecord (ts : string) (id : Z) (vid : option (option Z)) (name : option string)
    (ttl : option (option Z)) (data : option string) (e : option bool)
| OpDeleteRecord (ts : string) (id : Z)
| OpDynDns (ts host : string) (ip : IpAddr) (vid : option Z) (ttl : Z)
| OpImport (ts : string) (zid : Z) (replace : bool) (rs : list (string * string * Z * string))
| OpSecondary (ts : string) (zid : Z) (soa : Soa) (serial : Z) (rs : list (string * string * Z * string)).

Definition run_op (op : DnsOp) (d : Db) : Db :=
  match op with
  | OpCreateView ts n nets p cs cts asns => fst (create_view ts n nets p cs cts asns d)
  | OpUpdateView id n nets p cs cts asns => fst (update_view id n nets p cs cts asns d)
  | OpDeleteView id => fst (delete_view id d)
  | OpDefaultView ts => fst (ensure_default_view ts d)
  | OpCreateZone ts n soa ttl => fst (create_zone ts n soa ttl d)
  | OpUpdateZone ts id e soa ttl => fst (update_zone ts id e soa ttl d)
  | OpDeleteZone id => fst (delete_zone id d)
  | OpCreateRecord ts zid vid n t ttl data => fst (create_record ts zid vid n t ttl data d)
  | OpUpdateRecord ts id vid n ttl data e => fst (update_record ts id vid n ttl data e d)
  | OpDeleteRecord ts id => fst (delete_record ts id d)
  | OpDynDns ts h ip vid ttl => fst (dyndns_set_address ts h ip vid ttl d)
  | OpImport ts zid rep rs => fst (import_records ts zid rep rs d)
  | OpSecondary ts zid soa s rs => fst (replace_secondary_zone ts zid soa s rs d)
  end.

Inductive db_reachable : Db -> Prop :=
| reach_empty : db_reachable empty_db
| reach_step d op : db_reachable d -> db_reachable (run_op op d).

Lemma run_op_ok op d : dns_ok d -> dns_ok (run_op op d).
Proof.
  intros Hd. destruct op; cbn [run_op];
    match goal with |- dns_ok (fst (?m d)) => enough (preserves dns_ok m) as Hp by (by apply Hp) end;
    auto with preserve.
Qed.

(** ** The longest covering zone *)

Lemma best_zone_fold accept host zs best :
  let r := fold_left (fun best z =>
    let zn := zone_key z in
    if accept zn && covers_host zn host &&
       match best with Some (_, n) => (String.length n <? String.length zn)%nat | None => true end
    then Some (zn_id z, zn) else best) zs best in
  match r with
  | None => best = None /\ forall z, In z zs -> accept (zone_key z) && covers_host (zone_key z) host = false
  | Some (id, n) =>
      (best = Some (id, n) \/
       exists z, In z zs /\ zn_id z = id /\ zone_key z = n /\ accept n && covers_host n host = true) /\
      (forall z, In z zs -> accept (zone_key z) && covers_host (zone_key z) host = true ->
                 (String.length (zone_key z) <= String.length n)%nat) /\
      match best with Some (_, m) => (String.length m <= String.length n)%nat | None => True end
  end.
Proof.
  cbv zeta. revert best. induction zs as [|z zs IH]; intros best; cbn [fold_left].
  - destruct best as [[id n]|]; [|done]. split_and!; [by left|done|lia].
  - specialize (IH (if accept (zone_key z) && covers_host (zone_key z) host &&
       match best with Some (_, n) => (String.length n <? String.length (zone_key z))%nat | None => true end
       then Some (zn_id z, zone_key z) else best)).
    destruct (accept (zone_key z) && covers_host (zone_key z) host) eqn:Ec; cbn [andb] in *.
    + destruct (match best with Some (_, n) => _ | None => true end) eqn:Eb.
      * destruct (fold_left _ zs _) as [[id n]|]; [|by destruct IH].
        destruct IH as (Hs & Hmax & Hlen). split_and!.
        -- right. destruct Hs as [[= <- <-]|(z' & ? & ?)]; [exists z; split_and!; auto; by left|].
           exists z'. split; [by right|done].
        -- intros z' [<-|Hz'] Hc'; [done|auto].
        -- destruct best as [[? m]|]; [|done]. apply Nat.ltb_lt in Eb. lia.
      * destruct best as [[b m]|]; [|done]. apply Nat.ltb_ge in Eb.
        destruct (fold_left _ zs _) as [[id n]|]; [|by destruct IH].
        destruct IH as (Hs & Hmax & Hlen). split_and!; [| |done].
        -- destruct Hs as [?|(z' & ? & ?)]; [by left|right; exists z'; split; [by right|done]].
        -- intros z' [<-|Hz'] Hc'; [lia|auto].
    + destruct (fold_left _ zs _) as [[id n]|].
      * destruct IH as (Hs & Hmax & Hlen). split_and!; [| |done].
        -- destruct Hs as [?|(z' & ? & ?)]; [by left|right; exists z'; split; [by right|done]].
        -- intros z' [<-|Hz'] Hc'; [congruence|auto].
      * destruct IH as (? & Hn). split; [done|]. intros z' [<-|Hz']; auto.
Qed.

(** [best_zone] only looks at the identifiers and names of the zones. *)
Lemma best_zone_ext accept host zs zs' :
  (fun z => (zn_id z, zn_name z)) <$> zs = (fun z => (zn_id z, zn_name z)) <$> zs' ->
  best_zone accept host zs = best_zone accept host zs'.
Proof.
  unfold best_zone. generalize (@None (Z * string)). revert zs'.
  induction zs as [|z zs IH]; intros [|z' zs'] b; cbn; try done. intros [= H1 H2 H3].
  assert (zone_key z = zone_key z') as -> by (unfold zone_key; by rewrite H2). rewrite H1. by apply IH.
Qed.

Lemma sort_with_fmap {A B} (f : A -> B) (leA : A -> A -> bool) (leB : B -> B -> bool) l :
  (forall a b, leB (f a) (f b) = leA a b) -> f <$> sort_with leA l = sort_with leB (f <$> l).
Proof.
  intros Hle. induction l as [|x l IH]; [done|]. cbn [sort_with fmap list_fmap].
  change (list_fmap _ _ f l) with (f <$> l). rewrite <- IH. generalize (sort_with leA l). clear IH l.
  induction l as [|y l IH]; [done|]. cbn. rewrite Hle. destruct (leA x y); [done|]. cbn. f_equal. apply IH.
Qed.

(** Databases with the same zone keys list the same zones to [best_zone]. *)
Lemma best_zone_list accept host d d' :
  (fun z => (zr_id z, zr_name z)) <$> zones d' = (fun z => (zr_id z, zr_name z)) <$> zones d ->
  best_zone accept host (sort_with (fun a b => String.leb (zn_name a) (zn_name b)) (into_zone d' <$> zones d')) =
  best_zone accept host (sort_with (fun a b => String.leb (zn_name a) (zn_name b)) (into_zone d <$> zones d)).
Proof.
  intros H. apply best_zone_ext.
  rewrite !(sort_with_fmap _ _ (fun a b => String.leb (snd a) (snd b))) by done.
  rewrite <- !list_fmap_compose. unfold compose. cbn. by rewrite H.
Qed.

(** ** What an update writes *)

(** The row with new data and timestamp. *)
Definition set_data (ts data : string) (r : RecordRow) : RecordRow :=
  mkRecordRow (rr_id r) (rr_zone_id r) (rr_view_id r) (rr_name r) (rr_rtype r) (rr_ttl r) data (rr_enabled r)
    (rr_created_at r) ts.
Definition bumped (ts : string) (id : Z) (zs : list ZoneRow) : list ZoneRow :=
  update_where (fun z => zr_id z =? id)
    (fun z => mkZoneRow (zr_id z) (zr_name z) (zr_enabled z) (zr_soa z) (zr_default_ttl z) (zr_serial z + 1)
                (zr_created_at z) ts) zs.

(** Changing only the data of a stored record. *)
Lemma update_record_data ts r data d :
  dns_ok d -> In r (records d) ->
  update_record ts (rr_id r) None None None (Some data) None d =
  (set_zones (bumped ts (rr_zone_id r) (zones d))
     (set_records (update_where (fun x => rr_id x =? rr_id r) (set_data ts data) (records d)) d), Ok tt).
Proof.
  intros Hd Hr. unfold update_record, when_some, bind, ret, update_record_row, modify, query. cbn [fst snd records set_records].
  rewrite update_where_twice by done.
  match goal with |- context [List.find _ (update_where _ ?g _)] => change g with (set_data ts data) end.
  rewrite find_update_where by done.
  rewrite (find_unique rr_id (fun x => rr_id x =? rr_id r) _ r); [|intros; apply eqb_bool_decide|apply Hd|done].
  cbn [fmap option_fmap option_map]. rewrite Z.eqb_refl. by destruct d.
Qed.

(** The owner, type, view and address an update is about. *)
Definition dyn_host (host_fqdn : string) : string := to_ascii_lowercase (trim_end_matches "."%char (trim host_fqdn)).
Definition dyn_type (ip : IpAddr) : string := if is_ipv4 ip then "A" else "AAAA".
Definition dyn_zone (d : Db) (host_fqdn : string) : option (Z * string) :=
  best_zone (fun _ => true) (dyn_host host_fqdn)
    (sort_with (fun a b => String.leb (zn_name a) (zn_name b)) (into_zone d <$> zones d)).
Definition dyn_record (d : Db) (host_fqdn : string) (ip : IpAddr) (view_id : option Z) : option RecordRow :=
  let! zn := dyn_zone d host_fqdn in
  List.find (dyn_row (fst zn) (relative_name (dyn_host host_fqdn) (snd zn)) (dyn_type ip) view_id) (records d).

Lemma dyndns_eq ts host ip vid ttl d :
  dns_ok d ->
  dyndns_set_address ts host ip vid ttl d =
  match dyn_zone d host with
  | None => (d, Ok NoZone)
  | Some (zid, zname) =>
      match dyn_record d host ip vid with
      | Some r =>
          if bool_decide (rr_data r = show_ip ip) then (d, Ok Unchanged)
          else (set_zones (bumped ts (rr_zone_id r) (zones d))
                 (set_records (update_where (fun x => rr_id x =? rr_id r) (set_data ts (show_ip ip)) (records d)) d),
                Ok Updated)
      | None =>
          if negb (zone_exists d zid) || negb (view_exists d vid) then (d, Err ForeignKeyViolation)
          else (set_zones (bumped ts zid (zones d))
                 (set_records (records d ++
                    [mkRecordRow (next_id rr_id (records d)) zid vid (relative_name (dyn_host host) zname)
                       (dyn_type ip) (Some ttl) (show_ip ip) true ts ts]) d), Ok Created)
      end
  end.
Proof.
  intros Hd. unfold dyndns_set_address, dyn_record, dyn_zone, dyn_host, dyn_type, list_zones, bind at 1, query at 1.
  cbv zeta. destruct (best_zone _ _ _) as [[zid zname]|]; [|done]. cbn [fst snd].
  unfold bind at 1, query. destruct (List.find _ _) as [r|] eqn:Ef.
  - case_bool_decide; [done|]. unfold bind.
    rewrite update_record_data; [done|done|]. by apply List.find_some in Ef as [? _].
  - unfold create_record, insert_record, bind, ret, bump_serial, update_zone_row, modify, fail.
    destruct (_ || _); [done|]. by destruct d.
Qed.

Lemma bumped_keys ts id zs :
  (fun z => (zr_id z, zr_name z)) <$> bumped ts id zs = (fun z => (zr_id z, zr_name z)) <$> zs.
Proof. unfold bumped. by rewrite map_update_where. Qed.

Lemma dyn_row_set_data zid rel t vid ts data r :
  dyn_row zid rel t vid (set_data ts data r) = dyn_row zid rel t vid r.
Proof. done. Qed.

Lemma dyn_record_zone d host ip vid r zid zname :
  dyn_zone d host = Some (zid, zname) -> dyn_record d host ip vid = Some r ->
  In r (records d) /\ rr_zone_id r = zid.
Proof.
  intros Hz. unfold dyn_record. rewrite Hz. cbn [fst snd]. intros Hf.
  apply List.find_some in Hf as [Hin Hp]. unfold dyn_row in Hp. by breflect.
Qed.

(** The state after a successful update points the owner at the address. *)
Lemma dyndns_settles ts host ip vid ttl d d' u :
  dns_ok d -> dyndns_set_address ts host ip vid ttl d = (d', Ok u) -> u <> NoZone ->
  dyn_zone d' host = dyn_zone d host /\ exists r, dyn_record d' host ip vid = Some r /\ rr_data r = show_ip ip.
Proof.
  intros Hd H Hu. rewrite dyndns_eq in H by done.
  destruct (dyn_zone d host) as [[zid zname]|] eqn:Ez; [|congruence].
  assert (forall rs, dyn_zone (set_zones (bumped ts zid (zones d)) (set_records rs d)) host = Some (zid, zname)) as Hz'.
  { intros rs. rewrite <- Ez. unfold dyn_zone. apply best_zone_list. cbn. apply bumped_keys. }
  destruct (dyn_record d host ip vid) as [r|] eqn:Er.
  - destruct (dyn_record_zone _ _ _ _ _ _ _ Ez Er) as [Hin Hrz]. case_bool_decide as Hdata.
    + injection H as <- <-. split; [done|]. eauto.
    + injection H as <- <-. rewrite Hrz. split; [apply Hz'|].
      unfold dyn_record. rewrite Hz'. unfold dyn_record in Er. rewrite Ez in Er. cbn [fst snd] in *.
      cbn [records set_zones set_records]. rewrite find_update_where, Er by (intros; apply dyn_row_set_data).
      cbn [fmap option_fmap option_map]. rewrite Z.eqb_refl. eauto.
  - case_hyp H; [done|]. injection H as <- <-. split; [apply Hz'|].
    unfold dyn_record. rewrite Hz'. unfold dyn_record in Er. rewrite Ez in Er. cbn [fst snd] in *.
    cbn [records set_zones set_records]. rewrite find_app, Er. cbn [List.find].
    unfold dyn_row at 1. cbn [rr_zone_id rr_name rr_rtype rr_view_id].
    rewrite Z.eqb_refl, eq_ignore_case_refl, !bool_decide_eq_true_2 by done. cbn. eauto.
Qed.

Lemma dyndns_writes ts host ip vid ttl d d' u :
  dns_ok d -> dyndns_set_address ts host ip vid ttl d = (d', Ok u) ->
  match u with
  | NoZone => d' = d /\ dyn_zone d host = None
  | Unchanged => d' = d
  | Created | Updated =>
      exists zid zname, dyn_zone d host = Some (zid, zname) /\ zones d' = bumped ts zid (zones d) /\
        views d' = views d /\
        (forall r, dyn_row zid (relative_name (dyn_host host) zname) (dyn_type ip) vid r = false ->
                   In r (records d') <-> In r (records d)) /\
        exists r, In r (records d') /\ rr_data r = show_ip ip /\
          dyn_row zid (relative_name (dyn_host host) zname) (dyn_type ip) vid r = true
  end.
Proof.
  intros Hd H. assert (H' := H). rewrite dyndns_eq in H by done.
  destruct (dyn_zone d host) as [[zid zname]|] eqn:Ez; [|by injection H as <- <-].
  assert (forall dd uu, dyndns_set_address ts host ip vid ttl d = (dd, Ok uu) -> uu <> NoZone ->
     exists r, In r (records dd) /\ rr_data r = show_ip ip /\
       dyn_row zid (relative_name (dyn_host host) zname) (dyn_type ip) vid r = true) as Hex.
  { intros dd uu Hdd Huu. destruct (dyndns_settles _ _ _ _ _ _ _ _ Hd Hdd Huu) as (Hz & r & Hr & Hdata).
    exists r. unfold dyn_record in Hr. rewrite Hz, Ez in Hr. apply List.find_some in Hr as [? ?]. auto. }
  destruct (dyn_record d host ip vid) as [r|] eqn:Er.
  - destruct (dyn_record_zone _ _ _ _ _ _ _ Ez Er) as [Hin Hrz].
    case_bool_decide; [by injection H as <- <-|]. injection H as <- <-. rewrite Hrz in *.
    exists zid, zname. split_and!; [done..| |by eapply Hex].
    intros x Hx. cbn [records set_zones set_records]. rewrite in_update_where.
    unfold dyn_record in Er. rewrite Ez in Er. apply List.find_some in Er as [_ Hrow]. cbn [fst snd] in Hrow.
    assert (forall y, In y (records d) -> rr_id y = rr_id r -> y = r) as Huniq.
    { intros y Hy Hid. assert (Some y = Some r) as [= ->]; [|done].
      rewrite <- (find_unique rr_id (fun x => rr_id x =? rr_id r) (records d) y);
        [|intros; rewrite Hid; apply eqb_bool_decide|apply Hd|done].
      apply (find_unique rr_id); [intros; apply eqb_bool_decide|apply Hd|done]. }
    split.
    + intros (y & Hy & ->). destruct (Z.eqb_spec (rr_id y) (rr_id r)) as [Hid|]; [|done].
      rewrite (Huniq y Hy Hid) in Hx. by rewrite dyn_row_set_data, Hrow in Hx.
    + intros Hxin. exists x. split; [done|]. destruct (Z.eqb_spec (rr_id x) (rr_id r)) as [Hid|]; [|done].
      rewrite (Huniq x Hxin Hid) in Hx. by rewrite Hrow in Hx.
  - case_hyp H; [done|]. injection H as <- <-. exists zid, zname. split_and!; [done..| |by eapply Hex].
    intros x Hx. cbn [records set_zones set_records]. rewrite in_app_iff. split; [|auto].
    intros [?|[<-|[]]]; [done|]. unfold dyn_row in Hx. cbn in Hx.
    by rewrite Z.eqb_refl, eq_ignore_case_refl, !bool_decide_eq_true_2 in Hx.
Qed.

(** ** Imported rows *)

Definition imported_row (zid : Z) (t : string * string * Z * string) (r : RecordRow) : Prop :=
  rr_zone_id r = zid /\ rr_view_id r = None /\ rr_enabled r = true /\
  t = (rr_name r, rr_rtype r, default 0 (rr_ttl r), rr_data r) /\ rr_ttl r <> None.

Lemma insert_imported_rows ts zid rs d :
  zone_exists d zid = true ->
  exists new, insert_imported ts zid rs d = (set_records (records d ++ new) d, Ok tt) /\
    Forall2 (imported_row zid) rs new.
Proof.
  revert d. induction rs as [|[[[name rtype] ttl] data] rs IH]; intros d Hz.
  { exists []. rewrite app_nil_r. split; [by destruct d|constructor]. }
  unfold insert_imported. cbn [for_each]. unfold bind at 1. unfold bind at 1, insert_record.
  rewrite Hz. cbn [negb orb view_exists ret].
  set (row := mkRecordRow _ _ _ _ _ _ _ _ _ _).
  destruct (IH (set_records (records d ++ [row]) d)) as (new & E & Hnew); [done|].
  exists (row :: new). split; [|by constructor].
  etransitivity; [exact E|]. cbn [records set_records]. rewrite <- app_assoc. by destruct d.
Qed.

Lemma replace_secondary_zone_eq ts zid soa serial rs d :
  zone_exists d zid = true ->
  exists new, replace_secondary_zone ts zid soa serial rs d =
    (set_records (delete_where (fun r => rr_zone_id r =? zid) (records d) ++ new)
       (set_zones (update_where (fun z => zr_id z =? zid) (fun z => mkZoneRow (zr_id z) (zr_name z) (zr_enabled z) soa
          (zr_default_ttl z) serial (zr_created_at z) ts) (zones d)) d), Ok (length rs)) /\
    Forall2 (imported_row zid) rs new.
Proof.
  intros Hz. set (zs := update_where _ _ (zones d)).
  set (d1 := set_records (delete_where (fun r => rr_zone_id r =? zid) (records d)) (set_zones zs d)).
  destruct (insert_imported_rows ts zid rs d1) as (new & E & Hnew).
  { unfold zone_exists, d1, zs. cbn [zones set_records set_zones]. unfold zone_exists in Hz.
    apply existsb_exists in Hz as (z & Hin & Hid). apply existsb_exists. eexists.
    split; [apply in_update_where; exists z; split; [done|reflexivity]|]. by rewrite Hid. }
  exists new. split; [|done]. unfold replace_secondary_zone, transaction, bind, update_zone_row, modify.
  fold zs. change (insert_imported ts zid rs _) with (insert_imported ts zid rs d1). rewrite E. reflexivity.
Qed.

(** ** Properties *)

(** every database the DNS statements can reach from the empty one has unique
    zone and view names and identifiers, and every record belongs to an existing
    zone and to no view or an existing one. *)
Theorem dns_integrity d : db_reachable d -> dns_ok d.
Proof.
  induction 1 as [|d op _ IH]; [|by apply run_op_ok].
  constructor; cbn; try constructor; done.
Qed.

(** a DynDNS update is idempotent: repeating it, at any later time, reports that
    nothing changed and writes nothing. *)
Theorem dyndns_idempotent ts ts' host ip vid ttl ttl' d d' u :
  dns_ok d -> dyndns_set_address ts host ip vid ttl d = (d', Ok u) ->
  dyndns_set_address ts' host ip vid ttl' d' =
  (d', Ok (match u with NoZone => NoZone | _ => Unchanged end)).
Proof.
  intros Hd H. assert (dns_ok d') as Hd'.
  { pose proof (dyndns_set_address_ok ts host ip vid ttl d Hd) as Hp. by rewrite H in Hp. }
  rewrite (dyndns_eq ts') by done. destruct (decide (u = NoZone)) as [->|Hu].
  - rewrite dyndns_eq in H by done. destruct (dyn_zone d host) as [[zid zname]|] eqn:Ez.
    + repeat case_hyp H; simplify_eq.
    + injection H as <-. by rewrite Ez.
  - destruct (dyndns_settles _ _ _ _ _ _ _ _ Hd H Hu) as (Hz & r & Hr & Hdata).
    destruct (dyn_zone d' host) as [[zid zname]|] eqn:Ez.
    + rewrite Hr, bool_decide_eq_true_2 by done. by destruct u.
    + unfold dyn_record in Hr. by rewrite Ez in Hr.
Qed.

(** a DynDNS update touches one owner only: it writes a record of the longest
    zone covering the host, at that owner, type and view, raises that zone's
    serial by one exactly when it wrote, and leaves every other record and zone
    as it was. *)
Theorem dyndns_effect ts host ip vid ttl d d' u :
  dns_ok d -> dyndns_set_address ts host ip vid ttl d = (d', Ok u) ->
  match u with
  | NoZone => d' = d /\ dyn_zone d host = None
  | Unchanged => d' = d
  | Created | Updated =>
      exists zid zname, dyn_zone d host = Some (zid, zname) /\ zones d' = bumped ts zid (zones d) /\
        views d' = views d /\
        (forall r, dyn_row zid (relative_name (dyn_host host) zname) (dyn_type ip) vid r = false ->
                   In r (records d') <-> In r (records d)) /\
        exists r, In r (records d') /\ rr_data r = show_ip ip /\
          dyn_row zid (relative_name (dyn_host host) zname) (dyn_type ip) vid r = true
  end.
Proof. apply dyndns_writes. Qed.

(** the zone an update goes to covers the host at a label boundary and no
    configured zone that covers it has a longer name; when there is none, the
    update answers [NoZone]. *)
Theorem dyndns_longest d host :
  match dyn_zone d host with
  | Some (zid, zname) =>
      (exists z, In z (zones d) /\ zr_id z = zid /\
         to_ascii_lowercase (trim_end_matches "."%char (zr_name z)) = zname) /\
      (dyn_host host = zname \/ exists front, dyn_host host = front +:+ "." +:+ zname) /\
      (forall z, In z (zones d) ->
         let zn := to_ascii_lowercase (trim_end_matches "."%char (zr_name z)) in
         dyn_host host = zn \/ (exists front, dyn_host host = front +:+ "." +:+ zn) ->
         (String.length zn <= String.length zname)%nat)
  | None =>
      forall z, In z (zones d) ->
        let zn := to_ascii_lowercase (trim_end_matches "."%char (zr_name z)) in
        ~ (dyn_host host = zn \/ exists front, dyn_host host = front +:+ "." +:+ zn)
  end.
Proof.
  assert (forall zn h, covers_host zn h = true <-> h = zn \/ exists front, h = front +:+ "." +:+ zn) as Hc.
  { intros zn h. unfold covers_host. by rewrite orb_true_iff, bool_decide_eq_true, ends_with_spec. }
  pose proof (best_zone_fold (fun _ => true) (dyn_host host)
    (sort_with (fun a b => String.leb (zn_name a) (zn_name b)) (into_zone d <$> zones d)) None) as H.
  cbv zeta in H. unfold dyn_zone, best_zone. cbv zeta.
  destruct (fold_left _ _ _) as [[zid zname]|]; cbn [andb] in H.
  - destruct H as ([?|(z & Hz & Hid & Hk & Hcov)] & Hmax & _); [done|].
    apply in_sort_with, in_map_iff in Hz as (z0 & <- & Hz0). split_and!.
    + exists z0. done.
    + by apply Hc.
    + intros z1 Hz1 Hcov1. apply (Hmax (into_zone d z1)).
      * apply in_sort_with, in_map_iff. eauto.
      * by apply Hc.
  - destruct H as [_ Hnone]. intros z Hz Hcov. apply Hc in Hcov.
    enough (covers_host (zone_key (into_zone d z)) (dyn_host host) = false) as E
      by (unfold zone_key in E; cbn [zn_name into_zone] in E; congruence).
    apply Hnone, in_sort_with, in_map_iff. eauto.
Qed.

(** ** Witnesses *)

Definition ex_db : Db :=
  run_op (OpCreateZone "t0" "lan" (Soa_default_for "lan") 300)
    (run_op (OpCreateZone "t0" "home.lan" (Soa_default_for "home.lan") 300) (run_op (OpDefaultView "t0") empty_db)).
Definition ex_ip : IpAddr := V4 (Ipv4Addr_new 192 168 1 7).

Lemma ex_db_reachable : db_reachable ex_db.
Proof. repeat (apply reach_step). apply reach_empty. Qed.

Lemma ex_db_ok : dns_ok ex_db.
Proof.
  repeat (apply run_op_ok). constructor; cbn; try constructor; done.
Qed.

Lemma dns_integrity_witness : dns_ok ex_db.
Proof. apply (dns_integrity ex_db). exact ex_db_reachable. Defined.

Example dyn_zone_ex : dyn_zone ex_db "NAS.home.lan." = Some (1, "home.lan").
Proof. vm_compute. reflexivity. Qed.

Lemma dyndns_idempotent_witness :
  let d' := fst (dyndns_set_address "t1" "NAS.home.lan." ex_ip None 60 ex_db) in
  dyndns_set_address "t2" "NAS.home.lan." ex_ip None 60 d' = (d', Ok Unchanged).
Proof.
  apply (dyndns_idempotent "t1" "t2" "NAS.home.lan." ex_ip None 60 60 ex_db _ Created).
  - exact ex_db_ok.
  - vm_compute. reflexivity.
Defined.

Lemma dyndns_effect_witness :
  let d' := fst (dyndns_set_address "t1" "NAS.home.lan." ex_ip None 60 ex_db) in
  exists zid zname, dyn_zone ex_db "NAS.home.lan." = Some (zid, zname) /\
    zones d' = bumped "t1" zid (zones ex_db) /\ views d' = views ex_db /\
    (forall r, dyn_row zid (relative_name (dyn_host "NAS.home.lan.") zname) (dyn_type ex_ip) None r = false ->
               In r (records d') <-> In r (records ex_db)) /\
    exists r, In r (records d') /\ rr_data r = show_ip ex_ip /\
      dyn_row zid (relative_name (dyn_host "NAS.home.lan.") zname) (dyn_type ex_ip) None r = true.
Proof.
  apply (dyndns_effect "t1" "NAS.home.lan." ex_ip None 60 ex_db
           (fst (dyndns_set_address "t1" "NAS.home.lan." ex_ip None 60 ex_db)) Created).
  - exact ex_db_ok.
  - vm_compute. reflexivity.
Defined.
