(* ===== verification/DhcpServer.v ===== *)
(** * The DHCP serving layer ([src/dhcp/server.rs])

    The reply builders and the policy functions are pure.  A handler reads the
    tables, decides, writes the lease, sends one datagram and registers the name
    in DNS.  The clock ([now], and its text [ts]), the interface a frame arrived
    on, the server's identity and whether the send succeeds are arguments.
    [None] is a Rust panic: [encode_option] slices text at byte positions. *)

From S2P Require Import Prelude Strs Net External Instances Models DhcpOptions Dhcp4 Dhcp6 Lease Db DbDhcp DbDns.

Definition OFFER_HOLD_SECS : Z := 120.
Definition V4_CLIENT_PORT : Z := 68.
Definition V4_RELAY_PORT : Z := 67.
Definition V6_CLIENT_PORT : Z := 546.

Abbreviation SocketAddr := (IpAddr * Z)%type.
Record RecvIface : Type := mkRecvIface { ri_name : string; ri_addr : option Z }.

(** ** Policy *)

Definition v4_client_id (msg : Dhcp4Message) : string :=
  match Dhcp4.client_id msg with
  | Some (b :: id) => concat_str (hex2 <$> b :: id)
  | _ => client_mac msg
  end.

Section Policy.
Context `{NETS : IpNets}.

Definition enabled_v4 (s : DhcpScope) : bool := sc_enabled s && bool_decide (sc_family s = FamV4).

(** The scope's subnet parses and contains the address. *)
Definition subnet_contains (addr : Z) (s : DhcpScope) : bool :=
  match parse_ipv4net (sc_subnet s) with
  | Some net => ipv4net_contains net addr
  | None => false
  end.

Definition select_v4_scope (scopes : list DhcpScope) (giaddr : Z) (iface : option RecvIface)
    : option DhcpScope :=
  let enabled := List.filter enabled_v4 scopes in
  let relayed := if giaddr =? UNSPECIFIED then None else List.find (subnet_contains giaddr) enabled in
  match relayed with
  | Some s => Some s
  | None =>
      let on_iface :=
        let! ic := iface in
        match List.find (fun s => bool_decide (sc_interface s = Some (ri_name ic))) enabled with
        | Some s => Some s
        | None => let! addr := ri_addr ic in List.find (subnet_contains addr) enabled
        end in
      match on_iface with
      | Some s => Some s
      | None => List.find enabled_v4 scopes
      end
  end.

Definition subnet_mask_v4 (subnet : string) : option Z := ipv4net_netmask <$> parse_ipv4net subnet.
End Policy.

Definition merge_options (scope_opts reservation_opts : list DhcpOption) : list DhcpOption :=
  fold_left (fun out ro => replace_or_push (fun o => do_code o =? do_code ro) ro out)
    reservation_opts scope_opts.

Definition merged_for_client (scope : DhcpScope) (reservations : list DhcpReservation) (cid : string)
    : list DhcpOption :=
  match List.find (fun r => eq_ignore_ascii_case (rs_identifier r) cid) reservations with
  | Some r => merge_options (sc_options scope) (rs_options r)
  | None => sc_options scope
  end.

Definition v4_reply_dest (req : Dhcp4Message) (is_nak : bool) : SocketAddr :=
  let broadcast := (V4 (Ipv4Addr_new 255 255 255 255), V4_CLIENT_PORT) in
  if negb (giaddr req =? UNSPECIFIED) then (V4 (giaddr req), V4_RELAY_PORT)
  else if is_nak then broadcast
  else if negb (ciaddr req =? UNSPECIFIED) then (V4 (ciaddr req), V4_CLIENT_PORT)
  else broadcast.

(** ** Reply builders *)

(** The server identifier of a scope. *)
Definition scope_server_id (scope : DhcpScope) : Z :=
  default UNSPECIFIED (sc_server_id scope ≫= parse_v4).

(** The codes [build_v4_reply] emits itself. *)
Definition reserved_code (c : Z) : bool := (c =? 1) || (c =? 51) || (c =? 53) || (c =? 54) || (255 <? c).

(** The loop over the merged options. *)
Fixpoint add_options (reply : Dhcp4Message) (merged : list DhcpOption) : option Dhcp4Message :=
  match merged with
  | [] => Some reply
  | opt :: rest =>
      if reserved_code (do_code opt) then add_options reply rest
      else
        let! enc := encode_option opt in
        match enc with
        | Ok bytes => add_options (Dhcp4.set_option reply (as_u8 (do_code opt)) bytes) rest
        | Err _ => add_options reply rest
        end
  end.

(** [file[..n].copy_from_slice(&bytes[..n])]. *)
Definition copy_into (dst bytes : list Z) : list Z :=
  let n := Nat.min (length bytes) (length dst) in take n bytes ++ drop n dst.

Definition with_file (m : Dhcp4Message) (f : list Z) : Dhcp4Message :=
  mkDhcp4Message (op m) (htype m) (hlen m) (hops m) (xid m) (secs m) (flags m) (ciaddr m) (yiaddr m)
    (siaddr m) (giaddr m) (chaddr m) (sname m) f (Dhcp4.options m).
Definition with_siaddr (m : Dhcp4Message) (a : Z) : Dhcp4Message :=
  mkDhcp4Message (op m) (htype m) (hlen m) (hops m) (xid m) (secs m) (flags m) (ciaddr m) (yiaddr m)
    a (giaddr m) (chaddr m) (sname m) (file m) (Dhcp4.options m).

Definition with_yiaddr (m : Dhcp4Message) (a : Z) : Dhcp4Message :=
  mkDhcp4Message (op m) (htype m) (hlen m) (hops m) (xid m) (secs m) (flags m) (ciaddr m) a
    (siaddr m) (giaddr m) (chaddr m) (sname m) (file m) (Dhcp4.options m).

(** The PXE/BOOTP loop. *)
Definition bridge_bootp (reply : Dhcp4Message) (merged : list DhcpOption) : Dhcp4Message :=
  fold_left (fun reply opt =>
    if do_code opt =? 67 then with_file reply (copy_into (file reply) (as_bytes (do_value opt)))
    else if do_code opt =? 66 then
      match parse_v4 (trim (do_value opt)) with
      | Some ip => with_siaddr reply ip
      | None => reply
      end
    else reply) merged reply.

Section Build4.
Context `{NETS : IpNets}.

(** The message [build_v4_reply] serializes. *)
Definition v4_reply (req : Dhcp4Message) (scope : DhcpScope) (merged_opts : list DhcpOption)
    (yiaddr : Z) (msg_type : Dhcp4MessageType.t) : option Dhcp4Message :=
  let server_id := scope_server_id scope in
  let reply := mkDhcp4Message 2 (htype req) (hlen req) 0 (xid req) 0 (flags req) (ciaddr req)
                 yiaddr server_id (giaddr req) (chaddr req)
                 (replicate 64 0) (replicate 128 0) [] in
  let reply := set_message_type reply msg_type in
  let reply := Dhcp4.set_option reply 54 (octets4 server_id) in
  if bool_decide (msg_type = Dhcp4MessageType.Nak) then Some (with_yiaddr reply UNSPECIFIED)
  else
    let reply := if yiaddr =? UNSPECIFIED then reply
                 else Dhcp4.set_option reply 51 (to_be 4 (sc_lease_secs scope)) in
    let reply := match subnet_mask_v4 (sc_subnet scope) with
                 | Some mask => Dhcp4.set_option reply 1 (octets4 mask)
                 | None => reply
                 end in
    let! reply := add_options reply merged_opts in
    Some (bridge_bootp reply merged_opts).

Definition build_v4_reply (req : Dhcp4Message) (scope : DhcpScope) (merged_opts : list DhcpOption)
    (yiaddr : Z) (msg_type : Dhcp4MessageType.t) : option (list Z) :=
  Dhcp4.build <$> v4_reply req scope merged_opts yiaddr msg_type.
End Build4.

(** The loop over the scope's options, DNS servers and search list only. *)
Fixpoint add_v6_options (reply : Dhcp6Message) (opts : list DhcpOption) : option Dhcp6Message :=
  match opts with
  | [] => Some reply
  | opt :: rest =>
      if (do_code opt =? 23) || (do_code opt =? 24) then
        let! enc := encode_option opt in
        match enc with
        | Ok bytes => add_v6_options (Dhcp6.set_option reply (do_code opt) bytes) rest
        | Err _ => add_v6_options reply rest
        end
      else add_v6_options reply rest
  end.

Definition v6_reply (req : Dhcp6Message) (scope : DhcpScope) (assigned : Z)
    (msg_type : Dhcp6MessageType.t) (server_duid : list Z) : option Dhcp6Message :=
  let reply := Dhcp6Message_new msg_type (transaction_id req) in
  let reply := match Dhcp6.option_of req 1 with
               | Some cid => Dhcp6.set_option reply 1 cid
               | None => reply
               end in
  let reply := Dhcp6.set_option reply 2 server_duid in
  let lease := sc_lease_secs scope in
  let iaid := match ia_na req with Some ia => iaid ia | None => 1 end in
  let ia := mkIaNa iaid (lease / 2) (lease / 5 * 4) [mkIaAddress assigned lease lease] in
  let reply := Dhcp6.set_option reply 3 (encode_ia_na ia) in
  add_v6_options reply (sc_options scope).

Definition build_v6_reply (req : Dhcp6Message) (scope : DhcpScope) (assigned : Z)
    (msg_type : Dhcp6MessageType.t) (server_duid : list Z) : option (list Z) :=
  Dhcp6.build <$> v6_reply req scope assigned msg_type server_duid.

(** ** DNS registration *)

Definition sanitize_label (raw : string) : option string :=
  let first := match split "."%char raw with s :: _ => s | [] => raw end in
  let kept := str_filter (fun c => is_ascii_alphanumeric c || bool_decide (c = "-"%char)) first in
  let cleaned := to_ascii_lowercase (trim_matches "-"%char (String.substring 0 63 kept)) in
  if is_empty cleaned then None else Some cleaned.

(** [format!("{:x}", n)] of a nibble. *)
Definition nibble (n : Z) : string := String (hex_digit n) EmptyString.

Definition reverse_name (ip : IpAddr) : string :=
  match ip with
  | V4 a =>
      let o := byte_at (octets4 a) in
      show_u (o 3%nat) +:+ "." +:+ show_u (o 2%nat) +:+ "." +:+ show_u (o 1%nat) +:+ "." +:+ show_u (o 0%nat)
        +:+ ".in-addr.arpa"
  | V6 a =>
      concat_str ((fun b => nibble (Z.land b 15) +:+ "." +:+ nibble (Z.shiftr b 4) +:+ ".") <$> rev (octets6 a))
        +:+ "ip6.arpa"
  end.

Definition v6_fqdn (msg : Dhcp6Message) : option string :=
  let! raw := Dhcp6.option_of msg 39 in
  match raw with
  | _ :: len :: rest =>
      if (len =? 0) || (length rest <? Z.to_nat len)%nat then None
      else from_utf8 (take (Z.to_nat len) rest)
  | _ => None
  end.

Definition is_reverse_zone (zn : string) : bool :=
  ends_with zn ".in-addr.arpa" || ends_with zn ".ip6.arpa" || bool_decide (zn = "in-addr.arpa")
  || bool_decide (zn = "ip6.arpa").

(** The closure that writes the PTR record. *)
Definition register_ptr (ts rev target : string) (ttl : Z) : M unit :=
  let* zs := list_zones in
  match best_zone is_reverse_zone rev zs with
  | None => ret tt
  | Some (zone_id, zone_name) =>
      create_record ts zone_id None (relative_name rev zone_name) "PTR" (Some ttl) target ;;; ret tt
  end.

(** What the DHCP server needs of the authoritative store: rebuilding it from the database. *)
Class StoreLoad := {
  ZStore : Type;
  load_store : Db -> result ZStore DbError;
}.

Section Handlers.
Context `{STORE : StoreLoad} `{NETS : IpNets} `{TIME : Rfc3339}.

Record AppState : Type := mkAppState { as_db : Db; as_store : ZStore }.

(** [reload_store]: an error keeps the store. *)
Definition reload_store (a : AppState) : AppState :=
  match load_store (as_db a) with
  | Ok s => mkAppState (as_db a) s
  | Err _ => a
  end.

(** [db.run(m)]. *)
Definition run_db {X} (m : M X) (a : AppState) : AppState * result X DbError :=
  let '(d, r) := m (as_db a) in (mkAppState d (as_store a), r).

Definition register_dns (ts : string) (scope : DhcpScope) (ip : IpAddr) (hostname : option string)
    (a : AppState) : AppState :=
  if negb (sc_dns_register scope) then a
  else match sc_dns_zone scope with
  | None => a
  | Some zone =>
      match hostname ≫= sanitize_label with
      | None => a
      | Some host =>
          let ttl := Z.max (sc_lease_secs scope) 60 in
          let fqdn := host +:+ "." +:+ zone in
          let '(a1, res) := run_db (dyndns_set_address ts fqdn ip None ttl) a in
          match res with
          | Err _ => a1
          | Ok _ => fst (run_db (register_ptr ts (reverse_name ip) (fqdn +:+ ".") ttl) (reload_store a1))
          end
      end
  end.

(** ** DHCPv4 *)

Inductive HandlerError : Type := DbFailed (e : DbError) | SendFailed.
Abbreviation packet := (SocketAddr * list Z)%type.
(** The state after, the datagrams handed to the socket, the handler's result. *)
Abbreviation outcome := (AppState * list packet * result unit HandlerError)%type.

Definition persist_v4_lease (ts : string) (scope : DhcpScope) (ip : Z) (cid : string)
    (hostname : option string) (starts expires : Z) (st : LeaseState) : M unit :=
  upsert_dhcp_lease ts (sc_id scope) FamV4 (show_v4 ip) cid hostname (format_unix starts)
    (format_unix expires) st ;;; ret tt.

Definition release_v4_lease (ts : string) (leases : list DhcpLease) (cid : string) (st : LeaseState) : M unit :=
  for_each (List.filter (fun l => eq_ignore_ascii_case (ls_identifier l) cid) leases) (fun l =>
    if bool_decide (st = Released) then delete_dhcp_lease (ls_id l)
    else upsert_dhcp_lease ts (ls_scope_id l) (ls_family l) (ls_ip l) (ls_identifier l) (ls_hostname l)
           (ls_starts_at l) (ls_expires_at l) Declined ;;; ret tt).

(** What the handler is about to do, from the rows it read. *)
Inductive v4_action : Type :=
| A4None
| A4Offer (yiaddr : Z) (reply : list Z)
| A4Ack (yiaddr : Z) (reply : list Z)
| A4Nak (reply : list Z)
| A4Release
| A4Decline
| A4Inform (reply : list Z).

Definition v4_decide (now : Z) (msg : Dhcp4Message) (mtype : Dhcp4MessageType.t) (scope : DhcpScope)
    (reservations : list DhcpReservation) (leases : list DhcpLease) : option v4_action :=
  let cid := v4_client_id msg in
  match mtype with
  | Dhcp4MessageType.Discover =>
      match allocate scope reservations leases cid (V4 <$> Dhcp4.requested_ip msg) now with
      | Some (V4 yiaddr) =>
          let! reply := build_v4_reply msg scope (merged_for_client scope reservations cid) yiaddr
                          Dhcp4MessageType.Offer in
          Some (A4Offer yiaddr reply)
      | _ => Some A4None
      end
  | Dhcp4MessageType.Request =>
      let desired := match Dhcp4.requested_ip msg with
                     | Some ip => Some ip
                     | None => if ciaddr msg =? UNSPECIFIED then None else Some (ciaddr msg)
                     end in
      let nak := let! reply := build_v4_reply msg scope [] UNSPECIFIED Dhcp4MessageType.Nak in
                 Some (A4Nak reply) in
      match allocate scope reservations leases cid (V4 <$> Dhcp4.requested_ip msg) now with
      | Some (V4 yiaddr) =>
          if match desired with None => true | Some d => d =? yiaddr end then
            let! reply := build_v4_reply msg scope (merged_for_client scope reservations cid) yiaddr
                            Dhcp4MessageType.Ack in
            Some (A4Ack yiaddr reply)
          else nak
      | _ => nak
      end
  | Dhcp4MessageType.Release => Some A4Release
  | Dhcp4MessageType.Decline => Some A4Decline
  | Dhcp4MessageType.Inform =>
      let! reply := build_v4_reply msg scope (merged_for_client scope reservations cid) UNSPECIFIED
                      Dhcp4MessageType.Ack in
      Some (A4Inform reply)
  | Dhcp4MessageType.Offer | Dhcp4MessageType.Ack | Dhcp4MessageType.Nak => Some A4None
  end.

(** [db.run(m).await?], then [k]. *)
Definition try_db (m : M unit) (a : AppState) (k : AppState -> outcome) : outcome :=
  let '(a', r) := run_db m a in
  match r with
  | Ok _ => k a'
  | Err e => (a', [], Err (DbFailed e))
  end.

(** [send_v4(...).await?], then [k]. *)
Definition try_send (send_ok : bool) (p : packet) (a : AppState) (k : AppState -> AppState) : outcome :=
  if send_ok then (k a, [p], Ok tt) else (a, [], Err SendFailed).

Definition v4_perform (ts : string) (now : Z) (send_ok : bool) (msg : Dhcp4Message) (scope : DhcpScope)
    (leases : list DhcpLease) (act : v4_action) (a : AppState) : outcome :=
  let cid := v4_client_id msg in
  match act with
  | A4None => (a, [], Ok tt)
  | A4Offer yiaddr reply =>
      let hold := Z.min (sc_lease_secs scope) OFFER_HOLD_SECS in
      try_db (persist_v4_lease ts scope yiaddr cid (Dhcp4.hostname msg) now (now + hold) Offered) a (fun a =>
        try_send send_ok (v4_reply_dest msg false, reply) a (fun a => a))
  | A4Ack yiaddr reply =>
      try_db (persist_v4_lease ts scope yiaddr cid (Dhcp4.hostname msg) now (now + sc_lease_secs scope) Active) a
        (fun a => try_send send_ok (v4_reply_dest msg false, reply) a
                    (register_dns ts scope (V4 yiaddr) (Dhcp4.hostname msg)))
  | A4Nak reply => try_send send_ok (v4_reply_dest msg true, reply) a (fun a => a)
  | A4Release => try_db (release_v4_lease ts leases cid Released) a (fun a => (a, [], Ok tt))
  | A4Decline => try_db (release_v4_lease ts leases cid Declined) a (fun a => (a, [], Ok tt))
  | A4Inform reply => try_send send_ok (v4_reply_dest msg false, reply) a (fun a => a)
  end.

(** The rows of a scope, as the handler reads them. *)
Definition scope_reservations (d : Db) (sid : Z) : list DhcpReservation :=
  sort_with (fun a b => String.leb (rs_ip a) (rs_ip b))
    (List.filter (fun r => rs_scope_id r =? sid) (dhcp_reservations d)).
Definition scope_leases (d : Db) (sid : Z) : list DhcpLease :=
  sort_with (fun a b => String.leb (ls_ip a) (ls_ip b))
    (List.filter (fun l => ls_scope_id l =? sid) (dhcp_leases d)).
Definition sorted_scopes (d : Db) : list DhcpScope :=
  sort_with (fun a b => String.leb (sc_name a) (sc_name b)) (dhcp_scopes d).

(** [handle_v4] with no other handler between its statements. *)
Definition handle_v4 (ts : string) (now : Z) (iface : option RecvIface) (send_ok : bool)
    (msg : Dhcp4Message) (a : AppState) : option outcome :=
  match Dhcp4.message_type msg with
  | None => Some (a, [], Ok tt)
  | Some mtype =>
      match select_v4_scope (sorted_scopes (as_db a)) (giaddr msg) iface with
      | None => Some (a, [], Ok tt)
      | Some scope =>
          let reservations := scope_reservations (as_db a) (sc_id scope) in
          let leases := scope_leases (as_db a) (sc_id scope) in
          let! act := v4_decide now msg mtype scope reservations leases in
          Some (v4_perform ts now send_ok msg scope leases act a)
      end
  end.

(** One turn of [v4_loop]: a frame that does not parse is dropped. *)
Definition v4_turn (ts : string) (now : Z) (iface : option RecvIface) (send_ok : bool) (frame : list Z)
    (a : AppState) : option outcome :=
  match Dhcp4.parse frame with
  | Err _ => Some (a, [], Ok tt)
  | Ok msg => handle_v4 ts now iface send_ok msg a
  end.

(** ** DHCPv6 *)

Definition persist_v6_lease (ts : string) (scope : DhcpScope) (ip : Z) (duid : string)
    (starts expires : Z) (st : LeaseState) : M unit :=
  upsert_dhcp_lease ts (sc_id scope) FamV6 (show_v6 ip) duid None (format_unix starts)
    (format_unix expires) st ;;; ret tt.

Definition handle_v6 (ts : string) (now : Z) (server_duid : list Z) (src : IpAddr) (send_ok : bool)
    (msg : Dhcp6Message) (a : AppState) : option outcome :=
  match List.find (fun s => sc_enabled s && bool_decide (sc_family s = FamV6)) (sorted_scopes (as_db a)) with
  | None => Some (a, [], Ok tt)
  | Some scope =>
      match client_duid msg with
      | None => Some (a, [], Ok tt)
      | Some duid =>
          let reservations := scope_reservations (as_db a) (sc_id scope) in
          let leases := scope_leases (as_db a) (sc_id scope) in
          let dest := (src, V6_CLIENT_PORT) in
          match msg_type msg with
          | Dhcp6MessageType.Solicit | Dhcp6MessageType.Request
          | Dhcp6MessageType.Renew | Dhcp6MessageType.Rebind =>
              match allocate scope reservations leases duid None now with
              | Some (V6 assigned) =>
                  let '(reply_type, state_kind, hold) :=
                    if bool_decide (msg_type msg = Dhcp6MessageType.Solicit) then
                      (Dhcp6MessageType.Advertise, Offered, Z.min (sc_lease_secs scope) OFFER_HOLD_SECS)
                    else (Dhcp6MessageType.Reply, Active, sc_lease_secs scope) in
                  let! reply := build_v6_reply msg scope assigned reply_type server_duid in
                  Some (try_db (persist_v6_lease ts scope assigned duid now (now + hold) state_kind) a (fun a =>
                    try_send send_ok (dest, reply) a (fun a =>
                      if bool_decide (state_kind = Active) then register_dns ts scope (V6 assigned) (v6_fqdn msg) a
                      else a)))
              | _ => Some (a, [], Ok tt)
              end
          | Dhcp6MessageType.Release | Dhcp6MessageType.Decline =>
              let ids := ls_id <$> List.filter (fun l => eq_ignore_ascii_case (ls_identifier l) duid) leases in
              Some (try_db (for_each ids delete_dhcp_lease) a (fun a => (a, [], Ok tt)))
          | _ => Some (a, [], Ok tt)
          end
      end
  end.

(** One turn of [v6_loop]. *)
Definition v6_turn (ts : string) (now : Z) (server_duid : list Z) (src : IpAddr) (send_ok : bool) (frame : list Z)
    (a : AppState) : option outcome :=
  match Dhcp6.parse frame with
  | Err _ => Some (a, [], Ok tt)
  | Ok msg => handle_v6 ts now server_duid src send_ok msg a
  end.
End Handlers.

(** ** The server's DUID *)

(** [/etc/hostname], the variable [HOSTNAME] and [DefaultHasher], whose algorithm the
    standard library leaves open. *)
Definition host_name (file env : option string) : string :=
  match file with
  | Some s => if is_empty (trim s) then default "nomina" env else trim s
  | None => default "nomina" env
  end.
Definition host_seed (hash : string -> Z) (file env : option string) : list Z :=
  let v := to_be 8 (hash (host_name file env)) in
  match take 6 v with
  | b :: rest => Z.lor (Z.land b 254) 2 :: rest
  | [] => []
  end.
Definition own_server_duid (hash : string -> Z) (file env : option string) : list Z :=
  duid_ll 1 (host_seed hash file env).

(** A DUID-LL of ten bytes; its hardware address is unicast and locally administered. *)
Lemma own_server_duid_shape hash file env :
  exists b rest, own_server_duid hash file env = [0; 3; 0; 1; b] ++ rest /\ length rest = 5%nat /\
    Z.testbit b 0 = false /\ Z.testbit b 1 = true /\ bytes_ok (own_server_duid hash file env).
Proof.
  unfold own_server_duid, host_seed, duid_ll. set (v := hash (host_name file env)). clearbody v.
  pose proof (to_be_bytes_ok 8 v) as Hb. pose proof (length_to_be 8 v) as Hl.
  destruct (to_be 8 v) as [|b bs]; [done|]. cbn [take]. exists (Z.lor (Z.land b 254) 2), (take 5 bs).
  split; [done|]. split; [rewrite length_take; cbn in Hl; lia|].
  rewrite !Z.lor_spec, !Z.land_spec. change (Z.testbit 254 0) with false. change (Z.testbit 2 0) with false. change (Z.testbit 2 1) with true.
  rewrite andb_false_r. split; [done|]. split; [apply orb_true_r|].
  apply List.Forall_cons_iff in Hb as [H1 H2]. repeat apply Forall_app_2; try apply to_be_bytes_ok.
  apply List.Forall_cons; [|by apply Forall_take]. unfold is_u8, u8_max in *. split.
  - apply Z.lor_nonneg. split; [apply Z.land_nonneg|]; lia.
  - assert (forallb (fun n => Z.lor (Z.land n 254) 2 <=? 255) (seqZ 0 256) = true) as Hall by (by vm_compute).
    rewrite forallb_forall in Hall. apply Z.leb_le, Hall, list_elem_of_In, elem_of_seqZ. lia.
Qed.

(** ** Lemmas: DHCPv4 replies *)

Lemma parse_v4_u32 s a : parse_v4 s = Some a -> is_u32 a.
Proof.
  unfold parse_v4, parse_with. intros H. case_hyp H; [done|].
  destruct (read_ipv4_addr s) as [[x r]|] eqn:E; [|done]. destruct r; [|done]. injection H as <-.
  by eapply read_ipv4_u32.
Qed.

Lemma scope_server_id_u32 scope : is_u32 (scope_server_id scope).
Proof.
  unfold scope_server_id. destruct (sc_server_id scope) as [s|]; cbn; [|unfold is_u32, u32_max, UNSPECIFIED; lia].
  destruct (parse_v4 s) eqn:E; cbn; [by eapply parse_v4_u32|unfold is_u32, u32_max, UNSPECIFIED; lia].
Qed.

Lemma set_option_wf m code v : Dhcp4.message_wf m -> is_u8 code -> bytes_ok v -> Dhcp4.message_wf (Dhcp4.set_option m code v).
Proof.
  intros [] Hc Hv. constructor; cbn; try done. by apply Forall_replace_or_push.
Qed.
#[export] Hint Resolve set_option_wf scope_server_id_u32 : nomina.

Lemma as_u8_u8 n : is_u8 (as_u8 n).
Proof. unfold is_u8, u8_max, as_u8. pose proof (Z.mod_pos_bound n 256). lia. Qed.
#[export] Hint Resolve as_u8_u8 : nomina.

Lemma add_options_wf opts m m' :
  add_options m opts = Some m' -> Dhcp4.message_wf m -> Dhcp4.message_wf m'.
Proof.
  revert m. induction opts as [|o opts IH]; intros m; cbn [add_options]; [by intros [= ->]|].
  intros H Hm. case_hyp H; [by eapply IH|]. destruct (encode_option o) as [[b|e]|] eqn:E; [|by eapply IH|done].
  eapply IH; [exact H|]. apply set_option_wf; auto with nomina. by eapply encode_option_bytes.
Qed.

(** The options written before the loop survive it. *)
Lemma add_options_reserved opts m m' c :
  Forall (fun o => 0 <= do_code o) opts -> reserved_code c = true -> c <= 255 ->
  add_options m opts = Some m' -> Dhcp4.option_of m' c = Dhcp4.option_of m c.
Proof.
  intros Hpos Hc Hc'. revert m. induction Hpos as [|o opts Ho _ IH]; intros m; cbn [add_options]; [by intros [= ->]|].
  intros H. case_hyp H; [by apply IH|]. destruct (encode_option o) as [[b|e]|]; [|by apply IH|done].
  rewrite (IH _ H). apply Dhcp4.option_of_set_other. intros E. unfold as_u8 in E.
  unfold reserved_code in *. breflect. rewrite Z.mod_small in E by lia. subst c.
  rewrite !orb_true_iff, !Z.eqb_eq, Z.ltb_lt in Hc. lia.
Qed.

Lemma add_options_header opts m m' :
  add_options m opts = Some m' -> exists o, m' = Dhcp4.with_options m o.
Proof.
  revert m. induction opts as [|o opts IH]; intros m; cbn [add_options].
  - intros [= <-]. exists (Dhcp4.options m). by destruct m.
  - intros H. case_hyp H; [eauto|]. destruct (encode_option o) as [[b|e]|]; [|eauto|done].
    destruct (IH _ H) as (l & ->). eexists. unfold Dhcp4.set_option, Dhcp4.with_options. reflexivity.
Qed.

Lemma copy_into_ok dst bytes :
  bytes_ok dst -> bytes_ok bytes -> bytes_ok (copy_into dst bytes) /\ length (copy_into dst bytes) = length dst.
Proof.
  intros Hd Hb. unfold copy_into. split; [solve_bytes|].
  rewrite length_app, length_take, length_drop. lia.
Qed.

(** The bridging loop keeps everything but [file] and [siaddr]. *)
Lemma bridge_bootp_wf opts m :
  Dhcp4.message_wf m ->
  Dhcp4.message_wf (bridge_bootp m opts) /\
  exists f s, bridge_bootp m opts = with_file (with_siaddr m s) f.
Proof.
  unfold bridge_bootp. revert m. induction opts as [|o opts IH]; intros m Hm; cbn [fold_left].
  - split; [done|]. exists (file m), (siaddr m). by destruct m.
  - case_goal.
    + destruct (IH (with_file m (copy_into (file m) (as_bytes (do_value o))))) as (Hw & f & s & E).
      * pose proof Hm as [? ? ? ? ? ? ? ? ? ? ? ? ? [Hl Hf] ?].
        destruct (copy_into_ok (file m) (as_bytes (do_value o)) Hf (as_bytes_ok _)) as [Hb Hlen].
        constructor; cbn; try done. split; [congruence|done].
      * split; [done|]. exists f, s. rewrite E. by destruct m.
    + case_goal; [|by apply IH]. destruct (parse_v4 (trim (do_value o))) as [ip|] eqn:Ep; [|by apply IH].
      destruct (IH (with_siaddr m ip)) as (Hw & f & s & E).
      * apply parse_v4_u32 in Ep. pose proof Hm as []. by constructor.
      * split; [done|]. exists f, s. rewrite E. by destruct m.
Qed.

Lemma find_canon l code :
  0 < code < 255 ->
  List.find (fun o => fst o =? code) (Dhcp4.canon_options l) =
  (fun o => (fst o, take 255 (snd o))) <$> List.find (fun o => fst o =? code) l.
Proof.
  intros Hc. unfold Dhcp4.canon_options. induction l as [|[c v] l IH]; [done|]. cbn [List.find fst].
  destruct (Z.eqb_spec c code) as [->|Hne].
  - rewrite filter_cons_True.
    + cbn. by rewrite Z.eqb_refl.
    + apply orb_false_iff. unfold Dhcp4.PAD, Dhcp4.END_. cbn. lia.
  - rewrite <- IH, filter_cons. case_decide; [|done]. cbn. by destruct (Z.eqb_spec c code).
Qed.

(** On the wire, an option of a normal code is its value cut at 255 bytes. *)
Lemma option_of_wire m code :
  0 < code < 255 ->
  Dhcp4.option_of (Dhcp4.with_options m (Dhcp4.canon_options (Dhcp4.options m))) code =
  take 255 <$> Dhcp4.option_of m code.
Proof.
  intros Hc. unfold Dhcp4.option_of. cbn [Dhcp4.options Dhcp4.with_options]. rewrite find_canon by done.
  by destruct (List.find _ _).
Qed.

Section ReplyLemmas.
Context `{NETS : IpNets}.

(** The reply before the admin's options. *)
Definition v4_reply_base (req : Dhcp4Message) (scope : DhcpScope) (yi : Z) (mt : Dhcp4MessageType.t) : Dhcp4Message :=
  let r := mkDhcp4Message 2 (htype req) (hlen req) 0 (xid req) 0 (flags req) (ciaddr req) yi
             (scope_server_id scope) (giaddr req) (chaddr req) (replicate 64 0) (replicate 128 0)
             [(53, [Dhcp4MessageType.to_u8 mt]); (54, octets4 (scope_server_id scope))] in
  let r := if yi =? UNSPECIFIED then r else Dhcp4.set_option r 51 (to_be 4 (sc_lease_secs scope)) in
  match subnet_mask_v4 (sc_subnet scope) with
  | Some mask => Dhcp4.set_option r 1 (octets4 mask)
  | None => r
  end.

Lemma v4_reply_eq req scope opts yi mt :
  mt <> Dhcp4MessageType.Nak ->
  v4_reply req scope opts yi mt =
  (let! r := add_options (v4_reply_base req scope yi mt) opts in Some (bridge_bootp r opts)).
Proof. intros Hmt. unfold v4_reply. rewrite bool_decide_eq_false_2 by done. reflexivity. Qed.

Lemma reply_header_wf req yi s o :
  Dhcp4.message_wf req -> is_u32 yi -> is_u32 s ->
  Forall (fun o => is_u8 (fst o) /\ bytes_ok (snd o)) o ->
  Dhcp4.message_wf (mkDhcp4Message 2 (htype req) (hlen req) 0 (xid req) 0 (flags req) (ciaddr req) yi s
    (giaddr req) (chaddr req) (replicate 64 0) (replicate 128 0) o).
Proof.
  intros [] Hy Hs Ho.
  constructor; cbn -[replicate]; try done; try (unfold is_u8, is_u16, u8_max, u16_max; lia);
    (split; [apply length_replicate|apply Forall_replicate; unfold is_u8, u8_max; lia]).
Qed.

Lemma reply_base_options_ok mt s :
  Forall (fun o => is_u8 (fst o) /\ bytes_ok (snd o)) [(53, [Dhcp4MessageType.to_u8 mt]); (54, octets4 s)].
Proof.
  apply List.Forall_cons; [|apply List.Forall_cons; [|constructor]]; cbn [fst snd]; unfold is_u8, u8_max.
  - split; [lia|]. apply List.Forall_cons; [|constructor]. destruct mt; cbn; lia.
  - split; [lia|]. apply to_be_bytes_ok.
Qed.

Lemma v4_reply_base_wf req scope yi mt :
  Dhcp4.message_wf req -> is_u32 yi -> Dhcp4.message_wf (v4_reply_base req scope yi mt).
Proof.
  intros Hr Hy. unfold v4_reply_base. cbv zeta.
  assert (forall n, bytes_ok (octets4 n)) as Ho by (intros; apply to_be_bytes_ok).
  assert (forall c, In c [1; 51; 53; 54] -> is_u8 c) as Hcode.
  { intros c. cbn. unfold is_u8, u8_max. lia. }
  pose proof (reply_base_options_ok mt (scope_server_id scope)) as Hbase.
  repeat case_goal; repeat apply set_option_wf; try (apply Hcode; cbn; tauto); auto with nomina;
    apply reply_header_wf; auto with nomina.
Qed.

Lemma v4_reply_base_options req scope yi mt :
  let m := v4_reply_base req scope yi mt in
  Dhcp4.option_of m 53 = Some [Dhcp4MessageType.to_u8 mt] /\
  Dhcp4.option_of m 54 = Some (octets4 (scope_server_id scope)) /\
  Dhcp4.option_of m 51 = (if yi =? UNSPECIFIED then None else Some (to_be 4 (sc_lease_secs scope))) /\
  Dhcp4.option_of m 1 = octets4 <$> subnet_mask_v4 (sc_subnet scope).
Proof.
  cbv zeta. unfold v4_reply_base. cbv zeta. destruct (subnet_mask_v4 _), (yi =? UNSPECIFIED); done.
Qed.

(** ** Properties of the replies *)

(** an OFFER or ACK, read off the wire, is a BOOTREPLY that echoes the request's
    transaction and client fields, grants [yiaddr], and carries the message
    type, server identifier, netmask and (when an address is granted) lease
    time of the scope, whatever options the administrator configured. *)
Theorem v4_reply_grant req scope opts yi mt bytes :
  Dhcp4.message_wf req -> is_u32 yi -> Forall (fun o => 0 <= do_code o) opts ->
  mt <> Dhcp4MessageType.Nak -> build_v4_reply req scope opts yi mt = Some bytes ->
  exists m, Dhcp4.parse bytes = Ok m /\
    (op m = 2 /\ xid m = xid req /\ flags m = flags req /\ chaddr m = chaddr req /\
     giaddr m = giaddr req /\ ciaddr m = ciaddr req /\ yiaddr m = yi) /\
    Dhcp4.message_type m = Some mt /\ Dhcp4.server_id m = Some (scope_server_id scope) /\
    Dhcp4.option_of m 51 = (if yi =? UNSPECIFIED then None else Some (to_be 4 (sc_lease_secs scope))) /\
    Dhcp4.option_of m 1 = octets4 <$> subnet_mask_v4 (sc_subnet scope).
Proof.
  intros Hr Hy Ho Hmt. unfold build_v4_reply. rewrite v4_reply_eq by done.
  destruct (add_options _ _) as [m|] eqn:Ea; [|done]. cbn [fmap option_fmap option_map]. intros [= <-].
  pose proof (v4_reply_base_wf req scope yi mt Hr Hy) as Hb.
  pose proof (add_options_wf _ _ _ Ea Hb) as Hm.
  destruct (bridge_bootp_wf opts m Hm) as (Hw & f & s & E).
  eexists. split; [by apply Dhcp4.parse_build_canon|].
  destruct (add_options_header _ _ _ Ea) as (l & Hl).
  assert (forall c, 0 < c < 255 -> reserved_code c = true ->
    Dhcp4.option_of (Dhcp4.with_options (bridge_bootp m opts) (Dhcp4.canon_options (Dhcp4.options (bridge_bootp m opts)))) c
    = take 255 <$> Dhcp4.option_of (v4_reply_base req scope yi mt) c) as Hopt.
  { intros c Hc Hres. rewrite option_of_wire by done. f_equal. rewrite E.
    rewrite <- (add_options_reserved _ _ _ c Ho Hres ltac:(lia) Ea). done. }
  destruct (v4_reply_base_options req scope yi mt) as (H53 & H54 & H51 & H1).
  split; [rewrite E, Hl; unfold v4_reply_base; cbv zeta; by repeat case_goal|].
  unfold Dhcp4.message_type, Dhcp4.server_id, Dhcp4.OPT_MESSAGE_TYPE, Dhcp4.OPT_SERVER_ID.
  rewrite !Hopt, H53, H54, H51, H1 by (lia || done). split; [|split; [|split]].
  - cbn. by rewrite Dhcp4MessageType.from_to_u8.
  - cbn [fmap option_fmap option_map]. rewrite take_ge by (unfold octets4; rewrite length_to_be; lia).
    apply Dhcp4.ipv4_from_octets, scope_server_id_u32.
  - by case_goal.
  - by destruct (subnet_mask_v4 _).
Qed.

(** a NAK carries the message type and the server identifier and nothing else,
    and grants no address. *)
Theorem v4_reply_nak req scope opts yi :
  Dhcp4.message_wf req -> is_u32 yi ->
  exists bytes m, build_v4_reply req scope opts yi Dhcp4MessageType.Nak = Some bytes /\
    Dhcp4.parse bytes = Ok m /\ yiaddr m = UNSPECIFIED /\ xid m = xid req /\ chaddr m = chaddr req /\
    Dhcp4.options m = [(53, [6]); (54, octets4 (scope_server_id scope))].
Proof.
  intros Hr Hy. eexists _, _. split; [reflexivity|]. split.
  - apply Dhcp4.parse_build_canon.
    apply (reply_header_wf req UNSPECIFIED (scope_server_id scope)
             [(53, [6]); (54, octets4 (scope_server_id scope))]); [done| |auto with nomina|].
    + unfold is_u32, u32_max, UNSPECIFIED. lia.
    + apply (reply_base_options_ok Dhcp4MessageType.Nak).
  - done.
Qed.
End ReplyLemmas.

(** ** Properties of the policy *)

(** The option of a code in an option list. *)
Definition find_code (c : Z) (l : list DhcpOption) : option DhcpOption := List.find (fun o => do_code o =? c) l.

(** in the merged options, a reservation's option (its last one of the code)
    overrides the scope's; a code the reservation does not name keeps the
    scope's option. *)
Theorem merge_options_lookup scope_opts reservation_opts c :
  find_code c (merge_options scope_opts reservation_opts) =
  match find_code c (rev reservation_opts) with
  | Some o => Some o
  | None => find_code c scope_opts
  end.
Proof.
  unfold merge_options, find_code. revert scope_opts.
  induction reservation_opts as [|ro ros IH]; intros so; [done|]. cbn [fold_left rev].
  rewrite IH, find_app. destruct (List.find _ (rev ros)); [done|]. cbn [List.find].
  destruct (Z.eqb_spec (do_code ro) c) as [<-|Hne].
  - apply find_replace_or_push_same. apply Z.eqb_refl.
  - apply find_replace_or_push_other; [by apply Z.eqb_neq|].
    intros y Hy. apply Z.eqb_eq in Hy. apply Z.eqb_neq. congruence.
Qed.

Section SelectLemmas.
Context `{NETS : IpNets}.

Lemma enabled_v4_spec s : enabled_v4 s = true <-> sc_enabled s = true /\ sc_family s = FamV4.
Proof. unfold enabled_v4. by rewrite andb_true_iff, bool_decide_eq_true. Qed.

Lemma find_enabled p scopes s :
  List.find p (List.filter enabled_v4 scopes) = Some s -> In s scopes /\ enabled_v4 s = true /\ p s = true.
Proof. intros Hf. apply List.find_some in Hf as [Hin Hp]. apply filter_In in Hin. tauto. Qed.

Lemma find_enabled_ex p scopes s' :
  In s' scopes -> enabled_v4 s' = true -> p s' = true ->
  exists s, List.find p (List.filter enabled_v4 scopes) = Some s.
Proof. intros. apply find_some_iff. exists s'. split; [|done]. by apply filter_In. Qed.

Lemma select_enabled scopes giaddr iface s :
  select_v4_scope scopes giaddr iface = Some s -> In s scopes /\ enabled_v4 s = true.
Proof.
  unfold select_v4_scope. cbv zeta. intros H. repeat case_hyp H; simplify_eq;
    repeat match goal with
    | E : List.find _ (List.filter _ _) = Some _ |- _ => apply find_enabled in E as (? & ? & _)
    | E : List.find enabled_v4 _ = Some _ |- _ => apply List.find_some in E
    end; auto.
Qed.

Lemma select_none scopes giaddr iface s :
  select_v4_scope scopes giaddr iface = None -> In s scopes -> enabled_v4 s = false.
Proof.
  unfold select_v4_scope. cbv zeta. intros H Hin. repeat case_hyp H; try done;
    by apply (List.find_none _ _ H).
Qed.

(** scope selection returns only enabled IPv4 scopes; a relayed request goes to a
    scope whose subnet contains the relay when there is one, a direct request on
    a bound interface to a scope pinned to it when there is one, and a request
    is dropped only when no IPv4 scope is enabled. *)
Theorem select_scope_spec scopes giaddr iface :
  match select_v4_scope scopes giaddr iface with
  | Some s =>
      In s scopes /\ sc_enabled s = true /\ sc_family s = FamV4 /\
      (giaddr <> UNSPECIFIED -> forall s', In s' scopes -> enabled_v4 s' = true ->
       subnet_contains giaddr s' = true -> subnet_contains giaddr s = true) /\
      (giaddr = UNSPECIFIED -> forall ic, iface = Some ic -> forall s', In s' scopes -> enabled_v4 s' = true ->
       sc_interface s' = Some (ri_name ic) -> sc_interface s = Some (ri_name ic))
  | None => forall s, In s scopes -> ~ (sc_enabled s = true /\ sc_family s = FamV4)
  end.
Proof.
  destruct (select_v4_scope scopes giaddr iface) as [s|] eqn:E.
  - pose proof (select_enabled _ _ _ _ E) as [Hin Hen%enabled_v4_spec]. unfold select_v4_scope in E. cbv zeta in E.
    split; [done|]. split; [tauto|]. split; [tauto|]. split.
    + intros Hg s' ? ? ?. rewrite (proj2 (Z.eqb_neq _ _) Hg) in E.
      destruct (find_enabled_ex (subnet_contains giaddr) scopes s') as [s0 Hs0]; [done..|].
      rewrite Hs0 in E. injection E as <-. by apply find_enabled in Hs0 as (_ & _ & ?).
    + intros -> ic -> s' ? ? Hi. rewrite Z.eqb_refl in E.
      destruct (find_enabled_ex (fun s => bool_decide (sc_interface s = Some (ri_name ic))) scopes s') as [s0 Hs0];
        [done|done|by apply bool_decide_eq_true|].
      rewrite Hs0 in E. injection E as <-. apply find_enabled in Hs0 as (_ & _ & ?). by breflect.
  - intros s Hin Hs%enabled_v4_spec. by rewrite (select_none _ _ _ _ E Hin) in Hs.
Qed.
End SelectLemmas.

(** ** Names *)

Lemma str_forall_lower (p : ascii -> bool) s :
  str_forall (fun c => p (lower c)) s = true -> str_forall p (to_ascii_lowercase s) = true.
Proof.
  unfold to_ascii_lowercase. induction s as [|c s IH]; [done|]. cbn. intros H. breflect.
  apply andb_true_iff. auto.
Qed.

Lemma str_forall_filter (p q : ascii -> bool) s : (forall c, p c = true -> q c = true) -> str_forall q (str_filter p s) = true.
Proof.
  intros Hpq. induction s as [|c s IH]; [done|]. cbn. case_goal; [|done]. cbn. rewrite IH, Hpq; done.
Qed.

Lemma str_forall_substring (p : ascii -> bool) n s : str_forall p s = true -> str_forall p (String.substring 0 n s) = true.
Proof.
  revert n. induction s as [|c s IH]; intros [|n]; try done. cbn. intros H. breflect.
  apply andb_true_iff. auto.
Qed.

Lemma length_substring0 n s : (String.length (String.substring 0 n s) <= n)%nat.
Proof. revert n. induction s as [|c s IH]; intros [|n]; cbn; try lia. specialize (IH n). lia. Qed.

Lemma trim_matches_props (p : ascii -> bool) c s :
  str_forall p s = true ->
  str_forall p (trim_matches c s) = true /\ (String.length (trim_matches c s) <= String.length s)%nat /\
  (forall front, trim_matches c s <> front +:+ String c EmptyString) /\
  (forall back, trim_matches c s <> String c back).
Proof.
  intros Hp. unfold trim_matches.
  assert (forall t, str_forall p t = true -> str_forall p (trim_start_matches c t) = true /\
    (String.length (trim_start_matches c t) <= String.length t)%nat /\
    (forall back, trim_start_matches c t <> String c back)) as Hs.
  { clear. induction t as [|d t IH]; [done|]. cbn. intros H. breflect. case_decide as Hd.
    - destruct (IH H0) as (? & ? & ?). split_and!; [done|lia|done].
    - cbn. rewrite H, H0. split_and!; [done|lia|]. intros back [= -> _]. done. }
  assert (forall t, str_forall p t = true -> str_forall p (trim_end_matches c t) = true /\
    (String.length (trim_end_matches c t) <= String.length t)%nat /\
    (forall front, trim_end_matches c t <> front +:+ String c EmptyString) /\
    (forall back, trim_end_matches c t = String c back -> exists back', t = String c back')) as He.
  { clear. induction t as [|d t IH].
    - intros _. split_and!; try done. intros []; [done|]. by rewrite append_cons.
    - cbn. intros H. breflect. destruct (IH H0) as (Ha & Hl & Hf & _).
      destruct (is_empty (trim_end_matches c t) && bool_decide (d = c)) eqn:E.
      + split_and!; [done|cbn; lia| |done]. intros []; [done|]. by rewrite append_cons.
      + cbn. rewrite H, Ha. split_and!; [done|lia| |by intros back [= -> _]; eauto].
        intros [|x front]; [|rewrite append_cons; intros [= _ Hx]; by apply (Hf front)].
        intros [= -> Hr]. rewrite Hr, bool_decide_eq_true_2 in E by done. done. }
  destruct (Hs s Hp) as (H1 & H2 & H3). destruct (He _ H1) as (H4 & H5 & H6 & H7).
  split_and!; [done|lia|done|]. intros back Hb. destruct (H7 back Hb) as [b' Hb']. by apply (H3 b').
Qed.

(** The characters of a registered label. *)
Definition label_char (c : ascii) : bool := is_lower c || is_digit c || bool_decide (c = "-"%char).

Lemma lower_label c : is_ascii_alphanumeric c || bool_decide (c = "-"%char) = true -> label_char (lower c) = true.
Proof. destruct c as [[] [] [] [] [] [] [] []]; vm_compute; done. Qed.

Lemma lower_hyphen c : lower c = "-"%char -> c = "-"%char.
Proof. destruct c as [[] [] [] [] [] [] [] []]; vm_compute; congruence. Qed.

Lemma length_lowercase s : String.length (to_ascii_lowercase s) = String.length s.
Proof. unfold to_ascii_lowercase. induction s as [|c s IH]; [done|]. cbn. by rewrite IH. Qed.

Lemma lowercase_hyphen_end s front :
  to_ascii_lowercase s = front +:+ "-" -> exists front', s = front' +:+ "-".
Proof.
  unfold to_ascii_lowercase. revert front. induction s as [|c s IH]; intros [|x front]; cbn [str_map];
    rewrite ?append_cons; try done.
  - intros [= Hc Hs]. apply lower_hyphen in Hc. destruct s; [|done]. exists "". by rewrite Hc.
  - intros [= _ Hs]. destruct (IH _ Hs) as [f ->]. exists (String c f). by rewrite append_cons.
Qed.

(** the host name registered in DNS for a client is a single label of at most
    63 characters a-z, 0-9 and hyphen, which neither starts nor ends with a
    hyphen, whatever the client sent. *)
Theorem sanitize_label_safe raw l :
  sanitize_label raw = Some l ->
  (0 < String.length l <= 63)%nat /\ str_forall label_char l = true /\
  (forall front, l <> front +:+ "-") /\ (forall back, l <> String "-" back).
Proof.
  unfold sanitize_label. cbv zeta.
  set (first := match split _ raw with s :: _ => s | [] => raw end).
  set (kept := str_filter _ first).
  assert (str_forall (fun c => label_char (lower c)) (String.substring 0 63 kept) = true) as Hk.
  { apply str_forall_substring, str_forall_filter. apply lower_label. }
  destruct (trim_matches_props _ "-"%char _ Hk) as (Hf & Hl & Hend & Hstart).
  pose proof (length_substring0 63 kept). case_goal; [done|]. intros [= <-].
  rewrite length_lowercase. split_and!.
  - destruct (trim_matches _ _); [done|cbn; lia].
  - lia.
  - by apply str_forall_lower.
  - intros front Hfr. apply lowercase_hyphen_end in Hfr as [f Hf']. by apply (Hend f).
  - intros back Hb. destruct (trim_matches _ _) as [|c t]; [done|]. cbn in Hb. injection Hb as Hc _.
    apply lower_hyphen in Hc. subst. by apply (Hstart t).
Qed.

(** ** Lemmas: the handlers *)

(** The DNS statements do not touch the DHCP tables. *)
Definition same_dhcp (d0 d : Db) : Prop :=
  dhcp_leases d = dhcp_leases d0 /\ dhcp_scopes d = dhcp_scopes d0 /\ dhcp_reservations d = dhcp_reservations d0.

Lemma update_zone_row_dhcp d0 id f : preserves (same_dhcp d0) (update_zone_row id f).
Proof. by apply preserves_modify. Qed.
Lemma update_record_row_dhcp d0 id f : preserves (same_dhcp d0) (update_record_row id f).
Proof. by apply preserves_modify. Qed.
Lemma insert_record_dhcp d0 ts z v n t ttl data : preserves (same_dhcp d0) (insert_record ts z v n t ttl data).
Proof. intros d Hd. unfold insert_record. by case_goal. Qed.
#[export] Hint Resolve update_zone_row_dhcp update_record_row_dhcp insert_record_dhcp : preserve.

Lemma create_record_dhcp d0 ts z v n t ttl data : preserves (same_dhcp d0) (create_record ts z v n t ttl data).
Proof. unfold create_record, bump_serial. preserve. Qed.
Lemma update_record_dhcp d0 ts id data : preserves (same_dhcp d0) (update_record ts id None None None (Some data) None).
Proof. unfold update_record, when_some, bump_serial. preserve. Qed.
#[export] Hint Resolve create_record_dhcp update_record_dhcp : preserve.

Lemma dyndns_set_address_dhcp d0 ts h ip v ttl : preserves (same_dhcp d0) (dyndns_set_address ts h ip v ttl).
Proof. unfold dyndns_set_address. preserve. Qed.
Lemma register_ptr_dhcp d0 ts r t ttl : preserves (same_dhcp d0) (register_ptr ts r t ttl).
Proof. unfold register_ptr. preserve. Qed.
#[export] Hint Resolve dyndns_set_address_dhcp register_ptr_dhcp : preserve.

Lemma same_dhcp_ok d0 d : same_dhcp d0 d -> dhcp_ok d0 -> dhcp_ok d.
Proof. intros (E1 & E2 & E3) []. constructor; rewrite ?E1, ?E2, ?E3; done. Qed.

(** The address text of a lease that the server itself wrote. *)
Lemma denotes_show_v4 a : is_u32 a -> denotes FamV4 (show_v4 a) a.
Proof. intros Ha. exists (V4 a). by rewrite parse_ip_show_v4. Qed.

Section HandlerLemmas.
Context `{STORE : StoreLoad} `{NETS : IpNets} `{TIME : Rfc3339}.

Lemma run_db_preserves {X} (P : Db -> Prop) (m : M X) a : preserves P m -> P (as_db a) -> P (as_db (fst (run_db m a))).
Proof. intros Hm Ha. unfold run_db. specialize (Hm _ Ha). by destruct (m (as_db a)). Qed.

Lemma reload_store_db a : as_db (reload_store a) = as_db a.
Proof. unfold reload_store. by destruct (load_store _). Qed.

Lemma register_dns_dhcp ts scope ip host a : same_dhcp (as_db a) (as_db (register_dns ts scope ip host a)).
Proof.
  assert (same_dhcp (as_db a) (as_db a)) as Hrefl by done.
  unfold register_dns. repeat (case_goal; [done|]). cbv zeta.
  repeat (case_goal; [|done]). 
  pose proof (run_db_preserves (same_dhcp (as_db a)) (dyndns_set_address ts (s0 +:+ "." +:+ s) ip None
    (Z.max (sc_lease_secs scope) 60)) a ltac:(auto with preserve) Hrefl) as H1.
  destruct (run_db _ a) as [a1 [u|e]]; [|done]. cbn [fst] in H1.
  apply (run_db_preserves (same_dhcp (as_db a))); [auto with preserve|]. by rewrite reload_store_db.
Qed.

(** *** Keeping a row *)

Definition keeps (l : DhcpLease) (d : Db) : Prop := In l (dhcp_leases d).

Lemma upsert_keeps l ts sid fam ip ident host starts expires st :
  lease_at sid ip l = false ->
  preserves (keeps l) (upsert_dhcp_lease ts sid fam ip ident host starts expires st).
Proof. intros Hl d Hd. by apply upsert_others. Qed.

Lemma delete_keeps l id : ls_id l <> id -> preserves (keeps l) (delete_dhcp_lease id).
Proof.
  intros Hl. apply preserves_modify. intros d Hd. apply in_delete_where. split; [done|]. by apply Z.eqb_neq.
Qed.

Lemma try_db_keeps (P : Db -> Prop) (m : M unit) a k :
  preserves P m -> P (as_db a) ->
  (forall a', P (as_db a') -> P (as_db (fst (fst (k a'))))) -> P (as_db (fst (fst (try_db m a k)))).
Proof.
  intros Hm Ha Hk. unfold try_db, run_db. specialize (Hm _ Ha).
  destruct (m (as_db a)) as [d [u|e]]; [by apply Hk|done].
Qed.

Lemma try_send_keeps (P : Db -> Prop) ok p a k :
  P (as_db a) -> (forall a', P (as_db a') -> P (as_db (k a'))) ->
  P (as_db (fst (fst (try_send ok p a k)))).
Proof. intros Ha Hk. unfold try_send. destruct ok; cbn; auto. Qed.

(** Any property of the DHCP tables that [same_dhcp] transports survives registration. *)
Lemma register_dns_keeps (P : Db -> Prop) ts scope ip host a :
  (forall d d', same_dhcp d d' -> P d -> P d') -> P (as_db a) -> P (as_db (register_dns ts scope ip host a)).
Proof. intros Htr Ha. eapply Htr; [apply register_dns_dhcp|done]. Qed.

(** A property kept by the lease statements an action makes is kept by the action. *)
Lemma v4_perform_keeps (P : Db -> Prop) ts now ok msg scope leases act a :
  (forall d d', same_dhcp d d' -> P d -> P d') -> P (as_db a) ->
  (forall yi st exp, (exists reply, act = A4Offer yi reply \/ act = A4Ack yi reply) ->
     preserves P (persist_v4_lease ts scope yi (v4_client_id msg) (Dhcp4.hostname msg) now exp st)) ->
  (forall st, act = A4Release \/ act = A4Decline -> preserves P (release_v4_lease ts leases (v4_client_id msg) st)) ->
  P (as_db (fst (fst (v4_perform ts now ok msg scope leases act a)))).
Proof.
  intros Htr Ha Hp Hr. destruct act as [|yi reply|yi reply|reply| | |reply]; cbn [v4_perform]; cbv zeta.
  - done.
  - apply try_db_keeps; [eapply Hp; eauto|done|]. intros a' Ha'. apply try_send_keeps; auto.
  - apply try_db_keeps; [eapply Hp; eauto|done|]. intros a' Ha'. apply try_send_keeps; [done|].
    intros a'' Ha''. by apply register_dns_keeps.
  - apply try_send_keeps; auto.
  - apply try_db_keeps; [apply Hr; auto|done|]. auto.
  - apply try_db_keeps; [apply Hr; auto|done|]. auto.
  - apply try_send_keeps; auto.
Qed.

Lemma keeps_same_dhcp l d d' : same_dhcp d d' -> keeps l d -> keeps l d'.
Proof. intros (E & _ & _) Hd. unfold keeps. by rewrite E. Qed.

Lemma in_scope_leases d sid l : In l (scope_leases d sid) <-> In l (dhcp_leases d) /\ ls_scope_id l = sid.
Proof. unfold scope_leases. by rewrite in_sort_with, filter_In, Z.eqb_eq. Qed.

(** Releasing a client's rows keeps every other client's row. *)
Lemma release_keeps ts d sid cid st l :
  dhcp_ok d -> In l (dhcp_leases d) -> eq_ignore_ascii_case (ls_identifier l) cid = false ->
  preserves (keeps l) (release_v4_lease ts (scope_leases d sid) cid st).
Proof.
  intros Hd Hl Hc. unfold release_v4_lease.
  assert (forall ms, (forall m, In m ms -> In m (dhcp_leases d) /\ eq_ignore_ascii_case (ls_identifier m) cid = true) ->
    preserves (keeps l) (for_each ms (fun m =>
      if bool_decide (st = Released) then delete_dhcp_lease (ls_id m)
      else upsert_dhcp_lease ts (ls_scope_id m) (ls_family m) (ls_ip m) (ls_identifier m) (ls_hostname m)
             (ls_starts_at m) (ls_expires_at m) Declined ;;; ret tt))) as H.
  { induction ms as [|m ms IH]; intros Hms; cbn [for_each]; [apply preserves_ret|].
    apply preserves_bind; [|intros _; apply IH; intros x Hx; apply Hms; by right].
    destruct (Hms m ltac:(by left)) as [Hm Hmc].
    assert (l <> m) as Hne by (intros ->; congruence). case_goal.
    - apply delete_keeps. intros E. apply Hne.
      assert (Some l = Some m) as [= ->]; [|done].
      rewrite <- (find_unique ls_id (fun x => ls_id x =? ls_id m) (dhcp_leases d) l);
        [|intros; rewrite E; apply eqb_bool_decide|apply Hd|done].
      apply (find_unique ls_id); [intros; apply eqb_bool_decide|apply Hd|done].
    - apply preserves_bind; [|intros; apply preserves_ret]. apply upsert_keeps.
      destruct (lease_at (ls_scope_id m) (ls_ip m) l) eqn:E; [|done]. exfalso. apply Hne.
      apply lease_at_spec in E as [E1 E2].
      assert (Some l = Some m) as [= ->]; [|done].
      rewrite <- (find_unique (fun l => (ls_scope_id l, ls_ip l)) (lease_at (ls_scope_id m) (ls_ip m)) (dhcp_leases d) l);
        [|intros; rewrite E1, E2; apply lease_at_key|apply Hd|done].
      apply (find_unique (fun l => (ls_scope_id l, ls_ip l))); [intros; apply lease_at_key|apply Hd|done]. }
  apply H. intros m Hm. apply filter_In in Hm as [Hm Hmc]. by apply in_scope_leases in Hm as [? _].
Qed.

(** An offer or an acknowledgement is of an allocated address. *)
Lemma v4_decide_grant now msg mtype scope rs ls act yi reply :
  v4_decide now msg mtype scope rs ls = Some act -> act = A4Offer yi reply \/ act = A4Ack yi reply ->
  exists req, allocate scope rs ls (v4_client_id msg) req now = Some (V4 yi).
Proof.
  unfold v4_decide. cbv zeta. intros H Hact.
  destruct mtype; repeat case_hyp H; simplify_eq; destruct Hact; simplify_eq; eauto.
Qed.

Lemma in_sorted_scopes d s : In s (sorted_scopes d) <-> In s (dhcp_scopes d).
Proof. apply in_sort_with. Qed.

(** The granted address is reserved for the client or held by nobody else. *)
Lemma granted_free d scope cid req now yi l :
  sc_family scope = FamV4 ->
  allocate scope (scope_reservations d (sc_id scope)) (scope_leases d (sc_id scope)) cid req now = Some (V4 yi) ->
  In l (dhcp_leases d) -> is_holding l now = true -> eq_ignore_ascii_case (ls_identifier l) cid = false ->
  lease_at (sc_id scope) (show_v4 yi) l = true ->
  client_reservation (scope_reservations d (ls_scope_id l)) cid (V4 yi) /\ ls_ip l = show_v4 yi.
Proof.
  intros Hf Ha Hin Hh Hc Hat. apply lease_at_spec in Hat as [Hs Hip]. rewrite Hs. split; [|done].
  destruct (allocate_grantable _ _ _ _ _ _ _ Ha) as [Hr|(lo & hi & Hp & Hn & [_ Hfree] & _)]; [done|].
  exfalso. apply Hfree. exists l. split; [by apply in_scope_leases|]. split; [done|]. split; [done|].
  rewrite Hf, Hip. apply denotes_show_v4. cbn in Hn.
  pose proof (pool_of_v4 _ _ _ Hp Hf) as [_ ?]. pose proof (pool_of_nonneg _ _ _ Hp).
  unfold is_u32. cbn. lia.
Qed.

Lemma granted_u32 scope rs ls cid req now yi :
  sc_family scope = FamV4 -> allocate scope rs ls cid req now = Some (V4 yi) -> is_u32 yi.
Proof.
  intros Hf Ha. destruct (allocate_grantable _ _ _ _ _ _ _ Ha) as [(r & _ & _ & Hr)|(lo & hi & Hp & Hn & _)].
  - by apply (parse_ip_ok _ _ Hr).
  - pose proof (pool_of_v4 _ _ _ Hp Hf) as [_ ?]. pose proof (pool_of_nonneg _ _ _ Hp). cbn in Hn.
    unfold is_u32. cbn. lia.
Qed.

(** ** Properties of the handlers *)

(** The handler keeps the rows others hold, unless a reservation takes the address over. *)
Lemma v4_keeps_held ts now iface send_ok msg a a' ps r l :
  dhcp_ok (as_db a) -> handle_v4 ts now iface send_ok msg a = Some (a', ps, r) ->
  In l (dhcp_leases (as_db a)) -> is_holding l now = true ->
  eq_ignore_ascii_case (ls_identifier l) (v4_client_id msg) = false ->
  In l (dhcp_leases (as_db a')) \/
  exists yi, client_reservation (scope_reservations (as_db a) (ls_scope_id l)) (v4_client_id msg) (V4 yi) /\
    ls_ip l = show_v4 yi.
Proof.
  intros Hd H Hin Hh Hc. unfold handle_v4 in H.
  destruct (Dhcp4.message_type msg) as [mtype|]; [|injection H as <- _ _; by left].
  destruct (select_v4_scope _ _ _) as [scope|] eqn:Es; [|injection H as <- _ _; by left]. cbv zeta in H.
  apply select_enabled in Es as [_ [_ Hfam]%enabled_v4_spec].
  destruct (v4_decide _ _ _ _ _ _) as [act|] eqn:Ed; [|done]. injection H as H.
  assert (a' = fst (fst (v4_perform ts now send_ok msg scope (scope_leases (as_db a) (sc_id scope)) act a))) as ->
    by by rewrite H.
  destruct (match act with A4Offer yi _ | A4Ack yi _ => lease_at (sc_id scope) (show_v4 yi) l | _ => false end) eqn:Eat.
  - right. destruct act as [|yi reply|yi reply|reply| | |reply]; try done;
      destruct (v4_decide_grant _ _ _ _ _ _ _ yi reply Ed ltac:(auto)) as [req Ha];
      exists yi; by eapply granted_free.
  - left. apply (v4_perform_keeps (keeps l)); [apply keeps_same_dhcp|done| |].
    + intros yi st exp [reply Hact]. unfold persist_v4_lease. apply preserves_bind; [|intros; apply preserves_ret].
      apply upsert_keeps. by destruct Hact; subst.
    + intros st _. by apply release_keeps.
Qed.

(** C11: whatever DHCPv4 message arrives, the handler leaves the row of every lease that
    another client currently holds as it is, except that a client's own
    reservation may take over the reserved address. *)
Theorem v4_no_steal ts now iface send_ok msg a a' ps r l :
  dhcp_ok (as_db a) -> handle_v4 ts now iface send_ok msg a = Some (a', ps, r) ->
  In l (dhcp_leases (as_db a)) -> is_holding l now = true ->
  eq_ignore_ascii_case (ls_identifier l) (v4_client_id msg) = false ->
  In l (dhcp_leases (as_db a')) \/
  exists yi, client_reservation (scope_reservations (as_db a) (ls_scope_id l)) (v4_client_id msg) (V4 yi) /\
    ls_ip l = show_v4 yi.
Proof. apply v4_keeps_held. Qed.

Lemma persist_v4_lease_ok ts scope yi cid h s e st : preserves dhcp_ok (persist_v4_lease ts scope yi cid h s e st).
Proof. unfold persist_v4_lease. preserve. Qed.
Lemma release_v4_lease_ok ts ls cid st : preserves dhcp_ok (release_v4_lease ts ls cid st).
Proof. unfold release_v4_lease. preserve. Qed.

Lemma handle_v4_ok ts now iface send_ok msg a a' ps r :
  handle_v4 ts now iface send_ok msg a = Some (a', ps, r) -> dhcp_ok (as_db a) -> dhcp_ok (as_db a').
Proof.
  intros H Hd. unfold handle_v4 in H.
  destruct (Dhcp4.message_type msg) as [mtype|]; [|by injection H as <- _ _].
  destruct (select_v4_scope _ _ _) as [scope|]; [|by injection H as <- _ _]. cbv zeta in H.
  destruct (v4_decide _ _ _ _ _ _) as [act|]; [|done]. injection H as H.
  pose proof (v4_perform_keeps dhcp_ok ts now send_ok msg scope (scope_leases (as_db a) (sc_id scope)) act a) as Hk.
  rewrite H in Hk. apply Hk; [intros; by eapply same_dhcp_ok|done|intros; apply persist_v4_lease_ok|].
  intros. apply release_v4_lease_ok.
Qed.

Lemma handle_v6_ok ts now duid src send_ok msg a a' ps r :
  handle_v6 ts now duid src send_ok msg a = Some (a', ps, r) -> dhcp_ok (as_db a) -> dhcp_ok (as_db a').
Proof.
  intros H Hd. unfold handle_v6 in H. repeat case_hyp H; simplify_eq; try done;
    match goal with E : try_db ?m ?a0 ?k = (?x, _, _) |- _ =>
      pose proof (try_db_keeps dhcp_ok m a0 k) as Hk; rewrite E in Hk; apply Hk; [|done|] end;
    try (unfold persist_v6_lease; preserve);
    intros; repeat first [ apply try_send_keeps; [done|] | intros ]; repeat case_goal;
    try done; by apply register_dns_keeps; [intros; eapply same_dhcp_ok|].
Qed.

(** Deleting by identifiers, one statement each. *)
Lemma for_each_delete {X} (id : X -> Z) (ms : list X) d :
  exists d', for_each ms (fun m => delete_dhcp_lease (id m)) d = (d', Ok tt) /\
    forall l, In l (dhcp_leases d') <-> In l (dhcp_leases d) /\ ~ In (ls_id l) (List.map id ms).
Proof.
  revert d. induction ms as [|m ms IH]; intros d; cbn [for_each].
  - exists d. split; [done|]. cbn. tauto.
  - unfold bind, delete_dhcp_lease at 1, modify.
    destruct (IH (set_dhcp_leases (delete_where (fun l => ls_id l =? id m) (dhcp_leases d)) d)) as (d' & E & Hd').
    exists d'. split; [exact E|]. intros l. rewrite Hd'. cbn. rewrite in_delete_where, Z.eqb_neq.
    split; [intros [[? ?] ?]; split; [done|]; intros [?|?]; congruence|].
    intros [? Hn]. split; [|tauto]. split; [done|]. intros E'. apply Hn. by left.
Qed.

Lemma same_id_same_lease d l m :
  dhcp_ok d -> In l (dhcp_leases d) -> In m (dhcp_leases d) -> ls_id l = ls_id m -> l = m.
Proof.
  intros Hd Hl Hm E. assert (Some l = Some m) as [= ->]; [|done].
  rewrite <- (find_unique ls_id (fun x => ls_id x =? ls_id m) (dhcp_leases d) l);
    [|intros; rewrite E; apply eqb_bool_decide|apply Hd|done].
  apply (find_unique ls_id); [intros; apply eqb_bool_decide|apply Hd|done].
Qed.

(** a RELEASE deletes exactly the sender's leases of the selected scope, answers
    nothing and cannot fail. *)
Theorem v4_release_own ts now iface send_ok msg a scope :
  dhcp_ok (as_db a) -> Dhcp4.message_type msg = Some Dhcp4MessageType.Release ->
  select_v4_scope (sorted_scopes (as_db a)) (giaddr msg) iface = Some scope ->
  exists a', handle_v4 ts now iface send_ok msg a = Some (a', [], Ok tt) /\
    forall l, In l (dhcp_leases (as_db a')) <->
      In l (dhcp_leases (as_db a)) /\
      ~ (ls_scope_id l = sc_id scope /\ eq_ignore_ascii_case (ls_identifier l) (v4_client_id msg) = true).
Proof.
  intros Hd Hm Hs. unfold handle_v4. rewrite Hm, Hs. cbn [v4_decide v4_perform]. cbv zeta.
  unfold try_db, run_db, release_v4_lease. rewrite bool_decide_eq_true_2 by done.
  set (mine := List.filter _ _).
  destruct (for_each_delete ls_id mine (as_db a)) as (d' & E & Hd'). rewrite E.
  eexists. split; [reflexivity|]. cbn [as_db]. intros l. rewrite Hd', in_map_iff.
  assert (forall m, In m mine <-> In m (dhcp_leases (as_db a)) /\ ls_scope_id m = sc_id scope /\
            eq_ignore_ascii_case (ls_identifier m) (v4_client_id msg) = true) as Hmine.
  { intros m. unfold mine. rewrite filter_In, in_scope_leases. tauto. }
  split; intros [Hl Hn]; (split; [done|]).
  - intros Hbad. apply Hn. exists l. split; [done|]. by apply Hmine.
  - intros (m & Eid & Hmin). apply Hmine in Hmin as (Hm1 & Hm2). apply Hn.
    by rewrite (same_id_same_lease _ l m Hd Hl Hm1 (eq_sym Eid)).
Qed.

(** The client's wish on a REQUEST: option 50, else [ciaddr]. *)
Definition desired_ip (msg : Dhcp4Message) : option Z :=
  match Dhcp4.requested_ip msg with
  | Some ip => Some ip
  | None => if ciaddr msg =? UNSPECIFIED then None else Some (ciaddr msg)
  end.

Lemma persist_v4_lease_row ts scope yi cid h s e st d d' :
  persist_v4_lease ts scope yi cid h s e st d = (d', Ok tt) ->
  exists id created, List.find (lease_at (sc_id scope) (show_v4 yi)) (dhcp_leases d') =
    Some (mkDhcpLease id (sc_id scope) FamV4 (show_v4 yi) (to_ascii_lowercase cid) h (format_unix s)
            (format_unix e) st created).
Proof.
  unfold persist_v4_lease, bind, ret. destruct (upsert_dhcp_lease _ _ _ _ _ _ _ _ _ d) as [d1 [id|]] eqn:E; [|done].
  intros [= <-]. destruct (upsert_find _ _ _ _ _ _ _ _ _ _ _ _ E) as [c Hc]. eauto.
Qed.

(** C18: a REQUEST in a served scope is answered by one ACK or one NAK.  With the ACK,
    the granted address is the one the client named (option 50 or [ciaddr]) and
    its row is an active lease of the client that lasts the scope's lease time;
    with the NAK nothing is written. *)
Theorem v4_request_outcome ts now iface msg a a' ps scope :
  Dhcp4.message_type msg = Some Dhcp4MessageType.Request ->
  select_v4_scope (sorted_scopes (as_db a)) (giaddr msg) iface = Some scope ->
  handle_v4 ts now iface true msg a = Some (a', ps, Ok tt) ->
  (exists yi reply id created, ps = [(v4_reply_dest msg false, reply)] /\
     build_v4_reply msg scope
       (merged_for_client scope (scope_reservations (as_db a) (sc_id scope)) (v4_client_id msg)) yi
       Dhcp4MessageType.Ack = Some reply /\
     (forall d, desired_ip msg = Some d -> d = yi) /\
     List.find (lease_at (sc_id scope) (show_v4 yi)) (dhcp_leases (as_db a')) =
       Some (mkDhcpLease id (sc_id scope) FamV4 (show_v4 yi) (to_ascii_lowercase (v4_client_id msg))
               (Dhcp4.hostname msg) (format_unix now) (format_unix (now + sc_lease_secs scope)) Active created)) \/
  (exists reply, ps = [(v4_reply_dest msg true, reply)] /\ a' = a /\
     build_v4_reply msg scope [] UNSPECIFIED Dhcp4MessageType.Nak = Some reply).
Proof.
  intros Hm Hs H. unfold handle_v4 in H. rewrite Hm, Hs in H. cbv zeta in H.
  destruct (v4_decide _ _ _ _ _ _) as [act|] eqn:Ed; [|done]. injection H as H.
  unfold v4_decide in Ed. cbv zeta in Ed. fold (desired_ip msg) in Ed.
  assert ((exists yi reply, act = A4Ack yi reply /\ build_v4_reply msg scope
       (merged_for_client scope (scope_reservations (as_db a) (sc_id scope)) (v4_client_id msg)) yi
       Dhcp4MessageType.Ack = Some reply /\ forall d, desired_ip msg = Some d -> d = yi) \/
     exists reply, act = A4Nak reply /\ build_v4_reply msg scope [] UNSPECIFIED Dhcp4MessageType.Nak = Some reply)
    as [(yi & reply & -> & Hb & Hdes)|(reply & -> & Hb)].
  { destruct (allocate _ _ _ _ _ _) as [[yi|yi]|]; [destruct (desired_ip msg) as [des|];
      [destruct (Z.eqb_spec des yi)|]|..];
      destruct (build_v4_reply _ _ _ _ _) as [reply|] eqn:Eb in Ed; simplify_eq;
      first [ left; exists yi, reply; split_and!; [done|done|by intros ? [= <-] || done]
            | right; by exists reply ]. }
  - left. unfold v4_perform, try_db, run_db in H. cbv zeta in H.
    destruct (persist_v4_lease _ _ _ _ _ _ _ _ (as_db a)) as [d1 [[]|e]] eqn:Ep; [|done].
    apply persist_v4_lease_row in Ep as (id & created & Hrow). unfold try_send in H. injection H as <- <-.
    exists yi, reply, id, created. split_and!; [done..|].
    destruct (register_dns_dhcp ts scope (V4 yi) (Dhcp4.hostname msg) (mkAppState d1 (as_store a))) as (-> & _).
    exact Hrow.
  - right. unfold v4_perform, try_send in H. injection H as <- <-. eauto.
Qed.
End HandlerLemmas.

(** ** Reachable lease tables *)

Inductive DhcpOp : Type :=
| DCreateScope (ts name : string) (enabled : bool) (family : IpFamily) (subnet rstart rend : string) (secs : Z)
    (reg : bool) (zone sid iface : option string) (opts : list DhcpOption)
| DUpdateScope (id : Z) (name : option string) (enabled : option bool) (subnet rstart rend : option string)
    (secs : option Z) (reg : option bool) (zone sid iface : option (option string)) (opts : option (list DhcpOption))
| DDeleteScope (id : Z)
| DCreateReservation (ts : string) (scope_id : Z) (ident ip : string) (h : option string) (opts : list DhcpOption)
| DUpdateReservation (id : Z) (ident ip : option string) (h : option (option string)) (opts : option (list DhcpOption))
| DDeleteReservation (id : Z)
| DDeleteLease (id : Z)
| DPrune (now : string).

Definition run_dhcp_op (op : DhcpOp) (d : Db) : Db :=
  match op with
  | DCreateScope ts n e f s rs re l r z i ic o => fst (create_dhcp_scope ts n e f s rs re l r z i ic o d)
  | DUpdateScope id n e s rs re l r z i ic o => fst (update_dhcp_scope id n e s rs re l r z i ic o d)
  | DDeleteScope id => fst (delete_dhcp_scope id d)
  | DCreateReservation ts s i ip h o => fst (create_dhcp_reservation ts s i ip h o d)
  | DUpdateReservation id i ip h o => fst (update_dhcp_reservation id i ip h o d)
  | DDeleteReservation id => fst (delete_dhcp_reservation id d)
  | DDeleteLease id => fst (delete_dhcp_lease id d)
  | DPrune now => fst (prune_expired_leases now d)
  end.

Lemma run_dhcp_op_ok op d : dhcp_ok d -> dhcp_ok (run_dhcp_op op d).
Proof.
  intros Hd. destruct op; cbn [run_dhcp_op];
    match goal with |- dhcp_ok (fst (?m d)) => enough (preserves dhcp_ok m) as Hp by (by apply Hp) end;
    auto with preserve.
Qed.

Section Reachable.
Context `{STORE : StoreLoad} `{NETS : IpNets} `{TIME : Rfc3339}.

(** A served frame, or a management statement. *)
Inductive dhcp_step : AppState -> AppState -> Prop :=
| step_v4 ts now iface ok frame a a' ps r :
    v4_turn ts now iface ok frame a = Some (a', ps, r) -> dhcp_step a a'
| step_v6 ts now duid src ok msg a a' ps r :
    handle_v6 ts now duid src ok msg a = Some (a', ps, r) -> dhcp_step a a'
| step_admin op a : dhcp_step a (mkAppState (run_dhcp_op op (as_db a)) (as_store a)).

Inductive dhcp_reachable (s0 : ZStore) : AppState -> Prop :=
| dreach_init : dhcp_reachable s0 (mkAppState empty_db s0)
| dreach_step a a' : dhcp_reachable s0 a -> dhcp_step a a' -> dhcp_reachable s0 a'.

(** after any sequence of served frames and management statements, an address of a
    scope has at most one lease row, rows and reservations belong to existing
    scopes, and every stored client identifier is lower case. *)
Theorem dhcp_integrity s0 a : dhcp_reachable s0 a -> dhcp_ok (as_db a).
Proof.
  induction 1 as [|a a' _ IH Hstep]; [constructor; cbn; try constructor; done|].
  destruct Hstep as [ts now iface ok frame a a' ps r H|ts now duid src ok msg a a' ps r H|op a].
  - unfold v4_turn in H. destruct (Dhcp4.parse frame); [by eapply handle_v4_ok|by injection H as <- _ _].
  - by eapply handle_v6_ok.
  - by apply run_dhcp_op_ok.
Qed.
End Reachable.

(** ** Interleaved handlers

    The statements of a handler are separate [db.run] calls, so the handlers of two
    sockets can read the same rows before either of them writes. *)

#[export] Instance unit_store : StoreLoad := {| ZStore := unit; load_store _ := Ok tt |}.

Definition ex_state : AppState :=
  mkAppState (run_dhcp_op (DCreateScope "t0" "lan" true FamV4 "192.168.1.0/24" "192.168.1.10" "192.168.1.12" 3600
                false None (Some "192.168.1.1") None []) empty_db) tt.

(** A DISCOVER or another message of a client with the given hardware address. *)
Definition ex_msg (mt : Dhcp4MessageType.t) (mac : Z) (req : option Z) : Dhcp4Message :=
  let m := set_message_type (mkDhcp4Message 1 1 6 0 mac 0 0 0 0 0 0 (to_be 6 mac ++ replicate 10 0)
                               (replicate 64 0) (replicate 128 0) []) mt in
  match req with Some ip => Dhcp4.set_option m 50 (octets4 ip) | None => m end.

Section Race.
Context `{STORE : StoreLoad} `{NETS : IpNets} `{TIME : Rfc3339}.

(** Both handlers read and decide, then both write and send. *)
Definition v4_interleaved (ts : string) (now : Z) (m1 m2 : Dhcp4Message) (a : AppState)
    : option (AppState * list (SocketAddr * list Z)) :=
  let! t1 := Dhcp4.message_type m1 in
  let! t2 := Dhcp4.message_type m2 in
  let! s1 := select_v4_scope (sorted_scopes (as_db a)) (giaddr m1) None in
  let! s2 := select_v4_scope (sorted_scopes (as_db a)) (giaddr m2) None in
  let l1 := scope_leases (as_db a) (sc_id s1) in
  let l2 := scope_leases (as_db a) (sc_id s2) in
  let! a1 := v4_decide now m1 t1 s1 (scope_reservations (as_db a) (sc_id s1)) l1 in
  let! a2 := v4_decide now m2 t2 s2 (scope_reservations (as_db a) (sc_id s2)) l2 in
  let '(st1, p1, _) := v4_perform ts now true m1 s1 l1 a1 a in
  let '(st2, p2, _) := v4_perform ts now true m2 s2 l2 a2 st1 in
  Some (st2, p1 ++ p2).
End Race.

(** when two clients' DISCOVERs are handled at the same time, both can be offered the
    same address, and the first client's row is overwritten although its offer is
    still held; handled one after the other they get different addresses. *)
Theorem v4_offer_race :
  let m1 := ex_msg Dhcp4MessageType.Discover 11 None in
  let m2 := ex_msg Dhcp4MessageType.Discover 22 None in
  (exists st p1 p2 r1 r2, v4_interleaved "t1" 100 m1 m2 ex_state = Some (st, [(p1, r1); (p2, r2)]) /\
     (yiaddr <$> ok (Dhcp4.parse r1)) = (yiaddr <$> ok (Dhcp4.parse r2)) /\
     List.map ls_identifier (dhcp_leases (as_db st)) = [v4_client_id m2]) /\
  (exists st1 st2 p1 p2 r1 r2, handle_v4 "t1" 100 None true m1 ex_state = Some (st1, [(p1, r1)], Ok tt) /\
     handle_v4 "t1" 100 None true m2 st1 = Some (st2, [(p2, r2)], Ok tt) /\
     (yiaddr <$> ok (Dhcp4.parse r1)) <> (yiaddr <$> ok (Dhcp4.parse r2)) /\
     List.map ls_identifier (dhcp_leases (as_db st2)) = [v4_client_id m1; v4_client_id m2]).
Proof.
  cbv zeta. split.
  - do 5 eexists. split; [vm_compute; reflexivity|]. split; vm_compute; reflexivity.
  - do 6 eexists. split; [vm_compute; reflexivity|]. split; [vm_compute; reflexivity|].
    split; [vm_compute; congruence|vm_compute; reflexivity].
Qed.

(** ** DHCPv6 replies *)

Lemma set_option6_wf m code v :
  Dhcp6.message_wf m -> is_u16 code -> Z.of_nat (length v) <= u16_max -> bytes_ok v ->
  Dhcp6.message_wf (Dhcp6.set_option m code v).
Proof. intros [] ? ? ?. constructor; cbn; [done|]. by apply Forall_replace_or_push. Qed.

(** The values the administrator configured fit a DHCPv6 option. *)
Definition v6_options_fit (opts : list DhcpOption) : Prop :=
  forall o v, In o opts -> encode_option o = Some (Ok v) -> Z.of_nat (length v) <= u16_max.

Lemma add_v6_options_props opts m m' :
  v6_options_fit opts -> add_v6_options m opts = Some m' -> Dhcp6.message_wf m ->
  Dhcp6.message_wf m' /\ msg_type m' = msg_type m /\ transaction_id m' = transaction_id m /\
  forall c, c <> 23 -> c <> 24 -> Dhcp6.option_of m' c = Dhcp6.option_of m c.
Proof.
  revert m. induction opts as [|o opts IH]; intros m Hfit; cbn [add_v6_options]; [by intros [= ->]|].
  intros H Hm. assert (v6_options_fit opts) as Hfit' by (intros x v Hx; apply Hfit; by right).
  destruct ((do_code o =? 23) || (do_code o =? 24)) eqn:Ec; [|by apply IH].
  destruct (encode_option o) as [[b|e]|] eqn:Ee; [|by apply IH|done].
  assert (do_code o = 23 \/ do_code o = 24) as Hcode by (rewrite orb_true_iff, !Z.eqb_eq in Ec; done).
  destruct (IH _ Hfit' H) as (Hw & Ht & Hx & Ho).
  - apply set_option6_wf; [done|unfold is_u16, u16_max; lia|eapply Hfit; [by left|done]|by eapply encode_option_bytes].
  - split_and!; [done..|]. intros c ? ?. rewrite Ho by done. apply Dhcp6.option_of_set_other6. lia.
Qed.

Lemma encode_one_ia_len iaid t1 t2 x : length (encode_ia_na (mkIaNa iaid t1 t2 [x])) = 40%nat.
Proof. done. Qed.

Lemma encode_ia_na_bytes ia : bytes_ok (encode_ia_na ia).
Proof.
  unfold encode_ia_na. solve_bytes. apply Forall_concat, Forall_fmap, Forall_true.
  intros a. unfold compose, push_option, octets6. solve_bytes.
Qed.

(** The association a client sends has a 32-bit identifier. *)
Lemma ia_na_iaid m ia : Dhcp6.message_wf m -> ia_na m = Some ia -> is_u32 (iaid ia).
Proof.
  intros [_ Ho]. unfold ia_na, Dhcp6.option_of.
  destruct (List.find _ _) as [[c v]|] eqn:E; cbn [fmap option_fmap option_map snd]; [|done].
  apply List.find_some in E as [Hin _]. rewrite List.Forall_forall in Ho. destruct (Ho _ Hin) as (_ & _ & Hb).
  unfold parse_ia_na. destruct (Nat.ltb_spec (length v) 12) as [|Hlen]; [done|].
  destruct (Dhcp6.parse_options _); [|done]. destruct (ia_addresses _); [|done]. cbn [ok]. intros [= <-]. cbn [iaid].
  pose proof (from_be_bound (slice 0 4 v) (slice_bytes 0 4 v Hb)) as H.
  rewrite length_slice in H by lia. change (256 ^ Z.of_nat (4 - 0)) with 4294967296 in H.
  unfold is_u32, u32_max. lia.
Qed.

(** an ADVERTISE or REPLY, read off the wire, echoes the transaction and the client's
    DUID, names the server, and its IA_NA holds the assigned address with the
    scope's lifetime; T2 never exceeds the lifetime, and T1 is at most T2 for
    leases of five seconds and more. *)
Theorem v6_reply_grant req scope assigned mt duid bytes :
  Dhcp6.message_wf req -> is_u128 assigned -> is_u32 (sc_lease_secs scope) -> bytes_ok duid ->
  Z.of_nat (length duid) <= u16_max -> v6_options_fit (sc_options scope) ->
  build_v6_reply req scope assigned mt duid = Some bytes ->
  exists m ia, Dhcp6.parse bytes = Ok m /\ msg_type m = mt /\ transaction_id m = transaction_id req /\
    Dhcp6.option_of m 1 = Dhcp6.option_of req 1 /\ Dhcp6.option_of m 2 = Some duid /\
    ia_na m = Some ia /\ addresses ia = [mkIaAddress assigned (sc_lease_secs scope) (sc_lease_secs scope)] /\
    ia_t2 ia <= sc_lease_secs scope /\ (5 <= sc_lease_secs scope -> ia_t1 ia <= ia_t2 ia).
Proof.
  intros Hr Ha Hl Hdb Hdl Hfit. unfold build_v6_reply, v6_reply. cbv zeta.
  set (iid := match ia_na req with Some ia => iaid ia | None => 1 end).
  set (lease := sc_lease_secs scope) in *.
  set (ia := mkIaNa iid (lease / 2) (lease / 5 * 4) [mkIaAddress assigned lease lease]).
  set (m0 := match Dhcp6.option_of req 1 with
             | Some cid => Dhcp6.set_option (Dhcp6Message_new mt (transaction_id req)) 1 cid
             | None => Dhcp6Message_new mt (transaction_id req) end).
  assert (Dhcp6.message_wf m0 /\ msg_type m0 = mt /\ transaction_id m0 = transaction_id req /\
          Dhcp6.option_of m0 1 = Dhcp6.option_of req 1) as (Hw0 & Ht0 & Hx0 & H10).
  { destruct Hr as [Htid Ho]. unfold m0. destruct (Dhcp6.option_of req 1) as [cid|] eqn:E.
    - unfold Dhcp6.option_of in E. destruct (List.find _ _) as [[c v]|] eqn:Ef in E; [|done].
      apply List.find_some in Ef as [Hin _]. rewrite List.Forall_forall in Ho. destruct (Ho _ Hin) as (_ & Hlen & Hb).
      cbn in E. injection E as <-. split_and!; [|done..].
      apply set_option6_wf; [by constructor|unfold is_u16, u16_max; lia|done|done].
    - split_and!; [|done..]. by constructor. }
  assert (Hia : ia_na_wf ia).
  { unfold is_u32, u32_max in Hl. split; [|split; [|split]]; cbn [iaid ia_t1 ia_t2 addresses ia].
    - unfold iid. destruct (ia_na req) eqn:E; [by apply (ia_na_iaid req)|unfold is_u32, u32_max; lia].
    - unfold is_u32, u32_max. split; [apply Z.div_pos; lia|]. apply Z.div_le_upper_bound; lia.
    - unfold is_u32, u32_max. pose proof (Z.mul_div_le lease 5). pose proof (Z.div_pos lease 5). lia.
    - apply List.Forall_cons; [|constructor]. split; [done|]. by split. }
  set (m1 := Dhcp6.set_option (Dhcp6.set_option m0 2 duid) 3 (encode_ia_na ia)).
  assert (Hw1 : Dhcp6.message_wf m1).
  { apply set_option6_wf; [apply set_option6_wf; auto| | |apply encode_ia_na_bytes];
      try (unfold is_u16, u16_max; lia). unfold ia. rewrite encode_one_ia_len. unfold u16_max. lia. }
  destruct (add_v6_options m1 (sc_options scope)) as [m|] eqn:Em; [|done].
  cbn [fmap option_fmap option_map]. intros [= <-].
  destruct (add_v6_options_props _ _ _ Hfit Em Hw1) as (Hw & Ht & Hx & Ho).
  exists m, ia. split; [by apply Dhcp6.parse_build|]. rewrite Ht, Hx. split; [done|]. split; [done|].
  unfold ia_na. unfold OPT_IA_NA. rewrite !Ho by lia. unfold m1.
  rewrite (Dhcp6.option_of_set_other6 _ 3 1), (Dhcp6.option_of_set_other6 _ 2 1), (Dhcp6.option_of_set_other6 _ 3 2) by lia.
  rewrite !Dhcp6.option_of_set_same6. split; [done|]. split; [done|].
  rewrite Dhcp6.parse_encode_ia_na by done. split; [done|]. split; [done|]. cbn [ia_t1 ia_t2 ia].
  unfold is_u32 in Hl. split.
  - pose proof (Z.mul_div_le lease 5). pose proof (Z.div_pos lease 5). lia.
  - intros H5. apply Z.lt_succ_r, Z.div_lt_upper_bound; [lia|]. pose proof (Z.mod_pos_bound lease 5).
    pose proof (Z.div_mod lease 5). pose proof (Z.div_le_lower_bound lease 5 1). lia.
Qed.

(** ** What a turn of a listener keeps *)

Section Turns.
Context `{STORE : StoreLoad} `{NETS : IpNets} `{TIME : Rfc3339}.

(** The statements of the handlers on the lease table. *)
Inductive lease_statement : M unit -> Prop :=
| ls_persist4 ts scope ip cid h s e st : lease_statement (persist_v4_lease ts scope ip cid h s e st)
| ls_release4 ts ls cid st : lease_statement (release_v4_lease ts ls cid st)
| ls_persist6 ts scope ip duid s e st : lease_statement (persist_v6_lease ts scope ip duid s e st)
| ls_delete ids : lease_statement (for_each ids delete_dhcp_lease).

Context (P : AppState -> Prop).
Context (HP : forall m a, lease_statement m -> P a -> P (fst (run_db m a))).

Lemma try_db_turn m a k :
  lease_statement m -> P a -> (forall a', P a' -> P (fst (fst (k a')))) -> P (fst (fst (try_db m a k))).
Proof.
  intros Hm Ha Hk. unfold try_db. specialize (HP m a Hm Ha). destruct (run_db m a) as [a' [u|e]]; [by apply Hk|done].
Qed.
Lemma try_send_turn ok p a k : P a -> (forall a', P a' -> P (k a')) -> P (fst (fst (try_send ok p a k))).
Proof. intros Ha Hk. unfold try_send. destruct ok; cbn; auto. Qed.

(** A turn keeps what its lease statements keep and what a registration for one of
    the scopes keeps. *)
Lemma v4_turn_keeps ts now iface ok frame a a' ps r :
  (forall scope ip host x, In scope (dhcp_scopes (as_db a)) -> P x -> P (register_dns ts scope ip host x)) ->
  v4_turn ts now iface ok frame a = Some (a', ps, r) -> P a -> P a'.
Proof.
  intros Hreg H Ha. unfold v4_turn in H. destruct (Dhcp4.parse frame) as [msg|]; [|by injection H as <- _ _].
  unfold handle_v4 in H. destruct (Dhcp4.message_type msg) as [mtype|]; [|by injection H as <- _ _].
  destruct (select_v4_scope _ _ _) as [scope|] eqn:Es; [|by injection H as <- _ _]. cbv zeta in H.
  destruct (v4_decide _ _ _ _ _ _) as [act|]; [|done]. injection H as H.
  assert (In scope (dhcp_scopes (as_db a))) as Hin.
  { apply select_enabled in Es as [Hs _]. by apply in_sorted_scopes in Hs. }
  assert (P (fst (fst (v4_perform ts now ok msg scope (scope_leases (as_db a) (sc_id scope)) act a)))) as Hp;
    [|by rewrite H in Hp].
  destruct act; cbn [v4_perform]; cbv zeta; try done;
    repeat first [ apply try_db_turn; [constructor|done|intros ? ?] | apply try_send_turn; [done|intros ? ?] ];
    first [done | by apply Hreg].
Qed.

Lemma v6_turn_keeps ts now duid src ok frame a a' ps r :
  (forall scope ip host x, In scope (dhcp_scopes (as_db a)) -> P x -> P (register_dns ts scope ip host x)) ->
  v6_turn ts now duid src ok frame a = Some (a', ps, r) -> P a -> P a'.
Proof.
  intros Hreg H Ha. unfold v6_turn in H. destruct (Dhcp6.parse frame) as [msg|]; [|by injection H as <- _ _].
  unfold handle_v6 in H. destruct (List.find _ _) as [scope|] eqn:Es; [|by injection H as <- _ _].
  assert (In scope (dhcp_scopes (as_db a))) as Hin by (apply List.find_some in Es as [Hs _]; by apply in_sorted_scopes in Hs).
  destruct (client_duid msg) as [id|]; [|by injection H as <- _ _]. cbv zeta in H.
  repeat case_hyp H; simplify_eq; try done;
    match goal with E : try_db ?m ?a0 ?k = (?x, _, _) |- P ?x =>
      pose proof (try_db_turn m a0 k) as Hk; rewrite E in Hk; apply Hk; [constructor|done|] end;
    intros ?x ?; try (apply try_send_turn; [done|intros ?y ?; repeat case_goal]); first [done | by apply Hreg].
Qed.
End Turns.
