(* ===== verification/DhcpExamples.v ===== *)
(** * Witnesses for the DHCP server

    The theorems of [DhcpServer] at concrete frames and tables: a /24 scope with
    a pool of three addresses, evaluated with the instances of [Instances]. *)

From S2P Require Import Prelude Strs Net External Instances Models DhcpOptions Dhcp4 Dhcp6 Lease Db DbDhcp DbDns DhcpServer.

Definition ex_scope4 : DhcpScope :=
  mkDhcpScope 1 "lan" true FamV4 "192.168.1.0/24" "192.168.1.10" "192.168.1.12" 3600 false None
    (Some "192.168.1.1") None [mkDhcpOption 6 None "1.1.1.1, 9.9.9.9" KIpList; mkDhcpOption 54 None "6.6.6.6" KIp] "t0".

Lemma ex_msg_wf mt mac ip :
  is_u32 mac -> is_u32 ip -> Dhcp4.message_wf (ex_msg mt mac (Some ip)).
Proof.
  intros Hm Hi. unfold ex_msg. apply set_option_wf; [|split; vm_compute; discriminate|apply to_be_bytes_ok].
  apply set_option_wf; [|split; vm_compute; discriminate|].
  - constructor; cbn -[replicate to_be]; try done;
      try (unfold is_u8, is_u16, is_u32, u8_max, u16_max, u32_max; lia).
    + split; [done|]. solve_bytes. apply Forall_replicate. split; vm_compute; discriminate.
    + split; [apply length_replicate|]. apply Forall_replicate. split; vm_compute; discriminate.
    + split; [apply length_replicate|]. apply Forall_replicate. split; vm_compute; discriminate.
  - apply List.Forall_cons; [|constructor]. destruct mt; split; vm_compute; discriminate.
Qed.

Definition ex_ip10 : Z := Ipv4Addr_new 192 168 1 10.
Lemma ex_ip10_u32 : is_u32 ex_ip10.
Proof. split; vm_compute; discriminate. Qed.
Definition ex_request : Dhcp4Message := ex_msg Dhcp4MessageType.Request 11 (Some ex_ip10).
Lemma ex_request_wf : Dhcp4.message_wf ex_request.
Proof. apply ex_msg_wf; [split; vm_compute; discriminate|exact ex_ip10_u32]. Qed.

(** The administrator's own option 54 does not replace the server identifier. *)
Lemma v4_reply_grant_witness :
  exists bytes m, build_v4_reply ex_request ex_scope4 (sc_options ex_scope4) ex_ip10 Dhcp4MessageType.Ack = Some bytes /\
    Dhcp4.parse bytes = Ok m /\ Dhcp4.server_id m = Some (Ipv4Addr_new 192 168 1 1).
Proof.
  destruct (build_v4_reply ex_request ex_scope4 (sc_options ex_scope4) ex_ip10 Dhcp4MessageType.Ack) as [bytes|] eqn:E;
    [|vm_compute in E; discriminate].
  destruct (v4_reply_grant ex_request ex_scope4 (sc_options ex_scope4) ex_ip10 Dhcp4MessageType.Ack bytes)
    as (m & Hm & _ & _ & Hs & _).
  - exact ex_request_wf.
  - exact ex_ip10_u32.
  - repeat (apply List.Forall_cons; [vm_compute; discriminate|]). constructor.
  - discriminate.
  - exact E.
  - exists bytes, m. split; [reflexivity|]. split; [exact Hm|]. rewrite Hs. vm_compute. reflexivity.
Defined.

Lemma v4_reply_nak_witness :
  exists bytes m, build_v4_reply ex_request ex_scope4 (sc_options ex_scope4) ex_ip10 Dhcp4MessageType.Nak = Some bytes /\
    Dhcp4.parse bytes = Ok m /\ yiaddr m = UNSPECIFIED /\ xid m = xid ex_request /\ chaddr m = chaddr ex_request /\
    Dhcp4.options m = [(53, [6]); (54, octets4 (scope_server_id ex_scope4))].
Proof.
  apply (v4_reply_nak ex_request ex_scope4 (sc_options ex_scope4) ex_ip10); [exact ex_request_wf|exact ex_ip10_u32].
Defined.

Lemma sanitize_label_safe_witness :
  sanitize_label "-My_PC-.home.lan" = Some "mypc" /\ (0 < String.length "mypc" <= 63)%nat.
Proof.
  split; [vm_compute; reflexivity|].
  apply (sanitize_label_safe "-My_PC-.home.lan" "mypc"). vm_compute. reflexivity.
Defined.

(** ** A REQUEST, then a second client, then a RELEASE *)

Definition ex_state1 : AppState :=
  match handle_v4 "t1" 100 None true ex_request ex_state with
  | Some (a, _, _) => a
  | None => ex_state
  end.
Definition ex_lease1 : DhcpLease :=
  mkDhcpLease 1 1 FamV4 "192.168.1.10" "00:00:00:00:00:0b" None (format_unix 100) (format_unix 3700) Active "t1".

Lemma ex_state_ok : dhcp_ok (as_db ex_state).
Proof. apply run_dhcp_op_ok. constructor; cbn; try constructor; done. Qed.

Lemma ex_state1_ok : dhcp_ok (as_db ex_state1).
Proof.
  destruct (handle_v4 "t1" 100 None true ex_request ex_state) as [[[a ps] r]|] eqn:E; [|vm_compute in E; discriminate].
  unfold ex_state1. rewrite E. eapply handle_v4_ok; [exact E|exact ex_state_ok].
Qed.

Example ex_state1_leases : dhcp_leases (as_db ex_state1) = [ex_lease1].
Proof. vm_compute. reflexivity. Qed.

(** The second client asks for the first one's address. *)
Definition ex_discover2 : Dhcp4Message := ex_msg Dhcp4MessageType.Discover 22 (Some ex_ip10).

Lemma v4_no_steal_witness :
  match handle_v4 "t2" 200 None true ex_discover2 ex_state1 with
  | Some (a', _, _) => In ex_lease1 (dhcp_leases (as_db a'))
  | None => False
  end.
Proof.
  destruct (handle_v4 "t2" 200 None true ex_discover2 ex_state1) as [[[a' ps] r]|] eqn:E; [|vm_compute in E; discriminate].
  destruct (v4_no_steal "t2" 200 None true ex_discover2 ex_state1 a' ps r ex_lease1) as [H|(yi & (x & Hx & _) & _)].
  - exact ex_state1_ok.
  - exact E.
  - rewrite ex_state1_leases. left. reflexivity.
  - vm_compute. reflexivity.
  - vm_compute. reflexivity.
  - exact H.
  - vm_compute in Hx. destruct Hx.
Defined.

Definition ex_scope_stored : DhcpScope :=
  mkDhcpScope 1 "lan" true FamV4 "192.168.1.0/24" "192.168.1.10" "192.168.1.12" 3600 false None
    (Some "192.168.1.1") None [] "t0".

Lemma v4_request_outcome_witness :
  exists reply id created,
    List.find (lease_at 1 (show_v4 ex_ip10)) (dhcp_leases (as_db ex_state1)) =
      Some (mkDhcpLease id 1 FamV4 (show_v4 ex_ip10) (to_ascii_lowercase (v4_client_id ex_request))
              (Dhcp4.hostname ex_request) (format_unix 100) (format_unix (100 + 3600)) Active created) /\
    build_v4_reply ex_request ex_scope_stored [] ex_ip10 Dhcp4MessageType.Ack = Some reply.
Proof.
  destruct (handle_v4 "t1" 100 None true ex_request ex_state) as [[[a' ps] r]|] eqn:E; [|vm_compute in E; discriminate].
  assert (a' = ex_state1) as Ha by (unfold ex_state1; rewrite E; reflexivity).
  assert (r = Ok tt) as Hr by (vm_compute in E; congruence). subst r.
  destruct (v4_request_outcome "t1" 100 None ex_request ex_state a' ps ex_scope_stored)
    as [(yi & reply & id & created & _ & Hb & Hd & Hf)|(reply & _ & Hst & _)].
  - vm_compute. reflexivity.
  - vm_compute. reflexivity.
  - exact E.
  - assert (ex_ip10 = yi) as <- by (apply Hd; vm_compute; reflexivity). rewrite Ha in Hf.
    exists reply, id, created. split; [exact Hf|exact Hb].
  - rewrite Hst in Ha. apply (f_equal (fun s => length (dhcp_leases (as_db s)))) in Ha. vm_compute in Ha. discriminate.
Defined.

Lemma v4_release_own_witness :
  exists a', handle_v4 "t3" 300 None true (ex_msg Dhcp4MessageType.Release 11 None) ex_state1 = Some (a', [], Ok tt) /\
    ~ In ex_lease1 (dhcp_leases (as_db a')).
Proof.
  destruct (v4_release_own "t3" 300 None true (ex_msg Dhcp4MessageType.Release 11 None) ex_state1 ex_scope_stored)
    as (a' & Ha & Hl).
  - exact ex_state1_ok.
  - vm_compute. reflexivity.
  - vm_compute. reflexivity.
  - exists a'. split; [exact Ha|]. intros Hin. apply Hl in Hin as [_ Hn]. apply Hn. split; vm_compute; reflexivity.
Defined.

Definition ex_state0 : AppState := mkAppState empty_db (tt : @ZStore unit_store).

Lemma dhcp_integrity_witness : dhcp_ok (as_db ex_state1).
Proof.
  apply (dhcp_integrity (STORE := unit_store) (tt : @ZStore unit_store) ex_state1).
  destruct (v4_turn "t1" 100 None true (Dhcp4.build ex_request) ex_state) as [[[a' ps] r]|] eqn:E; [|vm_compute in E; discriminate].
  apply dreach_step with (a := ex_state).
  - apply dreach_step with (a := ex_state0); [apply dreach_init|]. apply (step_admin _ ex_state0).
  - apply (step_v4 "t1" 100 None true (Dhcp4.build ex_request) ex_state ex_state1 ps r). rewrite E.
    vm_compute in E. injection E as <- <- <-. vm_compute. reflexivity.
Defined.

Definition ex_scope6 : DhcpScope :=
  mkDhcpScope 2 "lan6" true FamV6 "fd00::/64" "fd00::100" "fd00::1ff" 3600 false None None None
    [mkDhcpOption 23 None "fd00::1" KIpList] "t0".

Lemma v6_reply_grant_witness :
  exists bytes m ia, build_v6_reply sample_solicit ex_scope6 256 Dhcp6MessageType.Advertise (duid_ll 1 [2; 0; 0; 0; 0; 1]) = Some bytes /\
    Dhcp6.parse bytes = Ok m /\ ia_na m = Some ia /\ addresses ia = [mkIaAddress 256 3600 3600].
Proof.
  destruct (build_v6_reply sample_solicit ex_scope6 256 Dhcp6MessageType.Advertise (duid_ll 1 [2; 0; 0; 0; 0; 1]))
    as [bytes|] eqn:E; [|vm_compute in E; discriminate].
  destruct (v6_reply_grant sample_solicit ex_scope6 256 Dhcp6MessageType.Advertise (duid_ll 1 [2; 0; 0; 0; 0; 1]) bytes)
    as (m & ia & Hm & _ & _ & _ & _ & Hia & Had & _).
  - exact sample_solicit_wf.
  - split; vm_compute; (discriminate || reflexivity).
  - split; vm_compute; discriminate.
  - apply bytes_okb. vm_compute. reflexivity.
  - vm_compute. discriminate.
  - intros o v [<-|[]] Hv. vm_compute in Hv. injection Hv as <-. vm_compute. discriminate.
  - exact E.
  - exists bytes, m, ia. split; [reflexivity|]. split; [exact Hm|]. split; [exact Hia|exact Had].
Defined.
