(* ===== verification/LeaseTime.v ===== *)
(** * A lease over time

    What an acknowledgement promises for the lease time: as long as the other
    clients' DHCPv4 messages are the only ones served, nobody else is allocated the
    address before the lease expires.  The expiry is stored as text, so this is
    where the round trip of timestamps matters. *)

From S2P Require Import Prelude Strs Net External Instances Models DhcpOptions Dhcp4 Lease Db DbDhcp DhcpServer.
From S2P Require Import DhcpExamples.

Section LeaseTime.
Context `{STORE : StoreLoad} `{NETS : IpNets} `{TIME : Rfc3339} `{LAWS : !Rfc3339Laws}.

(** The frames of clients other than [cid], each before the time [until]. *)
Inductive served_others (cid : string) (until : Z) : AppState -> AppState -> Prop :=
| others_none a : served_others cid until a a
| others_step ts now iface ok msg a a1 a2 ps r :
    now < until -> eq_ignore_ascii_case cid (v4_client_id msg) = false ->
    handle_v4 ts now iface ok msg a = Some (a1, ps, r) -> served_others cid until a1 a2 ->
    served_others cid until a a2.

(** ** Reservations do not change *)

Definition reservations_are (rs : list DhcpReservation) (d : Db) : Prop := dhcp_reservations d = rs.

Lemma upsert_reservations rs ts sid fam ip ident host starts expires st :
  preserves (reservations_are rs) (upsert_dhcp_lease ts sid fam ip ident host starts expires st).
Proof.
  intros d Hd. unfold upsert_dhcp_lease, fail. destruct (List.find _ _); [done|]. by destruct (scope_exists _ _).
Qed.

Lemma delete_reservations rs id : preserves (reservations_are rs) (delete_dhcp_lease id).
Proof. by apply preserves_modify. Qed.

Lemma handle_v4_reservations ts now iface ok msg a a' ps r :
  handle_v4 ts now iface ok msg a = Some (a', ps, r) -> dhcp_reservations (as_db a') = dhcp_reservations (as_db a).
Proof.
  intros H. unfold handle_v4 in H.
  destruct (Dhcp4.message_type msg) as [mtype|]; [|by injection H as <- _ _].
  destruct (select_v4_scope _ _ _) as [scope|]; [|by injection H as <- _ _]. cbv zeta in H.
  destruct (v4_decide _ _ _ _ _ _) as [act|]; [|done]. injection H as H.
  pose proof (v4_perform_keeps (reservations_are (dhcp_reservations (as_db a))) ts now ok msg scope
    (scope_leases (as_db a) (sc_id scope)) act a) as Hk.
  rewrite H in Hk. apply Hk; [intros d d' (_ & _ & E); unfold reservations_are; by rewrite E|done|..].
  - intros. apply preserves_bind; [apply upsert_reservations|intros; apply preserves_ret].
  - intros. apply preserves_for_each. intros l. case_goal; [apply delete_reservations|].
    apply preserves_bind; [apply upsert_reservations|intros; apply preserves_ret].
Qed.

(** ** The row of a grant *)

(** A row that expires at [until] holds its address before. *)
Lemma granted_holding id sid ip ident host starts until created t :
  rfc3339_range until -> t < until ->
  is_holding (mkDhcpLease id sid FamV4 ip ident host starts (format_unix until) Active created) t = true.
Proof.
  intros Hr Ht. unfold is_holding, lease_expired. cbn [ls_state ls_expires_at]. rewrite parse_format_unix by done.
  cbn. apply negb_true_iff, Z.leb_gt. lia.
Qed.

Lemma show_v4_inj a b : is_u32 a -> is_u32 b -> show_v4 a = show_v4 b -> a = b.
Proof. intros Ha Hb E. apply (f_equal parse_v4) in E. rewrite !parse_v4_show in E by done. congruence. Qed.

Lemma reservation_u32 rs cid yi : client_reservation rs cid (V4 yi) -> is_u32 yi.
Proof. intros (r & _ & _ & Hr). by apply (parse_ip_ok _ _ Hr). Qed.

(** The row an acknowledgement leaves. *)
Lemma ack_row ts now iface msg a a' ps scope yi reply :
  Dhcp4.message_type msg = Some Dhcp4MessageType.Request ->
  select_v4_scope (sorted_scopes (as_db a)) (giaddr msg) iface = Some scope ->
  v4_decide now msg Dhcp4MessageType.Request scope (scope_reservations (as_db a) (sc_id scope))
    (scope_leases (as_db a) (sc_id scope)) = Some (A4Ack yi reply) ->
  handle_v4 ts now iface true msg a = Some (a', ps, Ok tt) ->
  exists id created, List.find (lease_at (sc_id scope) (show_v4 yi)) (dhcp_leases (as_db a')) =
    Some (mkDhcpLease id (sc_id scope) FamV4 (show_v4 yi) (to_ascii_lowercase (v4_client_id msg))
            (Dhcp4.hostname msg) (format_unix now) (format_unix (now + sc_lease_secs scope)) Active created).
Proof.
  intros Hm Hs Hdec H. unfold handle_v4 in H. rewrite Hm, Hs in H. cbv zeta in H. rewrite Hdec in H.
  injection H as H. unfold v4_perform, try_db, run_db, try_send in H. cbv zeta in H.
  destruct (persist_v4_lease _ _ _ _ _ _ _ _ (as_db a)) as [d1 [[]|e]] eqn:Ep; [|done].
  apply persist_v4_lease_row in Ep as (id & created & Hrow). injection H as <- _. exists id, created.
  by destruct (register_dns_dhcp ts scope (V4 yi) (Dhcp4.hostname msg) (mkAppState d1 (as_store a))) as (-> & _).
Qed.

(** Nobody else has the address reserved. *)
Definition not_reserved_for_others (d : Db) (sid : Z) (cid : string) (yi : Z) : Prop :=
  forall c, eq_ignore_ascii_case cid c = false -> ~ client_reservation (scope_reservations d sid) c (V4 yi).

Lemma served_keeps cid until a a2 l yi :
  served_others cid until a a2 -> dhcp_ok (as_db a) -> is_u32 yi ->
  In l (dhcp_leases (as_db a)) -> ls_identifier l = to_ascii_lowercase cid -> ls_ip l = show_v4 yi ->
  (forall t, t < until -> is_holding l t = true) ->
  not_reserved_for_others (as_db a) (ls_scope_id l) cid yi ->
  In l (dhcp_leases (as_db a2)) /\ dhcp_reservations (as_db a2) = dhcp_reservations (as_db a).
Proof.
  induction 1 as [|ts now iface ok msg a a1 a2 ps r Hnow Hother H _ IH]; [done|].
  intros Hd Hu Hin Hid Hip Hhold Hres. pose proof (handle_v4_reservations _ _ _ _ _ _ _ _ _ H) as Hr.
  destruct (v4_keeps_held _ _ _ _ _ _ _ _ _ l Hd H Hin (Hhold _ Hnow)) as [Hin1|(yi' & Hc & Hip')].
  - by rewrite Hid, eq_ignore_case_lower_l.
  - rewrite <- Hr. apply IH; try done; [by eapply handle_v4_ok|].
    unfold not_reserved_for_others, scope_reservations in *. by rewrite Hr.
  - exfalso. assert (yi' = yi) as -> by (apply show_v4_inj; [by eapply reservation_u32|done|congruence]).
    by apply (Hres (v4_client_id msg)).
Qed.

(** C12: an acknowledged lease is exclusive until it expires: after a REQUEST is
    acknowledged with an address that is not reserved for somebody else, and after
    any DHCPv4 messages of other clients served before the expiry, the allocator
    gives the address to no other client before the expiry. *)
Theorem v4_lease_exclusive ts now iface msg a a1 a2 ps scope yi reply t cid req :
  dhcp_ok (as_db a) -> Dhcp4.message_type msg = Some Dhcp4MessageType.Request ->
  select_v4_scope (sorted_scopes (as_db a)) (giaddr msg) iface = Some scope ->
  v4_decide now msg Dhcp4MessageType.Request scope (scope_reservations (as_db a) (sc_id scope))
    (scope_leases (as_db a) (sc_id scope)) = Some (A4Ack yi reply) ->
  handle_v4 ts now iface true msg a = Some (a1, ps, Ok tt) ->
  rfc3339_range (now + sc_lease_secs scope) ->
  not_reserved_for_others (as_db a) (sc_id scope) (v4_client_id msg) yi ->
  served_others (v4_client_id msg) (now + sc_lease_secs scope) a1 a2 ->
  t < now + sc_lease_secs scope -> eq_ignore_ascii_case (v4_client_id msg) cid = false ->
  allocate scope (scope_reservations (as_db a2) (sc_id scope)) (scope_leases (as_db a2) (sc_id scope)) cid req t
    <> Some (V4 yi).
Proof.
  intros Hd Hm Hs Hdec H Hr Hres Hserved Ht Hc Halloc.
  assert (sc_family scope = FamV4) as Hf by (by apply select_enabled in Hs as [_ [_ ?]%enabled_v4_spec]).
  assert (is_u32 yi) as Hu.
  { destruct (v4_decide_grant _ _ _ _ _ _ _ yi reply Hdec ltac:(auto)) as [r0 Ha]. by eapply granted_u32. }
  destruct (ack_row _ _ _ _ _ _ _ _ _ _ Hm Hs Hdec H) as (id & created & Hrow).
  set (l := mkDhcpLease _ _ _ _ _ _ _ _ _ _) in Hrow. apply List.find_some in Hrow as [Hin Hat].
  pose proof (handle_v4_reservations _ _ _ _ _ _ _ _ _ H) as Hrs.
  destruct (served_keeps _ _ _ _ l yi Hserved) as [Hin2 Hrs2]; try done.
  - by eapply handle_v4_ok.
  - intros t0 Ht0. by apply granted_holding.
  - unfold not_reserved_for_others, scope_reservations in *. by rewrite Hrs.
  - destruct (granted_free _ _ _ _ _ _ l Hf Halloc Hin2) as [Hcr _]; try done.
    + by apply granted_holding.
    + cbn. by rewrite eq_ignore_case_lower_l.
    + apply (Hres cid Hc). unfold scope_reservations in *. by rewrite Hrs2, Hrs in Hcr.
Qed.
End LeaseTime.

(** Client 11 is granted .10 at time 100; client 22 asks for it at 200 and is not
    allocated it at 300. *)
Lemma v4_lease_exclusive_witness :
  exists a2 ps, handle_v4 "t2" 200 None true ex_discover2 ex_state1 = Some (a2, ps, Ok tt) /\
    allocate ex_scope_stored (scope_reservations (as_db a2) 1) (scope_leases (as_db a2) 1) (v4_client_id ex_discover2)
      (Some (V4 ex_ip10)) 300 <> Some (V4 ex_ip10).
Proof.
  assert (match handle_v4 "t1" 100 None true ex_request ex_state with Some (_, _, Ok _) => true | _ => false end = true)
    as H1 by vm_refl.
  destruct (handle_v4 "t1" 100 None true ex_request ex_state) as [[[a1 ps1] [[]|]]|] eqn:E1; try discriminate H1.
  assert (a1 = ex_state1) as -> by (unfold ex_state1; rewrite E1; reflexivity).
  assert (match handle_v4 "t2" 200 None true ex_discover2 ex_state1 with Some (_, _, Ok _) => true | _ => false end = true)
    as H2 by vm_refl.
  destruct (handle_v4 "t2" 200 None true ex_discover2 ex_state1) as [[[a2 ps] [[]|]]|] eqn:E2; try discriminate H2.
  assert (match v4_decide 100 ex_request Dhcp4MessageType.Request ex_scope_stored (scope_reservations (as_db ex_state) 1)
    (scope_leases (as_db ex_state) 1) with Some (A4Ack y _) => y =? ex_ip10 | _ => false end = true) as Hack by vm_refl.
  destruct (v4_decide _ _ _ _ _ _) as [[| |yi reply| | | |]|] eqn:Ed; try discriminate Hack.
  apply Z.eqb_eq in Hack as ->.
  exists a2, ps. split; [reflexivity|].
  apply (v4_lease_exclusive "t1" 100 None ex_request ex_state ex_state1 a2 ps1 ex_scope_stored ex_ip10 reply 300
    (v4_client_id ex_discover2) (Some (V4 ex_ip10))).
  - exact ex_state_ok.
  - vm_refl.
  - vm_refl.
  - exact Ed.
  - exact E1.
  - split; vm_compute; discriminate.
  - intros c _ (r & Hin & _). vm_compute in Hin. done.
  - eapply others_step; [|vm_refl|exact E2|apply others_none]. vm_compute. reflexivity.
  - vm_compute. reflexivity.
  - vm_refl.
Defined.
