(* ===== verification/Dnssec.v ===== *)
(** * Zone signing ([src/dns/dnssec.rs])

    The cryptography is a parameter ([Signers]); what is signed, in which groups
    and with which types and TTLs, is the program's.  [now] is in seconds. *)

From S2P Require Import Prelude Strs Net External Models.

Definition CLOCK_SKEW_SECS : Z := 3600.

(** [increment_hash]: the big-endian counter plus one, wrapping around.  The loop
    runs from the last byte and stops at the first that does not carry. *)
Fixpoint increment_rev (l : list Z) : list Z :=
  match l with
  | [] => []
  | b :: l' => if b =? 255 then 0 :: increment_rev l' else (b + 1) :: l'
  end.
Definition increment_hash (bytes : list Z) : list Z := rev (increment_rev (rev bytes)).

Record Nsec3Params : Type := mkNsec3Params { np_salt : list Z; np_iterations : Z }.

Section Dnssec.
Context `{HN : HickoryNames} `{TEXT : !HickoryText} `{SIGN : !Signers}.

Record ZoneSigner : Type := mkZoneSigner {
  zk_key : SigningKey; zk_apex : Name; zk_dnskey : OtherData; zk_default_ttl : Z; zk_nsec3 : option Nsec3Params }.

Definition ZoneSigner_build (apex : Name) (default_ttl : Z) (secret : string) (nsec3 : option Nsec3Params)
    : option ZoneSigner :=
  let! kd := load_key secret in
  Some (mkZoneSigner (fst kd) apex (snd kd) default_ttl nsec3).

Definition uses_nsec3 (z : ZoneSigner) : bool := match zk_nsec3 z with Some _ => true | None => false end.

(** [generate_secret], [key_tag], [dnskey_text] and [ds_text] (43 is the DS type). *)
Definition generate_secret `{!DnssecTools} (seed : list Z) : option string := base64_encode <$> generate_pkcs8 seed.
Definition key_tag `{!DnssecTools} (z : ZoneSigner) : Z := default 0 (calculate_key_tag (zk_key z)).
Definition dnskey_text (z : ZoneSigner) : string := RData_to_string (RD_Other DNSKEY (zk_dnskey z)).
Definition ds_text `{!DnssecTools} (z : ZoneSigner) : option string :=
  (fun ds => RData_to_string (RD_Other (OtherType 43) ds)) <$> ds_from_key (zk_key z) (zk_apex z).

Definition inception (now : Z) : Z := now - CLOCK_SKEW_SECS.

Definition sign_rrset (z : ZoneSigner) (now : Z) (name : Name) (rtype : RecordType) (ttl : Z) (rs : list DRecord)
    : option DRecord :=
  let! sig := rrsig_from_rrset (zk_key z) (zk_apex z) name rtype rs (inception now) in
  Some (mkRecord name ttl (RD_Other RRSIG sig)).

(** ** Signing an answer *)

Definition group_key (r : DRecord) : string * RecordType :=
  (to_ascii_lowercase (Name_to_string (rec_name r)), rec_type r).

(** The [BTreeMap]'s order on its keys. *)
Definition key_le (a b : string * RecordType) : bool :=
  String.ltb (fst a) (fst b) ||
  (String.eqb (fst a) (fst b) && (RecordType_code (snd a) <=? RecordType_code (snd b))).

Definition to_sign (rs : list DRecord) : list DRecord :=
  List.filter (fun r => negb (bool_decide (rec_type r = RRSIG))) rs.
(** The RRsets of the records, each in its order. *)
Definition rrset_keys (rs : list DRecord) : list (string * RecordType) :=
  sort_with key_le (remove_dups (group_key <$> to_sign rs)).
Definition rrset (rs : list DRecord) (k : string * RecordType) : list DRecord :=
  List.filter (fun r => bool_decide (group_key r = k)) (to_sign rs).

(** The body of the loop over the groups; a group is not empty. *)
Definition sign_group (z : ZoneSigner) (now : Z) (rs : list DRecord) (k : string * RecordType) : option DRecord :=
  match rrset rs k with
  | [] => None
  | r :: _ => sign_rrset z now (rec_name r) (snd k) (rec_ttl r) (rrset rs k)
  end.

Definition sign_records (z : ZoneSigner) (now : Z) (rs : list DRecord) : list DRecord :=
  rs ++ omap (sign_group z now rs) (rrset_keys rs).

(** ** Synthesized records *)

Definition with_signature (z : ZoneSigner) (now : Z) (name : Name) (rtype : RecordType) (ttl : Z) (rec : DRecord)
    : list DRecord :=
  rec :: match sign_rrset z now name rtype ttl [rec] with Some sig => [sig] | None => [] end.

Definition dnskey_rrset (z : ZoneSigner) (now : Z) : list DRecord :=
  with_signature z now (zk_apex z) DNSKEY (zk_default_ttl z)
    (mkRecord (zk_apex z) (zk_default_ttl z) (RD_Other DNSKEY (zk_dnskey z))).

(** The one-octet label [\000]. *)
Definition zero_label : string := String (chr 0) EmptyString.

Definition nsec_records (z : ZoneSigner) (now : Z) (owner : Name) (present : list RecordType) (ttl : Z)
    : list DRecord :=
  let next := default owner (prepend_label owner zero_label) in
  let rec := mkRecord owner ttl (RD_Other NSEC (nsec_new next (present ++ [RRSIG; NSEC]))) in
  with_signature z now owner NSEC ttl rec.

Definition nsec3_records (z : ZoneSigner) (now : Z) (owner : Name) (present : list RecordType) (ttl : Z)
    : list DRecord :=
  match zk_nsec3 z with
  | None => []
  | Some p =>
      match nsec3_hash (np_salt p) owner (np_iterations p) with
      | None => []
      | Some hash =>
          match base32_label hash ≫= prepend_label (zk_apex z) with
          | None => []
          | Some nsec3_owner =>
              let data := nsec3_new (np_iterations p) (np_salt p) (increment_hash hash) (present ++ [RRSIG]) in
              with_signature z now nsec3_owner NSEC3 ttl (mkRecord nsec3_owner ttl (RD_Other NSEC3 data))
          end
      end
  end.

Definition nsec3param_rrset (z : ZoneSigner) (now : Z) : list DRecord :=
  match zk_nsec3 z with
  | None => []
  | Some p =>
      with_signature z now (zk_apex z) NSEC3PARAM (zk_default_ttl z)
        (mkRecord (zk_apex z) (zk_default_ttl z)
           (RD_Other NSEC3PARAM (nsec3param_new (np_iterations p) (np_salt p))))
  end.
End Dnssec.

(** ** Lemmas *)

(** Little-endian value, as the loop sees the bytes. *)
Fixpoint from_le (l : list Z) : Z := match l with [] => 0 | b :: l' => b + 256 * from_le l' end.

Lemma from_le_snoc l b : from_le (l ++ [b]) = from_le l + 256 ^ Z.of_nat (length l) * b.
Proof.
  induction l as [|x l IH]; [cbn; lia|]. cbn [app from_le length]. rewrite IH, Nat2Z.inj_succ, Z.pow_succ_r by lia. lia.
Qed.

Lemma from_be_rev l : from_be l = from_le (rev l).
Proof.
  induction l as [|b l IH]; [done|]. cbn [rev]. rewrite from_be_cons, from_le_snoc, length_rev, IH. lia.
Qed.

Lemma from_le_bound l : bytes_ok l -> 0 <= from_le l < 256 ^ Z.of_nat (length l).
Proof.
  induction 1 as [|b l Hb _ IH]; [cbn; lia|]. cbn [from_le length]. rewrite Nat2Z.inj_succ, Z.pow_succ_r by lia.
  unfold is_u8, u8_max in Hb. lia.
Qed.

Lemma increment_rev_spec l :
  bytes_ok l -> from_le (increment_rev l) = (from_le l + 1) mod 256 ^ Z.of_nat (length l) /\
    length (increment_rev l) = length l.
Proof.
  induction 1 as [|b l Hb Hl IH]; [done|]. cbn [increment_rev]. pose proof (from_le_bound l Hl) as Hbd.
  unfold is_u8, u8_max in Hb. destruct IH as [IH1 IH2]. cbn [length]. rewrite Nat2Z.inj_succ, Z.pow_succ_r by lia.
  assert (0 < 256 ^ Z.of_nat (length l)) as Hp by lia.
  destruct (Z.eqb_spec b 255) as [->|Hne]; cbn [from_le length].
  - split; [|lia]. rewrite IH1. replace (255 + 256 * from_le l + 1) with (256 * (from_le l + 1)) by lia.
    rewrite Z.mul_mod_distr_l by lia. lia.
  - split; [|lia]. rewrite Z.mod_small; lia.
Qed.

(** the next hashed owner of a denial is the hash plus one as a big-endian number,
    wrapping around to zero after the last, on as many bytes. *)
Theorem increment_hash_spec bytes :
  bytes_ok bytes ->
  from_be (increment_hash bytes) = (from_be bytes + 1) mod 256 ^ Z.of_nat (length bytes) /\
  length (increment_hash bytes) = length bytes.
Proof.
  intros Hb. unfold increment_hash. rewrite !from_be_rev, rev_involutive, length_rev.
  destruct (increment_rev_spec (rev bytes)) as [H1 H2]; [by apply List.Forall_rev|]. by rewrite H1, H2, length_rev.
Qed.

Lemma increment_hash_spec_witness : from_be (increment_hash [0; 255; 255]) = 65536.
Proof.
  destruct (increment_hash_spec [0; 255; 255]) as [H _].
  - repeat (apply List.Forall_cons; [split; vm_compute; discriminate|]). constructor.
  - rewrite H. reflexivity.
Defined.

Section DnssecLemmas.
Context `{HN : HickoryNames} `{TEXT : !HickoryText} `{SIGN : !Signers}.

Lemma in_rrset_keys rs k : In k (rrset_keys rs) <-> exists r, In r (to_sign rs) /\ group_key r = k.
Proof.
  unfold rrset_keys. rewrite in_sort_with, <- list_elem_of_In, elem_of_remove_dups, list_elem_of_fmap.
  setoid_rewrite list_elem_of_In. split; intros (r & H1 & H2); exists r; auto.
Qed.

Lemma NoDup_rrset_keys rs : NoDup (rrset_keys rs).
Proof. unfold rrset_keys. rewrite sort_with_perm. apply NoDup_remove_dups. Qed.

(** signing keeps the records and appends signatures only: one per RRset (owner
    without case, and type) present, made over exactly the records of that set
    with the TTL of its first record, and none over signatures. *)
Theorem sign_records_cover z now rs :
  exists sigs, sign_records z now rs = rs ++ sigs /\
    Forall (fun s => rec_type s = RRSIG) sigs /\
    (length sigs <= length (remove_dups (group_key <$> to_sign rs)))%nat /\
    forall s, In s sigs <->
      exists r others, In r rs /\ rec_type r <> RRSIG /\
        List.filter (fun x => bool_decide (group_key x = group_key r)) (to_sign rs) = others /\
        match others with
        | r0 :: _ => sign_rrset z now (rec_name r0) (rec_type r) (rec_ttl r0) others = Some s
        | [] => False
        end.
Proof.
  exists (omap (sign_group z now rs) (rrset_keys rs)). split; [done|].
  assert (forall s, In s (omap (sign_group z now rs) (rrset_keys rs)) <->
    exists r, In r (to_sign rs) /\ sign_group z now rs (group_key r) = Some s) as Hin.
  { intros s. rewrite <- list_elem_of_In, list_elem_of_omap. setoid_rewrite list_elem_of_In.
    setoid_rewrite in_rrset_keys. split; [intros (k & (r & ? & <-) & ?); eauto|intros (r & ? & ?); eauto]. }
  split_and!.
  - apply List.Forall_forall. intros s Hs. apply Hin in Hs as (r & _ & Hs). unfold sign_group, sign_rrset in Hs.
    repeat case_hyp Hs; try done. by injection Hs as <-.
  - assert (forall l, (length (omap (sign_group z now rs) l) <= length l)%nat) as Hle.
    { induction l as [|k l IH]; [done|]. cbn. destruct (sign_group z now rs k); cbn; lia. }
    rewrite Hle. unfold rrset_keys. by rewrite (Permutation_length (sort_with_perm _ _)).
  - intros s. rewrite Hin. unfold to_sign at 1. setoid_rewrite filter_In. setoid_rewrite negb_true_iff.
    setoid_rewrite bool_decide_eq_false. unfold sign_group. split.
    + intros (r & [Hr Ht] & Hs). exists r, (rrset rs (group_key r)). split_and!; [done|done|done|].
      by destruct (rrset rs (group_key r)).
    + intros (r & others & Hr & Ht & <- & Hs). exists r. split; [done|]. unfold rrset.
      by destruct (List.filter _ (to_sign rs)).
Qed.
End DnssecLemmas.
