(* ===== verification/Store.v ===== *)
(** * The authoritative store ([src/store.rs])

    [build_from] turns the tables into the in-memory store; [lookup] answers a
    query from it.  A zone's records are a map from the owner's key (lower case,
    no final dot) to the records in load order.  The recursion of [chase] is the
    source's depth counter: at most nine turns. *)

From S2P Require Import Prelude Strs Net Geo External Models Db DbDns Dnssec.

Section Store.
Context `{NETS : IpNets} `{HN : HickoryNames} `{TEXT : !HickoryText} `{SIGN : !Signers}.

Record ViewMatch : Type := mkViewMatch {
  vm_id : Z; vm_name : string; vm_nets : list IpNet; vm_countries : list string;
  vm_continents : list string; vm_asns : list Z; vm_priority : Z }.

Definition view_matches (v : ViewMatch) (ip : IpAddr) (geo : ClientGeo) : bool :=
  existsb (fun n => ipnet_contains n ip) (vm_nets v)
  || match cg_country geo with
     | Some c => existsb (fun x => eq_ignore_ascii_case x c) (vm_countries v)
     | None => false
     end
  || match cg_continent geo with
     | Some c => existsb (fun x => eq_ignore_ascii_case x c) (vm_continents v)
     | None => false
     end
  || match cg_asn geo with
     | Some a => existsb (fun x => x =? a) (vm_asns v)
     | None => false
     end.

Record StoredRecord : Type := mkStoredRecord {
  sr_rtype : RecordType; sr_ttl : Z; sr_view_id : option Z; sr_rdata : RData }.

Record StoredZone : Type := mkStoredZone {
  sd_apex : Name; sd_label_count : Z; sd_soa : SOAData; sd_soa_ttl : Z;
  sd_records : gmap string (list StoredRecord); sd_signer : option ZoneSigner }.

Inductive Outcome : Type := Authoritative | NxDomain | NoData | NotAuthoritative.

Record LookupResult : Type := mkLookupResult {
  lr_answers : list DRecord; lr_authority : list DRecord; lr_rcode : ResponseCode;
  lr_outcome : Outcome; lr_view_name : option string }.

Record ZoneStore : Type := mkZoneStore { zs_views : list ViewMatch; zs_zones : list StoredZone }.

Definition name_key (n : Name) : string :=
  to_ascii_lowercase (trim_end_matches "."%char (Name_to_string n)).

Definition zone_count (s : ZoneStore) : Z := Z.of_nat (length (zs_zones s)).
Definition view_count (s : ZoneStore) : Z := Z.of_nat (length (zs_views s)).

(** ** Loading *)

(** The body of the loop over the views; a network that does not parse is skipped. *)
Definition load_view (v : View) : ViewMatch :=
  mkViewMatch (vw_id v) (vw_name v) (omap parse_ipnet (vw_networks v)) (vw_countries v)
    (vw_continents v) (vw_asns v) (vw_priority v).

(** The body of the loop over a zone's records. *)
Definition load_record (z : Zone) (m : gmap string (list StoredRecord)) (r : DnsRecord)
    : gmap string (list StoredRecord) :=
  if negb (dr_enabled r) then m
  else match parse_record_type (dr_rtype r) with
  | Err _ => m
  | Ok rtype =>
      match parse_rdata rtype (dr_data r) (zn_name z) with
      | Err _ => m
      | Ok rdata =>
          match record_fqdn_name (dr_name r) (zn_name z) with
          | Err _ => m
          | Ok n =>
              let key := name_key n in
              <[key := default [] (m !! key) ++
                 [mkStoredRecord rtype (default (zn_default_ttl z) (dr_ttl r)) (dr_view_id r) rdata]]> m
          end
      end
  end.

(** The body of the loop over the zones, for an enabled zone. *)
Definition load_zone (d : Db) (z : Zone) : option StoredZone :=
  if negb (zn_enabled z) then None
  else match record_fqdn_name "@" (zn_name z) with
  | Err _ => None
  | Ok apex =>
      let mname := match record_fqdn_name (trim_end_matches "."%char (so_primary_ns (zn_soa z))) "" with
                   | Ok n => n | Err _ => apex end in
      let rname := match soa_rname (so_admin_email (zn_soa z)) with Ok n => n | Err _ => apex end in
      let soa := mkSOA mname rname (zn_serial z) (so_refresh (zn_soa z)) (so_retry (zn_soa z))
                   (so_expire (zn_soa z)) (so_minimum (zn_soa z)) in
      let signer :=
        match snd (dnssec_config (zn_id z) d) with
        | Ok (Some (secret, nsec3, salt_hex, iterations)) =>
            let params := if nsec3 : bool then Some (mkNsec3Params (default [] (salt_hex ≫= hex_decode)) iterations)
                          else None in
            ZoneSigner_build apex (zn_default_ttl z) secret params
        | _ => None
        end in
      let records := match snd (list_records (zn_id z) d) with Ok rs => rs | Err _ => [] end in
      Some (mkStoredZone apex (num_labels apex) soa (Z.max (so_minimum (zn_soa z)) 1)
              (fold_left (load_record z) records ∅) signer)
  end.

Definition build_from (d : Db) : ZoneStore :=
  let views := match snd (list_views d) with Ok vs => vs | Err _ => [] end in
  let zones := match snd (list_zones d) with Ok zs => zs | Err _ => [] end in
  mkZoneStore (sort_by_key vm_priority (load_view <$> views))
              (sort_by_key (fun z => - sd_label_count z) (omap (load_zone d) zones)).

(** ** Lookup *)

Definition view_for (s : ZoneStore) (ip : IpAddr) (geo : ClientGeo) : option (Z * string) :=
  (fun v => (vm_id v, vm_name v)) <$> List.find (fun v => view_matches v ip geo) (zs_views s).

Definition zone_for (s : ZoneStore) (qname : Name) : option StoredZone :=
  List.find (fun z => zone_of (sd_apex z) qname) (zs_zones s).

Definition resolve (recs : list StoredRecord) (view_id : Z) (rtype : RecordType) : list StoredRecord :=
  let specific := List.filter (fun r => bool_decide (sr_rtype r = rtype) &&
                                        bool_decide (sr_view_id r = Some view_id)) recs in
  match specific with
  | _ :: _ => specific
  | [] => List.filter (fun r => bool_decide (sr_rtype r = rtype) && bool_decide (sr_view_id r = None)) recs
  end.

(** The wildcard names tried for a key: [*.rest] for each proper suffix, longest first. *)
Fixpoint wildcards (labels : list string) : list string :=
  match labels with
  | [] => []
  | _ :: rest =>
      match rest with
      | [] => []
      | _ => ("*." +:+ join "." rest) :: wildcards rest
      end
  end.

Fixpoint first_present (m : gmap string (list StoredRecord)) (keys : list string) : option (list StoredRecord) :=
  match keys with
  | [] => None
  | k :: ks => match m !! k with Some v => Some v | None => first_present m ks end
  end.

Definition records_at (z : StoredZone) (key : string) : option (list StoredRecord) :=
  match sd_records z !! key with
  | Some v => Some v
  | None => first_present (sd_records z) (wildcards (split "."%char key))
  end.

Definition ok_result (answers : list DRecord) (view_name : option string) : LookupResult :=
  mkLookupResult answers [] NoError Authoritative view_name.
Definition nodata (soa : DRecord) (view_name : option string) : LookupResult :=
  mkLookupResult [] [soa] NoError NoData view_name.

Definition soa_record (z : StoredZone) : DRecord := mkRecord (sd_apex z) (sd_soa_ttl z) (RD_SOA (sd_soa z)).

(** [Record::from_rdata(owner.clone(), r.ttl, r.rdata.clone())]. *)
Definition emit (owner : Name) (rs : list StoredRecord) : list DRecord :=
  (fun r => mkRecord owner (sr_ttl r) (sr_rdata r)) <$> rs.

(** The [BTreeSet] of the types at a name, in order. *)
Definition types_of (recs : list StoredRecord) : list RecordType :=
  sort_by_key RecordType_code (remove_dups (sr_rtype <$> recs)).

(** The last CNAME target of the records. *)
Definition last_target (rs : list StoredRecord) : option Name :=
  fold_left (fun t r => match sr_rdata r with RD_CNAME n => Some n | _ => t end) rs None.

(** The [loop]; [n] is how many more times it may go round. *)
Fixpoint chase (n : nat) (z : StoredZone) (view_id : Z) (qtype : RecordType) (current : Name)
    (cnames : list StoredRecord) : list DRecord :=
  emit current cnames ++
  match last_target cnames with
  | None => []
  | Some target =>
      match n with
      | O => []
      | S n' =>
          if negb (zone_of (sd_apex z) target) then []
          else match records_at z (name_key target) with
          | None => []
          | Some trecs =>
              match resolve trecs view_id qtype with
              | [] =>
                  match resolve trecs view_id CNAME with
                  | [] => []
                  | nextc => chase n' z view_id qtype target nextc
                  end
              | direct => emit target direct
              end
          end
      end
  end.

Definition NO_VIEW : Z := i64_min.

Definition lookup (s : ZoneStore) (qname : Name) (qtype : RecordType) (client : IpAddr) (geo : ClientGeo)
    : LookupResult :=
  let '(view_id, view_name) :=
    match view_for s client geo with Some (id, name) => (id, Some name) | None => (NO_VIEW, None) end in
  match zone_for s qname with
  | None => mkLookupResult [] [] NoError NotAuthoritative view_name
  | Some zone =>
      let soa := soa_record zone in
      if bool_decide (qtype = SOA) && bool_decide (name_key qname = name_key (sd_apex zone)) then
        ok_result [soa] view_name
      else
        match records_at zone (name_key qname) with
        | None => mkLookupResult [] [soa] NXDomain NxDomain view_name
        | Some recs =>
            if bool_decide (qtype = ANY) then
              match concat ((fun t => emit qname (resolve recs view_id t)) <$> types_of recs) with
              | [] => nodata soa view_name
              | answers => ok_result answers view_name
              end
            else
              match resolve recs view_id qtype with
              | [] =>
                  match resolve recs view_id CNAME with
                  | [] => nodata soa view_name
                  | cnames => ok_result (chase 8 zone view_id qtype qname cnames) view_name
                  end
              | direct => ok_result (emit qname direct) view_name
              end
        end
  end.

(** ** Zone transfers and DNSSEC helpers *)

Definition axfr (s : ZoneStore) (qname : Name) (client : IpAddr) : option (list DRecord) :=
  let! zone := List.find (fun z => bool_decide (name_key (sd_apex z) = name_key qname)) (zs_zones s) in
  let view_id := match view_for s client ClientGeo_default with Some (id, _) => id | None => NO_VIEW end in
  let soa := soa_record zone in
  let body := concat ((fun '(key, recs) =>
    match Name_from_utf8 (key +:+ ".") with
    | None => []
    | Some owner => concat ((fun t => emit owner (resolve recs view_id t)) <$> types_of recs)
    end) <$> map_to_list (sd_records zone)) in
  Some (soa :: body ++ [soa]).

Definition signer_for (s : ZoneStore) (qname : Name) : option ZoneSigner := zone_for s qname ≫= sd_signer.

Definition present_types (s : ZoneStore) (qname : Name) : list RecordType :=
  match zone_for s qname with
  | None => []
  | Some zone => match records_at zone (name_key qname) with Some recs => types_of recs | None => [] end
  end.
End Store.

Section StoreLemmas.
Context `{NETS : IpNets} `{HN : HickoryNames} `{TEXT : !HickoryText} `{SIGN : !Signers}.

(** ** Split horizon *)

(** What a client of a view may see at a name: the view's records of a type, or
    the ones without a view when the view has none of that type. *)
Definition visible (recs : list StoredRecord) (view_id : Z) (r : StoredRecord) : Prop :=
  In r recs /\
  (sr_view_id r = Some view_id \/
   (sr_view_id r = None /\ forall x, In x recs -> sr_rtype x = sr_rtype r -> sr_view_id x <> Some view_id)).

Lemma resolve_spec recs view_id t r :
  In r (resolve recs view_id t) <-> sr_rtype r = t /\ visible recs view_id r.
Proof.
  unfold resolve, visible. destruct (List.filter _ recs) as [|x xs] eqn:E.
  - assert (forall y, In y recs -> sr_rtype y = t -> sr_view_id y <> Some view_id) as Hno.
    { intros y Hy Ht Hv. assert (In y []) as []. rewrite <- E. apply filter_In. split; [done|].
      by rewrite !bool_decide_eq_true_2. }
    rewrite filter_In, andb_true_iff, !bool_decide_eq_true. split.
    + intros (? & ? & ?). subst. auto.
    + intros (<- & ? & [Hv|[Hv _]]); [by destruct (Hno r)|auto].
  - rewrite <- E, filter_In, andb_true_iff, !bool_decide_eq_true. split.
    + intros (? & ? & ?). auto.
    + intros (<- & ? & [Hv|[Hv Hno]]); [auto|]. exfalso.
      assert (In x (x :: xs)) as Hx by by left. rewrite <- E in Hx. apply filter_In in Hx as [Hx Hp]. breflect.
      by apply (Hno x).
Qed.

Lemma in_emit owner rs r :
  In r (emit owner rs) <-> exists x, In x rs /\ r = mkRecord owner (sr_ttl x) (sr_rdata x).
Proof. unfold emit. setoid_rewrite in_map_iff. split; intros (x & H1 & H2); exists x; auto. Qed.

Lemma first_present_in m keys v : first_present m keys = Some v -> exists k, In k keys /\ m !! k = Some v.
Proof.
  induction keys as [|k ks IH]; [done|]. cbn. destruct (m !! k) eqn:E.
  - intros [= <-]. exists k. auto.
  - intros H. destruct (IH H) as (k' & ? & ?). exists k'. auto.
Qed.

Lemma records_at_in z key recs : records_at z key = Some recs -> exists k, sd_records z !! k = Some recs.
Proof.
  unfold records_at. destruct (sd_records z !! key) eqn:E; [intros [= <-]; eauto|].
  intros H. apply first_present_in in H as (k & _ & Hk). eauto.
Qed.

(** An answer record taken from the zone's records visible in the view. *)
Definition from_view (z : StoredZone) (view_id : Z) (r : DRecord) : Prop :=
  exists key recs x, sd_records z !! key = Some recs /\ visible recs view_id x /\
    rec_ttl r = sr_ttl x /\ rec_data r = sr_rdata x.

Lemma emit_from_view z view_id owner key recs t r :
  records_at z key = Some recs -> In r (emit owner (resolve recs view_id t)) -> from_view z view_id r.
Proof.
  intros Hk Hin. apply records_at_in in Hk as [k Hk]. apply in_emit in Hin as (x & Hx & ->).
  apply resolve_spec in Hx as [_ Hx]. exists k, recs, x. auto.
Qed.

Lemma chase_from_view n z view_id qtype current key recs r :
  records_at z key = Some recs ->
  In r (chase n z view_id qtype current (resolve recs view_id CNAME)) -> from_view z view_id r.
Proof.
  revert current key recs. induction n as [|n IH]; intros current key recs Hk Hin; cbn [chase] in Hin;
    apply in_app_iff in Hin as [Hin|Hin]; try (by eapply emit_from_view);
    destruct (last_target _) as [target|]; try done.
  destruct (negb _); [done|]. destruct (records_at z (name_key target)) as [trecs|] eqn:Et; [|done].
  destruct (resolve trecs view_id qtype) as [|x xs] eqn:Ed.
  - destruct (resolve trecs view_id CNAME) as [|y ys] eqn:Ec; [done|].
    rewrite <- Ec in Hin. by eapply IH.
  - rewrite <- Ed in Hin. by eapply emit_from_view.
Qed.

(** The client's view identifier, as [lookup] picks it. *)
Definition client_view (s : ZoneStore) (client : IpAddr) (geo : ClientGeo) : Z :=
  match view_for s client geo with Some (id, _) => id | None => NO_VIEW end.

Lemma types_of_in recs t : In t (types_of recs) <-> exists r, In r recs /\ sr_rtype r = t.
Proof.
  unfold types_of. rewrite <- list_elem_of_In, sort_by_key_perm, elem_of_remove_dups, list_elem_of_fmap.
  setoid_rewrite list_elem_of_In. split; intros (r & H1 & H2); exists r; auto.
Qed.

(** A lookup is not authoritative exactly when no zone covers the name. *)
Lemma lookup_not_authoritative s qname qtype client geo :
  lr_outcome (lookup s qname qtype client geo) = NotAuthoritative <-> zone_for s qname = None.
Proof.
  unfold lookup.
  destruct (match view_for s client geo with Some (id, name) => (id, Some name) | None => (NO_VIEW, None) end) as [vid vn].
  destruct (zone_for s qname) as [z|]; [|done]. cbv zeta. split; [|done].
  destruct (_ && _); [done|]. destruct (records_at _ _); [|done]. destruct (bool_decide (qtype = ANY)).
  - by destruct (concat _).
  - destruct (resolve _ _ qtype); [|done]. by destruct (resolve _ _ CNAME).
Qed.

Lemma lookup_nx_rcode s qname qtype client geo :
  lr_outcome (lookup s qname qtype client geo) = NxDomain -> lr_rcode (lookup s qname qtype client geo) = NXDomain.
Proof.
  unfold lookup.
  destruct (match view_for s client geo with Some (id, name) => (id, Some name) | None => (NO_VIEW, None) end) as [vid vn].
  destruct (zone_for s qname) as [z|]; [|done]. cbv zeta.
  destruct (_ && _); [done|]. destruct (records_at _ _); [|done]. destruct (bool_decide (qtype = ANY)).
  - by destruct (concat _).
  - destruct (resolve _ _ qtype); [|done]. by destruct (resolve _ _ CNAME).
Qed.

(** ** The records loaded *)

(** The store entry of a database record, if it is served. *)
Definition record_entry (z : Zone) (r : DnsRecord) : option (string * StoredRecord) :=
  if negb (dr_enabled r) then None
  else
    let! rtype := ok (parse_record_type (dr_rtype r)) in
    let! rdata := ok (parse_rdata rtype (dr_data r) (zn_name z)) in
    let! n := ok (record_fqdn_name (dr_name r) (zn_name z)) in
    Some (name_key n, mkStoredRecord rtype (default (zn_default_ttl z) (dr_ttl r)) (dr_view_id r) rdata).

Lemma load_record_entry z m r :
  load_record z m r =
  match record_entry z r with
  | Some (k, x) => <[k := default [] (m !! k) ++ [x]]> m
  | None => m
  end.
Proof.
  unfold load_record, record_entry. destruct (negb _); [done|].
  destruct (parse_record_type _); [|done]. cbn [ok]. destruct (parse_rdata _ _ _); [|done]. cbn [ok].
  destruct (record_fqdn_name _ _); done.
Qed.

Lemma load_records_spec z rs m k :
  default [] (fold_left (load_record z) rs m !! k) =
  default [] (m !! k) ++ (snd <$> List.filter (fun e => bool_decide (fst e = k)) (omap (record_entry z) rs)).
Proof.
  revert m. induction rs as [|r rs IH]; intros m; cbn [fold_left]; [by rewrite app_nil_r|].
  rewrite IH, load_record_entry. cbn [omap list_omap]. destruct (record_entry z r) as [[k' x]|]; [|done].
  cbn [List.filter fst]. case_bool_decide as Hk.
  - subst k'. rewrite lookup_insert_eq. exact (eq_sym (app_assoc (default [] (m !! k)) [x] _)).
  - by rewrite lookup_insert_ne.
Qed.

(** ** Properties *)

(** C13: split horizon: every answer of a lookup is the zone's SOA or a record the
    client's view may see, taken from the records of the zone that covers the
    name; a record of another view, or a general record the view overrides, is
    never served. *)
Theorem lookup_no_leak s qname qtype client geo r :
  In r (lr_answers (lookup s qname qtype client geo)) ->
  exists z, zone_for s qname = Some z /\ (r = soa_record z \/ from_view z (client_view s client geo) r).
Proof.
  unfold lookup, client_view.
  destruct (match view_for s client geo with Some (id, name) => (id, Some name) | None => (NO_VIEW, None) end)
    as [vid vname] eqn:Ev.
  assert ((match view_for s client geo with Some (id, _) => id | None => NO_VIEW end) = vid) as ->.
  { destruct (view_for s client geo) as [[? ?]|]; congruence. }
  destruct (zone_for s qname) as [z|]; [|done]. cbv zeta. intros Hin. exists z. split; [done|].
  destruct (bool_decide (qtype = SOA) && _); [left; by destruct Hin as [<-|[]]|right].
  destruct (records_at z (name_key qname)) as [recs|] eqn:Er; [|done].
  destruct (bool_decide (qtype = ANY)).
  - set (l := concat _) in Hin. assert (In r l) as Hl by (by destruct l).
    apply in_concat in Hl as (l' & Hl' & Hr). apply in_map_iff in Hl' as (t & <- & _). by eapply emit_from_view.
  - destruct (resolve recs vid qtype) as [|x xs] eqn:Ed.
    + destruct (resolve recs vid CNAME) as [|y ys] eqn:Ec; [done|]. cbn [lr_answers ok_result] in Hin.
      rewrite <- Ec in Hin. by eapply chase_from_view.
    + cbn [lr_answers ok_result] in Hin. rewrite <- Ed in Hin. by eapply emit_from_view.
Qed.

(** what each outcome of a lookup means: not authoritative when no zone covers the
    name; NXDOMAIN when the zone has neither the name nor a wildcard for it,
    proved by the zone's SOA; NODATA with the SOA; otherwise at least one
    answer. *)
Theorem lookup_outcome s qname qtype client geo :
  let r := lookup s qname qtype client geo in
  match lr_outcome r with
  | NotAuthoritative => zone_for s qname = None /\ lr_answers r = [] /\ lr_authority r = [] /\ lr_rcode r = NoError
  | NxDomain => exists z, zone_for s qname = Some z /\ records_at z (name_key qname) = None /\
      lr_answers r = [] /\ lr_authority r = [soa_record z] /\ lr_rcode r = NXDomain
  | NoData => exists z, zone_for s qname = Some z /\ records_at z (name_key qname) <> None /\
      lr_answers r = [] /\ lr_authority r = [soa_record z] /\ lr_rcode r = NoError
  | Authoritative => zone_for s qname <> None /\ lr_answers r <> [] /\ lr_authority r = [] /\ lr_rcode r = NoError
  end.
Proof.
  cbv zeta. unfold lookup.
  destruct (match view_for s client geo with Some (id, name) => (id, Some name) | None => (NO_VIEW, None) end)
    as [vid vname].
  destruct (zone_for s qname) as [z|]; [|done]. cbv zeta. destruct (bool_decide (qtype = SOA) && _); [done|].
  destruct (records_at z (name_key qname)) as [recs|] eqn:Er; [|by exists z].
  assert (exists z0, Some z = Some z0 /\ records_at z0 (name_key qname) <> None /\ [] = @nil DRecord /\
            [soa_record z] = [soa_record z0] /\ NoError = NoError) as Hnd.
  { exists z. rewrite Er. done. }
  destruct (bool_decide (qtype = ANY)); [by destruct (concat _)|].
  destruct (resolve recs vid qtype) as [|x xs]; [|done].
  by destruct (resolve recs vid CNAME).
Qed.

(** the store built from a database answers from the covering zone with the most
    labels. *)
Theorem zone_for_longest d qname z z' :
  zone_for (build_from d) qname = Some z -> In z' (zs_zones (build_from d)) ->
  zone_of (sd_apex z') qname = true -> sd_label_count z' <= sd_label_count z.
Proof.
  intros Hf Hin Hz. unfold zone_for in Hf.
  enough (- sd_label_count z <= - sd_label_count z') by lia.
  eapply (find_sorted_least (fun z => - sd_label_count z)); [|exact Hf|exact Hin|exact Hz].
  unfold build_from. cbn [zs_zones]. apply sort_by_key_sorted.
Qed.

(** A zone transfer is bracketed by the zone's SOA, and between the two it carries
    exactly the records the client's view may see at the owners of the zone. *)
Theorem axfr_stream s qname client out :
  axfr s qname client = Some out ->
  exists z body, In z (zs_zones s) /\ name_key (sd_apex z) = name_key qname /\
    out = soa_record z :: body ++ [soa_record z] /\
    forall r, In r body <->
      exists key recs owner x, sd_records z !! key = Some recs /\ Name_from_utf8 (key +:+ ".") = Some owner /\
        visible recs (client_view s client ClientGeo_default) x /\ r = mkRecord owner (sr_ttl x) (sr_rdata x).
Proof.
  unfold axfr. destruct (List.find _ _) as [z|] eqn:Ez; [|done].
  apply List.find_some in Ez as [Hz Hk]. breflect. cbv zeta.
  fold (client_view s client ClientGeo_default). generalize (client_view s client ClientGeo_default). intros vid.
  intros [= <-]. eexists z, _. split; [done|]. split; [done|]. split; [reflexivity|]. intros r.
  rewrite in_concat. setoid_rewrite in_map_iff. split.
  - intros (l & ([key recs] & <- & Hin) & Hr). destruct (Name_from_utf8 (key +:+ ".")) as [owner|] eqn:Eo; [|done].
    apply in_concat in Hr as (l' & Hl' & Hr). apply in_map_iff in Hl' as (t & <- & _).
    apply in_emit in Hr as (x & Hx & ->). apply resolve_spec in Hx as [_ Hx].
    exists key, recs, owner, x. split; [|auto]. by apply elem_of_map_to_list, list_elem_of_In.
  - intros (key & recs & owner & x & Hm & Ho & Hv & ->). eexists. split.
    + exists (key, recs). split; [reflexivity|]. by apply list_elem_of_In, elem_of_map_to_list.
    + cbn. rewrite Ho. apply in_concat. exists (emit owner (resolve recs vid (sr_rtype x))). split.
      * apply in_map_iff. exists (sr_rtype x). split; [done|]. apply types_of_in. exists x. split; [apply Hv|done].
      * apply in_emit. exists x. split; [|done]. by apply resolve_spec.
Qed.

(** C33: loading a zone keeps exactly the enabled records whose type, data and owner
    parse, under their owner's key and in database order. *)
Theorem store_load d z sz :
  load_zone d z = Some sz ->
  zn_enabled z = true /\
  forall k, default [] (sd_records sz !! k) =
    snd <$> List.filter (fun e => bool_decide (fst e = k))
              (omap (record_entry z) (match snd (list_records (zn_id z) d) with Ok rs => rs | Err _ => [] end)).
Proof.
  unfold load_zone. destruct (zn_enabled z); cbn [negb]; [|done]. destruct (record_fqdn_name _ _); [|done].
  cbv zeta. intros [= <-]. split; [done|]. intros k. cbn [sd_records]. rewrite load_records_spec.
  by rewrite lookup_empty.
Qed.

(** a CNAME chain is followed through at most nine names: if no owner has more than
    [b] records of a type, the chain adds at most [9 * b] answers. *)
Theorem chase_bounded z view_id qtype qname recs b :
  (forall key rs t, sd_records z !! key = Some rs -> (length (resolve rs view_id t) <= b)%nat) ->
  (length (resolve recs view_id CNAME) <= b)%nat ->
  (length (chase 8 z view_id qtype qname (resolve recs view_id CNAME)) <= 9 * b)%nat.
Proof.
  intros Hb Hr. assert (forall n current cs, (length cs <= b)%nat ->
    (length (chase n z view_id qtype current cs) <= (n + 1) * b)%nat) as H; [|by apply (H 8%nat)].
  induction n as [|n IH]; intros current cs Hcs; cbn [chase]; rewrite length_app; unfold emit at 1; rewrite length_fmap;
    destruct (last_target cs) as [target|]; cbn [length]; try lia.
  destruct (negb _); cbn [length]; [lia|].
  destruct (records_at z (name_key target)) as [trecs|] eqn:Et; cbn [length]; [|lia].
  apply records_at_in in Et as [k Hk].
  destruct (resolve trecs view_id qtype) as [|x xs] eqn:Ed.
  - destruct (resolve trecs view_id CNAME) as [|y ys] eqn:Ec; cbn [length]; [lia|].
    specialize (IH target (y :: ys)). rewrite <- Ec in IH at 1. specialize (IH (Hb _ _ CNAME Hk)). lia.
  - pose proof (Hb _ _ qtype Hk) as Hq. rewrite Ed in Hq. unfold emit. rewrite length_fmap. lia.
Qed.
End StoreLemmas.
