(* ===== verification/DhcpDns.v ===== *)
(** * From a DHCP grant to a DNS answer

    The DHCP server rebuilds the authoritative store through the interface
    [StoreLoad]; here that interface is the store of [Store].  The theorem follows
    one REQUEST through both halves of the program: the acknowledged address is
    what the store answers for the client's name. *)

From S2P Require Import Prelude Strs Net Geo External Instances Models DhcpOptions Dhcp4 Lease Db DbDhcp DbDns DhcpServer.
From S2P Require Import Dnssec Store.

(** [ZoneStore::load]: the statements of the loading cannot fail. *)
Definition load_zones `{IpNets} `{HickoryNames} `{!HickoryText} `{!Signers} (d : Db) : result ZoneStore DbError :=
  Ok (build_from d).
#[export] Instance zone_store `{IpNets} `{HickoryNames} `{!HickoryText} `{!Signers} : StoreLoad | 0 :=
  {| ZStore := ZoneStore; load_store := load_zones |}.

(** What hickory documents of addresses: the type's mnemonic is [A], and the data of
    an [A] record is the dotted quad. *)
Class AddressText `{HickoryNames} `{!HickoryText} : Prop := {
  type_of_A : RecordType_from_str "A" = Some A;
  data_of_A a : is_u32 a -> RData_try_from_str A (show_v4 a) = Some (RD_A a);
}.

#[export] Instance simple_address : AddressText.
Proof. split; [done|]. intros a Ha.
  change (RD_A <$> parse_v4 (show_v4 a) = Some (RD_A a)). by rewrite parse_v4_show.
Qed.

Section Registration.
Context `{NETS : IpNets} `{HN : HickoryNames} `{TEXT : !HickoryText} `{SIGN : !Signers} `{TIME : Rfc3339}
  `{ADDR : !AddressText}.

(** ** What the store has of a record row *)

Lemma in_zone_records d zid zr r :
  dns_ok d -> In zr (zones d) -> zr_id zr = zid -> In r (records d) -> rr_zone_id r = zid ->
  exists rs, snd (list_records zid d) = Ok rs /\ In (record_from r (zr_name zr)) rs.
Proof.
  intros Hd Hz Hid Hr Hrz. unfold list_records, zone_name_of, bind.
  rewrite (find_unique zr_id _ (zones d) zr).
  2: { intros x. rewrite Hid. apply eqb_bool_decide. }
  2: { apply Hd. }
  2: done.
  eexists. split; [reflexivity|]. apply in_map_iff. exists r. split; [done|]. apply in_sort_with, filter_In. split; [done|]. by apply Z.eqb_eq.
Qed.

(** The row a registration leaves behind; a row that was there is enabled and
    spelled as registrations spell it. *)
Definition fresh_or_plain (d : Db) (fqdn : string) (ip : IpAddr) (rel : string) : Prop :=
  forall r, dyn_record d fqdn ip None = Some r -> rr_enabled r = true /\ rr_name r = rel.

Lemma bumped_row ts id zs z : In z zs -> exists z', In z' (bumped ts id zs) /\ zr_id z' = zr_id z /\
  zr_name z' = zr_name z /\ zr_enabled z' = zr_enabled z.
Proof.
  intros Hz. unfold bumped, update_where. eexists. split; [apply in_map, Hz|]. cbn. by destruct (_ =? _).
Qed.

Lemma dyndns_row ts fqdn ip ttl d zr zname :
  dns_ok d -> In zr (zones d) -> dyn_zone d fqdn = Some (zr_id zr, zname) ->
  fresh_or_plain d fqdn ip (relative_name (dyn_host fqdn) zname) ->
  exists d' u r zr', dyndns_set_address ts fqdn ip None ttl d = (d', Ok u) /\
    In r (records d') /\ rr_zone_id r = zr_id zr /\ rr_name r = relative_name (dyn_host fqdn) zname /\
    rr_rtype r = dyn_type ip /\ rr_view_id r = None /\ rr_data r = show_ip ip /\ rr_enabled r = true /\
    In zr' (zones d') /\ zr_id zr' = zr_id zr /\ zr_name zr' = zr_name zr /\ zr_enabled zr' = zr_enabled zr.
Proof.
  intros Hd Hz Ez Hpl. rewrite dyndns_eq by done. rewrite Ez.
  destruct (dyn_record d fqdn ip None) as [r|] eqn:Er.
  - destruct (Hpl r Er) as [He Hn]. unfold dyn_record in Er. rewrite Ez in Er. cbn [mbind option_bind fst snd] in Er.
    apply List.find_some in Er as [Hin Hp]. unfold dyn_row in Hp. breflect.
    case_bool_decide as Hdata; [by exists d, Unchanged, r, zr|].
    destruct (bumped_row ts (rr_zone_id r) _ _ Hz) as (z' & ? & ? & ? & ?).
    do 2 eexists. exists (set_data ts (show_ip ip) r), z'. split; [reflexivity|]. cbn.
    split; [|by auto]. apply in_update_where. exists r. by rewrite Z.eqb_refl.
  - assert (zone_exists d (zr_id zr) = true) as ->.
    { apply existsb_exists. exists zr. split; [done|]. apply Z.eqb_refl. }
    destruct (bumped_row ts (zr_id zr) _ _ Hz) as (z' & ? & ? & ? & ?). cbn [view_exists negb orb].
    do 4 eexists. split; [reflexivity|]. cbn. split; [apply in_app_iff; right; by left|]. by auto 8.
Qed.

(** The TTL of a row in its zone. *)
Definition row_ttl (zr : ZoneRow) (r : RecordRow) : Z :=
  default (as_u32 (zr_default_ttl zr)) (as_u32 <$> rr_ttl r).

Lemma address_entry d zr r yi n :
  is_u32 yi -> rr_enabled r = true -> rr_rtype r = "A" -> rr_data r = show_v4 yi -> rr_view_id r = None ->
  record_fqdn_name (rr_name r) (zr_name zr) = Ok n ->
  record_entry (into_zone d zr) (record_from r (zr_name zr)) =
  Some (name_key n, mkStoredRecord A (row_ttl zr r) None (RD_A yi)).
Proof.
  intros Hu Hre Ht Hdata Hv Hn. unfold record_entry, record_from.
  cbn [dr_enabled dr_rtype dr_data dr_name dr_ttl dr_view_id into_zone zn_name zn_default_ttl].
  rewrite Hre, Ht, Hdata, Hv, Hn. change (parse_record_type "A") with (ok_or (RecordType_from_str "A") (InvalidRecordType "A")).
  rewrite type_of_A. cbn [negb ok_or ok mbind option_bind]. unfold parse_rdata. cbn [prequalify_data].
  by rewrite data_of_A.
Qed.

(** The store built from a database serves an enabled address row of an enabled zone. *)
Lemma stored_address d zr r yi apex n :
  dns_ok d -> In zr (zones d) -> zr_enabled zr = true -> record_fqdn_name "@" (zr_name zr) = Ok apex ->
  In r (records d) -> rr_zone_id r = zr_id zr ->
  record_entry (into_zone d zr) (record_from r (zr_name zr)) =
    Some (name_key n, mkStoredRecord A (row_ttl zr r) None (RD_A yi)) ->
  exists sz, In sz (zs_zones (build_from d)) /\ sd_apex sz = apex /\
    In (mkStoredRecord A (row_ttl zr r) None (RD_A yi)) (default [] (sd_records sz !! name_key n)).
Proof.
  intros Hd Hz He Hapex Hr Hrz Hent.
  assert (exists sz, load_zone d (into_zone d zr) = Some sz /\ sd_apex sz = apex /\
    sd_records sz = fold_left (load_record (into_zone d zr))
      (match snd (list_records (zr_id zr) d) with Ok rs => rs | Err _ => [] end) ∅) as (sz & El & Ha & Hrec).
  { unfold load_zone. cbn [into_zone zn_enabled zn_name zn_id]. rewrite He, Hapex. cbv zeta. cbn [negb]. by eexists. }
  exists sz. split; [|split; [done|]].
  - unfold build_from. cbn [zs_zones list_zones query snd]. rewrite <- list_elem_of_In, sort_by_key_perm.
    apply list_elem_of_omap. exists (into_zone d zr). split; [|done].
    apply list_elem_of_In, in_sort_with, list_elem_of_In. apply list_elem_of_fmap_2. by apply list_elem_of_In.
  - rewrite Hrec, load_records_spec, lookup_empty. cbn [default from_option app].
    destruct (in_zone_records d (zr_id zr) zr r) as (rs & -> & Hin); try done.
    apply list_elem_of_In, list_elem_of_fmap. exists (name_key n, mkStoredRecord A (row_ttl zr r) None (RD_A yi)).
    split; [done|]. apply list_elem_of_In, filter_In. split; [|by apply bool_decide_eq_true_2].
    apply list_elem_of_In, list_elem_of_omap. exists (record_from r (zr_name zr)).
    split; [by apply list_elem_of_In|done].
Qed.

(** A record for every view is answered to a client whose view has none of its own. *)
Lemma lookup_general s sz n x client geo :
  zone_for s n = Some sz -> In x (default [] (sd_records sz !! name_key n)) ->
  sr_rtype x = A -> sr_view_id x = None ->
  (forall y, In y (default [] (sd_records sz !! name_key n)) -> sr_rtype y = A ->
             sr_view_id y <> Some (client_view s client geo)) ->
  lr_outcome (lookup s n A client geo) = Authoritative /\
  In (mkRecord n (sr_ttl x) (sr_rdata x)) (lr_answers (lookup s n A client geo)).
Proof.
  intros Hz Hx Ht Hv Hno. set (vid := client_view s client geo) in *.
  assert (exists vname, match view_for s client geo with Some (id, name) => (id, Some name) | None => (NO_VIEW, None) end
                        = (vid, vname)) as [vname Ev].
  { unfold vid, client_view. destruct (view_for s client geo) as [[]|]; eauto. }
  assert (In x (resolve (default [] (sd_records sz !! name_key n)) vid A)) as Hin.
  { apply resolve_spec. split; [done|]. split; [done|]. right. split; [done|]. rewrite Ht. apply Hno. }
  unfold lookup. rewrite Ev, Hz. rewrite bool_decide_eq_false_2 by done. cbn [andb].
  unfold records_at. destruct (sd_records sz !! name_key n) as [recs|] eqn:Er; [|by destruct Hx].
  change (default [] (Some recs)) with recs in *.
  rewrite bool_decide_eq_false_2 by done. destruct (resolve recs vid A) as [|y ys] eqn:Eres; [done|].
  split; [done|]. apply in_emit. by exists x.
Qed.

(** ** Through the handler *)

Definition same_dns (d d' : Db) : Prop := zones d' = zones d /\ records d' = records d /\ views d' = views d.

Lemma persist_same_dns d ts scope ip cid h s e st : preserves (same_dns d) (persist_v4_lease ts scope ip cid h s e st).
Proof.
  intros d0 Hd0. unfold persist_v4_lease, upsert_dhcp_lease, bind, ret, fail.
  destruct (List.find _ _); [done|]. by destruct (scope_exists _ _).
Qed.

Lemma same_dns_ok d d' : same_dns d d' -> dns_ok d -> dns_ok d'.
Proof. intros (Hz & Hr & Hv) []. constructor; by rewrite ?Hz, ?Hr, ?Hv. Qed.

Lemma same_dns_zone d d' fqdn : same_dns d d' -> dyn_zone d' fqdn = dyn_zone d fqdn.
Proof. intros (Hz & _). unfold dyn_zone. apply best_zone_list. by rewrite Hz. Qed.

Lemma same_dns_plain d d' fqdn ip rel :
  same_dns d d' -> fresh_or_plain d fqdn ip rel -> fresh_or_plain d' fqdn ip rel.
Proof.
  intros Hs Hp r. unfold dyn_record. rewrite (same_dns_zone _ _ _ Hs). destruct Hs as (_ & -> & _). apply Hp.
Qed.

Lemma register_dns_store ts scope ip hostname host zone a d' u :
  sc_dns_register scope = true -> sc_dns_zone scope = Some zone -> hostname ≫= sanitize_label = Some host ->
  dyndns_set_address ts (host +:+ "." +:+ zone) ip None (Z.max (sc_lease_secs scope) 60) (as_db a) = (d', Ok u) ->
  as_store (register_dns ts scope ip hostname a) = build_from d'.
Proof.
  intros H1 H2 H3 H4. unfold register_dns. rewrite H1, H2, H3. cbn [negb]. cbv zeta. unfold run_db at 1. rewrite H4.
  unfold run_db. by destruct (register_ptr _ _ _ _ _).
Qed.

(** The client's name can be registered: the scope registers names, [fqdn] is the
    client's name in the scope's zone, [zr] is the zone that covers it, enabled and
    with an apex that parses, [n] is the owner, and a row already there is enabled
    and in lower case. *)
Record registrable (d : Db) (scope : DhcpScope) (msg : Dhcp4Message) (yi : Z) (zr : ZoneRow)
    (apex n : Name) : Prop := mkRegistrable {
  rg_on : sc_dns_register scope = true;
  rg_names : exists host zone zname, let fqdn := host +:+ "." +:+ zone in
    sc_dns_zone scope = Some zone /\ Dhcp4.hostname msg ≫= sanitize_label = Some host /\
    dyn_zone d fqdn = Some (zr_id zr, zname) /\
    record_fqdn_name (relative_name (dyn_host fqdn) zname) (zr_name zr) = Ok n /\
    fresh_or_plain d fqdn (V4 yi) (relative_name (dyn_host fqdn) zname);
  rg_zone : In zr (zones d);
  rg_zone_on : zr_enabled zr = true;
  rg_apex : record_fqdn_name "@" (zr_name zr) = Ok apex }.

Lemma registrable_same d d' scope msg yi zr apex n :
  same_dns d d' -> registrable d scope msg yi zr apex n -> registrable d' scope msg yi zr apex n.
Proof.
  intros Hs [H1 (host & zone & zname & H2 & H3 & H4 & H5 & H6) H7 H8 H9]. constructor; [done| |by rewrite (proj1 Hs)|done..].
  exists host, zone, zname. cbv zeta in *. rewrite (same_dns_zone _ _ _ Hs). split_and!; try done.
  by eapply same_dns_plain.
Qed.

Lemma register_dns_answer ts scope msg yi zr apex n a :
  dns_ok (as_db a) -> is_u32 yi -> registrable (as_db a) scope msg yi zr apex n ->
  let s := as_store (register_dns ts scope (V4 yi) (Dhcp4.hostname msg) a) in
  exists sz ttl, In sz (zs_zones s) /\ sd_apex sz = apex /\
    In (mkStoredRecord A ttl None (RD_A yi)) (default [] (sd_records sz !! name_key n)).
Proof.
  intros Hd Hu [H1 (host & zone & zname & H2 & H3 & H4 & H5 & H6) H7 H8 H9]. cbv zeta in *.
  destruct (dyndns_row ts _ (V4 yi) (Z.max (sc_lease_secs scope) 60) _ _ _ Hd H7 H4 H6)
    as (d' & u & r & zr' & Hdyn & Hr & Hrz & Hrn & Hrt & Hrv & Hrd & Hre & Hz' & Hid & Hname & Hen).
  rewrite (register_dns_store _ _ _ _ _ _ _ _ _ H1 H2 H3 Hdyn).
  assert (dns_ok d') as Hd' by (pose proof (dyndns_set_address_ok ts (host +:+ "." +:+ zone) (V4 yi) None
    (Z.max (sc_lease_secs scope) 60) _ Hd) as Hok; by rewrite Hdyn in Hok).
  destruct (stored_address d' zr' r yi apex n) as (sz & ? & ? & ?); try done; try congruence.
  - apply address_entry; try done. by rewrite Hrn, Hname.
  - by exists sz, (row_ttl zr' r).
Qed.

End Registration.

(** ** A laptop on the home network *)

Definition home_zones : Db :=
  fold_left (fun d o => run_op o d)
    [OpCreateZone "t0" "home.lan" (Soa_default_for "home.lan") 300;
     OpCreateZone "t0" "1.168.192.in-addr.arpa" (Soa_default_for "1.168.192.in-addr.arpa") 300] empty_db.
Definition home_db : Db :=
  run_dhcp_op (DCreateScope "t0" "lan" true FamV4 "192.168.1.0/24" "192.168.1.10" "192.168.1.12" 3600
                 true (Some "home.lan") (Some "192.168.1.1") None []) home_zones.
Definition home_state : AppState := mkAppState home_db (build_from home_db).
Definition home_scope : DhcpScope :=
  mkDhcpScope 1 "lan" true FamV4 "192.168.1.0/24" "192.168.1.10" "192.168.1.12" 3600 true (Some "home.lan")
    (Some "192.168.1.1") None [] "t0".
Definition laptop_ip : Z := Ipv4Addr_new 192 168 1 10.
Definition laptop : Dhcp4Message :=
  Dhcp4.set_option (ex_msg Dhcp4MessageType.Request 11 (Some laptop_ip)) 12 (as_bytes "Laptop").
Definition laptop_name : Name := ["laptop"; "home"; "lan"].

Definition home_after : AppState :=
  match handle_v4 "t1" 100 None true laptop home_state with Some (a, _, _) => a | None => home_state end.

Example home_before : lr_outcome (lookup (as_store home_state) laptop_name A (V4 laptop_ip) ClientGeo_default) = NxDomain.
Proof. vm_refl. Qed.

Definition home_row : ZoneRow := mkZoneRow 1 "home.lan" true (Soa_default_for "home.lan") 300 1 "t0" "t0".

Lemma home_db_ok : dns_ok home_db.
Proof.
  apply (same_dns_ok home_zones); [by split_and!|]. unfold home_zones. cbn [fold_left].
  repeat (apply run_op_ok). constructor; cbn; try constructor; done.
Qed.

Lemma home_registrable : registrable home_db home_scope laptop laptop_ip home_row ["home"; "lan"] laptop_name.
Proof.
  constructor; [done| |left; vm_refl|done|vm_refl].
  exists "laptop", "home.lan", "home.lan". cbv zeta. split; [done|]. split; [vm_refl|]. split; [vm_refl|].
  split; [vm_refl|]. intros r Hr. assert (dyn_record home_db ("laptop" +:+ "." +:+ "home.lan") (V4 laptop_ip) None = None)
    as Hn by vm_refl. congruence.
Qed.

(** The zone the store serves the laptop from, and its records without a view. *)
Lemma home_zone_for sz :
  In sz (zs_zones (as_store home_after)) -> sd_apex sz = ["home"; "lan"] ->
  zone_for (as_store home_after) laptop_name = Some sz.
Proof.
  assert (sd_apex <$> zs_zones (as_store home_after) = [["1"; "168"; "192"; "in-addr"; "arpa"]; ["home"; "lan"]])
    as Hzs by vm_refl.
  unfold zone_for. destruct (zs_zones (as_store home_after)) as [|z1 [|z2 [|]]]; try discriminate Hzs.
  injection Hzs as H1 H2. intros [<-|[<-|[]]] Hap; [congruence|]. cbn [List.find]. rewrite H1, H2. vm_refl.
Qed.

Lemma home_general sz y :
  In sz (zs_zones (as_store home_after)) -> In y (default [] (sd_records sz !! name_key laptop_name)) ->
  sr_view_id y = None.
Proof.
  assert (forallb (fun z => forallb (fun y => bool_decide (sr_view_id y = None))
    (default [] (sd_records z !! name_key laptop_name))) (zs_zones (as_store home_after)) = true) as H by vm_refl.
  intros Hsz Hy. rewrite forallb_forall in H. specialize (H _ Hsz). rewrite forallb_forall in H.
  specialize (H _ Hy). by apply bool_decide_eq_true in H.
Qed.

