(* ===== verification/DbFilter.v ===== *)
(** * Filter tables ([src/db.rs], "blocklists", "block rules", "rewrites",
    "conditional forwards") *)

From S2P Require Import Prelude Strs Net External Models Db.

(** ** Blocklists *)

(** [BLOCKLIST_SELECT] and [into_blocklist]. *)
Definition into_blocklist (d : Db) (b : BlocklistRow) : Blocklist :=
  mkBlocklist (blr_id b) (blr_name b) (blr_url b) (blr_format b) (blr_enabled b)
    (Z.of_nat (length (List.filter (fun e => fst e =? blr_id b) (blocklist_entries d))))
    (blr_last_updated b) (blr_last_error b) (blr_created_at b).

Definition list_blocklists : M (list Blocklist) := query (fun d =>
  sort_with (fun a b => String.leb (bl_name a) (bl_name b)) (into_blocklist d <$> blocklists d)).
Definition blocklist (id : Z) : M (option Blocklist) := query (fun d =>
  into_blocklist d <$> List.find (fun b => blr_id b =? id) (blocklists d)).

(** The URL is unique. *)
Definition create_blocklist (ts name url : string) (format : BlocklistFormat) (enabled : bool) : M Z := fun d =>
  if existsb (fun b => bool_decide (blr_url b = url)) (blocklists d) then fail UniqueViolation d
  else
    let id := next_id blr_id (blocklists d) in
    (set_blocklists (blocklists d ++ [mkBlocklistRow id name url format enabled None None ts]) d, Ok id).

Definition update_blocklist_row (id : Z) (f : BlocklistRow -> BlocklistRow) : M unit :=
  modify (fun d => set_blocklists (update_where (fun b => blr_id b =? id) f (blocklists d)) d).

Definition update_blocklist (id : Z) (name : option string) (enabled : option bool) : M unit :=
  when_some name (fun n => update_blocklist_row id (fun b => mkBlocklistRow (blr_id b) n (blr_url b)
    (blr_format b) (blr_enabled b) (blr_last_updated b) (blr_last_error b) (blr_created_at b))) ;;;
  when_some enabled (fun e => update_blocklist_row id (fun b => mkBlocklistRow (blr_id b) (blr_name b)
    (blr_url b) (blr_format b) e (blr_last_updated b) (blr_last_error b) (blr_created_at b))).

(** The entries go with the list. *)
Definition delete_blocklist (id : Z) : M unit := modify (fun d =>
  set_blocklist_entries (delete_where (fun e => fst e =? id) (blocklist_entries d))
    (set_blocklists (delete_where (fun b => blr_id b =? id) (blocklists d)) d)).

Definition insert_entry (id : Z) (domain : string) : M unit := fun d =>
  if existsb (fun b => blr_id b =? id) (blocklists d)
  then (set_blocklist_entries (blocklist_entries d ++ [(id, domain)]) d, Ok tt)
  else fail ForeignKeyViolation d.

Definition replace_blocklist_entries (ts : string) (id : Z) (domains : list string)
    (error : option string) : M unit :=
  transaction (
    modify (fun d => set_blocklist_entries (delete_where (fun e => fst e =? id) (blocklist_entries d)) d) ;;;
    for_each domains (insert_entry id) ;;;
    update_blocklist_row id (fun b => mkBlocklistRow (blr_id b) (blr_name b) (blr_url b) (blr_format b)
      (blr_enabled b) (Some ts) error (blr_created_at b))).

Definition set_blocklist_error (id : Z) (error : string) : M unit :=
  update_blocklist_row id (fun b => mkBlocklistRow (blr_id b) (blr_name b) (blr_url b) (blr_format b)
    (blr_enabled b) (blr_last_updated b) (Some error) (blr_created_at b)).

(** The join of the entries with the enabled lists. *)
Definition enabled_block_domains_by_list : M (list (Z * string)) := query (fun d =>
  List.filter (fun e => existsb (fun b => (blr_id b =? fst e) && blr_enabled b) (blocklists d))
    (blocklist_entries d)).

(** ** Block rules *)

Definition list_block_rules : M (list BlockRule) := query (fun d =>
  sort_with (fun a b => String.leb (br_domain a) (br_domain b)) (block_rules d)).

Definition create_block_rule (ts domain : string) (action : RuleAction) (comment : option string) : M Z := fun d =>
  let id := next_id br_id (block_rules d) in
  (set_block_rules (block_rules d ++ [mkBlockRule id domain action comment ts]) d, Ok id).

Definition delete_block_rule (id : Z) : M unit :=
  modify (fun d => set_block_rules (delete_where (fun r => br_id r =? id) (block_rules d)) d).

(** ** Rewrites *)

Definition list_rewrites : M (list Rewrite) := query (fun d =>
  sort_with (fun a b => String.leb (rw_domain a) (rw_domain b)) (rewrites d)).
Definition rewrite_row (id : Z) : M (option Rewrite) :=
  query (fun d => List.find (fun r => rw_id r =? id) (rewrites d)).

Definition create_rewrite (ts domain target : string) (comment : option string) : M Z := fun d =>
  let id := next_id rw_id (rewrites d) in
  (set_rewrites (rewrites d ++ [mkRewrite id domain target true comment ts]) d, Ok id).

Definition update_rewrite_row (id : Z) (f : Rewrite -> Rewrite) : M unit :=
  modify (fun d => set_rewrites (update_where (fun r => rw_id r =? id) f (rewrites d)) d).

Definition update_rewrite (id : Z) (domain target : option string) (enabled : option bool) : M unit :=
  when_some domain (fun x => update_rewrite_row id (fun r => mkRewrite (rw_id r) x (rw_target r) (rw_enabled r)
    (rw_comment r) (rw_created_at r))) ;;;
  when_some target (fun x => update_rewrite_row id (fun r => mkRewrite (rw_id r) (rw_domain r) x (rw_enabled r)
    (rw_comment r) (rw_created_at r))) ;;;
  when_some enabled (fun x => update_rewrite_row id (fun r => mkRewrite (rw_id r) (rw_domain r) (rw_target r) x
    (rw_comment r) (rw_created_at r))).

Definition delete_rewrite (id : Z) : M unit :=
  modify (fun d => set_rewrites (delete_where (fun r => rw_id r =? id) (rewrites d)) d).

(** ** Conditional forwards *)

Definition list_conditional_forwards : M (list ConditionalForward) := query (fun d =>
  sort_with (fun a b => String.leb (cf_domain a) (cf_domain b)) (conditional_forwards d)).
Definition conditional_forward (id : Z) : M (option ConditionalForward) :=
  query (fun d => List.find (fun c => cf_id c =? id) (conditional_forwards d)).

(** The domain is unique. *)
Definition create_conditional_forward (ts domain : string) (forwarders : list Forwarder) : M Z := fun d =>
  if existsb (fun c => bool_decide (cf_domain c = domain)) (conditional_forwards d) then fail UniqueViolation d
  else
    let id := next_id cf_id (conditional_forwards d) in
    (set_conditional_forwards (conditional_forwards d ++ [mkConditionalForward id domain forwarders true ts]) d,
     Ok id).

Definition update_conditional_row (id : Z) (f : ConditionalForward -> ConditionalForward) : M unit :=
  modify (fun d => set_conditional_forwards (update_where (fun c => cf_id c =? id) f (conditional_forwards d)) d).

Definition update_conditional_forward (id : Z) (forwarders : option (list Forwarder)) (enabled : option bool)
    : M unit :=
  when_some forwarders (fun x => update_conditional_row id (fun c => mkConditionalForward (cf_id c) (cf_domain c) x
    (cf_enabled c) (cf_created_at c))) ;;;
  when_some enabled (fun x => update_conditional_row id (fun c => mkConditionalForward (cf_id c) (cf_domain c)
    (cf_forwarders c) x (cf_created_at c))).

Definition delete_conditional_forward (id : Z) : M unit :=
  modify (fun d => set_conditional_forwards (delete_where (fun c => cf_id c =? id) (conditional_forwards d)) d).

(** ** Replacing a list's entries *)

Lemma insert_entries id domains d :
  existsb (fun b => blr_id b =? id) (blocklists d) = true ->
  for_each domains (insert_entry id) d =
  (set_blocklist_entries (blocklist_entries d ++ (pair id <$> domains)) d, Ok tt).
Proof.
  revert d. induction domains as [|x domains IH]; intros d Hb; cbn [for_each].
  - unfold ret. cbn. rewrite app_nil_r. by destruct d.
  - unfold bind, insert_entry at 1. rewrite Hb, IH by done. cbn. by rewrite <- app_assoc.
Qed.

Lemma insert_entries_missing id domains d :
  existsb (fun b => blr_id b =? id) (blocklists d) = false -> domains <> [] ->
  for_each domains (insert_entry id) d = (d, Err ForeignKeyViolation).
Proof. intros Hb Hd. destruct domains as [|x domains]; [done|]. cbn. unfold bind, insert_entry. by rewrite Hb. Qed.

(** After a refresh the list holds exactly the fetched domains, in order, and no
    other list changed. *)
Lemma replace_blocklist_entries_ok ts id domains error d :
  existsb (fun b => blr_id b =? id) (blocklists d) = true ->
  exists d', replace_blocklist_entries ts id domains error d = (d', Ok tt) /\
    blocklist_entries d' = delete_where (fun e => fst e =? id) (blocklist_entries d) ++ (pair id <$> domains) /\
    (forall i, existsb (fun b => (blr_id b =? i) && blr_enabled b) (blocklists d') =
               existsb (fun b => (blr_id b =? i) && blr_enabled b) (blocklists d)) /\
    block_rules d' = block_rules d /\ rewrites d' = rewrites d.
Proof.
  intros Hb. unfold replace_blocklist_entries, transaction, bind, modify at 1.
  rewrite insert_entries by done. eexists. split; [reflexivity|]. cbn. split_and!; [done| |done|done].
  intros i. clear Hb. unfold update_where. induction (blocklists d) as [|b l IH]; [done|]. cbn [existsb fmap list_fmap].
  rewrite IH. by destruct (blr_id b =? id).
Qed.

(** A refresh of a list that was deleted meanwhile changes nothing. *)
Lemma replace_blocklist_entries_missing ts id domains error d :
  existsb (fun b => blr_id b =? id) (blocklists d) = false -> domains <> [] ->
  replace_blocklist_entries ts id domains error d = (d, Err ForeignKeyViolation).
Proof.
  intros Hb Hd. unfold replace_blocklist_entries, transaction, bind, modify at 1.
  by rewrite insert_entries_missing.
Qed.
