(* ===== verification/Filter.v ===== *)
(** * Filtering ([src/filter.rs], [src/web/fetch.rs], [src/dns/homograph.rs])

    The filter set is built from the blocklist, rule and rewrite tables; [decide]
    classifies a name.  A hash set is a [gset], the hash map of the loading loop a
    [gmap], so the order of the lists is unspecified, as in the source. *)

From S2P Require Import Prelude Strs Net External Models Db DbFilter.

Section Filter.
Context `{HN : HickoryNames}.

Inductive RewriteTarget : Type := TargetIp (ip : IpAddr) | TargetName (n : Name).

Inductive Decision : Type :=
| DPass
| DAllow
| DBlock
| DRewrite (target : RewriteTarget).

Record BlockSource : Type := mkBlockSource { bs_id : Z; bs_domains : gset string }.

Record FilterSet : Type := mkFilterSet {
  fs_blocking_enabled : bool; fs_blocklists : list BlockSource; fs_blocked_total : Z;
  fs_deny_rules : list string; fs_allow_rules : list string;
  fs_rewrites : list (string * RewriteTarget) }.

(** ** Loading *)

Definition add_block_domain (m : gmap Z (gset string)) (e : Z * string) : gmap Z (gset string) :=
  <[fst e := default ∅ (m !! fst e) ∪ {[to_ascii_lowercase (snd e)]}]> m.

Definition rule_pattern (domain : string) : string := to_ascii_lowercase (trim_end_matches "."%char domain).

(** The target of a rewrite row: an address, else a name. *)
Definition rewrite_target (target : string) : option RewriteTarget :=
  match parse_ip (trim target) with
  | Some ip => Some (TargetIp ip)
  | None =>
      let fqdn := if ends_with target "." then target else trim target +:+ "." in
      (fun n => TargetName (set_fqdn n)) <$> Name_from_utf8 fqdn
  end.

(** The body of the loop over the rewrites. *)
Definition load_rewrite (rw : Rewrite) : option (string * RewriteTarget) :=
  if negb (rw_enabled rw) then None
  else pair (rule_pattern (rw_domain rw)) <$> rewrite_target (rw_target rw).

Definition has_action (a : RuleAction) (r : BlockRule) : bool :=
  match a, br_action r with Deny, Deny | Allow, Allow => true | _, _ => false end.

Definition build_filter (d : Db) (blocking_enabled : bool) : FilterSet :=
  let entries := match snd (enabled_block_domains_by_list d) with Ok es => es | Err _ => [] end in
  let by_list := fold_left add_block_domain entries ∅ in
  let all := fold_left (fun (s : gset string) e => s ∪ {[to_ascii_lowercase (snd e)]}) entries ∅ in
  let rules := match snd (list_block_rules d) with Ok rs => rs | Err _ => [] end in
  let rws := match snd (list_rewrites d) with Ok rs => rs | Err _ => [] end in
  mkFilterSet blocking_enabled
    ((fun '(id, domains) => mkBlockSource id domains) <$> map_to_list by_list)
    (Z.of_nat (size all))
    ((fun r => rule_pattern (br_domain r)) <$> List.filter (has_action Deny) rules)
    ((fun r => rule_pattern (br_domain r)) <$> List.filter (has_action Allow) rules)
    (omap load_rewrite rws).

(** ** Deciding *)

Definition decide_name (f : FilterSet) (name : string) : Decision :=
  match List.find (fun rw => domain_covers (fst rw) name) (fs_rewrites f) with
  | Some (_, target) => DRewrite target
  | None =>
      if existsb (fun p => domain_covers p name) (fs_allow_rules f) then DAllow
      else if fs_blocking_enabled f &&
              (existsb (fun b => bool_decide (name ∈ bs_domains b)) (fs_blocklists f)
               || existsb (fun p => domain_covers p name) (fs_deny_rules f))
      then DBlock
      else DPass
  end.

Definition blocklist_hit (f : FilterSet) (name : string) : option Z :=
  bs_id <$> List.find (fun b => bool_decide (name ∈ bs_domains b)) (fs_blocklists f).

Definition blocked_count (f : FilterSet) : Z := fs_blocked_total f.
Definition rewrite_count (f : FilterSet) : Z := Z.of_nat (length (fs_rewrites f)).
End Filter.

(** ** Blocklist text ([parse_blocklist]) *)

Definition newline : ascii := chr 10.
Definition carriage_return : string := String (chr 13) EmptyString.

(** [str::lines]: a final line feed ends the last line; the carriage return of a
    terminated line goes with its line feed. *)
Fixpoint terminated (l : list string) : list string :=
  match l with
  | [] => []
  | [last] => if is_empty last then [] else [last]
  | x :: rest => default x (strip_suffix carriage_return x) :: terminated rest
  end.
Definition lines (s : string) : list string := terminated (split newline s).

Definition first_word (l : list string) : string := match l with w :: _ => w | [] => "" end.

Definition blocklist_candidate (format : BlocklistFormat) (line : string) : string :=
  match format with
  | Hosts =>
      match split_whitespace line with
      | _ :: second :: _ => second
      | ws => first_word ws
      end
  | Domains => first_word (split_whitespace line)
  end.

Definition blocklist_char (c : ascii) : bool :=
  is_ascii_alphanumeric c || existsb (fun x => bool_decide (c = x)) ["."%char; "-"%char; "_"%char; "*"%char].

Definition blocklist_domain (domain : string) : bool :=
  negb (is_empty domain || bool_decide (domain = "localhost") || bool_decide (domain = "localhost.localdomain")
        || bool_decide (domain = "broadcasthost") || negb (contains_char "."%char domain))
  && str_forall blocklist_char domain.

(** The body of the loop over the lines. *)
Definition parse_blocklist_line (format : BlocklistFormat) (raw : string) : option string :=
  let line := trim raw in
  if is_empty line || starts_with line "#" || starts_with line "!" then None
  else
    let line := trim (first_word (split "#"%char line)) in
    if is_empty line then None
    else
      let candidate := blocklist_candidate format line in
      let domain := to_ascii_lowercase (trim_end_matches "."%char (trim candidate)) in
      if blocklist_domain domain then Some domain else None.

(** [Vec::dedup]. *)
Fixpoint dedup (l : list string) : list string :=
  match l with
  | [] => []
  | x :: rest =>
      match dedup rest with
      | y :: r => if bool_decide (x = y) then y :: r else x :: y :: r
      | [] => [x]
      end
  end.

Definition parse_blocklist (text : string) (format : BlocklistFormat) : list string :=
  dedup (sort_with String.leb (omap (parse_blocklist_line format) (lines text))).

(** ** Lookalike names ([is_suspicious]) *)

Definition is_ascii (s : string) : bool := str_forall (fun c => code c <? 128) s.

Section Homograph.
Context `{UNI : Unicode}.

(** The loop over the characters; [scripts] holds at most one script. *)
Fixpoint mixes_scripts (scripts : list Script) (l : list string) : bool :=
  match l with
  | [] => false
  | c :: l' =>
      if negb (is_alphabetic c) then mixes_scripts scripts l'
      else if neutral_script (script c) then mixes_scripts scripts l'
      else
        let scripts := if bool_decide (script c ∈ scripts) then scripts else script c :: scripts in
        if (1 <? length scripts)%nat then true else mixes_scripts scripts l'
  end.
Definition label_mixes_scripts (label : string) : bool := mixes_scripts [] (chars label).

Definition is_suspicious (qname : string) (mode : HomographMode) : bool :=
  match mode with
  | HmOff => false
  | AllIdn => negb (is_ascii (domain_to_unicode qname))
  | Mixed => existsb label_mixes_scripts (split "."%char (domain_to_unicode qname))
  end.

(** A letter of a script of its own. *)
Definition countedb (c : string) : bool := is_alphabetic c && negb (neutral_script (script c)).

Lemma mixes_scripts_cons scripts c l :
  mixes_scripts scripts (c :: l) =
  if countedb c then
    let scripts := if bool_decide (script c ∈ scripts) then scripts else script c :: scripts in
    if (1 <? length scripts)%nat then true else mixes_scripts scripts l
  else mixes_scripts scripts l.
Proof. unfold countedb. cbn. by destruct (is_alphabetic c), (neutral_script (script c)). Qed.

Lemma mixes_scripts_one s l :
  mixes_scripts [s] l = true <-> exists c, In c (List.filter countedb l) /\ script c <> s.
Proof.
  induction l as [|c l IH]; [by split; [|intros (? & [] & _)]|]. rewrite mixes_scripts_cons. cbn [List.filter].
  destruct (countedb c); [|exact IH]. cbv zeta. case_bool_decide as Hin; cbn [length].
  - apply list_elem_of_singleton in Hin. cbn. rewrite IH. split; [intros (x & ? & ?); exists x; auto|].
    intros (x & [<-|?] & ?); [done|eauto].
  - split; [|done]. intros _. exists c. split; [by left|]. intros E. apply Hin. rewrite E. by left.
Qed.

(** A label is flagged exactly when two of its letters are of different scripts. *)
Lemma label_mixes_scripts_spec label :
  label_mixes_scripts label = true <->
  exists c c', In c (List.filter countedb (chars label)) /\ In c' (List.filter countedb (chars label)) /\
    script c <> script c'.
Proof.
  unfold label_mixes_scripts. induction (chars label) as [|c l IH]; [by split; [|intros (? & ? & [] & _)]|].
  rewrite mixes_scripts_cons. cbn [List.filter]. destruct (countedb c); [|exact IH]. cbv zeta.
  rewrite bool_decide_eq_false_2 by apply not_elem_of_nil. cbn [length Nat.ltb Nat.leb].
  rewrite mixes_scripts_one. split.
  - intros (x & ? & ?). exists x, c. cbn. auto.
  - intros (x & y & [<-|Hx] & [<-|Hy] & Hne); [done|by exists y; auto|by exists x; auto|].
    destruct (decide (script x = script c)) as [Ex|Ex]; [exists y|by exists x]. split; [done|congruence].
Qed.
End Homograph.

Example parse_hosts :
  parse_blocklist (concat_str ["# comment"; String newline ""; "0.0.0.0 ads.example.com"; String newline "";
    "127.0.0.1 localhost"; String newline ""; "0.0.0.0 track.foo.io # inline"; String newline ""]) Hosts =
  ["ads.example.com"; "track.foo.io"].
Proof. reflexivity. Qed.

(** ** Lemmas: text *)

Lemma leb_lt s t : String.leb s t = true <-> s = t \/ String.compare s t = Lt.
Proof.
  unfold String.leb. destruct (String.compare s t) eqn:E.
  - apply String.compare_eq_iff in E. naive_solver.
  - naive_solver.
  - split; [done|]. intros [->|?]; [|done].
    pose proof (String.compare_antisym t t) as H. by rewrite E in H.
Qed.

Lemma string_lt_trans a b c : String.compare a b = Lt -> String.compare b c = Lt -> String.compare a c = Lt.
Proof.
  revert b c. induction a as [|x a IH]; intros [|y b] [|z c]; cbn; try done.
  unfold Ascii.compare.
  destruct (N.compare_spec (Ascii.N_of_ascii x) (Ascii.N_of_ascii y)) as [Exy|Lxy|Gxy]; try done;
    destruct (N.compare_spec (Ascii.N_of_ascii y) (Ascii.N_of_ascii z)) as [Eyz|Lyz|Gyz]; try done;
    destruct (N.compare_spec (Ascii.N_of_ascii x) (Ascii.N_of_ascii z)) as [Exz|Lxz|Gxz]; try done; try lia.
  apply IH.
Qed.

Lemma string_lt_irrefl a : String.compare a a <> Lt.
Proof. intros E. pose proof (String.compare_antisym a a) as H. by rewrite E in H. Qed.

Lemma leb_trans a b c : String.leb a b = true -> String.leb b c = true -> String.leb a c = true.
Proof.
  rewrite !leb_lt. intros [->|Hab] [->|Hbc]; auto. right. by eapply string_lt_trans.
Qed.

Abbreviation str_le := (fun a b => String.leb a b = true).
Abbreviation str_lt := (fun a b => String.compare a b = Lt).

Lemma sort_strings_sorted l : StronglySorted str_le (sort_with String.leb l).
Proof. apply sort_with_sorted; [apply String.leb_total|apply leb_trans]. Qed.

Lemma in_dedup l x : In x (dedup l) <-> In x l.
Proof.
  induction l as [|y l IH]; [done|]. cbn. destruct (dedup l) as [|z r].
  - cbn in *. tauto.
  - case_bool_decide; subst; cbn in *; tauto.
Qed.

Lemma dedup_strict l : StronglySorted str_le l -> StronglySorted str_lt (dedup l).
Proof.
  induction 1 as [|x l Hl IH Hx]; [constructor|]. cbn. destruct (dedup l) as [|y r] eqn:E; [repeat constructor|].
  case_bool_decide as Hxy; [done|]. constructor; [done|].
  assert (forall z, In z (y :: r) -> String.leb x z = true) as Hle.
  { intros z Hz. rewrite <- E, in_dedup in Hz. rewrite List.Forall_forall in Hx. by apply Hx. }
  assert (String.compare x y = Lt) as Hlt.
  { by destruct (proj1 (leb_lt x y) (Hle y (or_introl eq_refl))). }
  constructor; [done|]. apply StronglySorted_inv in IH as [_ Hy]. eapply Forall_impl; [exact Hy|].
  intros z Hz. by eapply string_lt_trans.
Qed.

Lemma strict_NoDup l : StronglySorted str_lt l -> NoDup l.
Proof.
  induction 1 as [|x l Hl IH Hx]; constructor; [|done]. intros Hin. apply list_elem_of_In in Hin.
  rewrite List.Forall_forall in Hx. by apply Hx, string_lt_irrefl in Hin.
Qed.

Lemma in_parse_blocklist text format dom :
  In dom (parse_blocklist text format) <-> exists line, In line (lines text) /\ parse_blocklist_line format line = Some dom.
Proof.
  unfold parse_blocklist. rewrite in_dedup, in_sort_with, <- list_elem_of_In, list_elem_of_omap.
  setoid_rewrite list_elem_of_In. done.
Qed.

Lemma parse_blocklist_line_domain format line dom :
  parse_blocklist_line format line = Some dom -> blocklist_domain dom = true /\ to_ascii_lowercase dom = dom.
Proof.
  unfold parse_blocklist_line. destruct (is_empty (trim line) || _ || _); [done|]. destruct (is_empty _); [done|].
  destruct (blocklist_domain _) eqn:E; [|done]. intros [= <-]. split; [done|]. apply lowercase_idem.
Qed.

(** ** What the tables say of a name *)

(** An enabled blocklist has the name among its entries. *)
Definition listed_by (d : Db) (id : Z) (name : string) : Prop :=
  (exists b, In b (blocklists d) /\ blr_id b = id /\ blr_enabled b = true) /\
  exists dom, In (id, dom) (blocklist_entries d) /\ to_ascii_lowercase dom = name.
Definition listed (d : Db) (name : string) : Prop := exists id, listed_by d id name.

(** A rule of the action covers the name. *)
Definition ruled (d : Db) (a : RuleAction) (name : string) : Prop :=
  exists r, In r (block_rules d) /\ br_action r = a /\ domain_covers (rule_pattern (br_domain r)) name = true.

Section FilterLemmas.
Context `{HN : HickoryNames}.

(** An enabled rewrite with a readable target covers the name. *)
Definition rewritten (d : Db) (rw : Rewrite) (name : string) (target : RewriteTarget) : Prop :=
  In rw (rewrites d) /\ rw_enabled rw = true /\ rewrite_target (rw_target rw) = Some target /\
  domain_covers (rule_pattern (rw_domain rw)) name = true.

Lemma load_block_domains entries m id name :
  (exists s, fold_left add_block_domain entries m !! id = Some s /\ name ∈ s) <->
  (exists s, m !! id = Some s /\ name ∈ s) \/
  exists dom, In (id, dom) entries /\ to_ascii_lowercase dom = name.
Proof.
  revert m. induction entries as [|[i dom] entries IH]; intros m; cbn [fold_left In].
  - split; [auto|]. intros [?|(? & [] & _)]. done.
  - rewrite IH. unfold add_block_domain. cbn [fst snd]. destruct (decide (i = id)) as [->|Hne].
    + rewrite lookup_insert_eq. split.
      * intros [(s & [= <-] & Hin)|(x & ? & ?)]; [|right; eauto].
        apply elem_of_union in Hin as [Hin|Hin]; [|apply elem_of_singleton in Hin; right; exists dom; auto].
        left. destruct (m !! id); [eauto|]. by apply elem_of_empty in Hin.
      * intros [(s & Hs & Hin)|(x & [[= <-]|Hx] & Hl)]; [left|left|right; eauto].
        -- rewrite Hs. cbn. eexists. split; [done|]. by apply elem_of_union_l.
        -- eexists. split; [done|]. apply elem_of_union_r. by apply elem_of_singleton.
    + rewrite lookup_insert_ne by done. split.
      * intros [?|(x & ? & ?)]; [auto|right; eauto].
      * intros [?|(x & [[= -> ->]|?] & ?)]; [auto|done|right; eauto].
Qed.

Lemma in_enabled_domains d id dom :
  In (id, dom) (match snd (enabled_block_domains_by_list d) with Ok es => es | Err _ => [] end) <->
  (exists b, In b (blocklists d) /\ blr_id b = id /\ blr_enabled b = true) /\ In (id, dom) (blocklist_entries d).
Proof.
  cbn. rewrite filter_In, existsb_exists. cbn [fst]. setoid_rewrite andb_true_iff. setoid_rewrite Z.eqb_eq.
  split; [intros [? (b & ? & ? & ?)]|intros [(b & ? & ? & ?) ?]]; split; eauto.
Qed.

Lemma in_blocklists d be id name :
  (exists b, In b (fs_blocklists (build_filter d be)) /\ bs_id b = id /\ name ∈ bs_domains b) <-> listed_by d id name.
Proof.
  unfold listed_by. cbn [fs_blocklists build_filter].
  set (entries := match snd (enabled_block_domains_by_list d) with Ok es => es | Err _ => [] end).
  transitivity (exists s, fold_left add_block_domain entries ∅ !! id = Some s /\ name ∈ s).
  - split.
    + intros (b & Hb & <- & Hn). apply in_map_iff in Hb as ([i s] & <- & Hin). exists s. split; [|done].
      by apply elem_of_map_to_list, list_elem_of_In.
    + intros (s & Hs & Hn). exists (mkBlockSource id s). split_and!; [|done|done].
      apply in_map_iff. exists (id, s). split; [done|]. by apply list_elem_of_In, elem_of_map_to_list.
  - rewrite load_block_domains. unfold entries. setoid_rewrite in_enabled_domains. split.
    + intros [(s & Hs & _)|(dom & [? ?] & ?)]; [by rewrite lookup_empty in Hs|eauto].
    + intros (? & dom & ? & ?). right. eauto.
Qed.

Lemma existsb_listed d be name :
  existsb (fun b => bool_decide (name ∈ bs_domains b)) (fs_blocklists (build_filter d be)) = true <-> listed d name.
Proof.
  unfold listed. setoid_rewrite <- (in_blocklists d be). rewrite existsb_exists.
  setoid_rewrite bool_decide_eq_true. split.
  - intros (b & ? & ?). exists (bs_id b), b. auto.
  - intros (id & b & ? & _ & ?). eauto.
Qed.

Lemma existsb_ruled d a name :
  existsb (fun p => domain_covers p name)
    ((fun r => rule_pattern (br_domain r)) <$>
       List.filter (has_action a) (match snd (list_block_rules d) with Ok rs => rs | Err _ => [] end)) = true <->
  ruled d a name.
Proof.
  rewrite existsb_exists. setoid_rewrite in_map_iff. setoid_rewrite filter_In. cbn.
  setoid_rewrite in_sort_with. unfold ruled. split.
  - intros (p & (r & <- & Hr & Ha) & Hc). exists r. split_and!; [done| |done].
    unfold has_action in Ha. by destruct a, (br_action r).
  - intros (r & Hr & <- & Hc). exists (rule_pattern (br_domain r)). split; [|done]. exists r.
    split_and!; [done|done|]. unfold has_action. by destruct (br_action r).
Qed.

Lemma rewrites_sorted d :
  StronglySorted (fun a b => String.leb (rw_domain a) (rw_domain b) = true)
    (match snd (list_rewrites d) with Ok rs => rs | Err _ => [] end).
Proof. apply sort_with_sorted; [intros; apply String.leb_total|intros a b c; apply leb_trans]. Qed.

Lemma load_rewrite_spec d rw name p t :
  In rw (rewrites d) -> load_rewrite rw = Some (p, t) -> domain_covers p name = true -> rewritten d rw name t.
Proof.
  unfold load_rewrite. intros Hin. destruct (rw_enabled rw) eqn:E; [|done]. cbn.
  destruct (rewrite_target (rw_target rw)) eqn:Et; [|done]. cbn. intros [= <- <-] Hc. done.
Qed.

Lemma rewritten_load d rw name t :
  rewritten d rw name t -> load_rewrite rw = Some (rule_pattern (rw_domain rw), t).
Proof. intros (_ & He & Ht & _). unfold load_rewrite. rewrite He. cbn. by rewrite Ht. Qed.

Lemma no_rewrite d be name :
  List.find (fun rw => domain_covers (fst rw) name) (fs_rewrites (build_filter d be)) = None <->
  forall rw t, ~ rewritten d rw name t.
Proof.
  split.
  - intros Ef rw t Hrw. pose proof (List.find_none _ _ Ef (rule_pattern (rw_domain rw), t)) as H. cbn [fst] in H.
    destruct Hrw as (Hin & He & Ht & Hc). enough (true = false) by done. rewrite <- Hc. apply H.
    apply list_elem_of_In, list_elem_of_omap. exists rw. split; [|by eapply rewritten_load].
    by apply list_elem_of_In, in_sort_with.
  - intros Hno. destruct (List.find _ _) as [[p t]|] eqn:Ef; [|done]. apply List.find_some in Ef as [Hin Hc].
    apply list_elem_of_In, list_elem_of_omap in Hin as (rw & Hin & Hl).
    apply list_elem_of_In, in_sort_with in Hin. by destruct (Hno rw t); eapply load_rewrite_spec.
Qed.

Lemma not_ruled d be a name :
  ~ ruled d a name <->
  existsb (fun p => domain_covers p name)
    (match a with Allow => fs_allow_rules (build_filter d be) | Deny => fs_deny_rules (build_filter d be) end) = false.
Proof. rewrite <- existsb_ruled, not_true_iff_false. by destruct a. Qed.

(** C15: the filter decides as the tables say, with rewrites before allow rules before
    blocking: a name is rewritten by the first enabled rewrite (by domain) that
    covers it; else it is allowed exactly when an allow rule covers it; else it
    is blocked exactly when blocking is on and an enabled blocklist lists it or
    a deny rule covers it. *)
Theorem filter_decide d be name :
  let none := forall rw t, ~ rewritten d rw name t in
  match decide_name (build_filter d be) name with
  | DRewrite t => exists rw, rewritten d rw name t /\
      forall rw' t', rewritten d rw' name t' -> String.leb (rw_domain rw) (rw_domain rw') = true
  | DAllow => none /\ ruled d Allow name
  | DBlock => none /\ ~ ruled d Allow name /\ be = true /\ (listed d name \/ ruled d Deny name)
  | DPass => none /\ ~ ruled d Allow name /\ (be = false \/ ~ listed d name /\ ~ ruled d Deny name)
  end.
Proof.
  cbv zeta. unfold decide_name. destruct (List.find _ _) as [[p t]|] eqn:Ef.
  - destruct (find_omap_first _ _ _ _ _ (rewrites_sorted d) Ef) as (rw & Hin & Hl & Hp & Hmin).
    apply in_sort_with in Hin. exists rw. split; [by eapply load_rewrite_spec|]. intros rw' t' Hrw.
    destruct (Hmin rw' (rule_pattern (rw_domain rw'), t')) as [->|?]; [|by eapply rewritten_load|apply Hrw| |done].
    + apply in_sort_with, Hrw.
    + destruct (String.leb_total (rw_domain rw) (rw_domain rw)); done.
  - pose proof (proj1 (no_rewrite d be name) Ef) as Hno. destruct (existsb _ (fs_allow_rules _)) eqn:Ea; [apply existsb_ruled in Ea; auto|].
    apply (proj2 (not_ruled d be Allow name)) in Ea. destruct be; cbn [fs_blocking_enabled build_filter andb]; [|auto].
    destruct (_ || _) eqn:Eb.
    + apply orb_true_iff in Eb as [Eb|Eb]; [apply existsb_listed in Eb|apply existsb_ruled in Eb]; auto.
    + apply orb_false_iff in Eb as [E1 E2]. apply (proj2 (not_ruled d true Deny name)) in E2. split_and!; [done|done|].
      right. split; [|done]. intros H. apply (existsb_listed d true) in H. congruence.
Qed.

(** C28: refreshing an enabled list from a downloaded text makes it list exactly the
    domains of the text, in lower case and without the names of the loopback
    host; the other lists do not change, and every listed domain is blocked
    when blocking is on and no rewrite or allow rule covers it. *)
Theorem blocklist_refresh ts id text format d :
  (exists b, In b (blocklists d) /\ blr_id b = id /\ blr_enabled b = true) ->
  exists d', replace_blocklist_entries ts id (parse_blocklist text format) None d = (d', Ok tt) /\
    (forall name, listed_by d' id name <-> In name (parse_blocklist text format)) /\
    (forall i name, i <> id -> listed_by d' i name <-> listed_by d i name) /\
    forall name, In name (parse_blocklist text format) ->
      blocklist_domain name = true /\
      ((forall rw t, ~ rewritten d rw name t) -> ~ ruled d Allow name ->
       decide_name (build_filter d' true) name = DBlock).
Proof.
  intros Hb. destruct (replace_blocklist_entries_ok ts id (parse_blocklist text format) None d)
    as (d' & Hrun & Hent & Hen & Hrules & Hrws).
  { apply existsb_exists. destruct Hb as (b & ? & <- & _). exists b. by rewrite Z.eqb_refl. }
  assert (forall i, (exists b, In b (blocklists d') /\ blr_id b = i /\ blr_enabled b = true) <->
                    (exists b, In b (blocklists d) /\ blr_id b = i /\ blr_enabled b = true)) as Hiff.
  { intros i. specialize (Hen i). apply eq_iff_eq_true in Hen. rewrite !existsb_exists in Hen.
    setoid_rewrite andb_true_iff in Hen. by setoid_rewrite Z.eqb_eq in Hen. }
  assert (forall name, In name (parse_blocklist text format) ->
            blocklist_domain name = true /\ to_ascii_lowercase name = name) as Hclean.
  { intros name Hin. apply in_parse_blocklist in Hin as (line & _ & Hl). by eapply parse_blocklist_line_domain. }
  assert (forall i dom, In (i, dom) (blocklist_entries d') <->
            (i <> id /\ In (i, dom) (blocklist_entries d)) \/ (i = id /\ In dom (parse_blocklist text format))) as Hin.
  { intros i dom. rewrite Hent, in_app_iff, in_delete_where, in_map_iff. cbn [fst]. rewrite Z.eqb_neq. naive_solver. }
  assert (forall name, listed_by d' id name <-> In name (parse_blocklist text format)) as Hl.
  { intros name. unfold listed_by. rewrite Hiff. setoid_rewrite Hin. split.
    - intros (_ & dom & [[? ?]|[_ Hd]] & <-); [done|]. by rewrite (proj2 (Hclean dom Hd)).
    - intros Hn. split; [done|]. exists name. split; [auto|]. by apply Hclean. }
  exists d'. split_and!; [done|done| |].
  - intros i name Hne. unfold listed_by. rewrite Hiff. setoid_rewrite Hin. naive_solver.
  - intros name Hn. split; [by apply Hclean|]. intros Hno Hna. unfold decide_name.
    assert (forall rw t, ~ rewritten d' rw name t) as Hno' by (unfold rewritten; by rewrite Hrws).
    assert (~ ruled d' Allow name) as Hna' by (unfold ruled; by rewrite Hrules).
    rewrite (proj2 (no_rewrite d' true name)) by done. rewrite (proj1 (not_ruled d' true Allow name)) by done.
    cbn [fs_blocking_enabled build_filter andb]. rewrite (proj2 (existsb_listed d' true name)); [done|].
    exists id. by apply Hl.
Qed.

(** a block is attributed to an enabled list that holds the name; there is no
    attribution exactly when no enabled list holds it. *)
Theorem blocklist_hit_sound d be name :
  match blocklist_hit (build_filter d be) name with
  | Some id => listed_by d id name
  | None => ~ listed d name
  end.
Proof.
  unfold blocklist_hit. destruct (List.find _ _) as [b|] eqn:E; cbn.
  - apply List.find_some in E as [Hin Hn]. apply (in_blocklists d be). exists b. breflect. auto.
  - intros (id & H). apply (in_blocklists d be) in H as (b & Hb & _ & Hn).
    pose proof (List.find_none _ _ E b Hb) as H. cbn in H. by apply bool_decide_eq_false in H.
Qed.
End FilterLemmas.
