(* ===== verification/Upstream.v ===== *)
(** * Upstream resolvers ([src/dns/upstream.rs], [src/dns/conditional.rs])

    What the program configures is data here (name servers, connections and
    options); the resolver hickory builds from it is a parameter, and so is what
    the network answers at a given moment ([Network]). *)

From S2P Require Import Prelude Strs Net External Models Db DbFilter.

(** ** The configuration *)

Inductive Transport : Type := TrUdp | TrTcp | TrTls (name : string) | TrHttps (name : string).

Record ConnectionConfig : Type := mkConnection { cn_transport : Transport; cn_port : Z }.
Record NameServerConfig : Type := mkNameServer {
  ns_ip : IpAddr; ns_trust_negative : bool; ns_connections : list ConnectionConfig }.

(** The resolver options the program sets; the rest are hickory's defaults. *)
Record ResolverOpts : Type := mkResolverOpts {
  ro_cache_size : Z; ro_positive_min_ttl : option Z; ro_positive_max_ttl : option Z;
  ro_negative_max_ttl : option Z; ro_ndots : Z; ro_validate : bool }.

(** [ROOT_SERVERS] (src/models.rs). *)
Definition ROOT_SERVERS : list string :=
  ["198.41.0.4"; "170.247.170.2"; "192.33.4.12"; "199.7.91.13"; "192.203.230.10"; "192.5.5.241";
   "192.112.36.4"; "198.97.190.53"; "192.36.148.17"; "192.58.128.30"; "193.0.14.129"; "199.7.83.42";
   "202.12.27.33"; "2001:503:ba3e::2:30"; "2801:1b8:10::b"; "2001:500:2::c"; "2001:500:2d::d"; "2001:500:a8::e";
   "2001:500:2f::f"; "2001:500:12::d0d"; "2001:500:1::53"; "2001:7fe::53"; "2001:503:c27::2:30"; "2001:7fd::1";
   "2001:500:9f::42"; "2001:dc3::35"].

(** No root server is lost to the parser: thirteen addresses of each family. *)
Example roots_parse :
  length (List.filter is_ipv4 (omap parse_ip ROOT_SERVERS)) = 13%nat /\
  length (List.filter is_ipv6 (omap parse_ip ROOT_SERVERS)) = 13%nat.
Proof. vm_compute. split; reflexivity. Qed.

Section Upstream.
Context `{HN : HickoryNames}.

(** What [TokioResolver::lookup] returns. *)
Inductive ForwardLookup : Type :=
| FlAnswers (answers authorities : list DRecord)
| FlNoRecords (soa : option DRecord) (rcode : ResponseCode)
| FlError.
(** What [Recursor::resolve] returns. *)
Inductive RecurseLookup : Type :=
| RlMessage (answers authorities : list DRecord) (rcode : ResponseCode)
| RlError.

(** hickory's resolvers: building one may fail. *)
Class HickoryResolvers := {
  TokioResolver : Type;
  build_resolver : list NameServerConfig -> ResolverOpts -> option TokioResolver;
  Recursor : Type;
  recursor_new : list IpAddr -> bool -> Z -> option Recursor;
}.
Context `{RES : !HickoryResolvers}.

(** What the network answers while a query is served. *)
Record Network : Type := mkNetwork {
  net_forward : TokioResolver -> Name -> RecordType -> ForwardLookup;
  net_recurse : Recursor -> Name -> RecordType -> RecurseLookup }.

Record UpstreamResult : Type := mkUpstreamResult {
  up_answers : list DRecord; up_authority : list DRecord; up_rcode : ResponseCode }.

Inductive Upstream : Type := UpForward (r : TokioResolver) | UpRecurse (r : Recursor).

(** ** Building *)

Definition connections_of (f : Forwarder) : list ConnectionConfig :=
  let name := default (fw_addr f) (fw_tls_name f) in
  match fw_protocol f with
  | Udp => [mkConnection TrUdp (fw_port f); mkConnection TrTcp (fw_port f)]
  | Tcp => [mkConnection TrTcp (fw_port f)]
  | Tls => [mkConnection (TrTls name) (fw_port f)]
  | Https => [mkConnection (TrHttps name) (fw_port f)]
  end.

(** The body of the loop over the forwarders. *)
Definition name_server (f : Forwarder) : option NameServerConfig :=
  (fun ip => mkNameServer ip true (connections_of f)) <$> parse_ip (fw_addr f).

Definition resolver_opts (s : Settings) : ResolverOpts :=
  mkResolverOpts (st_cache_size s)
    (if 0 <? st_cache_min_ttl s then Some (st_cache_min_ttl s) else None)
    (Some (st_cache_max_ttl s)) (Some (st_cache_max_ttl s)) 0 (st_dnssec_validate_upstream s).

Inductive UpstreamError : Type := NoForwarders | BuildFailed | RecursorFailed.

Definition build_forward_resolver (forwarders : list Forwarder) (s : Settings)
    : result TokioResolver UpstreamError :=
  match omap name_server forwarders with
  | [] => Err NoForwarders
  | servers => ok_or (build_resolver servers (resolver_opts s)) BuildFailed
  end.

Definition build_upstream (s : Settings) : result (option Upstream) UpstreamError :=
  match st_resolution_mode s with
  | ResOff => Ok None
  | Forward =>
      let? r := build_forward_resolver (st_forwarders s) s in
      Ok (Some (UpForward r))
  | Recursive =>
      let roots := omap parse_ip ROOT_SERVERS in
      let? r := ok_or (recursor_new roots (st_dnssec_validate_upstream s) (st_cache_size s)) RecursorFailed in
      Ok (Some (UpRecurse r))
  end.

(** ** Resolving *)

Definition resolve_forward (net : Network) (r : TokioResolver) (name : Name) (rtype : RecordType) : UpstreamResult :=
  match net_forward net r name rtype with
  | FlAnswers answers authorities => mkUpstreamResult answers authorities NoError
  | FlNoRecords soa rcode =>
      mkUpstreamResult [] (match soa with Some s => [s] | None => [] end) rcode
  | FlError => mkUpstreamResult [] [] ServFail
  end.

Definition resolve_recurse (net : Network) (r : Recursor) (name : Name) (rtype : RecordType) : UpstreamResult :=
  match net_recurse net r (set_fqdn name) rtype with
  | RlMessage answers authorities rcode => mkUpstreamResult answers authorities rcode
  | RlError => mkUpstreamResult [] [] ServFail
  end.

Definition upstream_resolve (net : Network) (up : Upstream) (name : Name) (rtype : RecordType) : UpstreamResult :=
  match up with
  | UpForward r => resolve_forward net r name rtype
  | UpRecurse r => resolve_recurse net r name rtype
  end.

(** ** Conditional forwarding *)

Record Rule : Type := mkRule { ru_domain : string; ru_label_count : Z; ru_upstream : Upstream }.

(** The body of the loop over the rows. *)
Definition load_rule (s : Settings) (cf : ConditionalForward) : option Rule :=
  if negb (cf_enabled cf) || (length (cf_forwarders cf) =? 0)%nat then None
  else
    let domain := to_ascii_lowercase (trim_end_matches "."%char (cf_domain cf)) in
    match build_forward_resolver (cf_forwarders cf) s with
    | Ok r => Some (mkRule domain (Z.of_nat (length (split "."%char domain))) (UpForward r))
    | Err _ => None
    end.

(** [ConditionalSet] is its vector of rules, most labels first. *)
Definition build_conditional (d : Db) (s : Settings) : list Rule :=
  let cfs := match snd (list_conditional_forwards d) with Ok l => l | Err _ => [] end in
  sort_by_key (fun r => - ru_label_count r) (omap (load_rule s) cfs).

Definition match_for (rules : list Rule) (name : string) : option Upstream :=
  ru_upstream <$> List.find (fun r => domain_covers (ru_domain r) name) rules.

(** The rule chosen covers the name and no rule that covers it has more labels. *)
Lemma match_for_spec d s name up :
  match_for (build_conditional d s) name = Some up ->
  exists r, In r (build_conditional d s) /\ ru_upstream r = up /\ domain_covers (ru_domain r) name = true /\
    forall r', In r' (build_conditional d s) -> domain_covers (ru_domain r') name = true ->
      ru_label_count r' <= ru_label_count r.
Proof.
  unfold match_for. destruct (List.find _ _) as [r|] eqn:E; [|done]. intros [= <-]. exists r.
  pose proof (List.find_some _ _ E) as [Hin Hc]. split_and!; [done..|]. intros r' Hr' Hc'.
  enough (- ru_label_count r <= - ru_label_count r') by lia.
  eapply (find_sorted_least (fun r => - ru_label_count r)); [|exact E|exact Hr'|exact Hc'].
  apply sort_by_key_sorted.
Qed.
End Upstream.
