(* ===== verification/Cache.v ===== *)
(** * The answer cache ([src/dns/cache.rs])

    Time is in nanoseconds.  The persisted file is the JSON text of its entries
    ([Serde]).
    [put] returns [None] where the code panics: [clamp] asserts its bounds. *)

From S2P Require Import Prelude Strs Float Net External Models Serde Documents.

Definition NANOS : Z := 1000000000.

(** [Ord::clamp]: panics unless [lo <= hi]. *)
Definition clamp (n lo hi : Z) : option Z :=
  if lo <=? hi then Some (if n <? lo then lo else if hi <? n then hi else n) else None.

Definition NEGATIVE_TTL : Z := 30.

Section Cache.
Context `{HN : HickoryNames}.

Record CachedAnswer : Type := mkCachedAnswer {
  ca_answers : list DRecord; ca_authority : list DRecord; ca_rcode : ResponseCode }.

Record Entry : Type := mkEntry {
  en_answers : list DRecord; en_authority : list DRecord; en_rcode : ResponseCode; en_expires : Z }.

Record DnsCache : Type := mkDnsCache {
  dc_map : gmap (string * RecordType) Entry; dc_hits : Z; dc_misses : Z;
  dc_cap : Z; dc_min_ttl : Z; dc_max_ttl : Z }.

Definition with_map (m : gmap (string * RecordType) Entry) (c : DnsCache) : DnsCache :=
  mkDnsCache m (dc_hits c) (dc_misses c) (dc_cap c) (dc_min_ttl c) (dc_max_ttl c).

Definition DnsCache_new (cap min_ttl max_ttl : Z) : DnsCache :=
  mkDnsCache ∅ 0 0 (Z.max cap 1) min_ttl (Z.max max_ttl 1).

Definition cache_key (name : Name) (rtype : RecordType) : string * RecordType :=
  (to_ascii_lowercase (trim_end_matches "."%char (Name_to_string name)), rtype).

Definition answer_of (e : Entry) : CachedAnswer := mkCachedAnswer (en_answers e) (en_authority e) (en_rcode e).

Definition cache_get (c : DnsCache) (name : Name) (rtype : RecordType) (now : Z) : DnsCache * option CachedAnswer :=
  let k := cache_key name rtype in
  let miss m := (mkDnsCache m (dc_hits c) (u64_succ (dc_misses c)) (dc_cap c) (dc_min_ttl c) (dc_max_ttl c), None) in
  match dc_map c !! k with
  | Some e =>
      if now <? en_expires e then
        (mkDnsCache (dc_map c) (u64_succ (dc_hits c)) (dc_misses c) (dc_cap c) (dc_min_ttl c) (dc_max_ttl c),
         Some (answer_of e))
      else miss (delete k (dc_map c))
  | None => miss (dc_map c)
  end.

(** [iter().min()]. *)
Definition min_ttl_of (rs : list DRecord) : option Z :=
  match rec_ttl <$> rs with
  | [] => None
  | t :: ts => Some (fold_left Z.min ts t)
  end.

Definition map_len (m : gmap (string * RecordType) Entry) : Z := Z.of_nat (size m).

(** [retain(|_, e| e.expires > now)]. *)
Definition retain_live (now : Z) (m : gmap (string * RecordType) Entry) : gmap (string * RecordType) Entry :=
  filter (fun kv => now < en_expires kv.2) m.

Definition cache_put (c : DnsCache) (name : Name) (rtype : RecordType) (answers authority : list DRecord)
    (rcode : ResponseCode) (now : Z) : option DnsCache :=
  if bool_decide (rcode = ServFail) then Some c
  else
    let raw_ttl := default NEGATIVE_TTL (min_ttl_of (answers ++ authority)) in
    let! ttl := clamp raw_ttl (Z.max (dc_min_ttl c) 1) (dc_max_ttl c) in
    let e := mkEntry answers authority rcode (now + ttl * NANOS) in
    let insert m := with_map (<[cache_key name rtype := e]> m) c in
    if dc_cap c <=? map_len (dc_map c) then
      let m := retain_live now (dc_map c) in
      if dc_cap c <=? map_len m then Some (with_map m c) else Some (insert m)
    else Some (insert (dc_map c)).

Definition cache_stats (c : DnsCache) (now : Z) : Z * Z * Z :=
  (dc_hits c, dc_misses c, map_len (retain_live now (dc_map c))).

Definition cache_clear (c : DnsCache) : DnsCache :=
  mkDnsCache ∅ 0 0 (dc_cap c) (dc_min_ttl c) (dc_max_ttl c).

(** ** Persistence *)

Record Persisted : Type := mkPersisted {
  pe_name : string; pe_rtype : RecordType; pe_rcode : ResponseCode; pe_ttl : Z;
  pe_answers : list DRecord; pe_authority : list DRecord }.

(** The derive on [Persisted], over the crate's on its types. *)
Definition Persisted_codec `{HS : !HickorySerde} : Codec Persisted :=
  struct_codec ["name"; "rtype"; "rcode"; "ttl"; "answers"; "authority"]
    (fun p => [ser str_codec (pe_name p); ser RecordType_codec (pe_rtype p); ser ResponseCode_codec (pe_rcode p);
               ser u32_codec (pe_ttl p); ser (list_codec DRecord_codec) (pe_answers p);
               ser (list_codec DRecord_codec) (pe_authority p)])
    (field* name := field str_codec None in
     field* rtype := field RecordType_codec None in
     field* rcode := field ResponseCode_codec None in
     field* ttl := field u32_codec None in
     field* answers := field (list_codec DRecord_codec) None in
     field* authority := field (list_codec DRecord_codec) None in
     built (mkPersisted name rtype rcode ttl answers authority))
    (fun p => fits RecordType_codec (pe_rtype p) /\ fits ResponseCode_codec (pe_rcode p) /\
       fits u32_codec (pe_ttl p) /\ Forall (fits DRecord_codec) (pe_answers p) /\
       Forall (fits DRecord_codec) (pe_authority p)).

(** [checked_duration_since(now)?.as_secs()], dropped when zero. *)
Definition persist_entry (now : Z) (kv : (string * RecordType) * Entry) : option Persisted :=
  let '((name, rtype), e) := kv in
  if en_expires e <? now then None
  else
    let remaining := (en_expires e - now) / NANOS in
    if remaining =? 0 then None
    else Some (mkPersisted name rtype (en_rcode e) (as_u32 remaining) (en_answers e) (en_authority e)).

(** The entries [save] collects. *)
Definition persisted (c : DnsCache) (now : Z) : list Persisted := omap (persist_entry now) (map_to_list (dc_map c)).

(** [save]: the text it writes to the file. *)
Definition cache_save `{JT : JsonText} `{HS : !HickorySerde} (c : DnsCache) (now : Z) : JsonDoc :=
  json_to_string (ser (list_codec Persisted_codec) (persisted c now)).

(** [serde_json::from_slice::<Vec<Persisted>>]. *)
Definition read_persisted `{JT : JsonText} `{HS : !HickorySerde} (text : JsonDoc) : option (list Persisted) :=
  json_from_str text ≫= de (list_codec Persisted_codec).

Definition load_entry (cap now : Z) (st : gmap (string * RecordType) Entry * Z) (p : Persisted)
    : gmap (string * RecordType) Entry * Z :=
  let '(m, n) := st in
  if (pe_ttl p =? 0) || (cap <=? map_len m) then (m, n)
  else (<[(pe_name p, pe_rtype p) :=
            mkEntry (pe_answers p) (pe_authority p) (pe_rcode p) (now + pe_ttl p * NANOS)]> m, n + 1).
Definition load_entries (c : DnsCache) (entries : list Persisted) (now : Z) : DnsCache * Z :=
  let '(m, n) := fold_left (load_entry (dc_cap c) now) entries (dc_map c, 0) in (with_map m c, n).

(** [load]; [None] is a file that cannot be read. *)
Definition cache_load `{JT : JsonText} `{HS : !HickorySerde} (c : DnsCache) (file : option JsonDoc) (now : Z)
    : DnsCache * Z :=
  match file ≫= read_persisted with
  | None => (c, 0)
  | Some entries => load_entries c entries now
  end.
End Cache.

Section CacheLemmas.
Context `{HN : HickoryNames}.

Lemma clamp_spec n lo hi r : clamp n lo hi = Some r -> lo <= r <= hi.
Proof. unfold clamp. repeat case_goal; try done; intros [= <-]; breflect; lia. Qed.

Lemma clamp_value n lo hi r : clamp n lo hi = Some r -> r = Z.max lo (Z.min n hi) /\ lo <= hi.
Proof. unfold clamp. repeat case_goal; try done; intros [= <-]; breflect; lia. Qed.

(** The seconds an answer is kept before the bounds: the least TTL of its records, or
    thirty when it has none. *)
Definition least_ttl (rs : list DRecord) (t : Z) : Prop :=
  match rs with
  | [] => t = 30
  | _ => (exists r, In r rs /\ t = rec_ttl r) /\ forall r, In r rs -> t <= rec_ttl r
  end.
Lemma fold_min_least l t : let m := fold_left Z.min l t in (m = t \/ In m l) /\ m <= t /\ forall x, In x l -> m <= x.
Proof.
  revert t. induction l as [|x l IH]; intros t; [cbn; split_and!; [auto|lia|done]|]. cbn.
  destruct (IH (Z.min t x)) as (H1 & H2 & H3). split_and!; [|lia|intros y [<-|Hy]; [lia|auto]].
  destruct H1 as [H1|H1]; [|auto]. destruct (Z.min_spec t x) as [[_ E]|[_ E]]; [left|right; left]; congruence.
Qed.
Lemma min_ttl_least rs : least_ttl rs (default NEGATIVE_TTL (min_ttl_of rs)).
Proof.
  destruct rs as [|r rs]; [done|]. unfold min_ttl_of. cbn [fmap list_fmap default].
  destruct (fold_min_least (rec_ttl <$> rs) (rec_ttl r)) as (H1 & H2 & H3). split.
  - destruct H1 as [->|H1]; [exists r; cbn; auto|]. apply list_elem_of_In, list_elem_of_fmap in H1 as (x & E & Hx).
    exists x. split; [right; by apply list_elem_of_In|done].
  - intros x [<-|Hx]; [done|]. apply H3, list_elem_of_In, list_elem_of_fmap. exists x. split; [done|by apply list_elem_of_In].
Qed.

Lemma map_len_insert (m : gmap (string * RecordType) Entry) k e : map_len (<[k := e]> m) <= map_len m + 1.
Proof. unfold map_len. rewrite map_size_insert. destruct (m !! k); cbn; lia. Qed.

Lemma map_len_subseteq (m1 m2 : gmap (string * RecordType) Entry) : m1 ⊆ m2 -> map_len m1 <= map_len m2.
Proof. intros H. apply map_subseteq_size in H. unfold map_len. lia. Qed.

Lemma retain_live_lookup now m k e : retain_live now m !! k = Some e <-> m !! k = Some e /\ now < en_expires e.
Proof. unfold retain_live. by rewrite map_lookup_filter_Some. Qed.

(** ** The invariant *)

Record cache_ok (c : DnsCache) : Prop := {
  cok_cap : 1 <= dc_cap c;
  cok_size : map_len (dc_map c) <= dc_cap c;
}.

Lemma cache_ok_new cap lo hi : cache_ok (DnsCache_new cap lo hi).
Proof. constructor; cbn; [lia|]. unfold map_len. rewrite map_size_empty. lia. Qed.

Lemma cache_ok_with_map c m : cache_ok c -> map_len m <= dc_cap c -> cache_ok (with_map m c).
Proof. intros [H1 _] H2. by constructor. Qed.

Lemma cache_ok_get c name t now : cache_ok c -> cache_ok (fst (cache_get c name t now)).
Proof.
  intros [H1 H2]. unfold cache_get. destruct (dc_map c !! _) as [e|]; [case_goal|]; constructor; cbn; try done.
  pose proof (map_len_subseteq _ _ (delete_subseteq (dc_map c) (cache_key name t))). lia.
Qed.

Lemma cache_ok_clear c : cache_ok c -> cache_ok (cache_clear c).
Proof. intros [H _]. constructor; cbn; [done|]. unfold map_len. rewrite map_size_empty. lia. Qed.

(** What [put] makes of the map. *)
Lemma cache_put_map c name t ans auth rc now c' :
  cache_put c name t ans auth rc now = Some c' ->
  c' = c \/
  exists m, c' = with_map m c /\ (cache_ok c -> map_len m <= dc_cap c) /\
    forall k e, m !! k = Some e -> dc_map c !! k = Some e \/ en_rcode e = rc /\ rc <> ServFail.
Proof.
  unfold cache_put. case_bool_decide as Hrc; [intros [= <-]; auto|]. destruct (clamp _ _ _) as [ttl|]; [|done].
  assert (Hins : forall (m' : gmap (string * RecordType) Entry) k e, <[cache_key name t := mkEntry ans auth rc (now + ttl * NANOS)]> m' !! k = Some e ->
    m' !! k = Some e \/ en_rcode e = rc /\ rc <> ServFail).
  { intros m' k e H. apply lookup_insert_Some in H as [[_ <-]|[_ H]]; auto. }
  pose proof (fun m => map_len_insert m (cache_key name t) (mkEntry ans auth rc (now + ttl * NANOS))) as Hlen.
  assert (Hlive : forall k e, retain_live now (dc_map c) !! k = Some e -> dc_map c !! k = Some e).
  { intros k e H. by apply retain_live_lookup in H as [? _]. }
  destruct (Z.leb_spec (dc_cap c) (map_len (dc_map c)));
    [destruct (Z.leb_spec (dc_cap c) (map_len (retain_live now (dc_map c))))|]; intros [= <-]; right;
    (eexists; split; [reflexivity|]); split.
  - intros Hc. transitivity (map_len (dc_map c)); [apply map_len_subseteq, map_filter_subseteq|apply Hc].
  - intros k e H1. left. by apply Hlive.
  - intros _. etransitivity; [apply Hlen|lia].
  - intros k e H1. apply Hins in H1 as [H1|H1]; [left; by apply Hlive|by right].
  - intros _. etransitivity; [apply Hlen|lia].
  - intros k e H1. by apply Hins.
Qed.

Lemma cache_ok_put c name t ans auth rc now c' :
  cache_ok c -> cache_put c name t ans auth rc now = Some c' -> cache_ok c'.
Proof.
  intros Hc Hp. apply cache_put_map in Hp as [->|(m & -> & Hm & _)]; [done|]. apply cache_ok_with_map; auto.
Qed.

(** ** Loading what was saved *)

Definition persisted_key (p : Persisted) : string * RecordType := (pe_name p, pe_rtype p).
Definition entry_from (now : Z) (p : Persisted) : Entry :=
  mkEntry (pe_answers p) (pe_authority p) (pe_rcode p) (now + pe_ttl p * NANOS).

Lemma load_entry_eq cap now m n p :
  load_entry cap now (m, n) p =
  if (pe_ttl p =? 0) || (cap <=? map_len m) then (m, n)
  else (<[persisted_key p := entry_from now p]> m, n + 1).
Proof. done. Qed.

(** What loading adds: at most the entries of the file. *)
Lemma load_entries_sound cap now file m n :
  map_len m <= cap ->
  let r := fold_left (load_entry cap now) file (m, n) in
  map_len (fst r) <= cap /\
  forall k e, fst r !! k = Some e -> m !! k = Some e \/ exists p, In p file /\ persisted_key p = k /\ e = entry_from now p.
Proof.
  revert m n. induction file as [|p file IH]; intros m n Hm; [cbn; auto|]. cbn [fold_left]. rewrite load_entry_eq.
  destruct ((pe_ttl p =? 0) || (cap <=? map_len m)) eqn:E.
  - destruct (IH m n Hm) as [H1 H2]. split; [done|]. intros k e Hk. destruct (H2 k e Hk) as [?|(q & ? & ? & ?)]; [auto|].
    right. exists q. cbn. auto.
  - breflect. destruct (IH (<[persisted_key p := entry_from now p]> m) (n + 1)) as [H1 H2].
    { etransitivity; [apply map_len_insert|lia]. }
    split; [done|]. intros k e Hk. destruct (H2 k e Hk) as [Hi|(q & ? & ? & ?)]; [|right; exists q; cbn; auto].
    apply lookup_insert_Some in Hi as [[<- <-]|[_ ?]]; [right; exists p; cbn; auto|auto].
Qed.

(** With room for the whole file and distinct keys, every entry is loaded. *)
Lemma load_entries_complete cap now file m n :
  Forall (fun p => pe_ttl p <> 0) file -> NoDup (persisted_key <$> file) ->
  map_len m + Z.of_nat (length file) <= cap ->
  forall p, In p file -> fst (fold_left (load_entry cap now) file (m, n)) !! persisted_key p = Some (entry_from now p).
Proof.
  revert m n. induction file as [|q file IH]; intros m n Hf Hnd Hm p Hp; [done|].
  apply Forall_cons in Hf as [Hq Hf]. rewrite fmap_cons, NoDup_cons in Hnd. destruct Hnd as [Hnq Hnd].
  cbn [length] in Hm. cbn [fold_left]. rewrite load_entry_eq.
  destruct (Z.eqb_spec (pe_ttl q) 0); [done|]. destruct (Z.leb_spec cap (map_len m)); [lia|]. cbn [orb].
  pose proof (map_len_insert m (persisted_key q) (entry_from now q)) as Hi.
  destruct Hp as [->|Hp]; [|apply IH; [done|done|lia|done]].
  assert (forall fs m' n', persisted_key p ∉ persisted_key <$> fs ->
    fst (fold_left (load_entry cap now) fs (m', n')) !! persisted_key p = m' !! persisted_key p) as Hkeep.
  { clear. induction fs as [|x fs IH]; intros m' n' Hn; [done|]. cbn [fold_left]. rewrite load_entry_eq.
    rewrite fmap_cons, not_elem_of_cons in Hn. destruct Hn. destruct (_ || _); rewrite IH by done; [done|].
    by rewrite lookup_insert_ne. }
  rewrite Hkeep by done. apply lookup_insert_eq.
Qed.

Lemma in_persisted c now p :
  In p (persisted c now) <->
  exists e, dc_map c !! persisted_key p = Some e /\ persist_entry now (persisted_key p, e) = Some p.
Proof.
  unfold persisted. rewrite <- list_elem_of_In, list_elem_of_omap. split.
  - intros ([[name t] e] & Hin & Hp). apply elem_of_map_to_list in Hin. exists e.
    assert (persisted_key p = (name, t)) as ->; [|done]. cbn in Hp. by repeat case_hyp Hp; simplify_eq.
  - intros (e & He & Hp). exists (persisted_key p, e). split; [by apply elem_of_map_to_list|done].
Qed.

Lemma NoDup_persisted c now : NoDup (persisted_key <$> persisted c now).
Proof.
  unfold persisted. pose proof (NoDup_fst_map_to_list (dc_map c)) as H.
  induction (map_to_list (dc_map c)) as [|[k e] l IH]; [constructor|].
  rewrite fmap_cons, NoDup_cons in H. destruct H as [Hk H]. cbn [omap list_omap].
  destruct (persist_entry now (k, e)) as [p|] eqn:Ep; [|by apply IH].
  rewrite fmap_cons, NoDup_cons. split; [|by apply IH]. intros Hin.
  apply list_elem_of_fmap in Hin as (q & Hq & Hin). apply list_elem_of_omap in Hin as ([k' e'] & Hin & Hp').
  apply Hk. apply list_elem_of_fmap. exists (k', e'). split; [|done]. cbn [fst].
  assert (forall k0 e0 p0, persist_entry now (k0, e0) = Some p0 -> persisted_key p0 = k0) as Hkey.
  { intros [n0 t0] e0 p0 H0. cbn in H0. by repeat case_hyp H0; simplify_eq. }
  rewrite <- (Hkey _ _ _ Ep), <- (Hkey _ _ _ Hp'). done.
Qed.

Lemma length_persisted c now : Z.of_nat (length (persisted c now)) <= map_len (dc_map c).
Proof.
  unfold persisted, map_len. rewrite <- length_map_to_list.
  induction (map_to_list (dc_map c)) as [|x l IH]; [done|]. cbn [omap list_omap length].
  destruct (persist_entry now x); cbn [length]; lia.
Qed.

Lemma load_entries_map c entries now :
  dc_map (fst (load_entries c entries now)) = fst (fold_left (load_entry (dc_cap c) now) entries (dc_map c, 0)).
Proof. unfold load_entries. by destruct (fold_left _ _ _). Qed.
Lemma load_entries_eq c entries now :
  fst (load_entries c entries now) = with_map (dc_map (fst (load_entries c entries now))) c.
Proof. unfold load_entries. by destruct (fold_left _ _ _). Qed.

(** ** The file *)

Section File.
Context `{JT : JsonText} `{HS : !HickorySerde}.

(** What loading makes of a cache, whatever the file holds. *)
Lemma cache_load_any c file now :
  fst (cache_load c file now) = c \/
  exists text entries, file = Some text /\ read_persisted text = Some entries /\
    fst (cache_load c file now) = fst (load_entries c entries now).
Proof.
  unfold cache_load. destruct file as [text|]; cbn; [|by left].
  destruct (read_persisted text) as [entries|] eqn:E; [right; by exists text, entries|by left].
Qed.

Lemma cache_ok_load c file now : cache_ok c -> cache_ok (fst (cache_load c file now)).
Proof.
  intros Hc. destruct (cache_load_any c file now) as [->|(text & entries & _ & _ & ->)]; [done|].
  rewrite load_entries_eq. apply cache_ok_with_map; [done|]. rewrite load_entries_map.
  apply load_entries_sound, Hc.
Qed.

(** ** Reachable caches *)

(** The states of a cache over the life of the program, restarts included; a restart
    reads any of [files]. *)
Inductive cache_reachable (files : JsonDoc -> Prop) : DnsCache -> Prop :=
| cr_new cap lo hi : cache_reachable files (DnsCache_new cap lo hi)
| cr_get c name t now : cache_reachable files c -> cache_reachable files (fst (cache_get c name t now))
| cr_put c name t ans auth rc now c' :
    cache_reachable files c -> cache_put c name t ans auth rc now = Some c' -> cache_reachable files c'
| cr_clear c : cache_reachable files c -> cache_reachable files (cache_clear c)
| cr_load c text now :
    cache_reachable files c -> files text -> cache_reachable files (fst (cache_load c (Some text) now)).

(** over every sequence of lookups, insertions, clears and loads of any file, the
    cache never holds more entries than its capacity; a server failure is never
    put in it, so it holds one only when a file it loaded did. *)
Theorem cache_invariant files c :
  cache_reachable files c ->
  map_len (dc_map c) <= dc_cap c /\
  ((forall text entries p, files text -> read_persisted text = Some entries -> In p entries -> pe_rcode p <> ServFail) ->
   forall k e, dc_map c !! k = Some e -> en_rcode e <> ServFail).
Proof.
  intros Hr. enough (cache_ok c /\
    ((forall text entries p, files text -> read_persisted text = Some entries -> In p entries -> pe_rcode p <> ServFail) ->
     forall k e, dc_map c !! k = Some e -> en_rcode e <> ServFail)) as [[] H] by done.
  induction Hr as [cap lo hi|c name t now _ [Hc IH]|c name t ans auth rc now c' _ [Hc IH] Hp|c _ [Hc IH]
                  |c text now _ [Hc IH] Hf].
  - split; [apply cache_ok_new|]. intros _ k e H. cbn in H. by rewrite lookup_empty in H.
  - split; [by apply cache_ok_get|]. intros Hfiles k e H. apply (IH Hfiles k). revert H. unfold cache_get.
    destruct (dc_map c !! _) as [x|]; [case_goal|]; cbn; try done. intros H. by apply lookup_delete_Some in H as [_ H].
  - split; [by eapply cache_ok_put|]. intros Hfiles k e H.
    apply cache_put_map in Hp as [->|(m & -> & _ & Hm)]; [by apply (IH Hfiles k)|].
    apply Hm in H as [H|[-> ?]]; [by apply (IH Hfiles k)|done].
  - split; [by apply cache_ok_clear|]. intros _ k e H. cbn in H. by rewrite lookup_empty in H.
  - split; [by apply cache_ok_load|]. intros Hfiles k e.
    destruct (cache_load_any c (Some text) now) as [->|(text' & entries & [= <-] & Hread & ->)]; [by apply IH|].
    rewrite load_entries_map. intros H.
    destruct (load_entries_sound (dc_cap c) now entries (dc_map c) 0) as [_ H2]; [apply Hc|].
    apply H2 in H as [H|(p & Hp & _ & ->)]; [by apply (IH Hfiles k)|]. by apply (Hfiles text entries).
Qed.
End File.

(** What [put] stores when there is room. *)
Lemma cache_put_room c name t ans auth rc now c' :
  cache_put c name t ans auth rc now = Some c' -> rc <> ServFail ->
  map_len (retain_live now (dc_map c)) < dc_cap c ->
  exists ttl m, clamp (default NEGATIVE_TTL (min_ttl_of (ans ++ auth))) (Z.max (dc_min_ttl c) 1) (dc_max_ttl c) = Some ttl /\
    c' = with_map (<[cache_key name t := mkEntry ans auth rc (now + ttl * NANOS)]> m) c /\
    (m = dc_map c \/ m = retain_live now (dc_map c)).
Proof.
  unfold cache_put. intros Hput Hrc Hroom. rewrite bool_decide_eq_false_2 in Hput by done.
  destruct (clamp _ _ _) as [ttl|] eqn:Et; [|done]. exists ttl.
  destruct (Z.leb_spec (dc_cap c) (map_len (dc_map c)));
    [destruct (Z.leb_spec (dc_cap c) (map_len (retain_live now (dc_map c)))); [lia|]|];
    injection Hput as <-; eauto 6.
Qed.

(** an upstream answer that finds room is served unchanged until its TTL runs out,
    and not after; the TTL lies between the configured bounds (at least one
    second), and every other name and type is answered as before. *)
Theorem cache_put_get c name t ans auth rc now c' :
  cache_put c name t ans auth rc now = Some c' -> rc <> ServFail ->
  map_len (retain_live now (dc_map c)) < dc_cap c ->
  exists ttl, Z.max (dc_min_ttl c) 1 <= ttl <= dc_max_ttl c /\
    clamp (default NEGATIVE_TTL (min_ttl_of (ans ++ auth))) (Z.max (dc_min_ttl c) 1) (dc_max_ttl c) = Some ttl /\
    forall name' t' later,
      now <= later ->
      snd (cache_get c' name' t' later) =
      if decide (cache_key name' t' = cache_key name t) then
        if later <? now + ttl * NANOS then Some (mkCachedAnswer ans auth rc) else None
      else snd (cache_get c name' t' later).
Proof.
  intros Hput Hrc Hroom. destruct (cache_put_room _ _ _ _ _ _ _ _ Hput Hrc Hroom) as (ttl & m & Et & -> & Hm).
  exists ttl. split; [by eapply clamp_spec|]. split; [done|].
  intros name' t' later Hl. unfold cache_get at 1. cbn [dc_map with_map].
  destruct (decide (cache_key name' t' = cache_key name t)) as [->|Hne].
  - rewrite lookup_insert_eq. cbn [en_expires]. by destruct (later <? _).
  - rewrite lookup_insert_ne by done. unfold cache_get. destruct Hm as [->| ->].
    + by destruct (dc_map c !! cache_key name' t') as [x|]; [destruct (later <? en_expires x)|].
    + destruct (retain_live now (dc_map c) !! cache_key name' t') as [x|] eqn:Ex.
      * apply retain_live_lookup in Ex as [-> _]. by destruct (later <? en_expires x).
      * destruct (dc_map c !! cache_key name' t') as [x|] eqn:Ey; [|done].
        destruct (Z.ltb_spec later (en_expires x)); [|done].
        assert (retain_live now (dc_map c) !! cache_key name' t' = Some x); [|congruence].
        apply retain_live_lookup. split; [done|lia].
Qed.

(** storing an answer fails (the clamp asserts) exactly when the answer is not a
    server failure and the configured minimum TTL, or one second, exceeds the
    maximum. *)
Theorem cache_put_panic c name t ans auth rc now :
  cache_put c name t ans auth rc now = None <-> rc <> ServFail /\ dc_max_ttl c < Z.max (dc_min_ttl c) 1.
Proof.
  unfold cache_put. case_bool_decide as Hrc; [naive_solver|].
  destruct (clamp _ _ _) as [ttl|] eqn:Et.
  - apply clamp_spec in Et. cbv zeta. split; [by repeat case_goal|]. lia.
  - unfold clamp in Et. case_hyp Et; [done|]. breflect. split; [intros _; split; [done|lia]|done].
Qed.

(** The TTL written is the whole seconds left, at least one. *)
Lemma persist_entry_ttl t0 t1 k e p :
  en_expires e <= t0 + u32_max * NANOS -> persist_entry t0 (k, e) = Some p ->
  1 <= (en_expires e - t0) / NANOS /\ pe_ttl p = (en_expires e - t0) / NANOS /\
  answer_of (entry_from t1 p) = answer_of e.
Proof.
  destruct k as [n0 t2]. intros Hu Hp. cbn in Hp. repeat case_hyp Hp; try done. injection Hp as <-. cbn. breflect.
  assert (0 <= (en_expires e - t0) / NANOS <= u32_max) as [? ?].
  { unfold NANOS, u32_max in *. split; [apply Z.div_pos; lia|]. apply Z.div_le_upper_bound; lia. }
  split_and!; [lia| |done]. unfold as_u32. apply Z.mod_small. unfold u32_max in *. lia.
Qed.

(** An entry with a whole second left is written. *)
Lemma persist_entry_some t0 k e : 1 <= (en_expires e - t0) / NANOS -> exists p, persist_entry t0 (k, e) = Some p.
Proof.
  destruct k as [n0 t2]. intros H. cbn. destruct (Z.ltb_spec (en_expires e) t0).
  - pose proof (Z.div_lt_upper_bound (en_expires e - t0) NANOS 0). unfold NANOS in *. lia.
  - destruct (Z.eqb_spec ((en_expires e - t0) / NANOS) 0); [lia|eauto].
Qed.

(** The types of the crate that a cache holds fit the file. *)
Definition cache_fits `{HS : !HickorySerde} (c : DnsCache) : Prop :=
  forall name t e, dc_map c !! (name, t) = Some e ->
    fits RecordType_codec t /\ fits ResponseCode_codec (en_rcode e) /\
    Forall (fits DRecord_codec) (en_answers e) /\ Forall (fits DRecord_codec) (en_authority e).

Section SaveLoad.
Context `{JT : JsonText} `{HS : !HickorySerde} `{HSL : !HickorySerdeLaws HS}.

Lemma fits_records l : Forall (fits DRecord_codec) l -> fits (list_codec DRecord_codec) l.
Proof. done. Qed.
#[local] Hint Resolve fits_records : codec.

#[export] Instance Persisted_codec_ok : CodecOk 102 Persisted_codec.
Proof.
  apply struct_codec_ok; [distinct|done|intros p (H1 & H2 & H3 & H4 & H5)..]; [read_fields p|fields_printable].
Qed.

(** The file of a cache is read as the entries it was written from. *)
Lemma read_cache_save `{JTL : !JsonTextLaws JT} c now : cache_fits c -> read_persisted (cache_save c now) = Some (persisted c now).
Proof.
  intros Hfit. assert (Hf : fits (list_codec Persisted_codec) (persisted c now)).
  { apply List.Forall_forall. intros p Hp. apply in_persisted in Hp as (e & He & Hp).
    apply Hfit in He as (H1 & H2 & H3 & H4). cbn in Hp. repeat case_hyp Hp; try done. injection Hp as <-. cbn.
    pose proof (Z.mod_pos_bound ((en_expires e - now) / NANOS) 4294967296). unfold as_u32. split_and!; [done|done|lia|lia|done|done]. }
  unfold read_persisted, cache_save. rewrite json_text_roundtrip.
  - cbn [mbind option_bind]. by apply (@de_ser _ 103 (list_codec Persisted_codec) _).
  - apply (printable_le 103); [unfold json_depth; lia|]. by apply (@ser_printable _ 103 (list_codec Persisted_codec) _).
Qed.

(** C30: a cache saved at [t0] as a JSON file and loaded from it at [t1] into an
    empty one of the same capacity answers from the saved entries only, and never
    for longer than they had left; an entry with at least one second left is
    served again for the whole seconds it had.  The assumptions are that
    [serde_json] reads back what it prints, that the types of hickory the cache
    holds read back from what they are written as ([cache_fits]), and that no
    entry has more than a [u32] of seconds left. *)
Theorem cache_save_load `{JTL : !JsonTextLaws JT} c t0 t1 lo hi name t :
  cache_ok c -> cache_fits c ->
  (forall k e, dc_map c !! k = Some e -> en_expires e <= t0 + u32_max * NANOS) ->
  let c' := fst (cache_load (DnsCache_new (dc_cap c) lo hi) (Some (cache_save c t0)) t1) in
  (forall dt a, 0 <= dt -> snd (cache_get c' name t (t1 + dt)) = Some a ->
     exists e, dc_map c !! cache_key name t = Some e /\ a = answer_of e /\ dt < en_expires e - t0) /\
  (forall e dt, dc_map c !! cache_key name t = Some e -> 0 <= dt < (en_expires e - t0) / NANOS * NANOS ->
     snd (cache_get c' name t (t1 + dt)) = Some (answer_of e)).
Proof.
  intros Hc Hfit Hu c'. assert (Hcap : Z.max (dc_cap c) 1 = dc_cap c) by (destruct Hc; lia).
  assert (c' = fst (load_entries (DnsCache_new (dc_cap c) lo hi) (persisted c t0) t1)) as ->.
  { unfold c', cache_load. cbn [mbind option_bind]. by rewrite read_cache_save. }
  split.
  - intros dt a Hdt. unfold cache_get. destruct (dc_map _ !! cache_key name t) as [x|] eqn:Ex; [|done].
    destruct (Z.ltb_spec (t1 + dt) (en_expires x)) as [Hlt|]; [|done]. intros [= <-].
    rewrite load_entries_map in Ex.
    apply load_entries_sound in Ex as [Ex|(p & Hp & Hk & ->)];
      [by cbn in Ex; rewrite lookup_empty in Ex| |unfold map_len; cbn; rewrite map_size_empty; lia].
    apply in_persisted in Hp as (e & He & Hp). rewrite Hk in He, Hp. exists e.
    destruct (persist_entry_ttl t0 t1 _ _ _ (Hu _ _ He) Hp) as (H1 & H2 & H3). split_and!; [done|done|]. cbn [en_expires entry_from] in Hlt.
    rewrite H2 in Hlt. pose proof (Z.mul_div_le (en_expires e - t0) NANOS). unfold NANOS in *. lia.
  - intros e dt He Hdt. unfold cache_get.
    destruct (persist_entry_some t0 (cache_key name t) e) as [p Ep]; [unfold NANOS in *; nia|].
    assert (persisted_key p = cache_key name t) as Hkey by (cbn in Ep; by repeat case_hyp Ep; simplify_eq).
    destruct (persist_entry_ttl t0 t1 _ _ _ (Hu _ _ He) Ep) as (H1 & H2 & H3).
    rewrite load_entries_map, <- Hkey, (load_entries_complete _ t1 (persisted c t0)).
    + cbn [en_expires entry_from]. rewrite H2.
      destruct (Z.ltb_spec (t1 + dt) (t1 + (en_expires e - t0) / NANOS * NANOS)); [by rewrite H3|lia].
    + apply List.Forall_forall. intros q Hq. apply in_persisted in Hq as (e' & He' & Hq).
      destruct (persist_entry_ttl t0 t1 _ _ _ (Hu _ _ He') Hq) as (? & ? & _). lia.
    + apply NoDup_persisted.
    + cbn [dc_map dc_cap DnsCache_new]. pose proof (length_persisted c t0). destruct Hc.
      unfold map_len at 1. rewrite map_size_empty. lia.
    + apply in_persisted. exists e. by rewrite Hkey.
Qed.
End SaveLoad.
End CacheLemmas.
