(* ===== verification/Stats.v ===== *)
(** * Query statistics ([src/stats.rs])

    The counters, the per-second series, the bounded maps, the recent-query ring
    and the server's own location, and what is shown of them.  Seconds since the
    start are a parameter of the operations. *)

From S2P Require Import Prelude Strs Float Net External Models.

Definition RECENT_CAPACITY : Z := 200.
Definition LATENCY_CAPACITY : Z := 4000.
Definition SERIES_WINDOW : Z := 300.
Definition SERIES_OUTPUT : Z := 60.
Definition TOP_TRACK_CAP : Z := 5000.
Definition RESOLVED_CAP : Z := 5000.
Definition TOP_RETURN : nat := 20.

Inductive QueryOutcome : Type :=
| QAuthoritative | QForwarded | QCached | QNxDomain | QRefused | QServFail | QBlocked | QRewritten | QDangerous.
#[export] Instance QueryOutcome_eq_dec : EqDecision QueryOutcome.
Proof. solve_decision. Defined.

Definition outcome_str (o : QueryOutcome) : string :=
  match o with
  | QAuthoritative => "authoritative" | QForwarded => "forwarded" | QCached => "cached" | QNxDomain => "nxdomain"
  | QRefused => "refused" | QServFail => "servfail" | QBlocked => "blocked" | QRewritten => "rewritten"
  | QDangerous => "dangerous"
  end.

Record RecentQuery : Type := mkRecentQuery {
  rq_at : string; rq_client : string; rq_view : option string; rq_name : string; rq_qtype : string;
  rq_outcome : string; rq_rcode : string }.

Record Counters : Type := mkCounters {
  ct_total : Z; ct_authoritative : Z; ct_forwarded : Z; ct_cached : Z; ct_nxdomain : Z; ct_refused : Z;
  ct_servfail : Z; ct_blocked : Z; ct_dangerous : Z; ct_dnssec_failures : Z; ct_ipv4 : Z; ct_ipv6 : Z }.

(** ** The per-second series *)

Record Series : Type := mkSeries { se_buckets : list Z; se_last_sec : Z }.

Definition Series_new : Series := mkSeries (replicate (Z.to_nat SERIES_WINDOW) 0) 0.

Definition slot (sec : Z) : nat := Z.to_nat (sec mod SERIES_WINDOW).
Definition bucket (b : list Z) (sec : Z) : Z := default 0 (b !! slot sec).

(** The loop that zeroes the skipped seconds [last + 1 .. last + gap]. *)
Definition clear_slots (last gap : Z) (b : list Z) : list Z :=
  fold_left (fun b i => <[slot (last + i) := 0]> b) (seqZ 1 gap) b.

(** [sec] is read under the series' lock, so it is never before [last_sec]; were it,
    the subtraction would wrap around and the whole ring be cleared. *)
Definition bump (s : Series) (sec : Z) : Series :=
  let b := if sec =? se_last_sec s then se_buckets s
           else clear_slots (se_last_sec s) (Z.min (u64_sub sec (se_last_sec s)) SERIES_WINDOW) (se_buckets s) in
  mkSeries (<[slot sec := bucket b sec + 1]> b) sec.

Definition series_at (s : Series) (sec : Z) : Z :=
  if se_last_sec s <? sec then 0 else bucket (se_buckets s) sec.

(** [start..=now_sec] with the saturating subtraction. *)
Definition last_seconds (now_sec window : Z) : list Z :=
  let start := Z.max (now_sec - (window - 1)) 0 in seqZ start (now_sec - start + 1).

Definition series_recent (s : Series) (now_sec : Z) : list Z :=
  series_at s <$> last_seconds now_sec SERIES_OUTPUT.
(** The sum [qps] divides by the window. *)
Definition qps_sum (s : Series) (now_sec window : Z) : Z :=
  fold_right Z.add 0 (series_at s <$> last_seconds now_sec window).
Definition qps (s : Series) (now_sec window : Z) : f64 :=
  f64_div (f64_of_Z (qps_sum s now_sec window)) (f64_of_Z window).

(** ** The statistics *)

Record OriginGeo : Type := mkOriginGeo {
  og_ip : string; og_lat : f64; og_lon : f64; og_city : string; og_country : string }.

Record Stats : Type := mkStats {
  sts_counters : Counters; sts_by_qtype : gmap string Z; sts_recent : list RecentQuery;
  sts_top_domains : gmap string Z; sts_top_blocked : gmap string Z; sts_series : Series;
  sts_latencies : list Z; sts_resolved : gmap IpAddr Z; sts_blocked_dest : gmap IpAddr Z;
  sts_blocked_client : gmap IpAddr Z; sts_blocklist_hits : gmap Z Z;
  sts_origin : option OriginGeo }.

Definition Stats_new : Stats :=
  mkStats (mkCounters 0 0 0 0 0 0 0 0 0 0 0 0) ∅ [] ∅ ∅ Series_new [] ∅ ∅ ∅ ∅ None.

Definition is_global (ip : IpAddr) : bool :=
  match ip with
  | V4 a =>
      negb (v4_is_private a || v4_is_loopback a || v4_is_link_local a || v4_is_broadcast a
            || v4_is_documentation a || (a =? UNSPECIFIED) || v4_is_multicast a || (oct4 a 0 =? 0)
            || ((oct4 a 0 =? 100) && (Z.land (oct4 a 1) 192 =? 64)))
  | V6 a =>
      negb (v6_is_loopback a || (a =? 0) || v6_is_multicast a
            || (Z.land (seg a 0) 65472 =? 65152) || (Z.land (seg a 0) 65024 =? 64512)
            || ((seg a 0 =? 8193) && (seg a 1 =? 3512)))
  end.

Definition anonymize (ip : IpAddr) : string :=
  match ip with
  | V4 a => show_u (oct4 a 0) +:+ "." +:+ show_u (oct4 a 1) +:+ "." +:+ show_u (oct4 a 2) +:+ ".0/24"
  | V6 a => hex16 (seg a 0) +:+ ":" +:+ hex16 (seg a 1) +:+ ":" +:+ hex16 (seg a 2) +:+ "::/48"
  end.

(** [*m.entry(k).or_insert(0) += 1]. *)
Definition incr {K} `{Countable K} (k : K) (m : gmap K Z) : gmap K Z := <[k := default 0 (m !! k) + 1]> m.
(** The same, unless the map is full and does not have the key. *)
Definition incr_capped {K} `{Countable K} (cap : Z) (k : K) (m : gmap K Z) : gmap K Z :=
  if (Z.of_nat (size m) <? cap) || bool_decide (is_Some (m !! k)) then incr k m else m.

(** [if r.len() == cap { r.pop_front() }; r.push_back(x)]. *)
Definition ring_push {A} (cap : Z) (x : A) (r : list A) : list A :=
  (if Z.of_nat (length r) =? cap then drop 1 r else r) ++ [x].

Definition count_query (c : Counters) (client : IpAddr) (o : QueryOutcome) : Counters :=
  let hit b n := if b : bool then u64_succ n else n in
  mkCounters (u64_succ (ct_total c))
    (hit (bool_decide (o = QAuthoritative) || bool_decide (o = QRewritten)) (ct_authoritative c))
    (hit (bool_decide (o = QForwarded)) (ct_forwarded c)) (hit (bool_decide (o = QCached)) (ct_cached c))
    (hit (bool_decide (o = QNxDomain)) (ct_nxdomain c)) (hit (bool_decide (o = QRefused)) (ct_refused c))
    (hit (bool_decide (o = QServFail)) (ct_servfail c)) (hit (bool_decide (o = QBlocked)) (ct_blocked c))
    (hit (bool_decide (o = QDangerous)) (ct_dangerous c)) (ct_dnssec_failures c)
    (hit (is_ipv4 client) (ct_ipv4 c)) (hit (negb (is_ipv4 client)) (ct_ipv6 c)).

(** [record]; [ts] is the clock's text, [sec] the seconds since the start. *)
Definition stats_record (ts : string) (sec : Z) (mode : QueryLog) (client : IpAddr) (view : option string)
    (name qtype : string) (outcome : QueryOutcome) (rcode : string) (s : Stats) : Stats * option RecentQuery :=
  let c := count_query (sts_counters s) client outcome in
  let q := incr qtype (sts_by_qtype s) in
  let series := bump (sts_series s) sec in
  if bool_decide (mode = QlOff) then
    (mkStats c q (sts_recent s) (sts_top_domains s) (sts_top_blocked s) series (sts_latencies s) (sts_resolved s)
       (sts_blocked_dest s) (sts_blocked_client s) (sts_blocklist_hits s) (sts_origin s), None)
  else
    let tb := if bool_decide (outcome = QBlocked) then incr_capped TOP_TRACK_CAP name (sts_top_blocked s)
              else sts_top_blocked s in
    let td := incr_capped TOP_TRACK_CAP name (sts_top_domains s) in
    let client_text := if bool_decide (mode = Full) then show_ip client else anonymize client in
    let entry := mkRecentQuery ts client_text view name qtype (outcome_str outcome) rcode in
    (mkStats c q (ring_push RECENT_CAPACITY entry (sts_recent s)) td tb series (sts_latencies s) (sts_resolved s)
       (sts_blocked_dest s) (sts_blocked_client s) (sts_blocklist_hits s) (sts_origin s), Some entry).

Definition record_dnssec_failure (s : Stats) : Stats :=
  let c := sts_counters s in
  mkStats (mkCounters (ct_total c) (ct_authoritative c) (ct_forwarded c) (ct_cached c) (ct_nxdomain c) (ct_refused c)
             (ct_servfail c) (ct_blocked c) (ct_dangerous c) (u64_succ (ct_dnssec_failures c)) (ct_ipv4 c) (ct_ipv6 c))
    (sts_by_qtype s) (sts_recent s) (sts_top_domains s) (sts_top_blocked s) (sts_series s) (sts_latencies s)
    (sts_resolved s) (sts_blocked_dest s) (sts_blocked_client s) (sts_blocklist_hits s) (sts_origin s).

Definition note_ip (m : gmap IpAddr Z) (ip : IpAddr) : gmap IpAddr Z :=
  if negb (is_global ip) then m else incr_capped RESOLVED_CAP ip m.

Definition record_resolved (ips : list IpAddr) (s : Stats) : Stats :=
  mkStats (sts_counters s) (sts_by_qtype s) (sts_recent s) (sts_top_domains s) (sts_top_blocked s) (sts_series s)
    (sts_latencies s) (fold_left note_ip ips (sts_resolved s)) (sts_blocked_dest s) (sts_blocked_client s)
    (sts_blocklist_hits s) (sts_origin s).

Definition record_blocked_dest (ip : IpAddr) (s : Stats) : Stats :=
  mkStats (sts_counters s) (sts_by_qtype s) (sts_recent s) (sts_top_domains s) (sts_top_blocked s) (sts_series s)
    (sts_latencies s) (sts_resolved s) (note_ip (sts_blocked_dest s) ip) (sts_blocked_client s)
    (sts_blocklist_hits s) (sts_origin s).

Definition record_blocked_client (ip : IpAddr) (s : Stats) : Stats :=
  mkStats (sts_counters s) (sts_by_qtype s) (sts_recent s) (sts_top_domains s) (sts_top_blocked s) (sts_series s)
    (sts_latencies s) (sts_resolved s) (sts_blocked_dest s) (note_ip (sts_blocked_client s) ip)
    (sts_blocklist_hits s) (sts_origin s).

Definition record_blocklist_hit (id : Z) (s : Stats) : Stats :=
  mkStats (sts_counters s) (sts_by_qtype s) (sts_recent s) (sts_top_domains s) (sts_top_blocked s) (sts_series s)
    (sts_latencies s) (sts_resolved s) (sts_blocked_dest s) (sts_blocked_client s) (incr id (sts_blocklist_hits s)) (sts_origin s).

(** [record_latency], from microseconds. *)
Definition record_latency (us : Z) (s : Stats) : Stats :=
  mkStats (sts_counters s) (sts_by_qtype s) (sts_recent s) (sts_top_domains s) (sts_top_blocked s) (sts_series s)
    (ring_push LATENCY_CAPACITY (Z.min us u64_max) (sts_latencies s)) (sts_resolved s) (sts_blocked_dest s)
    (sts_blocked_client s) (sts_blocklist_hits s) (sts_origin s).

Definition clear_log (s : Stats) : Stats :=
  mkStats (sts_counters s) (sts_by_qtype s) [] ∅ ∅ (sts_series s) (sts_latencies s) (sts_resolved s)
    (sts_blocked_dest s) (sts_blocked_client s) (sts_blocklist_hits s) (sts_origin s).

Definition set_origin (o : OriginGeo) (s : Stats) : Stats :=
  mkStats (sts_counters s) (sts_by_qtype s) (sts_recent s) (sts_top_domains s) (sts_top_blocked s) (sts_series s)
    (sts_latencies s) (sts_resolved s) (sts_blocked_dest s) (sts_blocked_client s) (sts_blocklist_hits s) (Some o).

(** ** Summaries *)

(** [top_n]: most frequent first, then by name. *)
Definition top_le (a b : string * Z) : bool :=
  (snd b <? snd a) || ((snd a =? snd b) && String.leb (fst a) (fst b)).
Definition top_n (m : gmap string Z) : list (string * Z) := take TOP_RETURN (sort_with top_le (map_to_list m)).

(** The integers of [latency_stats]: count, minimum, average, median, maximum. *)
Definition latency_stats (s : Stats) : Z * Z * Z * Z * Z :=
  let v := sort_by_key (fun x => x) (sts_latencies s) in
  let n := length v in
  if (n =? 0)%nat then (0, 0, 0, 0, 0)
  else
    let at_ i := nth i v 0 in
    let sum := fold_right Z.add 0 v in
    let median := if (n mod 2 =? 1)%nat then at_ (n / 2)%nat else (at_ (n / 2 - 1)%nat + at_ (n / 2)%nat) / 2 in
    (Z.of_nat n, at_ 0%nat, sum / Z.of_nat n, median, at_ (n - 1)%nat).

(** ** The Prometheus text *)

Definition nl : string := String (chr 10) EmptyString.
Definition quoted (s : string) : string := String (chr 34) EmptyString +:+ s +:+ String (chr 34) EmptyString.

Definition prom_head (name help kind : string) : string :=
  "# HELP " +:+ name +:+ " " +:+ help +:+ nl +:+ "# TYPE " +:+ name +:+ " " +:+ kind +:+ nl.
(** The closures [counter] and [gauge]. *)
Definition prom_counter (name help : string) (val : Z) : string :=
  prom_head name help "counter" +:+ name +:+ " " +:+ show_u val +:+ nl.
Definition prom_gauge (name help : string) (val : f64) : string :=
  prom_head name help "gauge" +:+ name +:+ " " +:+ f64_show val +:+ nl.
Definition prom_labelled (name label : string) (x : string * Z) : string :=
  name +:+ "{" +:+ label +:+ "=" +:+ quoted (fst x) +:+ "} " +:+ show_u (snd x) +:+ nl.

(** The entries of a [BTreeMap] in its order. *)
Definition btree_entries {A} (m : gmap string A) : list (string * A) :=
  sort_with (fun a b => String.leb (fst a) (fst b)) (map_to_list m).

(** The outcomes [prometheus] lists. *)
Definition by_outcome (c : Counters) : list (string * Z) :=
  [("authoritative", ct_authoritative c); ("forwarded", ct_forwarded c); ("cached", ct_cached c);
   ("nxdomain", ct_nxdomain c); ("refused", ct_refused c); ("servfail", ct_servfail c); ("blocked", ct_blocked c)].

(** [prometheus], [elapsed] seconds after the start. *)
Definition prometheus (elapsed : Z) (s : Stats) : string :=
  let c := sts_counters s in
  prom_counter "nomina_queries_total" "Total DNS queries handled." (ct_total c) +:+
  prom_counter "nomina_dnssec_validation_failures_total" "Upstream answers rejected by DNSSEC validation."
    (ct_dnssec_failures c) +:+
  prom_head "nomina_queries_by_family" "Queries by client IP family." "counter" +:+
  concat_str (prom_labelled "nomina_queries_by_family" "family" <$> [("ipv4", ct_ipv4 c); ("ipv6", ct_ipv6 c)]) +:+
  prom_head "nomina_queries_by_outcome" "Queries by outcome." "counter" +:+
  concat_str (prom_labelled "nomina_queries_by_outcome" "outcome" <$> by_outcome c) +:+
  prom_head "nomina_queries_by_qtype" "Queries by record type." "counter" +:+
  concat_str (prom_labelled "nomina_queries_by_qtype" "qtype" <$> btree_entries (sts_by_qtype s)) +:+
  prom_gauge "nomina_uptime_seconds" "Process uptime in seconds." (f64_of_Z elapsed) +:+
  prom_gauge "nomina_qps_10s" "Queries per second over the last 10s." (f64_round_to 2 (qps (sts_series s) elapsed 10)) +:+
  prom_gauge "nomina_qps_1m" "Queries per second over the last 60s." (f64_round_to 2 (qps (sts_series s) elapsed 60)).

(** ** Lemmas: the series *)

Lemma slot_bound sec : (slot sec < Z.to_nat SERIES_WINDOW)%nat.
Proof. unfold slot, SERIES_WINDOW. pose proof (Z.mod_pos_bound sec 300). lia. Qed.

(** Two seconds less than a window apart have different slots. *)
Lemma slot_inj s t : slot s = slot t -> s < t -> t - s < SERIES_WINDOW -> False.
Proof.
  unfold slot, SERIES_WINDOW. intros E Hlt Hd. pose proof (Z.mod_pos_bound s 300). pose proof (Z.mod_pos_bound t 300).
  assert (s mod 300 = t mod 300) as Em by lia. pose proof (Z.div_mod s 300). pose proof (Z.div_mod t 300). nia.
Qed.

Lemma clear_kept (f : Z -> nat) l (b : list Z) j :
  (forall i, In i l -> f i <> j) -> fold_left (fun b i => <[f i := 0]> b) l b !! j = b !! j.
Proof.
  revert b. induction l as [|i l IH]; intros b Hl; [done|]. cbn [fold_left]. rewrite IH by (intros; apply Hl; by right).
  apply list_lookup_insert_ne, Hl. by left.
Qed.

Lemma clear_cleared (f : Z -> nat) l (b : list Z) i :
  In i l -> (f i < length b)%nat -> fold_left (fun b i => <[f i := 0]> b) l b !! f i = Some 0.
Proof.
  revert b i. induction l as [|x l IH]; intros b i Hi Hb; [done|]. cbn [fold_left].
  destruct (in_dec Z.eq_dec i l) as [Hin|Hn]; [apply IH; [done|by rewrite length_insert]|].
  destruct Hi as [->|Hi]; [|done]. destruct (in_dec Nat.eq_dec (f i) (List.map f l)) as [Hf|Hf].
  - apply in_map_iff in Hf as (y & Ey & Hy). rewrite <- Ey. apply IH; [done|]. by rewrite length_insert, Ey.
  - rewrite clear_kept; [by apply list_lookup_insert_eq|]. intros y Hy E. apply Hf. rewrite <- E. by apply in_map.
Qed.

Lemma length_clear_slots last gap b : length (clear_slots last gap b) = length b.
Proof.
  unfold clear_slots. generalize (seqZ 1 gap). intros l. revert b.
  induction l as [|i l IH]; intros b; [done|]. cbn. by rewrite IH, length_insert.
Qed.

(** How many queries of the history fell in a second. *)
Definition count_at (history : list Z) (sec : Z) : Z := Z.of_nat (length (List.filter (Z.eqb sec) history)).

(** The series represents a history: the last window of seconds is exact. *)
Record series_repr (s : Series) (history : list Z) : Prop := {
  sr_length : length (se_buckets s) = Z.to_nat SERIES_WINDOW;
  sr_last : 0 <= se_last_sec s;
  sr_past : Forall (fun t => t <= se_last_sec s) history;
  sr_window : forall t, se_last_sec s - SERIES_WINDOW < t <= se_last_sec s -> 0 <= t ->
                bucket (se_buckets s) t = count_at history t;
}.

Lemma count_at_zero history sec : Forall (fun t => t < sec) history -> count_at history sec = 0.
Proof.
  unfold count_at. induction 1 as [|t l Ht _ IH]; [done|]. cbn. destruct (Z.eqb_spec sec t); [lia|done].
Qed.

Lemma count_at_snoc history t sec :
  count_at (history ++ [t]) sec = count_at history sec + (if sec =? t then 1 else 0).
Proof.
  unfold count_at. rewrite List.filter_app, length_app, Nat2Z.inj_add. cbn. by destruct (sec =? t).
Qed.

Lemma series_repr_new : series_repr Series_new [].
Proof.
  constructor; cbn -[replicate]; [apply length_replicate|done|constructor|].
  intros t _ Ht. unfold bucket, Series_new. cbn [se_buckets].
  rewrite lookup_replicate_2 by apply slot_bound. done.
Qed.

(** The buckets after the skipped seconds are cleared, for a second of the new window. *)
Lemma cleared_window s history sec t :
  series_repr s history -> se_last_sec s <= sec -> sec - SERIES_WINDOW < t <= sec -> 0 <= t ->
  bucket (if sec =? se_last_sec s then se_buckets s
          else clear_slots (se_last_sec s) (Z.min (sec - se_last_sec s) SERIES_WINDOW) (se_buckets s)) t =
  count_at history t.
Proof.
  intros Hr Hsec Ht Ht0. destruct (Z.eqb_spec sec (se_last_sec s)) as [->|Hne]; [by apply Hr|].
  set (last := se_last_sec s) in *. unfold bucket, clear_slots.
  destruct (Z.le_gt_cases t last) as [Hle|Hgt].
  - rewrite clear_kept; [apply (sr_window s history Hr); [fold last; unfold SERIES_WINDOW in *; lia|done]|].
    intros i Hi E. apply list_elem_of_In, elem_of_seqZ in Hi. symmetry in E. apply slot_inj in E; [done|lia|lia].
  - rewrite count_at_zero.
    2:{ eapply Forall_impl; [exact (sr_past s history Hr)|]. cbn. fold last. lia. }
    set (gap := Z.min (sec - last) SERIES_WINDOW).
    set (i := (t - last - 1) mod SERIES_WINDOW + 1).
    assert (slot t = slot (last + i)) as ->.
    { unfold slot, i, SERIES_WINDOW. f_equal.
      replace t with (last + 1 + (t - last - 1)) at 1 by lia.
      replace (last + ((t - last - 1) mod 300 + 1)) with (last + 1 + (t - last - 1) mod 300) by lia.
      by rewrite Z.add_mod_idemp_r. }
    rewrite (clear_cleared (fun i => slot (last + i))); [done| |rewrite (sr_length s history Hr); apply slot_bound].
    apply list_elem_of_In, elem_of_seqZ. unfold i, gap, SERIES_WINDOW in *.
    pose proof (Z.mod_pos_bound (t - last - 1) 300). pose proof (Z.mod_le (t - last - 1) 300). lia.
Qed.

Lemma series_repr_bump s history sec :
  series_repr s history -> se_last_sec s <= sec -> is_u64 sec -> series_repr (bump s sec) (history ++ [sec]).
Proof.
  intros Hr Hsec Hu. assert (Hw := cleared_window s history sec). unfold bump.
  assert (u64_sub sec (se_last_sec s) = sec - se_last_sec s) as ->.
  { pose proof (sr_last s history Hr). unfold u64_sub, is_u64 in *. apply Z.mod_small. lia. }
  set (b := if sec =? se_last_sec s then _ else _) in *.
  assert (length b = Z.to_nat SERIES_WINDOW) as Hlen.
  { unfold b. destruct (sec =? se_last_sec s); rewrite ?length_clear_slots; apply Hr. }
  constructor; cbn [se_buckets se_last_sec].
  - by rewrite length_insert.
  - pose proof (sr_last s history Hr). lia.
  - apply Forall_app. split; [|repeat constructor; lia]. eapply Forall_impl; [apply (sr_past s history Hr)|]. cbn. lia.
  - intros t Ht Ht0. rewrite count_at_snoc, <- Hw by done. unfold bucket at 1.
    destruct (Z.eqb_spec t sec) as [->|Hne].
    + rewrite list_lookup_insert_eq by (rewrite Hlen; apply slot_bound). done.
    + rewrite list_lookup_insert_ne; [unfold bucket; lia|]. intros E. symmetry in E. apply slot_inj in E; [done|lia|lia].
Qed.

(** The series after queries at the seconds of a history. *)
Definition series_of (history : list Z) : Series := fold_left bump history Series_new.

Lemma series_of_repr history :
  Forall is_u64 history -> Sorted Z.le history -> series_repr (series_of history) history.
Proof.
  intros Hpos Hs. apply Sorted_StronglySorted in Hs; [|intros x y z; apply Z.le_trans]. revert Hpos Hs.
  enough (forall past s, series_repr s past -> Forall is_u64 history -> Forall (fun t => se_last_sec s <= t) history ->
    StronglySorted Z.le history -> series_repr (fold_left bump history s) (past ++ history)) as H.
  { intros Hpos Hs. apply (H [] Series_new series_repr_new Hpos); [|exact Hs].
    eapply Forall_impl; [exact Hpos|]. unfold is_u64. cbn. lia. }
  induction history as [|t l IH]; intros past s Hr Hp Hf Hs; [by rewrite app_nil_r|].
  cbn [fold_left]. apply Forall_cons in Hp as [Hu Hp]. apply Forall_cons in Hf as [Ht Hf]. apply StronglySorted_inv in Hs as [Hs Hl].
  change (t :: l) with ([t] ++ l). rewrite app_assoc. apply IH; [by apply series_repr_bump|exact Hp|exact Hl|done].
Qed.

(** the rate chart is exact: after queries at any non-decreasing times, the
    series of the last minute and the query counts of a window of at most five
    minutes are the numbers of queries that fell in those seconds. *)
Theorem series_exact history now window :
  Forall (fun t => 0 <= t <= now) history -> is_u64 now -> Sorted Z.le history -> 0 < window <= SERIES_WINDOW ->
  series_recent (series_of history) now = count_at history <$> last_seconds now SERIES_OUTPUT /\
  qps_sum (series_of history) now window = fold_right Z.add 0 (count_at history <$> last_seconds now window).
Proof.
  intros Hf Hu Hs Hw. assert (series_repr (series_of history) history) as Hr.
  { apply series_of_repr; [|done]. eapply Forall_impl; [exact Hf|]. unfold is_u64 in *. cbn. lia. }
  assert (forall w, 0 < w <= SERIES_WINDOW ->
    series_at (series_of history) <$> last_seconds now w = count_at history <$> last_seconds now w) as H.
  { intros w Hw'. apply list_fmap_ext. intros i t Ht. apply list_elem_of_lookup_2, elem_of_seqZ in Ht.
    unfold series_at. destruct (Z.ltb_spec (se_last_sec (series_of history)) t) as [Hlt|Hge].
    - symmetry. apply count_at_zero. eapply Forall_impl; [apply (sr_past _ _ Hr)|]. cbn. lia.
    - apply (sr_window _ _ Hr); [|lia]. split; [|done].
      assert (se_last_sec (series_of history) <= now \/ se_last_sec (series_of history) = 0) as Hlast; [|lia].
      unfold series_of. destruct history as [|x l]; [by right|left]. clear -Hf.
      assert (forall s, se_last_sec s <= now -> se_last_sec (fold_left bump (x :: l) s) <= now) as H.
      { induction Hf as [|y l' Hy _ IH]; intros s Hs; [done|]. cbn [fold_left]. apply IH. cbn. lia. }
      apply Forall_cons in Hf as [Hx _]. apply H. cbn. lia. }
  split; [apply H; unfold SERIES_OUTPUT, SERIES_WINDOW; lia|]. unfold qps_sum. by rewrite H.
Qed.

(** ** Bounded memory *)

Lemma size_incr {K} `{Countable K} (k : K) (m : gmap K Z) :
  size (incr k m) = if decide (is_Some (m !! k)) then size m else S (size m).
Proof.
  unfold incr. rewrite map_size_insert. destruct (m !! k) eqn:E; cbn.
  - by rewrite decide_True by eauto.
  - rewrite decide_False; [done|]. by intros [].
Qed.

Lemma size_incr_capped {K} `{Countable K} cap (k : K) (m : gmap K Z) :
  Z.of_nat (size m) <= cap -> Z.of_nat (size (incr_capped cap k m)) <= cap.
Proof.
  intros Hm. unfold incr_capped. destruct (Z.ltb_spec (Z.of_nat (size m)) cap); cbn [orb]; [|case_bool_decide; [|done]];
    rewrite size_incr; destruct (decide _); (lia || done).
Qed.

Lemma length_ring_push {A} cap (x : A) r :
  0 < cap -> Z.of_nat (length r) <= cap -> Z.of_nat (length (ring_push cap x r)) <= cap.
Proof.
  intros Hc Hr. unfold ring_push. rewrite length_app. cbn [length].
  destruct (Z.eqb_spec (Z.of_nat (length r)) cap); [rewrite length_drop|]; lia.
Qed.

Lemma size_note_ip m ip : Z.of_nat (size m) <= RESOLVED_CAP -> Z.of_nat (size (note_ip m ip)) <= RESOLVED_CAP.
Proof. intros Hm. unfold note_ip. destruct (negb _); [done|]. by apply size_incr_capped. Qed.

(** *** The counters add up *)

(** The sum of a map's values. *)
Definition map_total {K} `{Countable K} (m : gmap K Z) : Z := map_fold (fun _ => Z.add) 0 m.

Lemma map_total_insert {K} `{Countable K} (k : K) n (m : gmap K Z) :
  map_total (<[k := n]> m) = map_total m - default 0 (m !! k) + n.
Proof.
  assert (forall n (m : gmap K Z), m !! k = None -> map_total (<[k := n]> m) = n + map_total m) as Hnew.
  { intros n' m' Hm. unfold map_total. rewrite map_fold_insert_L; [done|intros; lia|done]. }
  destruct (m !! k) as [n0|] eqn:E; cbn; [|rewrite Hnew by done; lia].
  rewrite <- (insert_delete_id m k n0 E) at 2. rewrite <- (insert_delete_eq m k n).
  rewrite !Hnew by apply lookup_delete_eq. lia.
Qed.

Lemma map_total_incr {K} `{Countable K} (k : K) (m : gmap K Z) : map_total (incr k m) = map_total m + 1.
Proof. unfold incr. rewrite map_total_insert. lia. Qed.

(** Equal as 64-bit numbers. *)
Definition same_u64 (a b : Z) : Prop := a mod 2 ^ 64 = b mod 2 ^ 64.

Definition outcome_total (c : Counters) : Z := fold_right Z.add 0 (snd <$> by_outcome c).

(** Every query has one outcome, one family and one type; the list of outcomes lacks
    the dangerous ones. *)
Record counters_ok (c : Counters) (by_qtype : gmap string Z) : Prop := {
  co_outcomes : same_u64 (ct_total c) (outcome_total c + ct_dangerous c);
  co_families : same_u64 (ct_total c) (ct_ipv4 c + ct_ipv6 c);
  co_qtypes : same_u64 (ct_total c) (map_total by_qtype) }.

(** A counter that is counted up is one more, up to a multiple of 2^64. *)
Lemma u64_succ_spec n : exists k, u64_succ n = n + 1 + k * 2 ^ 64.
Proof.
  exists (- ((n + 1) / 2 ^ 64)). change (u64_succ n) with ((n + 1) mod 2 ^ 64).
  pose proof (Z.div_mod (n + 1) (2 ^ 64) ltac:(done)). lia.
Qed.
Lemma same_u64_spec a b : same_u64 a b <-> exists k, a = b + k * 2 ^ 64.
Proof.
  split; [|intros [k ->]; apply Z.mod_add; done]. intros E. exists (a / 2 ^ 64 - b / 2 ^ 64).
  unfold same_u64 in E. pose proof (Z.div_mod a (2 ^ 64) ltac:(done)). pose proof (Z.div_mod b (2 ^ 64) ltac:(done)). lia.
Qed.

(** Both sides are counted up. *)
Lemma same_u64_step a b a' b' k : same_u64 a b -> a' = u64_succ a -> b' = b + 1 + k * 2 ^ 64 -> same_u64 a' b'.
Proof.
  intros [j ->]%same_u64_spec -> ->. destruct (u64_succ_spec (b + j * 2 ^ 64)) as [i ->]. apply same_u64_spec.
  exists (j + i - k). lia.
Qed.

Lemma counters_ok_query c q client o qtype :
  counters_ok c q -> counters_ok (count_query c client o) (incr qtype q).
Proof.
  intros [H1 H2 H3]. split.
  - unfold count_query, outcome_total. cbv zeta. cbn [by_outcome fmap list_fmap snd fold_right
      ct_total ct_authoritative ct_forwarded ct_cached ct_nxdomain ct_refused ct_servfail ct_blocked ct_dangerous].
    destruct o; repeat (case_bool_decide; try done); cbn [orb];
      match goal with |- context [_ + u64_succ ?n] => destruct (u64_succ_spec n) as [k E]
                 | |- context [u64_succ ?n + _] => destruct (u64_succ_spec n) as [k E] end;
      (eapply (same_u64_step _ _ _ _ k H1); [done|]); unfold outcome_total;
      cbn [by_outcome fmap list_fmap snd fold_right]; rewrite E; lia.
  - destruct client; [destruct (u64_succ_spec (ct_ipv4 c)) as [k E]|destruct (u64_succ_spec (ct_ipv6 c)) as [k E]];
      (eapply same_u64_step; [exact H2|done|]; cbn -[Z.pow u64_succ]; rewrite E; instantiate (1 := k); lia).
  - rewrite map_total_incr. apply (same_u64_step _ _ _ _ 0 H3); [done|lia].
Qed.

Record stats_ok (s : Stats) : Prop := {
  so_recent : Z.of_nat (length (sts_recent s)) <= RECENT_CAPACITY;
  so_latencies : Z.of_nat (length (sts_latencies s)) <= LATENCY_CAPACITY;
  so_domains : Z.of_nat (size (sts_top_domains s)) <= TOP_TRACK_CAP;
  so_blocked : Z.of_nat (size (sts_top_blocked s)) <= TOP_TRACK_CAP;
  so_resolved : Z.of_nat (size (sts_resolved s)) <= RESOLVED_CAP;
  so_dest : Z.of_nat (size (sts_blocked_dest s)) <= RESOLVED_CAP;
  so_client : Z.of_nat (size (sts_blocked_client s)) <= RESOLVED_CAP;
  so_counters : counters_ok (sts_counters s) (sts_by_qtype s);
}.

(** The operations on the statistics. *)
Inductive StatsOp : Type :=
| StRecord (ts : string) (sec : Z) (mode : QueryLog) (client : IpAddr) (view : option string) (name qtype : string)
    (o : QueryOutcome) (rcode : string)
| StDnssecFailure
| StResolved (ips : list IpAddr)
| StBlockedDest (ip : IpAddr)
| StBlockedClient (ip : IpAddr)
| StBlocklistHit (id : Z)
| StLatency (us : Z)
| StClear
| StOrigin (o : OriginGeo).

Definition run_stats (op : StatsOp) (s : Stats) : Stats :=
  match op with
  | StRecord ts sec mode client view name qtype o rcode => fst (stats_record ts sec mode client view name qtype o rcode s)
  | StDnssecFailure => record_dnssec_failure s
  | StResolved ips => record_resolved ips s
  | StBlockedDest ip => record_blocked_dest ip s
  | StBlockedClient ip => record_blocked_client ip s
  | StBlocklistHit id => record_blocklist_hit id s
  | StLatency us => record_latency us s
  | StClear => clear_log s
  | StOrigin o => set_origin o s
  end.

Create HintDb stats.
#[export] Hint Resolve size_incr_capped size_note_ip counters_ok_query : stats.

Lemma stats_ok_new : stats_ok Stats_new.
Proof. constructor; try (vm_compute; discriminate). by split. Qed.

Lemma stats_ok_step op s : stats_ok s -> stats_ok (run_stats op s).
Proof.
  intros [H1 H2 H3 H4 H5 H6 H7 H8]. destruct op; cbn [run_stats];
    [unfold stats_record; cbv zeta; case_bool_decide|..]; constructor; cbn -[count_query]; auto with stats; try done.
  - by apply length_ring_push.
  - case_bool_decide; auto with stats.
  - by destruct H8.
  - revert H5. generalize (sts_resolved s). induction ips as [|ip ips IH]; intros m Hm; [done|].
    cbn. by apply IH, size_note_ip.
  - by apply length_ring_push.
Qed.

(** the statistics use bounded memory: whatever is recorded, the recent-query
    and latency rings and the maps of domains and addresses never outgrow their
    capacities. *)
Theorem stats_bounded ops : stats_ok (fold_left (fun s op => run_stats op s) ops Stats_new).
Proof.
  generalize stats_ok_new. generalize Stats_new.
  induction ops as [|op ops IH]; intros s Hs; [done|]. cbn. by apply IH, stats_ok_step.
Qed.

(** ** Privacy *)

(** The same /24 or /48. *)
Definition same_prefix (a b : IpAddr) : Prop :=
  match a, b with
  | V4 x, V4 y => x / 2 ^ 8 = y / 2 ^ 8
  | V6 x, V6 y => x / 2 ^ 80 = y / 2 ^ 80
  | _, _ => False
  end.

Lemma div_prefix x y k n : 0 <= k <= n -> x / 2 ^ k = y / 2 ^ k -> x / 2 ^ n = y / 2 ^ n.
Proof.
  intros Hk E. replace (2 ^ n) with (2 ^ k * 2 ^ (n - k)) by (rewrite <- Z.pow_add_r by lia; f_equal; lia).
  rewrite <- !Z.div_div by (try apply Z.pow_nonneg; try (apply Z.pow_nonzero; lia); try (apply Z.pow_pos_nonneg; lia); lia).
  by rewrite E.
Qed.

Lemma anonymize_prefix a b : same_prefix a b -> anonymize a = anonymize b.
Proof.
  destruct a as [x|x], b as [y|y]; cbn [same_prefix]; try done; intros E; unfold anonymize.
  - assert (forall i, (i < 3)%nat -> oct4 x i = oct4 y i) as H; [|by rewrite !H by lia].
    intros i Hi. unfold oct4, octets4. assert (forall n, 8 <= n -> x / 2 ^ n = y / 2 ^ n) as Hd.
    { intros n Hn. apply (div_prefix x y 8); [lia|done]. }
    destruct i as [|[|[|]]]; [| | |lia]; cbn -[Z.pow Z.of_nat];
      [pose proof (Hd 24 ltac:(lia)) as Hx|pose proof (Hd 16 ltac:(lia)) as Hx|pose proof (Hd 8 ltac:(lia)) as Hx];
      change (256 ^ Z.of_nat 3) with (2 ^ 24); change (256 ^ Z.of_nat 2) with (2 ^ 16);
      change (256 ^ Z.of_nat 1) with (2 ^ 8); by rewrite Hx.
  - assert (forall i, (i < 3)%nat -> seg x i = seg y i) as H; [|by rewrite !H by lia].
    intros i Hi. unfold seg. assert (forall n, 80 <= n -> x / 2 ^ n = y / 2 ^ n) as Hd.
    { intros n Hn. apply (div_prefix x y 80); [lia|done]. }
    destruct i as [|[|[|]]]; [| | |lia]; cbn -[Z.pow];
      [pose proof (Hd 112 ltac:(lia)) as Hx|pose proof (Hd 96 ltac:(lia)) as Hx|pose proof (Hd 80 ltac:(lia)) as Hx];
      change (65536 ^ 7) with (2 ^ 112); change (65536 ^ 6) with (2 ^ 96); change (65536 ^ 5) with (2 ^ 80); by rewrite Hx.
Qed.

Lemma same_prefix_family a b : same_prefix a b -> is_ipv4 a = is_ipv4 b.
Proof. by destruct a, b. Qed.

(** what is recorded reveals no more than the privacy setting allows: anonymized,
    two clients of one /24 (IPv6: /48) leave the same state and log entry; with
    the log off no entry is made, and the state does not depend on the name asked,
    on the view or on the response code, nor on the client beyond its family. *)
Theorem stats_privacy ts sec client client' view view' name name' qtype o rcode rcode' s :
  same_prefix client client' ->
  stats_record ts sec Anonymized client view name qtype o rcode s =
    stats_record ts sec Anonymized client' view name qtype o rcode s /\
  snd (stats_record ts sec QlOff client view name qtype o rcode s) = None /\
  fst (stats_record ts sec QlOff client view name qtype o rcode s) =
    fst (stats_record ts sec QlOff client' view' name' qtype o rcode' s).
Proof.
  intros Hp. unfold stats_record, count_query. change (bool_decide (Anonymized = QlOff)) with false.
  change (bool_decide (Anonymized = Full)) with false. change (bool_decide (QlOff = QlOff)) with true. cbn [fst snd].
  rewrite (same_prefix_family _ _ Hp), (anonymize_prefix _ _ Hp). done.
Qed.

(** ** Latencies *)

Lemma sum_bounds l lo hi :
  Forall (fun x => lo <= x <= hi) l ->
  lo * Z.of_nat (length l) <= fold_right Z.add 0 l <= hi * Z.of_nat (length l).
Proof. induction 1 as [|x l Hx _ IH]; cbn [fold_right length]; [lia|]. rewrite Nat2Z.inj_succ. nia. Qed.

Lemma sorted_nth l i j : sorted_by (fun x => x) l -> (i <= j < length l)%nat -> nth i l 0 <= nth j l 0.
Proof.
  intros Hs. revert i j. induction Hs as [|x l Hs IH Hx]; intros i j Hij; cbn [length] in Hij; [lia|].
  destruct i as [|i], j as [|j]; cbn [nth]; [lia| |lia|apply IH; lia].
  rewrite List.Forall_forall in Hx. apply Hx, nth_In. lia.
Qed.

(** The summary is ordered: the median and the average lie between the extremes. *)
Lemma latency_stats_ordered s :
  let '(n, lo, avg, median, hi) := latency_stats s in
  n = Z.of_nat (length (sts_latencies s)) /\ (0 < n -> lo <= avg <= hi /\ lo <= median <= hi).
Proof.
  unfold latency_stats. cbv zeta. pose proof (sort_by_key_sorted (fun x => x) (sts_latencies s)) as Hs.
  pose proof (Permutation_length (sort_by_key_perm (fun x => x) (sts_latencies s))) as Hlen.
  set (v := sort_by_key _ _) in *. destruct (Nat.eqb_spec (length v) 0) as [E|E].
  - split; [lia|]. lia.
  - split; [lia|]. intros _.
    assert (forall i, (i < length v)%nat -> nth 0 v 0 <= nth i v 0 <= nth (length v - 1) v 0) as Hb.
    { intros i Hi. split; apply sorted_nth; try done; lia. }
    assert (length v / 2 < length v)%nat as Hhalf by (apply Nat.div_lt; lia). split.
    + assert (Forall (fun x => nth 0 v 0 <= x <= nth (length v - 1) v 0) v) as Hf.
      { apply List.Forall_forall. intros x Hx. apply (In_nth _ _ 0) in Hx as (i & Hi & <-). by apply Hb. }
      apply sum_bounds in Hf. split; [apply Z.div_le_lower_bound; lia|apply Z.div_le_upper_bound; lia].
    + pose proof (Hb (length v / 2)%nat Hhalf) as H1. destruct (_ =? 1)%nat; [done|].
      pose proof (Hb (length v / 2 - 1)%nat ltac:(lia)) as H2.
      split; [apply Z.div_le_lower_bound; lia|apply Z.div_le_upper_bound; lia].
Qed.
