(* ===== verification/DbAdmin.v ===== *)
(** * The database: users, sessions, settings, audit and query log ([src/db.rs])

    The statements of the management tables, and what they keep: user names and
    session ids are unique, a session belongs to a user, and both logs are
    bounded and hold the latest entries.  A stored timestamp is its text;
    [prune_sessions] compares texts, as the source does. *)

From S2P Require Import Prelude Strs Net External Models Db Stats.

(** ** Users *)

(** [UserRow::public]. *)
Definition user_public (u : UserRow) : User :=
  mkUser (us_id u) (us_username u) (us_must_change_password u) (us_created_at u).

Definition user_count : M Z := query (fun d => Z.of_nat (length (users d))).

Definition create_user (ts username password_hash : string) (must_change : bool) : M Z := fun d =>
  if existsb (fun u => bool_decide (us_username u = username)) (users d) then (d, Err UniqueViolation)
  else let id := next_id us_id (users d) in
       (set_users (users d ++ [mkUserRow id username password_hash must_change ts]) d, Ok id).

Definition user_by_username (username : string) : M (option UserRow) :=
  query (fun d => List.find (fun u => bool_decide (us_username u = username)) (users d)).
Definition user_by_id (id : Z) : M (option UserRow) :=
  query (fun d => List.find (fun u => us_id u =? id) (users d)).

Definition set_password (id : Z) (hash : string) : M unit := modify (fun d =>
  set_users (update_where (fun u => us_id u =? id)
    (fun u => mkUserRow (us_id u) (us_username u) hash false (us_created_at u)) (users d)) d).

(** ** Sessions *)

Record SessionRow : Type := mkSessionRow { sn_user_id : Z; sn_csrf_token : string; sn_expires_at : Z }.

Section Sessions.
Context `{DT : DateTimes}.

Definition create_session (ts id : string) (user_id : Z) (csrf : string) (expires_at : Z) : M unit := fun d =>
  if existsb (fun s => bool_decide (ss_id s = id)) (sessions d) then (d, Err UniqueViolation)
  else if negb (existsb (fun u => us_id u =? user_id) (users d)) then (d, Err ForeignKeyViolation)
  else (set_sessions (sessions d ++
          [mkSessRow id user_id csrf ts (default "" (datetime_format expires_at))]) d, Ok tt).

(** A timestamp that does not parse is the epoch: the session has expired. *)
Definition session (id : string) : M (option SessionRow) := query (fun d =>
  (fun s => mkSessionRow (ss_user_id s) (ss_csrf_token s) (default 0 (datetime_parse (ss_expires_at s)))) <$>
  List.find (fun s => bool_decide (ss_id s = id)) (sessions d)).
End Sessions.

Definition delete_session (id : string) : M unit := modify (fun d =>
  set_sessions (delete_where (fun s => bool_decide (ss_id s = id)) (sessions d)) d).
Definition prune_sessions (ts : string) : M unit := modify (fun d =>
  set_sessions (delete_where (fun s => String.ltb (ss_expires_at s) ts) (sessions d)) d).

(** ** Settings: one row *)

Definition get_settings : M Settings := query (fun d => default Settings_default (settings d)).
Definition put_settings (s : Settings) : M unit := modify (set_settings (Some s)).

(** ** The audit log *)

Definition AUDIT_CAP : Z := 10000.

(** [MAX(id)], of a table that is not empty. *)
Definition max_id {A} (id : A -> Z) (t : list A) : Z := fold_right Z.max 0 (List.map id t).

Definition insert_audit (ts username action : string) (status : Z) (ip : string) : M unit := modify (fun d =>
  let t := audit_log d ++ [mkAuditEntry (next_id au_id (audit_log d)) ts username action status ip] in
  set_audit_log (delete_where (fun e => au_id e <=? max_id au_id t - AUDIT_CAP) t) d).

(** [ORDER BY id DESC LIMIT limit]; a negative limit is no limit. *)
Definition sql_limit {A} (limit : Z) (l : list A) : list A :=
  if limit <? 0 then l else take (Z.to_nat limit) l.
Definition list_audit (limit : Z) : M (list AuditEntry) := query (fun d =>
  sql_limit limit (sort_with (fun a b => au_id b <=? au_id a) (audit_log d))).

(** ** The query log *)

Definition insert_query (e : RecentQuery) : M unit := modify (fun d =>
  set_query_log (query_log d ++
    [mkQlogRow (next_id ql_id (query_log d)) (rq_at e) (rq_client e) (rq_view e) (rq_name e) (rq_qtype e)
       (rq_outcome e) (rq_rcode e)]) d).
Definition insert_queries (entries : list RecentQuery) : M unit := transaction (for_each entries insert_query).

Definition prune_query_log (max_rows : Z) : M unit := modify (fun d =>
  set_query_log (delete_where (fun r => ql_id r <=? max_id ql_id (query_log d) - max_rows) (query_log d)) d).

(** SQLite's [LIKE]: [%] matches any text, [_] one character, and ASCII letters
    match in either case. *)
Fixpoint like (pat : list string) : list string -> bool :=
  match pat with
  | [] => fun text => match text with [] => true | _ => false end
  | p :: pat' =>
      if bool_decide (p = "%") then
        fix any (text : list string) : bool :=
          like pat' text || match text with [] => false | _ :: text' => any text' end
      else fun text =>
        match text with
        | [] => false
        | c :: text' => (bool_decide (p = "_") || eq_ignore_ascii_case p c) && like pat' text'
        end
  end.
Definition sql_like (pat text : string) : bool := like (chars pat) (chars text).

(** [o.filter(|s| !s.is_empty())]. *)
Definition non_empty (o : option string) : option string :=
  match o with Some s => if is_empty s then None else Some s | None => None end.

(** The [WHERE] clause. *)
Definition qlog_where (search outcome qtype : option string) (r : QlogRow) : bool :=
  match non_empty search with
  | Some s => let pat := "%" +:+ s +:+ "%" in sql_like pat (ql_name r) || sql_like pat (ql_client r)
  | None => true
  end &&
  match non_empty outcome with Some o => bool_decide (ql_outcome r = o) | None => true end &&
  match non_empty qtype with Some t => bool_decide (ql_qtype r = to_ascii_uppercase t) | None => true end.

(** [ORDER BY col]: texts compare byte by byte, equal keys stay in rowid order. *)
Definition qlog_le (sort : string) (desc : bool) (a b : QlogRow) : bool :=
  let le_text (x y : string) := negb (String.ltb y x) in
  let le (a b : QlogRow) :=
    if bool_decide (sort = "name") then le_text (ql_name a) (ql_name b)
    else if bool_decide (sort = "client") then le_text (ql_client a) (ql_client b)
    else if bool_decide (sort = "qtype") then le_text (ql_qtype a) (ql_qtype b)
    else if bool_decide (sort = "outcome") then le_text (ql_outcome a) (ql_outcome b)
    else ql_id a <=? ql_id b in
  if desc then le b a else le a b.

Definition qlog_query (r : QlogRow) : RecentQuery :=
  mkRecentQuery (ql_at r) (ql_client r) (ql_view r) (ql_name r) (ql_qtype r) (ql_outcome r) (ql_rcode r).

Definition qlog_matches (search outcome qtype : option string) (sort : string) (desc : bool) (d : Db)
    : list QlogRow :=
  sort_with (qlog_le sort desc) (List.filter (qlog_where search outcome qtype) (query_log d)).

(** The page and the number of matching rows. *)
Definition query_log_page (search outcome qtype : option string) (sort : string) (desc : bool)
    (limit offset : Z) : M (list RecentQuery * Z) := query (fun d =>
  (qlog_query <$> sql_limit limit (drop (Z.to_nat offset) (qlog_matches search outcome qtype sort desc d)),
   Z.of_nat (length (List.filter (qlog_where search outcome qtype) (query_log d))))).

(** ** Lemmas: tables with consecutive rowids *)

Section Consecutive.
Context {A : Type} (id : A -> Z).

(** The rowids are [first + 1], [first + 2], ... in table order. *)
Definition consecutive (t : list A) : Prop := exists first, 0 <= first /\ id <$> t = seqZ (first + 1) (Z.of_nat (length t)).

Lemma max_id_seqZ first n : 0 <= first -> fold_right Z.max 0 (seqZ (first + 1) (Z.of_nat n)) =
  if (n =? 0)%nat then 0 else first + Z.of_nat n.
Proof.
  revert first. induction n as [|n IH]; intros first Hf; [done|].
  rewrite seqZ_cons by lia. cbn [fold_right Nat.eqb].
  replace (Z.succ (first + 1)) with (first + 1 + 1) by lia.
  replace (Z.pred (Z.of_nat (S n))) with (Z.of_nat n) by lia. rewrite IH by lia. destruct n; cbn; lia.
Qed.

Lemma consecutive_nil : consecutive [].
Proof. by exists 0. Qed.

(** A new row takes the next id. *)
Lemma consecutive_snoc t r : consecutive t -> id r = next_id id t -> consecutive (t ++ [r]).
Proof.
  intros (first & Hf & E) Hr. unfold next_id in Hr. change (List.map id t) with (id <$> t) in Hr.
  rewrite E, max_id_seqZ in Hr by done. destruct t as [|x t'] eqn:Et; [exists 0; cbn in *; by rewrite Hr|].
  exists first. split; [done|]. rewrite fmap_app, E, length_app. cbn [length fmap list_fmap Nat.eqb] in *.
  rewrite Nat2Z.inj_add, seqZ_app by lia. f_equal. rewrite Hr. change (Z.of_nat 1) with 1.
  rewrite seqZ_cons by lia. change (Z.pred 1) with 0. unfold seqZ. cbn. f_equal. lia.
Qed.

Lemma filter_above t first cut :
  id <$> t = seqZ (first + 1) (Z.of_nat (length t)) ->
  List.filter (fun r => negb (id r <=? cut)) t = drop (Z.to_nat (cut - first)) t.
Proof.
  revert first. induction t as [|x t IH]; intros first E; [by rewrite drop_nil|].
  cbn [length] in E. rewrite seqZ_cons in E by lia. cbn [fmap list_fmap] in E. injection E as Ex E.
  replace (Z.succ (first + 1)) with (first + 1 + 1) in E by lia.
  replace (Z.pred (Z.of_nat (S (length t)))) with (Z.of_nat (length t)) in E by lia.
  cbn [List.filter]. rewrite Ex. destruct (Z.leb_spec (first + 1) cut) as [H|H]; cbn [negb].
  - rewrite (IH (first + 1)) by done.
    by replace (Z.to_nat (cut - first)) with (S (Z.to_nat (cut - (first + 1)))) by lia.
  - rewrite (IH (first + 1)) by done. by replace (Z.to_nat (cut - (first + 1))) with 0%nat by lia;
      replace (Z.to_nat (cut - first)) with 0%nat by lia.
Qed.

(** [DELETE ... WHERE id <= MAX(id) - cap] keeps the last [cap] rows. *)
Lemma consecutive_trim t cap :
  0 <= cap -> consecutive t ->
  delete_where (fun r => id r <=? max_id id t - cap) t = drop (length t - Z.to_nat cap) t.
Proof.
  intros Hc (first & Hf & E). unfold delete_where, max_id. change (List.map id t) with (id <$> t).
  rewrite E, max_id_seqZ, (filter_above t first) by done. destruct (length t =? 0)%nat eqn:El.
  - apply Nat.eqb_eq, length_zero_iff_nil in El. by rewrite El, !drop_nil.
  - f_equal. lia.
Qed.

Lemma consecutive_drop t k : consecutive t -> consecutive (drop k t).
Proof.
  intros (first & Hf & E). exists (first + Z.of_nat (k `min` length t)). split; [lia|].
  rewrite fmap_drop. rewrite E, length_drop.
  assert (forall n a j, drop j (seqZ (a + 1) (Z.of_nat n)) =
    seqZ (a + Z.of_nat (j `min` n) + 1) (Z.of_nat (n - j))) as Hd; [|apply Hd].
  clear. intros n. induction n as [|n IH]; intros a j; [by destruct j|].
  destruct j as [|j]; [rewrite drop_0; f_equal; lia|].
  rewrite seqZ_cons by lia. replace (Z.pred (Z.of_nat (S n))) with (Z.of_nat n) by lia. cbn [drop].
  replace (Z.succ (a + 1)) with (a + 1 + 1) by lia. rewrite IH. f_equal; lia.
Qed.
End Consecutive.

Lemma insert_with_last {A} (le : A -> A -> bool) x l :
  (forall y, In y l -> le x y = false) -> insert_with le x l = l ++ [x].
Proof.
  induction l as [|y l IH]; intros H; [done|]. cbn. rewrite (H y) by (by left). f_equal. apply IH.
  intros z Hz. apply H. by right.
Qed.

(** Sorting an ascending list into descending order reverses it. *)
Lemma sort_with_rev {A} (le : A -> A -> bool) l :
  StronglySorted (fun a b => le a b = false) l -> sort_with le l = rev l.
Proof.
  induction 1 as [|x l Hl IH Hx]; [done|]. cbn. rewrite IH. apply insert_with_last.
  intros y Hy. rewrite <- in_rev in Hy. by apply (proj1 (List.Forall_forall _ _) Hx).
Qed.

Lemma consecutive_sorted {A} (id : A -> Z) t :
  consecutive id t -> StronglySorted (fun a b => (id b <=? id a) = false) t.
Proof.
  intros (first & _ & E). revert first E. induction t as [|x t IH]; intros first E; constructor.
  - cbn [length] in E. rewrite seqZ_cons in E by lia. injection E as _ E.
    replace (Z.succ (first + 1)) with (first + 1 + 1) in E by lia.
    replace (Z.pred (Z.of_nat (S (length t)))) with (Z.of_nat (length t)) in E by lia. by apply (IH (first + 1)).
  - cbn [length] in E. rewrite seqZ_cons in E by lia. injection E as Ex E.
    apply List.Forall_forall. intros y Hy. assert (id y ∈ id <$> t) as Hin.
    { apply list_elem_of_fmap. exists y. split; [done|]. by apply list_elem_of_In. }
    change (list_fmap A Z id t) with (id <$> t) in E. rewrite E in Hin. apply elem_of_seqZ in Hin.
    apply Z.leb_gt. lia.
Qed.

(** ** The audit log keeps the latest actions *)

(** An action: time, user, action, status and address. *)
Abbreviation Action := (string * string * string * Z * string)%type.
Definition audit_fields (e : AuditEntry) : Action :=
  (au_at e, au_username e, au_action e, au_status e, au_ip e).
Definition audit_step (d : Db) (a : Action) : Db :=
  let '(ts, u, act, status, ip) := a in fst (insert_audit ts u act status ip d).

Lemma audit_log_state acts :
  let d := fold_left audit_step acts empty_db in
  consecutive au_id (audit_log d) /\ audit_fields <$> audit_log d = drop (length acts - Z.to_nat AUDIT_CAP) acts.
Proof.
  induction acts as [|a acts IH] using rev_ind; [split; [apply consecutive_nil|done]|].
  rewrite fold_left_app. cbn [fold_left]. cbv zeta in *. set (d := fold_left audit_step acts empty_db) in *.
  destruct IH as [Hc He]. destruct a as [[[[ts u] act] status] ip]. cbn [audit_step fst insert_audit modify].
  set (e := mkAuditEntry _ _ _ _ _ _). cbn [audit_log set_audit_log].
  assert (consecutive au_id (audit_log d ++ [e])) as Hc' by (by apply consecutive_snoc).
  rewrite consecutive_trim by (done || unfold AUDIT_CAP; lia).
  split; [by apply consecutive_drop|].
  assert (length (audit_log d) = (length acts - (length acts - Z.to_nat AUDIT_CAP))%nat) as Hl.
  { rewrite <- (length_fmap audit_fields), He. apply length_drop. }
  rewrite fmap_drop, fmap_app, He, !length_app. cbn [length fmap list_fmap].
  change (audit_fields e) with (ts, u, act, status, ip). rewrite Hl.
  destruct (Nat.leb_spec (length acts + 1) (Z.to_nat AUDIT_CAP)) as [H|H].
  - by replace (length acts - Z.to_nat AUDIT_CAP)%nat with 0%nat by lia;
      replace (length acts - 0 + 1 - Z.to_nat AUDIT_CAP)%nat with 0%nat by lia;
      replace (length acts + 1 - Z.to_nat AUDIT_CAP)%nat with 0%nat by lia.
  - assert (length acts - Z.to_nat AUDIT_CAP <= length acts)%nat by lia.
    rewrite <- !drop_app_le by lia. rewrite drop_drop. f_equal. lia.
Qed.

(** the audit trail is a bounded log of the latest actions.  After any sequence of
    recorded actions it holds the last 10,000 of them, in order, and the list
    the management page shows is the latest ones, newest first. *)
Theorem audit_latest acts n :
  0 <= n <= AUDIT_CAP ->
  let d := fold_left audit_step acts empty_db in
  audit_fields <$> audit_log d = drop (length acts - Z.to_nat AUDIT_CAP) acts /\
  exists page, list_audit n d = (d, Ok page) /\ audit_fields <$> page = take (Z.to_nat n) (rev acts).
Proof.
  intros Hn d. destruct (audit_log_state acts) as [Hc He]. fold d in Hc, He. split; [done|].
  eexists. split; [done|]. unfold sql_limit. destruct (Z.ltb_spec n 0); [lia|].
  rewrite (sort_with_rev _ (audit_log d)) by (by apply consecutive_sorted).
  rewrite fmap_take. change (audit_fields <$> rev (audit_log d)) with (List.map audit_fields (rev (audit_log d))).
  rewrite map_rev. change (List.map audit_fields (audit_log d)) with (audit_fields <$> audit_log d). rewrite He.
  destruct (Nat.leb_spec (length acts) (Z.to_nat AUDIT_CAP)) as [H10|H10].
  { by replace (length acts - Z.to_nat AUDIT_CAP)%nat with 0%nat by lia. }
  transitivity (take (Z.to_nat n) (rev (take (length acts - Z.to_nat AUDIT_CAP) acts ++ drop (length acts - Z.to_nat AUDIT_CAP) acts)));
    [|by rewrite take_drop].
  rewrite rev_app_distr, take_app_le; [done|]. rewrite length_rev, length_drop. lia.
Qed.

Lemma audit_latest_witness :
  exists page d, list_audit 2 d = (d, Ok page) /\
    audit_fields <$> page =
      [("t3", "admin", "DELETE /api/v1/zones/1", 204, ""); ("t2", "eve", "POST /api/v1/zones", 403, "")].
Proof.
  destruct (audit_latest [("t1", "admin", "POST /api/v1/zones", 201, ""); ("t2", "eve", "POST /api/v1/zones", 403, "");
    ("t3", "admin", "DELETE /api/v1/zones/1", 204, "")] 2) as [_ (page & H1 & H2)]; [split; vm_compute; discriminate|].
  eexists page, _. split; [exact H1|]. rewrite H2. reflexivity.
Defined.

(** ** Users and sessions *)

Record admin_ok (d : Db) : Prop := {
  ok_user_ids : NoDup (us_id <$> users d);
  ok_user_names : NoDup (us_username <$> users d);
  ok_session_ids : NoDup (ss_id <$> sessions d);
  ok_session_user : forall s, In s (sessions d) -> ss_user_id s ∈ us_id <$> users d }.

Lemma admin_ok_empty : admin_ok empty_db.
Proof. split; try constructor. by intros s []. Qed.

Lemma admin_ok_users f d :
  (forall u, us_id (f u) = us_id u) -> (forall u, us_username (f u) = us_username u) ->
  forall p, admin_ok d -> admin_ok (set_users (update_where p f (users d)) d).
Proof.
  intros Hi Hn p [H1 H2 H3 H4]. split; cbn; try done.
  - by rewrite map_update_where.
  - by rewrite map_update_where.
  - intros s Hs. rewrite map_update_where by done. auto.
Qed.

Lemma admin_ok_delete_sessions p d : admin_ok d -> admin_ok (set_sessions (delete_where p (sessions d)) d).
Proof.
  intros [H1 H2 H3 H4]. split; cbn; try done; [by apply NoDup_delete_where|].
  intros s Hs. apply in_delete_where in Hs as [Hs _]. auto.
Qed.

Lemma create_user_ok ts n h mc : preserves admin_ok (create_user ts n h mc).
Proof.
  intros d [H1 H2 H3 H4]. unfold create_user. destruct (existsb _ _) eqn:E; [by split|].
  apply (existsb_key us_username _ n) in E; [|done]. split; cbn; try done; rewrite ?fmap_app.
  - apply NoDup_snoc; [done|]. apply next_id_notin.
  - by apply NoDup_snoc.
  - intros s Hs. apply elem_of_app. auto.
Qed.

Lemma create_session_ok `{DateTimes} ts id u c x : preserves admin_ok (create_session ts id u c x).
Proof.
  intros d [H1 H2 H3 H4]. unfold create_session. destruct (existsb _ (sessions d)) eqn:E; [by split|].
  destruct (negb _) eqn:E2; [by split|]. breflect.
  apply (existsb_key ss_id _ id) in E; [|done].
  apply (existsb_key_true us_id _ u) in E2; [|intros; apply eqb_bool_decide].
  split; cbn; try done; rewrite ?fmap_app; [by apply NoDup_snoc|].
  intros s Hs. apply in_app_or in Hs as [Hs|[<-|[]]]; auto.
Qed.

Lemma set_password_ok id h : preserves admin_ok (set_password id h).
Proof. intros d Hd. by apply admin_ok_users. Qed.
Lemma delete_session_ok id : preserves admin_ok (delete_session id).
Proof. intros d Hd. by apply admin_ok_delete_sessions. Qed.
Lemma prune_sessions_ok ts : preserves admin_ok (prune_sessions ts).
Proof. intros d Hd. by apply admin_ok_delete_sessions. Qed.
#[export] Hint Resolve create_user_ok create_session_ok set_password_ok delete_session_ok prune_sessions_ok : preserve.

(** The lookups find exactly the rows of the key. *)
Lemma user_by_id_spec d id u :
  admin_ok d -> List.find (fun u => us_id u =? id) (users d) = Some u <-> In u (users d) /\ us_id u = id.
Proof.
  intros [H1 _ _ _]. split.
  - intros E. apply List.find_some in E as [? ?]. by breflect.
  - intros [Hin <-]. by apply (find_unique us_id); [intros; apply eqb_bool_decide| |].
Qed.

Lemma session_user_exists d s :
  admin_ok d -> In s (sessions d) -> exists u, List.find (fun u => us_id u =? ss_user_id s) (users d) = Some u.
Proof.
  intros Hd Hs. pose proof (ok_session_user d Hd s Hs) as Hin. apply list_elem_of_fmap in Hin as (u & E & Hu).
  exists u. apply user_by_id_spec; [done|]. split; [by apply list_elem_of_In|done].
Qed.

(** ** Pages of the query log *)

Lemma qlog_matches_perm search outcome qtype sort desc d :
  qlog_matches search outcome qtype sort desc d ≡ₚ List.filter (qlog_where search outcome qtype) (query_log d).
Proof. apply sort_with_perm. Qed.

(** Successive pages of [n] rows are the prefix of the list. *)
Lemma pages_concat {A} (n k : nat) (l : list A) :
  concat ((fun i => take n (drop (i * n) l)) <$> seq 0 k) = take (k * n) l.
Proof.
  induction k as [|k IH]; [done|]. rewrite seq_S, fmap_app, concat_app, IH. cbn [fmap list_fmap concat].
  rewrite app_nil_r, Nat.mul_succ_l. cbn [Nat.add]. apply take_take_drop.
Qed.
