(* ===== verification/Schema.v ===== *)
(** * The stored form of the database ([src/schema.rs], the row decoders of [src/db.rs])

    The tables as SQLite holds them: documents as JSON text, enumerations by
    name, 32-bit numbers in 64-bit columns.  [store_db] is what the statements
    write, one definition per table with a column of another form; [load_db] reads
    every row with the decoder of its table.  The joins that the zone and blocklist
    reads make are on the stored rows. *)

From S2P Require Import Prelude Strs Net External Float Models Serde Documents Db DbDhcp DbDns DbFilter Stats DbAdmin.

(** ** Reading a column *)

Inductive RowError : Type := SerializationError | DeserializationError (what : string).

Definition json_err {A} (o : option A) : result A RowError := ok_or o SerializationError.
Definition enum_err {A} (what : string) (o : option A) : result A RowError :=
  ok_or o (DeserializationError ("invalid stored " +:+ what)).

Definition enum_to_str {A} (c : Codec A) (a : A) : string := match ser c a with VStr s => s | _ => "" end.
Definition enum_from_str {A} (c : Codec A) (s : string) : option A := de c (VStr s).

(** [rows.into_iter().map(decode).collect()]. *)
Fixpoint read_rows {A B} (f : A -> result B RowError) (l : list A) : result (list B) RowError :=
  match l with
  | [] => Ok []
  | a :: l => let? b := f a in let? bs := read_rows f l in Ok (b :: bs)
  end.

Section Schema.
Context `{J : JsonText}.

Definition to_json {A} (c : Codec A) (a : A) : JsonDoc := json_to_string (ser c a).
Definition from_json {A} (c : Codec A) (t : JsonDoc) : result A RowError := json_err (json_from_str t ≫= de c).

(** ** Rows *)

Definition UserTuple : Type := Z * string * string * bool * string.
Definition RewriteTuple : Type := Z * string * string * bool * option string * string.
Record ViewTuple : Type := mkViewTuple {
  vt_id : Z; vt_name : string; vt_networks : JsonDoc; vt_priority : Z; vt_is_default : bool;
  vt_created_at : string; vt_countries : JsonDoc; vt_continents : JsonDoc; vt_asns : JsonDoc }.
Record ZoneTable : Type := mkZoneTable {
  zt_id : Z; zt_name : string; zt_enabled : bool; zt_soa : JsonDoc; zt_default_ttl : Z; zt_serial : Z;
  zt_created_at : string; zt_updated_at : string }.
Record BlocklistTable : Type := mkBlocklistTable {
  bt_id : Z; bt_name : string; bt_url : string; bt_format : string; bt_enabled : bool;
  bt_last_updated : option string; bt_last_error : option string; bt_created_at : string }.
Record BlockRuleTuple : Type := mkBlockRuleTuple {
  bu_id : Z; bu_domain : string; bu_action : string; bu_comment : option string; bu_created_at : string }.
Record ConditionalTuple : Type := mkConditionalTuple {
  cft_id : Z; cft_domain : string; cft_forwarders : JsonDoc; cft_enabled : bool; cft_created_at : string }.
Record DhcpScopeTuple : Type := mkDhcpScopeTuple {
  dst_id : Z; dst_name : string; dst_enabled : bool; dst_family : string; dst_subnet : string;
  dst_range_start : string; dst_range_end : string; dst_lease_secs : Z; dst_dns_register : bool;
  dst_dns_zone : option string; dst_options : JsonDoc; dst_created_at : string; dst_server_id : option string;
  dst_interface : option string }.
Record DhcpReservationTuple : Type := mkDhcpReservationTuple {
  rt_id : Z; rt_scope_id : Z; rt_identifier : string; rt_ip : string; rt_hostname : option string;
  rt_options : JsonDoc; rt_created_at : string }.
Record DhcpLeaseTuple : Type := mkDhcpLeaseTuple {
  lt_id : Z; lt_scope_id : Z; lt_family : string; lt_ip : string; lt_identifier : string;
  lt_hostname : option string; lt_starts_at : string; lt_expires_at : string; lt_state : string;
  lt_created_at : string }.

(** The decoders of the rows. *)
Definition user_from (t : UserTuple) : UserRow :=
  let '(id, username, password_hash, must_change_password, created_at) := t in
  mkUserRow id username password_hash must_change_password created_at.
Definition rewrite_from (t : RewriteTuple) : Rewrite :=
  let '(id, domain, target, enabled, comment, created_at) := t in
  mkRewrite id domain target enabled comment created_at.

Definition view_from (t : ViewTuple) : result View RowError :=
  let? networks := from_json strs_codec (vt_networks t) in
  let? countries := from_json strs_codec (vt_countries t) in
  let? continents := from_json strs_codec (vt_continents t) in
  let? asns := from_json (list_codec u32_codec) (vt_asns t) in
  Ok (mkView (vt_id t) (vt_name t) networks countries continents asns (vt_priority t) (vt_is_default t)
        (vt_created_at t)).

Definition block_rule_from (t : BlockRuleTuple) : BlockRule :=
  mkBlockRule (bu_id t) (bu_domain t) (default Deny (enum_from_str RuleAction_codec (bu_action t)))
    (bu_comment t) (bu_created_at t).

Definition conditional_from (t : ConditionalTuple) : result ConditionalForward RowError :=
  let? forwarders := from_json (list_codec Forwarder_codec) (cft_forwarders t) in
  Ok (mkConditionalForward (cft_id t) (cft_domain t) forwarders (cft_enabled t) (cft_created_at t)).

Definition dhcp_scope_from (t : DhcpScopeTuple) : result DhcpScope RowError :=
  let? family := enum_err "DHCP scope family" (enum_from_str IpFamily_codec (dst_family t)) in
  let? options := from_json (list_codec DhcpOption_codec) (dst_options t) in
  Ok (mkDhcpScope (dst_id t) (dst_name t) (dst_enabled t) family (dst_subnet t) (dst_range_start t) (dst_range_end t)
        (as_u32 (dst_lease_secs t)) (dst_dns_register t) (dst_dns_zone t) (dst_server_id t) (dst_interface t) options
        (dst_created_at t)).

Definition dhcp_reservation_from (t : DhcpReservationTuple) : result DhcpReservation RowError :=
  let? options := from_json (list_codec DhcpOption_codec) (rt_options t) in
  Ok (mkDhcpReservation (rt_id t) (rt_scope_id t) (rt_identifier t) (rt_ip t) (rt_hostname t) options
        (rt_created_at t)).

Definition dhcp_lease_from (t : DhcpLeaseTuple) : result DhcpLease RowError :=
  let? family := enum_err "DHCP lease family" (enum_from_str IpFamily_codec (lt_family t)) in
  let? state := enum_err "DHCP lease state" (enum_from_str LeaseState_codec (lt_state t)) in
  Ok (mkDhcpLease (lt_id t) (lt_scope_id t) family (lt_ip t) (lt_identifier t) (lt_hostname t) (lt_starts_at t)
        (lt_expires_at t) state (lt_created_at t)).

(** What the statements write into a row. *)
Definition user_row (u : UserRow) : UserTuple :=
  (us_id u, us_username u, us_password_hash u, us_must_change_password u, us_created_at u).
Definition rewrite_tuple (r : Rewrite) : RewriteTuple :=
  (rw_id r, rw_domain r, rw_target r, rw_enabled r, rw_comment r, rw_created_at r).
Definition view_row (v : View) : ViewTuple :=
  mkViewTuple (vw_id v) (vw_name v) (to_json strs_codec (vw_networks v)) (vw_priority v) (vw_is_default v)
    (vw_created_at v) (to_json strs_codec (vw_countries v)) (to_json strs_codec (vw_continents v))
    (to_json (list_codec u32_codec) (vw_asns v)).
Definition zone_row (z : ZoneRow) : ZoneTable :=
  mkZoneTable (zr_id z) (zr_name z) (zr_enabled z) (to_json Soa_codec (zr_soa z)) (zr_default_ttl z) (zr_serial z)
    (zr_created_at z) (zr_updated_at z).
Definition blocklist_row (b : BlocklistRow) : BlocklistTable :=
  mkBlocklistTable (blr_id b) (blr_name b) (blr_url b) (enum_to_str BlocklistFormat_codec (blr_format b))
    (blr_enabled b) (blr_last_updated b) (blr_last_error b) (blr_created_at b).
Definition block_rule_row (r : BlockRule) : BlockRuleTuple :=
  mkBlockRuleTuple (br_id r) (br_domain r) (enum_to_str RuleAction_codec (br_action r)) (br_comment r)
    (br_created_at r).
Definition conditional_row (c : ConditionalForward) : ConditionalTuple :=
  mkConditionalTuple (cf_id c) (cf_domain c) (to_json (list_codec Forwarder_codec) (cf_forwarders c))
    (cf_enabled c) (cf_created_at c).
Definition scope_row (s : DhcpScope) : DhcpScopeTuple :=
  mkDhcpScopeTuple (sc_id s) (sc_name s) (sc_enabled s) (enum_to_str IpFamily_codec (sc_family s)) (sc_subnet s)
    (sc_range_start s) (sc_range_end s) (sc_lease_secs s) (sc_dns_register s) (sc_dns_zone s)
    (to_json (list_codec DhcpOption_codec) (sc_options s)) (sc_created_at s) (sc_server_id s) (sc_interface s).
Definition reservation_row (r : DhcpReservation) : DhcpReservationTuple :=
  mkDhcpReservationTuple (rs_id r) (rs_scope_id r) (rs_identifier r) (rs_ip r) (rs_hostname r)
    (to_json (list_codec DhcpOption_codec) (rs_options r)) (rs_created_at r).
Definition lease_row (l : DhcpLease) : DhcpLeaseTuple :=
  mkDhcpLeaseTuple (ls_id l) (ls_scope_id l) (enum_to_str IpFamily_codec (ls_family l)) (ls_ip l)
    (ls_identifier l) (ls_hostname l) (ls_starts_at l) (ls_expires_at l)
    (enum_to_str LeaseState_codec (ls_state l)) (ls_created_at l).

(** ** The tables *)

Record RawDb : Type := mkRawDb {
  raw_users : list UserTuple;
  raw_sessions : list SessRow;
  raw_views : list ViewTuple;
  raw_zones : list ZoneTable;
  raw_records : list RecordRow;
  raw_settings : option JsonDoc;
  raw_blocklists : list BlocklistTable;
  raw_blocklist_entries : list (Z * string);
  raw_block_rules : list BlockRuleTuple;
  raw_rewrites : list RewriteTuple;
  raw_conditional_forwards : list ConditionalTuple;
  raw_dnssec_keys : list DnssecRow;
  raw_secondary_zones : list SecondaryRow;
  raw_dyndns_tokens : list TokenRow;
  raw_audit_log : list AuditEntry;
  raw_dhcp_scopes : list DhcpScopeTuple;
  raw_dhcp_reservations : list DhcpReservationTuple;
  raw_dhcp_leases : list DhcpLeaseTuple;
  raw_query_log : list QlogRow }.

Definition store_db (d : Db) : RawDb :=
  mkRawDb (user_row <$> users d) (sessions d) (view_row <$> views d) (zone_row <$> zones d) (records d)
    (to_json Settings_codec <$> settings d) (blocklist_row <$> blocklists d) (blocklist_entries d)
    (block_rule_row <$> block_rules d) (rewrite_tuple <$> rewrites d) (conditional_row <$> conditional_forwards d)
    (dnssec_keys d) (secondary_zones d) (dyndns_tokens d) (audit_log d) (scope_row <$> dhcp_scopes d)
    (reservation_row <$> dhcp_reservations d) (lease_row <$> dhcp_leases d) (query_log d).

(** ** The reads with joins *)

(** A row of [ZONE_SELECT]: the counts and the columns of the joined row. *)
Record ZoneRaw : Type := mkZoneRaw {
  zw_id : Z; zw_name : string; zw_enabled : Z; zw_soa : JsonDoc; zw_default_ttl : Z; zw_serial : Z;
  zw_created_at : string; zw_updated_at : string; zw_rc : Z; zw_primary_addr : option string;
  zw_last_check : option string; zw_last_error : option string; zw_dnssec : Z }.

Definition ZONE_SELECT (d : RawDb) (z : ZoneTable) : ZoneRaw :=
  let s := List.find (fun s => sy_zone_id s =? zt_id z) (raw_secondary_zones d) in
  mkZoneRaw (zt_id z) (zt_name z) (Z.b2z (zt_enabled z)) (zt_soa z) (zt_default_ttl z) (zt_serial z)
    (zt_created_at z) (zt_updated_at z)
    (Z.of_nat (length (List.filter (fun r => rr_zone_id r =? zt_id z) (raw_records d))))
    (sy_primary_addr <$> s) (s ≫= sy_last_check) (s ≫= sy_last_error)
    (Z.b2z (existsb (fun k => dk_zone_id k =? zt_id z) (raw_dnssec_keys d))).

Definition zone_from (z : ZoneRaw) : result Zone RowError :=
  let? soa := from_json Soa_codec (zw_soa z) in
  Ok (mkZone (zw_id z) (zw_name z) (negb (zw_enabled z =? 0)) soa (as_u32 (zw_default_ttl z))
        (as_u32 (zw_serial z)) (zw_rc z) (match zw_primary_addr z with Some _ => true | None => false end)
        (zw_primary_addr z) (zw_last_check z) (zw_last_error z) (negb (zw_dnssec z =? 0))
        (zw_created_at z) (zw_updated_at z)).

(** [ZONE_SELECT ... ORDER BY z.name ASC]. *)
Definition raw_list_zones (d : RawDb) : result (list Zone) RowError :=
  read_rows zone_from (sort_with (fun a b => String.leb (zw_name a) (zw_name b)) (ZONE_SELECT d <$> raw_zones d)).

Record BlocklistRaw : Type := mkBlocklistRaw {
  bw_id : Z; bw_name : string; bw_url : string; bw_format : string; bw_enabled : Z;
  bw_last_updated : option string; bw_last_error : option string; bw_created_at : string; bw_cnt : Z }.

Definition BLOCKLIST_SELECT (d : RawDb) (b : BlocklistTable) : BlocklistRaw :=
  mkBlocklistRaw (bt_id b) (bt_name b) (bt_url b) (bt_format b) (Z.b2z (bt_enabled b)) (bt_last_updated b)
    (bt_last_error b) (bt_created_at b)
    (Z.of_nat (length (List.filter (fun e => fst e =? bt_id b) (raw_blocklist_entries d)))).

Definition blocklist_from (b : BlocklistRaw) : Blocklist :=
  mkBlocklist (bw_id b) (bw_name b) (bw_url b) (default Hosts (enum_from_str BlocklistFormat_codec (bw_format b)))
    (negb (bw_enabled b =? 0)) (bw_cnt b) (bw_last_updated b) (bw_last_error b) (bw_created_at b).

Definition raw_list_blocklists (d : RawDb) : list Blocklist :=
  blocklist_from <$>
    sort_with (fun a b => String.leb (bw_name a) (bw_name b)) (BLOCKLIST_SELECT d <$> raw_blocklists d).

(** ** The database a file holds *)

(** [get_settings], before its default. *)
Definition settings_from (t : option JsonDoc) : result (option Settings) RowError :=
  match t with
  | Some t => let? s := from_json Settings_codec t in Ok (Some s)
  | None => Ok None
  end.

Definition zone_row_from (z : ZoneTable) : result ZoneRow RowError :=
  let? soa := from_json Soa_codec (zt_soa z) in
  Ok (mkZoneRow (zt_id z) (zt_name z) (zt_enabled z) soa (zt_default_ttl z) (zt_serial z) (zt_created_at z)
        (zt_updated_at z)).
Definition blocklist_row_from (b : BlocklistTable) : BlocklistRow :=
  mkBlocklistRow (bt_id b) (bt_name b) (bt_url b) (default Hosts (enum_from_str BlocklistFormat_codec (bt_format b)))
    (bt_enabled b) (bt_last_updated b) (bt_last_error b) (bt_created_at b).

Definition load_db (r : RawDb) : result Db RowError :=
  let? views := read_rows view_from (raw_views r) in
  let? zones := read_rows zone_row_from (raw_zones r) in
  let? settings := settings_from (raw_settings r) in
  let? forwards := read_rows conditional_from (raw_conditional_forwards r) in
  let? scopes := read_rows dhcp_scope_from (raw_dhcp_scopes r) in
  let? reservations := read_rows dhcp_reservation_from (raw_dhcp_reservations r) in
  let? leases := read_rows dhcp_lease_from (raw_dhcp_leases r) in
  Ok (mkDb (user_from <$> raw_users r) (raw_sessions r) views zones (raw_records r) settings
        (blocklist_row_from <$> raw_blocklists r) (raw_blocklist_entries r) (block_rule_from <$> raw_block_rules r)
        (rewrite_from <$> raw_rewrites r) forwards (raw_dnssec_keys r) (raw_secondary_zones r) (raw_dyndns_tokens r)
        (raw_audit_log r) scopes reservations leases (raw_query_log r)).

(** The integers that a document or a cast narrows are in their type. *)
Record db_typed (d : Db) : Prop := {
  ty_views : Forall (fun v => Forall is_u32 (vw_asns v)) (views d);
  ty_zones : Forall (fun z => Soa_ok (zr_soa z)) (zones d);
  ty_settings : forall s, settings d = Some s -> Settings_ok s;
  ty_forwards : Forall (fun c => Forall Forwarder_ok (cf_forwarders c)) (conditional_forwards d);
  ty_scopes : Forall (fun s => is_u32 (sc_lease_secs s) /\ Forall DhcpOption_ok (sc_options s)) (dhcp_scopes d);
  ty_reservations : Forall (fun r => Forall DhcpOption_ok (rs_options r)) (dhcp_reservations d) }.

(** ** Lemmas *)

Lemma read_rows_map {A B C} (f : B -> result C RowError) (g : A -> B) (h : A -> C) (l : list A) :
  Forall (fun a => f (g a) = Ok (h a)) l -> read_rows f (g <$> l) = Ok (h <$> l).
Proof. induction 1 as [|a l Ha Hl IH]; [done|]. cbn in *. by rewrite Ha, IH. Qed.

Lemma read_rows_fmap {A B} (f : B -> result A RowError) (g : A -> B) (l : list A) :
  Forall (fun a => f (g a) = Ok a) l -> read_rows f (g <$> l) = Ok l.
Proof. intros Hl. rewrite (read_rows_map f g id) by done. by rewrite list_fmap_id. Qed.

Lemma fmap_id_on {A B} (f : B -> A) (g : A -> B) (l : list A) : (forall a, f (g a) = a) -> f <$> (g <$> l) = l.
Proof. intros H. rewrite <- list_fmap_compose. rewrite <- (list_fmap_id l) at 2. apply list_fmap_ext. intros i x _. apply H. Qed.

Lemma enum_text {A} (name : A -> string) variants a :
  CodecOk 1 (enum_codec name variants) ->
  enum_from_str (enum_codec name variants) (enum_to_str (enum_codec name variants) a) = Some a.
Proof. intros Hc. apply (de_ser (n := 1) (c := enum_codec name variants) a). done. Qed.

Lemma as_u32_small n : is_u32 n -> as_u32 n = n.
Proof. intros Hn. apply Z.mod_small. unfold is_u32, u32_max in Hn. lia. Qed.

Context `{!JsonTextLaws J}.

Lemma from_to_json {A} n (c : Codec A) `{Hc : !CodecOk n c} a :
  (n <= json_depth)%nat -> fits c a -> from_json c (to_json c a) = Ok a.
Proof.
  intros Hn Ha. unfold from_json, to_json. rewrite json_text_roundtrip.
  - cbn. by rewrite de_ser.
  - eapply printable_le; [done|]. by apply ser_printable.
Qed.

(** Every decoder reads back the row its statement wrote. *)
Ltac read_back := repeat (erewrite from_to_json by first [apply _ | unfold json_depth; lia | auto with codec]).

Lemma view_from_row v : Forall is_u32 (vw_asns v) -> view_from (view_row v) = Ok v.
Proof.
  intros Hv. assert (Hf : fits (list_codec u32_codec) (vw_asns v)) by done.
  unfold view_from, view_row. cbn [vt_networks vt_countries vt_continents vt_asns]. read_back. by destruct v.
Qed.
Lemma zone_row_from_row z : Soa_ok (zr_soa z) -> zone_row_from (zone_row z) = Ok z.
Proof.
  intros Hz. assert (Hf : fits Soa_codec (zr_soa z)) by done.
  unfold zone_row_from, zone_row. cbn [zt_soa]. read_back. by destruct z.
Qed.
Lemma blocklist_row_from_row b : blocklist_row_from (blocklist_row b) = b.
Proof. by destruct b as [? ? ? []]. Qed.
Lemma block_rule_from_row r : block_rule_from (block_rule_row r) = r.
Proof. by destruct r as [? ? []]. Qed.
Lemma conditional_from_row c : Forall Forwarder_ok (cf_forwarders c) -> conditional_from (conditional_row c) = Ok c.
Proof.
  intros Hc. unfold conditional_from, conditional_row. cbn [cft_forwarders]. read_back. by destruct c.
Qed.
Lemma fits_options l : Forall DhcpOption_ok l -> fits (list_codec DhcpOption_codec) l.
Proof. done. Qed.
#[local] Hint Resolve fits_options : codec.
Lemma scope_from_row s :
  is_u32 (sc_lease_secs s) /\ Forall DhcpOption_ok (sc_options s) -> dhcp_scope_from (scope_row s) = Ok s.
Proof.
  intros [Hl Ho]. unfold dhcp_scope_from, scope_row. cbn [dst_options dst_family dst_lease_secs].
  read_back. rewrite as_u32_small by done. by destruct s as [? ? ? []].
Qed.
Lemma reservation_from_row r :
  Forall DhcpOption_ok (rs_options r) -> dhcp_reservation_from (reservation_row r) = Ok r.
Proof.
  intros Ho. unfold dhcp_reservation_from, reservation_row. cbn [rt_options]. read_back. by destruct r.
Qed.
Lemma lease_from_row l : dhcp_lease_from (lease_row l) = Ok l.
Proof. by destruct l as [? ? [] ? ? ? ? ? []]. Qed.
Lemma settings_from_row o :
  (forall s, o = Some s -> Settings_ok s) -> settings_from (to_json Settings_codec <$> o) = Ok o.
Proof.
  intros Ho. destruct o as [s|]; [|done]. cbn.
  assert (Hf : fits Settings_codec s) by (by apply Ho). by read_back.
Qed.

(** The joins see the same rows. *)
Lemma zone_from_select d z :
  Soa_ok (zr_soa z) -> zone_from (ZONE_SELECT (store_db d) (zone_row z)) = Ok (into_zone d z).
Proof.
  intros Hz. assert (Hf : fits Soa_codec (zr_soa z)) by done.
  unfold zone_from, ZONE_SELECT, into_zone, zone_row. cbn -[as_u32 from_json to_json Z.b2z]. read_back.
  by destruct (zr_enabled z), (existsb _ (dnssec_keys d)).
Qed.
Lemma blocklist_from_select d b :
  blocklist_from (BLOCKLIST_SELECT (store_db d) (blocklist_row b)) = into_blocklist d b.
Proof. by destruct b as [? ? ? [] []]. Qed.

(** What is printed of the settings stays printable with fields left out or added. *)
Lemma Settings_object_printable keep extra s :
  Settings_ok s -> Forall (fun kv => printable 126 (snd kv) = true) extra ->
  printable json_depth (Settings_object keep extra s) = true.
Proof.
  intros Hs He. pose proof (ser_printable (n := 5) (c := Settings_codec) s Hs) as Hp.
  change (ser Settings_codec s) with (VObj (zip Settings_fields (Settings_write s))) in Hp.
  rewrite printable_obj in Hp. unfold Settings_object, json_depth. rewrite printable_obj.
  rewrite forallb_forall in *. intros kv [Hkv|Hkv]%in_app_iff.
  - apply filter_In in Hkv as [Hkv _]. apply (printable_le 4); [lia|]. by apply Hp.
  - rewrite Forall_forall in He. by apply He, list_elem_of_In.
Qed.

(** ** Theorems *)

(** What the statements write is what the next read of the file finds. *)
Lemma db_stored d :
  db_typed d ->
  load_db (store_db d) = Ok d /\
  ok (raw_list_zones (store_db d)) = ok (snd (list_zones d)) /\
  Ok (raw_list_blocklists (store_db d)) = snd (list_blocklists d).
Proof.
  intros [Hv Hz Hs Hf Hc Hr]. split_and!.
  - unfold load_db, store_db.
    cbn [raw_users raw_rewrites raw_views raw_zones raw_settings raw_conditional_forwards raw_dhcp_scopes raw_dhcp_reservations
         raw_dhcp_leases raw_blocklists raw_block_rules].
    rewrite (read_rows_fmap view_from) by (eapply Forall_impl; [exact Hv|exact view_from_row]).
    rewrite (read_rows_fmap zone_row_from) by (eapply Forall_impl; [exact Hz|exact zone_row_from_row]).
    rewrite settings_from_row by done.
    rewrite (read_rows_fmap conditional_from) by (eapply Forall_impl; [exact Hf|exact conditional_from_row]).
    rewrite (read_rows_fmap dhcp_scope_from) by (eapply Forall_impl; [exact Hc|exact scope_from_row]).
    rewrite (read_rows_fmap dhcp_reservation_from) by (eapply Forall_impl; [exact Hr|exact reservation_from_row]).
    rewrite (read_rows_fmap dhcp_lease_from) by (apply Forall_true; exact lease_from_row).
    rewrite (fmap_id_on user_from), (fmap_id_on rewrite_from) by by intros [].
    rewrite (fmap_id_on blocklist_row_from) by exact blocklist_row_from_row.
    rewrite (fmap_id_on block_rule_from) by exact block_rule_from_row. by destruct d.
  - unfold raw_list_zones, store_db at 2, list_zones. cbn [raw_zones query snd]. rewrite <- list_fmap_compose.
    rewrite <- !(sort_with_fmap _ (fun a b => String.leb (zr_name a) (zr_name b))) by done.
    erewrite read_rows_map; [done|]. rewrite sort_with_perm.
    eapply Forall_impl; [exact Hz|]. intros z. apply zone_from_select.
  - unfold raw_list_blocklists, store_db at 2, list_blocklists. cbn [raw_blocklists query snd].
    rewrite <- !list_fmap_compose, <- !(sort_with_fmap _ (fun a b => String.leb (blr_name a) (blr_name b))) by done.
    rewrite <- list_fmap_compose. f_equal. apply list_fmap_ext. intros i b _. apply blocklist_from_select.
Qed.

(** C36: the settings of an earlier build, or of a later one: when the stored object
    lacks any of the fields that have a default and has fields of other names, the
    settings are read with the declared defaults in place of what is missing and
    everything else as it was written; they are refused exactly when one of the
    four fields without a default is missing. *)
Theorem settings_upgrade keep extra s :
  Settings_ok s -> (forall x, x ∈ Settings_fields -> x ∉ fst <$> extra) ->
  Forall (fun kv => printable 126 (snd kv) = true) extra ->
  settings_from (Some (json_to_string (Settings_object keep extra s))) =
    if forallb keep Settings_required then Ok (Some (upgraded keep s)) else Err SerializationError.
Proof.
  intros Hs Hx He. unfold settings_from, from_json.
  rewrite json_text_roundtrip by by apply Settings_object_printable.
  cbn [mbind option_bind]. rewrite Settings_de_object by done. by destruct (forallb keep _).
Qed.
End Schema.
