(* ===== verification/Config.v ===== *)
(** * Start-up configuration ([src/config.rs] and the overlays of [src/main.rs])

    The configuration file is a record with defaults; the command line is laid
    over it, then the settings of the database.  A path is its text.  Reading the
    file and the TOML parser are arguments of [Config_load]. *)

From S2P Require Import Prelude Strs Net External Models.

(** ** Socket addresses *)

(** [SocketAddr]; an IPv6 one has a scope id. *)
Inductive SocketAddr : Type :=
| SockV4 (ip : Z) (port : Z)
| SockV6 (ip : Z) (port : Z) (scope_id : Z).

Definition sock_ip (a : SocketAddr) : IpAddr :=
  match a with SockV4 ip _ => V4 ip | SockV6 ip _ _ => V6 ip end.

(** A number of any length that fits. *)
Definition read_any_number (max : Z) : reader Z := fun s => read_number 10 (String.length s) true max s.
Definition read_port : reader Z := fun s =>
  let! r := read_given_char ":"%char s in read_any_number 65535 (snd r).
Definition read_socket_addr_v4 : reader SocketAddr := fun s =>
  let! a := read_ipv4_addr s in
  let! p := read_port (snd a) in
  Some (SockV4 (fst a) (fst p), snd p).
Definition read_scope_id : reader Z := fun s =>
  let! r := read_given_char "%"%char s in read_any_number u32_max (snd r).
Definition read_socket_addr_v6 : reader SocketAddr := fun s =>
  let! o := read_given_char "["%char s in
  let! a := read_ipv6_addr (snd o) in
  let '(scope, r) := default (0, snd a) (read_scope_id (snd a)) in
  let! c := read_given_char "]"%char r in
  let! p := read_port (snd c) in
  Some (SockV6 (fst a) (fst p) scope, snd p).

(** [str::parse::<SocketAddr>]. *)
Definition parse_socket_addr (s : string) : option SocketAddr :=
  parse_with (fun s => match read_socket_addr_v4 s with
                       | Some r => Some r
                       | None => read_socket_addr_v6 s
                       end) s.

(** [Display]. *)
Definition show_socket_addr (a : SocketAddr) : string :=
  match a with
  | SockV4 ip port => show_v4 ip +:+ ":" +:+ show_u port
  | SockV6 ip port scope_id =>
      "[" +:+ show_v6 ip +:+ (if scope_id =? 0 then "" else "%" +:+ show_u scope_id) +:+ "]:" +:+ show_u port
  end.

(** ** The configuration *)

Record DhcpConfig : Type := mkDhcpConfig { dc_v4_listen : list SocketAddr; dc_v6_listen : list SocketAddr }.
Record GeoConfig : Type := mkGeoConfig { gc_geoip_db : option string; gc_asn_db : option string }.
Record PrivilegesConfig : Type := mkPrivilegesConfig { pc_user : option string; pc_group : option string }.
Record DnsConfig : Type := mkDnsConfig {
  dn_listen : list SocketAddr; dn_dot_listen : list SocketAddr; dn_doh_listen : list SocketAddr;
  dn_doq_listen : list SocketAddr; dn_doh3_listen : list SocketAddr; dn_doh_path : string;
  dn_tcp_timeout_secs : Z }.
Record WebConfig : Type := mkWebConfig {
  wc_listen : SocketAddr; wc_tls : bool; wc_disabled : bool; wc_allow_networks : list string }.
Record TlsConfig : Type := mkTlsConfig {
  tc_cert_path : option string; tc_key_path : option string; tc_hostname : string;
  tc_auto_self_signed : bool; tc_acme : bool; tc_acme_domains : list string;
  tc_acme_contact : option string; tc_acme_staging : bool }.
Record Config : Type := mkConfig {
  cg_data_dir : string; cg_database_path : option string; cg_log : string; cg_dns : DnsConfig;
  cg_web : WebConfig; cg_tls : TlsConfig; cg_privileges : PrivilegesConfig; cg_geo : GeoConfig;
  cg_dhcp : DhcpConfig }.

Definition DnsConfig_default : DnsConfig :=
  mkDnsConfig [SockV4 0 53] [] [] [] [] "/dns-query" 10.
Definition WebConfig_default : WebConfig := mkWebConfig (SockV4 0 8053) false false [].
Definition TlsConfig_default : TlsConfig :=
  mkTlsConfig None None "nomina.local" true false [] None false.
Definition Config_default : Config :=
  mkConfig "./data" None "info" DnsConfig_default WebConfig_default TlsConfig_default
    (mkPrivilegesConfig None None) (mkGeoConfig None None) (mkDhcpConfig [] []).

(** [Config::load]: [read] is the file system, [toml] the parser. *)
Definition Config_load (read : string -> option string) (toml : string -> option Config) (path : option string)
    : option Config :=
  match path with
  | Some p => let! text := read p in toml text
  | None => Some Config_default
  end.

(** [Path::join] with a relative name. *)
Definition path_join (dir name : string) : string :=
  if is_empty dir || ends_with dir "/" then dir +:+ name else dir +:+ "/" +:+ name.
Definition database_path (c : Config) : string :=
  default (path_join (cg_data_dir c) "nomina.db") (cg_database_path c).

Definition is_nil {A} (l : list A) : bool := match l with [] => true | _ => false end.
Definition tls_required (c : Config) : bool :=
  wc_tls (cg_web c) || negb (is_nil (dn_dot_listen (cg_dns c))) || negb (is_nil (dn_doh_listen (cg_dns c))) ||
  negb (is_nil (dn_doq_listen (cg_dns c))) || negb (is_nil (dn_doh3_listen (cg_dns c))).

(** ** The command line *)

Record Cli : Type := mkCli {
  cl_config : option string; cl_data_dir : option string; cl_dns_listen : list SocketAddr;
  cl_dot_listen : list SocketAddr; cl_doh_listen : list SocketAddr; cl_doq_listen : list SocketAddr;
  cl_doh3_listen : list SocketAddr; cl_web_listen : option SocketAddr; cl_web_tls : bool;
  cl_hostname : option string; cl_log : option string }.

(** [if !new.is_empty() { old = new }]. *)
Definition override_list {A} (new old : list A) : list A := if is_nil new then old else new.

Definition apply_overrides (c : Config) (cli : Cli) : Config :=
  let dns := cg_dns c in
  let web := cg_web c in
  let tls := cg_tls c in
  mkConfig (default (cg_data_dir c) (cl_data_dir cli)) (cg_database_path c) (default (cg_log c) (cl_log cli))
    (mkDnsConfig (override_list (cl_dns_listen cli) (dn_listen dns)) (override_list (cl_dot_listen cli) (dn_dot_listen dns))
       (override_list (cl_doh_listen cli) (dn_doh_listen dns)) (override_list (cl_doq_listen cli) (dn_doq_listen dns))
       (override_list (cl_doh3_listen cli) (dn_doh3_listen dns)) (dn_doh_path dns) (dn_tcp_timeout_secs dns))
    (mkWebConfig (default (wc_listen web) (cl_web_listen cli)) (wc_tls web || cl_web_tls cli) (wc_disabled web)
       (wc_allow_networks web))
    (mkTlsConfig (tc_cert_path tls) (tc_key_path tls) (default (tc_hostname tls) (cl_hostname cli))
       (tc_auto_self_signed tls) (tc_acme tls) (tc_acme_domains tls) (tc_acme_contact tls) (tc_acme_staging tls))
    (cg_privileges c) (cg_geo c) (cg_dhcp c).

(** ** The settings of the database *)

(** The nested [addrs]: entries that do not parse are skipped. *)
Definition addrs (v : list string) : list SocketAddr := omap (fun a => parse_socket_addr (trim a)) v.
(** [if !v.is_empty() { old = addrs(v) }]. *)
Definition overlay_addrs (v : list string) (old : list SocketAddr) : list SocketAddr :=
  if is_nil v then old else addrs v.
(** [if !s.trim().is_empty() { old = s.trim() }]. *)
Definition overlay_text (s : string) (old : string) : string := if is_empty (trim s) then old else trim s.
Definition overlay_opt (s : string) (old : option string) : option string :=
  if is_empty (trim s) then old else Some (trim s).

Definition apply_settings_to_config (c : Config) (s : Settings) : Config :=
  let dns := cg_dns c in
  let web := cg_web c in
  let tls := cg_tls c in
  let geo := cg_geo c in
  mkConfig (cg_data_dir c) (cg_database_path c) (cg_log c)
    (mkDnsConfig (overlay_addrs (st_dns_listen s) (dn_listen dns)) (overlay_addrs (st_dot_listen s) (dn_dot_listen dns))
       (overlay_addrs (st_doh_listen s) (dn_doh_listen dns)) (overlay_addrs (st_doq_listen s) (dn_doq_listen dns))
       (overlay_addrs (st_doh3_listen s) (dn_doh3_listen dns)) (overlay_text (st_doh_path s) (dn_doh_path dns))
       (if 0 <? st_tcp_timeout_secs s then st_tcp_timeout_secs s else dn_tcp_timeout_secs dns))
    (mkWebConfig (wc_listen web) (wc_tls web) (wc_disabled web)
       (override_list (st_web_allow_networks s) (wc_allow_networks web)))
    (mkTlsConfig (overlay_opt (st_tls_cert_path s) (tc_cert_path tls)) (overlay_opt (st_tls_key_path s) (tc_key_path tls))
       (overlay_text (st_tls_hostname s) (tc_hostname tls)) (default (tc_auto_self_signed tls) (st_tls_auto_self_signed s))
       (tc_acme tls || st_tls_acme s) (override_list (st_tls_acme_domains s) (tc_acme_domains tls))
       (overlay_opt (st_tls_acme_contact s) (tc_acme_contact tls)) (tc_acme_staging tls || st_tls_acme_staging s))
    (cg_privileges c)
    (mkGeoConfig (overlay_opt (st_geoip_db s) (gc_geoip_db geo)) (overlay_opt (st_asn_db s) (gc_asn_db geo)))
    (cg_dhcp c).

(** ** Lemmas *)

Lemma overlay_addrs_idem v old : overlay_addrs v (overlay_addrs v old) = overlay_addrs v old.
Proof. unfold overlay_addrs. by destruct (is_nil v). Qed.
Lemma overlay_text_idem s old : overlay_text s (overlay_text s old) = overlay_text s old.
Proof. unfold overlay_text. by destruct (is_empty (trim s)). Qed.
Lemma overlay_opt_idem s old : overlay_opt s (overlay_opt s old) = overlay_opt s old.
Proof. unfold overlay_opt. by destruct (is_empty (trim s)). Qed.
Lemma override_list_idem {A} (v old : list A) : override_list v (override_list v old) = override_list v old.
Proof. unfold override_list. by destruct (is_nil v). Qed.
#[export] Hint Rewrite overlay_addrs_idem overlay_text_idem overlay_opt_idem @override_list_idem : overlay.

(** The default settings leave the configuration as it is, and laying the same
    settings over it twice is laying them over it once. *)
Theorem settings_overlay c s :
  apply_settings_to_config c Settings_default = c /\
  apply_settings_to_config (apply_settings_to_config c s) s = apply_settings_to_config c s.
Proof.
  destruct c as [dd dbp log [] [] [] pr [] dh]. split.
  - unfold apply_settings_to_config. cbn. by rewrite !orb_false_r.
  - unfold apply_settings_to_config. cbn. autorewrite with overlay. rewrite <- !orb_assoc, !orb_diag.
    destruct (0 <? _); by destruct (st_tls_auto_self_signed s).
Qed.
