(* ===== verification/Mdns.v ===== *)
(** * mDNS discovery ([src/dns/mdns.rs])

    The registry of discovered hosts, what a received message teaches, the
    follow-up questions with the packets that ask them, the sockets and the
    supervisor's tick.  Time is in nanoseconds.  The wire format of messages is
    hickory's. *)

From S2P Require Import Prelude Strs Net External Models Cache.

Definition SERVICES_META : string := "_services._dns-sd._udp.local.".
Definition QUERIED_CAP : Z := 4096.

(** ** The registry *)

(** Host label to addresses and expiry. *)
Abbreviation MdnsRegistry := (gmap string (list IpAddr * Z)).

Definition mdns_insert (host : string) (ip : IpAddr) (ttl now : Z) (m : MdnsRegistry) : MdnsRegistry :=
  let k := to_ascii_lowercase host in
  let ips := match m !! k with Some (ips, _) => ips | None => [] end in
  <[k := (if bool_decide (ip ∈ ips) then ips else ips ++ [ip], now + ttl)]> m.

Definition mdns_lookup (host : string) (rtype : RecordType) (now : Z) (m : MdnsRegistry) : list IpAddr :=
  match m !! to_ascii_lowercase host with
  | Some (ips, exp) =>
      if now <? exp then
        List.filter (fun ip => match rtype with A => is_ipv4 ip | AAAA => is_ipv6 ip | _ => true end) ips
      else []
  | None => []
  end.

(** The first fresh host with the address; the [HashMap]'s iteration order, which
    the language leaves open, is the order of [map_to_list]. *)
Definition mdns_reverse (ip : IpAddr) (now : Z) (m : MdnsRegistry) : option string :=
  fst <$> List.find (fun e : string * (list IpAddr * Z) => (now <? snd (snd e)) && bool_decide (ip ∈ fst (snd e))) (map_to_list m).

Definition mdns_clear (m : MdnsRegistry) : MdnsRegistry := ∅.

Definition mdns_fresh (now : Z) (m : MdnsRegistry) : list (string * (list IpAddr * Z)) :=
  List.filter (fun e : string * (list IpAddr * Z) => now <? snd (snd e)) (map_to_list m).
Definition mdns_count (now : Z) (m : MdnsRegistry) : Z := Z.of_nat (length (mdns_fresh now m)).
Definition mdns_snapshot (now : Z) (m : MdnsRegistry) : list (string * list IpAddr * Z) :=
  sort_with (fun a b => String.leb (fst (fst a)) (fst (fst b)))
    ((fun e => (fst e, fst (snd e), (snd (snd e) - now) / NANOS)) <$> mdns_fresh now m).

Definition is_lan_addr (ip : IpAddr) : bool :=
  match ip with
  | V4 a => v4_is_private a || v4_is_link_local a || v4_is_loopback a
  | V6 a =>
      if v6_is_loopback a then true
      else
        let ula := Z.land (oct6 a 0) 254 =? 252 in
        let link_local := (oct6 a 0 =? 254) && (Z.land (oct6 a 1) 192 =? 128) in
        ula || link_local
  end.

Section Mdns.
Context `{HN : HickoryNames} `{TEXT : !HickoryText}.

(** The sections of a message the discovery reads. *)
Record Message : Type := mkMessage {
  mg_answers : list DRecord; mg_additionals : list DRecord; mg_queries : list (Name * RecordType) }.

Definition plain_name (n : Name) : string := to_ascii_lowercase (trim_end_matches "."%char (Name_to_string n)).

Definition host_of_record (r : DRecord) : option (string * IpAddr) :=
  let! label := strip_suffix ".local" (plain_name (rec_name r)) in
  let label := trim_end_matches "."%char label in
  if is_empty label || contains_char "."%char label then None
  else match rec_data r with
       | RD_A a => Some (label, V4 a)
       | RD_AAAA a => Some (label, V6 a)
       | _ => None
       end.
Definition hosts_from_message (msg : Message) : list (string * IpAddr) :=
  omap host_of_record (mg_answers msg ++ mg_additionals msg).

Definition is_flat_local (n : Name) : bool :=
  match strip_suffix ".local" (plain_name n) with
  | Some label => negb (is_empty label) && negb (contains_char "."%char label)
  | None => false
  end.

(** ** Follow-up questions *)

Definition question_key (q : Name * RecordType) : string :=
  to_ascii_lowercase (Name_to_string (fst q)) +:+ "|" +:+ RecordType_to_string (snd q).

(** The [want] closure on (asked keys, questions so far). *)
Definition want (st : gset string * list (Name * RecordType)) (q : Name * RecordType)
    : gset string * list (Name * RecordType) :=
  let '(queried, out) := st in
  if (Z.of_nat (size queried) <? QUERIED_CAP) && negb (bool_decide (question_key q ∈ queried))
  then ({[question_key q]} ∪ queried, out ++ [q])
  else (queried, out).

(** The questions a record or a question leads to, in order. *)
Definition wanted_by_record (r : DRecord) : list (Name * RecordType) :=
  match rec_data r with
  | RD_PTR target =>
      if bool_decide (plain_name (rec_name r) = trim_end_matches "."%char SERVICES_META)
      then [(target, PTR)] else [(target, SRV)]
  | RD_SRV _ _ _ target => [(target, A); (target, AAAA)]
  | _ => []
  end.
Definition wanted_by_query (q : Name * RecordType) : list (Name * RecordType) :=
  match snd q with
  | A | AAAA | ANY => if is_flat_local (fst q) then [(fst q, A); (fst q, AAAA)] else []
  | _ => []
  end.
Definition wanted (msg : Message) : list (Name * RecordType) :=
  concat (wanted_by_record <$> (mg_answers msg ++ mg_additionals msg)) ++ concat (wanted_by_query <$> mg_queries msg).

Definition follow_up_questions (msg : Message) (queried : gset string) : gset string * list (Name * RecordType) :=
  fold_left want (wanted msg) (queried, []).

(** [learn_and_plan]; [None] is a datagram that does not parse. *)
Definition learn_and_plan (msg : option Message) (mdns_ttl : Z) (publish_public : bool) (now : Z)
    (reg : MdnsRegistry) (queried : gset string) : MdnsRegistry * gset string * list (Name * RecordType) :=
  match msg with
  | None => (reg, queried, [])
  | Some msg =>
      let reg := fold_left (fun reg '(host, ip) =>
        if publish_public || is_lan_addr ip then mdns_insert host ip (mdns_ttl * NANOS) now reg else reg)
        (hosts_from_message msg) reg in
      let '(queried, out) := follow_up_questions msg queried in
      (reg, queried, out)
  end.
End Mdns.

(** ** Sockets and packets *)

Definition MDNS_PORT : Z := 5353.
(** The questions one packet carries. *)
Definition MDNS_CHUNK : nat := 16.

(** Whether the shared socket can be bound, which addresses can join the group on it,
    whether the query socket can be bound, and [getifaddrs]. *)
Record MdnsHost : Type := mkMdnsHost {
  mh_bind : bool; mh_join : Z -> bool; mh_query_bind : bool; mh_ifaddrs : option (list IfAddr) }.

(** The addresses of the interfaces that are up, multicast-capable and not loopback,
    each once. *)
Definition add_lan_addr (out : list Z) (ifa : IfAddr) : list Z :=
  if negb (ia_up ifa) || negb (ia_multicast ifa) || ia_loopback ifa then out
  else match ia_v4 ifa with
       | Some ip => if (ip =? UNSPECIFIED) || bool_decide (ip ∈ out) then out else out ++ [ip]
       | None => out
       end.
Definition lan_interface_addrs (ifaddrs : option (list IfAddr)) : list Z :=
  fold_left add_lan_addr (default [] ifaddrs) [].

(** [bind_socket]: the addresses that joined the group, besides the default one. *)
Definition bind_socket (h : MdnsHost) : option (list Z) :=
  if mh_bind h then Some (List.filter (mh_join h) (lan_interface_addrs (mh_ifaddrs h))) else None.
Definition bind_query_socket (h : MdnsHost) : bool := mh_query_bind h.

(** Whether [run] gets past its sockets. *)
Definition mdns_listens (h : MdnsHost) : bool :=
  match bind_socket h with Some _ => bind_query_socket h | None => false end.

(** [slice::chunks]. *)
Fixpoint chunks_fuel {A} (fuel n : nat) (l : list A) : list (list A) :=
  match fuel, l with
  | S fuel', _ :: _ => take n l :: chunks_fuel fuel' n (drop n l)
  | _, _ => []
  end.
Definition chunks {A} (n : nat) (l : list A) : list (list A) := chunks_fuel (length l) n l.

(** [to_vec] of a query with id 0 whose questions have class IN and the QU bit. *)
Class MdnsWire `{!HickoryNames} := { mdns_to_vec : list (Name * RecordType) -> option (list Z) }.

Section Packets.
Context `{HN : HickoryNames} `{WIRE : !MdnsWire}.

Definition query_for (questions : list (Name * RecordType)) : list Z := default [] (mdns_to_vec questions).
Definition enumeration_query : list Z :=
  match Name_from_ascii SERVICES_META with
  | Some name => query_for [(name, PTR)]
  | None => []
  end.
(** What the loop of [run] sends for the questions a datagram led to. *)
Definition follow_packets (follow : list (Name * RecordType)) : list (list Z) := query_for <$> chunks MDNS_CHUNK follow.
End Packets.

(** ** The supervisor *)

Record Supervisor : Type := mkSupervisor { sv_running : bool; sv_last_public : bool }.

(** One tick: starts or stops the listener, and forgets the hosts when discovery
    is switched off or the publishing policy changed. *)
Definition supervise_tick (enabled publish_public : bool) (s : Supervisor) (reg : MdnsRegistry)
    : Supervisor * MdnsRegistry :=
  let '(running, reg) :=
    match sv_running s, enabled with
    | false, true => (true, reg)
    | true, false => (false, mdns_clear reg)
    | r, _ => (r, reg)
    end in
  if bool_decide (publish_public = sv_last_public s) then (mkSupervisor running (sv_last_public s), reg)
  else (mkSupervisor running publish_public, mdns_clear reg).

(** ** Lemmas *)

(** The chunks of a list are the list, none larger than asked and none empty. *)
Lemma chunks_fuel_spec {A} fuel n (l : list A) :
  (0 < n)%nat -> (length l <= fuel)%nat ->
  concat (chunks_fuel fuel n l) = l /\ Forall (fun c => (0 < length c <= n)%nat) (chunks_fuel fuel n l).
Proof.
  intros Hn. revert l. induction fuel as [|fuel IH]; intros [|x l] Hl; cbn [chunks_fuel]; try done; [cbn in Hl; lia|].
  destruct (IH (drop n (x :: l))) as [H1 H2]; [rewrite length_drop; cbn in *; lia|]. split.
  - cbn [concat]. rewrite H1. apply take_drop.
  - constructor; [|done]. rewrite length_take. cbn. lia.
Qed.
Lemma chunks_spec {A} n (l : list A) :
  (0 < n)%nat -> concat (chunks n l) = l /\ Forall (fun c => (0 < length c <= n)%nat) (chunks n l).
Proof. intros Hn. by apply chunks_fuel_spec. Qed.

(** The group is joined once per address, on no unspecified one. *)
Lemma lan_interface_addrs_ok ifaddrs :
  NoDup (lan_interface_addrs ifaddrs) /\ UNSPECIFIED ∉ lan_interface_addrs ifaddrs.
Proof.
  unfold lan_interface_addrs. assert (NoDup (@nil Z) /\ UNSPECIFIED ∉ @nil Z) as H by (split; [constructor|by apply not_elem_of_nil]).
  revert H. generalize (@nil Z). induction (default [] ifaddrs) as [|ifa ifas IH]; intros out Hout; [done|].
  cbn [fold_left]. apply IH. unfold add_lan_addr. destruct (_ || ia_loopback ifa); [done|].
  destruct (ia_v4 ifa) as [ip|]; [|done]. destruct (Z.eqb_spec ip UNSPECIFIED) as [|Hne]; [done|]. cbn [orb].
  case_bool_decide as Hin; [done|]. destruct Hout as [H1 H2]. rewrite not_elem_of_app, list_elem_of_singleton.
  split; [|by auto]. apply NoDup_app. split_and!; [done| |apply NoDup_singleton]. by intros x Hx ->%list_elem_of_singleton.
Qed.

Definition registry_lan (m : MdnsRegistry) : Prop :=
  forall host ips exp, m !! host = Some (ips, exp) -> Forall (fun ip => is_lan_addr ip = true) ips.

Lemma registry_lan_insert host ip ttl now m :
  registry_lan m -> is_lan_addr ip = true -> registry_lan (mdns_insert host ip ttl now m).
Proof.
  intros Hm Hip h ips exp. unfold mdns_insert. rewrite lookup_insert_Some. intros [[<- [= <- <-]]|[_ H]]; [|by eapply Hm].
  assert (Forall (fun ip => is_lan_addr ip = true)
            (match m !! to_ascii_lowercase host with Some (ips, _) => ips | None => [] end)) as Hf.
  { destruct (m !! to_ascii_lowercase host) as [[l e]|] eqn:E; [by eapply Hm|constructor]. }
  case_bool_decide; [done|]. apply Forall_app. split; [done|by repeat constructor].
Qed.

Section MdnsLemmas.
Context `{HN : HickoryNames} `{TEXT : !HickoryText}.

(** Under the LAN-only policy nothing but LAN addresses is learned. *)
Lemma learn_lan msg ttl now reg queried :
  registry_lan reg -> registry_lan (fst (fst (learn_and_plan msg ttl false now reg queried))).
Proof.
  intros Hr. destruct msg as [msg|]; [|done]. unfold learn_and_plan.
  destruct (follow_up_questions msg queried) as [q out]. cbn [fst].
  revert reg Hr. induction (hosts_from_message msg) as [|[h ip] l IH]; intros reg Hr; [done|]. cbn [fold_left].
  apply IH. cbn [orb]. destruct (is_lan_addr ip) eqn:E; [by apply registry_lan_insert|done].
Qed.

Lemma supervise_lan enabled s reg s' reg' :
  supervise_tick enabled false s reg = (s', reg') -> sv_last_public s = true \/ registry_lan reg -> registry_lan reg'.
Proof.
  assert (registry_lan (mdns_clear reg)) as Hc by (intros h ips e H; unfold mdns_clear in H; by rewrite lookup_empty in H).
  unfold supervise_tick. destruct s as [[|] [|]], enabled; cbn; intros [= <- <-] [H|H]; try done.
Qed.

Lemma want_eq queried out q :
  want (queried, out) q =
  if (Z.of_nat (size queried) <? QUERIED_CAP) && negb (bool_decide (question_key q ∈ queried))
  then ({[question_key q]} ∪ queried, out ++ [q]) else (queried, out).
Proof. done. Qed.

(** The questions asked are new, and their keys are remembered up to the cap. *)
Lemma want_fold qs queried out :
  Z.of_nat (size queried) <= QUERIED_CAP ->
  let r := fold_left want qs (queried, out) in
  exists new, snd r = out ++ new /\ Z.of_nat (size (fst r)) <= QUERIED_CAP /\ queried ⊆ fst r /\
    NoDup (question_key <$> new) /\
    forall q, In q new -> In q qs /\ (question_key q ∉ queried) /\ question_key q ∈ fst r.
Proof.
  revert queried out. induction qs as [|q qs IH]; intros queried out Hq; cbn [fold_left].
  - exists []. rewrite app_nil_r. split_and!; [done|done|done|constructor|done].
  - rewrite want_eq. destruct (Z.ltb_spec (Z.of_nat (size queried)) QUERIED_CAP) as [Hlt|Hge]; cbn [andb].
    + case_bool_decide as Hin; cbn [negb].
      * destruct (IH queried out Hq) as (new & ? & ? & ? & ? & Hn). exists new. split_and!; try done.
        intros x Hx. destruct (Hn x Hx) as (? & ? & ?). split_and!; [by right|done|done].
      * destruct (IH ({[question_key q]} ∪ queried) (out ++ [q])) as (new & H1 & H2 & H3 & H4 & H5).
        { rewrite size_union by set_solver. rewrite size_singleton. lia. }
        exists (q :: new). rewrite H1, <- app_assoc. split_and!; [done|done|set_solver| |].
        -- rewrite fmap_cons, NoDup_cons. split; [|done]. intros Hk. apply list_elem_of_fmap in Hk as (x & E & Hx).
           apply list_elem_of_In in Hx. destruct (H5 x Hx) as (_ & Hno & _). set_solver.
        -- intros x [<-|Hx]; [split_and!; [by left|done|set_solver]|]. destruct (H5 x Hx) as (? & ? & ?).
           split_and!; [by right|set_solver|done].
    + destruct (IH queried out Hq) as (new & ? & ? & ? & ? & Hn). exists new. split_and!; try done.
      intros x Hx. destruct (Hn x Hx) as (? & ? & ?). split_and!; [by right|done|done].
Qed.
End MdnsLemmas.
