(* ===== verification/State.v ===== *)
(** * Shared application state ([src/state.rs])

    The in-memory structures the query path reads, how they are rebuilt from the
    database and the settings, and the login throttle.  A lock around a field is
    the field; an operation that takes a lock is atomic.  Time is in nanoseconds.
    The channels to the background writers are the lists of what was queued. *)

From S2P Require Import Prelude Strs Net External Models Db DbFilter Filter Upstream Cache Stats Mdns Dnssec Store.

(** ** Login throttling *)

Definition LOCKOUT_THRESHOLD : Z := 8.
Definition LOCKOUT_WINDOW : Z := 300 * NANOS.

(** Failures per key: how many, and when the last one was. *)
Abbreviation LoginThrottle := (gmap string (Z * Z)).

Definition is_locked_out (key : string) (now : Z) (t : LoginThrottle) : LoginThrottle * bool :=
  match t !! key with
  | Some (count, when_) =>
      if LOCKOUT_WINDOW <? now - when_ then (delete key t, false) else (t, LOCKOUT_THRESHOLD <=? count)
  | None => (t, false)
  end.

Definition record_login_failure (key : string) (now : Z) (t : LoginThrottle) : LoginThrottle :=
  let '(count, when_) := default (0, now) (t !! key) in
  let count := if LOCKOUT_WINDOW <? now - when_ then 0 else count in
  <[key := (as_u32 (count + 1), now)]> t.

Definition clear_login_failures (key : string) (t : LoginThrottle) : LoginThrottle := delete key t.

(** ** The application state *)

Section State.
Context `{NETS : IpNets} `{HN : HickoryNames} `{TEXT : !HickoryText} `{SIGN : !Signers} `{RES : !HickoryResolvers}.

Record AppState : Type := mkAppState {
  ap_db : Db; ap_stats : Stats; ap_store : ZoneStore; ap_upstream : option Upstream;
  ap_conditional : list Rule; ap_filter : FilterSet; ap_cache : DnsCache; ap_settings : Settings;
  ap_mdns : MdnsRegistry; ap_rr_counter : Z; ap_throttle : LoginThrottle;
  ap_qlog : list RecentQuery; ap_blocked : list string }.

Definition with_stats (f : Stats -> Stats) (a : AppState) : AppState :=
  mkAppState (ap_db a) (f (ap_stats a)) (ap_store a) (ap_upstream a) (ap_conditional a) (ap_filter a) (ap_cache a)
    (ap_settings a) (ap_mdns a) (ap_rr_counter a) (ap_throttle a) (ap_qlog a) (ap_blocked a).
Definition with_cache (c : DnsCache) (a : AppState) : AppState :=
  mkAppState (ap_db a) (ap_stats a) (ap_store a) (ap_upstream a) (ap_conditional a) (ap_filter a) c
    (ap_settings a) (ap_mdns a) (ap_rr_counter a) (ap_throttle a) (ap_qlog a) (ap_blocked a).

Definition new_cache (s : Settings) : DnsCache :=
  DnsCache_new (st_cache_size s) (st_cache_min_ttl s) (st_cache_max_ttl s).

Definition AppState_new (db : Db) (store : ZoneStore) (upstream : option Upstream) (conditional : list Rule)
    (filter : FilterSet) (settings : Settings) : AppState :=
  mkAppState db Stats_new store upstream conditional filter (new_cache settings) settings ∅ 0 ∅ [] [].

(** [try_send]: an entry is queued when the channel has room, and dropped otherwise. *)
Definition try_queue {X} (room : bool) (x : X) (queue : list X) : list X := if room then queue ++ [x] else queue.

Definition note_blocked_domain (room : bool) (domain : string) (a : AppState) : AppState :=
  mkAppState (ap_db a) (ap_stats a) (ap_store a) (ap_upstream a) (ap_conditional a) (ap_filter a) (ap_cache a)
    (ap_settings a) (ap_mdns a) (ap_rr_counter a) (ap_throttle a) (ap_qlog a) (try_queue room domain (ap_blocked a)).
Definition log_query (room : bool) (entry : RecentQuery) (a : AppState) : AppState :=
  mkAppState (ap_db a) (ap_stats a) (ap_store a) (ap_upstream a) (ap_conditional a) (ap_filter a) (ap_cache a)
    (ap_settings a) (ap_mdns a) (ap_rr_counter a) (ap_throttle a) (try_queue room entry (ap_qlog a)) (ap_blocked a).

Definition mdns_zone (a : AppState) : option string :=
  let z := to_ascii_lowercase (trim_end_matches "."%char (trim (st_mdns_zone (ap_settings a)))) in
  if is_empty z then None else Some z.
Definition mdns_ttl (a : AppState) : Z := Z.max (st_mdns_ttl (ap_settings a)) 1.

(** The old counter, and the state with the next one. *)
Definition next_rotation (a : AppState) : Z * AppState :=
  (ap_rr_counter a,
   mkAppState (ap_db a) (ap_stats a) (ap_store a) (ap_upstream a) (ap_conditional a) (ap_filter a) (ap_cache a)
     (ap_settings a) (ap_mdns a) (u64_succ (ap_rr_counter a)) (ap_throttle a) (ap_qlog a) (ap_blocked a)).

Definition axfr_allowed (a : AppState) (ip : IpAddr) : bool :=
  existsb (fun n => ipnet_contains n ip) (omap parse_ipnet (st_allow_axfr_from (ap_settings a))).

(** ** Reloading *)

Definition reload_store (a : AppState) : AppState :=
  mkAppState (ap_db a) (ap_stats a) (build_from (ap_db a)) (ap_upstream a) (ap_conditional a) (ap_filter a)
    (ap_cache a) (ap_settings a) (ap_mdns a) (ap_rr_counter a) (ap_throttle a) (ap_qlog a) (ap_blocked a).
Definition reload_filter (a : AppState) : AppState :=
  mkAppState (ap_db a) (ap_stats a) (ap_store a) (ap_upstream a) (ap_conditional a)
    (build_filter (ap_db a) (st_blocking_enabled (ap_settings a))) (ap_cache a) (ap_settings a) (ap_mdns a)
    (ap_rr_counter a) (ap_throttle a) (ap_qlog a) (ap_blocked a).
Definition reload_conditional (a : AppState) : AppState :=
  mkAppState (ap_db a) (ap_stats a) (ap_store a) (ap_upstream a) (build_conditional (ap_db a) (ap_settings a))
    (ap_filter a) (ap_cache a) (ap_settings a) (ap_mdns a) (ap_rr_counter a) (ap_throttle a) (ap_qlog a)
    (ap_blocked a).

(** An upstream that cannot be built leaves none. *)
Definition apply_settings (s : Settings) (a : AppState) : AppState :=
  let up := match build_upstream s with Ok up => up | Err _ => None end in
  let a := mkAppState (ap_db a) (ap_stats a) (ap_store a) up (ap_conditional a) (ap_filter a) (ap_cache a)
             s (ap_mdns a) (ap_rr_counter a) (ap_throttle a) (ap_qlog a) (ap_blocked a) in
  with_cache (new_cache s) (reload_conditional (reload_filter a)).
End State.

(** ** Lemmas: the throttle *)

(** The length of the current run of failures: the longest suffix in which no
    two neighbours are more than a window apart.  The history is latest first. *)
Fixpoint failure_run (latest_first : list Z) : Z :=
  match latest_first with
  | [] => 0
  | t :: rest =>
      match rest with
      | [] => 1
      | u :: _ => if LOCKOUT_WINDOW <? t - u then 1 else failure_run rest + 1
      end
  end.

Definition failures_at (key : string) (times : list Z) (t : LoginThrottle) : LoginThrottle :=
  fold_left (fun t now => record_login_failure key now t) times t.

Lemma record_failure_eq key now t :
  record_login_failure key now t =
  <[key := (as_u32 (match t !! key with
                    | Some (count, when_) => if LOCKOUT_WINDOW <? now - when_ then 0 else count
                    | None => 0
                    end + 1), now)]> t.
Proof.
  unfold record_login_failure. destruct (t !! key) as [[count when_]|]; [done|]. cbn. by destruct (_ <? _).
Qed.

Lemma failures_entry key times t0 :
  t0 !! key = None -> Z.of_nat (length times) <= u32_max ->
  failures_at key times t0 !! key =
  match rev times with [] => None | last :: _ => Some (failure_run (rev times), last) end /\
  0 <= failure_run (rev times) <= Z.of_nat (length times).
Proof.
  intros H0. induction times as [|t times IH] using rev_ind; [by intros _; split|].
  rewrite length_app, Nat2Z.inj_add. cbn [length]. intros Hu. destruct IH as [IH1 IH2]; [lia|].
  unfold failures_at in *. rewrite fold_left_app, rev_app_distr. cbn [fold_left rev app].
  set (m := fold_left _ times t0) in *. rewrite record_failure_eq, lookup_insert_eq, IH1.
  destruct (rev times) as [|u rest] eqn:E; [split; [done|cbn; lia]|].
  change (failure_run (t :: u :: rest))
    with (if LOCKOUT_WINDOW <? t - u then 1 else failure_run (u :: rest) + 1).
  destruct (LOCKOUT_WINDOW <? t - u); [split; [done|lia]|].
  unfold as_u32. rewrite Z.mod_small by (unfold u32_max in *; lia). split; [done|lia].
Qed.

(** a key is locked out exactly while at least eight failures, none more than
    five minutes after the one before, were recorded and no more than five
    minutes have passed since the last; a success that clears the key ends it. *)
Theorem login_throttle key times now :
  Z.of_nat (length times) <= u32_max ->
  snd (is_locked_out key now (failures_at key times ∅)) =
    match rev times with
    | [] => false
    | last :: _ => (now - last <=? LOCKOUT_WINDOW) && (LOCKOUT_THRESHOLD <=? failure_run (rev times))
    end /\
  snd (is_locked_out key now (clear_login_failures key (failures_at key times ∅))) = false.
Proof.
  intros Hu. destruct (failures_entry key times ∅ (lookup_empty key) Hu) as [He _]. split.
  - unfold is_locked_out. rewrite He. destruct (rev times) as [|last rest]; [done|].
    destruct (Z.ltb_spec LOCKOUT_WINDOW (now - last)), (Z.leb_spec (now - last) LOCKOUT_WINDOW); try lia; done.
  - unfold is_locked_out, clear_login_failures. by rewrite lookup_delete_eq.
Qed.

Lemma login_throttle_witness :
  snd (is_locked_out "admin" (10 * NANOS) (failures_at "admin" [1; 2; 3; 4; 5; 6; 7; 8] ∅)) = true.
Proof.
  destruct (login_throttle "admin" [1; 2; 3; 4; 5; 6; 7; 8] (10 * NANOS)) as [H _]; [vm_compute; discriminate|].
  rewrite H. reflexivity.
Defined.
