(* ===== verification/Web.v ===== *)
(** * The web layer: errors, responses and the handler monad ([src/error.rs])

    A handler maps the application state to a new state and either a response or
    an [AppError].  An error keeps what the handler wrote before it.  [WebEnv] is
    what a request sees of the outside: the configuration, which does not change
    after the start, the clock, read once per request, the random bytes it draws,
    and the network. *)

From S2P Require Import Prelude Strs Float Net External Models Db DbDns DbFilter DbDhcp DbAdmin Filter Upstream Cache Stats.
From S2P Require Import Mdns Dnssec Store State Config.

(** ** Errors *)

(** [AppError]: HTTP status, machine code, message, and messages per field. *)
Record AppError : Type := mkAppError {
  ae_status : Z; ae_code : string; ae_message : string; ae_fields : option (string * string) }.

Definition AppError_new (status : Z) (code message : string) : AppError := mkAppError status code message None.
Definition unauthorized : AppError := AppError_new 401 "unauthorized" "Authentication required".
Definition forbidden (msg : string) : AppError := AppError_new 403 "forbidden" msg.
Definition not_found (msg : string) : AppError := AppError_new 404 "not_found" msg.
Definition conflict (msg : string) : AppError := AppError_new 409 "conflict" msg.
Definition validation (msg : string) : AppError := AppError_new 422 "validation" msg.
Definition internal (msg : string) : AppError := AppError_new 500 "internal" msg.

(** [validation_field]: its map of fields has one entry. *)
Definition validation_field (field reason : string) : AppError :=
  mkAppError 422 "validation" "Validation failed" (Some (field, reason)).

(** [From<diesel::result::Error>]: a violated constraint is a conflict. *)
Definition from_db_error (e : DbError) : AppError :=
  match e with
  | UniqueViolation | ForeignKeyViolation => conflict "Resource already exists or violates a constraint"
  | NotFound => internal "Record not found"
  end.

(** ** Responses *)

(** A struct is the JSON object serde derives for it. *)
Inductive Payload : Type :=
| PUser (u : User) | PView (v : View) | PZone (z : Zone) | PRecord (r : DnsRecord) | PSecondary (z : SecondaryZone)
| PSettings (s : Settings) | PBlocklist (b : Blocklist) | PBlocklistHits (b : Blocklist) (hits : Z)
| PRule (r : BlockRule) | PRewrite (r : Rewrite) | PConditional (c : ConditionalForward) | PToken (t : DynDnsToken)
| PScope (s : DhcpScope) | PReservation (r : DhcpReservation) | PLease (l : DhcpLease) | PAudit (e : AuditEntry)
| PQuery (q : RecentQuery).

Inductive Json : Type :=
| JNull | JBool (b : bool) | JNum (n : Z) | JFloat (x : f64) | JStr (s : string) | JArr (l : list Json)
| JObj (fields : list (string * Json)) | JData (p : Payload).

(** A float that is not finite is null. *)
Definition JF (x : f64) : Json := if is_finite x then JFloat x else JNull.
Definition JOpt {A} (f : A -> Json) (o : option A) : Json := match o with Some a => f a | None => JNull end.

Inductive Body : Type := NoBody | Text (s : string) | Bytes (b : list Z) | JsonBody (j : Json).

(** The headers are the ones the code names; axum adds the type and length of the body. *)
Record Response : Type := mkFullResponse {
  rp_status : Z; rp_body : Body; rp_cookies : list string; rp_headers : list (string * string) }.
Abbreviation mkResponse status body cookies := (mkFullResponse status body cookies []).

(** The values of a header, and the response with the header set, which replaces what it was. *)
Definition header_values (name : string) (r : Response) : list string :=
  snd <$> List.filter (fun h => bool_decide (fst h = name)) (rp_headers r).
Definition set_header (name value : string) (r : Response) : Response :=
  mkFullResponse (rp_status r) (rp_body r) (rp_cookies r)
    (List.filter (fun h => negb (bool_decide (fst h = name))) (rp_headers r) ++ [(name, value)]).

(** A status and a text. *)
Definition plain (status : Z) (body : string) : Response := mkResponse status (Text body) [].

Definition ok_json (v : Json) : Response := mkResponse 200 (JsonBody v) [].
Definition created_json (v : Json) : Response := mkResponse 201 (JsonBody v) [].
Definition no_content : Response := mkResponse 204 NoBody [].

(** [HeaderValue::from_str]: visible ASCII, space and tab. *)
Definition header_char (c : ascii) : bool := ((32 <=? code c) && negb (code c =? 127)) || (code c =? 9).
(** A cookie that is no header value is dropped. *)
Definition with_cookies (status : Z) (v : Json) (cookies : list string) : Response :=
  mkResponse status (JsonBody v) (List.filter (str_forall header_char) cookies).

Definition is_success (status : Z) : bool := (200 <=? status) && (status <? 300).
Definition is_server_error (status : Z) : bool := (500 <=? status) && (status <? 600).

(** [AppError::into_response]: a 5xx response says nothing of the cause. *)
Definition error_response (e : AppError) : Response :=
  let message := if is_server_error (ae_status e) then "Internal server error" else ae_message e in
  let fields := match ae_fields e with
                | Some (f, reason) => [("fields", JObj [(f, JStr reason)])]
                | None => []
                end in
  mkResponse (ae_status e)
    (JsonBody (JObj [("error", JObj ([("code", JStr (ae_code e)); ("message", JStr message)] ++ fields))])) [].

Lemma header_set_same n v r : header_values n (set_header n v r) = [v].
Proof.
  unfold header_values, set_header. cbn [rp_headers]. rewrite List.filter_app, fmap_app. cbn. rewrite bool_decide_true by done.
  enough (List.filter (fun h : string * string => bool_decide (fst h = n))
            (List.filter (fun h => negb (bool_decide (fst h = n))) (rp_headers r)) = []) as -> by done.
  induction (rp_headers r) as [|h l IH]; [done|]. cbn. case_bool_decide as E; cbn; [done|]. by rewrite bool_decide_false.
Qed.
Lemma header_set_other n m v r : n <> m -> header_values n (set_header m v r) = header_values n r.
Proof.
  intros Hn. unfold header_values, set_header. cbn [rp_headers]. rewrite List.filter_app, fmap_app. cbn.
  rewrite bool_decide_false by done. rewrite app_nil_r. f_equal.
  induction (rp_headers r) as [|h l IH]; [done|]. cbn. repeat case_bool_decide; cbn; try congruence.
  all: rewrite ?bool_decide_true, ?bool_decide_false by congruence; congruence.
Qed.

(** ** Handlers *)

Section Web.
Context `{NETS : IpNets} `{HN : HickoryNames} `{TEXT : !HickoryText} `{SIGN : !Signers} `{RES : !HickoryResolvers}.
Context `{DT : DateTimes}.

Record WebEnv : Type := mkWebEnv {
  we_config : Config;
  (** [OffsetDateTime::now_utc()] and [Instant::now()], in nanoseconds *)
  we_clock : Z; we_instant : Z;
  (** random bytes: a token, a second one, a salt *)
  we_token : list Z; we_csrf : list Z; we_salt : list Z;
  (** the text behind a URL *)
  we_fetch : string -> result string string }.

(** [now()]: the text the database stores. *)
Definition we_ts (e : WebEnv) : string := default "" (datetime_format (we_clock e)).

(** A step of a handler: [E] is [AppError], or the response of an early return. *)
Definition Step (E X : Type) : Type := AppState -> AppState * result X E.
Definition W (X : Type) : Type := Step AppError X.

Section Steps.
Context {E : Type}.

Definition wret {X} (x : X) : Step E X := fun a => (a, Ok x).
Definition throw {X} (e : E) : Step E X := fun a => (a, Err e).
Definition wbind {X Y} (m : Step E X) (k : X -> Step E Y) : Step E Y := fun a =>
  match m a with
  | (a', Ok x) => k x a'
  | (a', Err e) => (a', Err e)
  end.
Definition lift {X} (r : result X E) : Step E X := fun a => (a, r).
Definition reads {X} (f : AppState -> X) : Step E X := fun a => (a, Ok (f a)).
Definition updates (f : AppState -> AppState) : Step E unit := fun a => (f a, Ok tt).

(** [for x in l { ... }], with an accumulator for the variables it assigns. *)
Fixpoint wfold {X Y} (f : Y -> X -> Step E Y) (l : list X) (acc : Y) : Step E Y :=
  match l with
  | [] => wret acc
  | x :: l' => wbind (f acc x) (wfold f l')
  end.

(** [for x in l { check(x)?; }]. *)
Fixpoint check_all {X} (f : X -> result unit E) (l : list X) : result unit E :=
  match l with
  | [] => Ok tt
  | x :: l' => match f x with Ok _ => check_all f l' | Err e => Err e end
  end.

(** [.ok_or_else(...)?]. *)
Definition or_throw {X} (o : option X) (e : E) : Step E X :=
  match o with Some x => wret x | None => throw e end.
End Steps.

Definition with_db (d : Db) (a : AppState) : AppState :=
  mkAppState d (ap_stats a) (ap_store a) (ap_upstream a) (ap_conditional a) (ap_filter a) (ap_cache a)
    (ap_settings a) (ap_mdns a) (ap_rr_counter a) (ap_throttle a) (ap_qlog a) (ap_blocked a).
Definition with_throttle (t : LoginThrottle) (a : AppState) : AppState :=
  mkAppState (ap_db a) (ap_stats a) (ap_store a) (ap_upstream a) (ap_conditional a) (ap_filter a) (ap_cache a)
    (ap_settings a) (ap_mdns a) (ap_rr_counter a) t (ap_qlog a) (ap_blocked a).

(** [state.db.run(...)]. *)
Definition run {X} (m : M X) : W X := fun a =>
  let '(d, r) := m (ap_db a) in
  (with_db d a, match r with Ok x => Ok x | Err e => Err (from_db_error e) end).

(** [let _ = state.db.run(...)], [.unwrap_or_default()]: the error is dropped. *)
Definition attempt {E X} (m : W X) : Step E (option X) := fun a =>
  match m a with
  | (a', Ok x) => (a', Ok (Some x))
  | (a', Err _) => (a', Ok None)
  end.

(** [.map_err(f)]. *)
Definition map_err {E E' X} (f : E -> E') (m : Step E X) : Step E' X := fun a =>
  match m a with
  | (a', Ok x) => (a', Ok x)
  | (a', Err e) => (a', Err (f e))
  end.

(** The response the client gets. *)
Definition respond (m : W Response) (a : AppState) : AppState * Response :=
  match m a with
  | (a', Ok r) => (a', r)
  | (a', Err e) => (a', error_response e)
  end.

(** ** Lemmas: running handlers *)

Lemma with_db_id a : with_db (ap_db a) a = a.
Proof. by destruct a. Qed.
Lemma with_db_db d a : ap_db (with_db d a) = d.
Proof. done. Qed.
Lemma with_db_twice d d' a : with_db d (with_db d' a) = with_db d a.
Proof. done. Qed.

Lemma run_query {X} (f : Db -> X) a : run (query f) a = (a, Ok (f (ap_db a))).
Proof. unfold run, query. by rewrite with_db_id. Qed.
Lemma run_modify f a : run (modify f) a = (with_db (f (ap_db a)) a, Ok tt).
Proof. done. Qed.
Lemma run_ok {X} (m : M X) a d x : m (ap_db a) = (d, Ok x) -> run m a = (with_db d a, Ok x).
Proof. unfold run. by intros ->. Qed.
Lemma run_err {X} (m : M X) a d e : m (ap_db a) = (d, Err e) -> run m a = (with_db d a, Err (from_db_error e)).
Proof. unfold run. by intros ->. Qed.

Lemma wbind_ok {E X Y} (m : Step E X) (k : X -> Step E Y) a a' x : m a = (a', Ok x) -> wbind m k a = k x a'.
Proof. unfold wbind. by intros ->. Qed.
Lemma wbind_err {E X Y} (m : Step E X) (k : X -> Step E Y) a a' e : m a = (a', Err e) -> wbind m k a = (a', Err e).
Proof. unfold wbind. by intros ->. Qed.

(** A successful sequence is two successful steps. *)
Lemma wbind_inv {E X Y} (m : Step E X) (k : X -> Step E Y) a a' y :
  wbind m k a = (a', Ok y) -> exists a1 x, m a = (a1, Ok x) /\ k x a1 = (a', Ok y).
Proof. unfold wbind. destruct (m a) as [a1 [x|e]]; [eauto|done]. Qed.

Lemma check_all_ok {E X} (f : X -> result unit E) l : check_all f l = Ok tt <-> Forall (fun x => f x = Ok tt) l.
Proof.
  induction l as [|x l IH]; cbn; [done|]. rewrite Forall_cons, <- IH.
  destruct (f x) as [[]|e]; [tauto|split; [done|by intros [? _]]].
Qed.

(** ** Invariants of handlers *)

Definition keeps {E X} (P : AppState -> Prop) (m : Step E X) : Prop := forall a, P a -> P (fst (m a)).

Section Keeps.
Context {E : Type} (P : AppState -> Prop).

Lemma keeps_wret {X} (x : X) : keeps P (wret (E := E) x).
Proof. by intros a Ha. Qed.
Lemma keeps_throw {X} e : keeps P (throw (E := E) (X := X) e).
Proof. by intros a Ha. Qed.
Lemma keeps_lift {X} (r : result X E) : keeps P (lift r).
Proof. by intros a Ha. Qed.
Lemma keeps_reads {X} (f : AppState -> X) : keeps P (reads (E := E) f).
Proof. by intros a Ha. Qed.
Lemma keeps_updates f : (forall a, P a -> P (f a)) -> keeps P (updates (E := E) f).
Proof. intros H a Ha. by apply H. Qed.
Lemma keeps_wbind {X Y} (m : Step E X) (k : X -> Step E Y) :
  keeps P m -> (forall x, keeps P (k x)) -> keeps P (wbind m k).
Proof.
  intros Hm Hk a Ha. unfold wbind. specialize (Hm a Ha). destruct (m a) as [a' [x|e]]; [by apply Hk|done].
Qed.
Lemma keeps_attempt {X} (m : W X) : keeps P m -> keeps P (attempt (E := E) m).
Proof. intros Hm a Ha. specialize (Hm a Ha). unfold attempt. by destruct (m a) as [a' [x|e]]. Qed.
Lemma keeps_map_err {E' X} (f : E' -> E) (m : Step E' X) : keeps P m -> keeps P (map_err f m).
Proof. intros Hm a Ha. specialize (Hm a Ha). unfold map_err. by destruct (m a) as [a' [x|e]]. Qed.
Lemma keeps_wfold {X Y} (f : Y -> X -> Step E Y) l acc : (forall y x, keeps P (f y x)) -> keeps P (wfold f l acc).
Proof.
  intros Hf. revert acc. induction l as [|x l IH]; intros acc; [apply keeps_wret|]. by apply keeps_wbind.
Qed.
Lemma keeps_or_throw {X} (o : option X) e : keeps P (or_throw (E := E) o e).
Proof. destruct o; [apply keeps_wret|apply keeps_throw]. Qed.
End Keeps.

(** A property of the database. *)
Definition db_prop (P : Db -> Prop) (a : AppState) : Prop := P (ap_db a).

Lemma keeps_run {X} (P : Db -> Prop) (m : M X) : preserves P m -> keeps (db_prop P) (run m).
Proof.
  intros Hm a Ha. unfold run. specialize (Hm (ap_db a) Ha). by destruct (m (ap_db a)) as [d r].
Qed.
End Web.

(** Follow the structure of a handler down to its database statements. *)
Ltac keep :=
  repeat match goal with
  | |- forall _, _ => intro
  | |- keeps _ (wbind _ _) => apply keeps_wbind
  | |- keeps _ (attempt _) => apply keeps_attempt
  | |- keeps _ (map_err _ _) => apply keeps_map_err
  | |- keeps _ (wfold _ _ _) => apply keeps_wfold
  | |- keeps _ (or_throw _ _) => apply keeps_or_throw
  | |- keeps _ (wret _) => apply keeps_wret
  | |- keeps _ (throw _) => apply keeps_throw
  | |- keeps _ (lift _) => apply keeps_lift
  | |- keeps _ (reads _) => apply keeps_reads
  | |- keeps (db_prop _) (run _) => apply keeps_run
  | |- keeps _ (match ?x with _ => _ end) => destruct x
  | |- keeps _ _ => progress cbv zeta
  end; auto with preserve.

Notation "'let+' x := m 'in' k" := (wbind m (fun x => k))
  (at level 10, x name, m at level 200, k at level 200) : rust_scope.
Notation "m >>> k" := (wbind m (fun _ => k)) (at level 100, right associativity) : rust_scope.
(** [if bad { return Err(e) }]. *)
Notation "'reject' b 'as' e 'otherwise' k" := (if b then throw e else k)
  (at level 10, b at level 200, e at level 200, k at level 200) : rust_scope.
