(* ===== verification/Tasks.v ===== *)
(** * Handlers as tasks ([Db::run] of [src/db.rs], the locks of [src/state.rs])

    Requests run as tasks on several threads.  A handler holds the connection's
    mutex for one closure at a time, and the lock of a structure in memory for one
    read or one replacement; between two such steps any other task may run.  A
    [Task] is a handler cut at these points: uninterrupted ([alone]) it is the
    handler, and each of its steps is on the database or on the memory, never on
    both ([fine]).  What a report reads in memory it reads in one step.

    [safe] is the invariant reasoning for tasks: whatever the others do meanwhile,
    as long as they keep the invariant, the next step keeps it.  What a task knows
    about the state is relative to a [World], which only grows. *)

From S2P Require Import Prelude Strs Net Geo External Models Db DbDns DbFilter Filter Upstream Cache Stats Mdns Dnssec.
From S2P Require Import Store State Config Web.

Section Tasks.
Context `{NETS : IpNets} `{HN : HickoryNames} `{TEXT : !HickoryText} `{SIGN : !Signers} `{RES : !HickoryResolvers}.

(** ** Tasks *)

Definition St (X : Type) : Type := AppState -> AppState * X.

Inductive Task (X : Type) : Type :=
| Finished (x : X)
| Atom (f : AppState -> AppState * Task X).
Arguments Finished {X}.
Arguments Atom {X}.

Fixpoint alone {X} (t : Task X) (a : AppState) : AppState * X :=
  match t with
  | Finished x => (a, x)
  | Atom f => match f a with (a', t') => alone t' a' end
  end.

Fixpoint tbind {X Y} (t : Task X) (u : X -> Task Y) : Task Y :=
  match t with
  | Finished x => u x
  | Atom f => Atom (fun a => match f a with (a', t') => (a', tbind t' u) end)
  end.

Definition Task_ind' {X} (P : Task X -> Prop) (Hd : forall x, P (Finished x))
    (Ha : forall f, (forall a, P (snd (f a))) -> P (Atom f)) : forall t, P t :=
  fix go t := match t with
              | Finished x => Hd x
              | Atom f => Ha f (fun a => match f a as r return P (snd r) with (a', t') => go t' end)
              end.

(** One closure on the connection; one read or update in memory. *)
Definition db_atom {X} (m : Db -> Db * Task X) : Task X :=
  Atom (fun a => (with_db (fst (m (ap_db a))) a, snd (m (ap_db a)))).
Definition memory_only {X} (f : AppState -> AppState * X) : Prop :=
  forall d a, f (with_db d a) = (with_db d (fst (f a)), snd (f a)).

Inductive fine {X} : Task X -> Prop :=
| fine_done x : fine (Finished x)
| fine_db m : (forall d, fine (snd (m d))) -> fine (db_atom m)
| fine_memory f : memory_only f -> (forall a, fine (snd (f a))) -> fine (Atom f).

Definition sbind {X Y} (m : St X) (k : X -> St Y) : St Y := fun a => match m a with (a', x) => k x a' end.

Lemma alone_tbind {X Y} (t : Task X) (u : X -> Task Y) a :
  alone (tbind t u) a = sbind (alone t) (fun x => alone (u x)) a.
Proof.
  revert a. induction t as [x|f IH] using Task_ind'; intros a; [done|]. unfold sbind. cbn. specialize (IH a).
  destruct (f a) as [a' t']. apply IH.
Qed.

Lemma fine_tbind {X Y} (t : Task X) (u : X -> Task Y) : fine t -> (forall x, fine (u x)) -> fine (tbind t u).
Proof.
  intros Ht Hu. induction Ht as [x|m Hm IH|f Hf Hc IH]; cbn [tbind]; [done|..].
  - apply (fine_db (fun d => (fst (m d), tbind (snd (m d)) u))). exact IH.
  - apply fine_memory.
    + intros d a. rewrite Hf. by destruct (f a).
    + intros a. specialize (IH a). by destruct (f a).
Qed.

(** ** Tasks that keep an invariant *)

Section Safe.
Context {World : Type} (later : World -> World -> Prop) `{!PreOrder later}.
Context (observed : AppState -> World -> World) (Inv : World -> AppState -> Prop).

Fixpoint safe {X} (w : World) (t : Task X) : Prop :=
  match t with
  | Finished _ => True
  | Atom f => forall w' a, later w w' -> Inv w' a ->
      match f a with
      | (a', t') => Inv (observed a' w') a' /\ later w' (observed a' w') /\ safe (observed a' w') t'
      end
  end.

Lemma safe_later {X} (t : Task X) w w' : later w w' -> safe w t -> safe w' t.
Proof.
  destruct t as [x|f]; [done|]. cbn. intros Hw Ht w2 a Hw2. apply Ht. by transitivity w'.
Qed.

Lemma safe_tbind {X Y} (t : Task X) (u : X -> Task Y) w :
  safe w t -> (forall x w', later w w' -> safe w' (u x)) -> safe w (tbind t u).
Proof.
  revert w. induction t as [x|f IH] using Task_ind'; intros w Ht Hu; cbn; [by apply Hu|].
  intros w' a Hw Ha. specialize (Ht w' a Hw Ha). specialize (IH a). destruct (f a) as [a' t']. cbn in IH.
  destruct Ht as (H1 & H2 & H3). split_and!; [done|done|]. apply IH; [done|].
  intros x w2 Hw2. apply Hu. transitivity w'; [done|]. by transitivity (observed a' w').
Qed.

(** A handler with its decomposition. *)
Record Interleaved {X} (m : St X) : Type := mkInterleaved {
  task : Task X;
  task_alone : forall a, alone task a = m a;
  task_fine : fine task;
  task_safe : forall w, safe w task }.

Definition il_ext {X} (m m' : St X) (H : forall a, m a = m' a) (i : Interleaved m) : Interleaved m' :=
  {| task := task _ i; task_alone a := eq_trans (task_alone _ i a) (H a); task_fine := task_fine _ i;
     task_safe := task_safe _ i |}.

Definition il_done {X} (x : X) : Interleaved (fun a => (a, x)).
Proof. by exists (Finished x); [..|constructor|]. Defined.

Definition il_bind {X Y} (m : St X) (k : X -> St Y) (i : Interleaved m) (j : forall x, Interleaved (k x)) :
  Interleaved (sbind m k).
Proof.
  exists (tbind (task _ i) (fun x => task _ (j x))).
  - intros a. rewrite alone_tbind. unfold sbind. rewrite (task_alone _ i). destruct (m a) as [a' x]. apply task_alone.
  - apply fine_tbind; [apply task_fine|]. intros x. apply task_fine.
  - intros w. apply safe_tbind; [apply task_safe|]. intros x w' _. apply task_safe.
Defined.

Definition il_db {X} (m : Db -> Db * X)
  (H : forall w a, Inv w a ->
    let a' := with_db (fst (m (ap_db a))) a in Inv (observed a' w) a' /\ later w (observed a' w)) :
  Interleaved (fun a => (with_db (fst (m (ap_db a))) a, snd (m (ap_db a)))).
Proof.
  exists (db_atom (fun d => (fst (m d), Finished (snd (m d))))); [done| |].
  - apply fine_db. intros d. constructor.
  - intros w w' a _ Ha. destruct (H w' a Ha). by split_and!.
Defined.

Definition il_memory {X} (f : AppState -> AppState * X) (Hf : memory_only f)
  (H : forall w a, Inv w a -> Inv (observed (fst (f a)) w) (fst (f a)) /\ later w (observed (fst (f a)) w)) :
  Interleaved f.
Proof.
  exists (Atom (fun a => (fst (f a), Finished (snd (f a))))).
  - intros a. cbn. by destruct (f a).
  - apply fine_memory; [|constructor]. intros d a. by rewrite Hf.
  - intros w w' a _ Ha. destruct (H w' a Ha). by split_and!.
Defined.
End Safe.
End Tasks.
Arguments Finished {NETS HN SIGN RES X} x.
Arguments Atom {NETS HN SIGN RES X} f.
Arguments task {NETS HN SIGN RES World later observed Inv X m} i.
Arguments task_alone {NETS HN SIGN RES World later observed Inv X m} i.
Arguments task_fine {NETS HN SIGN RES World later observed Inv X m} i.
Arguments task_safe {NETS HN SIGN RES World later observed Inv X m} i.

(** ** Schedules *)

Section Schedules.
Context `{NETS : IpNets} `{HN : HickoryNames} `{TEXT : !HickoryText} `{SIGN : !Signers} `{RES : !HickoryResolvers}.

(** Any task may take its next step. *)
Inductive sched {X} : AppState * list (Task X) -> AppState * list (Task X) -> Prop :=
| sched_step ts1 f ts2 a a' t' : f a = (a', t') -> sched (a, ts1 ++ Atom f :: ts2) (a', ts1 ++ t' :: ts2).

(** A task that is left alone runs to its end. *)
Lemma sched_alone {X} ts1 (t : Task X) ts2 a a' x :
  alone t a = (a', x) -> rtc sched (a, ts1 ++ t :: ts2) (a', ts1 ++ Finished x :: ts2).
Proof.
  revert a. induction t as [y|f IH] using Task_ind'; intros a; cbn; [by intros [= <- <-]|].
  destruct (f a) as [a1 t1] eqn:E. intros H. eapply rtc_l; [by apply sched_step|].
  specialize (IH a). rewrite E in IH. by apply IH.
Qed.
End Schedules.
