(* ===== verification/Reports.v ===== *)
(** * The reports of the web interface ([src/web/api.rs], [src/dns/server.rs])

    Status, statistics, the map, metrics, interfaces and the backup: handlers
    that read the state and change nothing.  What they see besides the state is
    a [Vantage]: when the process started, the GeoIP databases it opened then, the
    network interfaces and the file system.  The order in which a [HashMap] is
    iterated is not specified; it is a field of the vantage. *)

From S2P Require Import Prelude Strs Float Net Geo External Models Db DbDns DbFilter DbDhcp DbAdmin Filter Upstream.
From S2P Require Import Cache Stats Mdns Dnssec Store State Config Web.

(** ** The vantage *)

Section Vantage.
Context `{MM : MaxMind}.

Record Vantage : Type := mkVantage {
  (** [Stats::started], in nanoseconds, and [started_at] *)
  vt_started : Z; vt_started_at : string;
  vt_geo : GeoDb;
  (** [None] if [getifaddrs] fails *)
  vt_ifaddrs : option (list IfAddr);
  (** the nanoseconds that name the backup file; what SQLite writes for a
      statement, or its error; the error of reading the file, if any *)
  vt_nanos : Z; vt_exec : string -> Db -> result (list Z) string; vt_read_error : option string;
  (** the order of a hash map *)
  vt_order : forall A : Type, list A -> list A }.

(** [HashMap::iter] visits every entry once. *)
Definition vantage_ok (v : Vantage) : Prop := forall A (l : list A), vt_order v A l ≡ₚ l.

Definition hash_entries {K A} `{Countable K} (v : Vantage) (m : gmap K A) : list (K * A) := vt_order v _ (map_to_list m).

(** ** GeoIP points *)

(** A group of addresses at one place. *)
Record Bucket : Type := mkBucket {
  bk_lat : f64; bk_lon : f64; bk_city : string; bk_country : string; bk_count : Z; bk_hosts : gmap IpAddr Z }.

(** The cell of the grid: a twentieth of a degree. *)
Definition geo_cell (lat lon : f64) : Z * Z :=
  let cell x := f64_to_i64 (f64_round (f64_mul x (f64_of_Z 20))) in (cell lat, cell lon).

(** [or_insert_with]. *)
Definition geo_bucket (lat lon : f64) (g : ClientGeo) (o : option Bucket) : Bucket :=
  match o with
  | Some b => b
  | None => mkBucket lat lon (default "" (cg_city g)) (default "" (cg_country g)) 0 ∅
  end.

Definition bucket_add (ip : IpAddr) (count : Z) (b : Bucket) : Bucket :=
  mkBucket (bk_lat b) (bk_lon b) (bk_city b) (bk_country b) (bk_count b + count)
    (<[ip := default 0 (bk_hosts b !! ip) + count]> (bk_hosts b)).

(** The body of the loop; an address without coordinates is skipped. *)
Definition geo_add (geo : GeoDb) (m : gmap (Z * Z) Bucket) (x : IpAddr * Z) : gmap (Z * Z) Bucket :=
  let g := geo_lookup geo (fst x) in
  match cg_lat g, cg_lon g with
  | Some lat, Some lon =>
      let key := geo_cell lat lon in
      <[key := bucket_add (fst x) (snd x) (geo_bucket lat lon g (m !! key))]> m
  | _, _ => m
  end.

(** Most frequent first; the sort is stable. *)
Definition by_count {A} (count : A -> Z) (l : list A) : list A := sort_with (fun a b => count b <=? count a) l.

Definition HOSTS_RETURN : nat := 30.
Definition ASNS_RETURN : nat := 20.

Record Point : Type := mkPoint {
  pt_lat : f64; pt_lon : f64; pt_city : string; pt_country : string; pt_count : Z; pt_hosts : list (IpAddr * Z) }.

Definition to_point (v : Vantage) (b : Bucket) : Point :=
  mkPoint (bk_lat b) (bk_lon b) (bk_city b) (bk_country b) (bk_count b)
    (take HOSTS_RETURN (by_count snd (hash_entries v (bk_hosts b)))).

(** The closure [geo_points]. *)
Definition geo_points (v : Vantage) (ips : list (IpAddr * Z)) : list Point :=
  (fun e => to_point v (snd e)) <$> hash_entries v (fold_left (geo_add (vt_geo v)) ips ∅).

Definition point_json (v : Vantage) (p : Point) : Json :=
  JObj [("lat", JF (pt_lat p)); ("lon", JF (pt_lon p)); ("city", JStr (pt_city p)); ("country", JStr (pt_country p));
        ("count", JNum (pt_count p));
        ("hosts", JArr ((fun h => JObj [("ip", JStr (show_ip (fst h))); ("cidr", JOpt JStr (geo_network (vt_geo v) (fst h)));
                                        ("count", JNum (snd h))]) <$> pt_hosts p))].

(** ** Autonomous systems *)

Definition asn_add (geo : GeoDb) (m : gmap Z (string * Z)) (x : IpAddr * Z) : gmap Z (string * Z) :=
  let g := geo_lookup geo (fst x) in
  match cg_asn g with
  | Some asn =>
      let '(org, n) := default (default "" (cg_asn_org g), 0) (m !! asn) in <[asn := (org, n + snd x)]> m
  | None => m
  end.

(** The closure [asn_breakdown]: number, organization and count. *)
Definition asn_breakdown (v : Vantage) (ips : list (IpAddr * Z)) : list (Z * (string * Z)) :=
  take ASNS_RETURN (by_count (fun e => snd (snd e)) (hash_entries v (fold_left (asn_add (vt_geo v)) ips ∅))).

Definition asn_json (e : Z * (string * Z)) : Json :=
  JObj [("asn", JNum (fst e)); ("org", JStr (fst (snd e))); ("count", JNum (snd (snd e)))].

Definition origin_json (o : OriginGeo) : Json :=
  JObj [("lat", JF (og_lat o)); ("lon", JF (og_lon o)); ("city", JStr (og_city o)); ("country", JStr (og_country o));
        ("ip", JStr (og_ip o))].

(** [resolved_ips], [blocked_dest_ips], [blocked_client_ips]. *)
Definition resolved_ips (v : Vantage) (s : Stats) : list (IpAddr * Z) := hash_entries v (sts_resolved s).
Definition blocked_dest_ips (v : Vantage) (s : Stats) : list (IpAddr * Z) := hash_entries v (sts_blocked_dest s).
Definition blocked_client_ips (v : Vantage) (s : Stats) : list (IpAddr * Z) := hash_entries v (sts_blocked_client s).

(** ** The JSON of the statistics *)

Definition latency_json (s : Stats) : Json :=
  let to_ms us := JF (f64_round_to 2 (f64_div (f64_of_Z us) (f64_of_Z 1000))) in
  let '(n, lo, avg, median, hi) := latency_stats s in
  JObj [("count", JNum n); ("min_ms", to_ms lo); ("avg_ms", to_ms avg); ("median_ms", to_ms median); ("max_ms", to_ms hi)].

Definition top_json (m : gmap string Z) : Json :=
  JArr ((fun x => JObj [("name", JStr (fst x)); ("count", JNum (snd x))]) <$> top_n m).

(** [snapshot], as the fields of the object. *)
Definition snapshot (elapsed : Z) (s : Stats) : list (string * Json) :=
  let c := sts_counters s in
  let rate x := JF (f64_round_to 2 x) in
  [("total", JNum (ct_total c)); ("authoritative", JNum (ct_authoritative c)); ("forwarded", JNum (ct_forwarded c));
   ("cached", JNum (ct_cached c)); ("nxdomain", JNum (ct_nxdomain c)); ("refused", JNum (ct_refused c));
   ("servfail", JNum (ct_servfail c)); ("blocked", JNum (ct_blocked c)); ("dangerous", JNum (ct_dangerous c));
   ("dnssec_failures", JNum (ct_dnssec_failures c)); ("ipv4", JNum (ct_ipv4 c)); ("ipv6", JNum (ct_ipv6 c));
   ("by_qtype", JObj ((fun x => (fst x, JNum (snd x))) <$> btree_entries (sts_by_qtype s)));
   ("qps_10s", rate (qps (sts_series s) elapsed 10)); ("qps_1m", rate (qps (sts_series s) elapsed 60));
   ("qps_avg", rate (f64_div (f64_of_Z (ct_total c)) (f64_of_Z (Z.max elapsed 1))));
   ("latency", latency_json s); ("series_per_sec", JArr (JNum <$> series_recent (sts_series s) elapsed));
   ("recent", JArr ((fun q => JData (PQuery q)) <$> rev (sts_recent s)));
   ("top_domains", top_json (sts_top_domains s)); ("top_blocked", top_json (sts_top_blocked s))].
End Vantage.

(** ** Listeners *)

(** [ListenerInfo]; every configured listener is enabled. *)
Record ListenerInfo : Type := mkListenerInfo { lf_kind : string; lf_addr : string; lf_enabled : bool }.

Definition listener_infos (c : Config) : list ListenerInfo :=
  let info kind addr := mkListenerInfo kind (show_socket_addr addr) true in
  let dns := cg_dns c in
  (dn_listen dns ≫= fun addr => [info "udp" addr; info "tcp" addr]) ++
  (info "dot" <$> dn_dot_listen dns) ++ (info "doh" <$> dn_doh_listen dns) ++
  (info "doq" <$> dn_doq_listen dns) ++ (info "doh3" <$> dn_doh3_listen dns).

Definition listener_json (l : ListenerInfo) : Json :=
  JObj [("kind", JStr (lf_kind l)); ("addr", JStr (lf_addr l)); ("enabled", JBool (lf_enabled l))].

(** ** Interfaces *)

(** The interfaces that are up and not loopback, by name, with their addresses. *)
Definition interface_table (ifas : list IfAddr) : gmap string (list string) :=
  fold_left (fun m ifa =>
    if negb (ia_up ifa) || ia_loopback ifa then m
    else <[ia_name ifa := default [] (m !! ia_name ifa) ++ (show_ip <$> option_list (ia_address ifa))]> m) ifas ∅.

(** ** The backup *)

(** A quote inside an SQL literal is doubled. *)
Definition sql_escape (path : string) : string := replace_char "'"%char "''" path.
(** The statement of [Db::backup_to]. *)
Definition backup_to (path : string) : string := "VACUUM INTO '" +:+ sql_escape path +:+ "'".

Definition resolution_mode_str (m : ResolutionMode) : string :=
  match m with Forward => "forward" | Recursive => "recursive" | ResOff => "off" end.
Definition query_log_str (m : QueryLog) : string :=
  match m with QlOff => "off" | Anonymized => "anonymized" | Full => "full" end.

(** ** Handlers *)

Section Reports.
Context `{NETS : IpNets} `{HN : HickoryNames} `{TEXT : !HickoryText} `{SIGN : !Signers} `{RES : !HickoryResolvers}
  `{DT : DateTimes} `{MM : MaxMind}.
Context (e : WebEnv) (VERSION : string) (v : Vantage).

(** [uptime_seconds]: [Instant::elapsed] is never negative. *)
Definition uptime : Z := Z.max 0 (we_instant e - vt_started v) / NANOS.

(** [metrics]. *)
Definition api_metrics : W Response :=
  reads (fun a => mkFullResponse 200 (Text (prometheus uptime (ap_stats a))) []
                    [("content-type", "text/plain; version=0.0.4; charset=utf-8")]).

(** [status]. *)
Definition api_status : W Response :=
  let+ store := reads ap_store in
  let+ filter := reads ap_filter in
  let+ zones := run list_zones in
  let record_count := fold_right Z.add 0 (zn_record_count <$> zones) in
  let web := cg_web (we_config e) in
  let geo := vt_geo v in
  reads (fun a => ok_json (JObj [
    ("version", JStr VERSION); ("uptime_seconds", JNum uptime); ("started_at", JStr (vt_started_at v));
    ("listeners", JArr (listener_json <$> listener_infos (we_config e)));
    ("management", JObj [("addr", JStr (show_socket_addr (wc_listen web)));
                         ("scheme", JStr (if wc_tls web then "https" else "http"));
                         ("disabled", JBool (wc_disabled web));
                         ("allow_networks", JArr (JStr <$> wc_allow_networks web))]);
    ("zone_count", JNum (Z.of_nat (length zones))); ("active_zone_count", JNum (zone_count store));
    ("record_count", JNum record_count); ("view_count", JNum (view_count store));
    ("resolution_mode", JStr (resolution_mode_str (st_resolution_mode (ap_settings a))));
    ("blocked_domains", JNum (blocked_count filter)); ("rewrite_count", JNum (rewrite_count filter));
    ("conditional_forward_count", JNum (Z.of_nat (length (ap_conditional a))));
    ("geo", JObj [("enabled", JBool (geo_enabled geo)); ("geoip", JBool (has_geoip geo)); ("asn", JBool (has_asn geo))]);
    ("mdns", JObj [("enabled", JBool (st_mdns_enabled (ap_settings a))); ("zone", JOpt JStr (mdns_zone a));
                   ("hosts", JNum (mdns_count (we_instant e) (ap_mdns a)))])])).

(** [stats]. *)
Definition api_stats : W Response := reads (fun a =>
  let snap := snapshot uptime (ap_stats a) in
  let '(hits, misses, size) := cache_stats (ap_cache a) (we_instant e) in
  let lookups := hits + misses in
  let hit_rate := if 0 <? lookups then f64_round_to 3 (f64_div (f64_of_Z hits) (f64_of_Z lookups)) else f64_of_Z 0 in
  ok_json (JObj (snap ++ [
    ("query_log", JStr (query_log_str (st_query_log (ap_settings a))));
    ("dnssec_validate", JBool (st_dnssec_validate_upstream (ap_settings a)));
    ("cache", JObj [("hits", JNum hits); ("misses", JNum misses); ("size", JNum size); ("hit_rate", JF hit_rate)])]))).

(** [map_points]. *)
Definition api_map_points : W Response := reads (fun a =>
  let geo := vt_geo v in
  if negb (has_geoip geo) && negb (has_asn geo) then
    ok_json (JObj [("geoip", JBool false); ("asn", JBool false); ("points", JArr []); ("asns", JArr [])])
  else
    let s := ap_stats a in
    let resolved := resolved_ips v s in
    let blocked_dest := blocked_dest_ips v s in
    let points ips := JArr (point_json v <$> geo_points v ips) in
    let asns ips := JArr (asn_json <$> asn_breakdown v ips) in
    ok_json (JObj [
      ("geoip", JBool (has_geoip geo)); ("asn", JBool (has_asn geo)); ("points", points resolved);
      ("asns", asns resolved); ("blocked_asns", asns blocked_dest); ("blocked", points blocked_dest);
      ("blocked_clients", points (blocked_client_ips v s)); ("origin", JOpt origin_json (sts_origin s))])).

(** [list_interfaces]. *)
Definition api_list_interfaces : W Response := wret (
  let table := match vt_ifaddrs v with Some ifas => interface_table ifas | None => ∅ end in
  ok_json (JObj [("interfaces", JArr ((fun x => JObj [("name", JStr (fst x)); ("addresses", JArr (JStr <$> snd x))])
                                      <$> btree_entries table))])).

(** [backup_db]; the temporary file is removed before and after. *)
Definition api_backup_db : W Response :=
  let tmp := path_join (cg_data_dir (we_config e)) (".backup-" +:+ show_u (vt_nanos v) +:+ ".db") in
  let+ db := reads ap_db in
  let+ bytes := lift (match vt_exec v (backup_to tmp) db with
                      | Ok bytes => Ok bytes
                      | Err err => Err (internal ("backup failed: " +:+ err))
                      end) in
  match vt_read_error v with
  | Some err => throw (internal ("reading backup: " +:+ err))
  | None => wret (mkFullResponse 200 (Bytes bytes) []
                    [("content-type", "application/octet-stream");
                     ("content-disposition", "attachment; filename=" +:+ quoted "nomina-backup.db")])
  end.
End Reports.

(** ** Reports change nothing *)

Section Observes.
Context `{NETS : IpNets} `{HN : HickoryNames} `{TEXT : !HickoryText} `{SIGN : !Signers} `{RES : !HickoryResolvers}
  `{DT : DateTimes} `{MM : MaxMind}.

Definition observes {E X} (m : Step E X) : Prop := forall a, fst (m a) = a.

Lemma observes_keeps {E X} (P : AppState -> Prop) (m : Step E X) : observes m -> keeps P m.
Proof. intros Hm a Ha. by rewrite Hm. Qed.

Context (e : WebEnv) (VERSION : string) (v : Vantage).

Lemma api_metrics_observes : observes (api_metrics e v).
Proof. done. Qed.
Lemma api_status_observes : observes (api_status e VERSION v).
Proof. intros a. unfold api_status, wbind, reads, list_zones. by rewrite run_query. Qed.
Lemma api_stats_observes : observes (api_stats e v).
Proof. done. Qed.
Lemma api_map_points_observes : observes (api_map_points v).
Proof. done. Qed.
Lemma api_list_interfaces_observes : observes (api_list_interfaces v).
Proof. done. Qed.
Lemma api_backup_db_observes : observes (api_backup_db e v).
Proof.
  intros a. unfold api_backup_db, wbind, reads, lift. destruct (vt_exec _ _ _); [|done]. by destruct (vt_read_error v).
Qed.
End Observes.

Create HintDb observes.
#[export] Hint Resolve api_metrics_observes api_status_observes api_stats_observes api_map_points_observes
  api_list_interfaces_observes api_backup_db_observes : observes.
