(* ===== verification/Auth.v ===== *)
(** * Authentication ([src/web/auth.rs], the account handlers of [src/web/api.rs])

    Cookies, server-side sessions, the extractor that gates the API with its CSRF
    check, and the handlers of setup, login, logout and password change.  Hashes
    and encodings are parameters ([Credentials]). *)

From S2P Require Import Prelude Strs Net External Models Db DbDns DbFilter DbDhcp DbAdmin Filter Upstream Cache Stats.
From S2P Require Import Mdns Dnssec Store State Config Web.

Definition SESSION_TTL_SECS : Z := 7 * 24 * 3600.
Definition SESSION_COOKIE : string := "nomina_session".
Definition CSRF_COOKIE : string := "nomina_csrf".

(** ** Requests *)

Inductive Method : Type := GET | HEAD | POST | PUT | PATCH | DELETE | OtherMethod.
#[export] Instance Method_eq_dec : EqDecision Method.
Proof. solve_decision. Defined.

(** The headers the program reads, as their raw text. *)
Record Headers : Type := mkHeaders {
  hd_cookie : option string; hd_csrf_token : option string; hd_authorization : option string }.

(** [HeaderValue::to_str]: only visible ASCII, space and tab. *)
Definition visible_ascii (c : ascii) : bool := in_range 32 126 c || (code c =? 9).
Definition to_str (v : string) : option string := if str_forall visible_ascii v then Some v else None.

(** ** Cookies *)

Definition cookie (name value : string) (secure http_only : bool) (max_age : Z) : string :=
  let c := name +:+ "=" +:+ value +:+ "; Path=/; SameSite=Strict; Max-Age=" +:+ show_u max_age in
  let c := if http_only then c +:+ "; HttpOnly" else c in
  if secure then c +:+ "; Secure" else c.
Definition session_cookie (token : string) (secure : bool) (max_age : Z) : string :=
  cookie SESSION_COOKIE token secure true max_age.
Definition csrf_cookie (token : string) (secure : bool) (max_age : Z) : string :=
  cookie CSRF_COOKIE token secure false max_age.

Definition add_cookie (m : gmap string string) (pair : string) : gmap string string :=
  match split_once "="%char (trim pair) with
  | Some (k, v) => <[trim k := trim v]> m
  | None => m
  end.
Definition parse_cookies (h : Headers) : gmap string string :=
  match hd_cookie h ≫= to_str with
  | Some raw => fold_left add_cookie (split ";"%char raw) ∅
  | None => ∅
  end.

Definition is_mutating (m : Method) : bool :=
  match m with POST | PUT | PATCH | DELETE => true | _ => false end.

(** ** Passwords and tokens *)

Section Auth.
Context `{NETS : IpNets} `{HN : HickoryNames} `{TEXT : !HickoryText} `{SIGN : !Signers} `{RES : !HickoryResolvers}.
Context `{DT : DateTimes} `{CR : Credentials}.

Definition hash_password (salt : list Z) (password : string) : result string AppError :=
  ok_or (argon2_hash salt password) (internal "password hashing failed").
Definition verify_password (password hash : string) : bool := argon2_verify password hash.
Definition random_token (bytes : list Z) : string := base64_url_encode bytes.
Definition hash_session_id (token : string) : string := base64_encode_no_pad (sha256 (as_bytes token)).

(** ** The authenticated request *)

Record Authed : Type := mkAuthed { at_user : User; at_csrf_token : string }.

Definition resolve_session (e : WebEnv) (h : Headers) : W Authed :=
  let cookies := parse_cookies h in
  let+ token := or_throw (cookies !! SESSION_COOKIE) unauthorized in
  let hashed := hash_session_id token in
  let+ found := run (session hashed) in
  let+ s := or_throw found unauthorized in
  if sn_expires_at s <? we_clock e then
    attempt (run (delete_session hashed)) >>>
    throw unauthorized
  else
    let+ found := run (user_by_id (sn_user_id s)) in
    let+ user := or_throw found unauthorized in
    wret (mkAuthed (user_public user) (sn_csrf_token s)).

(** [Authed::from_request_parts]. *)
Definition from_request_parts (e : WebEnv) (m : Method) (h : Headers) : W Authed :=
  let+ authed := resolve_session e h in
  if is_mutating m then
    let header := default "" (hd_csrf_token h ≫= to_str) in
    reject (negb (bool_decide (header = at_csrf_token authed)))
      as (AppError_new 403 "csrf_failed" "Missing or invalid CSRF token")
      otherwise wret authed
  else wret authed.

(** ** Account handlers *)

Record LoginRequest : Type := mkLoginRequest { lg_username : string; lg_password : string }.
Record SetupRequest : Type := mkSetupRequest { su_username : string; su_password : string }.
Record ChangePasswordRequest : Type := mkChangePasswordRequest {
  cp_current_password : string; cp_new_password : string }.

Definition start_session (e : WebEnv) (user_id : Z) : W (string * string) :=
  let token := random_token (we_token e) in
  let csrf := random_token (we_csrf e) in
  let expires := we_clock e + SESSION_TTL_SECS * NANOS in
  run (create_session (we_ts e) (hash_session_id token) user_id csrf expires) >>>
  wret (token, csrf).

Definition session_cookies (e : WebEnv) (token csrf : string) : list string :=
  let secure := wc_tls (cg_web (we_config e)) in
  [session_cookie token secure SESSION_TTL_SECS; csrf_cookie csrf secure SESSION_TTL_SECS].

Definition throttled (f : LoginThrottle -> LoginThrottle) : W unit :=
  updates (fun a => with_throttle (f (ap_throttle a)) a).

Definition login (e : WebEnv) (req : LoginRequest) : W Response :=
  let throttle_key := to_ascii_lowercase (lg_username req) in
  let+ locked := (fun a => let '(t, b) := is_locked_out throttle_key (we_instant e) (ap_throttle a) in
                           (with_throttle t a, Ok b)) in
  reject locked as (AppError_new 429 "too_many_requests" "Too many failed attempts; try again later") otherwise
  let+ row := run (user_by_username (lg_username req)) in
  let valid := match row with
               | Some u => verify_password (lg_password req) (us_password_hash u)
               | None => false
               end in
  match row with
  | None => throttled (record_login_failure throttle_key (we_instant e)) >>> throw unauthorized
  | Some user =>
      if negb valid then throttled (record_login_failure throttle_key (we_instant e)) >>> throw unauthorized
      else
        throttled (clear_login_failures throttle_key) >>>
        let+ p := start_session e (us_id user) in
        wret (with_cookies 200 (JObj [("user", JData (PUser (user_public user)))]) (session_cookies e (fst p) (snd p)))
  end.

Definition logout (e : WebEnv) (h : Headers) : W Response :=
  (match parse_cookies h !! SESSION_COOKIE with
   | Some token => attempt (run (delete_session (hash_session_id token))) >>> wret tt
   | None => wret tt
   end) >>>
  (let secure := wc_tls (cg_web (we_config e)) in
   wret (with_cookies 204 (JObj []) [session_cookie "" secure 0; csrf_cookie "" secure 0])).

Definition me (e : WebEnv) (h : Headers) : W Response :=
  let+ count := run user_count in
  reject (count =? 0) as (AppError_new 409 "setup_required" "No administrator account exists yet") otherwise
  let+ authed := resolve_session e h in
  wret (ok_json (JObj [("user", JData (PUser (at_user authed)))])).

(** The closure of [setup]. *)
Definition create_first_user (ts username hash : string) : M Z :=
  let* n := user_count in
  if 0 <? n then fail UniqueViolation else create_user ts username hash false.

Definition setup_error (e : AppError) : AppError :=
  if ae_status e =? 409 then conflict "Setup already completed" else e.

Definition setup (e : WebEnv) (req : SetupRequest) : W Response :=
  reject (is_empty (trim (su_username req))) as (validation_field "username" "must not be empty") otherwise
  reject (len (su_password req) <? 12) as (validation_field "password" "must be at least 12 characters") otherwise
  let+ hash := lift (hash_password (we_salt e) (su_password req)) in
  let+ user_id := map_err setup_error (run (create_first_user (we_ts e) (trim (su_username req)) hash)) in
  let+ found := run (user_by_id user_id) in
  let+ user := or_throw found (internal "user vanished after creation") in
  let+ p := start_session e user_id in
  wret (with_cookies 201 (JObj [("user", JData (PUser (user_public user)))]) (session_cookies e (fst p) (snd p))).

Definition change_password (e : WebEnv) (auth : Authed) (req : ChangePasswordRequest) : W Response :=
  reject (len (cp_new_password req) <? 12)
    as (validation_field "new_password" "must be at least 12 characters") otherwise
  let uid := ur_id (at_user auth) in
  let+ found := run (user_by_id uid) in
  let+ row := or_throw found unauthorized in
  reject (negb (verify_password (cp_current_password req) (us_password_hash row)))
    as (forbidden "Current password is incorrect") otherwise
  let+ hash := lift (hash_password (we_salt e) (cp_new_password req)) in
  run (set_password uid hash) >>>
  wret no_content.

(** ** Lemmas: sessions *)

Definition session_row (d : Db) (token : string) : option SessRow :=
  List.find (fun s => bool_decide (ss_id s = hash_session_id token)) (sessions d).
(** When the session ends: a stored text that does not parse is the epoch. *)
Definition session_end (s : SessRow) : Z := default 0 (datetime_parse (ss_expires_at s)).
Definition session_owner (d : Db) (s : SessRow) : option UserRow :=
  List.find (fun u => us_id u =? ss_user_id s) (users d).
Definition authed_as (u : UserRow) (s : SessRow) : Authed := mkAuthed (user_public u) (ss_csrf_token s).
Definition drop_session (token : string) (d : Db) : Db := fst (delete_session (hash_session_id token) d).

(** Every path of [resolve_session]. *)
Lemma resolve_session_eq e h a :
  resolve_session e h a =
  match parse_cookies h !! SESSION_COOKIE with
  | None => (a, Err unauthorized)
  | Some token =>
      match session_row (ap_db a) token with
      | None => (a, Err unauthorized)
      | Some s =>
          if session_end s <? we_clock e then (with_db (drop_session token (ap_db a)) a, Err unauthorized)
          else match session_owner (ap_db a) s with
               | None => (a, Err unauthorized)
               | Some u => (a, Ok (authed_as u s))
               end
      end
  end.
Proof.
  unfold resolve_session. destruct (parse_cookies h !! SESSION_COOKIE) as [token|]; [|done].
  cbn [or_throw]. unfold wbind at 1. cbn [wret]. unfold wbind at 1, session. rewrite run_query.
  fold (session_row (ap_db a) token). destruct (session_row (ap_db a) token) as [s|]; [|done].
  cbn [fmap option_fmap option_map]. unfold wbind at 1. cbn [or_throw wret sn_expires_at sn_user_id sn_csrf_token].
  fold (session_end s). destruct (session_end s <? we_clock e); [done|].
  unfold wbind at 1, user_by_id. rewrite run_query. fold (session_owner (ap_db a) s).
  by destruct (session_owner (ap_db a) s).
Qed.

(** C22: a request is authenticated exactly when its session cookie names a stored
    session that has not ended, and then as the owner of that session; otherwise
    the error is 401, and all that can change is that a session which has ended
    is deleted. *)
Theorem session_valid e h a :
  admin_ok (ap_db a) ->
  (forall auth, snd (resolve_session e h a) = Ok auth <->
     exists token s u, parse_cookies h !! SESSION_COOKIE = Some token /\ In s (sessions (ap_db a)) /\
       ss_id s = hash_session_id token /\ we_clock e <= session_end s /\
       In u (users (ap_db a)) /\ us_id u = ss_user_id s /\ auth = authed_as u s) /\
  (forall err, snd (resolve_session e h a) = Err err -> err = unauthorized) /\
  (fst (resolve_session e h a) = a \/
   exists token s, parse_cookies h !! SESSION_COOKIE = Some token /\ session_row (ap_db a) token = Some s /\
     session_end s < we_clock e /\ fst (resolve_session e h a) = with_db (drop_session token (ap_db a)) a).
Proof.
  intros Hd. assert (forall token s, session_row (ap_db a) token = Some s <->
    In s (sessions (ap_db a)) /\ ss_id s = hash_session_id token) as Hrow.
  { intros token s. unfold session_row. split.
    - intros E. apply List.find_some in E as [? ?]. by breflect.
    - intros [Hin E]. rewrite <- E.
      by apply (find_unique ss_id); [intros; apply bool_decide_ext|apply ok_session_ids|]. }
  rewrite resolve_session_eq.
  destruct (parse_cookies h !! SESSION_COOKIE) as [token|] eqn:Ec;
    [|split_and!; [split; [done|intros (? & ? & ? & ? & _); congruence]|by intros ? [= <-]|by left]].
  destruct (session_row (ap_db a) token) as [s|] eqn:Es; cycle 1.
  { split_and!; [split; [done|]|by intros ? [= <-]|by left].
    intros (t & s & u & [= <-] & H1 & H2 & _). assert (session_row (ap_db a) token = Some s); [by apply Hrow|congruence]. }
  apply Hrow in Es as Hs. destruct Hs as [Hin Hid].
  assert (forall s', In s' (sessions (ap_db a)) -> ss_id s' = hash_session_id token -> s' = s) as Huniq.
  { intros s' H1 H2. assert (session_row (ap_db a) token = Some s') by by apply Hrow. congruence. }
  destruct (Z.ltb_spec (session_end s) (we_clock e)) as [He|He].
  { split_and!; [split; [done|]|by intros ? [= <-]|right; exists token, s; done].
    intros (t & s' & u & [= <-] & H1 & H2 & H3 & _). rewrite (Huniq s') in H3 by done. lia. }
  destruct (session_user_exists _ s Hd Hin) as [u Hu]. unfold session_owner. rewrite Hu.
  apply user_by_id_spec in Hu as [Hu1 Hu2]; [|done].
  split_and!; [|done|by left]. intros auth. split.
  - intros [= <-]. exists token, s, u. done.
  - intros (t & s' & u' & [= <-] & H1 & H2 & _ & H4 & H5 & ->). rewrite (Huniq s') in * by done.
    assert (List.find (fun u => us_id u =? ss_user_id s) (users (ap_db a)) = Some u) as E1
      by by apply user_by_id_spec.
    assert (List.find (fun u => us_id u =? ss_user_id s) (users (ap_db a)) = Some u') as E2
      by by apply user_by_id_spec.
    rewrite E1 in E2. by injection E2 as ->.
Qed.

(** Behind the extractor a mutating request has presented the CSRF token of a live
    session, and a request that is refused changes nothing but deletes a session
    that has ended. *)
Lemma extractor_cases e m h a :
  match from_request_parts e m h a with
  | (a', Ok auth) =>
      a' = a /\ snd (resolve_session e h a) = Ok auth /\
      (is_mutating m = true -> default "" (hd_csrf_token h ≫= to_str) = at_csrf_token auth)
  | (a', Err err) =>
      a' = fst (resolve_session e h a) /\
      (ae_status err = 401 /\ snd (resolve_session e h a) = Err err \/
       ae_status err = 403 /\ is_mutating m = true /\
       exists auth, snd (resolve_session e h a) = Ok auth /\ default "" (hd_csrf_token h ≫= to_str) <> at_csrf_token auth)
  end.
Proof.
  unfold from_request_parts, wbind.
  assert (forall x, snd (resolve_session e h a) = Ok x -> fst (resolve_session e h a) = a) as Hid.
  { intros x. rewrite resolve_session_eq. by repeat case_goal. }
  assert (forall err, snd (resolve_session e h a) = Err err -> err = unauthorized) as Herr.
  { intros err. rewrite resolve_session_eq. repeat case_goal; cbn; congruence. }
  destruct (resolve_session e h a) as [a' [auth|err]]; cbn in *;
    [|split; [done|left; split; [by rewrite (Herr err eq_refl)|done]]].
  specialize (Hid auth eq_refl). subst a'. destruct (is_mutating m) eqn:Em; [|done].
  destruct (decide (default "" (hd_csrf_token h ≫= to_str) = at_csrf_token auth)) as [E|E].
  - rewrite bool_decide_eq_true_2 by done. done.
  - rewrite bool_decide_eq_false_2 by done. cbn. split; [done|]. right. eauto.
Qed.

(** ** Lemmas: cookies *)

(** What a browser sends back: the session cookie, then the CSRF cookie. *)
Definition browser_cookies (token csrf : string) : string :=
  SESSION_COOKIE +:+ "=" +:+ token +:+ "; " +:+ CSRF_COOKIE +:+ "=" +:+ csrf.
Definition browser_headers (token csrf : string) : Headers :=
  mkHeaders (Some (browser_cookies token csrf)) (Some csrf) None.

Lemma base64_url_range c :
  base64_url_char c = true ->
  is_graphic c = true /\ visible_ascii c = true /\ negb (bool_decide (c = ";"%char)) = true.
Proof.
  intros H. unfold base64_url_char, is_ascii_alphanumeric, is_upper, is_lower, is_digit, in_range in H.
  unfold is_graphic, visible_ascii, in_range.
  assert (33 <= code c <= 126 /\ code c <> 59) as [Hr Hn].
  { repeat (apply orb_true_iff in H as [H|H]); breflect; lia. }
  split_and!.
  - apply andb_true_iff. split; apply Z.leb_le; lia.
  - apply orb_true_iff. left. apply andb_true_iff. split; apply Z.leb_le; lia.
  - rewrite negb_true_iff, bool_decide_eq_false. intros ->. by apply Hn.
Qed.

Lemma base64_url_text s :
  str_forall base64_url_char s = true ->
  str_forall is_graphic s = true /\ str_forall visible_ascii s = true /\
  str_forall (fun d => negb (bool_decide (d = ";"%char))) s = true.
Proof.
  intros H. split_and!; eapply str_forall_weaken; try exact H; intros c Hc; by apply base64_url_range in Hc as (? & ? & ?).
Qed.

Lemma add_cookie_eq m pair name value :
  trim pair = name +:+ "=" +:+ value -> str_forall (fun d => negb (bool_decide (d = "="%char))) name = true ->
  str_forall is_graphic name = true -> str_forall is_graphic value = true ->
  add_cookie m pair = <[name := value]> m.
Proof.
  intros Hp Hn H1 H2. unfold add_cookie. rewrite Hp. change ("=" +:+ value) with (String "=" value).
  rewrite split_once_append by done. by rewrite !trim_graphic.
Qed.

(** The session cookie a browser sends back is the token. *)
Lemma parse_browser_cookies token csrf x y :
  str_forall base64_url_char token = true -> str_forall base64_url_char csrf = true ->
  parse_cookies (mkHeaders (Some (browser_cookies token csrf)) x y) !! SESSION_COOKIE = Some token.
Proof.
  intros Ht Hc. destruct (base64_url_text _ Ht) as (T1 & T2 & T3). destruct (base64_url_text _ Hc) as (C1 & C2 & C3).
  unfold parse_cookies, hd_cookie, to_str, browser_cookies. cbn [mbind option_bind].
  match goal with |- context [if ?b then Some _ else None] => assert (b = true) as -> end.
  { by rewrite !str_forall_append, T2, C2. }
  change ("; " +:+ CSRF_COOKIE +:+ "=" +:+ csrf) with (String ";" (String " " (CSRF_COOKIE +:+ "=" +:+ csrf))).
  rewrite <- append_assoc, <- append_assoc, split_append, split_none.
  - cbn [fold_left]. rewrite (add_cookie_eq _ _ CSRF_COOKIE csrf), (add_cookie_eq _ _ SESSION_COOKIE token); try done.
    + rewrite append_assoc. apply trim_graphic. by rewrite !str_forall_append, T1.
    + rewrite trim_space_graphic; [done|]. by rewrite !str_forall_append, C1.
  - cbn [str_forall]. rewrite !str_forall_append, C3. done.
  - by rewrite !str_forall_append, T3.
Qed.

(** ** Lemmas: the account handlers *)

Lemma create_session_inv ts id uid csrf x d d' :
  create_session ts id uid csrf x d = (d', Ok tt) ->
  d' = set_sessions (sessions d ++ [mkSessRow id uid csrf ts (default "" (datetime_format x))]) d /\
  (forall s, In s (sessions d) -> ss_id s <> id).
Proof.
  unfold create_session. destruct (existsb _ (sessions d)) eqn:E; [done|]. destruct (negb _); [done|].
  intros [= <-]. split; [done|]. intros s Hs Hid. rewrite existsb_false in E. specialize (E s Hs).
  by apply bool_decide_eq_false in E.
Qed.

Lemma start_session_inv e uid a a' p :
  start_session e uid a = (a', Ok p) ->
  p = (random_token (we_token e), random_token (we_csrf e)) /\
  exists d', create_session (we_ts e) (hash_session_id (fst p)) uid (snd p)
    (we_clock e + SESSION_TTL_SECS * NANOS) (ap_db a) = (d', Ok tt) /\ a' = with_db d' a.
Proof.
  unfold start_session. intros H. apply wbind_inv in H as (a1 & [] & H1 & [= <- <-]). split; [done|].
  unfold run in H1. destruct (create_session _ _ _ _ _ _) as [d' [[]|err]]; [|done]. injection H1 as <-. eauto.
Qed.

(** A session that was just created is the one its token names. *)
Lemma session_row_new d id uid csrf ts x token :
  id = hash_session_id token -> (forall s, In s (sessions d) -> ss_id s <> id) ->
  session_row (set_sessions (sessions d ++ [mkSessRow id uid csrf ts x]) d) token = Some (mkSessRow id uid csrf ts x).
Proof.
  intros -> Hn. unfold session_row. cbn [sessions set_sessions]. rewrite find_app.
  destruct (List.find _ (sessions d)) as [s|] eqn:E.
  - apply List.find_some in E as [Hin E]. breflect. by destruct (Hn s).
  - cbn. by rewrite bool_decide_eq_true_2.
Qed.

Lemma login_inv e req a a' r :
  login e req a = (a', Ok r) ->
  exists u d', List.find (fun u => bool_decide (us_username u = lg_username req)) (users (ap_db a)) = Some u /\
    verify_password (lg_password req) (us_password_hash u) = true /\
    snd (is_locked_out (to_ascii_lowercase (lg_username req)) (we_instant e) (ap_throttle a)) = false /\
    create_session (we_ts e) (hash_session_id (random_token (we_token e))) (us_id u) (random_token (we_csrf e))
      (we_clock e + SESSION_TTL_SECS * NANOS) (ap_db a) = (d', Ok tt) /\
    ap_db a' = d' /\
    r = with_cookies 200 (JObj [("user", JData (PUser (user_public u)))])
          (session_cookies e (random_token (we_token e)) (random_token (we_csrf e))).
Proof.
  unfold login. intros H. apply wbind_inv in H as (a1 & locked & H1 & H2).
  destruct (is_locked_out _ _ _) as [t b] eqn:El. injection H1 as <- <-. destruct b; [done|].
  apply wbind_inv in H2 as (a2 & row & H2 & H3). unfold user_by_username in H2. rewrite run_query in H2.
  injection H2 as <- Hrow. cbn [ap_db with_throttle] in Hrow. rewrite <- Hrow in H3.
  destruct (List.find _ _) as [u|]; [|by apply wbind_inv in H3 as (? & ? & _ & ?)].
  destruct (verify_password _ _) eqn:Ev; [|by apply wbind_inv in H3 as (? & ? & _ & ?)]. cbn [negb] in H3.
  apply wbind_inv in H3 as (a3 & [] & H3 & H4). injection H3 as <-.
  apply wbind_inv in H4 as (a4 & p & H4 & H5). apply start_session_inv in H4 as (-> & d' & Hc & ->).
  injection H5 as <- <-. exists u, d'. done.
Qed.


Lemma create_first_user_taken ts n h d : users d <> [] -> create_first_user ts n h d = (d, Err UniqueViolation).
Proof.
  unfold create_first_user, bind, user_count, query. intros Hd.
  destruct (users d) as [|u us]; [done|]. by destruct (Z.ltb_spec 0 (Z.of_nat (length (u :: us)))); [|cbn in *; lia].
Qed.

(** The first account can be created once.  A successful setup finds no user,
    leaves exactly the new one, whose password logs in; from then on every setup
    request is refused and changes nothing. *)
Theorem setup_once `{!CredentialLaws} e req a a' r e2 req2 :
  setup e req a = (a', Ok r) ->
  users (ap_db a) = [] /\
  (exists u, users (ap_db a') = [u] /\ us_username u = trim (su_username req) /\
     verify_password (su_password req) (us_password_hash u) = true) /\
  exists err, setup e2 req2 a' = (a', Err err).
Proof.
  unfold setup at 1. destruct (is_empty _); [done|]. destruct (_ <? 12); [done|]. intros G0.
  apply wbind_inv in G0 as (a1 & hash & H1 & G1). injection H1 as <- Hh.
  apply wbind_inv in G1 as (a2 & uid & H2 & G2). unfold map_err, run in H2.
  destruct (create_first_user _ _ _ _) as [d1 [id|err]] eqn:Ec; [|done]. injection H2 as <- <-.
  unfold create_first_user, bind, user_count, query, fail in Ec.
  destruct (users (ap_db a)) as [|u0 us] eqn:Eu; [|by cbn in Ec]. change (0 <? Z.of_nat (length [])) with false in Ec. unfold create_user in Ec.
  rewrite Eu in Ec. cbn in Ec. injection Ec as <- <-. split; [done|].
  apply wbind_inv in G2 as (a3 & found & H3 & G3). unfold user_by_id in H3. rewrite run_query in H3.
  injection H3 as <- <-. cbn in G3.
  apply wbind_inv in G3 as (a5 & p & H5 & G4). apply start_session_inv in H5 as (_ & d' & Hc & ->).
  injection G4 as <- _. apply create_session_inv in Hc as [-> _]. cbn. split.
  - eexists. split; [done|]. split; [done|]. cbn. unfold hash_password, ok_or in Hh.
    destruct (argon2_hash _ _) as [h|] eqn:E; [|done]. injection Hh as ->. by eapply argon2_verify_hash.
  - unfold setup. destruct (is_empty _); [by eexists|]. destruct (_ <? 12); [by eexists|].
    unfold wbind at 1, lift.
    destruct (hash_password (we_salt e2) (su_password req2)) as [h|err]; [|by eexists].
    eexists. apply wbind_err. unfold map_err. by erewrite run_err by (eapply create_first_user_taken; done).
Qed.

(** logging out ends the session: the cookies that authenticated the request
    authenticate no later one. *)
Theorem logout_ends e h a a' r e' :
  logout e h a = (a', Ok r) ->
  snd (resolve_session e' h a') = Err unauthorized /\
  (forall token, parse_cookies h !! SESSION_COOKIE = Some token -> forall s, In s (sessions (ap_db a')) <->
     In s (sessions (ap_db a)) /\ ss_id s <> hash_session_id token).
Proof.
  unfold logout. intros H. apply wbind_inv in H as (a1 & [] & H1 & [= <- _]).
  rewrite resolve_session_eq. destruct (parse_cookies h !! SESSION_COOKIE) as [token|]; [|done].
  unfold delete_session, attempt, wbind in H1. rewrite run_modify in H1. injection H1 as <-. split.
  - destruct (session_row _ token) as [s|] eqn:E; [|done]. unfold session_row in E.
    apply List.find_some in E as [Hin E]. cbn [ap_db with_db sessions set_sessions] in Hin.
    apply in_delete_where in Hin as [_ Hin]. congruence.
  - intros t [= <-] s. cbn [ap_db with_db sessions set_sessions]. rewrite in_delete_where.
    split; intros [? E]; split; try done; [by apply bool_decide_eq_false in E|by apply bool_decide_eq_false].
Qed.

(** ** Lemmas: failed logins *)

(** The user name is unknown, or the password is not the user's. *)
Definition bad_login (req : LoginRequest) (d : Db) : Prop :=
  match List.find (fun u => bool_decide (us_username u = lg_username req)) (users d) with
  | Some u => verify_password (lg_password req) (us_password_hash u) = false
  | None => True
  end.
Definition throttle_key (req : LoginRequest) : string := to_ascii_lowercase (lg_username req).
Definition too_many : AppError := AppError_new 429 "too_many_requests" "Too many failed attempts; try again later".

(** Recording a failure does not depend on whether an entry past the window was
    removed before. *)
Lemma record_after_check key now t :
  record_login_failure key now (fst (is_locked_out key now t)) = record_login_failure key now t.
Proof.
  unfold is_locked_out. destruct (t !! key) as [[count when_]|] eqn:E; [|done].
  destruct (LOCKOUT_WINDOW <? now - when_) eqn:Ew; [|done]. cbn [fst].
  rewrite !record_failure_eq, lookup_delete_eq, E, Ew. by rewrite insert_delete_eq.
Qed.

Lemma login_bad e req a :
  bad_login req (ap_db a) -> snd (is_locked_out (throttle_key req) (we_instant e) (ap_throttle a)) = false ->
  login e req a =
    (with_throttle (record_login_failure (throttle_key req) (we_instant e) (ap_throttle a)) a, Err unauthorized).
Proof.
  intros Hb Hl. rewrite <- record_after_check. unfold login, wbind at 1. fold (throttle_key req).
  destruct (is_locked_out _ _ _) as [t b]. cbn in Hl. subst b. cbn [fst].
  unfold wbind at 1, user_by_username. rewrite run_query. cbn [ap_db with_throttle]. unfold bad_login in Hb.
  destruct (List.find _ _) as [u|]; [|done]. by rewrite Hb.
Qed.

Lemma login_locked e req a :
  snd (is_locked_out (throttle_key req) (we_instant e) (ap_throttle a)) = true -> login e req a = (a, Err too_many).
Proof.
  intros Hl. unfold login, wbind at 1. fold (throttle_key req). unfold is_locked_out in *.
  destruct (ap_throttle a !! throttle_key req) as [[count when_]|]; [|done].
  destruct (LOCKOUT_WINDOW <? _); [done|]. cbn in Hl. rewrite Hl. by destruct a.
Qed.

(** Fewer than nine failures in a row are all recorded. *)
Lemma bad_logins_state env req times a :
  (forall t, we_instant (env t) = t) -> bad_login req (ap_db a) -> ap_throttle a !! throttle_key req = None ->
  Z.of_nat (length times) <= LOCKOUT_THRESHOLD ->
  fold_left (fun a t => fst (login (env t) req a)) times a =
  with_throttle (failures_at (throttle_key req) times (ap_throttle a)) a.
Proof.
  intros He Hb H0. induction times as [|t times IH] using rev_ind; [by destruct a|].
  rewrite length_app, Nat2Z.inj_add. cbn [length]. unfold LOCKOUT_THRESHOLD. intros Hl.
  rewrite fold_left_app, IH by (unfold LOCKOUT_THRESHOLD; lia). cbn [fold_left]. clear IH.
  destruct (failures_entry _ times _ H0) as [Hf Hr]; [unfold u32_max; lia|].
  rewrite login_bad; [|done|]; cbn [ap_throttle with_throttle].
  - cbn [fst]. rewrite He. unfold failures_at. by rewrite fold_left_app.
  - unfold is_locked_out. rewrite Hf. destruct (rev times) as [|last rest]; [done|].
    destruct (LOCKOUT_WINDOW <? _); [done|]. cbn [snd]. apply Z.leb_gt. unfold LOCKOUT_THRESHOLD. lia.
Qed.


(** The throttle keeps an entry for every name a failed login was tried with: each
    login with a name of its own adds one, and nothing but a later login with the
    same name removes it. *)
Theorem throttle_grows e req a :
  bad_login req (ap_db a) -> ap_throttle a !! throttle_key req = None ->
  size (ap_throttle (fst (login e req a))) = S (size (ap_throttle a)).
Proof.
  intros Hb Hn. rewrite login_bad; [|done|by unfold is_locked_out; rewrite Hn]. cbn [fst ap_throttle with_throttle].
  by rewrite record_failure_eq, map_size_insert_None.
Qed.

(** changing the password takes the current one and replaces it: afterwards the
    new password is the user's and the forced change is over; the other accounts
    and every session, the caller's included, stay as they are. *)
Theorem password_change `{!CredentialLaws} e auth req a a' r :
  change_password e auth req a = (a', Ok r) ->
  12 <= len (cp_new_password req) /\
  exists u h, List.find (fun u => us_id u =? ur_id (at_user auth)) (users (ap_db a)) = Some u /\
    verify_password (cp_current_password req) (us_password_hash u) = true /\
    verify_password (cp_new_password req) h = true /\
    a' = with_db (set_users (update_where (fun u => us_id u =? ur_id (at_user auth))
      (fun u => mkUserRow (us_id u) (us_username u) h false (us_created_at u)) (users (ap_db a))) (ap_db a)) a /\
    sessions (ap_db a') = sessions (ap_db a).
Proof.
  unfold change_password. destruct (Z.ltb_spec (len (cp_new_password req)) 12) as [|Hlen]; [done|]. intros G0.
  apply wbind_inv in G0 as (a1 & found & H1 & G1). unfold user_by_id in H1. rewrite run_query in H1.
  injection H1 as <- <-. destruct (List.find _ _) as [u|]; [|done]. cbn in G1.
  unfold wbind at 1, wret in G1. destruct (verify_password (cp_current_password req) _) eqn:Ev; [|done].
  cbn [negb] in G1. apply wbind_inv in G1 as (a2 & h & [= <- Hh] & G2).
  apply wbind_inv in G2 as (a3 & [] & H3 & [= <- _]). unfold set_password in H3. rewrite run_modify in H3.
  injection H3 as <-. split; [done|]. exists u, h. split_and!; try done.
  unfold hash_password, ok_or in Hh. destruct (argon2_hash _ _) as [h'|] eqn:E; [|done].
  injection Hh as ->. by eapply argon2_verify_hash.
Qed.
End Auth.
