(* ===== verification/DynDns.v ===== *)
(** * The DynDNS update endpoint ([src/web/dyndns.rs])

    [GET /nic/update] with HTTP Basic authentication by a token.  An early return
    is the [Err] of a step, so the handler always answers. *)

From S2P Require Import Prelude Strs Net External Models Db DbDns DbFilter DbDhcp DbAdmin Filter Upstream Cache Stats.
From S2P Require Import Mdns Dnssec Store State Config Web Auth.

Definition text (status : Z) (body : string) : Response :=
  mkFullResponse status (Text body) [] [("content-type", "text/plain; charset=utf-8")].

(** The query parameters; a repeated key keeps its last value. *)
Abbreviation Params := (gmap string string).

(** [params.get(key)], split at commas: the first address of each family wins. *)
Definition take_addr (acc : option IpAddr * option IpAddr) (tok : string) : option IpAddr * option IpAddr :=
  let '(v4, v6) := acc in
  match parse_ip (trim tok), v4, v6 with
  | Some (V4 a), None, _ => (Some (V4 a), v6)
  | Some (V6 a), _, None => (v4, Some (V6 a))
  | _, _, _ => acc
  end.
Definition take_param (params : Params) (acc : option IpAddr * option IpAddr) (key : string)
    : option IpAddr * option IpAddr :=
  match params !! key with
  | Some val => fold_left take_addr (split ","%char val) acc
  | None => acc
  end.
(** The addresses to set, at most one per family: the parameters, else the peer. *)
Definition update_addrs (params : Params) (peer : IpAddr) : list IpAddr :=
  let '(v4, v6) := fold_left (take_param params) ["myip"; "myipv6"; "ip"] (None, None) in
  let '(v4, v6) :=
    match v4, v6 with
    | None, None => match peer with V4 _ => (Some peer, None) | V6 _ => (None, Some peer) end
    | _, _ => (v4, v6)
    end in
  option_list v4 ++ option_list v6.

Definition hostname_param (params : Params) : option string :=
  match params !! "hostname" with Some h => Some h | None => params !! "host" end.
Definition host_list (h : string) : list string :=
  List.filter (fun s => negb (is_empty s))
    ((fun s => to_ascii_lowercase (trim_end_matches "."%char (trim s))) <$> split ","%char h).

Section DynDns.
Context `{NETS : IpNets} `{HN : HickoryNames} `{TEXT : !HickoryText} `{SIGN : !Signers} `{RES : !HickoryResolvers}.
Context `{DT : DateTimes} `{CR : Credentials}.

Definition basic_auth (h : Headers) : option (string * string) :=
  let! raw := hd_authorization h ≫= to_str in
  let! b64 := match strip_prefix "Basic " raw with Some b => Some b | None => strip_prefix "basic " raw end in
  let! decoded := base64_decode (trim b64) in
  let! s := from_utf8 decoded in
  split_once ":"%char s.

Abbreviation Update := (Step Response).

Definition failed_911 (_ : AppError) : Response := text 500 "911".

(** The loop over the addresses of one host: whether it changed and has a zone. *)
Definition set_host_addr (e : WebEnv) (auth : DynDnsAuthRow) (host : string) (acc : bool * bool) (ip : IpAddr)
    : Update (bool * bool) :=
  let '(changed, had_zone) := acc in
  let+ u := map_err failed_911
              (run (dyndns_set_address (we_ts e) host ip (da_view_id auth) (da_ttl auth))) in
  wret (match u with
        | Created | Updated => (true, true)
        | Unchanged => (changed, true)
        | NoZone => (changed, had_zone)
        end).

(** The loop over the hosts: the lines so far and whether any host changed. *)
Definition update_host (e : WebEnv) (auth : DynDnsAuthRow) (ips : list IpAddr) (ip_label : string)
    (acc : list string * bool) (host : string) : Update (list string * bool) :=
  let '(lines, any_change) := acc in
  if negb (bool_decide (host ∈ da_hostnames auth)) then wret (lines ++ ["nohost"], any_change)
  else
    let+ r := wfold (set_host_addr e auth host) ips (false, false) in
    let '(changed, had_zone) := r in
    wret (if negb had_zone then (lines ++ ["nohost"], any_change)
          else if changed then (lines ++ ["good " +:+ ip_label], true)
          else (lines ++ ["nochg " +:+ ip_label], any_change)).

(** What an authenticated token's request does. *)
Definition nic_update_as (e : WebEnv) (auth : DynDnsAuthRow) (peer : IpAddr) (params : Params) : Update Response :=
  let ips := update_addrs params peer in
  let+ hs := or_throw (hostname_param params) (text 400 "notfqdn") in
  let hosts := host_list hs in
  reject (is_nil hosts) as (text 400 "notfqdn") otherwise
  let ip_label := join "," (show_ip <$> ips) in
  let+ r := wfold (update_host e auth ips ip_label) hosts ([], false) in
  let '(lines, any_change) := r in
  (if any_change then updates reload_store else wret tt) >>>
  attempt (run (touch_dyndns_token (we_ts e) (da_id auth) ip_label)) >>>
  wret (text 200 (join (String newline "") lines)).

Definition nic_update_steps (e : WebEnv) (peer : IpAddr) (h : Headers) (params : Params) : Update Response :=
  let+ p := or_throw (basic_auth h) (text 401 "badauth") in
  let '(user, pass) := p in
  let+ found := map_err failed_911 (run (dyndns_auth user)) in
  let+ auth := or_throw found (text 401 "badauth") in
  reject (negb (da_enabled auth)) as (text 401 "badauth") otherwise
  reject (negb (verify_password pass (da_secret_hash auth))) as (text 401 "badauth") otherwise
  nic_update_as e auth peer params.

Definition nic_update (e : WebEnv) (peer : IpAddr) (h : Headers) (params : Params) (a : AppState)
    : AppState * Response :=
  match nic_update_steps e peer h params a with
  | (a', Ok r) => (a', r)
  | (a', Err r) => (a', r)
  end.

(** ** Lemmas: what an update may touch *)

(** The token a request authenticates as. *)
Definition token_of (h : Headers) (d : Db) : option DynDnsAuthRow :=
  let! p := basic_auth h in
  let! auth := match snd (dyndns_auth (fst p) d) with Ok o => o | Err _ => None end in
  if da_enabled auth && verify_password (snd p) (da_secret_hash auth) then Some auth else None.

(** An address record of a host name of the token, in the token's view. *)
Definition in_scope (d : Db) (auth : DynDnsAuthRow) (r : RecordRow) : Prop :=
  exists host ip zid zname, host ∈ da_hostnames auth /\ dyn_zone d host = Some (zid, zname) /\
    dyn_row zid (relative_name (dyn_host host) zname) (dyn_type ip) (da_view_id auth) r = true.

Definition zone_keys (d : Db) : list (Z * string) := (fun z => (zr_id z, zr_name z)) <$> zones d.

(** All of a zone but its serial and the time of its change; all of a token but its
    last update. *)
Definition zone_settings (z : ZoneRow) := (zr_id z, zr_name z, zr_enabled z, zr_soa z, zr_default_ttl z, zr_created_at z).
Definition token_settings (t : TokenRow) :=
  (tr_id t, tr_label t, tr_username t, tr_secret_hash t, tr_hostnames t, tr_view_id t, tr_ttl t, tr_enabled t,
   tr_created_at t).

(** [d] differs from [d0] in records the token owns, in serials and in the token's last
    update. *)
Record within (auth : DynDnsAuthRow) (d0 d : Db) : Prop := {
  wi_ok : dns_ok d;
  wi_tables : exists R Z T, d = set_dyndns_tokens T (set_zones Z (set_records R d0));
  wi_zones : zone_settings <$> zones d = zone_settings <$> zones d0;
  wi_tokens : Forall2 (fun t0 t => t = t0 \/ tr_id t0 = da_id auth /\ token_settings t = token_settings t0)
    (dyndns_tokens d0) (dyndns_tokens d);
  wi_records : forall r, ~ in_scope d0 auth r -> In r (records d) <-> In r (records d0) }.

Lemma dyn_zone_keys d d' host : zone_keys d = zone_keys d' -> dyn_zone d host = dyn_zone d' host.
Proof. intros H. unfold dyn_zone. by apply best_zone_list. Qed.

Lemma zone_settings_keys d d' : zone_settings <$> zones d = zone_settings <$> zones d' -> zone_keys d = zone_keys d'.
Proof.
  intros E. apply (f_equal (fmap (fun '(i, n, _, _, _, _) => (i, n)))) in E. by rewrite <- !list_fmap_compose in E.
Qed.
Lemma bumped_settings ts id zs : zone_settings <$> bumped ts id zs = zone_settings <$> zs.
Proof. by apply map_update_where. Qed.

Lemma within_refl auth d : dns_ok d -> within auth d d.
Proof.
  intros Hd. split; try done; [exists (records d), (zones d), (dyndns_tokens d); by destruct d|].
  apply Forall_Forall2_diag, Forall_true. auto.
Qed.

Lemma within_set_address e auth d0 host ip :
  host ∈ da_hostnames auth ->
  preserves (within auth d0) (dyndns_set_address (we_ts e) host ip (da_view_id auth) (da_ttl auth)).
Proof.
  intros Hh d [Hok (R & Z & T & E) Hk Ht Hr].
  pose proof (dyndns_set_address_ok (we_ts e) host ip (da_view_id auth) (da_ttl auth) d Hok) as Hok'.
  destruct (dyndns_set_address _ _ _ _ _ d) as [d' [u|err]] eqn:Eu; cbn [fst] in *; cycle 1.
  { rewrite dyndns_eq in Eu by done. repeat case_hyp Eu; simplify_eq; split; eauto. }
  pose proof (dyndns_writes _ _ _ _ _ _ _ _ Hok Eu) as He. rewrite dyndns_eq in Eu by done.
  assert (d' = d \/ exists zid zname, dyn_zone d host = Some (zid, zname) /\
    zones d' = bumped (we_ts e) zid (zones d) /\
    (forall r, dyn_row zid (relative_name (dyn_host host) zname) (dyn_type ip) (da_view_id auth) r = false ->
       In r (records d') <-> In r (records d))) as [->|(zid & zname & Hz & Hz' & Hrec)].
  { destruct u; try (right; destruct He as (zid & zname & ? & ? & _ & ? & _); eauto; fail); left; [done|tauto]. }
  { split; eauto. }
  assert (exists R Z, d' = set_zones Z (set_records R d)) as (R' & Z' & ->).
  { repeat case_hyp Eu; simplify_eq; eauto; exists (records d'), (zones d'); by destruct d'. }
  split; [done| | |done|].
  - exists R', Z', T. by rewrite E.
  - rewrite <- Hk, Hz'. apply bumped_settings.
  - intros r Hn. rewrite <- (Hr r Hn). apply Hrec.
    destruct (dyn_row _ _ _ _ r) eqn:Erow; [|done]. destruct Hn. exists host, ip, zid, zname.
    split_and!; [done| |done]. rewrite <- Hz. symmetry. by apply dyn_zone_keys, zone_settings_keys.
Qed.

Lemma within_touch e auth d0 label : preserves (within auth d0) (touch_dyndns_token (we_ts e) (da_id auth) label).
Proof.
  intros d [Hok (R & Z & T & E) Hk Ht Hr]. split; cbn.
  - by destruct Hok; split.
  - eexists R, Z, _. by rewrite E.
  - done.
  - apply Forall2_fmap_r. eapply Forall2_impl; [exact Ht|]. intros t0 t Hcase.
    cbn beta in Hcase. unfold compose. destruct (Z.eqb_spec (tr_id t) (da_id auth)) as [Eid|]; [|exact Hcase]. right.
    destruct Hcase as [->|[Hid Hs]]; [by split|]. split; [done|]. rewrite <- Hs. done.
  - done.
Qed.

Lemma nic_update_steps_eq e peer h params a :
  nic_update_steps e peer h params a =
  match token_of h (ap_db a) with
  | Some auth => nic_update_as e auth peer params a
  | None => (a, Err (text 401 "badauth"))
  end.
Proof.
  unfold nic_update_steps, token_of. destruct (basic_auth h) as [[user pass]|]; [|done]. cbn [or_throw fst snd].
  unfold wbind at 1, wret. unfold wbind at 1, map_err, dyndns_auth at 1. rewrite run_query. unfold dyndns_auth, query at 1.
  cbn [snd]. destruct (List.find _ _) as [t|]; [|done]. cbn [fmap option_fmap option_map or_throw].
  unfold wbind at 1, wret. destruct (da_enabled _); [|done]. cbn [negb andb]. by destruct (verify_password _ _).
Qed.

Lemma within_nic e auth peer params d0 : keeps (db_prop (within auth d0)) (nic_update_as e auth peer params).
Proof.
  unfold nic_update_as. keep.
  - unfold update_host. destruct y as [lines any_change]. rename x0 into host.
    destruct (bool_decide (host ∈ da_hostnames auth)) eqn:Eh; cbn [negb]; [|keep]. breflect. keep.
    unfold set_host_addr. keep. by apply within_set_address.
  - by apply keeps_updates.
  - apply within_touch.
Qed.

(** The address a host's record must hold. *)
Definition settled (auth : DynDnsAuthRow) (d : Db) (host : string) (ip : IpAddr) : Prop :=
  exists r, dyn_record d host ip (da_view_id auth) = Some r /\ rr_data r = show_ip ip.

(** Setting another host, to the same address of that family, keeps it. *)
Lemma settled_stable auth ts d host ip host2 ip2 ttl d' u :
  dns_ok d -> settled auth d host ip -> (dyn_type ip2 = dyn_type ip -> ip2 = ip) ->
  dyndns_set_address ts host2 ip2 (da_view_id auth) ttl d = (d', Ok u) -> settled auth d' host ip.
Proof.
  intros Hd (r & Hr & Hdata) Hsame H. rewrite dyndns_eq in H by done.
  destruct (dyn_zone d host2) as [[zid zname]|] eqn:Ez; [|injection H as <- _; by exists r].
  assert (forall rs k, dyn_zone (set_zones (bumped ts k (zones d)) (set_records rs d)) host = dyn_zone d host) as Hz'.
  { intros rs k. apply dyn_zone_keys. unfold zone_keys. cbn. apply bumped_keys. }
  unfold dyn_record in Hr. destruct (dyn_zone d host) as [[z1 n1]|] eqn:Ez1; [|done]. cbn [fst snd] in Hr.
  destruct (dyn_record d host2 ip2 _) as [r2|] eqn:Er2.
  - case_bool_decide; [injection H as <- _; exists r; unfold dyn_record; by rewrite Ez1|].
    injection H as <- _. eexists. unfold dyn_record. rewrite Hz'. cbn [fst snd records set_zones set_records].
    rewrite find_update_where, Hr by (intros; apply dyn_row_set_data). split; [done|].
    destruct (Z.eqb_spec (rr_id r) (rr_id r2)) as [Eid|]; [|done]. cbn [rr_data set_data].
    unfold dyn_record in Er2. rewrite Ez in Er2. apply List.find_some in Er2 as [Hin2 Hrow2].
    apply List.find_some in Hr as [Hin1 Hrow1].
    assert (r = r2) as <-.
    { assert (Some r = Some r2) as [= ->]; [|done].
      rewrite <- (find_unique rr_id (fun x => rr_id x =? rr_id r) (records d) r);
        [|intros; apply eqb_bool_decide|apply Hd|done].
      apply (find_unique rr_id); [intros; rewrite Eid; apply eqb_bool_decide|apply Hd|done]. }
    unfold dyn_row in Hrow1, Hrow2. breflect. rewrite Hsame by congruence. done.
  - case_hyp H; [done|]. injection H as <- _. exists r. split; [|done]. unfold dyn_record. rewrite Hz'.
    cbn [fst snd records set_zones set_records]. by rewrite find_app, Hr.
Qed.

Definition all_settled (auth : DynDnsAuthRow) (d : Db) (S : string -> IpAddr -> Prop) : Prop :=
  forall host ip, S host ip -> settled auth d host ip.

(** One address per family. *)
Definition one_per_family (ips : list IpAddr) : Prop :=
  forall i j, i ∈ ips -> j ∈ ips -> dyn_type i = dyn_type j -> i = j.

Lemma set_address_settles auth ts host ip ttl d d' u S :
  dns_ok d -> all_settled auth d S -> (forall h i, S h i -> dyn_type ip = dyn_type i -> ip = i) ->
  dyndns_set_address ts host ip (da_view_id auth) ttl d = (d', Ok u) ->
  dns_ok d' /\ zone_keys d' = zone_keys d /\
  all_settled auth d' (fun h i => S h i \/ (dyn_zone d host <> None /\ h = host /\ i = ip)).
Proof.
  intros Hd HS Hsame H. split_and!.
  - pose proof (dyndns_set_address_ok ts host ip (da_view_id auth) ttl d Hd) as Hp. by rewrite H in Hp.
  - rewrite dyndns_eq in H by done. repeat case_hyp H; simplify_eq; try done; unfold zone_keys; cbn; apply bumped_keys.
  - intros h i [Hhi|(Hz & -> & ->)]; [apply (settled_stable auth ts d h i host ip ttl d' u); eauto|].
    assert (u <> NoZone) as Hu.
    { intros ->. rewrite dyndns_eq in H by done. repeat case_hyp H; simplify_eq. }
    by destruct (dyndns_settles _ _ _ _ _ _ _ _ Hd H Hu) as [_ ?].
Qed.

Section Loops.
Context (e : WebEnv) (auth : DynDnsAuthRow) (d0 : Db) (ips : list IpAddr) (Hips : one_per_family ips).

Definition loop_inv (S : string -> IpAddr -> Prop) (a : AppState) : Prop :=
  dns_ok (ap_db a) /\ zone_keys (ap_db a) = zone_keys d0 /\ (forall h i, S h i -> i ∈ ips) /\
  all_settled auth (ap_db a) S.

Lemma addr_loop host l S acc a a' acc' :
  (forall i, i ∈ l -> i ∈ ips) -> loop_inv S a ->
  wfold (set_host_addr e auth host) l acc a = (a', Ok acc') ->
  loop_inv (fun h i => S h i \/ (dyn_zone d0 host <> None /\ h = host /\ i ∈ l)) a'.
Proof.
  revert S acc a. induction l as [|ip l IH]; intros S acc a Hl (Hd & Hk & Hin & HS) H.
  { injection H as <- _. split_and!; try done; intros h i [?|(_ & _ & Hi)]; eauto; by apply not_elem_of_nil in Hi. }
  cbn in H. apply wbind_inv in H as (a1 & acc1 & H1 & H2). destruct acc as [c z].
  unfold set_host_addr in H1. apply wbind_inv in H1 as (a2 & u & H1 & [= <- _]).
  unfold map_err, run in H1. destruct (dyndns_set_address _ _ _ _ _ _) as [d' [u'|err]] eqn:Eu; [|done].
  injection H1 as <- <-.
  apply (set_address_settles _ _ _ _ _ _ _ _ S) in Eu as (Hd' & Hk' & HS'); try done.
  2:{ intros h i Hhi. apply Hips; [apply Hl; left|by eapply Hin]. }
  apply (IH (fun h i => S h i \/ (dyn_zone d0 host <> None /\ h = host /\ i = ip))) in H2.
  - destruct H2 as (? & ? & Hin2 & HS2). split_and!; try done.
    + intros h i [Hhi|(? & -> & Hi)]; [eauto|]. apply elem_of_cons in Hi as [->|Hi]; apply Hl; [left|by right].
    + intros h i [Hhi|(? & -> & Hi)]; apply HS2; [auto|]. apply elem_of_cons in Hi as [->|Hi]; auto 10.
  - intros i Hi. apply Hl. by right.
  - split_and!; try done.
    + cbn. congruence.
    + intros h i [Hhi|(_ & _ & ->)]; [eauto|]. apply Hl. left.
    + intros h i Hhi. apply HS'. by rewrite (dyn_zone_keys _ d0 host Hk).
Qed.

Lemma host_loop label hosts S acc a a' acc' :
  loop_inv S a -> wfold (update_host e auth ips label) hosts acc a = (a', Ok acc') ->
  loop_inv (fun h i => S h i \/ (h ∈ hosts /\ h ∈ da_hostnames auth /\ dyn_zone d0 h <> None /\ i ∈ ips)) a'.
Proof.
  revert S acc a. induction hosts as [|host hosts IH]; intros S acc a HI H.
  { injection H as <- _. destruct HI as (? & ? & ? & HS).
    split_and!; try done; intros h i [?|(Hh & _)]; eauto; by apply not_elem_of_nil in Hh. }
  cbn in H. apply wbind_inv in H as (a1 & acc1 & H1 & H2).
  assert (loop_inv (fun h i => S h i \/ (dyn_zone d0 host <> None /\ host ∈ da_hostnames auth /\ h = host /\ i ∈ ips)) a1)
    as HI1.
  { unfold update_host in H1. destruct acc as [lines any]. case_bool_decide as Eh; cbn [negb] in H1.
    - apply wbind_inv in H1 as (a2 & r & H1 & H3). apply (addr_loop host ips S) in H1; [|auto|done].
      destruct r as [ch hz]. injection H3 as -> _. destruct H1 as (? & ? & Hin & HS).
      split_and!; try done; intros h i [?|(? & ? & ? & ?)]; [by apply (Hin h); left|done|by apply HS; left|by apply HS; right].
    - injection H1 as <- _. destruct HI as (? & ? & Hin & HS).
      split_and!; try done; intros h i [?|(? & ? & ?)]; eauto; done. }
  apply (IH _ _ _ HI1) in H2 as (? & ? & Hin & HS). split_and!; try done.
  - intros h i [?|(? & ? & ? & ?)]; [|done]. apply (Hin h). by left; left.
  - intros h i Hhi. apply HS. destruct Hhi as [?|(Hh & ? & ? & ?)]; [auto|].
    apply elem_of_cons in Hh as [->|Hh]; auto 10.
Qed.
End Loops.

(** The loops stop early only on a database error. *)
Lemma host_loop_err e auth ips label hosts acc a a' r :
  wfold (update_host e auth ips label) hosts acc a = (a', Err r) -> r = text 500 "911".
Proof.
  assert (forall host l acc a a' r, wfold (set_host_addr e auth host) l acc a = (a', Err r) -> r = text 500 "911") as Hin.
  { intros host l. induction l as [|ip l IH]; intros [c z] b b' r' H; [done|]. cbn [wfold] in H. unfold wbind in H at 1.
    destruct (set_host_addr e auth host (c, z) ip b) as [b1 [acc1|r1]] eqn:E1; [by eapply IH|].
    injection H as _ ->. unfold set_host_addr, wbind, map_err, wret in E1.
    destruct (run _ b) as [b2 [u|err]]; [done|]. by injection E1 as _ <-. }
  revert acc a. induction hosts as [|host hosts IH]; intros [lines any_change] a H; [done|].
  cbn [wfold] in H. unfold wbind in H at 1.
  destruct (update_host e auth ips label (lines, any_change) host a) as [a1 [acc1|r1]] eqn:E1; [by eapply IH|].
  injection H as _ ->. unfold update_host in E1. destruct (negb _); [done|]. unfold wbind in E1.
  destruct (wfold _ ips _ a) as [a2 [[c z]|r2]] eqn:E2; [done|]. injection E1 as _ ->. by eapply Hin.
Qed.

Lemma update_addrs_families params peer : one_per_family (update_addrs params peer).
Proof.
  assert (forall l acc, (forall i, fst acc = Some i -> is_ipv4 i = true) -> (forall i, snd acc = Some i -> is_ipv4 i = false) ->
    let r := fold_left take_addr l acc in
    (forall i, fst r = Some i -> is_ipv4 i = true) /\ (forall i, snd r = Some i -> is_ipv4 i = false)) as Htok.
  { induction l as [|tok l IH]; intros [v4 v6] H4 H6; [done|]. apply IH; cbn in *;
      destruct (parse_ip (trim tok)) as [[?|?]|], v4, v6; cbn; intros j Hj; simplify_eq; eauto. }
  assert (forall ks acc, (forall i, fst acc = Some i -> is_ipv4 i = true) -> (forall i, snd acc = Some i -> is_ipv4 i = false) ->
    let r := fold_left (take_param params) ks acc in
    (forall i, fst r = Some i -> is_ipv4 i = true) /\ (forall i, snd r = Some i -> is_ipv4 i = false)) as Hpar.
  { induction ks as [|k ks IH]; intros acc H4 H6; [done|]. cbn [fold_left]. unfold take_param at 2 4.
    destruct (params !! k); [|by apply IH]. destruct (Htok (split ","%char s) acc H4 H6). by apply IH. }
  unfold update_addrs. destruct (Hpar ["myip"; "myipv6"; "ip"] (None, None)) as [H4 H6]; [done..|].
  destruct (fold_left _ _ _) as [v4 v6]. cbn [fst snd] in *.
  assert (forall a b, (forall i, a = Some i -> is_ipv4 i = true) -> (forall i, b = Some i -> is_ipv4 i = false) ->
    one_per_family (option_list a ++ option_list b)) as Hone.
  { assert (forall (o : option IpAddr) i, i ∈ option_list o -> o = Some i) as Ho.
    { intros [x|] i Hi; [apply list_elem_of_singleton in Hi; congruence|by apply not_elem_of_nil in Hi]. }
    intros a b Ha Hb i j. rewrite !elem_of_app. unfold dyn_type.
    intros [Hi%Ho|Hi%Ho] [Hj%Ho|Hj%Ho]; [congruence| | |congruence].
    - by rewrite (Ha _ Hi), (Hb _ Hj).
    - by rewrite (Hb _ Hi), (Ha _ Hj). }
  destruct v4, v6; try (by apply Hone). destruct peer; apply Hone; intros i Hi; by simplify_eq.
Qed.

(** C17: a DynDNS token is confined to its hosts.  Without an enabled token whose
    secret the request knows, the answer is [badauth] and nothing changes.  With
    one, whatever the outcome, only address records at the token's own host names,
    in the token's view, can appear, change or disappear; besides these only the
    zones' serials and times of change and the token's own last-update fields
    differ. *)
Theorem nic_update_scope e peer h params a :
  dns_ok (ap_db a) ->
  match token_of h (ap_db a) with
  | None => nic_update e peer h params a = (a, text 401 "badauth")
  | Some auth => within auth (ap_db a) (ap_db (fst (nic_update e peer h params a)))
  end.
Proof.
  intros Hd. unfold nic_update. rewrite nic_update_steps_eq. destruct (token_of h (ap_db a)) as [auth|]; [|done].
  pose proof (within_nic e auth peer params (ap_db a) a) as H. unfold db_prop in H.
  specialize (H (within_refl auth _ Hd)). by destruct (nic_update_as e auth peer params a) as [a' [r|r]].
Qed.

(** C27: a DynDNS request that is answered 200 took effect: every host it named that
    the token owns and a local zone covers now has, in the token's view and for
    every address of the request, a record with that address. *)
Theorem nic_update_points e peer h params a a' r auth host ip :
  dns_ok (ap_db a) -> token_of h (ap_db a) = Some auth ->
  nic_update e peer h params a = (a', r) -> rp_status r = 200 ->
  (exists hs, hostname_param params = Some hs /\ host ∈ host_list hs) -> host ∈ da_hostnames auth ->
  dyn_zone (ap_db a) host <> None -> ip ∈ update_addrs params peer ->
  settled auth (ap_db a') host ip.
Proof.
  intros Hd Ht H Hst (hs & Hhs & Hhost) Hown Hz Hip. unfold nic_update in H. rewrite nic_update_steps_eq, Ht in H.
  destruct (nic_update_as e auth peer params a) as [a1 [r1|r1]] eqn:E; injection H as <- <-.
  - unfold nic_update_as in E. rewrite Hhs in E. cbn [or_throw] in E. unfold wbind at 1, wret at 1 in E.
    destruct (is_nil (host_list hs)); [done|]. apply wbind_inv in E as (a2 & [lines any] & E1 & E2).
    apply (host_loop e auth (ap_db a) _ (update_addrs_families params peer) _ _ (fun _ _ => False)) in E1;
      [|refine (conj Hd (conj eq_refl (conj _ _))); by intros ? ? []].
    destruct E1 as (_ & _ & _ & HS). destruct (HS host ip) as (rr & Hrr & Hdata); [auto 10|].
    apply wbind_inv in E2 as (a3 & [] & E2 & E3). apply wbind_inv in E3 as (a4 & o & E3 & [= <- _]).
    assert (ap_db a3 = ap_db a2) as Ha3 by (destruct any; by injection E2 as <-).
    unfold attempt, touch_dyndns_token in E3. rewrite run_modify in E3. injection E3 as <- _.
    exists rr. split; [|done]. rewrite <- Hrr, <- Ha3. done.
  - unfold nic_update_as in E. rewrite Hhs in E. cbn [or_throw] in E. unfold wbind at 1, wret at 1 in E.
    destruct (is_nil (host_list hs)) eqn:En.
    + by destruct (host_list hs); [apply not_elem_of_nil in Hhost|].
    + unfold wbind at 1 in E. destruct (wfold _ _ _ a) as [a2 [[lines any]|r2]] eqn:Ew.
      * by destruct any.
      * injection E as <- <-. exfalso.
        assert (r2 = text 500 "911") as -> by by eapply host_loop_err. done.
Qed.
End DynDns.
