(* ===== verification/Transfer.v ===== *)
(** * TSIG keys, the zone-transfer client and secondary zones
    ([src/dns/tsig.rs], [axfr.rs], [secondary.rs])

    [Primaries] is the network a secondary talks to, with hickory's encoding of a
    query and decoding of a response: the datagram that answers a SOA query, and
    the bytes of a transfer connection up to where it is closed or a read times
    out.  The messages are cut out of the bytes by their lengths. *)

From S2P Require Import Prelude Strs Net External Models Db DbDns DbFilter DbDhcp DbAdmin Filter Upstream Cache Stats.
From S2P Require Import Mdns Dnssec Store State Config Web.

Definition MAX_RECORDS : Z := 2000000.

Section Transfer.
Context `{NETS : IpNets} `{HN : HickoryNames} `{TEXT : !HickoryText} `{SIGN : !Signers} `{RES : !HickoryResolvers}.
Context `{DT : DateTimes} `{CR : Credentials} `{TS : !TSigners}.

(** ** TSIG *)

Definition tsig_algorithm (s : string) : option TsigAlgorithm :=
  let s := to_ascii_lowercase (trim s) in
  if bool_decide (s = "hmac-sha1") then Some HmacSha1
  else if bool_decide (s = "hmac-sha256") || bool_decide (s = "hmac-sha-256") then Some HmacSha256
  else if bool_decide (s = "hmac-sha512") || bool_decide (s = "hmac-sha-512") then Some HmacSha512
  else None.

Inductive TsigError : Type := UnsupportedAlgorithm | InvalidSecret | InvalidKeyName | SignerFailed | UnknownKey | BadSignature.

Definition build_signer (key : TsigKey) : result TSigner TsigError :=
  let? algo := ok_or (tsig_algorithm (tk_algorithm key)) UnsupportedAlgorithm in
  let? secret := ok_or (base64_decode (trim (tk_secret key))) InvalidSecret in
  let? name := ok_or (Name_from_utf8 (tk_name key)) InvalidKeyName in
  ok_or (tsigner_new secret algo (set_fqdn name)) SignerFailed.

Definition key_norm (name : string) : string := to_ascii_lowercase (trim_end_matches "."%char name).

(** The name of the key the signature verifies with. *)
Definition verify_request (keys : list TsigKey) (now : Z) (request_bytes : list Z) (tsig_name : Name)
    : result string TsigError :=
  let key_name_norm := key_norm (Name_to_string tsig_name) in
  let? key := ok_or (List.find (fun k => bool_decide (key_norm (tk_name k) = key_name_norm)) keys) UnknownKey in
  let? signer := build_signer key in
  if verify_message signer now request_bytes then Ok (tk_name key) else Err BadSignature.

(** [AppState::tsig_signer]. *)
Definition tsig_signer (a : AppState) (key_name : string) : option TSigner :=
  List.find (fun k => bool_decide (tk_name k = key_name)) (st_tsig_keys (ap_settings a)) ≫= fun k =>
  ok (build_signer k).

(** ** The client *)

Record Primaries : Type := mkPrimaries {
  (** [encode] of a query with a fresh id: signed if there is a key *)
  pr_encode : Name -> RecordType -> option TSigner -> option (list Z);
  (** the answers of [Message::from_vec] *)
  pr_answers : list Z -> option (list DRecord);
  (** the datagram that comes back to a socket bound to the address *)
  pr_udp : string -> SocketAddr -> list Z -> option (list Z);
  (** the bytes that come back for the ones written to a connection *)
  pr_tcp : SocketAddr -> list Z -> option (list Z) }.

Inductive TransferError : Type :=
| InvalidPrimary | InvalidZone | NetworkError | NoSoaAnswer | NotSoaFirst | TooManyRecords | NoSoa
| Stored (e : AppError).

Definition is_soa (r : DRecord) : bool := bool_decide (rec_type r = SOA).

Definition bind_addr (primary : SocketAddr) : string := match primary with SockV4 _ _ => "0.0.0.0:0" | SockV6 _ _ _ => "[::]:0" end.

(** The size of the buffer a response is received in; what does not fit is lost. *)
Definition RESPONSE_BUFFER : nat := 4096.

(** The first SOA's serial. *)
Definition soa_serial (net : Primaries) (primary : SocketAddr) (zone : Name) (signer : option TSigner)
    : result Z TransferError :=
  let? buf := ok_or (pr_encode net zone SOA signer) NetworkError in
  let? resp := ok_or (pr_udp net (bind_addr primary) primary buf) NetworkError in
  let? answers := ok_or (pr_answers net (take RESPONSE_BUFFER resp)) NetworkError in
  ok_or (head (omap (fun r => match rec_data r with RD_SOA s => Some (External.soa_serial s) | _ => None end) answers))
    NoSoaAnswer.

(** A message on a TCP connection: its length, cut to 16 bits, and its bytes. *)
Definition write_frame (buf : list Z) : list Z :=
  to_be 2 (as_u16 (Z.of_nat (length buf))) ++ buf.
(** [read_u16] and [read_exact]. *)
Definition read_frame (stream : list Z) : option (list Z * list Z) :=
  match stream with
  | a :: b :: rest =>
      let len := Z.to_nat (from_be [a; b]) in
      if (len <=? length rest)%nat then Some (take len rest, drop len rest) else None
  | _ => None
  end.

(** The answers of the messages of a stream, up to the first that is cut off or does
    not decode.  A message takes two bytes at least. *)
Fixpoint read_messages (answers_of : list Z -> option (list DRecord)) (fuel : nat) (stream : list Z)
    : list (list DRecord) :=
  match fuel with
  | O => []
  | S fuel =>
      match read_frame stream with
      | Some (mbuf, rest) =>
          match answers_of mbuf with
          | Some answers => answers :: read_messages answers_of fuel rest
          | None => []
          end
      | None => []
      end
  end.
Definition messages (answers_of : list Z -> option (list DRecord)) (stream : list Z) : list (list DRecord) :=
  read_messages answers_of (length stream) stream.

(** The read loop: the records, or why it stopped, and the messages not read. *)
Fixpoint axfr_loop (msgs : list (list DRecord)) (records : list DRecord)
    : result (list DRecord) TransferError * list (list DRecord) :=
  match msgs with
  | [] => (Err NetworkError, [])
  | answers :: rest =>
      if is_nil records && negb (match answers with r :: _ => is_soa r | [] => false end)
      then (Err NotSoaFirst, rest)
      else
        let records := records ++ answers in
        if MAX_RECORDS <? Z.of_nat (length records) then (Err TooManyRecords, rest)
        else if (2 <=? Z.of_nat (length records)) && match last records with Some r => is_soa r | None => false end
        then (Ok records, rest)
        else axfr_loop rest records
  end.

Definition axfr_transfer (net : Primaries) (primary : SocketAddr) (zone : Name) (signer : option TSigner)
    : result (list DRecord) TransferError :=
  let? buf := ok_or (pr_encode net zone AXFR signer) NetworkError in
  let? stream := ok_or (pr_tcp net primary (write_frame buf)) NetworkError in
  fst (axfr_loop (messages (pr_answers net) stream) []).

(** ** Secondary zones *)

Definition parse_primary (addr : string) : result SocketAddr TransferError :=
  match parse_socket_addr addr with
  | Some sa => Ok sa
  | None =>
      let? ip := ok_or (parse_ip addr) InvalidPrimary in
      Ok (match ip with V4 a => SockV4 a 53 | V6 a => SockV6 a 53 0 end)
  end.

(** The owner as it is stored: relative to the zone. *)
Definition relative_owner (zone_lc : string) (name : Name) : string :=
  let f := to_ascii_lowercase (trim_end_matches "."%char (Name_to_string name)) in
  if bool_decide (f = zone_lc) then "@"
  else match strip_suffix ("." +:+ zone_lc) f with
       | Some rel => rel
       | None => f
       end.

Definition soa_model (s : SOAData) : Soa :=
  mkSoa (Name_to_string (soa_mname s)) (Name_to_string (External.soa_rname s))
    (soa_refresh s) (soa_retry s) (soa_expire s) (soa_minimum s).

(** The loop over the transferred records: the first SOA, and the rows to store. *)
Definition take_record (zone_lc : string) (acc : option (Soa * Z) * list (string * string * Z * string)) (rec : DRecord)
    : option (Soa * Z) * list (string * string * Z * string) :=
  let '(soa, tuples) := acc in
  match rec_data rec with
  | RD_SOA s => (match soa with None => Some (soa_model s, External.soa_serial s) | Some _ => soa end, tuples)
  | _ =>
      let rtype := RecordType_to_string (rec_type rec) in
      if negb (bool_decide (rtype ∈ SUPPORTED_RECORD_TYPES)) then acc
      else (soa, tuples ++ [(relative_owner zone_lc (rec_name rec), rtype, rec_ttl rec, RData_to_string (rec_data rec))])
  end.

Definition stored {X} (m : W X) : Step TransferError X := map_err Stored m.

Definition transfer (e : WebEnv) (net : Primaries) (zone_id : Z) (zone_name : string) (primary : SocketAddr)
    (tsig_key : option string) : Step TransferError nat :=
  let+ origin := or_throw (Name_from_utf8 (zone_name +:+ ".")) InvalidZone in
  let+ signer := reads (fun a => tsig_key ≫= tsig_signer a) in
  let+ records := lift (axfr_transfer net primary origin signer) in
  let zone_lc := to_ascii_lowercase (trim_end_matches "."%char zone_name) in
  let '(soa, tuples) := fold_left (take_record zone_lc) records (None, []) in
  let+ ss := or_throw soa NoSoa in
  let refresh := Z.max (so_refresh (fst ss)) 60 in
  let+ count := stored (run (replace_secondary_zone (we_ts e) zone_id (fst ss) (snd ss) tuples)) in
  stored (run (set_secondary_status (we_ts e) zone_id None (Some refresh))) >>>
  updates reload_store >>>
  wret count.

(** ** The refresh loop *)

(** [(now - t).whole_seconds()]; a text that does not parse is long ago. *)
Definition elapsed_secs (e : WebEnv) (ts : string) : Z :=
  match datetime_parse ts with
  | Some t => Z.quot (we_clock e - t) NANOS
  | None => i64_max
  end.

Definition is_due (e : WebEnv) (sec : SecondaryZone) : bool :=
  match sz_last_check sec with
  | None => true
  | Some ts => sz_refresh_secs sec <=? elapsed_secs e ts
  end.

Section Poll.
(** The texts of the errors. *)
Context (error_text : TransferError -> string).

Definition record_error {E} (e : WebEnv) (zone_id : Z) (err : TransferError) : Step E unit :=
  attempt (run (set_secondary_status (we_ts e) zone_id (Some (error_text err)) None)) >>> wret tt.

(** The body of the loop over the secondary zones. *)
Definition poll_one {E} (e : WebEnv) (net : Primaries) (sec : SecondaryZone) : Step E unit :=
  if negb (is_due e sec) then wret tt
  else match parse_primary (sz_primary_addr sec) with
  | Err err => record_error e (sz_zone_id sec) err
  | Ok primary =>
      match Name_from_utf8 (sz_name sec +:+ ".") with
      | None => wret tt
      | Some origin =>
          let+ signer := reads (fun a => sz_tsig_key sec ≫= tsig_signer a) in
          match soa_serial net primary origin signer with
          | Ok remote_serial =>
              if negb (remote_serial =? sz_serial sec) then
                fun a => match transfer e net (sz_zone_id sec) (sz_name sec) primary (sz_tsig_key sec) a with
                         | (a', Ok _) => (a', Ok tt)
                         | (a', Err err) => record_error e (sz_zone_id sec) err a'
                         end
              else attempt (run (set_secondary_status (we_ts e) (sz_zone_id sec) None None)) >>> wret tt
          | Err err => record_error e (sz_zone_id sec) err
          end
      end
  end.

(** One turn of [poll_loop]. *)
Definition poll_tick (e : WebEnv) (net : Primaries) (a : AppState) : AppState :=
  match attempt (E := AppError) (run list_secondaries) a with
  | (a', Ok (Some secondaries)) =>
      fst (wfold (E := AppError) (fun _ sec => poll_one e net sec) secondaries tt a')
  | (a', _) => a'
  end.
End Poll.

(** ** Lemmas: the frames of a stream *)

Lemma read_write_frame buf rest :
  Z.of_nat (length buf) <= u16_max -> read_frame (write_frame buf ++ rest) = Some (buf, rest).
Proof.
  intros Hb. unfold read_frame, write_frame. pose proof (from_to_be 2 (as_u16 (Z.of_nat (length buf)))) as E.
  cbn [to_be app] in *. rewrite E. unfold as_u16. change (256 ^ Z.of_nat 2) with 65536.
  rewrite !Z.mod_small by (unfold u16_max in *; rewrite ?Z.mod_small; lia).
  rewrite Nat2Z.id, length_app. destruct (Nat.leb_spec (length buf) (length buf + length rest)); [|lia].
  by rewrite take_app_length, drop_app_length.
Qed.

Lemma read_frame_shorter stream mbuf rest : read_frame stream = Some (mbuf, rest) -> (length rest + 2 <= length stream)%nat.
Proof.
  unfold read_frame. destruct stream as [|a [|b stream]]; [done..|]. case_goal; [|done]. intros [= _ <-].
  rewrite length_drop. cbn. lia.
Qed.

(** More fuel than bytes changes nothing. *)
Lemma read_messages_fuel answers_of n m stream :
  (length stream <= n)%nat -> (length stream <= m)%nat ->
  read_messages answers_of n stream = read_messages answers_of m stream.
Proof.
  revert m stream. induction n as [|n IH]; intros [|m] stream Hn Hm; [done| | |].
  1-2: by destruct stream; [|cbn in *; lia].
  cbn [read_messages]. destruct (read_frame stream) as [[mbuf rest]|] eqn:E; [|done].
  destruct (answers_of mbuf); [|done]. f_equal. apply read_frame_shorter in E. apply IH; lia.
Qed.

(** The messages a primary writes are the ones that are read, whatever follows the
    last of them, as long as it is no message. *)
Lemma messages_frames answers_of bufs msgs tail :
  Forall2 (fun buf m => Z.of_nat (length buf) <= u16_max /\ answers_of buf = Some m) bufs msgs ->
  (forall mbuf rest, read_frame tail = Some (mbuf, rest) -> answers_of mbuf = None) ->
  messages answers_of (concat (write_frame <$> bufs) ++ tail) = msgs.
Proof.
  intros H Ht. unfold messages. induction H as [|buf m bufs msgs [Hb Hm] _ IH]; cbn [fmap list_fmap concat app].
  - destruct (length tail); [done|]. cbn [read_messages]. destruct (read_frame tail) as [[mbuf rest]|] eqn:E; [|done].
    by rewrite (Ht mbuf rest).
  - rewrite <- app_assoc. set (stream := concat (write_frame <$> bufs) ++ tail) in *.
    destruct (length (write_frame buf ++ stream)) as [|fuel] eqn:El; [done|].
    assert (length stream <= fuel)%nat as Hf by (rewrite length_app in El; cbn in El; lia).
    cbn [read_messages]. rewrite read_write_frame, Hm by done. f_equal. rewrite <- IH. by apply read_messages_fuel.
Qed.

(** ** Lemmas: the read loop *)

Lemma is_soa_data r : is_soa r = true -> (exists s, rec_data r = RD_SOA s) \/ exists d, rec_data r = RD_Other SOA d.
Proof.
  unfold is_soa, rec_type. intros H. breflect. destruct (rec_data r); cbn in H; try done; [eauto|]. subst. eauto.
Qed.

(** What the loop has read, and what it returns. *)
Lemma axfr_loop_spec msgs records :
  Z.of_nat (length records) <= MAX_RECORDS ->
  (match records with r :: _ => is_soa r = true | [] => True end) ->
  let '(res, rest) := axfr_loop msgs records in
  exists read, msgs = read ++ rest /\
    (Forall (fun m => m <> []) read -> Z.of_nat (length records) + Z.of_nat (length read) <= MAX_RECORDS + 1) /\
    forall out, res = Ok out ->
      out = records ++ concat read /\ 2 <= Z.of_nat (length out) <= MAX_RECORDS /\
      (exists r, head out = Some r /\ is_soa r = true) /\ exists r, last out = Some r /\ is_soa r = true.
Proof.
  revert records. induction msgs as [|m msgs IH]; intros records Hl Hh; cbn [axfr_loop].
  { exists []. split_and!; [done|cbn; lia|done]. }
  destruct (is_nil records && _) eqn:E1.
  { exists [m]. split; [done|]. split; [|done]. intros _. cbn. destruct records; cbn in *; unfold MAX_RECORDS; lia. }
  assert (match records ++ m with r :: _ => is_soa r = true | [] => records = [] /\ m = [] end) as Hh'.
  { destruct records as [|r rs]; [|done]. destruct m as [|r m]; [done|]. cbn in *. by apply negb_false_iff in E1. }
  destruct (Z.ltb_spec MAX_RECORDS (Z.of_nat (length (records ++ m)))) as [H2|H2].
  { exists [m]. split; [done|]. split; [|done]. intros _. cbn. lia. }
  destruct ((2 <=? _) && _) eqn:E3.
  - exists [m]. split; [done|]. split; [cbn; lia|]. intros out [= <-]. cbn [concat]. rewrite app_nil_r.
    breflect. destruct (last (records ++ m)) as [rl|] eqn:El; [|done]. split_and!; try done; [|eauto].
    destruct (records ++ m) as [|r rs] eqn:Er; [done|]. exists r. done.
  - assert (match records ++ m with r :: _ => is_soa r = true | [] => True end) as Hh2 by by destruct (records ++ m).
    pose proof (IH (records ++ m) H2 Hh2) as H. revert H. destruct (axfr_loop msgs (records ++ m)) as [res rest].
    intros (read & -> & Hb & Hok).
    exists (m :: read). split; [done|]. split.
    + intros Hne. inversion Hne as [|? ? Hm Hread]; subst. specialize (Hb Hread). rewrite length_app in Hb.
      destruct m; [done|]. cbn [length] in *. lia.
    + intros out Ho. cbn [concat]. rewrite app_assoc. by apply Hok.
Qed.

(** C35: the read loop of a transfer against a primary whose messages carry records.
    While every message the loop reads has at least one record, it reads at most one
    message more than the two million records it accepts; and when it succeeds, it
    returns everything it has read: between two and two million records, the first
    and the last of them SOA records.  Empty messages after the first are read
    without a bound ([axfr_drip]). *)
Theorem axfr_bounded msgs :
  let '(res, rest) := axfr_loop msgs [] in
  exists read, msgs = read ++ rest /\
    (Forall (fun m => m <> []) read -> Z.of_nat (length read) <= MAX_RECORDS + 1) /\
    forall out, res = Ok out ->
      out = concat read /\ 2 <= Z.of_nat (length out) <= MAX_RECORDS /\
      (exists r, head out = Some r /\ is_soa r = true) /\ exists r, last out = Some r /\ is_soa r = true.
Proof.
  assert (Z.of_nat (length (@nil DRecord)) <= MAX_RECORDS) as Hz by done.
  pose proof (axfr_loop_spec msgs [] Hz I) as H. revert H. destruct (axfr_loop msgs []) as [res rest].
  intros (read & Hm & Hb & Hok). exists read. split_and!; [done| |done].
  intros Hne. specialize (Hb Hne). cbn in Hb. lia.
Qed.

(** A transfer over the wire: what a primary writes in frames, records in [msgs], is
    what the loop reads. *)
Lemma axfr_transfer_frames net primary zone signer buf bufs msgs tail :
  pr_encode net zone AXFR signer = Some buf ->
  pr_tcp net primary (write_frame buf) = Some (concat (write_frame <$> bufs) ++ tail) ->
  Forall2 (fun buf m => Z.of_nat (length buf) <= u16_max /\ pr_answers net buf = Some m) bufs msgs ->
  (forall mbuf rest, read_frame tail = Some (mbuf, rest) -> pr_answers net mbuf = None) ->
  axfr_transfer net primary zone signer = fst (axfr_loop msgs []).
Proof. intros Hb Ht Hm Htail. unfold axfr_transfer. rewrite Hb. cbn [ok_or]. rewrite Ht. cbn [ok_or]. by rewrite (messages_frames _ bufs msgs). Qed.

(** Messages without records are not counted: a primary that opens with its SOA and
    goes on with empty messages keeps the transfer reading for as long as it sends. *)
Theorem axfr_drip soa n :
  is_soa soa = true -> axfr_loop ([soa] :: replicate n []) [] = (Err NetworkError, []).
Proof.
  intros Hs. cbn [axfr_loop is_nil andb]. rewrite Hs. cbn [negb app length].
  change (MAX_RECORDS <? Z.of_nat 1) with false. change (2 <=? Z.of_nat 1) with false. cbn [andb].
  induction n as [|n IH]; [done|]. cbn [replicate axfr_loop is_nil andb app].
  change (MAX_RECORDS <? Z.of_nat (length [soa])) with false. change (2 <=? Z.of_nat (length [soa])) with false.
  exact IH.
Qed.

(** ** Lemmas: what a transfer stores *)

Definition zone_lower (zone_name : string) : string := to_ascii_lowercase (trim_end_matches "."%char zone_name).

(** The rows of the records of supported types, in order. *)
Definition record_tuple (zone_lc : string) (rec : DRecord) : option (string * string * Z * string) :=
  match rec_data rec with
  | RD_SOA _ => None
  | _ =>
      let rtype := RecordType_to_string (rec_type rec) in
      if bool_decide (rtype ∈ SUPPORTED_RECORD_TYPES)
      then Some (relative_owner zone_lc (rec_name rec), rtype, rec_ttl rec, RData_to_string (rec_data rec))
      else None
  end.
Definition soa_of (rec : DRecord) : option SOAData := match rec_data rec with RD_SOA s => Some s | _ => None end.

Lemma take_records zone_lc records soa tuples :
  fold_left (take_record zone_lc) records (soa, tuples) =
  (match soa with Some _ => soa | None => (fun s => (soa_model s, External.soa_serial s)) <$> head (omap soa_of records) end,
   tuples ++ omap (record_tuple zone_lc) records).
Proof.
  revert soa tuples. induction records as [|rec records IH]; intros soa tuples.
  { cbn. rewrite app_nil_r. by destruct soa. }
  cbn [fold_left omap list_omap]. unfold take_record at 2, soa_of, record_tuple.
  destruct (rec_data rec); try (
    match goal with |- context [bool_decide ?P] => destruct (bool_decide P) eqn:Eb end; cbn [negb];
    rewrite IH, <- ?app_assoc; done).
  rewrite IH. by destruct soa.
Qed.

Lemma set_secondary_status_eq ts zid err refresh d :
  exists S, set_secondary_status ts zid err refresh d = (set_secondary_zones S d, Ok tt) /\
    sy_zone_id <$> S = sy_zone_id <$> secondary_zones d.
Proof.
  unfold set_secondary_status, bind, modify, when_some. destruct refresh as [v|].
  - eexists. split; [reflexivity|]. cbn [secondary_zones set_secondary_zones]. by rewrite !map_update_where.
  - eexists. split; [reflexivity|]. by rewrite map_update_where.
Qed.

Lemma transfer_inv e net zid zname primary key a a' n :
  transfer e net zid zname primary key a = (a', Ok n) ->
  exists origin records s, Name_from_utf8 (zname +:+ ".") = Some origin /\
    axfr_transfer net primary origin (key ≫= tsig_signer a) = Ok records /\
    head (omap soa_of records) = Some s /\
    exists d1 S, replace_secondary_zone (we_ts e) zid (soa_model s) (External.soa_serial s)
        (omap (record_tuple (zone_lower zname)) records) (ap_db a) = (d1, Ok n) /\
      ap_db a' = set_secondary_zones S d1 /\ ap_store a' = build_from (ap_db a').
Proof.
  unfold transfer. destruct (Name_from_utf8 _) as [origin|]; [|done]. cbn [or_throw]. unfold wbind at 1, wret at 1.
  intros G. apply wbind_inv in G as (a1 & signer & [= <- <-] & G). unfold wbind at 1, lift in G.
  destruct (axfr_transfer _ _ _ _) as [records|] eqn:Er; [|done]. fold (zone_lower zname) in G.
  rewrite take_records in G. cbn [app] in G. destruct (head (omap soa_of records)) as [s|] eqn:Es; [|done].
  cbn [fmap option_fmap option_map or_throw] in G. unfold wbind at 1, wret at 1 in G. cbn [fst snd] in G.
  apply wbind_inv in G as (a2 & count & G1 & G). unfold stored, map_err, run in G1.
  destruct (replace_secondary_zone _ _ _ _ _ _) as [d1 [c|]] eqn:Ed; [|done]. injection G1 as <- <-.
  apply wbind_inv in G as (a3 & [] & G2 & G). unfold stored, map_err, run in G2. cbn [ap_db with_db] in G2.
  destruct (set_secondary_status_eq (we_ts e) zid None (Some (Z.max (so_refresh (soa_model s)) 60)) d1) as (S & ES & _).
  rewrite ES in G2. injection G2 as <-.
  apply wbind_inv in G as (a4 & [] & [= <-] & [= <- <-]).
  exists origin, records, s. split_and!; try done. exists d1, S. done.
Qed.

(** C24: a successful transfer makes the secondary zone a copy of what the primary
    sent: the zone takes the SOA and serial of the first SOA record, its records
    are exactly the transferred ones of supported types, in order and in no view,
    the rows of every other zone stay, and the store is rebuilt from the result. *)
Theorem transfer_installs e net zid zname primary key a a' n :
  zone_exists (ap_db a) zid = true -> transfer e net zid zname primary key a = (a', Ok n) ->
  exists origin recs s new, Name_from_utf8 (zname +:+ ".") = Some origin /\
    axfr_transfer net primary origin (key ≫= tsig_signer a) = Ok recs /\
    head (omap soa_of recs) = Some s /\
    zones (ap_db a') = update_where (fun z => zr_id z =? zid) (fun z => mkZoneRow (zr_id z) (zr_name z) (zr_enabled z)
      (soa_model s) (zr_default_ttl z) (External.soa_serial s) (zr_created_at z) (we_ts e)) (zones (ap_db a)) /\
    records (ap_db a') = delete_where (fun r => rr_zone_id r =? zid) (records (ap_db a)) ++ new /\
    Forall2 (imported_row zid) (omap (record_tuple (zone_lower zname)) recs) new /\ n = length new /\
    ap_store a' = build_from (ap_db a').
Proof.
  intros Hz H. apply transfer_inv in H as (origin & recs & s & Ho & Hr & Hs & d1 & S & Hd & Ha & Hst).
  destruct (replace_secondary_zone_eq (we_ts e) zid (soa_model s) (External.soa_serial s)
    (omap (record_tuple (zone_lower zname)) recs) (ap_db a) Hz) as (new & E & Hnew).
  rewrite E in Hd. injection Hd as <- <-. exists origin, recs, s, new.
  rewrite Ha in *. split_and!; try done. by apply Forall2_length in Hnew.
Qed.

(** ** Lemmas: the refresh loop touches secondary zones only *)

Definition is_secondary (d : Db) (zid : Z) : Prop := zid ∈ sy_zone_id <$> secondary_zones d.

(** [d] and [d0] agree on every zone that is not a secondary. *)
Record primary_same (d0 d : Db) : Prop := {
  ps_secondaries : sy_zone_id <$> secondary_zones d = sy_zone_id <$> secondary_zones d0;
  ps_records : forall r, ~ is_secondary d0 (rr_zone_id r) -> In r (records d) <-> In r (records d0);
  ps_zones : forall z, ~ is_secondary d0 (zr_id z) -> In z (zones d) <-> In z (zones d0);
  ps_tables : exists R Z S, d = set_records R (set_zones Z (set_secondary_zones S d0)) }.

Lemma primary_same_refl d : primary_same d d.
Proof. split; try done. exists (records d), (zones d), (secondary_zones d). by destruct d. Qed.

Lemma primary_same_status d0 ts zid err refresh : preserves (primary_same d0) (set_secondary_status ts zid err refresh).
Proof.
  intros d [H1 H2 H3 (R & Z & S & E)]. destruct (set_secondary_status_eq ts zid err refresh d) as (S' & -> & HS).
  split; cbn; [congruence|done|done|]. exists R, Z, S'. by rewrite E.
Qed.

Lemma in_update_other (zid : Z) (f : ZoneRow -> ZoneRow) zs z :
  (forall r, zr_id (f r) = zr_id r) -> zr_id z <> zid ->
  In z (update_where (fun r => zr_id r =? zid) f zs) <-> In z zs.
Proof.
  intros Hf Hz. rewrite in_update_where. split.
  - intros (y & Hy & ->). destruct (Z.eqb_spec (zr_id y) zid) as [Ey|]; [|done]. by rewrite Hf in Hz.
  - intros Hin. exists z. split; [done|]. by destruct (Z.eqb_spec (zr_id z) zid).
Qed.

Lemma insert_imported_unknown ts zid t rs d :
  zone_exists d zid = false -> insert_imported ts zid (t :: rs) d = (d, Err ForeignKeyViolation).
Proof.
  intros Hz. destruct t as [[[? ?] ?] ?]. unfold insert_imported. cbn [for_each]. unfold bind, insert_record.
  by rewrite Hz.
Qed.

Lemma primary_same_replace d0 ts zid soa serial rs :
  is_secondary d0 zid -> preserves (primary_same d0) (replace_secondary_zone ts zid soa serial rs).
Proof.
  intros Hsec d [H1 H2 H3 (R & Z & S & E)].
  set (zs := update_where (fun z => zr_id z =? zid) (fun z => mkZoneRow (zr_id z) (zr_name z) (zr_enabled z) soa
          (zr_default_ttl z) serial (zr_created_at z) ts) (zones d)).
  assert (forall new, Forall (fun r => rr_zone_id r = zid) new -> primary_same d0
    (set_records (delete_where (fun r => rr_zone_id r =? zid) (records d) ++ new) (set_zones zs d))) as Hrep.
  { intros new Hnew. split; cbn; [done| | |by eexists _, _, S; rewrite E].
    - intros r Hr. rewrite in_app_iff, in_delete_where, <- H2 by done. split.
      + intros [[? _]|Hin]; [done|]. rewrite List.Forall_forall in Hnew. rewrite (Hnew r Hin) in Hr. done.
      + intros Hin. left. split; [done|]. apply Z.eqb_neq. intros <-. done.
    - intros z Hz. rewrite <- H3 by done. apply in_update_other; [done|]. intros <-. done. }
  destruct (zone_exists d zid) eqn:Hz.
  - destruct (replace_secondary_zone_eq ts zid soa serial rs d Hz) as (new & -> & Hnew). cbn [fst]. apply Hrep.
    clear -Hnew. induction Hnew as [|? ? ? ? [? _] _ IH]; by constructor.
  - unfold replace_secondary_zone, transaction, bind, update_zone_row, modify. fold zs.
    match goal with |- context [insert_imported ts zid rs ?d1] => set (d2 := d1) end.
    assert (zone_exists d2 zid = false) as Hz2.
    { unfold zone_exists, d2, zs. cbn. apply existsb_false. intros z Hin. apply in_update_where in Hin as (y & Hy & ->).
      unfold zone_exists in Hz. rewrite existsb_false in Hz. specialize (Hz y Hy). by rewrite Hz. }
    destruct rs as [|t rs]; [|by rewrite insert_imported_unknown; [split; eauto|]]. cbn.
    pose proof (Hrep [] (Forall_nil_2 _)) as Hn. rewrite app_nil_r in Hn. exact Hn.
Qed.

Lemma primary_same_transfer d0 e net zid zname primary key :
  is_secondary d0 zid -> keeps (db_prop (primary_same d0)) (transfer e net zid zname primary key).
Proof.
  intros Hs. unfold transfer, stored. keep.
  - by apply primary_same_replace.
  - apply primary_same_status.
  - by apply keeps_updates.
Qed.

Lemma primary_same_poll {E} text d0 e net sec :
  is_secondary d0 (sz_zone_id sec) -> keeps (db_prop (primary_same d0)) (poll_one (E := E) text e net sec).
Proof.
  intros Hs. unfold poll_one, record_error. keep; try apply primary_same_status.
  intros b Hb. pose proof (primary_same_transfer d0 e net _ (sz_name sec) a (sz_tsig_key sec) Hs b Hb) as Ht.
  destruct (transfer _ _ _ _ _ _ b) as [a' [count|err]]; [done|]. cbn in Ht |- *.
  unfold record_error. revert a' Ht.
  change (keeps (db_prop (primary_same d0)) (attempt (E := E) (run (set_secondary_status (we_ts e) (sz_zone_id sec)
    (Some (text err)) None)) >>> wret tt)). keep. apply primary_same_status.
Qed.

Lemma list_secondaries_ids d sec : (exists l, snd (list_secondaries d) = Ok l /\ In sec l) -> is_secondary d (sz_zone_id sec).
Proof.
  intros (l & [= <-] & Hin). apply in_sort_with in Hin. apply list_elem_of_In, list_elem_of_omap in Hin as (s & Hs & E).
  destruct (List.find _ _); [|done]. injection E as <-. apply list_elem_of_fmap. eauto.
Qed.

(** refreshing secondary zones never touches a zone this server is the primary
    of: whatever the primaries answer, the rows of every other zone and all other
    tables stay as they are. *)
Theorem poll_only_secondaries text e net a : primary_same (ap_db a) (ap_db (poll_tick text e net a)).
Proof.
  unfold poll_tick, attempt. unfold list_secondaries at 1. rewrite run_query. 
  set (secs := sort_with _ _). assert (forall sec, In sec secs -> is_secondary (ap_db a) (sz_zone_id sec)) as Hsec.
  { intros sec Hin. apply list_secondaries_ids. exists secs. done. }
  revert Hsec. generalize secs. clear secs. intros secs Hsec.
  assert (forall b, db_prop (primary_same (ap_db a)) b ->
    db_prop (primary_same (ap_db a)) (fst (wfold (E := AppError) (fun _ sec => poll_one text e net sec) secs tt b))) as H.
  { induction secs as [|sec secs IH]; intros b Hb; [done|]. cbn [wfold]. unfold wbind.
    pose proof (primary_same_poll (E := AppError) text (ap_db a) e net sec (Hsec sec (or_introl eq_refl)) b Hb) as H1.
    destruct (poll_one text e net sec b) as [b' [[]|err]]; [|done]. apply IH; [|done].
    intros s Hs. apply Hsec. by right. }
  apply H. apply primary_same_refl.
Qed.

(** A secondary whose TSIG key is not configured, or does not build, transfers
    without a signature, as one that names no key. *)
Theorem transfer_unsigned e net zid zname primary key a :
  tsig_signer a key = None ->
  transfer e net zid zname primary (Some key) a = transfer e net zid zname primary None a.
Proof.
  intros Hk. unfold transfer. destruct (Name_from_utf8 _); [|done]. cbn [or_throw]. unfold wbind at 1, wret at 1.
  unfold wbind at 1, reads at 1. cbn. by rewrite Hk.
Qed.
End Transfer.
