(* ===== verification/ApiZones.v ===== *)
(** * Web API: views, zones, records, secondaries and DNSSEC ([src/web/api.rs])

    A handler is the body after its extractors: the path parameter and the
    decoded request are arguments.  A handler named [api_x] is [api::x].  The
    texts of errors quote hickory's, so they are a class ([ErrorTexts]). *)

From S2P Require Import Prelude Strs Net External Models Db DbDns DbFilter DbDhcp DbAdmin Filter Upstream Cache Stats.
From S2P Require Import Mdns Dnssec Store State Config Web Transfer.

Definition tab : string := String (chr 9) "".
Definition newline : string := String (chr 10) "".

(** ** Validation *)

Definition valid_view_name (name : string) : bool :=
  negb (is_empty name) && (len name <=? 40) &&
  str_forall (fun c => is_ascii_alphanumeric c || bool_decide (c = "_"%char) || bool_decide (c = "-"%char)) name.

(** Country and continent codes in upper case, without blanks. *)
Definition upper_codes (codes : list string) : list string :=
  List.filter (fun c => negb (is_empty c)) ((fun c => to_ascii_uppercase (trim c)) <$> codes).

Record ViewCreate : Type := mkViewCreate {
  vc_name : string; vc_networks : list string; vc_priority : Z; vc_countries : list string;
  vc_continents : list string; vc_asns : list Z }.
Record ViewUpdate : Type := mkViewUpdate {
  vu_name : option string; vu_networks : option (list string); vu_priority : option Z;
  vu_countries : option (list string); vu_continents : option (list string); vu_asns : option (list Z) }.
Record ZoneCreate : Type := mkZoneCreate { zc_name : string; zc_default_ttl : option Z; zc_soa : option Soa }.
Record ZoneUpdate : Type := mkZoneUpdate { zu_enabled : option bool; zu_default_ttl : option Z; zu_soa : option Soa }.
Record SecondaryCreate : Type := mkSecondaryCreate {
  sec_name : string; sec_primary : string; sec_tsig_key : option string }.
Record ZoneImport : Type := mkZoneImport { zi_zonefile : string; zi_replace : bool }.
Record RecordCreate : Type := mkRecordCreate {
  rc_name : string; rc_rtype : string; rc_data : string; rc_ttl : option Z; rc_view_id : option Z }.
(** serde reads a JSON null of an [Option<Option<_>>] as the outer [None]. *)
Record RecordUpdate : Type := mkRecordUpdate {
  ru_name : option string; ru_data : option string; ru_ttl : option (option Z); ru_view_id : option (option Z);
  ru_enabled : option bool }.

Section ApiZones.
Context `{NETS : IpNets} `{HN : HickoryNames} `{TEXT : !HickoryText} `{SIGN : !Signers} `{RES : !HickoryResolvers}.
Context `{DT : DateTimes} `{CR : Credentials} `{TS : !TSigners} `{TOOLS : !DnssecTools} `{ZF : !ZoneFiles}.

Class ErrorTexts := {
  (** the text of an error on these inputs *)
  model_text : list string -> ModelError -> string;
  (** hickory's text for a text that is no name *)
  name_text : string -> string;
  (** what a failed transfer reports of its cause *)
  transfer_text : TransferError -> string;
}.
Context `{ERR : !ErrorTexts}.

(** [.map_err(|e| validation_field(field, &e))?]. *)
Definition checked {X} (field : string) (inputs : list string) (r : result X ModelError) : W X :=
  lift (match r with Ok x => Ok x | Err e => Err (validation_field field (model_text inputs e)) end).

(** [s.parse::<IpNet>().map_err(...)?]. *)
Definition check_network (field n : string) : result unit AppError :=
  match parse_ipnet n with Some _ => Ok tt | None => Err (validation_field field ("invalid CIDR: " +:+ n)) end.
Definition validate_networks (networks : list string) : result unit AppError :=
  check_all (check_network "networks") networks.

(** [.ok_or_else(|| AppError::not_found(...))?] after a lookup. *)
Definition found {X} (m : M (option X)) (what : string) : W X :=
  let+ o := run m in or_throw o (not_found (what +:+ " not found")).

(** ** Views *)

Definition bad_view_name : AppError := validation_field "name" "1-40 chars, alphanumeric/_/- only".

Definition api_list_views : W Response :=
  let+ views := run list_views in
  wret (ok_json (JObj [("views", JArr ((fun v => JData (PView v)) <$> views))])).

Definition api_create_view (e : WebEnv) (req : ViewCreate) : W Response :=
  reject (negb (valid_view_name (vc_name req))) as bad_view_name otherwise
  lift (validate_networks (vc_networks req)) >>>
  let+ id := run (create_view (we_ts e) (vc_name req) (vc_networks req) (vc_priority req)
                    (upper_codes (vc_countries req)) (upper_codes (vc_continents req)) (vc_asns req)) in
  updates reload_store >>>
  let+ v := run (view id) in
  wret (created_json (JObj [("view", JOpt (fun v => JData (PView v)) v)])).

Definition api_update_view (id : Z) (req : ViewUpdate) : W Response :=
  let+ existing := found (view id) "view" in
  reject (match vu_name req with Some name => negb (valid_view_name name) | None => false end) as bad_view_name otherwise
  (match vu_networks req with
   | Some nets =>
       reject (vw_is_default existing) as (conflict "cannot change networks of the default view") otherwise
       lift (validate_networks nets)
   | None => wret tt
   end) >>>
  run (update_view id (vu_name req) (vu_networks req) (vu_priority req) (upper_codes <$> vu_countries req)
         (upper_codes <$> vu_continents req) (vu_asns req)) >>>
  updates reload_store >>>
  let+ v := run (view id) in
  wret (ok_json (JObj [("view", JOpt (fun v => JData (PView v)) v)])).

Definition api_delete_view (id : Z) : W Response :=
  let+ v := found (view id) "view" in
  reject (vw_is_default v) as (conflict "cannot delete the default view") otherwise
  run (delete_view id) >>>
  updates reload_store >>>
  wret no_content.

(** ** Zones *)

Definition zone_json (z : option Zone) : Json := JObj [("zone", JOpt (fun z => JData (PZone z)) z)].

Definition api_list_zones : W Response :=
  let+ zones := run list_zones in
  wret (ok_json (JObj [("zones", JArr ((fun z => JData (PZone z)) <$> zones))])).

(** The closure: the zone, then its apex NS record. *)
Definition create_zone_with_ns (ts name : string) (soa : Soa) (ttl : Z) : M Z :=
  let* id := create_zone ts name soa ttl in
  create_record ts id None "@" "NS" None (so_primary_ns soa) ;;;
  ret id.

Definition api_create_zone (e : WebEnv) (req : ZoneCreate) : W Response :=
  let+ name := checked "name" [zc_name req] (canonical_zone_name (zc_name req)) in
  let ttl := default 300 (zc_default_ttl req) in
  let soa := default (Soa_default_for name) (zc_soa req) in
  let+ zone_id := run (create_zone_with_ns (we_ts e) name soa ttl) in
  updates reload_store >>>
  let+ z := run (zone zone_id) in
  wret (created_json (zone_json z)).

Definition api_get_zone (id : Z) : W Response :=
  let+ z := found (zone id) "zone" in
  let+ records := run (list_records id) in
  wret (ok_json (JObj [("zone", JData (PZone z)); ("records", JArr ((fun r => JData (PRecord r)) <$> records))])).

Definition api_update_zone (e : WebEnv) (id : Z) (req : ZoneUpdate) : W Response :=
  let+ _z := found (zone id) "zone" in
  run (update_zone (we_ts e) id (zu_enabled req) (zu_soa req) (zu_default_ttl req)) >>>
  updates reload_store >>>
  let+ z := run (zone id) in
  wret (ok_json (zone_json z)).

Definition api_delete_zone (id : Z) : W Response :=
  run (delete_zone id) >>>
  updates reload_store >>>
  wret no_content.

Definition export_record (r : DnsRecord) : string :=
  if bool_decide (dr_rtype r = "SOA") then ""
  else
    let owner := if bool_decide (dr_name r = "@") || is_empty (dr_name r) then "@" else dr_name r in
    let ttl := match dr_ttl r with Some t => show_u t | None => "" end in
    let view_comment := match dr_view_id r with Some v => tab +:+ "; view " +:+ show_i v | None => "" end in
    let enabled := if dr_enabled r then "" else "; (disabled) " in
    enabled +:+ owner +:+ tab +:+ ttl +:+ tab +:+ "IN" +:+ tab +:+ dr_rtype r +:+ tab +:+ dr_data r +:+ view_comment
      +:+ newline.

Definition export_header (z : Zone) : string :=
  let line (n : Z) (what : string) := tab +:+ tab +:+ show_u n +:+ " ; " +:+ what +:+ newline in
  "$ORIGIN " +:+ zn_name z +:+ "." +:+ newline +:+
  "$TTL " +:+ show_u (zn_default_ttl z) +:+ newline +:+
  "@" +:+ tab +:+ "IN" +:+ tab +:+ "SOA" +:+ tab +:+ so_primary_ns (zn_soa z) +:+ " " +:+ so_admin_email (zn_soa z)
    +:+ " (" +:+ newline +:+
  line (zn_serial z) "serial" +:+ line (so_refresh (zn_soa z)) "refresh" +:+ line (so_retry (zn_soa z)) "retry" +:+
  line (so_expire (zn_soa z)) "expire" +:+ line (so_minimum (zn_soa z)) "minimum" +:+ tab +:+ tab +:+ ")" +:+ newline.

Definition api_export_zone (id : Z) : W Response :=
  let+ z := found (zone id) "zone" in
  let+ records := run (list_records id) in
  wret (mkFullResponse 200 (Text (export_header z +:+ concat_str (export_record <$> records))) []
          [("content-type", "text/plain; charset=utf-8")]).

(** ** Secondary zones *)

Definition api_list_secondaries : W Response :=
  let+ items := run list_secondaries in
  wret (ok_json (JObj [("secondary_zones", JArr ((fun z => JData (PSecondary z)) <$> items))])).

Definition create_secondary_zone (ts name : string) (soa : Soa) (primary : string) (tsig : option string) : M Z :=
  let* id := create_zone ts name soa 300 in
  create_secondary ts id primary 3600 tsig ;;;
  ret id.

(** The initial transfer; its error is kept in the row. *)
Definition first_transfer (e : WebEnv) (net : Primaries) (zone_id : Z) (name : string) (primary : SocketAddr)
    (tsig_key : option string) : W unit := fun a =>
  match transfer e net zone_id name primary tsig_key a with
  | (a', Ok _) => (a', Ok tt)
  | (a', Err err) => record_error transfer_text e zone_id err a'
  end.

Definition api_create_secondary (e : WebEnv) (net : Primaries) (req : SecondaryCreate) : W Response :=
  let+ name := checked "name" [sec_name req] (canonical_zone_name (sec_name req)) in
  let+ primary := lift (match parse_primary (trim (sec_primary req)) with
                        | Ok p => Ok p
                        | Err err => Err (validation_field "primary" (transfer_text err))
                        end) in
  let+ zone_id := run (create_secondary_zone (we_ts e) name (Soa_default_for name) (show_socket_addr primary)
                         (sec_tsig_key req)) in
  first_transfer e net zone_id name primary (sec_tsig_key req) >>>
  let+ z := run (zone zone_id) in
  wret (created_json (zone_json z)).

Definition api_refresh_secondary (e : WebEnv) (net : Primaries) (id : Z) : W Response :=
  let+ z := found (zone id) "zone" in
  let+ primary := or_throw (zn_primary_addr z) (conflict "not a secondary zone") in
  let+ primary := lift (match parse_primary primary with
                        | Ok p => Ok p
                        | Err err => Err (internal (transfer_text err))
                        end) in
  let+ tsig_key := run (secondary id) in
  map_err (fun err => AppError_new 502 "transfer_failed" (transfer_text err))
    (transfer e net id (zn_name z) primary tsig_key) >>>
  let+ z := run (zone id) in
  wret (ok_json (zone_json z)).

(** ** Zone files *)

(** The loop over the parsed records: the rows, and how many were skipped. *)
Definition import_record (zone_lc : string) (acc : list (string * string * Z * string) * Z) (rec : DRecord)
    : list (string * string * Z * string) * Z :=
  let '(out, skipped) := acc in
  let rtype := RecordType_to_string (rec_type rec) in
  if negb (bool_decide (rtype ∈ SUPPORTED_RECORD_TYPES)) then (out, skipped + 1)
  else (out ++ [(relative_owner zone_lc (rec_name rec), rtype, rec_ttl rec, RData_to_string (rec_data rec))], skipped).

Definition parse_zonefile (text : string) (origin : Name) (zone : string)
    : result (list (string * string * Z * string) * Z) string :=
  match zone_parser text origin with
  | inr err => Err ("parse error: " +:+ err)
  | inl recs =>
      let zone_lc := to_ascii_lowercase (trim_end_matches "."%char zone) in
      Ok (fold_left (import_record zone_lc) recs ([], 0))
  end.

Definition secondary_managed : AppError := conflict "zone is a secondary; its records are managed by transfer".

Definition api_import_zone (e : WebEnv) (id : Z) (req : ZoneImport) : W Response :=
  let+ z := found (zone id) "zone" in
  let+ origin := or_throw (Name_from_utf8 (zn_name z +:+ "."))
                   (validation_field "zonefile" ("bad origin: " +:+ name_text (zn_name z +:+ "."))) in
  reject (zn_is_secondary z) as secondary_managed otherwise
  let+ p := lift (match parse_zonefile (zi_zonefile req) origin (zn_name z) with
                  | Ok p => Ok p
                  | Err err => Err (validation_field "zonefile" err)
                  end) in
  let+ imported := run (import_records (we_ts e) id (zi_replace req) (fst p)) in
  updates reload_store >>>
  wret (ok_json (JObj [("imported", JNum (Z.of_nat imported)); ("skipped", JNum (snd p))])).

(** ** DNSSEC *)

Definition dnssec_status (zone_name : string) : W Response :=
  let+ apex := lift (match record_fqdn_name "@" zone_name with
                     | Ok n => Ok n
                     | Err err => Err (internal ("bad apex: " +:+ model_text [zone_name] err))
                     end) in
  let+ signer := reads (fun a => signer_for (ap_store a) apex) in
  wret (ok_json (match signer with
                 | Some s => JObj [("enabled", JBool true); ("algorithm", JStr "ECDSAP256SHA256");
                     ("key_tag", JNum (key_tag s)); ("dnskey", JStr (dnskey_text s)); ("ds", JOpt JStr (ds_text s));
                     ("nsec3", JBool (uses_nsec3 s))]
                 | None => JObj [("enabled", JBool false)]
                 end)).

Definition api_get_dnssec (id : Z) : W Response :=
  let+ z := found (zone id) "zone" in
  dnssec_status (zn_name z).

(** The salt is eight random bytes; algorithm 13 is ECDSA P-256 with SHA-256. *)
Definition api_enable_dnssec (e : WebEnv) (id : Z) (nsec3 : option bool) : W Response :=
  let+ z := found (zone id) "zone" in
  reject (zn_is_secondary z) as (conflict "cannot sign a secondary zone") otherwise
  let nsec3 := default false nsec3 in
  let+ secret := or_throw (generate_secret (we_token e)) (internal "generating DNSSEC key") in
  let salt_hex := if nsec3 then Some (hex_lower (take 8 (we_salt e))) else None in
  run (create_dnssec_key (we_ts e) id 13 secret nsec3 salt_hex 0) >>>
  updates reload_store >>>
  dnssec_status (zn_name z).

Definition api_disable_dnssec (id : Z) : W Response :=
  run (delete_dnssec_key id) >>>
  updates reload_store >>>
  wret no_content.

(** ** Records *)

Definition record_json (r : option DnsRecord) : Json := JObj [("record", JOpt (fun r => JData (PRecord r)) r)].

Definition api_list_records (id : Z) : W Response :=
  let+ records := run (list_records id) in
  wret (ok_json (JObj [("records", JArr ((fun r => JData (PRecord r)) <$> records))])).

(** [if let Some(vid) = view_id { if view(vid).is_none() { ... } }]. *)
Definition require_view (view_id : option Z) : W unit :=
  match view_id with
  | Some vid =>
      let+ v := run (view vid) in
      match v with None => throw (validation_field "view_id" "view not found") | Some _ => wret tt end
  | None => wret tt
  end.

Definition api_create_record (e : WebEnv) (zone_id : Z) (req : RecordCreate) : W Response :=
  let+ z := found (zone zone_id) "zone" in
  reject (zn_is_secondary z) as secondary_managed otherwise
  let+ rtype := checked "type" [rc_rtype req] (parse_record_type (rc_rtype req)) in
  let+ _d := checked "data" [rc_data req; zn_name z] (parse_rdata rtype (rc_data req) (zn_name z)) in
  let+ _n := checked "name" [rc_name req; zn_name z] (record_fqdn_name (rc_name req) (zn_name z)) in
  require_view (rc_view_id req) >>>
  let+ id := run (create_record (we_ts e) zone_id (rc_view_id req) (trim (rc_name req))
                    (to_ascii_uppercase (trim (rc_rtype req))) (rc_ttl req) (trim (rc_data req))) in
  updates reload_store >>>
  let+ r := run (record id) in
  wret (created_json (record_json r)).

Definition api_update_record (e : WebEnv) (id : Z) (req : RecordUpdate) : W Response :=
  let+ existing := found (record id) "record" in
  let+ z := found (zone (dr_zone_id existing)) "zone" in
  let+ rtype := checked "type" [dr_rtype existing] (parse_record_type (dr_rtype existing)) in
  (match ru_data req with
   | Some data => let+ _d := checked "data" [data; zn_name z] (parse_rdata rtype data (zn_name z)) in wret tt
   | None => wret tt
   end) >>>
  (match ru_name req with
   | Some name => let+ _n := checked "name" [name; zn_name z] (record_fqdn_name name (zn_name z)) in wret tt
   | None => wret tt
   end) >>>
  require_view (default None (ru_view_id req)) >>>
  run (update_record (we_ts e) id (ru_view_id req) (trim <$> ru_name req) (ru_ttl req) (trim <$> ru_data req)
         (ru_enabled req)) >>>
  updates reload_store >>>
  let+ r := run (record id) in
  wret (ok_json (record_json r)).

Definition api_delete_record (e : WebEnv) (id : Z) : W Response :=
  run (delete_record (we_ts e) id) >>>
  updates reload_store >>>
  wret no_content.

(** ** Lemmas: what the API accepts is served *)

(** The text stored for a type reads back as the type. *)
Lemma stored_type_text s t :
  parse_record_type s = Ok t -> parse_record_type (to_ascii_uppercase (trim s)) = Ok t.
Proof.
  unfold parse_record_type. set (up := to_ascii_uppercase (trim s)).
  destruct (bool_decide (up ∈ SUPPORTED_RECORD_TYPES)) eqn:E; [|done]. cbn [negb]. breflect.
  assert (to_ascii_uppercase (trim up) = up) as ->; [|by rewrite bool_decide_eq_true_2; [destruct (RecordType_from_str up)|]].
  clear -E. unfold SUPPORTED_RECORD_TYPES in E. repeat (apply elem_of_cons in E as [->|E]; [reflexivity|]).
  by apply not_elem_of_nil in E.
Qed.

Lemma created_row ts zid vid name rtype ttl data d d' id :
  create_record ts zid vid name rtype ttl data d = (d', Ok id) ->
  zone_exists d zid = true /\ zones d' = bumped ts zid (zones d) /\
  records d' = records d ++ [mkRecordRow id zid vid name rtype ttl data true ts ts].
Proof.
  unfold create_record, bind, insert_record. destruct (zone_exists d zid); [|done]. destruct (view_exists d vid); [|done].
  cbn. intros [= <- <-]. done.
Qed.

Lemma find_bumped ts zid zs :
  List.find (fun z => zr_id z =? zid) (bumped ts zid zs) =
  (fun z => mkZoneRow (zr_id z) (zr_name z) (zr_enabled z) (zr_soa z) (zr_default_ttl z) (zr_serial z + 1)
     (zr_created_at z) ts) <$> List.find (fun z => zr_id z =? zid) zs.
Proof.
  unfold bumped. induction zs as [|z zs IH]; [done|]. cbn. destruct (zr_id z =? zid) eqn:E; cbn; rewrite E; [done|].
  exact IH.
Qed.

(** A row of an enabled zone that parses is in the store. *)
Lemma row_served d zr r rtype rdata owner apex :
  dns_ok d -> In zr (zones d) -> zr_enabled zr = true -> record_fqdn_name "@" (zr_name zr) = Ok apex ->
  In r (records d) -> rr_zone_id r = zr_id zr -> rr_enabled r = true ->
  parse_record_type (rr_rtype r) = Ok rtype -> parse_rdata rtype (rr_data r) (zr_name zr) = Ok rdata ->
  record_fqdn_name (rr_name r) (zr_name zr) = Ok owner ->
  exists sz, In sz (zs_zones (build_from d)) /\ sd_apex sz = apex /\
    In (mkStoredRecord rtype (default (as_u32 (zr_default_ttl zr)) (as_u32 <$> rr_ttl r)) (rr_view_id r) rdata)
      (default [] (sd_records sz !! name_key owner)).
Proof.
  intros Hd Hz He Ha Hr Hzr Hre Ht Hdt Ho.
  destruct (load_zone d (into_zone d zr)) as [sz|] eqn:El; cycle 1.
  { unfold load_zone in El. cbn [into_zone zn_enabled zn_name] in El. by rewrite He, Ha in El. }
  exists sz. assert (sd_apex sz = apex /\ forall k, default [] (sd_records sz !! k) = snd <$> List.filter
    (fun e => bool_decide (fst e = k)) (omap (record_entry (into_zone d zr))
      (match snd (list_records (zr_id zr) d) with Ok rs => rs | Err _ => [] end))) as [Hap Hrec].
  { unfold load_zone in El. cbn [into_zone zn_enabled zn_name zn_id] in El. rewrite He, Ha in El. cbn [negb] in El.
    injection El as <-. split; [done|]. intros k. cbn [sd_records]. rewrite load_records_spec. by rewrite lookup_empty. }
  split_and!; [|done|].
  - unfold build_from, list_zones, query. cbn [snd zs_zones]. rewrite <- list_elem_of_In, sort_by_key_perm.
    apply list_elem_of_omap. exists (into_zone d zr). split; [|done]. rewrite list_elem_of_In, in_sort_with.
    apply in_map_iff. by exists zr.
  - rewrite Hrec. apply in_map_iff. eexists (name_key owner, _). split; [reflexivity|]. apply filter_In.
    split; [|by apply bool_decide_eq_true]. apply list_elem_of_In, list_elem_of_omap. exists (record_from r (zr_name zr)). split.
    + unfold list_records, bind, zone_name_of, query.
      rewrite (find_unique zr_id (fun z => zr_id z =? zr_id zr) (zones d) zr);
        [|intros; apply eqb_bool_decide|apply Hd|done]. cbn [snd]. apply list_elem_of_fmap. exists r. split; [done|].
      rewrite list_elem_of_In, in_sort_with. apply filter_In. split; [done|]. by apply Z.eqb_eq.
    + unfold record_entry, record_from. cbn [dr_enabled dr_rtype dr_data dr_name dr_ttl dr_view_id into_zone zn_name zn_default_ttl].
      rewrite Hre, Ht. cbn [negb ok]. rewrite Hdt. cbn [ok]. by rewrite Ho.
Qed.

(** C26: a record the API creates in an enabled zone whose name parses is served.  If
    the name and the data of the request have no blanks around them, then whenever
    the handler succeeds it answers [201], and the store the resolver reads has, at
    the record's owner in the zone, the parsed data with the requested TTL (or the
    zone's default) and view. *)
Theorem created_record_served e zid req a a' r z apex :
  dns_ok (ap_db a) -> zone zid (ap_db a) = (ap_db a, Ok (Some z)) -> zn_enabled z = true ->
  record_fqdn_name "@" (zn_name z) = Ok apex -> trim (rc_name req) = rc_name req -> trim (rc_data req) = rc_data req ->
  api_create_record e zid req a = (a', Ok r) ->
  exists rtype rdata owner sz, rp_status r = 201 /\
    parse_record_type (rc_rtype req) = Ok rtype /\ parse_rdata rtype (rc_data req) (zn_name z) = Ok rdata /\
    record_fqdn_name (rc_name req) (zn_name z) = Ok owner /\
    In sz (zs_zones (ap_store a')) /\ sd_apex sz = apex /\
    In (mkStoredRecord rtype (default (zn_default_ttl z) (as_u32 <$> rc_ttl req)) (rc_view_id req) rdata)
      (default [] (sd_records sz !! name_key owner)).
Proof.
  intros Hd Hz He Ha Hn Hdata H. unfold api_create_record in H. apply wbind_inv in H as (a1 & z1 & H1 & H).
  unfold found in H1. apply wbind_inv in H1 as (a2 & o & H1 & H2). unfold run in H1. rewrite Hz, with_db_id in H1.
  injection H1 as <- <-. injection H2 as <- <-. destruct (zn_is_secondary z); [done|].
  apply wbind_inv in H as (a2 & rtype & H1 & H). unfold checked, lift in H1.
  destruct (parse_record_type (rc_rtype req)) as [rtype'|] eqn:Et; [|done]. injection H1 as <- <-.
  apply wbind_inv in H as (a2 & rdata & H1 & H). unfold checked, lift in H1.
  destruct (parse_rdata _ _ _) as [rdata'|] eqn:Ed; [|done]. injection H1 as <- <-.
  apply wbind_inv in H as (a2 & owner & H1 & H). unfold checked, lift in H1.
  destruct (record_fqdn_name (rc_name req) _) as [owner'|] eqn:Eo; [|done]. injection H1 as <- <-.
  apply wbind_inv in H as (a2 & [] & H1 & H).
  assert (a2 = a) as ->.
  { unfold require_view in H1. destruct (rc_view_id req); [|by injection H1 as <-].
    apply wbind_inv in H1 as (a3 & v & H1 & H2). unfold view in H1. rewrite run_query in H1. injection H1 as <- <-.
    destruct (List.find _ _); [by injection H2 as <-|done]. }
  clear H1. apply wbind_inv in H as (a2 & id & H1 & H). unfold run in H1.
  pose proof (create_record_ok (we_ts e) zid (rc_view_id req) (trim (rc_name req)) (to_ascii_uppercase (trim (rc_rtype req)))
    (rc_ttl req) (trim (rc_data req)) (ap_db a) Hd) as Hd1.
  destruct (create_record _ _ _ _ _ _ _ _) as [d1 [id'|]] eqn:Ec; [|done]. injection H1 as <- <-. cbn [fst] in Hd1.
  apply created_row in Ec as (Hze & Hz1 & Hr1). apply wbind_inv in H as (a2 & [] & [= <-] & H).
  apply wbind_inv in H as (a2 & rec & H1 & [= <- <-]).
  assert (ap_store a2 = build_from d1) as ->.
  { unfold run in H1. destruct (record _ _) as [d2 [x|]]; [|done]. by injection H1 as <- _. }
  unfold zone, query in Hz. injection Hz as Hz. destruct (List.find _ (zones (ap_db a))) as [zr|] eqn:Ef; [|done].
  injection Hz as <-. pose proof (find_bumped (we_ts e) zid (zones (ap_db a))) as Ef1. rewrite Ef, <- Hz1 in Ef1.
  apply List.find_some in Ef1 as [Hin1 Hid1]. apply List.find_some in Ef as [Hin Hid]. breflect.
  destruct (row_served d1 _ (mkRecordRow id' zid (rc_view_id req) (trim (rc_name req)) (to_ascii_uppercase (trim (rc_rtype req)))
    (rc_ttl req) (trim (rc_data req)) true (we_ts e) (we_ts e)) rtype' rdata' owner' apex Hd1 Hin1) as (sz & S1 & S2 & S3).
  - done.
  - done.
  - rewrite Hr1. apply in_or_app. right. by left.
  - by cbn in *.
  - done.
  - by apply stored_type_text.
  - cbn. by rewrite Hdata.
  - cbn. by rewrite Hn.
  - exists rtype', rdata', owner', sz. done.
Qed.
End ApiZones.
