(* ===== verification/ApiFilter.v ===== *)
(** * Web API: settings, blocklists, rules, rewrites and conditional forwarders ([src/web/api.rs])

    Handlers as in [ApiZones].  The text behind a URL is [we_fetch]. *)

From S2P Require Import Prelude Strs Net External Models Db DbDns DbFilter DbDhcp DbAdmin Filter Upstream Cache Stats.
From S2P Require Import Mdns Dnssec Store State Config Web Transfer ApiZones.

(** ** Requests *)

Record SettingsUpdate : Type := mkSettingsUpdate {
  su_forwarders : option (list Forwarder); su_resolution_mode : option ResolutionMode; su_block_mode : option
  BlockMode; su_blocking_enabled : option bool; su_query_log : option QueryLog; su_homograph_protection : option
  HomographMode; su_cache_size : option Z; su_cache_min_ttl : option Z; su_cache_max_ttl : option Z;
  su_dnssec_validate_upstream : option bool; su_allow_axfr_from : option (list string); su_tsig_keys : option
  (list TsigKey); su_axfr_require_tsig : option bool; su_load_balance : option LoadBalance; su_blocked_asns :
  option (list Z); su_mdns_enabled : option bool; su_mdns_zone : option string; su_mdns_ttl : option Z;
  su_mdns_publish_public : option bool; su_dns_listen : option (list string); su_dot_listen : option (list
  string); su_doh_listen : option (list string); su_doq_listen : option (list string); su_doh3_listen : option
  (list string); su_doh_path : option string; su_tcp_timeout_secs : option Z; su_tls_hostname : option string;
  su_tls_acme : option bool; su_tls_acme_domains : option (list string); su_tls_acme_contact : option string;
  su_tls_acme_staging : option bool; su_tls_cert_path : option string; su_tls_key_path : option string;
  su_tls_auto_self_signed : option bool; su_geoip_db : option string; su_asn_db : option string;
  su_web_allow_networks : option (list string); su_blocklist_refresh_hours : option Z }.
Record BlocklistCreate : Type := mkBlocklistCreate {
  bc_name : string; bc_url : string; bc_format : BlocklistFormat; bc_refresh_now : bool }.
Record BlocklistUpdate : Type := mkBlocklistUpdate { bu_name : option string; bu_enabled : option bool }.
Record BlockRuleCreate : Type := mkBlockRuleCreate {
  brc_domain : string; brc_action : RuleAction; brc_comment : option string }.
Record RewriteCreate : Type := mkRewriteCreate {
  rwc_domain : string; rwc_target : string; rwc_comment : option string }.
Record RewriteUpdate : Type := mkRewriteUpdate {
  rwu_domain : option string; rwu_target : option string; rwu_enabled : option bool }.
Record ConditionalCreate : Type := mkConditionalCreate { cc_domain : string; cc_forwarders : list Forwarder }.
Record ConditionalUpdate : Type := mkConditionalUpdate {
  cu_forwarders : option (list Forwarder); cu_enabled : option bool }.

(** The curated lists: name, URL, format, category, description. *)
Definition BLOCKLIST_CATALOG : list (string * string * string * string * string) :=
  [
   ("StevenBlack (unified)", "https://raw.githubusercontent.com/StevenBlack/hosts/master/hosts",
    "hosts", "ads + tracking", "Popular unified hosts: ads + malware base list.");
   ("Hagezi Light", "https://raw.githubusercontent.com/hagezi/dns-blocklists/main/hosts/light.txt",
    "hosts", "ads + tracking", "Smallest Hagezi list — minimal breakage, low-end friendly.");
   ("Hagezi Multi PRO", "https://raw.githubusercontent.com/hagezi/dns-blocklists/main/hosts/pro.txt",
    "hosts", "ads + tracking", "Balanced, well-maintained ad/tracker/affiliate blocklist.");
   ("Hagezi Pro++", "https://raw.githubusercontent.com/hagezi/dns-blocklists/main/hosts/pro.plus.txt",
    "hosts", "ads + tracking", "Aggressive Hagezi list with extra tracking/telemetry.");
   ("Hagezi Ultimate", "https://raw.githubusercontent.com/hagezi/dns-blocklists/main/hosts/ultimate.txt",
    "hosts", "ads + tracking", "Maximum-coverage Hagezi list (expect some breakage).");
   ("1Hosts (Lite)", "https://raw.githubusercontent.com/badmojr/1Hosts/master/Lite/hosts.txt",
    "hosts", "ads + tracking", "Lightweight, low-false-positive ad/tracker list.");
   ("1Hosts (Pro)", "https://raw.githubusercontent.com/badmojr/1Hosts/master/Pro/hosts.txt",
    "hosts", "ads + tracking", "Aggressive 1Hosts variant.");
   ("OISD (small)", "https://small.oisd.nl/domains",
    "domains", "ads + tracking", "Curated meta-list focused on low breakage.");
   ("OISD (big)", "https://big.oisd.nl/domains",
    "domains", "ads + tracking", "Large OISD meta-list combining many sources.");
   ("AdAway", "https://adaway.org/hosts.txt",
    "hosts", "ads + tracking", "Mobile ad hosts (AdAway default list).");
   ("Peter Lowe's list", "https://pgl.yoyo.org/adservers/serverlist.php?hostformat=hosts&showintro=0&mimetype=plaintext",
    "hosts", "ads + tracking", "Long-running ad/tracking server list.");
   ("Dan Pollock (someonewhocares)", "https://someonewhocares.org/hosts/zero/hosts",
    "hosts", "ads + tracking", "Classic curated hosts file.");
   ("Frogeye first-party trackers", "https://hostfiles.frogeye.fr/firstparty-trackers-hosts.txt",
    "hosts", "tracking", "First-party (CNAME-cloaked) tracker hosts.");
   ("Hagezi TIF", "https://raw.githubusercontent.com/hagezi/dns-blocklists/main/hosts/tif.txt",
    "hosts", "malware + phishing", "Hagezi Threat Intelligence Feed: malware, phishing, scams.");
   ("URLhaus malware", "https://urlhaus.abuse.ch/downloads/hostfile/",
    "hosts", "malware", "abuse.ch malware/payload distribution hosts.");
   ("Phishing Army (extended)", "https://phishing.army/download/phishing_army_blocklist_extended.txt",
    "domains", "phishing", "Phishing domains, extended edition.");
   ("DigitalSide threat-intel", "https://osint.digitalside.it/Threat-Intel/lists/latestdomains.txt",
    "domains", "malware", "Recently-seen malware/threat domains (OSINT).");
   ("WindowsSpyBlocker", "https://raw.githubusercontent.com/crazy-max/WindowsSpyBlocker/master/data/hosts/spy.txt",
    "hosts", "telemetry", "Windows telemetry / spying hosts.");
   ("NoCoin (cryptominers)", "https://raw.githubusercontent.com/hoshsadiq/adblock-nocoin-list/master/hosts.txt",
    "hosts", "cryptominers", "Block in-browser cryptocurrency miners.");
   ("OISD NSFW", "https://nsfw.oisd.nl/domains",
    "domains", "adult", "Adult / NSFW domains (optional family filter).")].

Definition api_blocklist_catalog : Response :=
  ok_json (JObj [("catalog", JArr ((fun '(name, url, format, category, description) =>
    JObj [("name", JStr name); ("url", JStr url); ("format", JStr format); ("category", JStr category);
          ("description", JStr description)]) <$> BLOCKLIST_CATALOG))]).

Section ApiFilter.
Context `{NETS : IpNets} `{HN : HickoryNames} `{TEXT : !HickoryText} `{SIGN : !Signers} `{RES : !HickoryResolvers}.
Context `{DT : DateTimes} `{CR : Credentials} `{TS : !TSigners}.

(** ** Validation *)

Definition normalize_domain (domain : string) : result string AppError :=
  let d := to_ascii_lowercase (trim_end_matches "."%char (trim domain)) in
  if is_empty d then Err (validation_field "domain" "must not be empty")
  else
    let check := default d (strip_prefix "*." d) in
    match Name_from_utf8 (check +:+ ".") with
    | None => Err (validation_field "domain" "invalid domain")
    | Some _ => Ok d
    end.

Definition validate_rewrite_target (target : string) : result unit AppError :=
  let t := trim target in
  match parse_ip t with
  | Some _ => Ok tt
  | None =>
      let fqdn := if ends_with t "." then t else t +:+ "." in
      match Name_from_utf8 fqdn with
      | Some _ => Ok tt
      | None => Err (validation_field "target" "must be an IP address or hostname")
      end
  end.

(** The checks on one forwarder. *)
Definition check_forwarder (f : Forwarder) : result unit AppError :=
  match parse_ip (fw_addr f) with
  | None => Err (validation_field "forwarders" ("invalid address: " +:+ fw_addr f))
  | Some _ =>
      if match fw_protocol f with Tls | Https => true | _ => false end && is_empty (default "" (fw_tls_name f))
      then Err (validation_field "forwarders" "tls/https forwarders require tls_name")
      else Ok tt
  end.

Definition validate_forwarders (forwarders : list Forwarder) : result unit AppError :=
  if is_nil forwarders then Err (validation_field "forwarders" "at least one forwarder required")
  else check_all check_forwarder forwarders.

(** The check of a field that is given. *)
Definition check_given {X} (f : X -> result unit AppError) (o : option X) : result unit AppError :=
  match o with Some x => f x | None => Ok tt end.

(** ** Settings *)

Section Settings.
Context (tsig_text : TsigError -> string).

Definition check_key (k : TsigKey) : result unit AppError :=
  match build_signer k with Ok _ => Ok tt | Err err => Err (validation_field "tsig_keys" (tsig_text err)) end.

Definition check_addr (field a : string) : result unit AppError :=
  match parse_socket_addr (trim a) with
  | Some _ => Ok tt
  | None => Err (validation_field field ("invalid address: " +:+ a))
  end.
Definition check_addrs (field : string) (v : list string) : result unit AppError := check_all (check_addr field) v.

(** The settings with the given fields replaced, each checked or normalized as it is. *)
Definition update_settings (req : SettingsUpdate) (s : Settings) : result Settings AppError :=
  let? _u := check_given (check_all check_forwarder) (su_forwarders req) in
  let? _u := check_given (check_all (check_network "allow_axfr_from")) (su_allow_axfr_from req) in
  let? _u := check_given (check_all check_key) (su_tsig_keys req) in
  let? _u := check_given (check_addrs "dns_listen") (su_dns_listen req) in
  let? _u := check_given (check_addrs "dot_listen") (su_dot_listen req) in
  let? _u := check_given (check_addrs "doh_listen") (su_doh_listen req) in
  let? _u := check_given (check_addrs "doq_listen") (su_doq_listen req) in
  let? _u := check_given (check_addrs "doh3_listen") (su_doh3_listen req) in
  let? _u := check_given (check_all (check_network "web_allow_networks")) (su_web_allow_networks req) in
  Ok (mkSettings
    (default (st_forwarders s) (su_forwarders req))
    (default (st_resolution_mode s) (su_resolution_mode req))
    (default (st_block_mode s) (su_block_mode req))
    (default (st_blocking_enabled s) (su_blocking_enabled req))
    (default (st_query_log s) (su_query_log req))
    (default (st_homograph_protection s) (su_homograph_protection req))
    (default (st_cache_size s) (su_cache_size req))
    (default (st_cache_min_ttl s) (su_cache_min_ttl req))
    (default (st_cache_max_ttl s) (su_cache_max_ttl req))
    (default (st_dnssec_validate_upstream s) (su_dnssec_validate_upstream req))
    (default (st_allow_axfr_from s) (su_allow_axfr_from req))
    (default (st_tsig_keys s) (su_tsig_keys req))
    (default (st_axfr_require_tsig s) (su_axfr_require_tsig req))
    (default (st_load_balance s) (su_load_balance req))
    (default (st_blocked_asns s) (su_blocked_asns req))
    (default (st_mdns_enabled s) (su_mdns_enabled req))
    (default (st_mdns_zone s) ((fun v => to_ascii_lowercase (trim_end_matches "."%char (trim v))) <$> su_mdns_zone req))
    (default (st_mdns_ttl s) ((fun v => Z.max v 1) <$> su_mdns_ttl req))
    (default (st_mdns_publish_public s) (su_mdns_publish_public req))
    (default (st_dns_listen s) (su_dns_listen req))
    (default (st_dot_listen s) (su_dot_listen req))
    (default (st_doh_listen s) (su_doh_listen req))
    (default (st_doq_listen s) (su_doq_listen req))
    (default (st_doh3_listen s) (su_doh3_listen req))
    (default (st_doh_path s) (trim <$> su_doh_path req))
    (default (st_tcp_timeout_secs s) (su_tcp_timeout_secs req))
    (default (st_tls_hostname s) (trim <$> su_tls_hostname req))
    (default (st_tls_acme s) (su_tls_acme req))
    (default (st_tls_acme_domains s) ((fun v => List.filter (fun d => negb (is_empty d)) (trim <$> v)) <$> su_tls_acme_domains req))
    (default (st_tls_acme_contact s) (trim <$> su_tls_acme_contact req))
    (default (st_tls_acme_staging s) (su_tls_acme_staging req))
    (default (st_tls_cert_path s) (trim <$> su_tls_cert_path req))
    (default (st_tls_key_path s) (trim <$> su_tls_key_path req))
    (match su_tls_auto_self_signed req with Some v => Some v | None => st_tls_auto_self_signed s end)
    (default (st_geoip_db s) (trim <$> su_geoip_db req))
    (default (st_asn_db s) (trim <$> su_asn_db req))
    (default (st_web_allow_networks s) (su_web_allow_networks req))
    (default (st_blocklist_refresh_hours s) (su_blocklist_refresh_hours req))).

Definition api_get_settings : W Response :=
  let+ s := run get_settings in
  wret (ok_json (JObj [("settings", JData (PSettings s))])).

Definition api_put_settings (req : SettingsUpdate) : W Response :=
  let+ s := run get_settings in
  let+ s := lift (update_settings req s) in
  run (put_settings s) >>>
  updates (apply_settings s) >>>
  wret (ok_json (JObj [("settings", JData (PSettings s))])).
End Settings.

(** ** Blocklists *)

Definition blocklist_json (b : option Blocklist) : Json := JObj [("blocklist", JOpt (fun b => JData (PBlocklist b)) b)].

Definition api_list_blocklists : W Response :=
  let+ lists := run list_blocklists in
  let+ hits := reads (fun a => sts_blocklist_hits (ap_stats a)) in
  wret (ok_json (JObj [("blocklists",
    JArr ((fun b => JData (PBlocklistHits b (default 0 (hits !! bl_id b)))) <$> lists))])).

Definition fetch_blocklist (e : WebEnv) (url : string) (format : BlocklistFormat) : result (list string) string :=
  match we_fetch e url with Ok text => Ok (parse_blocklist text format) | Err msg => Err msg end.

(** A list that is gone, or whose rows cannot be stored, is left as it is. *)
Definition refresh_one (e : WebEnv) (id : Z) : W unit :=
  let+ l := attempt (run (blocklist id)) in
  match l with
  | Some (Some l) =>
      match fetch_blocklist e (bl_url l) (bl_format l) with
      | Ok domains => attempt (run (replace_blocklist_entries (we_ts e) id domains None)) >>> wret tt
      | Err msg => attempt (run (set_blocklist_error id msg)) >>> wret tt
      end
  | _ => wret tt
  end.

Definition refresh_all_lists (e : WebEnv) : W unit :=
  let+ lists := attempt (run list_blocklists) in
  wfold (fun _ l => if bl_enabled l then refresh_one e (bl_id l) else wret tt) (default [] lists) tt >>>
  updates reload_filter.

Definition api_create_blocklist (e : WebEnv) (req : BlocklistCreate) : W Response :=
  reject (is_empty (trim (bc_name req))) as (validation_field "name" "must not be empty") otherwise
  reject (negb (starts_with (bc_url req) "http://" || starts_with (bc_url req) "https://"))
    as (validation_field "url" "must be an http(s) URL") otherwise
  let+ id := run (create_blocklist (we_ts e) (trim (bc_name req)) (trim (bc_url req)) (bc_format req) true) in
  (if bc_refresh_now req then refresh_one e id else wret tt) >>>
  updates reload_filter >>>
  let+ l := run (blocklist id) in
  wret (created_json (blocklist_json l)).

Definition api_update_blocklist (id : Z) (req : BlocklistUpdate) : W Response :=
  run (update_blocklist id (bu_name req) (bu_enabled req)) >>>
  updates reload_filter >>>
  let+ l := run (blocklist id) in
  wret (ok_json (blocklist_json l)).

Definition api_delete_blocklist (id : Z) : W Response :=
  run (delete_blocklist id) >>>
  updates reload_filter >>>
  wret no_content.

Definition api_refresh_blocklist (e : WebEnv) (id : Z) : W Response :=
  refresh_one e id >>>
  updates reload_filter >>>
  let+ l := found (blocklist id) "blocklist" in
  wret (ok_json (blocklist_json (Some l))).

Definition api_refresh_all_blocklists (e : WebEnv) : W Response :=
  refresh_all_lists e >>>
  let+ lists := run list_blocklists in
  wret (ok_json (JObj [("blocklists", JArr ((fun b => JData (PBlocklist b)) <$> lists))])).

(** ** Rules *)

Definition api_list_block_rules : W Response :=
  let+ rules := run list_block_rules in
  wret (ok_json (JObj [("rules", JArr ((fun r => JData (PRule r)) <$> rules))])).

Definition api_create_block_rule (e : WebEnv) (req : BlockRuleCreate) : W Response :=
  let+ domain := lift (normalize_domain (brc_domain req)) in
  let+ id := run (create_block_rule (we_ts e) domain (brc_action req) (brc_comment req)) in
  updates reload_filter >>>
  let+ rules := run list_block_rules in
  wret (created_json (JObj [("rule", JOpt (fun r => JData (PRule r)) (List.find (fun r => br_id r =? id) rules))])).

Definition api_delete_block_rule (id : Z) : W Response :=
  run (delete_block_rule id) >>>
  updates reload_filter >>>
  wret no_content.

(** ** Rewrites *)

Definition rewrite_json (r : option Rewrite) : Json := JObj [("rewrite", JOpt (fun r => JData (PRewrite r)) r)].

Definition api_list_rewrites : W Response :=
  let+ rewrites := run list_rewrites in
  wret (ok_json (JObj [("rewrites", JArr ((fun r => JData (PRewrite r)) <$> rewrites))])).

Definition api_create_rewrite (e : WebEnv) (req : RewriteCreate) : W Response :=
  let+ domain := lift (normalize_domain (rwc_domain req)) in
  lift (validate_rewrite_target (rwc_target req)) >>>
  let+ id := run (create_rewrite (we_ts e) domain (trim (rwc_target req)) (rwc_comment req)) in
  updates reload_filter >>>
  let+ r := run (rewrite_row id) in
  wret (created_json (rewrite_json r)).

Definition api_update_rewrite (id : Z) (req : RewriteUpdate) : W Response :=
  lift (check_given validate_rewrite_target (rwu_target req)) >>>
  let+ domain := lift (match rwu_domain req with
                       | Some d => match normalize_domain d with Ok d => Ok (Some d) | Err err => Err err end
                       | None => Ok None
                       end) in
  run (update_rewrite id domain (rwu_target req) (rwu_enabled req)) >>>
  updates reload_filter >>>
  let+ r := run (rewrite_row id) in
  wret (ok_json (rewrite_json r)).

Definition api_delete_rewrite (id : Z) : W Response :=
  run (delete_rewrite id) >>>
  updates reload_filter >>>
  wret no_content.

(** ** Conditional forwarders *)

Definition conditional_json (c : option ConditionalForward) : Json :=
  JObj [("conditional_forward", JOpt (fun c => JData (PConditional c)) c)].

Definition api_list_conditional : W Response :=
  let+ items := run list_conditional_forwards in
  wret (ok_json (JObj [("conditional_forwards", JArr ((fun c => JData (PConditional c)) <$> items))])).

Definition api_create_conditional (e : WebEnv) (req : ConditionalCreate) : W Response :=
  let+ domain := lift (normalize_domain (cc_domain req)) in
  lift (validate_forwarders (cc_forwarders req)) >>>
  let+ id := run (create_conditional_forward (we_ts e) domain (cc_forwarders req)) in
  updates reload_conditional >>>
  let+ c := run (conditional_forward id) in
  wret (created_json (conditional_json c)).

Definition api_update_conditional (id : Z) (req : ConditionalUpdate) : W Response :=
  lift (check_given validate_forwarders (cu_forwarders req)) >>>
  run (update_conditional_forward id (cu_forwarders req) (cu_enabled req)) >>>
  updates reload_conditional >>>
  let+ c := run (conditional_forward id) in
  wret (ok_json (conditional_json c)).

Definition api_delete_conditional (id : Z) : W Response :=
  run (delete_conditional_forward id) >>>
  updates reload_conditional >>>
  wret no_content.
End ApiFilter.

(** ** Lemmas: stored settings are well formed *)

Section SettingsLemmas.
Context `{NETS : IpNets} `{HN : HickoryNames} `{TEXT : !HickoryText} `{SIGN : !Signers} `{RES : !HickoryResolvers}.
Context `{CR : Credentials} `{TS : !TSigners}.

Definition forwarder_ok (f : Forwarder) : Prop :=
  is_Some (parse_ip (fw_addr f)) /\
  (fw_protocol f = Tls \/ fw_protocol f = Https -> exists n, fw_tls_name f = Some n /\ n <> "").
Definition addr_ok (a : string) : Prop := is_Some (parse_socket_addr (trim a)).

Record settings_ok (s : Settings) : Prop := {
  ws_forwarders : Forall forwarder_ok (st_forwarders s);
  ws_axfr : Forall (fun n => is_Some (parse_ipnet n)) (st_allow_axfr_from s);
  ws_keys : Forall (fun k => exists signer, build_signer k = Ok signer) (st_tsig_keys s);
  ws_mdns : 1 <= st_mdns_ttl s;
  ws_dns : Forall addr_ok (st_dns_listen s); ws_dot : Forall addr_ok (st_dot_listen s);
  ws_doh : Forall addr_ok (st_doh_listen s); ws_doq : Forall addr_ok (st_doq_listen s);
  ws_doh3 : Forall addr_ok (st_doh3_listen s);
  ws_web : Forall (fun n => is_Some (parse_ipnet n)) (st_web_allow_networks s) }.

Lemma check_forwarder_ok f : check_forwarder f = Ok tt -> forwarder_ok f.
Proof.
  unfold check_forwarder, forwarder_ok. destruct (parse_ip (fw_addr f)) as [ip|]; [|done].
  destruct (_ && _) eqn:E; [done|]. intros _. split; [done|]. intros Hp.
  assert (match fw_protocol f with Tls | Https => true | _ => false end = true) as Ht by by destruct Hp as [-> | ->].
  rewrite Ht in E. cbn in E. destruct (fw_tls_name f) as [n|]; [|done]. exists n. split; [done|]. by intros ->.
Qed.

(** A field is the one given, if that passed its check, or the one before. *)
Lemma checked_field {X} (f : X -> result unit AppError) (P : X -> Prop) (o : option (list X)) l :
  (forall x, f x = Ok tt -> P x) -> Forall P l -> check_given (check_all f) o = Ok tt -> Forall P (default l o).
Proof.
  intros Hf Hl Ho. destruct o as [l'|]; [|done]. cbn in *. apply check_all_ok in Ho. eapply List.Forall_impl; [exact Hf|exact Ho].
Qed.

(** An accepted change keeps the settings well formed. *)
Lemma update_settings_ok tsig_text req s s' :
  settings_ok s -> update_settings tsig_text req s = Ok s' -> settings_ok s'.
Proof.
  intros [H1 H2 H3 H4 H5 H6 H7 H8 H9 H10] H. unfold update_settings, check_addrs in H.
  repeat match type of H with
  | (let? _ := ?c in _) = _ => destruct c as [[]|?] eqn:?; [|done]
  end. injection H as <-.
  assert (forall field n, check_network field n = Ok tt -> is_Some (parse_ipnet n)) as Hnet.
  { intros field n. unfold check_network. by destruct (parse_ipnet n). }
  assert (forall field x, check_addr field x = Ok tt -> addr_ok x) as Haddr.
  { intros field x. unfold check_addr, addr_ok. by destruct (parse_socket_addr _). }
  assert (forall k, check_key tsig_text k = Ok tt -> exists signer, build_signer k = Ok signer) as Hkey.
  { intros k. unfold check_key. destruct (build_signer k); [eauto|done]. }
  split; cbn [st_forwarders st_allow_axfr_from st_tsig_keys st_mdns_ttl st_dns_listen st_dot_listen st_doh_listen
    st_doq_listen st_doh3_listen st_web_allow_networks];
    try (eapply checked_field; [|eassumption|eassumption]; eauto using check_forwarder_ok; fail).
  destruct (su_mdns_ttl req); cbn; lia.
Qed.

Lemma default_settings_ok : settings_ok Settings_default.
Proof.
  split; try (by apply List.Forall_nil); [|cbn; lia]. repeat apply List.Forall_cons; [..|by apply List.Forall_nil];
    (split; [by eexists|intros [?|?]; discriminate]).
Qed.

(** What a change of the settings does: one that would break them is refused and leaves
    everything as it was; an accepted one is stored and put in memory. *)
Lemma put_settings_cases tsig_text req a :
  settings_ok (default Settings_default (settings (ap_db a))) ->
  let s := default Settings_default (settings (ap_db a)) in
  match api_put_settings tsig_text req a with
  | (a', Ok _) => exists s', update_settings tsig_text req s = Ok s' /\ settings_ok s' /\
      settings (ap_db a') = Some s' /\ ap_settings a' = s'
  | (a', Err err) => a' = a /\ update_settings tsig_text req s = Err err
  end.
Proof.
  intros Hs s. unfold api_put_settings, wbind, get_settings. rewrite run_query. fold s. unfold lift.
  destruct (update_settings tsig_text req s) as [s'|err] eqn:E; [|done]. exists s'. split_and!; try done.
  by eapply update_settings_ok.
Qed.
End SettingsLemmas.
