(* ===== verification/ApiDhcp.v ===== *)
(** * Web API: DynDNS tokens, DHCP, and the logs ([src/web/api.rs])

    Handlers as in [ApiZones].  A handler that validates DHCP options is [None]
    where [encode_option] panics: the panic comes before anything is written. *)

From S2P Require Import Prelude Strs Net External Models DhcpOptions Db DbDns DbFilter DbDhcp DbAdmin Filter Upstream.
From S2P Require Import Cache Stats Mdns Dnssec Store State Config Web Auth Transfer ApiZones.

(** ** Requests *)

Record DynDnsTokenCreate : Type := mkDynDnsTokenCreate {
  tc_label : string; tc_username : string; tc_secret : option string; tc_hostnames : list string;
  tc_view_id : option Z; tc_ttl : option Z }.
Record DhcpScopeInput : Type := mkDhcpScopeInput {
  si_name : string; si_enabled : bool; si_family : IpFamily; si_subnet : string; si_range_start : string;
  si_range_end : string; si_lease_secs : Z; si_dns_register : bool; si_dns_zone : option string;
  si_server_id : option string; si_interface : option string; si_options : list DhcpOption }.
Record DhcpReservationInput : Type := mkDhcpReservationInput {
  ri_identifier : string; ri_ip : string; ri_hostname : option string; ri_options : list DhcpOption }.
Record QueryLogParams : Type := mkQueryLogParams {
  qp_page : option Z; qp_per_page : option Z; qp_q : option string; qp_outcome : option string;
  qp_qtype : option string; qp_sort : option string; qp_desc : option bool }.

Section ApiDhcp.
Context `{NETS : IpNets} `{HN : HickoryNames} `{TEXT : !HickoryText} `{SIGN : !Signers} `{RES : !HickoryResolvers}.
Context `{DT : DateTimes} `{CR : Credentials}.

(** ** DynDNS tokens *)

Definition api_list_dyndns_tokens : W Response :=
  let+ tokens := run list_dyndns_tokens in
  wret (ok_json (JObj [("tokens", JArr ((fun t => JData (PToken t)) <$> tokens))])).

(** The body of the loop over the requested names. *)
Definition token_hostname (zones : list Zone) (hostnames : list string) (h : string) : result (list string) AppError :=
  let host := to_ascii_lowercase (trim_end_matches "."%char (trim h)) in
  if is_empty host then Ok hostnames
  else match Name_from_utf8 (host +:+ ".") with
  | None => Err (validation_field "hostnames" ("invalid hostname: " +:+ host))
  | Some _ =>
      if negb (existsb (fun z => covers_host (zone_key z) host) zones)
      then Err (validation_field "hostnames" ("no local zone covers " +:+ host))
      else Ok (hostnames ++ [host])
  end.
Fixpoint token_hostnames (zones : list Zone) (hs : list string) (hostnames : list string)
    : result (list string) AppError :=
  match hs with
  | [] => Ok hostnames
  | h :: hs' => let? hostnames := token_hostname zones hostnames h in token_hostnames zones hs' hostnames
  end.

Definition no_hostname : AppError := validation_field "hostnames" "at least one hostname is required".

Definition api_create_dyndns_token (e : WebEnv) (req : DynDnsTokenCreate) : W Response :=
  let label := trim (tc_label req) in
  reject (is_empty label) as (validation_field "label" "must not be empty") otherwise
  let username := trim (tc_username req) in
  reject (is_empty username || (64 <? len username) || contains_char ":"%char username)
    as (validation_field "username" "must be 1-64 chars and contain no colon") otherwise
  reject (is_nil (tc_hostnames req)) as no_hostname otherwise
  let+ zones := run list_zones in
  let+ hostnames := lift (token_hostnames zones (tc_hostnames req) []) in
  reject (is_nil hostnames) as no_hostname otherwise
  require_view (tc_view_id req) >>>
  let+ exists_user := run (dyndns_auth username) in
  reject (match exists_user with Some _ => true | None => false end)
    as (conflict "a token with this username already exists") otherwise
  let secret := match tc_secret req with
                | Some s => if is_empty (trim s) then random_token (we_token e) else s
                | None => random_token (we_token e)
                end in
  let+ secret_hash := lift (hash_password (we_salt e) secret) in
  let ttl := Z.max (default 60 (tc_ttl req)) 1 in
  let+ id := run (create_dyndns_token (we_ts e) label username secret_hash hostnames (tc_view_id req) ttl) in
  wret (created_json (JObj [("id", JNum id); ("label", JStr label); ("username", JStr username);
    ("secret", JStr secret); ("update_url", JStr "/nic/update?hostname=<host>&myip=<ip>")])).

Definition api_delete_dyndns_token (id : Z) : W Response := run (delete_dyndns_token id) >>> wret no_content.

(** ** DHCP *)

Section Options.
(** The text of the error of an option. *)
Context (option_text : DhcpOption -> OptionError -> string).

Fixpoint validate_dhcp_options (options : list DhcpOption) : option (result unit AppError) :=
  match options with
  | [] => Some (Ok tt)
  | o :: options' =>
      match encode_option o with
      | None => None
      | Some (Err err) =>
          Some (Err (validation_field "options" ("option " +:+ show_u (do_code o) +:+ ": " +:+ option_text o err)))
      | Some (Ok _) => validate_dhcp_options options'
      end
  end.

Definition fam_ok (family : IpFamily) (s : string) : bool :=
  match parse_ip s with
  | Some ip => (is_ipv4 ip && bool_decide (family = FamV4)) || (is_ipv6 ip && bool_decide (family = FamV6))
  | None => false
  end.

Definition validate_scope (input : DhcpScopeInput) : option (result unit AppError) :=
  match parse_ipnet (si_subnet input) with
  | None => Some (Err (validation_field "subnet" "invalid CIDR"))
  | Some _ =>
      if negb (fam_ok (si_family input) (si_range_start input))
      then Some (Err (validation_field "range_start" "invalid address for family"))
      else if negb (fam_ok (si_family input) (si_range_end input))
      then Some (Err (validation_field "range_end" "invalid address for family"))
      else if bool_decide (si_family input = FamV4) &&
              match si_server_id input with
              | Some sid => negb (is_empty sid) && match parse_v4 sid with Some _ => false | None => true end
              | None => false
              end
      then Some (Err (validation_field "server_id" "invalid IPv4 address"))
      else validate_dhcp_options (si_options input)
  end.

Definition api_list_dhcp_scopes : W Response :=
  let+ scopes := run list_dhcp_scopes in
  wret (ok_json (JObj [("scopes", JArr ((fun s => JData (PScope s)) <$> scopes))])).

Definition api_get_dhcp_scope (id : Z) : W Response :=
  let+ s := found (dhcp_scope id) "scope" in
  let+ rs := run (list_dhcp_reservations id) in
  wret (ok_json (JObj [("scope", JData (PScope s)); ("reservations", JArr ((fun r => JData (PReservation r)) <$> rs))])).

Definition scope_json (s : option DhcpScope) : Json := JObj [("scope", JOpt (fun s => JData (PScope s)) s)].

(** [interface.filter(|s| !s.trim().is_empty())]. *)
Definition scope_interface (req : DhcpScopeInput) : option string :=
  match si_interface req with
  | Some s => if is_empty (trim s) then None else Some s
  | None => None
  end.

Definition empty_name (req : DhcpScopeInput) : bool := is_empty (trim (si_name req)).

Definition api_create_dhcp_scope (e : WebEnv) (req : DhcpScopeInput) : option (W Response) :=
  if empty_name req then Some (throw (validation_field "name" "must not be empty"))
  else
    let! valid := validate_scope req in
    Some (lift valid >>>
      let+ id := run (create_dhcp_scope (we_ts e) (trim (si_name req)) (si_enabled req) (si_family req)
                        (si_subnet req) (si_range_start req) (si_range_end req) (si_lease_secs req)
                        (si_dns_register req) (si_dns_zone req) (si_server_id req) (scope_interface req)
                        (si_options req)) in
      let+ s := run (dhcp_scope id) in
      wret (created_json (scope_json s))).

(** The family is not updated. *)
Definition api_update_dhcp_scope (id : Z) (req : DhcpScopeInput) : option (W Response) :=
  if empty_name req then Some (throw (validation_field "name" "must not be empty"))
  else
    let! valid := validate_scope req in
    Some (lift valid >>>
      run (update_dhcp_scope id (Some (trim (si_name req))) (Some (si_enabled req)) (Some (si_subnet req))
             (Some (si_range_start req)) (Some (si_range_end req)) (Some (si_lease_secs req))
             (Some (si_dns_register req)) (Some (si_dns_zone req)) (Some (si_server_id req))
             (Some (scope_interface req)) (Some (si_options req))) >>>
      let+ s := run (dhcp_scope id) in
      wret (ok_json (scope_json s))).

Definition api_delete_dhcp_scope (id : Z) : W Response := run (delete_dhcp_scope id) >>> wret no_content.

Definition bad_ip (ip : string) : bool := match parse_ip ip with Some _ => false | None => true end.

Definition api_create_dhcp_reservation (e : WebEnv) (scope_id : Z) (req : DhcpReservationInput) : option (W Response) :=
  if is_empty (trim (ri_identifier req)) then Some (throw (validation_field "identifier" "must not be empty"))
  else if bad_ip (ri_ip req) then Some (throw (validation_field "ip" "invalid IP address"))
  else
    let! valid := validate_dhcp_options (ri_options req) in
    Some (lift valid >>>
      let+ id := run (create_dhcp_reservation (we_ts e) scope_id (to_ascii_lowercase (trim (ri_identifier req)))
                        (trim (ri_ip req)) (ri_hostname req) (ri_options req)) in
      wret (created_json (JObj [("id", JNum id)]))).

Definition api_update_dhcp_reservation (id : Z) (req : DhcpReservationInput) : option (W Response) :=
  if bad_ip (ri_ip req) then Some (throw (validation_field "ip" "invalid IP address"))
  else
    let! valid := validate_dhcp_options (ri_options req) in
    Some (lift valid >>>
      run (update_dhcp_reservation id (Some (to_ascii_lowercase (trim (ri_identifier req)))) (Some (trim (ri_ip req)))
             (Some (ri_hostname req)) (Some (ri_options req))) >>>
      wret no_content).
End Options.

Definition api_delete_dhcp_reservation (id : Z) : W Response := run (delete_dhcp_reservation id) >>> wret no_content.

Definition api_list_dhcp_leases (scope_id : option Z) : W Response :=
  let+ leases := run (list_dhcp_leases scope_id) in
  wret (ok_json (JObj [("leases", JArr ((fun l => JData (PLease l)) <$> leases))])).

Definition api_delete_dhcp_lease (id : Z) : W Response := run (delete_dhcp_lease id) >>> wret no_content.

(** The JSON names of the kinds. *)
Definition kind_str (k : DhcpOptionKind) : string :=
  match k with
  | KIp => "ip" | KIpList => "ip_list" | KU8 => "u8" | KU16 => "u16" | KU32 => "u32" | KBool => "bool"
  | KText => "text" | KHex => "hex"
  end.

Definition api_dhcp_option_catalog (family : option string) : Response :=
  let cat := if bool_decide (family = Some "v6") then v6_catalog else v4_catalog in
  ok_json (JObj [("options", JArr ((fun d =>
    JObj [("code", JNum (od_code d)); ("name", JStr (od_name d)); ("kind", JStr (kind_str (od_kind d)))]) <$> cat))]).

(** ** Audit, query log and mDNS *)

Definition api_health (version : string) : Response :=
  ok_json (JObj [("status", JStr "ok"); ("version", JStr version)]).

Definition api_list_audit : W Response :=
  let+ entries := run (list_audit 500) in
  wret (ok_json (JObj [("audit", JArr ((fun x => JData (PAudit x)) <$> entries))])).

Definition api_clear_stats : W Response :=
  updates (fun a => with_cache (cache_clear (ap_cache a)) (with_stats clear_log a)) >>>
  wret no_content.

(** [(page - 1) * per_page] is a 64-bit product. *)
Definition api_query_log (p : QueryLogParams) : W Response :=
  let page := Z.max (default 1 (qp_page p)) 1 in
  let per_page := Z.min (Z.max (default 50 (qp_per_page p)) 1) 500 in
  let offset := as_i64 ((page - 1) * per_page) in
  let sort := default "at" (qp_sort p) in
  let desc := default true (qp_desc p) in
  let+ r := run (query_log_page (qp_q p) (qp_outcome p) (qp_qtype p) sort desc per_page offset) in
  wret (ok_json (JObj [("queries", JArr ((fun q => JData (PQuery q)) <$> fst r)); ("total", JNum (snd r));
    ("page", JNum page); ("per_page", JNum per_page)])).

Definition api_clear_query_log : W Response := run (prune_query_log 0) >>> wret no_content.

Definition api_mdns_hosts (e : WebEnv) : W Response := reads (fun a =>
  let zone := mdns_zone a in
  let hosts := (fun '(host, addrs, ttl) =>
    JObj [("host", JStr (host +:+ ".local"));
          ("published", JOpt (fun z => JStr (host +:+ "." +:+ z)) zone);
          ("addresses", JArr ((fun ip => JStr (show_ip ip)) <$> addrs)); ("ttl", JNum ttl)])
    <$> mdns_snapshot (we_instant e) (ap_mdns a) in
  ok_json (JObj [("enabled", JBool (st_mdns_enabled (ap_settings a))); ("zone", JOpt JStr zone);
    ("ttl", JNum (mdns_ttl a)); ("hosts", JArr hosts)])).
End ApiDhcp.
