(* ===== verification/Sync.v ===== *)
(** * The live state follows the database

    The query path reads structures in memory: the zone store, the filter, the
    conditional forwarders and the settings.  [synced] says they are what the
    database holds; every handler keeps it, because each change is followed by
    the reload of what it touched and a failing statement changes nothing. *)

From S2P Require Import Prelude Strs Net External Models DhcpOptions Db DbDns DbFilter DbDhcp DbAdmin Filter Upstream.
From S2P Require Import Cache Stats Mdns Dnssec Store State Config Web Auth DynDns Transfer ApiZones ApiFilter.
From S2P Require Import ApiDhcp.

(** ** The tables behind each structure *)

Definition dns_part (d : Db) := (views d, zones d, records d, dnssec_keys d).
Definition filter_part (d : Db) := (blocklists d, blocklist_entries d, block_rules d, rewrites d).
Definition live_part (d : Db) := (dns_part d, filter_part d, conditional_forwards d, settings d).

(** The statement leaves [f] of the database as it is. *)
Definition leaves {X Y} (f : Db -> X) (m : M Y) : Prop := forall x, preserves (fun d => f d = x) m.
(** A statement that fails changes nothing. *)
Definition atomic {Y} (m : M Y) : Prop := forall d d' err, m d = (d', Err err) -> d' = d.

Lemma leaves_eq {X Y} (f : Db -> X) (m : M Y) d : leaves f m -> f (fst (m d)) = f d.
Proof. intros H. by apply (H (f d)). Qed.

(** Follow a statement down to its updates of single tables. *)
Ltac head_of m := lazymatch m with ?f _ => head_of f | _ => m end.
Ltac leave_leaf :=
  let d := fresh "d" in let Hd := fresh "Hd" in
  intros d Hd; cbv beta iota delta [modify fail ret query]; repeat case_goal; exact Hd.
Ltac leave_steps :=
  preserve;
  try match goal with
  | |- preserves _ (modify _) => leave_leaf
  | |- preserves _ (fun _ => _) => leave_leaf
  | |- preserves _ ?m => let h := head_of m in unfold h; leave_steps
  end.
Ltac leave := let x := fresh "x" in intros x; leave_steps.

(** ** Statements that cannot fail half-way *)

Definition total {Y} (m : M Y) : Prop := forall d, exists d' y, m d = (d', Ok y).

Lemma total_ret {Y} (y : Y) : total (ret y).
Proof. intros d. by exists d, y. Qed.
Lemma total_query {Y} (f : Db -> Y) : total (query f).
Proof. intros d. by exists d, (f d). Qed.
Lemma total_modify f : total (modify f).
Proof. intros d. by exists (f d), tt. Qed.
Lemma total_bind {X Y} (m : M X) (k : X -> M Y) : total m -> (forall x, total (k x)) -> total (bind m k).
Proof. intros Hm Hk d. destruct (Hm d) as (d' & x & E). unfold bind. rewrite E. apply Hk. Qed.
Lemma total_when_some {X} (o : option X) f : (forall x, total (f x)) -> total (when_some o f).
Proof. intros Hf. destruct o; [apply Hf|apply total_ret]. Qed.

Lemma atomic_total {Y} (m : M Y) : total m -> atomic m.
Proof. intros Hm d d' err E. destruct (Hm d) as (? & ? & E'). congruence. Qed.
Lemma atomic_transaction {Y} (m : M Y) : atomic (transaction m).
Proof. intros d d' err. unfold transaction. destruct (m d) as [d1 [y|e]]; [done|by intros [= <- _]]. Qed.
Lemma atomic_bind {X Y} (m : M X) (k : X -> M Y) : atomic m -> (forall x, total (k x)) -> atomic (bind m k).
Proof.
  intros Hm Hk d d' err. unfold bind. destruct (m d) as [d1 [x|e]] eqn:E; [|by intros [= <- <-]; eauto].
  destruct (Hk x d1) as (? & ? & ->). done.
Qed.
Lemma atomic_query {X Y} (f : Db -> X) (k : X -> M Y) : (forall x, atomic (k x)) -> atomic (bind (query f) k).
Proof. intros Hk d d' err. unfold bind, query. apply Hk. Qed.

Lemma atomic_when_some {X} (o : option X) f : (forall x, atomic (f x)) -> atomic (when_some o f).
Proof. intros Hf. destruct o; [apply Hf|apply atomic_total, total_ret]. Qed.

Ltac totals :=
  repeat match goal with
  | |- forall _, _ => intro
  | |- total (bind _ _) => apply total_bind
  | |- total (when_some _ _) => apply total_when_some
  | |- total (ret _) => apply total_ret
  | |- total (query _) => apply total_query
  | |- total (modify _) => apply total_modify
  | |- total (match ?x with _ => _ end) => destruct x
  | |- total (fun _ => _) => fail 1
  | |- total ?m => let h := head_of m in unfold h
  end.
(** One statement checks its constraints first. *)
Ltac atomic_leaf :=
  let d := fresh "d" in let d' := fresh "d'" in let err := fresh "err" in let H := fresh "H" in
  intros d d' err H; cbv beta iota delta [fail ret modify query] in H; repeat case_hyp H;
  first [discriminate H | by injection H as <- <-].
Ltac atoms :=
  repeat match goal with
  | |- forall _, _ => intro
  | |- atomic (transaction _) => apply atomic_transaction
  | |- atomic (bind (query _) _) => apply atomic_query
  | |- atomic (bind _ _) => apply atomic_bind; [|solve [totals]]
  | |- atomic (when_some _ _) => apply atomic_when_some
  | |- atomic (ret _) => apply atomic_total, total_ret
  | |- atomic (query _) => apply atomic_total, total_query
  | |- atomic (modify _) => apply atomic_total, total_modify
  | |- atomic (match ?x with _ => _ end) => destruct x
  | |- atomic (fun _ => _) => atomic_leaf
  | |- atomic ?m => let h := head_of m in unfold h
  end.

Lemma update_view_atomic id n nets p cs cts asns : atomic (update_view id n nets p cs cts asns).
Proof. atoms. Qed.
Lemma create_record_atomic ts zid vid n t ttl data : atomic (create_record ts zid vid n t ttl data).
Proof. atoms. Qed.

Definition has_record (id : Z) (d : Db) : Prop := existsb (fun r => rr_id r =? id) (records d) = true.

Lemma has_record_update id f : (forall r, rr_id (f r) = rr_id r) -> preserves (has_record id) (update_record_row id f).
Proof.
  intros Hf d Hd. unfold has_record, update_record_row, modify. cbn. apply existsb_exists in Hd as (r & Hin & Hr).
  apply existsb_exists. exists (if rr_id r =? id then f r else r). split; [apply in_update_where; eauto|].
  rewrite Hr, Hf. done.
Qed.

Lemma update_record_row_none id f d : existsb (fun r => rr_id r =? id) (records d) = false -> update_record_row id f d = (d, Ok tt).
Proof.
  intros Hn. unfold update_record_row, modify, update_where. f_equal.
  assert ((fun r => if rr_id r =? id then f r else r) <$> records d = records d) as E.
  { rewrite <- (list_fmap_id (records d)) at 2. apply list_fmap_ext. intros i r Hr. apply list_elem_of_lookup_2 in Hr.
    rewrite existsb_false in Hn. by rewrite (Hn r) by by apply list_elem_of_In. }
  rewrite E. by destruct d.
Qed.

Lemma when_record_row_none {X} (o : option X) id f d :
  existsb (fun r => rr_id r =? id) (records d) = false -> when_some o (fun x => update_record_row id (f x)) d = (d, Ok tt).
Proof. intros Hn. destruct o; [by apply update_record_row_none|done]. Qed.

(** The statement succeeds where [P] holds. *)
Definition succeeds {Y} (P : Db -> Prop) (m : M Y) : Prop := forall d, P d -> exists d' y, m d = (d', Ok y).

Lemma succeeds_bind {X Y} P (m : M X) (k : X -> M Y) :
  total m -> preserves P m -> (forall x, succeeds P (k x)) -> succeeds P (bind m k).
Proof.
  intros Hm Hp Hk d Hd. unfold bind. destruct (Hm d) as (d1 & x & E). specialize (Hp d Hd). rewrite E in *. by apply Hk.
Qed.

(** The row is there from the start, or no statement touches one. *)
Lemma update_record_atomic ts id v n t data en : atomic (update_record ts id v n t data en).
Proof.
  intros d d' err. unfold update_record. destruct (existsb (fun r => rr_id r =? id) (records d)) eqn:Hd.
  - unfold bind at 1. set (first_step := when_some v _).
    destruct (first_step d) as [d1 [[]|e]] eqn:E1; cycle 1.
    { intros [= <- <-]. revert E1. apply (ltac:(subst first_step; atoms) : atomic first_step). }
    assert (has_record id d1) as H1.
    { replace d1 with (fst (first_step d)) by by rewrite E1. subst first_step.
      destruct v as [v|]; [|done]. cbn [when_some]. destruct (_ && _); [done|]. by apply has_record_update. }
    clear E1 Hd. match goal with |- ?m d1 = _ -> _ => assert (succeeds (has_record id) m) as Hs end.
    { do 5 (apply succeeds_bind; [totals|preserve; by apply has_record_update|intros _]).
      intros d2 H2. unfold bind, query. apply existsb_exists in H2 as (r & Hr & Hid).
      destruct (List.find _ _) as [r'|] eqn:Ef; [by eexists _, _|].
      by rewrite (List.find_none _ _ Ef r Hr) in Hid. }
    destruct (Hs d1 H1) as (? & ? & ->). done.
  - assert (when_some v (fun v d => if existsb (fun r => rr_id r =? id) (records d) && negb (view_exists d v)
      then fail ForeignKeyViolation d
      else update_record_row id (fun r => mkRecordRow (rr_id r) (rr_zone_id r) v (rr_name r) (rr_rtype r)
             (rr_ttl r) (rr_data r) (rr_enabled r) (rr_created_at r) (rr_updated_at r)) d) d = (d, Ok tt)) as E.
    { destruct v; [|done]. cbn [when_some]. rewrite Hd. by apply update_record_row_none. }
    unfold bind. rewrite E, !when_record_row_none, update_record_row_none by done. cbn.
    destruct (List.find _ _) as [r|] eqn:Ef; [|by intros [= <- _]].
    apply List.find_some in Ef as [Hr Hid]. rewrite existsb_false in Hd. by rewrite Hd in Hid.
Qed.

Lemma create_zone_with_ns_atomic ts name soa ttl : atomic (create_zone_with_ns ts name soa ttl).
Proof.
  intros d d' err. unfold create_zone_with_ns, bind at 1. destruct (create_zone ts name soa ttl d) as [d1 [id|e]] eqn:Ez;
    [|by intros [= <- <-]; revert Ez; apply (ltac:(atoms) : atomic (create_zone ts name soa ttl))].
  assert (zone_exists d1 id = true) as Hz.
  { unfold create_zone in Ez. destruct (existsb _ _); [done|]. injection Ez as <- <-. unfold zone_exists. cbn.
    rewrite existsb_app. cbn. by rewrite Z.eqb_refl, orb_true_r. }
  unfold create_record, bind, insert_record. rewrite Hz. done.
Qed.

Section Synced.
Context `{NETS : IpNets} `{HN : HickoryNames} `{TEXT : !HickoryText} `{SIGN : !Signers} `{RES : !HickoryResolvers}.
Context `{DT : DateTimes} `{CR : Credentials} `{TS : !TSigners} `{TOOLS : !DnssecTools} `{ZF : !ZoneFiles} `{ERR : !ErrorTexts}.

(** ** The structures in memory *)

Definition db_settings (d : Db) : Settings := default Settings_default (settings d).

(** The structures but the ones in question are what the database holds. *)
Record synced_others (store filter forwards : bool) (a : AppState) : Prop := {
  syn_settings : ap_settings a = db_settings (ap_db a);
  syn_upstream : ap_upstream a = match build_upstream (ap_settings a) with Ok up => up | Err _ => None end;
  syn_store : store = true -> ap_store a = build_from (ap_db a);
  syn_filter : filter = true -> ap_filter a = build_filter (ap_db a) (st_blocking_enabled (ap_settings a));
  syn_forwards : forwards = true -> ap_conditional a = build_conditional (ap_db a) (ap_settings a) }.
Definition synced : AppState -> Prop := synced_others true true true.

Lemma list_records_part d d' id : dns_part d = dns_part d' -> snd (list_records id d) = snd (list_records id d').
Proof.
  unfold dns_part. intros [= Hv Hz Hr Hk]. unfold list_records, bind, zone_name_of. rewrite Hz.
  destruct (List.find _ _); [|done]. cbn. by rewrite Hr.
Qed.

Lemma load_zone_part d d' z : dns_part d = dns_part d' -> load_zone d (into_zone d z) = load_zone d' (into_zone d' z).
Proof.
  intros H. unfold load_zone. cbn [into_zone zn_enabled zn_name zn_soa zn_serial zn_default_ttl zn_id].
  rewrite (list_records_part d d' (zr_id z) H). unfold dns_part in H. injection H as Hv Hz Hr Hk.
  unfold dnssec_config, query. by rewrite Hk.
Qed.

Lemma omap_cons {X Y} (f : X -> option Y) x l : omap f (x :: l) = match f x with Some y => y :: omap f l | None => omap f l end.
Proof. done. Qed.

Lemma omap_map {X Y T} (f : Y -> option T) (g : X -> Y) (l : list X) : omap f (g <$> l) = omap (fun x => f (g x)) l.
Proof. induction l as [|x l IH]; [done|]. rewrite fmap_cons, !omap_cons. by rewrite IH. Qed.

Lemma build_from_part d d' : dns_part d = dns_part d' -> build_from d = build_from d'.
Proof.
  intros H. unfold build_from, list_views, list_zones, query. cbn [snd].
  assert (views d = views d' /\ zones d = zones d') as [-> Hz] by (unfold dns_part in H; by injection H). f_equal. f_equal.
  rewrite <- !(sort_with_fmap (into_zone _) (fun a b => String.leb (zr_name a) (zr_name b))) by done.
  rewrite Hz, !omap_map. induction (sort_with _ _) as [|z l IH]; [done|].
  by rewrite !omap_cons, IH, (load_zone_part d d' z H).
Qed.

Lemma build_filter_part d d' be : filter_part d = filter_part d' -> build_filter d be = build_filter d' be.
Proof.
  unfold filter_part. intros [= Hb He Hr Hw].
  unfold build_filter, enabled_block_domains_by_list, list_block_rules, list_rewrites, query. by rewrite Hb, He, Hr, Hw.
Qed.

Lemma build_conditional_part d d' s :
  conditional_forwards d = conditional_forwards d' -> build_conditional d s = build_conditional d' s.
Proof. intros H. unfold build_conditional, list_conditional_forwards, query. by rewrite H. Qed.

(** ** Handlers *)

(** A statement that leaves the tables of a structure leaves the structure right. *)
Lemma synced_with_db s f w d a :
  synced_others s f w a -> settings d = settings (ap_db a) ->
  (s = true -> dns_part d = dns_part (ap_db a)) -> (f = true -> filter_part d = filter_part (ap_db a)) ->
  (w = true -> conditional_forwards d = conditional_forwards (ap_db a)) -> synced_others s f w (with_db d a).
Proof.
  intros [H1 H2 H3 H4 H5] Es Ed Ef Ew. split; cbn [ap_settings ap_db ap_upstream ap_store ap_filter ap_conditional with_db].
  - unfold db_settings. by rewrite Es.
  - done.
  - intros ->. rewrite H3 by done. symmetry. by apply build_from_part, Ed.
  - intros ->. rewrite H4 by done. symmetry. by apply build_filter_part, Ef.
  - intros ->. rewrite H5 by done. symmetry. by apply build_conditional_part, Ew.
Qed.

Lemma synced_weaken s f w a : synced a -> synced_others s f w a.
Proof. intros [H1 H2 H3 H4 H5]. split; auto. Qed.

(** A statement on other tables. *)
Lemma synced_quiet {X} s f w (m : M X) : leaves live_part m -> keeps (synced_others s f w) (run m).
Proof.
  intros Hm a Ha. pose proof (leaves_eq live_part m (ap_db a) Hm) as E. unfold run.
  destruct (m (ap_db a)) as [d r]. cbn [fst] in *. unfold live_part, dns_part, filter_part in E. injection E as E.
  apply synced_with_db; [done|congruence|..]; intros _; unfold dns_part, filter_part; congruence.
Qed.

Lemma synced_reload_store a : synced_others false true true a -> synced (reload_store a).
Proof. intros [H1 H2 H3 H4 H5]. split; auto. Qed.
Lemma synced_reload_filter a : synced_others true false true a -> synced (reload_filter a).
Proof. intros [H1 H2 H3 H4 H5]. split; auto. Qed.
Lemma synced_reload_conditional a : synced_others true true false a -> synced (reload_conditional a).
Proof. intros [H1 H2 H3 H4 H5]. split; auto. Qed.

(** A statement, then the reload of what it touched. *)
Lemma synced_then {X Y} (m : M X) (reload : AppState -> AppState) (k : X -> W Y) :
  (forall a, synced a -> synced (reload (fst (run m a)))) -> atomic m -> (forall x, keeps synced (k x)) ->
  keeps synced (wbind (run m) (fun x => wbind (updates reload) (fun _ => k x))).
Proof.
  intros Hr Hm Hk a Ha. specialize (Hr a Ha). unfold wbind, updates. unfold run in *.
  destruct (m (ap_db a)) as [d [x|err]] eqn:E; [by apply Hk|].
  apply Hm in E as ->. cbn. by rewrite with_db_id.
Qed.

Lemma synced_then_store {X Y} (m : M X) (k : X -> W Y) :
  leaves (fun d => (filter_part d, conditional_forwards d, settings d)) m -> atomic m -> (forall x, keeps synced (k x)) ->
  keeps synced (wbind (run m) (fun x => wbind (updates reload_store) (fun _ => k x))).
Proof.
  intros Hl. apply synced_then. intros a Ha. apply synced_reload_store. unfold run.
  pose proof (leaves_eq _ m (ap_db a) Hl) as E. destruct (m (ap_db a)) as [d r]. cbn [fst] in *. injection E as E.
  apply synced_with_db; [by apply synced_weaken|congruence|done|..]; intros _; unfold filter_part; congruence.
Qed.
Lemma synced_then_filter {X Y} (m : M X) (k : X -> W Y) :
  leaves (fun d => (dns_part d, conditional_forwards d, settings d)) m -> atomic m -> (forall x, keeps synced (k x)) ->
  keeps synced (wbind (run m) (fun x => wbind (updates reload_filter) (fun _ => k x))).
Proof.
  intros Hl. apply synced_then. intros a Ha. apply synced_reload_filter. unfold run.
  pose proof (leaves_eq _ m (ap_db a) Hl) as E. destruct (m (ap_db a)) as [d r]. cbn [fst] in *. injection E as E.
  apply synced_with_db; [by apply synced_weaken|congruence| |done|]; intros _; unfold dns_part; congruence.
Qed.
Lemma synced_then_conditional {X Y} (m : M X) (k : X -> W Y) :
  leaves (fun d => (dns_part d, filter_part d, settings d)) m -> atomic m -> (forall x, keeps synced (k x)) ->
  keeps synced (wbind (run m) (fun x => wbind (updates reload_conditional) (fun _ => k x))).
Proof.
  intros Hl. apply synced_then. intros a Ha. apply synced_reload_conditional. unfold run.
  pose proof (leaves_eq _ m (ap_db a) Hl) as E. destruct (m (ap_db a)) as [d r]. cbn [fst] in *. injection E as E.
  apply synced_with_db; [by apply synced_weaken|congruence|..|done]; intros _; unfold dns_part, filter_part; congruence.
Qed.

End Synced.

Ltac atomic_statement := first [apply update_record_atomic | apply create_zone_with_ns_atomic | solve [atoms]].
(** Follow a handler: each statement is quiet or followed by its reload. *)
Ltac synch :=
  repeat match goal with
  | |- forall _, _ => intro
  | |- keeps synced (wbind (run _) _) =>
      first [ apply synced_then_store; [solve [leave]|atomic_statement|]
            | apply synced_then_filter; [solve [leave]|atomic_statement|]
            | apply synced_then_conditional; [solve [leave]|atomic_statement|]
            | apply keeps_wbind ]
  | |- keeps synced (wbind _ _) => apply keeps_wbind
  | |- keeps synced (attempt _) => apply keeps_attempt
  | |- keeps synced (map_err _ _) => apply keeps_map_err
  | |- keeps synced (wfold _ _ _) => apply keeps_wfold
  | |- keeps synced (or_throw _ _) => apply keeps_or_throw
  | |- keeps synced (wret _) => apply keeps_wret
  | |- keeps synced (throw _) => apply keeps_throw
  | |- keeps synced (lift _) => apply keeps_lift
  | |- keeps synced (reads _) => apply keeps_reads
  | |- keeps synced (run _) => apply synced_quiet; solve [leave]
  | |- keeps synced (match ?x with _ => _ end) => destruct x
  | |- keeps synced (updates _) =>
      solve [let a := fresh "a" in let Ha := fresh "Ha" in intros a Ha; destruct Ha; split; assumption]
  | |- keeps synced (fun _ => _) =>
      solve [let a := fresh "a" in let Ha := fresh "Ha" in intros a Ha; repeat case_goal; destruct Ha; split; assumption]
  | |- keeps synced ?m => let h := head_of m in unfold h
  end.

Section Handlers.
Context `{NETS : IpNets} `{HN : HickoryNames} `{TEXT : !HickoryText} `{SIGN : !Signers} `{RES : !HickoryResolvers}.
Context `{DT : DateTimes} `{CR : Credentials} `{TS : !TSigners} `{TOOLS : !DnssecTools} `{ZF : !ZoneFiles} `{ERR : !ErrorTexts}.

(** ** Settings *)

Lemma synced_put_settings tsig_text req : keeps synced (api_put_settings tsig_text req).
Proof.
  intros a Ha. unfold api_put_settings, wbind, get_settings. rewrite run_query. unfold lift.
  destruct (update_settings _ _ _) as [s|err]; [|done]. unfold put_settings. rewrite run_modify. cbn [fst].
  destruct Ha as [H1 H2 H3 H4 H5]. split; intros; try done.
  cbn. rewrite H3 by done. by apply build_from_part.
Qed.

(** ** Blocklists *)

Lemma filter_statement {X} (m : M X) :
  leaves (fun d => (dns_part d, conditional_forwards d, settings d)) m -> keeps (synced_others true false true) (run m).
Proof.
  intros Hl a Ha. unfold run. pose proof (leaves_eq _ m (ap_db a) Hl) as E. destruct (m (ap_db a)) as [d r].
  cbn [fst] in *. injection E as E. apply synced_with_db; [done|congruence| |done|]; intros _; unfold dns_part; congruence.
Qed.

Lemma refresh_one_keeps e id : keeps (synced_others true false true) (refresh_one e id).
Proof.
  unfold refresh_one. apply keeps_wbind; [apply keeps_attempt, filter_statement; leave|]. intros l.
  destruct l as [[l|]|]; [|apply keeps_wret..].
  destruct (fetch_blocklist _ _ _); (apply keeps_wbind; [apply keeps_attempt, filter_statement; leave|]); intros _; apply keeps_wret.
Qed.

Lemma refresh_one_ok e id a : exists a', refresh_one e id a = (a', Ok tt).
Proof.
  unfold refresh_one, wbind, attempt. unfold blocklist. rewrite run_query.
  destruct (_ <$> List.find _ _) as [l|]; [|by exists a].
  destruct (fetch_blocklist _ _ _) as [domains|msg]; destruct (run _ a) as [a' [x|err]]; by eexists.
Qed.

Lemma refresh_lists_keeps e lists a :
  synced_others true false true a ->
  exists a', wfold (fun _ l => if bl_enabled l then refresh_one e (bl_id l) else wret tt) lists tt a = (a', Ok tt) /\
    synced_others true false true a'.
Proof.
  revert a. induction lists as [|l lists IH]; intros a Ha; [by exists a|]. cbn [wfold]. unfold wbind at 1.
  destruct (bl_enabled l); [|by apply IH]. destruct (refresh_one_ok e (bl_id l) a) as [a1 E].
  pose proof (refresh_one_keeps e (bl_id l) a Ha) as H1. rewrite E in *. by apply IH.
Qed.

Lemma synced_create_blocklist e req : keeps synced (api_create_blocklist e req).
Proof.
  unfold api_create_blocklist. destruct (is_empty _); [apply keeps_throw|]. destruct (negb _); [apply keeps_throw|].
  intros a Ha. unfold wbind at 1.
  set (m := create_blocklist _ _ _ _ _). assert (atomic m) as Hm by (subst m; atoms).
  pose proof (filter_statement m ltac:(subst m; leave) a (synced_weaken _ _ _ a Ha)) as H1.
  destruct (run m a) as [a1 [id|err]] eqn:E; cycle 1.
  { unfold run in E. destruct (m (ap_db a)) as [d [x|e']] eqn:Em; [done|]. injection E as <- _.
    apply Hm in Em as ->. by rewrite with_db_id. }
  cbn [fst] in H1.
  assert (forall a2, synced_others true false true a2 -> synced (fst
    ((let+ l := run (blocklist id) in wret (created_json (blocklist_json l))) (reload_filter a2)))) as Hend.
  { intros a2 H2%synced_reload_filter. revert H2. generalize (reload_filter a2).
    change (keeps synced (let+ l := run (blocklist id) in wret (created_json (blocklist_json l)))). synch. }
  unfold wbind at 1. destruct (bc_refresh_now req); [|by apply Hend].
  destruct (refresh_one_ok e id a1) as [a2 E2]. pose proof (refresh_one_keeps e id a1 H1) as H2. rewrite E2 in *.
  by apply Hend.
Qed.

Lemma synced_refresh_blocklist e id : keeps synced (api_refresh_blocklist e id).
Proof.
  intros a Ha. unfold api_refresh_blocklist, wbind at 1. destruct (refresh_one_ok e id a) as [a1 E].
  pose proof (refresh_one_keeps e id a (synced_weaken _ _ _ a Ha)) as H1. rewrite E in *.
  apply synced_reload_filter in H1. cbn [fst] in H1. unfold wbind at 1, updates. revert H1. generalize (reload_filter a1).
  change (keeps synced (let+ l := found (blocklist id) "blocklist" in wret (ok_json (blocklist_json (Some l))))). synch.
Qed.

Lemma synced_refresh_all e : keeps synced (refresh_all_lists e).
Proof.
  intros a Ha. unfold refresh_all_lists, wbind at 1, attempt, list_blocklists. rewrite run_query. unfold wbind at 1.
  edestruct refresh_lists_keeps as (a1 & E & H1); [by apply synced_weaken, Ha|]. erewrite E. by apply synced_reload_filter.
Qed.

(** ** Transfers *)

Lemma synced_transfer e net zid zname primary key : keeps synced (transfer e net zid zname primary key).
Proof.
  unfold transfer. do 3 (apply keeps_wbind; [first [apply keeps_or_throw|apply keeps_reads|apply keeps_lift]|intros ?]).
  destruct (fold_left _ _ _) as [soa tuples]. apply keeps_wbind; [apply keeps_or_throw|intros ss].
  intros a Ha. unfold wbind at 1, stored, map_err.
  pose proof (fun d => leaves_eq (fun d => (filter_part d, conditional_forwards d, settings d))
    (replace_secondary_zone (we_ts e) zid (fst ss) (snd ss) tuples) d ltac:(leave)) as El.
  specialize (El (ap_db a)). unfold run at 1.
  destruct (replace_secondary_zone _ _ _ _ _ (ap_db a)) as [d [n|err]] eqn:E; cycle 1.
  { apply (atomic_transaction _ (ap_db a) d err) in E as ->. cbn. by rewrite with_db_id. }
  cbn [fst] in El. injection El as El. unfold wbind at 1, map_err, run at 1. cbn [ap_db with_db].
  destruct (set_secondary_status_eq (we_ts e) zid None (Some (Z.max (so_refresh (fst ss)) 60)) d) as (S & -> & _).
  unfold wbind, updates, wret. cbn [fst]. apply synced_reload_store. rewrite with_db_twice.
  apply synced_with_db; [|by cbn; congruence|done|..].
  - apply synced_weaken. exact Ha.
  - intros _. unfold filter_part. cbn. congruence.
  - intros _. cbn. congruence.
Qed.

(** ** DynDNS updates *)

(** The view of every token exists. *)
Definition tokens_ok (d : Db) : Prop := Forall (fun t => view_exists d (tr_view_id t) = true) (dyndns_tokens d).

Lemma dyndns_succeeds ts host ip vid ttl d :
  dns_ok d -> view_exists d vid = true ->
  exists d' u, dyndns_set_address ts host ip vid ttl d = (d', Ok u) /\ dns_ok d' /\ view_exists d' vid = true /\
    match u with Unchanged | NoZone => d' = d | _ => True end.
Proof.
  intros Hd Hv. pose proof (dyndns_set_address_ok ts host ip vid ttl d Hd) as Hok.
  pose proof (dyndns_longest d host) as Hz. rewrite dyndns_eq in * by done.
  destruct (dyn_zone d host) as [[zid zname]|]; [|by exists d, NoZone].
  destruct Hz as ((z & Hin & Hid & _) & _).
  assert (zone_exists d zid = true) as He by (apply existsb_exists; exists z; split; [done|by apply Z.eqb_eq]).
  destruct (dyn_record d host ip vid) as [r|].
  - case_bool_decide; [by exists d, Unchanged|]. by eexists _, Updated.
  - rewrite He, Hv in *. cbn [negb orb] in *. by eexists _, Created.
Qed.

Section Update.
Context (e : WebEnv) (auth : DynDnsAuthRow).

Record update_ok (a : AppState) : Prop := {
  up_dns : dns_ok (ap_db a);
  up_view : view_exists (ap_db a) (da_view_id auth) = true;
  up_synced : synced_others false true true a }.

Lemma set_host_addr_synced host changed had ip a :
  update_ok a -> (changed = true -> had = true) ->
  exists a' changed' had', set_host_addr e auth host (changed, had) ip a = (a', Ok (changed', had')) /\ update_ok a' /\
    (changed' = true -> had' = true) /\ (changed' = false -> changed = false /\ a' = a).
Proof.
  intros [Hd Hv Hs] Hc. unfold set_host_addr, wbind, map_err, run.
  destruct (dyndns_succeeds (we_ts e) host ip (da_view_id auth) (da_ttl auth) (ap_db a) Hd Hv) as (d' & u & E & Hd' & Hv' & Hu).
  pose proof (leaves_eq (fun d => (filter_part d, conditional_forwards d, settings d))
    (dyndns_set_address (we_ts e) host ip (da_view_id auth) (da_ttl auth)) (ap_db a) ltac:(leave)) as El.
  rewrite E in *. cbn [fst] in El. injection El as El.
  assert (update_ok (with_db d' a)) as Hok.
  { split; [done|done|]. apply synced_with_db; [done|congruence|done|..]; intros _; unfold filter_part; congruence. }
  destruct u; eexists _, _, _; (split; [reflexivity|]); (split; [done|]); (split; [done|]); try done.
  all: intros Hf; subst d'; by rewrite with_db_id.
Qed.

Lemma addr_loop_synced host ips changed had a :
  update_ok a -> (changed = true -> had = true) ->
  exists a' changed' had', wfold (set_host_addr e auth host) ips (changed, had) a = (a', Ok (changed', had')) /\
    update_ok a' /\ (changed' = true -> had' = true) /\ (changed' = false -> changed = false /\ a' = a).
Proof.
  revert changed had a. induction ips as [|ip ips IH]; intros changed had a Ha Hc; [by exists a, changed, had|].
  destruct (set_host_addr_synced host changed had ip a Ha Hc) as (a1 & c1 & h1 & E1 & H1 & Hc1 & Hf1).
  destruct (IH c1 h1 a1 H1 Hc1) as (a2 & c2 & h2 & E2 & H2 & Hc2 & Hf2).
  exists a2, c2, h2. cbn [wfold]. unfold wbind. rewrite E1, E2. split_and!; try done.
  intros Hf. destruct (Hf2 Hf) as [-> ->]. by apply Hf1.
Qed.

Lemma host_loop_synced ips label hosts lines any a :
  update_ok a ->
  exists a' lines' any', wfold (update_host e auth ips label) hosts (lines, any) a = (a', Ok (lines', any')) /\
    update_ok a' /\ (any' = false -> any = false /\ a' = a).
Proof.
  revert lines any a. induction hosts as [|host hosts IH]; intros lines any a Ha; [by exists a, lines, any|].
  assert (exists a1 l1 any1, update_host e auth ips label (lines, any) host a = (a1, Ok (l1, any1)) /\ update_ok a1 /\
    (any1 = false -> any = false /\ a1 = a)) as (a1 & l1 & any1 & E1 & H1 & Hf1).
  { unfold update_host. destruct (negb _); [by exists a, (lines ++ ["nohost"]), any|]. unfold wbind.
    destruct (addr_loop_synced host ips false false a Ha) as (a1 & c1 & h1 & -> & H1 & Hc1 & Hf1); [done|].
    destruct h1; cbn [negb].
    - destruct c1; eexists _, _, _; (split; [reflexivity|]); [done|]. split; [done|]. intros ->. by destruct (Hf1 eq_refl).
    - eexists _, _, _. split; [reflexivity|]. split; [done|]. intros ->. split; [done|]. apply Hf1.
      destruct c1; [by specialize (Hc1 eq_refl)|done]. }
  destruct (IH l1 any1 a1 H1) as (a2 & l2 & any2 & E2 & H2 & Hf2).
  exists a2, l2, any2. cbn [wfold]. unfold wbind. rewrite E1, E2. split_and!; try done.
  intros Hf. destruct (Hf2 Hf) as [-> ->]. by apply Hf1.
Qed.
End Update.

Lemma synced_nic_update e peer h params a :
  dns_ok (ap_db a) -> tokens_ok (ap_db a) -> synced a -> synced (fst (nic_update e peer h params a)).
Proof.
  intros Hd Ht Ha. unfold nic_update. rewrite nic_update_steps_eq. destruct (token_of h (ap_db a)) as [auth|] eqn:Et; [|done].
  assert (view_exists (ap_db a) (da_view_id auth) = true) as Hv.
  { unfold token_of, dyndns_auth, query in Et. destruct (basic_auth h) as [[u pw]|]; [|done]. cbn [snd fst] in Et.
    destruct (List.find _ _) as [t|] eqn:Ef; [|done]. cbn in Et. destruct (_ && _); [|done]. injection Et as <-.
    apply List.find_some in Ef as [Hin _]. cbn. unfold tokens_ok in Ht. rewrite List.Forall_forall in Ht. by apply Ht. }
  unfold nic_update_as. destruct (hostname_param params) as [hs|]; [|done]. cbn [or_throw]. unfold wbind at 1, wret at 1.
  destruct (is_nil (host_list hs)); [done|].
  set (ips := update_addrs params peer). set (label := join "," (show_ip <$> ips)).
  destruct (host_loop_synced e auth ips label (host_list hs) [] false a) as (a1 & lines & any & E & H1 & Hf).
  { split; [done..|by apply synced_weaken]. }
  unfold wbind at 1. rewrite E. unfold wbind at 1.
  assert (exists a2, (if any then updates (E := Response) reload_store else wret tt) a1 = (a2, Ok tt) /\ synced a2)
    as (a2 & E2 & H2).
  { destruct any; eexists; (split; [reflexivity|]); [by apply synced_reload_store, (up_synced auth)|].
    by destruct (Hf eq_refl) as [_ ->]. }
  rewrite E2. unfold wbind at 1. pose proof (synced_quiet true true true (touch_dyndns_token (we_ts e) (da_id auth) label)
    ltac:(leave) a2 H2) as H3. unfold attempt. by destruct (run _ a2) as [a3 [x|err]].
Qed.
End Handlers.
