(* ===== verification/Integrity.v ===== *)
(** * The integrity of the database

    [db_ok] states the constraints of [migrations/] over all tables - every
    [PRIMARY KEY], [UNIQUE] and [REFERENCES] - with the two invariants that the code adds,
    a view that cannot be deleted and at most one account.  Every statement keeps
    it ([db_statement]), and so does every handler ([handler_ok]). *)

From S2P Require Import Prelude Strs Net Geo External Models DhcpOptions Db DbDns DbFilter DbDhcp DbAdmin Filter Upstream.
From S2P Require Import Cache Stats Mdns Dnssec Store State Config Web Auth DynDns Transfer ApiZones ApiFilter.
From S2P Require Import ApiDhcp Reports Sync.

(** ** The invariant of the database *)

(** There is at most one account, and a view that cannot be deleted. *)
Definition one_user (d : Db) : Prop := (length (users d) <= 1)%nat.
Definition default_view (d : Db) : Prop := existsb vw_is_default (views d) = true.

(** The constraints of the tables that hang on zones, and of the tokens. *)
Record links_ok (d : Db) : Prop := {
  lk_keys : NoDup (dk_zone_id <$> dnssec_keys d);
  lk_key_zone : dk_zone_id <$> dnssec_keys d ⊆ zr_id <$> zones d;
  lk_secondaries : NoDup (sy_zone_id <$> secondary_zones d);
  lk_secondary_zone : sy_zone_id <$> secondary_zones d ⊆ zr_id <$> zones d;
  lk_token_ids : NoDup (tr_id <$> dyndns_tokens d);
  lk_token_names : NoDup (tr_username <$> dyndns_tokens d) }.
(** Those of the filter's tables. *)
Record lists_ok (d : Db) : Prop := {
  li_blocklist_ids : NoDup (blr_id <$> blocklists d);
  li_blocklist_urls : NoDup (blr_url <$> blocklists d);
  li_entry_list : fst <$> blocklist_entries d ⊆ blr_id <$> blocklists d;
  li_rule_ids : NoDup (br_id <$> block_rules d);
  li_rewrite_ids : NoDup (rw_id <$> rewrites d);
  li_forward_ids : NoDup (cf_id <$> conditional_forwards d);
  li_forward_domains : NoDup (cf_domain <$> conditional_forwards d) }.
(** The rows of the logs are numbered without gaps. *)
Record rows_ok (d : Db) : Prop := {
  ro_audit : consecutive au_id (audit_log d);
  ro_queries : consecutive ql_id (query_log d) }.

Record db_ok (d : Db) : Prop := {
  ok_dns : dns_ok d;
  ok_links : links_ok d;
  ok_lists : lists_ok d;
  ok_rows : rows_ok d;
  ok_tokens : tokens_ok d;
  ok_default : default_view d;
  ok_dhcp : dhcp_ok d;
  ok_admin : admin_ok d;
  ok_one_user : one_user d }.

(** Each part depends on its tables only. *)
Lemma frame_dns {Y} (m : M Y) : leaves (fun d => (views d, zones d, records d)) m -> preserves dns_ok m.
Proof.
  intros Hl d Hd. pose proof (leaves_eq _ m d Hl) as E. injection E as E1 E2 E3. destruct Hd.
  split; rewrite ?E1, ?E2, ?E3; done.
Qed.
Lemma frame_tokens {Y} (m : M Y) : leaves (fun d => (views d, dyndns_tokens d)) m -> preserves tokens_ok m.
Proof.
  intros Hl d Hd. pose proof (leaves_eq _ m d Hl) as E. injection E as E1 E2. unfold tokens_ok, view_exists in *.
  by rewrite E1, E2.
Qed.
Lemma frame_default {Y} (m : M Y) : leaves views m -> preserves default_view m.
Proof. intros Hl d Hd. pose proof (leaves_eq _ m d Hl) as E. unfold default_view in *. by rewrite E. Qed.
Lemma frame_dhcp {Y} (m : M Y) :
  leaves (fun d => (dhcp_scopes d, dhcp_reservations d, dhcp_leases d)) m -> preserves dhcp_ok m.
Proof.
  intros Hl d Hd. pose proof (leaves_eq _ m d Hl) as E. injection E as E1 E2 E3. destruct Hd.
  split; rewrite ?E1, ?E2, ?E3; done.
Qed.
Lemma frame_admin {Y} (m : M Y) : leaves (fun d => (users d, sessions d)) m -> preserves admin_ok m.
Proof.
  intros Hl d Hd. pose proof (leaves_eq _ m d Hl) as E. injection E as E1 E2. destruct Hd. split; rewrite ?E1, ?E2; done.
Qed.
Lemma frame_links {Y} (m : M Y) :
  leaves (fun d => (zones d, dnssec_keys d, secondary_zones d, dyndns_tokens d)) m -> preserves links_ok m.
Proof.
  intros Hl d Hd. pose proof (leaves_eq _ m d Hl) as E. injection E as E1 E2 E3 E4. destruct Hd.
  split; rewrite ?E1, ?E2, ?E3, ?E4; done.
Qed.
Lemma frame_lists {Y} (m : M Y) :
  leaves (fun d => (blocklists d, blocklist_entries d, block_rules d, rewrites d, conditional_forwards d)) m ->
  preserves lists_ok m.
Proof.
  intros Hl d Hd. pose proof (leaves_eq _ m d Hl) as E. injection E as E1 E2 E3 E4 E5. destruct Hd.
  split; rewrite ?E1, ?E2, ?E3, ?E4, ?E5; done.
Qed.
Lemma frame_rows {Y} (m : M Y) : leaves (fun d => (audit_log d, query_log d)) m -> preserves rows_ok m.
Proof.
  intros Hl d Hd. pose proof (leaves_eq _ m d Hl) as E. injection E as E1 E2. destruct Hd. split; rewrite ?E1, ?E2; done.
Qed.
Lemma frame_one_user {Y} (m : M Y) : leaves users m -> preserves one_user m.
Proof. intros Hl d Hd. pose proof (leaves_eq _ m d Hl) as E. unfold one_user in *. by rewrite E. Qed.

(** ** Views, tokens and accounts *)

Lemma view_exists_app d vs o : view_exists d o = true -> view_exists (set_views (views d ++ vs) d) o = true.
Proof. destruct o as [v|]; [|done]. cbn. intros H. by rewrite existsb_app, H. Qed.

Lemma tokens_create_view ts n nets p cs cts asns : preserves tokens_ok (create_view ts n nets p cs cts asns).
Proof.
  intros d Hd. unfold create_view. destruct (view_name_taken n d); [done|]. unfold tokens_ok in *. cbn [fst dyndns_tokens set_views].
  eapply List.Forall_impl; [|exact Hd]. intros t. apply view_exists_app.
Qed.

Lemma tokens_update_view_row id f : (forall v, vw_id (f v) = vw_id v) -> preserves tokens_ok (update_view_row id f).
Proof.
  intros Hf d Hd. unfold tokens_ok in *. cbn [fst update_view_row modify dyndns_tokens set_views].
  eapply List.Forall_impl; [|exact Hd]. intros t. unfold view_exists. destruct (tr_view_id t) as [v|]; [|done].
  intros Ht. apply existsb_exists in Ht as (w & Hw & Hv). apply existsb_exists.
  exists (if vw_id w =? id then f w else w). split; [cbn; apply in_update_where; eauto|]. destruct (vw_id w =? id); [by rewrite Hf|done].
Qed.

Lemma tokens_update_view id n nets p cs cts asns : preserves tokens_ok (update_view id n nets p cs cts asns).
Proof.
  unfold update_view. preserve; try by apply tokens_update_view_row.
  intros d Hd. destruct (_ && _); [done|]. by apply tokens_update_view_row.
Qed.

Lemma tokens_delete_view id : preserves tokens_ok (delete_view id).
Proof.
  intros d Hd. unfold tokens_ok in *. cbn. apply List.Forall_forall. intros t Ht.
  apply in_update_where in Ht as (t0 & Hin & ->). rewrite List.Forall_forall in Hd. specialize (Hd t0 Hin).
  destruct (bool_decide (tr_view_id t0 = Some id)) eqn:E; [done|]. breflect.
  unfold view_exists in *. destruct (tr_view_id t0) as [v|]; [|done].
  apply existsb_exists in Hd as (w & Hw & Hv). apply existsb_exists. exists w. split; [|done].
  cbn. apply in_delete_where. split; [done|]. apply Z.eqb_eq in Hv. apply Z.eqb_neq. congruence.
Qed.

Lemma tokens_create ts l u sh hs v ttl : preserves tokens_ok (create_dyndns_token ts l u sh hs v ttl).
Proof.
  intros d Hd. unfold create_dyndns_token. destruct (existsb _ _); [done|]. destruct (view_exists d v) eqn:E; [|done].
  cbn. apply Forall_app. split; [done|]. by apply List.Forall_cons.
Qed.
Lemma tokens_delete id : preserves tokens_ok (delete_dyndns_token id).
Proof.
  intros d Hd. unfold tokens_ok in *. cbn. rewrite List.Forall_forall in *. intros t Ht.
  apply in_delete_where in Ht as [Ht _]. by apply Hd.
Qed.
Lemma tokens_touch ts id ip : preserves tokens_ok (touch_dyndns_token ts id ip).
Proof.
  intros d Hd. unfold tokens_ok in *. cbn. rewrite List.Forall_forall in *. intros t Ht.
  apply in_update_where in Ht as (t0 & Hin & ->). specialize (Hd t0 Hin). by destruct (_ =? _).
Qed.

Lemma default_create_view ts n nets p cs cts asns : preserves default_view (create_view ts n nets p cs cts asns).
Proof.
  intros d Hd. unfold create_view. destruct (view_name_taken n d); [done|]. unfold default_view in *. cbn.
  by rewrite existsb_app, Hd.
Qed.
Lemma default_update_view_row id f : (forall v, vw_is_default (f v) = vw_is_default v) -> preserves default_view (update_view_row id f).
Proof.
  intros Hf d Hd. unfold default_view in *. cbn. apply existsb_exists in Hd as (v & Hv & Hdef).
  apply existsb_exists. exists (if vw_id v =? id then f v else v). split; [apply in_update_where; eauto|].
  destruct (vw_id v =? id); [by rewrite Hf|done].
Qed.
Lemma default_update_view id n nets p cs cts asns : preserves default_view (update_view id n nets p cs cts asns).
Proof.
  unfold update_view. preserve; try by apply default_update_view_row.
  intros d Hd. destruct (_ && _); [done|]. by apply default_update_view_row.
Qed.

Lemma first_user_only ts n h : preserves one_user (create_first_user ts n h).
Proof.
  intros d Hd. unfold create_first_user, user_count, bind, query. destruct (0 <? _) eqn:E; [done|].
  apply Z.ltb_ge in E. unfold create_user. destruct (existsb _ _); [done|]. unfold one_user. cbn. rewrite length_app. cbn. lia.
Qed.
Lemma one_user_password id h : preserves one_user (set_password id h).
Proof. intros d Hd. unfold one_user in *. cbn. unfold update_where. by rewrite length_fmap. Qed.
#[export] Hint Resolve tokens_create_view tokens_update_view tokens_delete_view tokens_create tokens_delete tokens_touch
  default_create_view default_update_view first_user_only one_user_password : preserve.

(** ** Keys, secondary zones, tokens *)

Lemma subseteq_snoc {A} (l l' : list A) x : l ⊆ l' -> x ∈ l' -> l ++ [x] ⊆ l'.
Proof. intros Hl Hx y Hy. apply elem_of_app in Hy as [Hy|Hy%list_elem_of_singleton]; [by apply Hl|by subst]. Qed.
(** Deleting a row and what refers to it leaves no dangling reference. *)
Lemma subseteq_cascade {A B} (k : A -> Z) (id : B -> Z) l t n :
  k <$> l ⊆ id <$> t -> k <$> delete_where (fun x => k x =? n) l ⊆ id <$> delete_where (fun x => id x =? n) t.
Proof.
  intros H y (x & -> & Hx)%list_elem_of_fmap. apply list_elem_of_In, in_delete_where in Hx as [Hx Hn].
  assert (k x ∈ id <$> t) as (z & E & Hz)%list_elem_of_fmap.
  { apply H, list_elem_of_fmap. exists x. split; [done|]. by apply list_elem_of_In. }
  apply list_elem_of_fmap. exists z. split; [done|]. apply list_elem_of_In, in_delete_where.
  split; [by apply list_elem_of_In|congruence].
Qed.
Lemma subseteq_delete {A B} (k : A -> B) p l t : k <$> l ⊆ t -> k <$> delete_where p l ⊆ t.
Proof.
  intros H y (x & -> & Hx)%list_elem_of_fmap. apply list_elem_of_In, in_delete_where in Hx as [Hx _].
  apply H, list_elem_of_fmap. exists x. split; [done|]. by apply list_elem_of_In.
Qed.
Lemma zone_exists_in d id : zone_exists d id = true -> id ∈ zr_id <$> zones d.
Proof. apply existsb_key_true. intros z. apply eqb_bool_decide. Qed.

Lemma links_create_zone ts n soa ttl : preserves links_ok (create_zone ts n soa ttl).
Proof.
  intros d [H1 H2 H3 H4 H5 H6]. unfold create_zone. case_goal; [done|].
  split; cbn; try done; rewrite fmap_app; set_solver.
Qed.
Lemma links_zone_row id f : (forall z, zr_id (f z) = zr_id z) -> preserves links_ok (update_zone_row id f).
Proof. intros Hf d []. split; cbn; rewrite ?map_update_where by done; done. Qed.
Lemma links_bump ts id : preserves links_ok (bump_serial ts id).
Proof. by apply links_zone_row. Qed.
Lemma links_update_zone ts id e soa ttl : preserves links_ok (update_zone ts id e soa ttl).
Proof. unfold update_zone. preserve; by apply links_zone_row. Qed.
Lemma links_delete_zone id : preserves links_ok (delete_zone id).
Proof.
  intros d []. split; cbn; try by apply NoDup_delete_where. all: try by apply subseteq_cascade. all: done.
Qed.
Lemma links_create_secondary ts id p r k : preserves links_ok (create_secondary ts id p r k).
Proof.
  intros d [H1 H2 H3 H4 H5 H6]. unfold create_secondary. case_goal; [done|]. case_goal; [done|]. breflect.
  split; cbn; try done; rewrite fmap_app.
  - apply NoDup_snoc; [done|]. eapply existsb_key; [|done]. intros s. apply eqb_bool_decide.
  - apply subseteq_snoc; [done|]. by apply zone_exists_in.
Qed.
Lemma links_secondary_status ts id e r : preserves links_ok (set_secondary_status ts id e r).
Proof. unfold set_secondary_status. preserve; intros d []; split; cbn; rewrite ?map_update_where by done; done. Qed.
Lemma links_create_key ts id a s n salt i : preserves links_ok (create_dnssec_key ts id a s n salt i).
Proof.
  intros d [H1 H2 H3 H4 H5 H6]. unfold create_dnssec_key. cbv zeta. destruct (existsb _ _) eqn:E.
  - assert (dk_zone_id <$> update_where (fun k => dk_zone_id k =? id) (fun _ => mkDnssecRow id a s n salt i ts) (dnssec_keys d)
      = dk_zone_id <$> dnssec_keys d) as Ek.
    { unfold update_where. rewrite <- list_fmap_compose. apply list_fmap_ext. intros j k _. cbn.
      by destruct (Z.eqb_spec (dk_zone_id k) id). }
    split; cbn; rewrite ?Ek; done.
  - case_goal; [done|]. breflect. split; cbn; try done; rewrite fmap_app.
    + apply NoDup_snoc; [done|]. eapply existsb_key; [|done]. intros k. apply eqb_bool_decide.
    + apply subseteq_snoc; [done|]. by apply zone_exists_in.
Qed.
Lemma links_delete_key id : preserves links_ok (delete_dnssec_key id).
Proof. intros d []. split; cbn; try done; [by apply NoDup_delete_where|by apply subseteq_delete]. Qed.
Lemma links_create_token ts l u sh hs v ttl : preserves links_ok (create_dyndns_token ts l u sh hs v ttl).
Proof.
  intros d [H1 H2 H3 H4 H5 H6]. unfold create_dyndns_token. case_goal; [done|]. case_goal; [done|].
  split; cbn; try done; rewrite fmap_app; apply NoDup_snoc; try done; [apply next_id_notin|by eapply existsb_key].
Qed.
Lemma links_token_rows p f d :
  (forall t, tr_id (f t) = tr_id t) -> (forall t, tr_username (f t) = tr_username t) -> links_ok d ->
  links_ok (set_dyndns_tokens (update_where p f (dyndns_tokens d)) d).
Proof. intros H1 H2 []. split; cbn; rewrite ?map_update_where by done; done. Qed.
Lemma links_delete_token id : preserves links_ok (delete_dyndns_token id).
Proof. intros d []. split; cbn; try done; by apply NoDup_delete_where. Qed.
Lemma links_touch ts id ip : preserves links_ok (touch_dyndns_token ts id ip).
Proof. intros d Hd. by apply links_token_rows. Qed.
Lemma links_delete_view id : preserves links_ok (delete_view id).
Proof. intros d []. split; cbn; rewrite ?map_update_where by done; done. Qed.
#[export] Hint Resolve links_create_zone links_bump links_update_zone links_delete_zone links_create_secondary
  links_secondary_status links_create_key links_delete_key links_create_token links_delete_token links_touch
  links_delete_view : preserve.

(** Statements on records touch the zones by their serials only. *)
Ltac links_of m := unfold m; preserve; apply frame_links; leave.
Lemma links_create_record ts z v n t ttl x : preserves links_ok (create_record ts z v n t ttl x).
Proof. links_of @create_record. Qed.
Lemma links_update_record ts i v n ttl x e : preserves links_ok (update_record ts i v n ttl x e).
Proof. links_of @update_record. Qed.
Lemma links_delete_record ts i : preserves links_ok (delete_record ts i).
Proof. links_of @delete_record. Qed.
#[export] Hint Resolve links_create_record links_update_record links_delete_record : preserve.
Lemma links_dyndns ts h ip v ttl : preserves links_ok (dyndns_set_address ts h ip v ttl).
Proof. unfold dyndns_set_address. preserve. Qed.
Lemma links_import ts z b rs : preserves links_ok (import_records ts z b rs).
Proof. links_of @import_records. Qed.
Lemma links_replace ts z soa s rs : preserves links_ok (replace_secondary_zone ts z soa s rs).
Proof. unfold replace_secondary_zone. preserve; [by apply links_zone_row|apply frame_links; leave..]. Qed.
#[export] Hint Resolve links_dyndns links_import links_replace : preserve.

(** ** Lists, rules, rewrites, forwards *)

Lemma lists_create_blocklist ts n u f e : preserves lists_ok (create_blocklist ts n u f e).
Proof.
  intros d [H1 H2 H3 H4 H5 H6 H7]. unfold create_blocklist. case_goal; [done|].
  split; cbn; try done; rewrite fmap_app; [apply NoDup_snoc; [done|apply next_id_notin]|
    apply NoDup_snoc; [done|by eapply existsb_key]|set_solver].
Qed.
Lemma lists_blocklist_row id f :
  (forall b, blr_id (f b) = blr_id b) -> (forall b, blr_url (f b) = blr_url b) -> preserves lists_ok (update_blocklist_row id f).
Proof. intros Hi Hu d []. split; cbn; rewrite ?map_update_where by done; done. Qed.
Lemma lists_update_blocklist id n e : preserves lists_ok (update_blocklist id n e).
Proof. unfold update_blocklist. preserve; by apply lists_blocklist_row. Qed.
Lemma lists_blocklist_error id e : preserves lists_ok (set_blocklist_error id e).
Proof. by apply lists_blocklist_row. Qed.
Lemma lists_delete_blocklist id : preserves lists_ok (delete_blocklist id).
Proof. intros d []. split; cbn; try done; [by apply NoDup_delete_where..|by apply subseteq_cascade]. Qed.
Lemma lists_insert_entry id x : preserves lists_ok (insert_entry id x).
Proof.
  intros d [H1 H2 H3 H4 H5 H6 H7]. unfold insert_entry. destruct (existsb _ _) eqn:E; [|done].
  split; cbn; try done. rewrite fmap_app. apply subseteq_snoc; [done|]. cbn.
  eapply existsb_key_true; [|exact E]. intros b. apply eqb_bool_decide.
Qed.
#[local] Hint Resolve lists_insert_entry : preserve.
Lemma lists_replace_entries ts id ds e : preserves lists_ok (replace_blocklist_entries ts id ds e).
Proof.
  unfold replace_blocklist_entries. preserve; [|by apply lists_blocklist_row].
  intros d []. split; cbn; try done. by apply subseteq_delete.
Qed.
Lemma lists_create_rule ts x a c : preserves lists_ok (create_block_rule ts x a c).
Proof. intros d []. split; cbn; try done. rewrite fmap_app. apply NoDup_snoc; [done|apply next_id_notin]. Qed.
Lemma lists_delete_rule id : preserves lists_ok (delete_block_rule id).
Proof. intros d []. split; cbn; try done. by apply NoDup_delete_where. Qed.
Lemma lists_create_rewrite ts x t c : preserves lists_ok (create_rewrite ts x t c).
Proof. intros d []. split; cbn; try done. rewrite fmap_app. apply NoDup_snoc; [done|apply next_id_notin]. Qed.
Lemma lists_update_rewrite id x t e : preserves lists_ok (update_rewrite id x t e).
Proof. unfold update_rewrite. preserve; intros d []; split; cbn; rewrite ?map_update_where by done; done. Qed.
Lemma lists_delete_rewrite id : preserves lists_ok (delete_rewrite id).
Proof. intros d []. split; cbn; try done. by apply NoDup_delete_where. Qed.
Lemma lists_create_forward ts x f : preserves lists_ok (create_conditional_forward ts x f).
Proof.
  intros d []. unfold create_conditional_forward. case_goal; [done|].
  split; cbn; try done; rewrite fmap_app; apply NoDup_snoc; try done; [apply next_id_notin|by eapply existsb_key].
Qed.
Lemma lists_update_forward id f e : preserves lists_ok (update_conditional_forward id f e).
Proof. unfold update_conditional_forward. preserve; intros d []; split; cbn; rewrite ?map_update_where by done; done. Qed.
Lemma lists_delete_forward id : preserves lists_ok (delete_conditional_forward id).
Proof. intros d []. split; cbn; try done; by apply NoDup_delete_where. Qed.
#[export] Hint Resolve lists_create_blocklist lists_update_blocklist lists_blocklist_error lists_delete_blocklist
  lists_replace_entries lists_create_rule lists_delete_rule lists_create_rewrite lists_update_rewrite lists_delete_rewrite
  lists_create_forward lists_update_forward lists_delete_forward : preserve.

(** ** The logs *)

Lemma rows_audit ts u x st i : preserves rows_ok (insert_audit ts u x st i).
Proof.
  intros d [H1 H2]. split; [|done]. cbn. rewrite consecutive_trim; [|unfold AUDIT_CAP; lia|by apply consecutive_snoc].
  by apply consecutive_drop, consecutive_snoc.
Qed.
Lemma rows_query q : preserves rows_ok (insert_query q).
Proof. intros d [H1 H2]. split; [done|]. by apply consecutive_snoc. Qed.
Lemma rows_queries qs : preserves rows_ok (insert_queries qs).
Proof. apply preserves_transaction, preserves_for_each. intros. apply rows_query. Qed.
Lemma rows_prune n : preserves rows_ok (prune_query_log n).
Proof.
  intros d [H1 H2]. split; [done|]. cbn. pose proof H2 as (first & _ & E). unfold delete_where.
  rewrite (filter_above ql_id _ first) by done. by apply consecutive_drop.
Qed.
#[export] Hint Resolve rows_audit rows_queries rows_prune : preserve.

(** ** Handlers keep the invariant *)

Lemma db_ok_statement {Y} (m : M Y) :
  preserves dns_ok m -> preserves links_ok m -> preserves lists_ok m -> preserves rows_ok m -> preserves tokens_ok m -> preserves default_view m -> preserves dhcp_ok m ->
  preserves admin_ok m -> preserves one_user m -> preserves db_ok m.
Proof. intros H1 H2 H3 H4 H5 H6 H7 H8 H9 d []. split; auto. Qed.

Ltac ok_part frame :=
  first [ solve [auto 2 with preserve] | apply frame; solve [leave]
        | match goal with |- preserves _ ?m => let h := head_of m in unfold h; solve [preserve; apply frame; leave] end ].
Ltac db_statement :=
  apply db_ok_statement;
  [ ok_part @frame_dns | ok_part @frame_links | ok_part @frame_lists | ok_part @frame_rows | ok_part @frame_tokens | ok_part @frame_default | ok_part @frame_dhcp | ok_part @frame_admin
  | ok_part @frame_one_user ].

(** Follow a handler down: [statement] for what it runs on the database, [update]
    for what it changes of the state, [rest] for the code that does neither. *)
Ltac walk_handler statement update rest :=
  repeat match goal with
  | |- forall _, _ => intro
  | |- keeps _ (wbind _ _) => apply keeps_wbind
  | |- keeps _ (attempt _) => apply keeps_attempt
  | |- keeps _ (map_err _ _) => apply keeps_map_err
  | |- keeps _ (wfold _ _ _) => apply keeps_wfold
  | |- keeps _ (or_throw _ _) => apply keeps_or_throw
  | |- keeps _ (wret _) => apply keeps_wret
  | |- keeps _ (throw _) => apply keeps_throw
  | |- keeps _ (lift _) => apply keeps_lift
  | |- keeps _ (reads _) => apply keeps_reads
  | |- keeps _ (updates _) => apply keeps_updates; solve [update]
  | |- keeps _ (run _) => solve [statement]
  | |- keeps _ (match ?x with _ => _ end) => destruct x
  | |- keeps _ (fun _ => _) =>
      solve [let a := fresh "a" in let Ha := fresh "Ha" in intros a Ha; repeat case_goal; rest a Ha]
  | |- keeps _ ?m => let h := head_of m in unfold h
  end.
(** Follow a handler down to its statements. *)
Ltac handler_steps statement :=
  walk_handler ltac:(apply keeps_run; statement) ltac:(auto) ltac:(fun a Ha => auto).
Ltac handler_ok := handler_steps db_statement.

(** A view can go as long as one that cannot stays. *)
Lemma db_ok_delete_view id d : db_ok d -> default_view (fst (delete_view id d)) -> db_ok (fst (delete_view id d)).
Proof.
  intros [] Hv. split; [by apply (delete_view_ok id)|by apply (links_delete_view id)|by destruct ok_lists0; split
    |by destruct ok_rows0; split|by apply (tokens_delete_view id)|done|by destruct ok_dhcp0; split
    |by destruct ok_admin0; split|done].
Qed.

Section Integrity.
Context `{NETS : IpNets} `{HN : HickoryNames} `{TEXT : !HickoryText} `{SIGN : !Signers} `{RES : !HickoryResolvers}.
Context `{DT : DateTimes} `{CR : Credentials} `{TS : !TSigners} `{TOOLS : !DnssecTools} `{ZF : !ZoneFiles} `{ERR : !ErrorTexts}.

Lemma ok_delete_view id : keeps (db_prop db_ok) (api_delete_view id).
Proof.
  intros a Ha. unfold api_delete_view, found, wbind at 1, wbind at 1, view. rewrite run_query.
  destruct (List.find _ _) as [v|] eqn:Ef; [|done]. cbn [or_throw]. unfold wret at 1.
  destruct (vw_is_default v) eqn:Edef; [done|]. apply List.find_some in Ef as [Hv Hid]. breflect.
  unfold wbind, delete_view, updates, wret. rewrite run_modify. unfold db_prop. cbn [fst ap_db reload_store with_db].
  pose proof (ok_dns _ Ha) as H1. pose proof (ok_default _ Ha) as H3. apply db_ok_delete_view; [done|].
  unfold default_view in *. cbn. apply existsb_exists in H3 as (w & Hw & Hd). apply existsb_exists. exists w.
  split; [|done]. apply in_delete_where. split; [done|]. apply Z.eqb_neq. intros E.
  assert (Some v = Some w) as [= ->]; [|congruence].
  rewrite <- (find_unique vw_id (fun x => vw_id x =? id) (views (ap_db a)) v);
    [|intros; rewrite <- Hid; apply eqb_bool_decide|apply H1|done].
  apply (find_unique vw_id); [intros; rewrite <- E; apply eqb_bool_decide|apply H1|done].
Qed.

Lemma ok_nic_update e peer h params a :
  db_ok (ap_db a) -> db_ok (ap_db (fst (nic_update e peer h params a))).
Proof.
  intros Ha. assert (keeps (db_prop db_ok) (nic_update_steps e peer h params)) as H by handler_ok.
  specialize (H a Ha). unfold nic_update. by destruct (nic_update_steps _ _ _ _ a) as [a' [r|r]].
Qed.
End Integrity.
