(* ===== verification/Resolve.v ===== *)
(** * The resolution core ([src/dns/resolve.rs])

    [resolve_query] on the shared state.  What the outside world supplies while
    one query is served (clocks, the network, the random shuffle, the geo
    databases, room in the channels of the background writers) is an [Env].  The result is [None] where the code panics, which
    [DnsCache::put] may do. *)

From S2P Require Import Prelude Strs Net Geo External Models Db Filter Upstream Cache Stats Mdns Dnssec Store State.

Definition SINKHOLE_TTL : Z := 60.
Definition REWRITE_TTL : Z := 300.

(** ** Load balancing *)

Section LoadBalance.
Context `{HN : HickoryNames}.

(** The positions of the records of a type. *)
Definition positions (t : RecordType) (answers : list DRecord) : list nat :=
  List.filter (fun i => match answers !! i with Some r => bool_decide (rec_type r = t) | None => false end)
    (seq 0 (length answers)).

(** [for (slot, &i) in idxs { answers[i] = group[slot] }]. *)
Definition write_back (idxs : list nat) (group answers : list DRecord) : list DRecord :=
  fold_left (fun ans '(i, r) => <[i := r]> ans) (zip idxs group) answers.

(** [rotate_left(k)]. *)
Definition rotate_left (k : nat) (l : list DRecord) : list DRecord := drop k l ++ take k l.

(** The body of the loop over the address types; [shuffle] is the random permutation. *)
Definition balance_type (mode : LoadBalance) (offset : Z) (shuffle : list DRecord -> list DRecord)
    (answers : list DRecord) (t : RecordType) : list DRecord :=
  let idxs := positions t answers in
  if (length idxs <? 2)%nat then answers
  else
    let group := omap (fun i => answers !! i) idxs in
    let group := match mode with
                 | RoundRobin => rotate_left (Z.to_nat (offset mod Z.of_nat (length group))) group
                 | Random => shuffle group
                 | LbOff => group
                 end in
    write_back idxs group answers.

Definition apply_load_balance (answers : list DRecord) (mode : LoadBalance) (offset : Z)
    (shuffle : list DRecord -> list DRecord) : list DRecord :=
  if bool_decide (mode = LbOff) || (length answers <? 2)%nat then answers
  else fold_left (balance_type mode (if bool_decide (mode = RoundRobin) then offset else 0) shuffle) [A; AAAA] answers.

(** Whether the rotation counter is taken. *)
Definition takes_rotation (answers : list DRecord) (mode : LoadBalance) : bool :=
  bool_decide (mode = RoundRobin) && negb (length answers <? 2)%nat.
End LoadBalance.

Section Resolve.
Context `{NETS : IpNets} `{HN : HickoryNames} `{TEXT : !HickoryText} `{SIGN : !Signers} `{RES : !HickoryResolvers}
  `{UNI : Unicode}.

Record Env : Type := mkEnv {
  ev_ts : string; ev_sec : Z; ev_now : Z; ev_unix : Z; ev_latency : Z;
  ev_net : Network; ev_shuffle : list DRecord -> list DRecord; ev_geo : IpAddr -> ClientGeo;
  ev_qlog_room : bool; ev_blocked_room : bool }.

Record ResolveOutput : Type := mkResolveOutput {
  ro_answers : list DRecord; ro_authority : list DRecord; ro_rcode : ResponseCode;
  ro_authoritative : bool; ro_recursion_available : bool }.

Definition same_name (a b : Name) : bool :=
  eq_ignore_ascii_case (trim_end_matches "."%char (Name_to_string a)) (trim_end_matches "."%char (Name_to_string b)).

Definition block_answer (mode : BlockMode) (qname : Name) (qtype : RecordType) (ra : bool) : ResolveOutput :=
  match mode with
  | BlockNxDomain => mkResolveOutput [] [] NXDomain true ra
  | BlockRefused => mkResolveOutput [] [] Refused false ra
  | ZeroIp =>
      let a := match qtype with A | ANY => [mkRecord qname SINKHOLE_TTL (RD_A UNSPECIFIED)] | _ => [] end in
      let aaaa := match qtype with AAAA | ANY => [mkRecord qname SINKHOLE_TTL (RD_AAAA 0)] | _ => [] end in
      mkResolveOutput (a ++ aaaa) [] NoError true ra
  end.

Definition rewrite_answer (e : Env) (a : AppState) (qname : Name) (qtype : RecordType) (target : RewriteTarget)
    (ra : bool) : ResolveOutput * QueryOutcome :=
  let answers :=
    match target with
    | TargetIp ip =>
        match qtype, ip with
        | (A | ANY), V4 v4 => [mkRecord qname REWRITE_TTL (RD_A v4)]
        | (AAAA | ANY), V6 v6 => [mkRecord qname REWRITE_TTL (RD_AAAA v6)]
        | _, _ => []
        end
    | TargetName target_name =>
        mkRecord qname REWRITE_TTL (RD_CNAME target_name) ::
        match qtype with
        | A | AAAA =>
            match ap_upstream a with
            | Some up => up_answers (upstream_resolve (ev_net e) up target_name qtype)
            | None => []
            end
        | _ => []
        end
    end in
  (mkResolveOutput answers [] NoError true ra, QRewritten).

(** ** mDNS *)

Definition mdns_reverse_answer (e : Env) (a : AppState) (zone : string) (qname : Name) (qtype : RecordType)
    : option (list DRecord) :=
  match qtype with
  | PTR | ANY =>
      let! ip := parse_arpa_name qname in
      let! host := mdns_reverse ip (ev_now e) (ap_mdns a) in
      let! target := Name_from_ascii (host +:+ "." +:+ zone +:+ ".") in
      Some [mkRecord qname (mdns_ttl a) (RD_PTR target)]
  | _ => None
  end.

Definition mdns_forward_answer (e : Env) (a : AppState) (zone : string) (qname : Name) (qtype : RecordType)
    : option (list DRecord) :=
  match qtype with
  | A | AAAA | ANY =>
      let name := to_ascii_lowercase (trim_end_matches "."%char (Name_to_string qname)) in
      let! label := strip_suffix ("." +:+ zone) name in
      if negb (is_empty label) && negb (contains_char "."%char label) then
        match (fun ip => mkRecord qname (mdns_ttl a) (match ip with V4 x => RD_A x | V6 x => RD_AAAA x end)) <$>
                mdns_lookup label qtype (ev_now e) (ap_mdns a) with
        | [] => None
        | answers => Some answers
        end
      else None
  | _ => None
  end.

Definition mdns_answer (e : Env) (a : AppState) (qname : Name) (qtype : RecordType) : option (list DRecord) :=
  if negb (st_mdns_enabled (ap_settings a)) then None
  else
    let! zone := mdns_zone a in
    match mdns_reverse_answer e a zone qname qtype with
    | Some answers => Some answers
    | None => mdns_forward_answer e a zone qname qtype
    end.

(** ** Statistics *)

Definition plain_text (qname : Name) : string := trim_end_matches "."%char (Name_to_string qname).

Definition record_stat (e : Env) (a : AppState) (client : IpAddr) (view : option string) (qname : Name)
    (qtype : RecordType) (stat : QueryOutcome) (out : ResolveOutput) : AppState :=
  let a := if bool_decide (stat = QBlocked)
           then note_blocked_domain (ev_blocked_room e) (plain_text qname) (with_stats (record_blocked_client client) a)
           else a in
  let '(s, entry) := stats_record (ev_ts e) (ev_sec e) (st_query_log (ap_settings a)) client view (plain_text qname)
                       (RecordType_to_string qtype) stat
                       (to_ascii_uppercase (ResponseCode_debug (ro_rcode out))) (ap_stats a) in
  let a := with_stats (fun _ => s) a in
  match entry with Some q => log_query (ev_qlog_room e) q a | None => a end.

Definition record_latency_stat (e : Env) (a : AppState) : AppState := with_stats (record_latency (ev_latency e)) a.

(** ** DNSSEC *)

Definition denial (z : ZoneSigner) (now : Z) (owner : Name) (present : list RecordType) (ttl : Z) : list DRecord :=
  if uses_nsec3 z then nsec3_records z now owner present ttl else nsec_records z now owner present ttl.

Definition first_ttl (rs : list DRecord) : Z := match rs with r :: _ => rec_ttl r | [] => 60 end.

Definition apply_dnssec (z : ZoneSigner) (now : Z) (s : ZoneStore) (qname : Name) (outcome : Outcome)
    (out : ResolveOutput) : ResolveOutput :=
  match outcome with
  | Authoritative =>
      mkResolveOutput (sign_records z now (ro_answers out)) (ro_authority out) (ro_rcode out)
        (ro_authoritative out) (ro_recursion_available out)
  | NoData =>
      let ttl := first_ttl (ro_authority out) in
      mkResolveOutput (ro_answers out)
        (sign_records z now (ro_authority out) ++ denial z now qname (present_types s qname) ttl) (ro_rcode out)
        (ro_authoritative out) (ro_recursion_available out)
  | NxDomain =>
      let ttl := first_ttl (ro_authority out) in
      mkResolveOutput (ro_answers out) (sign_records z now (ro_authority out) ++ denial z now qname [] ttl)
        NoError (ro_authoritative out) (ro_recursion_available out)
  | NotAuthoritative => out
  end.

(** ** Names not covered by a local zone *)

Definition upstream_stat (rcode : ResponseCode) : QueryOutcome :=
  match rcode with NXDomain => QNxDomain | ServFail => QServFail | _ => QForwarded end.

(** [record_dnssec_failure], when a server failure came while validating. *)
Definition note_validation (r : UpstreamResult) (a : AppState) : AppState :=
  if bool_decide (up_rcode r = ServFail) && st_dnssec_validate_upstream (ap_settings a)
  then with_stats record_dnssec_failure a else a.

(** The upstream part: the conditional forwarder, else the cache and the upstream. *)
Definition resolve_upstream (e : Env) (a : AppState) (key : string) (qname : Name) (qtype : RecordType) (ra : bool)
    : option (AppState * ResolveOutput * QueryOutcome) :=
  match match_for (ap_conditional a) key with
  | Some up =>
      let r := upstream_resolve (ev_net e) up qname qtype in
      Some (note_validation r a, mkResolveOutput (up_answers r) (up_authority r) (up_rcode r) false true,
            upstream_stat (up_rcode r))
  | None =>
      match ap_upstream a with
      | Some up =>
          let '(c, hit) := cache_get (ap_cache a) qname qtype (ev_now e) in
          let a := with_cache c a in
          match hit with
          | Some h => Some (a, mkResolveOutput (ca_answers h) (ca_authority h) (ca_rcode h) false ra, QCached)
          | None =>
              let r := upstream_resolve (ev_net e) up qname qtype in
              let a := note_validation r a in
              let! c := cache_put (ap_cache a) qname qtype (up_answers r) (up_authority r) (up_rcode r) (ev_now e) in
              Some (with_cache c a, mkResolveOutput (up_answers r) (up_authority r) (up_rcode r) false ra,
                    upstream_stat (up_rcode r))
          end
      | None => Some (a, mkResolveOutput [] [] Refused false ra, QRefused)
      end
  end.

Definition resolve_external (e : Env) (a : AppState) (qname : Name) (qtype : RecordType) (ra : bool)
    : option (AppState * ResolveOutput * QueryOutcome) :=
  let key := to_ascii_lowercase (trim_end_matches "."%char (Name_to_string qname)) in
  let block stat := Some (a, block_answer (st_block_mode (ap_settings a)) qname qtype ra, stat) in
  match decide_name (ap_filter a) key with
  | DRewrite target =>
      let '(out, stat) := rewrite_answer e a qname qtype target ra in Some (a, out, stat)
  | DBlock =>
      let a' := match blocklist_hit (ap_filter a) key with
                | Some id => with_stats (record_blocklist_hit id) a
                | None => a
                end in
      Some (a', block_answer (st_block_mode (ap_settings a)) qname qtype ra, QBlocked)
  | DAllow => resolve_upstream e a key qname qtype ra
  | DPass =>
      if is_suspicious key (st_homograph_protection (ap_settings a)) then block QDangerous
      else resolve_upstream e a key qname qtype ra
  end.

(** ** The pipeline *)

(** The answer of a local zone, before signing. *)
Definition local_output (r : LookupResult) (ra : bool) : ResolveOutput * QueryOutcome :=
  match lr_outcome r with
  | NxDomain => (mkResolveOutput (lr_answers r) (lr_authority r) NXDomain true ra, QNxDomain)
  | _ => (mkResolveOutput (lr_answers r) (lr_authority r) (lr_rcode r) true ra, QAuthoritative)
  end.

(** The synthesized apex records asked for with the DO bit. *)
Definition apex_records (e : Env) (s : ZoneStore) (qname : Name) (qtype : RecordType) (dnssec_ok : bool)
    : option (list DRecord) :=
  if negb dnssec_ok then None
  else
    match qtype with
    | DNSKEY =>
        let! z := signer_for s qname in
        if same_name qname (zk_apex z) then Some (dnskey_rrset z (ev_unix e)) else None
    | NSEC3PARAM =>
        let! z := signer_for s qname in
        if uses_nsec3 z && same_name qname (zk_apex z) then Some (nsec3param_rrset z (ev_unix e)) else None
    | _ => None
    end.

Definition asn_blocked (e : Env) (a : AppState) (client : IpAddr) : bool :=
  match cg_asn (ev_geo e client) with
  | Some asn => existsb (fun x => x =? asn) (st_blocked_asns (ap_settings a))
  | None => false
  end.

Definition answer_ip (r : DRecord) : option IpAddr :=
  match rec_data r with RD_A x => Some (V4 x) | RD_AAAA x => Some (V6 x) | _ => None end.

(** From the lookup on. *)
Definition resolve_main (e : Env) (a : AppState) (qname : Name) (qtype : RecordType) (client : IpAddr)
    (dnssec_ok ra : bool) : option (AppState * ResolveOutput) :=
  let store := ap_store a in
  let result := lookup store qname qtype client (ev_geo e client) in
  let! r := match lr_outcome result with
            | NotAuthoritative => resolve_external e a qname qtype ra
            | _ => let '(out, stat) := local_output result ra in Some (a, out, stat)
            end in
  let '(a, out, stat) := r in
  let out := if dnssec_ok then
               match signer_for store qname with
               | Some z => apply_dnssec z (ev_unix e) store qname (lr_outcome result) out
               | None => out
               end
             else out in
  let mode := st_load_balance (ap_settings a) in
  let '(offset, a) := if takes_rotation (ro_answers out) mode then next_rotation a else (0, a) in
  let answers := apply_load_balance (ro_answers out) mode offset (ev_shuffle e) in
  let out := mkResolveOutput answers (ro_authority out) (ro_rcode out) (ro_authoritative out)
               (ro_recursion_available out) in
  let a := with_stats (record_resolved (omap answer_ip answers)) a in
  let a := record_stat e a client (lr_view_name result) qname qtype stat out in
  Some (record_latency_stat e a, out).

Definition resolve_query (e : Env) (a : AppState) (qname : Name) (qtype : RecordType) (client : IpAddr)
    (dnssec_ok : bool) : option (AppState * ResolveOutput) :=
  let ra := match ap_upstream a with Some _ => true | None => false end in
  if asn_blocked e a client then
    let out := block_answer (st_block_mode (ap_settings a)) qname qtype ra in
    Some (record_latency_stat e (record_stat e a client None qname qtype QBlocked out), out)
  else
    match mdns_answer e a qname qtype with
    | Some answers =>
        let out := mkResolveOutput answers [] NoError true ra in
        Some (record_latency_stat e (record_stat e a client None qname qtype QAuthoritative out), out)
    | None =>
        match apex_records e (ap_store a) qname qtype dnssec_ok with
        | Some answers =>
            let out := mkResolveOutput answers [] NoError true ra in
            Some (record_stat e a client None qname qtype QAuthoritative out, out)
        | None => resolve_main e a qname qtype client dnssec_ok ra
        end
    end.
End Resolve.

(** ** Lemmas: load balancing *)

Section LoadBalanceLemmas.
Context `{HN : HickoryNames}.

Definition is_type (t : RecordType) (r : DRecord) : bool := bool_decide (rec_type r = t).

(** The records of a type replaced, in order, by those of [g]. *)
Fixpoint place (t : RecordType) (l g : list DRecord) : list DRecord :=
  match l with
  | [] => []
  | r :: l' =>
      if is_type t r then match g with x :: g' => x :: place t l' g' | [] => r :: place t l' [] end
      else r :: place t l' g
  end.

Lemma positions_cons t r l : positions t (r :: l) = (if is_type t r then [0%nat] else []) ++ (S <$> positions t l).
Proof.
  unfold positions. cbn [length seq]. rewrite <- seq_shift. cbn [List.filter lookup list_lookup].
  assert (forall idxs, List.filter
    (fun i => match (r :: l) !! i with Some r => bool_decide (rec_type r = t) | None => false end) (List.map S idxs) =
    S <$> List.filter (fun i => match l !! i with Some r => bool_decide (rec_type r = t) | None => false end) idxs) as ->.
  { induction idxs as [|i idxs IH]; [done|]. cbn. rewrite IH. destruct (l !! i) as [x|]; [by case_bool_decide|done]. }
  unfold is_type. change ((r :: l) !! 0%nat) with (Some r). cbv iota beta. by case_bool_decide.
Qed.

Lemma write_back_shift idxs g r l : write_back (S <$> idxs) g (r :: l) = r :: write_back idxs g l.
Proof.
  unfold write_back. revert g l. induction idxs as [|i idxs IH]; intros [|x g] l; try done. cbn. apply IH.
Qed.

Lemma write_back_place t l g : write_back (positions t l) g l = place t l g.
Proof.
  revert g. induction l as [|r l IH]; intros g; [by destruct g|]. rewrite positions_cons. cbn [place].
  destruct (is_type t r); cbn [app]; [|by rewrite write_back_shift, IH].
  destruct g as [|x g].
  - assert (forall idxs m, write_back idxs [] m = m) as E by (by intros [|]).
    by rewrite E, <- (IH []), E.
  - change (write_back (0%nat :: (S <$> positions t l)) (x :: g) (r :: l))
      with (write_back (S <$> positions t l) g (x :: l)). by rewrite write_back_shift, IH.
Qed.

Lemma group_filter t l : omap (fun i => l !! i) (positions t l) = List.filter (is_type t) l.
Proof.
  induction l as [|r l IH]; [done|]. rewrite positions_cons. cbn [List.filter].
  assert (forall idxs : list nat, omap (fun i => (r :: l) !! i) (S <$> idxs) = omap (fun i => l !! i) idxs) as E.
  { induction idxs as [|i idxs IHi]; [done|]. cbn. by rewrite IHi. }
  destruct (is_type t r); cbn [app]; [|by rewrite E].
  change (r :: omap (fun i => (r :: l) !! i) (S <$> positions t l) = r :: List.filter (is_type t) l). by rewrite E, IH.
Qed.

Lemma length_positions t l : length (positions t l) = length (List.filter (is_type t) l).
Proof.
  induction l as [|r l IH]; [done|]. rewrite positions_cons, length_app, length_fmap, IH. cbn.
  by destruct (is_type t r).
Qed.

Definition typed (t : RecordType) (g : list DRecord) : Prop := Forall (fun r => is_type t r = true) g.

(** Placing as many records of the type keeps every other record where it was,
    keeps the types, and puts exactly [g] in the slots of the type. *)
Lemma place_spec t l g :
  typed t g -> length g = length (List.filter (is_type t) l) ->
  rec_type <$> place t l g = rec_type <$> l /\ List.filter (is_type t) (place t l g) = g /\
  forall u, u <> t -> List.filter (is_type u) (place t l g) = List.filter (is_type u) l.
Proof.
  intros Hg. revert g Hg. induction l as [|r l IH]; intros g Hg Hlen; [by destruct g|].
  cbn [place List.filter] in *. destruct (is_type t r) eqn:Er.
  - destruct g as [|x g]; [done|]. apply Forall_cons in Hg as [Hx Hg]. injection Hlen as Hlen.
    destruct (IH g Hg Hlen) as (H1 & H2 & H3). unfold is_type in Hx, Er. breflect.
    split_and!; [rewrite !fmap_cons, H1; congruence| |].
    + cbn. unfold is_type at 1. rewrite bool_decide_eq_true_2 by done. by rewrite H2.
    + intros u Hu. cbn. rewrite H3 by done. unfold is_type. rewrite !bool_decide_eq_false_2 by congruence. done.
  - destruct (IH g Hg Hlen) as (H1 & H2 & H3). split_and!; [by rewrite !fmap_cons, H1|cbn; by rewrite Er, H2|].
    intros u Hu. cbn. by rewrite H3.
Qed.

Lemma typed_filter t l : typed t (List.filter (is_type t) l).
Proof. apply List.Forall_forall. intros r Hr. apply filter_In in Hr. apply Hr. Qed.

Lemma rotate_left_perm k l : rotate_left k l ≡ₚ l.
Proof. unfold rotate_left. rewrite Permutation_app_comm. by rewrite take_drop. Qed.

Lemma place_perm t l g : g ≡ₚ List.filter (is_type t) l -> place t l g ≡ₚ l.
Proof.
  intros Hg. assert (forall l g, length g = length (List.filter (is_type t) l) ->
    place t l g ≡ₚ g ++ List.filter (fun r => negb (is_type t r)) l) as Hp.
  { clear. induction l as [|r l IH]; intros g Hlen; [by destruct g|]. cbn [place List.filter] in *.
    destruct (is_type t r) eqn:E; cbn [negb].
    - destruct g as [|x g]; [done|]. injection Hlen as Hlen. cbn. by rewrite IH.
    - rewrite IH by done. by rewrite Permutation_middle. }
  rewrite Hp by (by rewrite Hg). rewrite Hg. clear. induction l as [|r l IH]; [done|]. cbn.
  destruct (is_type t r); cbn; [by rewrite IH|]. by rewrite <- Permutation_middle, IH.
Qed.

(** The records a strategy puts in the slots of an address type. *)
Definition strategy (mode : LoadBalance) (offset : Z) (shuffle : list DRecord -> list DRecord) (g : list DRecord)
    : list DRecord :=
  match mode with
  | RoundRobin => rotate_left (Z.to_nat (offset mod Z.of_nat (length g))) g
  | Random => shuffle g
  | LbOff => g
  end.

Lemma balance_type_eq mode offset shuffle l t :
  balance_type mode offset shuffle l t =
  let g := List.filter (is_type t) l in
  if (length g <? 2)%nat then l else place t l (strategy mode offset shuffle g).
Proof. unfold balance_type, strategy. by rewrite length_positions, group_filter, write_back_place. Qed.

Lemma strategy_perm mode offset shuffle g : (forall g, shuffle g ≡ₚ g) -> strategy mode offset shuffle g ≡ₚ g.
Proof. intros Hs. destruct mode; cbn; [done|apply rotate_left_perm|apply Hs]. Qed.

Lemma balance_type_spec mode offset shuffle l t :
  (forall g, shuffle g ≡ₚ g) ->
  let out := balance_type mode offset shuffle l t in
  out ≡ₚ l /\ rec_type <$> out = rec_type <$> l /\
  List.filter (is_type t) out =
    (let g := List.filter (is_type t) l in if (length g <? 2)%nat then g else strategy mode offset shuffle g) /\
  forall u, u <> t -> List.filter (is_type u) out = List.filter (is_type u) l.
Proof.
  intros Hs. cbv zeta. rewrite balance_type_eq. cbv zeta. set (g := List.filter (is_type t) l).
  destruct (length g <? 2)%nat; [done|]. pose proof (strategy_perm mode offset shuffle g Hs) as Hp.
  destruct (place_spec t l (strategy mode offset shuffle g)) as (H1 & H2 & H3).
  - unfold typed. rewrite Hp. apply typed_filter.
  - by rewrite Hp.
  - split_and!; [by apply place_perm|done|done|done].
Qed.

Lemma rotate_left_lookup k l j :
  (k < length l)%nat -> (j < length l)%nat -> rotate_left k l !! j = l !! ((j + k) mod length l)%nat.
Proof.
  intros Hk Hj. unfold rotate_left. destruct (Nat.lt_ge_cases j (length l - k)) as [Hlt|Hge].
  - rewrite lookup_app_l by (rewrite length_drop; lia). rewrite lookup_drop, Nat.mod_small by lia. f_equal. lia.
  - rewrite lookup_app_r by (rewrite length_drop; lia). rewrite length_drop, lookup_take_lt by lia. f_equal.
    replace (j + k)%nat with ((j + k - length l) + 1 * length l)%nat by lia.
    rewrite Nat.Div0.mod_add, Nat.mod_small by lia. lia.
Qed.

Lemma round_robin_slot offset shuffle g j :
  (j < length g)%nat ->
  (if (length g <? 2)%nat then g else strategy RoundRobin offset shuffle g) !! j =
  g !! Z.to_nat ((Z.of_nat j + offset) mod Z.of_nat (length g)).
Proof.
  intros Hj. destruct (Nat.ltb_spec (length g) 2) as [Hlt|Hge].
  - assert (length g = 1%nat) as -> by lia. assert (j = 0%nat) as -> by lia. by rewrite Z.mod_1_r.
  - cbn [strategy]. pose proof (Z.mod_pos_bound offset (Z.of_nat (length g))) as Hb.
    rewrite rotate_left_lookup by lia. f_equal. apply Nat2Z.inj. rewrite Nat2Z.inj_mod, Nat2Z.inj_add, !Z2Nat.id
      by (apply Z.mod_pos_bound; lia). by rewrite Z.add_mod_idemp_r by lia.
Qed.

Lemma apply_load_balance_perm answers mode offset shuffle :
  (forall g, shuffle g ≡ₚ g) -> apply_load_balance answers mode offset shuffle ≡ₚ answers.
Proof.
  intros Hs. unfold apply_load_balance. destruct (_ || _); [done|]. cbn [fold_left].
  by rewrite (proj1 (balance_type_spec _ _ _ _ _ Hs)), (proj1 (balance_type_spec _ _ _ _ _ Hs)).
Qed.

(** load balancing only reorders: the answer is a permutation with the same
    type at every position, records other than addresses keep their order, and
    under round robin the [j]-th address of each family is the [j + counter]-th
    of the answer, counted around. *)
Theorem load_balance_spread answers mode offset shuffle :
  (forall g, shuffle g ≡ₚ g) ->
  let out := apply_load_balance answers mode offset shuffle in
  out ≡ₚ answers /\ rec_type <$> out = rec_type <$> answers /\
  (forall t, t <> A -> t <> AAAA -> List.filter (is_type t) out = List.filter (is_type t) answers) /\
  forall t j, mode = RoundRobin -> t = A \/ t = AAAA ->
    let g := List.filter (is_type t) answers in
    (j < length g)%nat ->
    List.filter (is_type t) out !! j = g !! Z.to_nat ((Z.of_nat j + offset) mod Z.of_nat (length g)).
Proof.
  intros Hs. cbv zeta. unfold apply_load_balance.
  destruct (bool_decide (mode = LbOff) || (length answers <? 2)%nat) eqn:E.
  - split_and!; [done|done|done|]. intros t j -> Ht Hj. change (bool_decide (RoundRobin = LbOff)) with false in E. cbn [orb] in E. apply Nat.ltb_lt in E.
    assert (length (List.filter (is_type t) answers) <= length answers)%nat by apply filter_length_le.
    assert (length (List.filter (is_type t) answers) = 1%nat) as -> by lia. rewrite Z.mod_1_r.
    by replace j with 0%nat by lia.
  - set (o := if bool_decide (mode = RoundRobin) then offset else 0). cbn [fold_left].
    destruct (balance_type_spec mode o shuffle answers A Hs) as (P1 & T1 & G1 & O1).
    destruct (balance_type_spec mode o shuffle (balance_type mode o shuffle answers A) AAAA Hs) as (P2 & T2 & G2 & O2).
    split_and!; [by rewrite P2|by rewrite T2|intros t H1 H2; rewrite O2, O1 by done; done|].
    intros t j -> Ht Hj. change o with offset in *. destruct Ht as [-> | ->].
    + rewrite O2, G1 by done. by apply round_robin_slot.
    + rewrite G2, O1 by done. by apply round_robin_slot.
Qed.
End LoadBalanceLemmas.

(** ** Lemmas: the pipeline *)

Section ResolveLemmas.
Context `{NETS : IpNets} `{HN : HickoryNames} `{TEXT : !HickoryText} `{SIGN : !Signers} `{RES : !HickoryResolvers}
  `{UNI : Unicode}.

(** The same circumstances with another network. *)
Definition with_net (n : Network) (e : Env) : Env :=
  mkEnv (ev_ts e) (ev_sec e) (ev_now e) (ev_unix e) (ev_latency e) n (ev_shuffle e) (ev_geo e)
    (ev_qlog_room e) (ev_blocked_room e).

Definition query_key (qname : Name) : string := to_ascii_lowercase (trim_end_matches "."%char (Name_to_string qname)).

(** The network is not asked for a name that is blocked, nor when there is no upstream for it. *)
Lemma resolve_external_net n1 n2 e a qname qtype ra :
  decide_name (ap_filter a) (query_key qname) = DBlock \/
    (ap_upstream a = None /\ match_for (ap_conditional a) (query_key qname) = None) ->
  resolve_external (with_net n1 e) a qname qtype ra = resolve_external (with_net n2 e) a qname qtype ra.
Proof.
  unfold resolve_external. fold (query_key qname). intros [->|[Hu Hc]]; [done|].
  unfold resolve_upstream, rewrite_answer. rewrite Hu, Hc. done.
Qed.

(** C14: for a name of a local zone, for a blocked name, and for a name without an
    upstream, the answer and the state after it are the same whatever other servers
    would say.  This is the query path alone: a worker locates the destinations of
    blocked names later ([Program.blocked_turn]). *)
Theorem resolve_no_leak n1 n2 e a qname qtype client dnssec_ok :
  zone_for (ap_store a) qname <> None \/ decide_name (ap_filter a) (query_key qname) = DBlock \/
    (ap_upstream a = None /\ match_for (ap_conditional a) (query_key qname) = None) ->
  resolve_query (with_net n1 e) a qname qtype client dnssec_ok = resolve_query (with_net n2 e) a qname qtype client dnssec_ok.
Proof.
  intros Hl. unfold resolve_query.
  change (asn_blocked (with_net n1 e) a client) with (asn_blocked (with_net n2 e) a client).
  destruct (asn_blocked _ _ _); [done|].
  change (mdns_answer (with_net n1 e) a qname qtype) with (mdns_answer (with_net n2 e) a qname qtype).
  destruct (mdns_answer _ _ _ _); [done|].
  change (apex_records (with_net n1 e) (ap_store a) qname qtype dnssec_ok)
    with (apex_records (with_net n2 e) (ap_store a) qname qtype dnssec_ok).
  destruct (apex_records _ _ _ _ _); [done|]. unfold resolve_main. cbv zeta. cbn [ev_geo with_net].
  set (r := lookup (ap_store a) qname qtype client (ev_geo e client)).
  assert (lr_outcome r = NotAuthoritative -> forall ra,
    resolve_external (with_net n1 e) a qname qtype ra = resolve_external (with_net n2 e) a qname qtype ra) as Hext.
  { intros Hr ra. apply resolve_external_net. destruct Hl as [Hz|Hl]; [|done].
    destruct Hz. by apply lookup_not_authoritative in Hr. }
  destruct (lr_outcome r) eqn:Er; [done..|]. by rewrite Hext.
Qed.

(** ** Accounting *)

Definition queries_total (a : AppState) : Z := ct_total (sts_counters (ap_stats a)).

Lemma total_record_stat e a client view qname qtype stat out :
  queries_total (record_stat e a client view qname qtype stat out) = u64_succ (queries_total a).
Proof.
  unfold record_stat, stats_record, queries_total. case_bool_decide; cbv zeta; case_bool_decide; done.
Qed.

Lemma total_latency e a : queries_total (record_latency_stat e a) = queries_total a.
Proof. done. Qed.

Lemma total_external e a qname qtype ra a' out stat :
  resolve_external e a qname qtype ra = Some (a', out, stat) -> queries_total a' = queries_total a.
Proof.
  assert (forall r x, queries_total (note_validation r x) = queries_total x) as Hn.
  { intros r x. unfold note_validation. by destruct (_ && _). }
  assert (forall key, resolve_upstream e a key qname qtype ra = Some (a', out, stat) ->
    queries_total a' = queries_total a) as Hup.
  { intros key. unfold resolve_upstream. destruct (match_for _ _); [intros [= <- _ _]; apply Hn|].
    destruct (ap_upstream a) as [up|]; [|by intros [= <- _ _]].
    destruct (cache_get _ _ _ _) as [c [h|]]; [by intros [= <- _ _]|]. destruct (cache_put _ _ _ _ _ _ _); [|done].
    intros [= <- _ _]. exact (Hn (upstream_resolve (ev_net e) up qname qtype) (with_cache c a)). }
  unfold resolve_external. destruct (decide_name _ _).
  - destruct (is_suspicious _ _); [by intros [= <- _ _]|apply Hup].
  - apply Hup.
  - intros [= <- _ _]. by destruct (blocklist_hit _ _).
  - destruct (rewrite_answer _ _ _ _ _ _). by intros [= <- _ _].
Qed.

(** every query answered is counted exactly once, whichever path answered it. *)
Theorem resolve_counts_once e a qname qtype client dnssec_ok a' out :
  resolve_query e a qname qtype client dnssec_ok = Some (a', out) ->
  queries_total a' = u64_succ (queries_total a).
Proof.
  unfold resolve_query. destruct (asn_blocked e a client); [intros [= <- _]; by rewrite total_latency, total_record_stat|].
  destruct (mdns_answer e a qname qtype); [intros [= <- _]; by rewrite total_latency, total_record_stat|].
  destruct (apex_records _ _ _ _ _); [intros [= <- _]; by rewrite total_record_stat|].
  unfold resolve_main. cbv zeta.
  destruct (match lr_outcome _ with NotAuthoritative => _ | _ => _ end) as [[[a1 out1] stat]|] eqn:E; [|done].
  assert (queries_total a1 = queries_total a) as Ha.
  { destruct (lr_outcome _); [..|by eapply total_external];
      (destruct (local_output _ _); by injection E as <- _ _). }
  rewrite <- Ha. match goal with |- context [takes_rotation (ro_answers ?o) _] => generalize o end. intros o.
  destruct (takes_rotation _ _); cbn [next_rotation]; intros [= <- _]; by rewrite total_latency, total_record_stat.
Qed.

(** ** Failure *)

(** C32: with a minimum TTL not above the maximum, every query is answered: no path of
    the resolver fails. *)
Theorem resolve_no_panic e a qname qtype client dnssec_ok :
  Z.max (dc_min_ttl (ap_cache a)) 1 <= dc_max_ttl (ap_cache a) ->
  exists a' out, resolve_query e a qname qtype client dnssec_ok = Some (a', out).
Proof.
  intros Hc. assert (forall key ra, exists r, resolve_upstream e a key qname qtype ra = Some r) as Hup.
  { intros key ra. unfold resolve_upstream. destruct (match_for _ _); [eauto|].
    destruct (ap_upstream a) as [up|]; [|eauto]. destruct (cache_get _ _ _ _) as [c [h|]] eqn:Eg; [eauto|].
    assert (dc_min_ttl c = dc_min_ttl (ap_cache a) /\ dc_max_ttl c = dc_max_ttl (ap_cache a)) as [E1 E2].
    { unfold cache_get in Eg. repeat case_hyp Eg; injection Eg as <-; done. }
    set (r := upstream_resolve (ev_net e) up qname qtype).
    assert (ap_cache (note_validation r (with_cache c a)) = c) as -> by (unfold note_validation; by destruct (_ && _)).
    unfold cache_put. case_bool_decide; [eauto|]. unfold clamp. rewrite E1, E2, (proj2 (Z.leb_le _ _)) by done.
    repeat case_goal; eauto. }
  assert (forall ra, exists a1 out1 stat, resolve_external e a qname qtype ra = Some (a1, out1, stat)) as Hext.
  { intros ra. unfold resolve_external. destruct (decide_name _ _); [|..].
    - destruct (is_suspicious _ _); [eauto|]. destruct (Hup (query_key qname) ra) as [[[? ?] ?] ?]. eauto.
    - destruct (Hup (query_key qname) ra) as [[[? ?] ?] ?]. eauto.
    - eauto.
    - destruct (rewrite_answer _ _ _ _ _ _). eauto. }
  unfold resolve_query. destruct (asn_blocked e a client); [eauto|]. destruct (mdns_answer e a qname qtype); [eauto|].
  destruct (apex_records _ _ _ _ _); [eauto|]. unfold resolve_main. cbv zeta.
  destruct (lr_outcome _); [destruct (local_output _ _)..|]; [| | |edestruct Hext as (a1 & out1 & stat & ->)];
    destruct (if takes_rotation _ _ then _ else _); eauto.
Qed.

(** ** Local answers *)

Lemma cache_record_stat e a client view qname qtype stat out :
  ap_cache (record_stat e a client view qname qtype stat out) = ap_cache a.
Proof. unfold record_stat, stats_record. case_bool_decide; cbv zeta; case_bool_decide; done. Qed.

(** C19: for a query without the DNSSEC OK bit, from a client whose network is not
    blocked by its AS number, a name of a local zone that mDNS has no answer for is
    answered by the zone: the records, the authority and the response code are the
    store's (the records possibly reordered by the load balancing, whose random
    order is a permutation), the answer is authoritative, and the cache stays as it
    is. *)
Theorem resolve_authoritative e a qname qtype client :
  (forall g, ev_shuffle e g ≡ₚ g) -> zone_for (ap_store a) qname <> None ->
  asn_blocked e a client = false -> mdns_answer e a qname qtype = None ->
  let r := lookup (ap_store a) qname qtype client (ev_geo e client) in
  exists a' out, resolve_query e a qname qtype client false = Some (a', out) /\
    ro_answers out ≡ₚ lr_answers r /\ ro_authority out = lr_authority r /\ ro_rcode out = lr_rcode r /\
    ro_authoritative out = true /\ ap_cache a' = ap_cache a.
Proof.
  intros Hs Hz Ha Hm r. unfold resolve_query. rewrite Ha, Hm. cbn [apex_records negb].
  unfold resolve_main. cbv zeta. fold r.
  set (ra := match ap_upstream a with Some _ => true | None => false end).
  assert (match lr_outcome r with
          | NotAuthoritative => resolve_external e a qname qtype ra
          | _ => let '(out, stat) := local_output r ra in Some (a, out, stat)
          end = Some (a, fst (local_output r ra), snd (local_output r ra)) /\
          ro_answers (fst (local_output r ra)) = lr_answers r /\ ro_authority (fst (local_output r ra)) = lr_authority r /\
          ro_rcode (fst (local_output r ra)) = lr_rcode r /\ ro_authoritative (fst (local_output r ra)) = true)
    as (-> & H1 & H2 & H3 & H4).
  { unfold local_output. destruct (lr_outcome r) eqn:Eo; cbn; try done.
    - pose proof (lookup_nx_rcode _ _ _ _ _ Eo) as E. fold r in E. by rewrite E.
    - by apply lookup_not_authoritative in Eo. }
  destruct (if takes_rotation _ _ then _ else _) as [offset a1] eqn:Er. eexists _, _. split; [reflexivity|].
  cbn [ro_answers ro_authority ro_rcode ro_authoritative]. split_and!; try done.
  - by rewrite apply_load_balance_perm, H1.
  - unfold record_latency_stat. cbn [ap_cache with_stats]. rewrite cache_record_stat. cbn [ap_cache with_stats].
    destruct (takes_rotation _ _); by injection Er as <- <-.
Qed.

(** ** Cached answers *)

(** What a cached answer makes of a question, before and after it expires. *)
Lemma resolve_upstream_kept e a key qname qtype ra up en :
  match_for (ap_conditional a) key = None -> ap_upstream a = Some up ->
  dc_map (ap_cache a) !! cache_key qname qtype = Some en ->
  (ev_now e < en_expires en -> exists a2,
     resolve_upstream e a key qname qtype ra =
     Some (a2, mkResolveOutput (en_answers en) (en_authority en) (en_rcode en) false ra, QCached)) /\
  (en_expires en <= ev_now e -> forall a2 out stat, resolve_upstream e a key qname qtype ra = Some (a2, out, stat) ->
     let r := upstream_resolve (ev_net e) up qname qtype in
     stat = upstream_stat (up_rcode r) /\
     out = mkResolveOutput (up_answers r) (up_authority r) (up_rcode r) false ra).
Proof.
  intros Hc Hup Hen. unfold resolve_upstream. rewrite Hc, Hup. unfold cache_get. rewrite Hen. split; intros He.
  - rewrite (proj2 (Z.ltb_lt _ _)) by lia. eexists. reflexivity.
  - rewrite (proj2 (Z.ltb_ge _ _)) by lia. cbv beta iota zeta. intros a2 out stat.
    destruct (cache_put _ _ _ _ _ _ _); [|done]. by intros [= _ <- <-].
Qed.

(** C31: an answer fetched from the default upstream (not a server failure, and no
    conditional forwarder for the name) that finds room in the cache is repeated
    unchanged for its TTL without asking the network again, and not after: then the
    network is asked.  The TTL is the least of its records' (thirty seconds if it has
    none), brought between the cache's bounds, the lower of which is at least one
    second. *)
Theorem resolve_cached e a key qname qtype ra a1 out stat :
  match_for (ap_conditional a) key = None ->
  resolve_upstream e a key qname qtype ra = Some (a1, out, stat) -> stat = QForwarded \/ stat = QNxDomain ->
  map_len (retain_live (ev_now e) (dc_map (ap_cache a))) < dc_cap (ap_cache a) ->
  exists raw ttl, least_ttl (ro_answers out ++ ro_authority out) raw /\
    ttl = Z.max (Z.max (dc_min_ttl (ap_cache a)) 1) (Z.min raw (dc_max_ttl (ap_cache a))) /\
    (forall e2, ev_now e <= ev_now e2 < ev_now e + ttl * NANOS ->
       exists a2, resolve_upstream e2 a1 key qname qtype ra = Some (a2, out, QCached)) /\
    (forall e2 a2 out2 stat2, ev_now e + ttl * NANOS <= ev_now e2 ->
       resolve_upstream e2 a1 key qname qtype ra = Some (a2, out2, stat2) ->
       exists up, ap_upstream a = Some up /\
         let r := upstream_resolve (ev_net e2) up qname qtype in
         stat2 = upstream_stat (up_rcode r) /\
         out2 = mkResolveOutput (up_answers r) (up_authority r) (up_rcode r) false ra).
Proof.
  intros Hc Hrun Hstat Hroom. unfold resolve_upstream in Hrun. rewrite Hc in Hrun.
  destruct (ap_upstream a) as [up|] eqn:Hup; [|injection Hrun as <- <- <-; by destruct Hstat].
  destruct (cache_get (ap_cache a) qname qtype (ev_now e)) as [c hit] eqn:Eg.
  destruct hit as [h|]; [injection Hrun as <- <- <-; by destruct Hstat|].
  set (r := upstream_resolve (ev_net e) up qname qtype) in Hrun.
  assert (forall x, ap_cache (note_validation r x) = ap_cache x /\ ap_conditional (note_validation r x) = ap_conditional x /\
            ap_upstream (note_validation r x) = ap_upstream x) as Hn.
  { intros x. unfold note_validation. by destruct (_ && _). }
  rewrite (proj1 (Hn _)) in Hrun. cbn [ap_cache with_cache] in Hrun.
  destruct (cache_put c _ _ _ _ _ _) as [c'|] eqn:Ep; [|done]. injection Hrun as Ea1 <- <-.
  assert (up_rcode r <> ServFail) as Hrc by (intros E; rewrite E in Hstat; by destruct Hstat).
  assert ((dc_cap c = dc_cap (ap_cache a) /\ dc_min_ttl c = dc_min_ttl (ap_cache a) /\ dc_max_ttl c = dc_max_ttl (ap_cache a))
          /\ dc_map c ⊆ dc_map (ap_cache a)) as [(Ecap & Elo & Ehi) Esub].
  { unfold cache_get in Eg. repeat case_hyp Eg; injection Eg as <-; (split; [done|]); first [done|apply delete_subseteq]. }
  assert (map_len (retain_live (ev_now e) (dc_map c)) < dc_cap c) as Hroom'.
  { rewrite Ecap. eapply Z.le_lt_trans; [|exact Hroom]. apply map_len_subseteq. by apply map_filter_subseteq_mono. }
  destruct (cache_put_room _ _ _ _ _ _ _ _ Ep Hrc Hroom') as (ttl & m & Et & -> & _).
  eexists _, ttl. split; [apply min_ttl_least|]. apply clamp_value in Et as [Et _]. rewrite Elo, Ehi in Et. split; [exact Et|].
  assert (match_for (ap_conditional a1) key = None /\ ap_upstream a1 = Some up /\
          dc_map (ap_cache a1) !! cache_key qname qtype =
            Some (mkEntry (up_answers r) (up_authority r) (up_rcode r) (ev_now e + ttl * NANOS))) as (H1 & H2 & H3).
  { rewrite <- Ea1. cbn [ap_conditional ap_upstream ap_cache with_cache dc_map with_map].
    rewrite (proj1 (proj2 (Hn _))), (proj2 (proj2 (Hn _))), lookup_insert_eq. by cbn [ap_conditional ap_upstream with_cache]. }
  split; intros e2.
  - intros He2. destruct (resolve_upstream_kept e2 a1 key qname qtype ra up _ H1 H2 H3) as [Hk _]. apply Hk. cbn. lia.
  - intros a2 out2 stat2 He2 Hr. exists up. split; [done|].
    destruct (resolve_upstream_kept e2 a1 key qname qtype ra up _ H1 H2 H3) as [_ Hk]. eapply Hk; [cbn; lia|exact Hr].
Qed.
End ResolveLemmas.
