(* ===== verification/Handler.v ===== *)
(** * DNS protocol handlers ([src/dns/handler.rs], [src/dns/doh.rs])

    The handler behind the UDP, TCP and TLS listeners, with the zone-transfer
    server, and the DNS-over-HTTPS endpoint.  Both call [resolve_query]; the
    result is [None] where that panics.  What hickory's server hands over is a
    [Request]; whether the response could be written is an argument, and the
    responses written are a result. *)

From S2P Require Import Prelude Strs Net External Models Db DbDns DbFilter DbDhcp DbAdmin Filter Upstream Cache Stats.
From S2P Require Import Mdns Dnssec Store State Config Web Transfer Resolve.

Inductive Protocol : Type := ProtoUdp | ProtoTcp | ProtoTls | ProtoOther.

#[export] Instance Protocol_eq_dec : EqDecision Protocol.
Proof. solve_decision. Defined.
#[export] Instance OpCode_eq_dec : EqDecision OpCode.
Proof. solve_decision. Defined.

Section Handler.
Context `{NETS : IpNets} `{HN : HickoryNames} `{TEXT : !HickoryText} `{SIGN : !Signers} `{RES : !HickoryResolvers}
  `{UNI : Unicode} `{CR : Credentials} `{TS : !TSigners} `{DQ : !DnsQueries}.

(** ** Requests and responses *)

(** [request_info()]. *)
Record RequestInfo : Type := mkRequestInfo {
  ri_src : IpAddr; ri_protocol : Protocol; ri_name : Name; ri_type : RecordType; ri_op_code : OpCode; ri_id : Z }.

Record Request : Type := mkRequest {
  (** [None] when the request does not carry exactly one query *)
  rq_info : option RequestInfo;
  rq_edns : option Edns;
  (** the owner of the TSIG record *)
  rq_signature : option Name;
  rq_bytes : list Z }.

(** A response; id, op code and query are the request's. *)
Record DnsResponse : Type := mkDnsResponse {
  dr_info : RequestInfo; dr_authoritative : bool; dr_recursion_available : bool; dr_code : ResponseCode;
  dr_answers : list DRecord; dr_authority : list DRecord; dr_edns : option Edns }.

(** The header of the response sent, or the one [fallback_info] makes up. *)
Inductive ResponseInfo : Type := Sent (r : DnsResponse) | Fallback (id : Z) (code : ResponseCode).
Definition fallback_info (id : Z) (code : ResponseCode) : ResponseInfo := Fallback id code.

(** [error_msg]. *)
Definition error_msg (i : RequestInfo) (code : ResponseCode) : DnsResponse := mkDnsResponse i false false code [] [] None.

Definition send_response (sends : bool) (r : DnsResponse) (failed : ResponseCode) : list DnsResponse * ResponseInfo :=
  if sends then ([r], Sent r) else ([], fallback_info (ri_id (dr_info r)) failed).

Definition send_code (sends : bool) (i : RequestInfo) (code : ResponseCode) : list DnsResponse * ResponseInfo :=
  send_response sends (error_msg i code) code.

(** ** Zone transfers *)

(** The signature check of [handle_axfr]. *)
Definition signature_ok (a : AppState) (now : Z) (rq : Request) : bool :=
  let keys := st_tsig_keys (ap_settings a) in
  match rq_signature rq with
  | Some sig => match verify_request keys now (rq_bytes rq) sig with Ok _ => true | Err _ => false end
  | None => false
  end.

Definition handle_axfr (sends : bool) (a : AppState) (now : Z) (rq : Request) (i : RequestInfo)
    : list DnsResponse * ResponseInfo :=
  if bool_decide (ri_protocol i = ProtoUdp) then send_code sends i Refused
  else if negb (axfr_allowed a (ri_src i)) then send_code sends i Refused
  else if st_axfr_require_tsig (ap_settings a) && negb (signature_ok a now rq) then send_code sends i Refused
  else
    match axfr (ap_store a) (ri_name i) (ri_src i) with
    | Some records => send_response sends (mkDnsResponse i true false NoError records [] None) ServFail
    | None => send_code sends i Refused
    end.

(** ** Queries *)

Definition edns_do (edns : option Edns) : bool := match edns with Some x => edns_dnssec_ok x | None => false end.
(** The client's OPT record is echoed when it has the DO bit. *)
Definition echo_edns (edns : option Edns) : option Edns := if edns_do edns then edns else None.

Definition is_transfer (t : RecordType) : bool := match t with AXFR | IXFR => true | _ => false end.

Definition handle_request (e : Env) (sends : bool) (rq : Request) (a : AppState)
    : option (AppState * (list DnsResponse * ResponseInfo)) :=
  match rq_info rq with
  | None => Some (a, ([], fallback_info 0 FormErr))
  | Some i =>
      if negb (bool_decide (ri_op_code i = OpQuery)) then Some (a, send_code sends i NotImp)
      else if is_transfer (ri_type i) then Some (a, handle_axfr sends a (ev_unix e) rq i)
      else
        let dnssec_ok := edns_do (rq_edns rq) in
        let! r := resolve_query e a (ri_name i) (ri_type i) (ri_src i) dnssec_ok in
        let '(a, out) := r in
        Some (a, send_response sends
          (mkDnsResponse i (ro_authoritative out) (ro_recursion_available out) (ro_rcode out)
             (ro_answers out) (ro_authority out) (echo_edns (rq_edns rq))) ServFail)
  end.

(** ** DNS over HTTPS *)

Inductive DohReply : Type := DohBadRequest (msg : string) | DohMessage (body : list Z) | DohEncodingFailure.

Section Doh.
Context `{WIRE : !DnsWire}.

Definition doh_handle (e : Env) (client : IpAddr) (bytes : list Z) (a : AppState) : option (AppState * DohReply) :=
  match message_from_vec bytes with
  | None => Some (a, DohBadRequest "malformed DNS message")
  | Some request =>
      match wm_queries request with
      | [] => Some (a, DohBadRequest "no query in DNS message")
      | query :: _ =>
          let dnssec_ok := edns_do (wm_edns request) in
          let! r := resolve_query e a (query_name query) (query_type query) client dnssec_ok in
          let '(a, out) := r in
          let response := WireMessage_response (wm_id request) (wm_op_code request) in
          let response := mkWireMessage (wm_id response) (wm_response response) (wm_op_code response)
            (wm_recursion_desired request) (ro_recursion_available out) (ro_authoritative out) (ro_rcode out)
            (wm_queries response ++ [query]) (wm_answers response ++ ro_answers out) (ro_authority out)
            (if dnssec_ok then wm_edns request else wm_edns response) in
          Some (a, match message_to_vec response with
                   | Some buf => DohMessage buf
                   | None => DohEncodingFailure
                   end)
      end
  end.

Definition doh_get (e : Env) (client : IpAddr) (dns : option string) (a : AppState) : option (AppState * DohReply) :=
  match dns with
  | None => Some (a, DohBadRequest "missing 'dns' query parameter")
  | Some b64 =>
      match base64_url_decode (trim_end_matches "="%char b64) with
      | None => Some (a, DohBadRequest "invalid base64url in 'dns'")
      | Some bytes => doh_handle e client bytes a
      end
  end.
Definition doh_post (e : Env) (client : IpAddr) (body : list Z) (a : AppState) : option (AppState * DohReply) :=
  doh_handle e client body a.
End Doh.

(** ** Lemmas: zone transfers *)

(** The request is signed, within its time, with the first configured key of that name. *)
Definition signed (a : AppState) (now : Z) (rq : Request) : Prop :=
  exists sig key signer, rq_signature rq = Some sig /\
    List.find (fun k => bool_decide (key_norm (tk_name k) = key_norm (Name_to_string sig))) (st_tsig_keys (ap_settings a))
      = Some key /\
    build_signer key = Ok signer /\ verify_message signer now (rq_bytes rq) = true.

Lemma signature_ok_spec a now rq : signature_ok a now rq = true <-> signed a now rq.
Proof.
  unfold signature_ok, signed, verify_request. split.
  - destruct (rq_signature rq) as [sig|]; [|done]. intros H. exists sig.
    destruct (List.find _ _) as [key|]; [|done]. cbn [ok_or] in H. exists key.
    destruct (build_signer key) as [signer|]; [|done]. exists signer. by destruct (verify_message _ _ _).
  - intros (sig & key & signer & -> & -> & Hb & Hv). cbn [ok_or]. by rewrite Hb, Hv.
Qed.

(** Who may transfer a zone. *)
Definition transfer_permitted (e : Env) (a : AppState) (rq : Request) (i : RequestInfo) : Prop :=
  ri_protocol i <> ProtoUdp /\
  (exists text net, In text (st_allow_axfr_from (ap_settings a)) /\ parse_ipnet text = Some net /\
     ipnet_contains net (ri_src i) = true) /\
  (st_axfr_require_tsig (ap_settings a) = true -> signed a (ev_unix e) rq).

Lemma axfr_allowed_spec a ip :
  axfr_allowed a ip = true <->
  exists text net, In text (st_allow_axfr_from (ap_settings a)) /\ parse_ipnet text = Some net /\ ipnet_contains net ip = true.
Proof.
  unfold axfr_allowed. rewrite existsb_exists. split.
  - intros (net & Hin & Hc). apply list_elem_of_In, list_elem_of_omap in Hin as (text & Ht & Hp).
    apply list_elem_of_In in Ht. eauto 10.
  - intros (text & net & Ht & Hp & Hc). exists net. split; [|done].
    apply list_elem_of_In, list_elem_of_omap. exists text. by rewrite list_elem_of_In.
Qed.

(** A permitted client of a zone is sent the records. *)
Lemma permitted_transfer e rq i a records :
  rq_info rq = Some i -> ri_op_code i = OpQuery -> is_transfer (ri_type i) = true -> transfer_permitted e a rq i ->
  axfr (ap_store a) (ri_name i) (ri_src i) = Some records ->
  handle_request e true rq a =
    Some (a, send_response true (mkDnsResponse i true false NoError records [] None) ServFail).
Proof.
  intros Hi Ho Ht (Hu & Ha & Hs) Hr. unfold handle_request. rewrite Hi, Ho, Ht. cbn [negb bool_decide].
  rewrite bool_decide_eq_true_2 by done. cbn [negb]. unfold handle_axfr. rewrite bool_decide_eq_false_2 by done.
  apply axfr_allowed_spec in Ha. rewrite Ha, Hr. cbn [negb].
  destruct (st_axfr_require_tsig _) eqn:Er; [|done]. specialize (Hs eq_refl). apply signature_ok_spec in Hs. by rewrite Hs.
Qed.

(** C16: a zone is handed out only to a client that asks over a connection, lies in an
    allow-listed network and, when signatures are required, signed the request
    with a configured key; such a client gets the whole transfer, every other one
    an empty refusal, and no state changes either way. *)
Theorem axfr_gate e rq i a :
  rq_info rq = Some i -> ri_op_code i = OpQuery -> is_transfer (ri_type i) = true ->
  exists r info, handle_request e true rq a = Some (a, ([r], info)) /\ dr_info r = i /\
    ((transfer_permitted e a rq i /\ exists records, axfr (ap_store a) (ri_name i) (ri_src i) = Some records /\
        dr_code r = NoError /\ dr_authoritative r = true /\ dr_answers r = records) \/
     (~ (transfer_permitted e a rq i /\ is_Some (axfr (ap_store a) (ri_name i) (ri_src i))) /\
        r = error_msg i Refused)).
Proof.
  intros Hi Ho Ht. unfold handle_request. rewrite Hi, Ho, Ht. cbn [negb bool_decide].
  rewrite bool_decide_eq_true_2 by done. cbn [negb]. unfold handle_axfr, send_code, send_response, transfer_permitted.
  destruct (decide (ri_protocol i = ProtoUdp)) as [Hu|Hu].
  { rewrite bool_decide_eq_true_2 by done. eexists _, _. split_and!; try done. right. split; [|done]. by intros [[? _] _]. }
  rewrite bool_decide_eq_false_2 by done.
  destruct (axfr_allowed a (ri_src i)) eqn:Ea; cbn [negb]; cycle 1.
  { eexists _, _. split_and!; try done. right. split; [|done]. intros [(_ & H & _) _].
    apply axfr_allowed_spec in H. congruence. }
  apply axfr_allowed_spec in Ea.
  destruct (st_axfr_require_tsig (ap_settings a)) eqn:Er; cbn [andb].
  - destruct (signature_ok a (ev_unix e) rq) eqn:Es; cbn [negb]; cycle 1.
    { eexists _, _. split_and!; try done. right. split; [|done]. intros [(_ & _ & H) _].
      specialize (H eq_refl). apply signature_ok_spec in H. congruence. }
    apply signature_ok_spec in Es. destruct (axfr _ _ _) as [records|];
      eexists _, _; (split_and!; [reflexivity|done|]); [left; split; [done|by exists records]|right; split; [|done]; by intros [_ [? ?]]].
  - destruct (axfr _ _ _) as [records|];
      eexists _, _; (split_and!; [reflexivity|done|]); [left; split; [done|by exists records]|right; split; [|done]; by intros [_ [? ?]]].
Qed.

(** ** Lemmas: DNS over HTTPS *)

Section DohLemmas.
Context `{WIRE : !DnsWire} `{CRL : !CredentialLaws}.

Fixpoint padding (n : nat) : string := match n with O => "" | S n => String "="%char (padding n) end.

Lemma trim_end_padding s n :
  str_forall base64_url_char s = true ->
  trim_end_matches "="%char (s +:+ padding n) = s.
Proof.
  intros Hs. induction s as [|c s IH].
  - change ("" +:+ ?t) with t. induction n as [|n IH]; [done|].
    cbn [padding trim_end_matches]. by rewrite IH.
  - cbn [str_forall] in Hs. apply andb_true_iff in Hs as [Hc Hs].
    change (String c s +:+ ?t) with (String c (s +:+ t)). cbn [trim_end_matches]. rewrite IH by done.
    assert (c <> "="%char) as Hne by by intros ->. 
    destruct s; [|done]. by rewrite bool_decide_eq_false_2.
Qed.

(** a GET request whose parameter is the base64url text of a message, with or
    without padding, is answered exactly as a POST request with that message. *)
Theorem doh_get_post e client bytes pad a :
  Forall is_byte bytes ->
  doh_get e client (Some (base64_url_encode bytes +:+ padding pad)) a =
  doh_post e client bytes a.
Proof.
  intros Hb. unfold doh_get, doh_post. rewrite trim_end_padding by apply base64_url_alphabet.
  by rewrite base64_url_decode_encode.
Qed.

(** C34: over HTTPS a query gets the answer it gets over UDP, TCP or TLS, and leaves
    the same state.  A query here is a message with the op code QUERY and exactly
    one question, not for a transfer (AXFR or IXFR); the other messages are treated
    differently over HTTPS. *)
Theorem doh_equals_dns e sends client bytes m q rq i a :
  message_from_vec bytes = Some m -> head (wm_queries m) = Some q ->
  rq_info rq = Some i -> rq_edns rq = wm_edns m -> ri_src i = client -> ri_name i = query_name q ->
  ri_type i = query_type q -> ri_op_code i = OpQuery -> is_transfer (ri_type i) = false ->
  match handle_request e sends rq a, doh_handle e client bytes a with
  | None, None => True
  | Some (a1, (sent, _)), Some (a2, reply) => a1 = a2 /\
      exists r, sent = (if sends then [r] else []) /\
        reply = match message_to_vec (mkWireMessage (wm_id m) true (wm_op_code m) (wm_recursion_desired m)
                  (dr_recursion_available r) (dr_authoritative r) (dr_code r) [q] (dr_answers r) (dr_authority r)
                  (dr_edns r)) with
                | Some buf => DohMessage buf
                | None => DohEncodingFailure
                end
  | _, _ => False
  end.
Proof.
  intros Hm Hq Hi He <- Hn Ht Ho Hx. unfold handle_request, doh_handle. rewrite Hm, Hi, Ho, Hx, Hn, Ht, He.
  rewrite bool_decide_eq_true_2 by done. destruct (wm_queries m) as [|q' qs]; [done|]. injection Hq as ->. cbn [negb].
  destruct (resolve_query _ _ _ _ _ _) as [[a' out]|]; [|done]. unfold send_response, echo_edns.
  destruct (if sends then _ else _) as [sent info] eqn:Es.
  split; [done|]. exists (mkDnsResponse i (ro_authoritative out) (ro_recursion_available out) (ro_rcode out)
    (ro_answers out) (ro_authority out) (if edns_do (wm_edns m) then wm_edns m else None)).
  split; [by destruct sends; injection Es as <- <-|done].
Qed.
End DohLemmas.
End Handler.
