(* ===== verification/Replicate.v ===== *)
(** * A secondary of a primary that runs this program

    What [axfr] answers on the primary, [axfr_transfer] reads to the end and
    [transfer] stores: a transfer between two servers succeeds, and leaves the
    secondary with what the primary shows its view. *)

From S2P Require Import Prelude Strs Net Geo External Models Db DbDns DbAdmin Filter Upstream Cache Stats Mdns Dnssec.
From S2P Require Import Store State Config Web Transfer Resolve Handler.

Section Replicate.
Context `{NETS : IpNets} `{HN : HickoryNames} `{TEXT : !HickoryText} `{SIGN : !Signers} `{RES : !HickoryResolvers}.
Context `{DT : DateTimes} `{UNI : Unicode} `{CR : Credentials} `{TS : !TSigners} `{DQ : !DnsQueries}.

(** The read loop takes an answer of [axfr] as a whole. *)
Lemma axfr_loop_answer s origin client out :
  axfr s origin client = Some out -> Z.of_nat (length out) <= MAX_RECORDS -> fst (axfr_loop [out] []) = Ok out.
Proof.
  intros H Hlen. apply axfr_stream in H as (z & body & _ & _ & -> & _). cbn [axfr_loop is_nil andb app].
  change (is_soa (soa_record z)) with true. cbn [negb].
  destruct (Z.ltb_spec MAX_RECORDS (Z.of_nat (length (soa_record z :: body ++ [soa_record z])))); [lia|].
  destruct (Z.leb_spec 2 (Z.of_nat (length (soa_record z :: body ++ [soa_record z])))) as [|Hl];
    [|exfalso; cbn [length] in Hl; rewrite length_app in Hl; cbn in Hl; lia].
  change (soa_record z :: body ++ [soa_record z]) with ((soa_record z :: body) ++ [soa_record z]) at 1.
  by rewrite last_snoc.
Qed.

(** A transfer that reads records with a SOA among them is stored. *)
Lemma transfer_ok e net zid zname primary key a origin recs s :
  zone_exists (ap_db a) zid = true -> Name_from_utf8 (zname +:+ ".") = Some origin ->
  axfr_transfer net primary origin (key ≫= tsig_signer a) = Ok recs -> head (omap soa_of recs) = Some s ->
  exists a' n, transfer e net zid zname primary key a = (a', Ok n).
Proof.
  intros Hz Ho Hr Hs. unfold transfer. rewrite Ho. cbn [or_throw]. unfold wbind at 1, wret at 1, wbind at 1, reads at 1.
  unfold wbind at 1, lift. rewrite Hr. fold (zone_lower zname). rewrite take_records. cbn [app]. rewrite Hs.
  cbn [fmap option_fmap option_map or_throw]. unfold wbind at 1, wret at 1. cbn [fst snd].
  destruct (replace_secondary_zone_eq (we_ts e) zid (soa_model s) (External.soa_serial s)
    (omap (record_tuple (zone_lower zname)) recs) (ap_db a) Hz) as (new & E & _).
  unfold wbind at 1, stored, map_err, run. rewrite E. cbn [ap_db with_db]. unfold wbind at 1.
  match goal with |- context [set_secondary_status ?ts zid ?err ?r ?d] =>
    destruct (set_secondary_status_eq ts zid err r d) as (S & -> & _) end.
  unfold wbind, updates, wret. eauto.
Qed.

Definition row_tuple (r : RecordRow) : string * string * Z * string :=
  (rr_name r, rr_rtype r, default 0 (rr_ttl r), rr_data r).
Definition public_row (zid : Z) (r : RecordRow) : Prop :=
  rr_zone_id r = zid /\ rr_view_id r = None /\ rr_enabled r = true.

Lemma imported_rows zid tuples new :
  Forall2 (imported_row zid) tuples new -> row_tuple <$> new = tuples /\ Forall (public_row zid) new.
Proof.
  induction 1 as [|t r tuples new (H1 & H2 & H3 & H4 & _) _ [IH1 IH2]]; [done|].
  cbn [fmap list_fmap]. split; [by rewrite IH1; unfold row_tuple; rewrite <- H4|by constructor].
Qed.

(** C25: a secondary of a primary that runs this program becomes a copy of what the
    primary shows it.  If the secondary's request is one the primary permits (a
    connection, an allow-listed network, a signature where one is required) for a
    zone it has, the primary sends the zone; and if that answer, of at most two
    million records, reaches the secondary as one message of at most 65535 bytes
    that decodes to it, then the transfer succeeds, the zone takes the primary's SOA
    and serial, its records are replaced by the ones the primary's zone has for the
    secondary's view, as far as their types are supported, and the store is rebuilt
    from the result. *)
Theorem transfer_replicates e0 pa rq i out e net zid zname primary key a origin buf mbuf :
  rq_info rq = Some i -> ri_op_code i = OpQuery -> ri_type i = AXFR -> ri_name i = origin ->
  transfer_permitted e0 pa rq i -> axfr (ap_store pa) origin (ri_src i) = Some out ->
  zone_exists (ap_db a) zid = true -> Name_from_utf8 (zname +:+ ".") = Some origin ->
  Z.of_nat (length out) <= MAX_RECORDS -> pr_encode net origin AXFR (key ≫= tsig_signer a) = Some buf ->
  pr_tcp net primary (write_frame buf) = Some (write_frame mbuf) ->
  Z.of_nat (length mbuf) <= u16_max -> pr_answers net mbuf = Some out ->
  exists r info a' z new,
    handle_request e0 true rq pa = Some (pa, ([r], info)) /\ dr_code r = NoError /\ dr_answers r = out /\
    transfer e net zid zname primary key a = (a', Ok (length new)) /\
    In z (zs_zones (ap_store pa)) /\ name_key (sd_apex z) = name_key origin /\
    zones (ap_db a') = update_where (fun z => zr_id z =? zid) (fun r => mkZoneRow (zr_id r) (zr_name r) (zr_enabled r)
      (soa_model (sd_soa z)) (zr_default_ttl r) (External.soa_serial (sd_soa z)) (zr_created_at r) (we_ts e)) (zones (ap_db a)) /\
    records (ap_db a') = delete_where (fun r => rr_zone_id r =? zid) (records (ap_db a)) ++ new /\
    Forall (public_row zid) new /\
    (forall t, In t (row_tuple <$> new) <->
       exists key recs owner x, sd_records z !! key = Some recs /\ Name_from_utf8 (key +:+ ".") = Some owner /\
         visible recs (client_view (ap_store pa) (ri_src i) ClientGeo_default) x /\
         record_tuple (zone_lower zname) (mkRecord owner (sr_ttl x) (sr_rdata x)) = Some t) /\
    ap_store a' = build_from (ap_db a').
Proof.
  intros Hi Hop Hty Hname Hperm Hout Hz Ho Hlen Hbuf Htcp Hm Hans.
  eexists _, _. assert (is_transfer (ri_type i) = true) as Htr by by rewrite Hty.
  pose proof (permitted_transfer e0 rq i pa out Hi Hop Htr Hperm ltac:(by rewrite Hname)) as Hserved.
  change (handle_request e0 true rq pa = Some (pa, ([mkDnsResponse i true false NoError out [] None],
    Sent (mkDnsResponse i true false NoError out [] None)))) in Hserved. clear Hname Hperm.
  assert (axfr_transfer net primary origin (key ≫= tsig_signer a) = Ok out) as Hr.
  { rewrite <- (axfr_loop_answer _ _ _ _ Hout Hlen). apply (axfr_transfer_frames _ _ _ _ buf [mbuf] [out] []); try done.
    - cbn. by rewrite !app_nil_r.
    - by repeat constructor. }
  apply axfr_stream in Hout as (z & body & Hzin & Hkey & -> & Hbody).
  destruct (transfer_ok e net zid zname primary key a origin _ (sd_soa z) Hz Ho Hr eq_refl) as (a' & n & Ht).
  pose proof (transfer_inv _ _ _ _ _ _ _ _ _ Ht) as (origin' & recs & soa & Ho' & Hr' & Hs & d1 & S & Hd & Ha & Hst).
  rewrite Ho in Ho'. injection Ho' as <-. rewrite Hr in Hr'. injection Hr' as <-. injection Hs as <-.
  destruct (replace_secondary_zone_eq (we_ts e) zid (soa_model (sd_soa z)) (External.soa_serial (sd_soa z))
    (omap (record_tuple (zone_lower zname)) (soa_record z :: body ++ [soa_record z])) (ap_db a) Hz) as (new & E & Hnew).
  rewrite E in Hd. injection Hd as <- <-. apply Forall2_length in Hnew as El. apply imported_rows in Hnew as [Et Hnew].
  exists a', z, new. rewrite <- El, Ha in *. split; [exact Hserved|]. split_and!; try done. intros t. rewrite Et.
  cbn [omap list_omap]. change (record_tuple (zone_lower zname) (soa_record z)) with (@None (string * string * Z * string)).
  rewrite <- list_elem_of_In, list_elem_of_omap. setoid_rewrite list_elem_of_In. setoid_rewrite in_app_iff. split.
  - intros (r & [Hr1|[<-|[]]] & Hrt); [|discriminate Hrt].
    apply Hbody in Hr1 as (key' & recs & owner & x & ? & ? & ? & ->). by exists key', recs, owner, x.
  - intros (key' & recs & owner & x & ? & ? & ? & Hrt). eexists. split; [left|exact Hrt]. apply Hbody. by exists key', recs, owner, x.
Qed.
End Replicate.
