(* ===== verification/Router.v ===== *)
(** * The management server: routes, middleware ([src/web/mod.rs])

    [serve] is one request through the middleware, the routing table and the
    handler with its extractors; the response is [None] where a handler panics
    and the connection closes.  serde's decoding of a body or a query string is a
    class ([Decoders]), as are the UI files.  The security headers and tracing do not
    change what a handler does and are left out. *)

From S2P Require Import Prelude Strs Net Geo External Models DhcpOptions Db DbDns DbFilter DbDhcp DbAdmin Filter Upstream.
From S2P Require Import Cache Stats Mdns Dnssec Store State Config Web Auth DynDns Transfer ApiZones ApiFilter.
From S2P Require Import ApiDhcp Reports Resolve Handler.

(** ** The routing table *)

Inductive Endpoint : Type :=
| E_health | E_list_audit | E_metrics | E_status | E_stats | E_clear_stats | E_map_points | E_mdns_hosts
| E_list_interfaces | E_backup_db | E_query_log | E_clear_query_log | E_login | E_logout | E_me
| E_change_password | E_setup | E_list_views | E_create_view | E_update_view | E_delete_view | E_list_zones
| E_create_zone | E_get_zone | E_update_zone | E_delete_zone | E_list_records | E_create_record | E_export_zone
| E_import_zone | E_get_dnssec | E_enable_dnssec | E_disable_dnssec | E_list_secondaries | E_create_secondary
| E_refresh_secondary | E_update_record | E_delete_record | E_get_settings | E_put_settings | E_list_blocklists
| E_create_blocklist | E_blocklist_catalog | E_refresh_all_blocklists | E_update_blocklist | E_delete_blocklist
| E_refresh_blocklist | E_list_block_rules | E_create_block_rule | E_delete_block_rule | E_list_rewrites
| E_create_rewrite | E_update_rewrite | E_delete_rewrite | E_list_conditional | E_create_conditional
| E_update_conditional | E_delete_conditional | E_list_dyndns_tokens | E_create_dyndns_token
| E_delete_dyndns_token | E_list_dhcp_scopes | E_create_dhcp_scope | E_get_dhcp_scope | E_update_dhcp_scope
| E_delete_dhcp_scope | E_create_dhcp_reservation | E_update_dhcp_reservation | E_delete_dhcp_reservation
| E_list_dhcp_leases | E_delete_dhcp_lease | E_dhcp_option_catalog | E_nic_update | E_doh_get | E_doh_post.
#[export] Instance Endpoint_eq_dec : EqDecision Endpoint.
Proof. solve_decision. Defined.

Definition ROUTES : list (string * list (Method * Endpoint)) :=
  [
   ("/api/health", [(GET, E_health)]);
   ("/api/audit", [(GET, E_list_audit)]);
   ("/metrics", [(GET, E_metrics)]);
   ("/api/status", [(GET, E_status)]);
   ("/api/stats", [(GET, E_stats)]);
   ("/api/stats/clear", [(POST, E_clear_stats)]);
   ("/api/map", [(GET, E_map_points)]);
   ("/api/mdns", [(GET, E_mdns_hosts)]);
   ("/api/interfaces", [(GET, E_list_interfaces)]);
   ("/api/backup", [(GET, E_backup_db)]);
   ("/api/queries", [(GET, E_query_log); (DELETE, E_clear_query_log)]);
   ("/api/auth/login", [(POST, E_login)]);
   ("/api/auth/logout", [(POST, E_logout)]);
   ("/api/auth/me", [(GET, E_me)]);
   ("/api/auth/change-password", [(POST, E_change_password)]);
   ("/api/setup", [(POST, E_setup)]);
   ("/api/views", [(GET, E_list_views); (POST, E_create_view)]);
   ("/api/views/{id}", [(PUT, E_update_view); (DELETE, E_delete_view)]);
   ("/api/zones", [(GET, E_list_zones); (POST, E_create_zone)]);
   ("/api/zones/{id}", [(GET, E_get_zone); (PUT, E_update_zone); (DELETE, E_delete_zone)]);
   ("/api/zones/{id}/records", [(GET, E_list_records); (POST, E_create_record)]);
   ("/api/zones/{id}/export", [(GET, E_export_zone)]);
   ("/api/zones/{id}/import", [(POST, E_import_zone)]);
   ("/api/zones/{id}/dnssec", [(GET, E_get_dnssec); (POST, E_enable_dnssec); (DELETE, E_disable_dnssec)]);
   ("/api/secondary-zones", [(GET, E_list_secondaries); (POST, E_create_secondary)]);
   ("/api/secondary-zones/{id}/refresh", [(POST, E_refresh_secondary)]);
   ("/api/records/{id}", [(PUT, E_update_record); (DELETE, E_delete_record)]);
   ("/api/settings", [(GET, E_get_settings); (PUT, E_put_settings)]);
   ("/api/blocklists", [(GET, E_list_blocklists); (POST, E_create_blocklist)]);
   ("/api/blocklists/catalog", [(GET, E_blocklist_catalog)]);
   ("/api/blocklists/refresh_all", [(POST, E_refresh_all_blocklists)]);
   ("/api/blocklists/{id}", [(PUT, E_update_blocklist); (DELETE, E_delete_blocklist)]);
   ("/api/blocklists/{id}/refresh", [(POST, E_refresh_blocklist)]);
   ("/api/rules", [(GET, E_list_block_rules); (POST, E_create_block_rule)]);
   ("/api/rules/{id}", [(DELETE, E_delete_block_rule)]);
   ("/api/rewrites", [(GET, E_list_rewrites); (POST, E_create_rewrite)]);
   ("/api/rewrites/{id}", [(PUT, E_update_rewrite); (DELETE, E_delete_rewrite)]);
   ("/api/conditional-forwards", [(GET, E_list_conditional); (POST, E_create_conditional)]);
   ("/api/conditional-forwards/{id}", [(PUT, E_update_conditional); (DELETE, E_delete_conditional)]);
   ("/api/dyndns/tokens", [(GET, E_list_dyndns_tokens); (POST, E_create_dyndns_token)]);
   ("/api/dyndns/tokens/{id}", [(DELETE, E_delete_dyndns_token)]);
   ("/api/dhcp/scopes", [(GET, E_list_dhcp_scopes); (POST, E_create_dhcp_scope)]);
   ("/api/dhcp/scopes/{id}", [(GET, E_get_dhcp_scope); (PUT, E_update_dhcp_scope); (DELETE, E_delete_dhcp_scope)]);
   ("/api/dhcp/scopes/{id}/reservations", [(POST, E_create_dhcp_reservation)]);
   ("/api/dhcp/reservations/{id}", [(PUT, E_update_dhcp_reservation); (DELETE, E_delete_dhcp_reservation)]);
   ("/api/dhcp/leases", [(GET, E_list_dhcp_leases)]);
   ("/api/dhcp/leases/{id}", [(DELETE, E_delete_dhcp_lease)]);
   ("/api/dhcp/option-catalog", [(GET, E_dhcp_option_catalog)]);
   ("/nic/update", [(GET, E_nic_update)]);
   ("/v3/update", [(GET, E_nic_update)]);
   ("/dns-query", [(GET, E_doh_get); (POST, E_doh_post)])].

(** The captured segment, if the path matches; [{id}] captures one that is not empty. *)
Fixpoint match_segments (pattern path : list string) : option (option string) :=
  match pattern, path with
  | [], [] => Some None
  | p :: pattern', s :: path' =>
      if bool_decide (p = "{id}") then
        if is_empty s then None
        else match match_segments pattern' path' with
             | Some _ => Some (Some s)
             | None => None
             end
      else if bool_decide (p = s) then match_segments pattern' path'
      else None
  | _, _ => None
  end.
Definition match_path (pattern path : string) : option (option string) :=
  match_segments (split "/"%char pattern) (split "/"%char path).

(** A route without a parameter goes before one with it. *)
Definition find_route (path : string) : option (list (Method * Endpoint) * option string) :=
  let matches := omap (fun '(pattern, methods) => (fun seg => (methods, seg)) <$> match_path pattern path) ROUTES in
  match List.find (fun m : list (Method * Endpoint) * option string => bool_decide (snd m = None)) matches with
  | Some m => Some m
  | None => head matches
  end.

(** A [GET] handler also answers [HEAD]. *)
Definition find_method (m : Method) (methods : list (Method * Endpoint)) : option Endpoint :=
  let m := if bool_decide (m = HEAD) then GET else m in
  snd <$> List.find (fun x => bool_decide (fst x = m)) methods.

(** ** Requests and extractors *)

Record HttpRequest : Type := mkHttpRequest {
  hr_method : Method; hr_path : string; hr_query : string; hr_headers : Headers; hr_peer : IpAddr; hr_body : list Z;
  (** the length of the body is not declared in advance *)
  hr_chunked : bool }.

(** A file of the user interface. *)
Record Asset : Type := mkAsset { as_data : string; as_mime : string }.

Definition CSP : string :=
  "default-src 'self'; script-src 'self'; style-src 'self' 'unsafe-inline'; " +:+
  "img-src 'self' data: https://*.tile.openstreetmap.org; connect-src 'self'; " +:+
  "font-src 'self'; object-src 'none'; base-uri 'self'; form-action 'self'; " +:+
  "frame-ancestors 'none'".

(** The limit of the body, and the response to a body beyond it. *)
Definition BODY_LIMIT : Z := 512 * 1024.
Definition over_limit (rq : HttpRequest) : bool := BODY_LIMIT <? Z.of_nat (length (hr_body rq)).
Definition body_too_large : Response := mkResponse 413 (Text "length limit exceeded") [].

(** The decoded body or query string, if it decodes. *)
Class Decoders := {
  query_log_params : HttpRequest -> option QueryLogParams;
  login_request : HttpRequest -> option LoginRequest;
  setup_request : HttpRequest -> option SetupRequest;
  change_password_request : HttpRequest -> option ChangePasswordRequest;
  view_create : HttpRequest -> option ViewCreate;
  view_update : HttpRequest -> option ViewUpdate;
  zone_create : HttpRequest -> option ZoneCreate;
  zone_update : HttpRequest -> option ZoneUpdate;
  record_create : HttpRequest -> option RecordCreate;
  record_update : HttpRequest -> option RecordUpdate;
  zone_import : HttpRequest -> option ZoneImport;
  dnssec_enable : HttpRequest -> option (option bool);
  secondary_create : HttpRequest -> option SecondaryCreate;
  settings_update : HttpRequest -> option SettingsUpdate;
  blocklist_create : HttpRequest -> option BlocklistCreate;
  blocklist_update : HttpRequest -> option BlocklistUpdate;
  block_rule_create : HttpRequest -> option BlockRuleCreate;
  rewrite_create : HttpRequest -> option RewriteCreate;
  rewrite_update : HttpRequest -> option RewriteUpdate;
  conditional_create : HttpRequest -> option ConditionalCreate;
  conditional_update : HttpRequest -> option ConditionalUpdate;
  token_create : HttpRequest -> option DynDnsTokenCreate;
  scope_input : HttpRequest -> option DhcpScopeInput;
  reservation_input : HttpRequest -> option DhcpReservationInput;
  lease_query : HttpRequest -> option (option Z);
  catalog_query : HttpRequest -> option (option string);
  nic_params : HttpRequest -> option (gmap string string);
  doh_params : HttpRequest -> option (option string)
}.

Section Router.
Context `{NETS : IpNets} `{HN : HickoryNames} `{TEXT : !HickoryText} `{SIGN : !Signers} `{RES : !HickoryResolvers}
  `{UNI : Unicode} `{DT : DateTimes} `{CR : Credentials} `{TS : !TSigners} `{TOOLS : !DnssecTools} `{ZF : !ZoneFiles}
  `{ERR : !ErrorTexts} `{DQ : !DnsQueries} `{WIRE : !DnsWire} `{DEC : Decoders} `{MM : MaxMind}.

Definition Handler : Type := AppState -> AppState * option Response.

Section Handle.
(** What is outside a request: its environment, the primaries, the resolver's
    environment, the texts of errors, what the reports see and the UI files. *)
Context (e : WebEnv) (net : Primaries) (env : Env) (tsig_text : TsigError -> string)
  (option_text : DhcpOption -> OptionError -> string) (VERSION : string) (vt : Vantage)
  (assets : string -> option Asset).

Definition pure (r : Response) : Handler := fun a => (a, Some r).
Definition of_w (m : W Response) : Handler := fun a => let '(a', r) := respond m a in (a', Some r).
(** [None] is a panic before anything is written. *)
Definition of_opt (m : option (W Response)) : Handler := fun a =>
  match m with Some m => of_w m a | None => (a, None) end.
Definition doh_response (r : DohReply) : Response :=
  match r with
  | DohBadRequest msg => plain 400 msg
  | DohMessage body => mkFullResponse 200 (Bytes body) [] [("content-type", "application/dns-message")]
  | DohEncodingFailure => plain 500 "encoding failure"
  end.
Definition of_doh (m : AppState -> option (AppState * DohReply)) : Handler := fun a =>
  match m a with Some (a', r) => (a', Some (doh_response r)) | None => (a, None) end.

(** axum's rejection of a path or a body. *)
Definition rejection : Response := mkResponse 400 (Text "") [].

Definition with_id (seg : option string) (k : Z -> Handler) : Handler :=
  match seg ≫= parse_i64 with Some id => k id | None => pure rejection end.
Definition with_decoded {X} (o : option X) (k : X -> Handler) : Handler :=
  match o with Some x => k x | None => pure rejection end.
(** A body of undeclared length is cut off at the limit, where reading it fails. *)
Definition with_body {X} (rq : HttpRequest) (o : option X) (k : X -> Handler) : Handler :=
  if over_limit rq then pure body_too_large else with_decoded o k.
Definition with_auth (rq : HttpRequest) (k : Authed -> Handler) : Handler := fun a =>
  match from_request_parts e (hr_method rq) (hr_headers rq) a with
  | (a', Ok auth) => k auth a'
  | (a', Err err) => (a', Some (error_response err))
  end.

(** Each endpoint with its extractors, in the order of the handler's arguments. *)
Definition handle (ep : Endpoint) (rq : HttpRequest) (seg : option string) : Handler :=
  match ep with
  | E_health => pure (api_health VERSION)
  | E_list_audit => with_auth rq (fun _ => of_w api_list_audit)
  | E_metrics => of_w (api_metrics e vt)
  | E_status => with_auth rq (fun _ => of_w (api_status e VERSION vt))
  | E_stats => with_auth rq (fun _ => of_w (api_stats e vt))
  | E_clear_stats => with_auth rq (fun _ => of_w api_clear_stats)
  | E_map_points => with_auth rq (fun _ => of_w (api_map_points vt))
  | E_mdns_hosts => with_auth rq (fun _ => of_w (api_mdns_hosts e))
  | E_list_interfaces => with_auth rq (fun _ => of_w (api_list_interfaces vt))
  | E_backup_db => with_auth rq (fun _ => of_w (api_backup_db e vt))
  | E_query_log => with_auth rq (fun _ => with_decoded (query_log_params rq) (fun x => of_w (api_query_log x)))
  | E_clear_query_log => with_auth rq (fun _ => of_w api_clear_query_log)
  | E_login => with_body rq (login_request rq) (fun x => of_w (login e x))
  | E_logout => with_auth rq (fun _ => of_w (logout e (hr_headers rq)))
  | E_me => of_w (me e (hr_headers rq))
  | E_change_password => with_auth rq (fun auth => with_body rq (change_password_request rq) (fun x => of_w (change_password e auth x)))
  | E_setup => with_body rq (setup_request rq) (fun x => of_w (setup e x))
  | E_list_views => with_auth rq (fun _ => of_w api_list_views)
  | E_create_view => with_auth rq (fun _ => with_body rq (view_create rq) (fun x => of_w (api_create_view e x)))
  | E_update_view => with_id seg (fun id => with_auth rq (fun _ => with_body rq (view_update rq) (fun x => of_w (api_update_view id x))))
  | E_delete_view => with_id seg (fun id => with_auth rq (fun _ => of_w (api_delete_view id)))
  | E_list_zones => with_auth rq (fun _ => of_w api_list_zones)
  | E_create_zone => with_auth rq (fun _ => with_body rq (zone_create rq) (fun x => of_w (api_create_zone e x)))
  | E_get_zone => with_id seg (fun id => with_auth rq (fun _ => of_w (api_get_zone id)))
  | E_update_zone => with_id seg (fun id => with_auth rq (fun _ => with_body rq (zone_update rq) (fun x => of_w (api_update_zone e id x))))
  | E_delete_zone => with_id seg (fun id => with_auth rq (fun _ => of_w (api_delete_zone id)))
  | E_list_records => with_id seg (fun id => with_auth rq (fun _ => of_w (api_list_records id)))
  | E_create_record => with_id seg (fun id => with_auth rq (fun _ => with_body rq (record_create rq) (fun x => of_w (api_create_record e id x))))
  | E_export_zone => with_id seg (fun id => with_auth rq (fun _ => of_w (api_export_zone id)))
  | E_import_zone => with_id seg (fun id => with_auth rq (fun _ => with_body rq (zone_import rq) (fun x => of_w (api_import_zone e id x))))
  | E_get_dnssec => with_id seg (fun id => with_auth rq (fun _ => of_w (api_get_dnssec id)))
  | E_enable_dnssec => with_id seg (fun id => with_auth rq (fun _ => with_body rq (dnssec_enable rq) (fun x => of_w (api_enable_dnssec e id x))))
  | E_disable_dnssec => with_id seg (fun id => with_auth rq (fun _ => of_w (api_disable_dnssec id)))
  | E_list_secondaries => with_auth rq (fun _ => of_w api_list_secondaries)
  | E_create_secondary => with_auth rq (fun _ => with_body rq (secondary_create rq) (fun x => of_w (api_create_secondary e net x)))
  | E_refresh_secondary => with_id seg (fun id => with_auth rq (fun _ => of_w (api_refresh_secondary e net id)))
  | E_update_record => with_id seg (fun id => with_auth rq (fun _ => with_body rq (record_update rq) (fun x => of_w (api_update_record e id x))))
  | E_delete_record => with_id seg (fun id => with_auth rq (fun _ => of_w (api_delete_record e id)))
  | E_get_settings => with_auth rq (fun _ => of_w api_get_settings)
  | E_put_settings => with_auth rq (fun _ => with_body rq (settings_update rq) (fun x => of_w (api_put_settings tsig_text x)))
  | E_list_blocklists => with_auth rq (fun _ => of_w api_list_blocklists)
  | E_create_blocklist => with_auth rq (fun _ => with_body rq (blocklist_create rq) (fun x => of_w (api_create_blocklist e x)))
  | E_blocklist_catalog => with_auth rq (fun _ => pure api_blocklist_catalog)
  | E_refresh_all_blocklists => with_auth rq (fun _ => of_w (api_refresh_all_blocklists e))
  | E_update_blocklist => with_id seg (fun id => with_auth rq (fun _ => with_body rq (blocklist_update rq) (fun x => of_w (api_update_blocklist id x))))
  | E_delete_blocklist => with_id seg (fun id => with_auth rq (fun _ => of_w (api_delete_blocklist id)))
  | E_refresh_blocklist => with_id seg (fun id => with_auth rq (fun _ => of_w (api_refresh_blocklist e id)))
  | E_list_block_rules => with_auth rq (fun _ => of_w api_list_block_rules)
  | E_create_block_rule => with_auth rq (fun _ => with_body rq (block_rule_create rq) (fun x => of_w (api_create_block_rule e x)))
  | E_delete_block_rule => with_id seg (fun id => with_auth rq (fun _ => of_w (api_delete_block_rule id)))
  | E_list_rewrites => with_auth rq (fun _ => of_w api_list_rewrites)
  | E_create_rewrite => with_auth rq (fun _ => with_body rq (rewrite_create rq) (fun x => of_w (api_create_rewrite e x)))
  | E_update_rewrite => with_id seg (fun id => with_auth rq (fun _ => with_body rq (rewrite_update rq) (fun x => of_w (api_update_rewrite id x))))
  | E_delete_rewrite => with_id seg (fun id => with_auth rq (fun _ => of_w (api_delete_rewrite id)))
  | E_list_conditional => with_auth rq (fun _ => of_w api_list_conditional)
  | E_create_conditional => with_auth rq (fun _ => with_body rq (conditional_create rq) (fun x => of_w (api_create_conditional e x)))
  | E_update_conditional => with_id seg (fun id => with_auth rq (fun _ => with_body rq (conditional_update rq) (fun x => of_w (api_update_conditional id x))))
  | E_delete_conditional => with_id seg (fun id => with_auth rq (fun _ => of_w (api_delete_conditional id)))
  | E_list_dyndns_tokens => with_auth rq (fun _ => of_w api_list_dyndns_tokens)
  | E_create_dyndns_token => with_auth rq (fun _ => with_body rq (token_create rq) (fun x => of_w (api_create_dyndns_token e x)))
  | E_delete_dyndns_token => with_id seg (fun id => with_auth rq (fun _ => of_w (api_delete_dyndns_token id)))
  | E_list_dhcp_scopes => with_auth rq (fun _ => of_w api_list_dhcp_scopes)
  | E_create_dhcp_scope => with_auth rq (fun _ => with_body rq (scope_input rq) (fun x => of_opt (api_create_dhcp_scope option_text e x)))
  | E_get_dhcp_scope => with_id seg (fun id => with_auth rq (fun _ => of_w (api_get_dhcp_scope id)))
  | E_update_dhcp_scope => with_id seg (fun id => with_auth rq (fun _ => with_body rq (scope_input rq) (fun x => of_opt (api_update_dhcp_scope option_text id x))))
  | E_delete_dhcp_scope => with_id seg (fun id => with_auth rq (fun _ => of_w (api_delete_dhcp_scope id)))
  | E_create_dhcp_reservation => with_id seg (fun id => with_auth rq (fun _ => with_body rq (reservation_input rq) (fun x => of_opt (api_create_dhcp_reservation option_text e id x))))
  | E_update_dhcp_reservation => with_id seg (fun id => with_auth rq (fun _ => with_body rq (reservation_input rq) (fun x => of_opt (api_update_dhcp_reservation option_text id x))))
  | E_delete_dhcp_reservation => with_id seg (fun id => with_auth rq (fun _ => of_w (api_delete_dhcp_reservation id)))
  | E_list_dhcp_leases => with_auth rq (fun _ => with_decoded (lease_query rq) (fun x => of_w (api_list_dhcp_leases x)))
  | E_delete_dhcp_lease => with_id seg (fun id => with_auth rq (fun _ => of_w (api_delete_dhcp_lease id)))
  | E_dhcp_option_catalog => with_auth rq (fun _ => with_decoded (catalog_query rq) (fun x => pure (api_dhcp_option_catalog x)))
  | E_nic_update => with_decoded (nic_params rq) (fun x => (fun a => let '(a, r) := nic_update e (hr_peer rq) (hr_headers rq) x a in (a, Some r)))
  | E_doh_get => with_decoded (doh_params rq) (fun x => of_doh (doh_get env (hr_peer rq) x))
  | E_doh_post => with_body rq (Some (hr_body rq)) (fun body => of_doh (doh_post env (hr_peer rq) body))
  end.

(** ** Fallback and middleware *)

(** The browser asks again before it uses a copy. *)
Definition serve_embedded (content : Asset) : Response :=
  mkFullResponse 200 (Text (as_data content)) [] [("content-type", as_mime content); ("cache-control", "no-cache")].

Definition static_handler (path : string) : Response :=
  let path := trim_start_matches "/"%char path in
  if starts_with path "api/" || bool_decide (path = "api") then
    mkResponse 404 (JsonBody (JObj [("error", JObj [("code", JStr "not_found"); ("message", JStr "No such endpoint")])])) []
  else
    let lookup := if is_empty path then "index.html" else path in
    match assets lookup with
    | Some content => serve_embedded content
    | None => match assets "index.html" with
              | Some content => serve_embedded content
              | None => plain 404 "UI assets not bundled"
              end
    end.

Definition route (rq : HttpRequest) : Handler :=
  match find_route (hr_path rq) with
  | None => pure (static_handler (hr_path rq))
  | Some (methods, seg) =>
      match find_method (hr_method rq) methods with
      | None => pure (mkResponse 405 NoBody [])
      | Some ep => handle ep rq seg
      end
  end.

(** A request that declares too long a body does not reach its handler. *)
Definition body_limit (next : Handler) (rq : HttpRequest) : Handler :=
  if negb (hr_chunked rq) && over_limit rq then pure body_too_large else next.

(** The headers set on every response that passes, the innermost first. *)
Definition security_header (name value : string) (next : Handler) : Handler := fun a =>
  let '(a', r) := next a in (a', set_header name value <$> r).
Definition security_headers (next : Handler) : Handler :=
  security_header "referrer-policy" "strict-origin-when-cross-origin"
    (security_header "x-frame-options" "DENY"
       (security_header "x-content-type-options" "nosniff"
          (security_header "content-security-policy" CSP next))).

Definition method_str (m : Method) : string :=
  match m with
  | GET => "GET" | HEAD => "HEAD" | POST => "POST" | PUT => "PUT" | PATCH => "PATCH" | DELETE => "DELETE"
  | OtherMethod => ""
  end.

(** The spawned task: who the session says, or a question mark.  [audit_mw] spawns it
    once the handler is done and does not wait for it; it is written here at the end of
    the request, where it runs if nothing else does first ([Concurrent] lets it run at
    any time). *)
Definition write_audit (rq : HttpRequest) (status : Z) (a : AppState) : AppState :=
  let '(a, who) := resolve_session e (hr_headers rq) a in
  let username := match who with Ok auth => ur_username (at_user auth) | Err _ => "?" end in
  let action := method_str (hr_method rq) +:+ " " +:+ hr_path rq in
  fst (attempt (E := AppError) (run (insert_audit (we_ts e) username action status (show_ip (hr_peer rq)))) a).

Definition audited (rq : HttpRequest) (r : Response) : bool :=
  is_mutating (hr_method rq) && is_success (rp_status r) && starts_with (hr_path rq) "/api/".

Definition audit_mw (next : Handler) (rq : HttpRequest) : Handler := fun a =>
  match next a with
  | (a', Some r) => (if audited rq r then write_audit rq (rp_status r) a' else a', Some r)
  | (a', None) => (a', None)
  end.

Definition dyndns_path (path : string) : bool := bool_decide (path = "/nic/update") || bool_decide (path = "/v3/update").

Definition ip_guard (allow : list IpNet) (next : Handler) (rq : HttpRequest) : Handler :=
  if dyndns_path (hr_path rq) || existsb (fun n => ipnet_contains n (hr_peer rq)) allow then next
  else pure (plain 403 "forbidden").

(** [router]: the guard is there only when the list is not empty. *)
Definition serve (rq : HttpRequest) : Handler :=
  let allow := omap parse_ipnet (wc_allow_networks (cg_web (we_config e))) in
  let app := audit_mw (security_headers (body_limit (route rq) rq)) rq in
  if is_nil allow then app else ip_guard allow app rq.

(** The response with the security headers. *)
Definition secured (r : Response) : Response :=
  set_header "referrer-policy" "strict-origin-when-cross-origin"
    (set_header "x-frame-options" "DENY"
       (set_header "x-content-type-options" "nosniff" (set_header "content-security-policy" CSP r))).

Lemma security_headers_eq h a : security_headers h a = (fst (h a), secured <$> snd (h a)).
Proof. unfold security_headers, security_header. by destruct (h a) as [a' [r|]]. Qed.
Lemma secured_status r : rp_status (secured r) = rp_status r.
Proof. done. Qed.
End Handle.
End Router.
