(* ===== verification/Privacy.v ===== *)
(** * What the reports say ([/metrics] and the map)

    The metrics are open to anyone who reaches the port: they are a function of
    what is aggregate.  The points of the map are exact: every located address is
    counted in one point. *)

From S2P Require Import Prelude Strs Float Net Geo External Models DhcpOptions Db DbDns DbFilter DbDhcp DbAdmin Filter.
From S2P Require Import Upstream Cache Stats Mdns Dnssec Store State Config Web Auth DynDns Transfer ApiZones ApiFilter.
From S2P Require Import ApiDhcp Reports Sync Resolve Handler Router.

(** ** The metrics *)

(** What an operation on the statistics leaves in the aggregates: the second, the
    address family, the type and the outcome of a query, not who asked what. *)
Inductive Observation : Type :=
| ObQuery (sec : Z) (ipv4 : bool) (qtype : string) (o : QueryOutcome)
| ObDnssecFailure.

Definition observation (op : StatsOp) : option Observation :=
  match op with
  | StRecord _ sec _ client _ _ qtype o _ => Some (ObQuery sec (is_ipv4 client) qtype o)
  | StDnssecFailure => Some ObDnssecFailure
  | _ => None
  end.

Definition run_history (ops : list StatsOp) (s : Stats) : Stats := fold_left (fun s op => run_stats op s) ops s.

Record aggregates_eq (s s' : Stats) : Prop := {
  ae_counters : sts_counters s = sts_counters s';
  ae_qtypes : sts_by_qtype s = sts_by_qtype s';
  ae_series : sts_series s = sts_series s' }.

#[export] Instance aggregates_equiv : Equivalence aggregates_eq.
Proof.
  split; [by split|intros s s' []; by split|intros s1 s2 s3 [] []; split; congruence].
Qed.

Lemma unobserved_step op s : observation op = None -> aggregates_eq (run_stats op s) s.
Proof. destruct op; try done; by split. Qed.

Lemma observed_step op op' s s' :
  observation op = observation op' -> observation op <> None -> aggregates_eq s s' ->
  aggregates_eq (run_stats op s) (run_stats op' s').
Proof.
  intros E Hsome [H1 H2 H3]. destruct op; try done; destruct op'; try done; cbn [run_stats];
    [|by split; cbn; rewrite ?H1].
  injection E as -> Hip -> ->. unfold stats_record, count_query. cbv zeta. rewrite H1, H2, H3, Hip.
  destruct (bool_decide (mode = QlOff)), (bool_decide (mode0 = QlOff)); by split.
Qed.

(** The next observation of a history, and what follows it. *)
Lemma observe_first ops x l :
  omap observation ops = x :: l -> forall s, exists op rest s', observation op = Some x /\ omap observation rest = l /\
    aggregates_eq s' s /\ run_history ops s = run_history rest (run_stats op s').
Proof.
  induction ops as [|op ops IH]; [done|]. cbn [omap list_omap]. intros E s. destruct (observation op) as [y|] eqn:Eo.
  - injection E as -> E. by exists op, ops, s.
  - destruct (IH E (run_stats op s)) as (op' & rest & s' & H1 & H2 & H3 & H4). exists op', rest, s'. split_and!; try done.
    rewrite H3. by apply unobserved_step.
Qed.

Lemma run_history_aggregates ops ops' s s' :
  omap observation ops = omap observation ops' -> aggregates_eq s s' ->
  aggregates_eq (run_history ops s) (run_history ops' s').
Proof.
  remember (omap observation ops) as l eqn:E. symmetry in E. intros E'. symmetry in E'.
  revert ops ops' s s' E E'. induction l as [|x l IH]; intros ops ops' s s' E E' Hs.
  - assert (forall ops s, omap observation ops = [] -> aggregates_eq (run_history ops s) s) as Hnone.
    { clear. induction ops as [|op ops IH]; intros s E; [done|]. cbn [omap list_omap] in E.
      destruct (observation op) eqn:Eo; [done|]. cbn [run_history fold_left]. etransitivity; [by apply IH|].
      by apply unobserved_step. }
    by rewrite !Hnone.
  - destruct (observe_first _ _ _ E s) as (op & rest & s1 & H1 & H2 & H3 & ->).
    destruct (observe_first _ _ _ E' s') as (op' & rest' & s1' & H1' & H2' & H3' & ->).
    apply IH; [done..|]. apply observed_step; [congruence|congruence|]. by rewrite H3, H3'.
Qed.

Lemma prometheus_aggregates elapsed s s' : aggregates_eq s s' -> prometheus elapsed s = prometheus elapsed s'.
Proof. intros [H1 H2 H3]. unfold prometheus. by rewrite H1, H2, H3. Qed.

Section Metrics.
Context `{NETS : IpNets} `{HN : HickoryNames} `{TEXT : !HickoryText} `{SIGN : !Signers} `{RES : !HickoryResolvers}
  `{UNI : Unicode} `{DT : DateTimes} `{CR : Credentials} `{TS : !TSigners} `{TOOLS : !DnssecTools} `{ZF : !ZoneFiles}
  `{ERR : !ErrorTexts} `{DQ : !DnsQueries} `{WIRE : !DnsWire} `{DEC : Decoders} `{MM : MaxMind}.
Context (e : WebEnv) (tsig_text : TsigError -> string) (option_text : DhcpOption -> OptionError -> string)
  (VERSION : string) (vt : Vantage) (assets : string -> option Asset).

Lemma find_metrics : find_route "/metrics" = Some ([(GET, E_metrics)], None).
Proof. vm_compute. reflexivity. Qed.

(** What the metrics answer a request that reaches the router, by its method. *)
Definition metrics_response (rq : HttpRequest) (s : Stats) : Response :=
  if negb (hr_chunked rq) && over_limit rq then body_too_large
  else if bool_decide (hr_method rq = GET) || bool_decide (hr_method rq = HEAD)
  then mkFullResponse 200 (Text (prometheus (uptime e vt) s)) [] [("content-type", "text/plain; version=0.0.4; charset=utf-8")]
  else mkResponse 405 NoBody [].

Lemma serve_metrics net env rq a :
  hr_path rq = "/metrics" ->
  let allow := omap parse_ipnet (wc_allow_networks (cg_web (we_config e))) in
  serve e net env tsig_text option_text VERSION vt assets rq a =
    (a, Some (if is_nil allow || existsb (fun n => ipnet_contains n (hr_peer rq)) allow
              then secured (metrics_response rq (ap_stats a)) else plain 403 "forbidden")).
Proof.
  intros Hp. unfold serve. cbv zeta. set (allow := omap parse_ipnet _).
  assert (forall a, body_limit (route e net env tsig_text option_text VERSION vt assets rq) rq a =
    (a, Some (metrics_response rq (ap_stats a)))) as Hb.
  { intros a1. unfold metrics_response, body_limit. destruct (negb (hr_chunked rq) && over_limit rq); [done|].
    unfold route. rewrite Hp, find_metrics. cbv iota. by destruct (hr_method rq). }
  assert (forall a, audit_mw e (security_headers (body_limit (route e net env tsig_text option_text VERSION vt assets rq) rq)) rq a =
    (a, Some (secured (metrics_response rq (ap_stats a))))) as Hr.
  { intros a1. unfold audit_mw. rewrite security_headers_eq, Hb. cbn [fst snd fmap option_fmap option_map].
    unfold audited. rewrite Hp. change (starts_with "/metrics" "/api/") with false. by rewrite andb_false_r. }
  destruct (is_nil allow); [apply Hr|]. unfold ip_guard, dyndns_path. rewrite Hp.
  change (bool_decide ("/metrics" = "/nic/update") || bool_decide ("/metrics" = "/v3/update")) with false. cbn [orb].
  destruct (existsb _ allow); [apply Hr|done].
Qed.

End Metrics.

(** ** The map *)

(** The sum of [f] over a list. *)
Definition sum_by {A} (f : A -> Z) (l : list A) : Z := fold_right Z.add 0 (f <$> l).

Lemma sum_by_cons {A} (f : A -> Z) x l : sum_by f (x :: l) = f x + sum_by f l.
Proof. done. Qed.
#[export] Instance sum_by_perm {A} (f : A -> Z) : Proper ((≡ₚ) ==> eq) (sum_by f).
Proof. intros l l' H. induction H; rewrite ?sum_by_cons; lia. Qed.
Lemma sum_by_map {K} `{Countable K} (m : gmap K Z) : sum_by snd (map_to_list m) = map_total m.
Proof.
  unfold map_total. rewrite map_fold_foldr. generalize (map_to_list m). intros l.
  induction l as [|[k n] l IH]; [done|]. rewrite sum_by_cons, IH. done.
Qed.
Lemma sum_by_fmap {K A} `{Countable K} (f : A -> Z) (m : gmap K A) :
  sum_by (fun e => f (snd e)) (map_to_list m) = map_total (f <$> m).
Proof.
  rewrite <- sum_by_map, map_to_list_fmap. unfold sum_by. f_equal. rewrite <- list_fmap_compose.
  by apply list_fmap_ext; intros ? [].
Qed.

(** The first of a list by count: whatever is left out is not more frequent. *)
Lemma by_count_perm {A} (f : A -> Z) l : by_count f l ≡ₚ l.
Proof. apply sort_with_perm. Qed.
Lemma by_count_sorted {A} (f : A -> Z) l : StronglySorted (fun a b => f b <= f a) (by_count f l).
Proof.
  assert (StronglySorted (fun a b => (f b <=? f a) = true) (by_count f l)) as H by (apply sort_with_sorted; intros; lia).
  induction H as [|x m _ IH Hx]; constructor; [exact IH|]. eapply Forall_impl; [exact Hx|]. intros y. cbn. lia.
Qed.
Lemma top_count {A} (f : A -> Z) k l x :
  In x l -> In x (take k (by_count f l)) \/
            (length (take k (by_count f l)) = k /\ Forall (fun y => f x <= f y) (take k (by_count f l))).
Proof.
  intros Hx. rewrite <- list_elem_of_In, <- (by_count_perm f l), <- (take_drop k (by_count f l)) in Hx.
  apply elem_of_app in Hx as [Hx|Hx]; [left; by apply list_elem_of_In|right].
  assert (k < length (by_count f l))%nat as Hk.
  { destruct (Nat.le_gt_cases (length (by_count f l)) k); [|done]. by rewrite drop_ge in Hx by done; apply elem_of_nil in Hx. }
  split; [rewrite length_take; lia|]. pose proof (by_count_sorted f l) as Hs.
  rewrite <- (take_drop k (by_count f l)) in Hs. apply Forall_forall. intros y Hy.
  exact (StronglySorted_app_1_elem_of _ _ _ y x Hs Hy Hx).
Qed.

Section Map.
Context `{MM : MaxMind}.

(** The grid cell of an address, if its coordinates are known. *)
Definition cell_of (geo : GeoDb) (ip : IpAddr) : option (Z * Z) :=
  match cg_lat (geo_lookup geo ip), cg_lon (geo_lookup geo ip) with
  | Some lat, Some lon => Some (geo_cell lat lon)
  | _, _ => None
  end.

(** The hits of an address in a list. *)
Definition hits (ips : list (IpAddr * Z)) (ip : IpAddr) : Z :=
  sum_by snd (List.filter (fun x => bool_decide (fst x = ip)) ips).

(** The hits of a host in a cell of the table. *)
Definition hits_at (m : gmap (Z * Z) Bucket) (key : Z * Z) (ip : IpAddr) : option Z :=
  m !! key ≫= fun b => bk_hosts b !! ip.

(** The table of the addresses seen so far. *)
Record table_of (geo : GeoDb) (seen : list (IpAddr * Z)) (m : gmap (Z * Z) Bucket) : Prop := {
  tb_total : map_total (bk_count <$> m) =
             sum_by snd (List.filter (fun x => bool_decide (is_Some (cell_of geo (fst x)))) seen);
  tb_hits key ip : hits_at m key ip = if bool_decide (cell_of geo ip = Some key /\ ip ∈ seen.*1)
                                      then Some (hits seen ip) else None }.

Lemma hits_snoc seen x ip : hits (seen ++ [x]) ip = hits seen ip + (if bool_decide (fst x = ip) then snd x else 0).
Proof.
  unfold hits. rewrite List.filter_app. induction (List.filter _ seen) as [|y l IH]; cbn [app].
  - cbn. destruct (bool_decide _); cbn; lia.
  - rewrite !sum_by_cons, IH. lia.
Qed.
Lemma hits_absent seen ip : ip ∉ seen.*1 -> hits seen ip = 0.
Proof.
  intros H. unfold hits. induction seen as [|x l IH]; [done|]. cbn in *. apply not_elem_of_cons in H as [H1 H2].
  rewrite bool_decide_eq_false_2 by congruence. by apply IH.
Qed.

(** The step, by whether the address has a cell. *)
Lemma geo_add_skip geo m ip n : cell_of geo ip = None -> geo_add geo m (ip, n) = m.
Proof.
  unfold cell_of, geo_add. cbn [fst]. by destruct (cg_lat (geo_lookup geo ip)), (cg_lon (geo_lookup geo ip)).
Qed.
Lemma geo_add_cell geo m ip n key :
  cell_of geo ip = Some key ->
  exists b, (m !! key = Some b \/ (m !! key = None /\ bk_count b = 0 /\ bk_hosts b = ∅)) /\
            geo_add geo m (ip, n) = <[key := bucket_add ip n b]> m.
Proof.
  unfold cell_of, geo_add. cbn [fst snd]. destruct (cg_lat (geo_lookup geo ip)) as [lat|], (cg_lon (geo_lookup geo ip)) as [lon|]; try done.
  intros [= ->]. eexists. split; [|done]. destruct (m !! key); [by left|by right].
Qed.

Lemma table_step geo seen m x : table_of geo seen m -> table_of geo (seen ++ [x]) (geo_add geo m x).
Proof.
  intros [Ht Hh]. destruct x as [ip0 n0]. destruct (cell_of geo ip0) as [key0|] eqn:Ec.
  - destruct (geo_add_cell geo m ip0 n0 key0 Ec) as (b & Hb & ->).
    assert (forall ip, bk_hosts b !! ip = hits_at m key0 ip) as Hhosts.
    { intros ip. unfold hits_at. destruct Hb as [->|(-> & _ & ->)]; [done|]. by rewrite lookup_empty. }
    assert (default 0 ((bk_count <$> m) !! key0) = bk_count b) as Hcount.
    { rewrite lookup_fmap. destruct Hb as [->|(-> & -> & _)]; done. }
    split.
    + rewrite fmap_insert, map_total_insert, Hcount, Ht, List.filter_app. cbn [bk_count bucket_add List.filter fst].
      rewrite Ec, bool_decide_eq_true_2 by eauto. unfold sum_by. rewrite fmap_app, foldr_app. cbn.
      generalize (snd <$> List.filter (fun x => bool_decide (is_Some (cell_of geo x.1))) seen). intros l.
      induction l as [|y l IH]; cbn; lia.
    + intros key ip. rewrite hits_snoc. cbn [fst snd]. rewrite fmap_app. cbn.
      destruct (decide (key = key0)) as [->|Hk].
      * unfold hits_at at 1. rewrite lookup_insert_eq. cbn [mbind option_bind bucket_add bk_hosts].
        destruct (decide (ip = ip0)) as [->|Hip].
        -- rewrite lookup_insert_eq, Hhosts, Hh, (bool_decide_eq_true_2 (ip0 = ip0)) by done.
           rewrite (bool_decide_eq_true_2 (_ /\ ip0 ∈ seen.*1 ++ [ip0])) by (split; [done|]; apply elem_of_app; right; by left).
           case_bool_decide as Hin; cbn; [done|]. rewrite hits_absent; [done|]. by intros ?; apply Hin.
        -- rewrite lookup_insert_ne by done. rewrite Hhosts, Hh, (bool_decide_eq_false_2 (ip0 = ip)) by done.
           rewrite Z.add_0_r. erewrite bool_decide_ext; [done|]. rewrite elem_of_app, list_elem_of_singleton. tauto.
      * unfold hits_at at 1. rewrite lookup_insert_ne by done. fold (hits_at m key ip). rewrite Hh.
        destruct (decide (ip = ip0)) as [->|Hip].
        -- rewrite !bool_decide_eq_false_2; [done|..]; intros [? _]; congruence.
        -- rewrite (bool_decide_eq_false_2 (ip0 = ip)), Z.add_0_r by done.
           erewrite bool_decide_ext; [done|]. rewrite elem_of_app, list_elem_of_singleton. tauto.
  - rewrite geo_add_skip by done. split.
    + rewrite Ht, List.filter_app. cbn [List.filter fst]. rewrite Ec, bool_decide_eq_false_2 by (by intros []).
      by rewrite app_nil_r.
    + intros key ip. rewrite Hh, hits_snoc, fmap_app. cbn. destruct (decide (ip = ip0)) as [->|Hip].
      * rewrite !bool_decide_eq_false_2; [done|..]; intros [? _]; congruence.
      * rewrite (bool_decide_eq_false_2 (ip0 = ip)), Z.add_0_r by done.
        erewrite bool_decide_ext; [done|]. rewrite elem_of_app, list_elem_of_singleton. tauto.
Qed.

Lemma table_fold geo ips : table_of geo ips (fold_left (geo_add geo) ips ∅).
Proof.
  enough (forall seen m, table_of geo seen m -> table_of geo (seen ++ ips) (fold_left (geo_add geo) ips m)) as H.
  { apply (H [] ∅). split; [by rewrite fmap_empty|]. intros key ip. unfold hits_at. rewrite lookup_empty. cbn.
    rewrite bool_decide_eq_false_2; [done|]. intros [_ Hin]. by apply elem_of_nil in Hin. }
  induction ips as [|x ips IH]; intros seen m Hm; [by rewrite app_nil_r|]. cbn [fold_left].
  replace (seen ++ x :: ips) with ((seen ++ [x]) ++ ips) by by rewrite <- app_assoc. by apply IH, table_step.
Qed.

(** The map is exact: the points count every hit of an address with coordinates
    once; what a point lists is such an address with its hits, at most thirty and
    the most frequent first; and an address that is not listed has a point that is
    full of others at least as frequent. *)
Theorem map_points_exact v ips :
  vantage_ok v ->
  let points := geo_points v ips in
  let located ip := is_Some (cell_of (vt_geo v) ip) in
  sum_by pt_count points = sum_by snd (List.filter (fun x => bool_decide (located (fst x))) ips) /\
  (forall p ip n, In p points -> In (ip, n) (pt_hosts p) -> In ip (fst <$> ips) /\ located ip /\ n = hits ips ip) /\
  (forall p, In p points -> (length (pt_hosts p) <= HOSTS_RETURN)%nat /\
                            StronglySorted (fun a b => snd b <= snd a) (pt_hosts p)) /\
  (forall ip, In ip (fst <$> ips) -> located ip ->
    exists p, In p points /\
      (In (ip, hits ips ip) (pt_hosts p) \/
       length (pt_hosts p) = HOSTS_RETURN /\ Forall (fun h => hits ips ip <= snd h) (pt_hosts p))).
Proof.
  intros Hv. cbv zeta. set (m := fold_left (geo_add (vt_geo v)) ips ∅).
  destruct (table_fold (vt_geo v) ips) as [Ht Hh]. fold m in Ht, Hh.
  assert (forall p, In p (geo_points v ips) <-> exists key b, m !! key = Some b /\ p = to_point v b) as Hp.
  { intros p. unfold geo_points, hash_entries. fold m. rewrite <- list_elem_of_In, (Hv _ _), list_elem_of_fmap. split.
    - intros ([key b] & -> & Hin%elem_of_map_to_list). eauto.
    - intros (key & b & Hm & ->). exists (key, b). split; [done|]. by apply elem_of_map_to_list. }
  assert (forall key b ip n, m !! key = Some b -> bk_hosts b !! ip = Some n ->
            cell_of (vt_geo v) ip = Some key /\ ip ∈ ips.*1 /\ n = hits ips ip) as Hhost.
  { intros key b ip n Hm Hb. specialize (Hh key ip). unfold hits_at in Hh. rewrite Hm in Hh. cbn in Hh. rewrite Hb in Hh.
    case_bool_decide; [|done]. naive_solver. }
  split_and!.
  - unfold geo_points, hash_entries. fold m. rewrite <- Ht, <- sum_by_fmap.
    transitivity (sum_by (fun e => bk_count (snd e)) (vt_order v _ (map_to_list m))); [|apply sum_by_perm, Hv].
    unfold sum_by. by rewrite <- list_fmap_compose.
  - intros p ip n (key & b & Hm & ->)%Hp Hin. cbn in Hin. apply list_elem_of_In, elem_of_take in Hin as (i & Hi & _).
    apply list_elem_of_lookup_2 in Hi. rewrite (by_count_perm _ _) in Hi. unfold hash_entries in Hi. rewrite (Hv _ _) in Hi.
    apply elem_of_map_to_list in Hi. destruct (Hhost _ _ _ _ Hm Hi) as (Hc & Hs & ->).
    split_and!; [by apply list_elem_of_In|eauto|done].
  - intros p (key & b & Hm & ->)%Hp. cbn. split; [apply List.firstn_le_length|].
    pose proof (by_count_sorted snd (hash_entries v (bk_hosts b))) as Hs.
    rewrite <- (take_drop HOSTS_RETURN (by_count _ _)) in Hs. by apply StronglySorted_app_1_l in Hs.
  - intros ip Hin%list_elem_of_In [key Hc]. pose proof (Hh key ip) as Hk. rewrite bool_decide_eq_true_2 in Hk by done.
    unfold hits_at in Hk. destruct (m !! key) as [b|] eqn:Hm; [|done]. cbn in Hk. exists (to_point v b).
    split; [apply Hp; eauto|]. apply (top_count snd HOSTS_RETURN (hash_entries v (bk_hosts b)) (ip, hits ips ip)).
    apply list_elem_of_In. unfold hash_entries. rewrite (Hv _ _). by apply elem_of_map_to_list.
Qed.
End Map.

(** ** Clients of blocked queries *)

Section Clients.
Context `{NETS : IpNets} `{HN : HickoryNames} `{TEXT : !HickoryText} `{SIGN : !Signers} `{RES : !HickoryResolvers}
  `{UNI : Unicode} `{MM : MaxMind}.

(** A public client of a blocked query is kept with its full address, also when the
    query log is off or anonymized, and the map lists it if it has coordinates. *)
Lemma blocked_client_kept e a client view qname qtype out :
  is_global client = true -> Z.of_nat (size (sts_blocked_client (ap_stats a))) < RESOLVED_CAP ->
  let a' := record_stat e a client view qname qtype QBlocked out in
  is_Some (sts_blocked_client (ap_stats a') !! client) /\
  forall v, vantage_ok v -> In client (fst <$> blocked_client_ips v (ap_stats a')).
Proof.
  intros Hg Hs. cbv zeta. set (a' := record_stat _ _ _ _ _ _ _ _).
  assert (is_Some (sts_blocked_client (ap_stats a') !! client)) as Hk.
  { assert (sts_blocked_client (ap_stats a') = note_ip (sts_blocked_client (ap_stats a)) client) as ->.
    { subst a'. unfold record_stat, stats_record. cbv zeta. by destruct (bool_decide (_ = QlOff)). }
    unfold note_ip, incr_capped, incr. rewrite Hg. cbn [negb]. rewrite (proj2 (Z.ltb_lt _ _) Hs). cbn [orb].
    rewrite lookup_insert_eq. eauto. }
  split; [done|]. intros v Hv. destruct Hk as [n Hn]. apply list_elem_of_In, list_elem_of_fmap. exists (client, n).
  split; [done|]. unfold blocked_client_ips, hash_entries. rewrite (Hv _ _). by apply elem_of_map_to_list.
Qed.
End Clients.
