(* ===== verification/Serve.v ===== *)
(** * What the management server guarantees

    Theorems on [serve]: who may do what, what is recorded, and that every request
    keeps the integrity of the database and the live state. *)

From S2P Require Import Prelude Strs Net Geo External Models DhcpOptions Db DbDns DbFilter DbDhcp DbAdmin Filter Upstream.
From S2P Require Import Cache Stats Mdns Dnssec Store State Config Web Auth DynDns Transfer ApiZones ApiFilter.
From S2P Require Import ApiDhcp Reports Sync Resolve Handler Router Integrity.

(** ** Resolving leaves the structures alone *)

Section Static.
Context `{NETS : IpNets} `{HN : HickoryNames} `{TEXT : !HickoryText} `{SIGN : !Signers} `{RES : !HickoryResolvers}
  `{UNI : Unicode}.

Definition static_part (a : AppState) :=
  (ap_db a, ap_store a, ap_upstream a, ap_conditional a, ap_filter a, ap_settings a).

Lemma static_record_stat e a client view qname qtype stat out :
  static_part (record_stat e a client view qname qtype stat out) = static_part a.
Proof. unfold record_stat, stats_record. case_bool_decide; cbv zeta; case_bool_decide; done. Qed.

Lemma static_external e a qname qtype ra a' out stat :
  resolve_external e a qname qtype ra = Some (a', out, stat) -> static_part a' = static_part a.
Proof.
  assert (forall r x, static_part (note_validation r x) = static_part x) as Hn.
  { intros r x. unfold note_validation. by destruct (_ && _). }
  assert (forall key, resolve_upstream e a key qname qtype ra = Some (a', out, stat) -> static_part a' = static_part a)
    as Hup.
  { intros key. unfold resolve_upstream. destruct (match_for _ _); [intros [= <- _ _]; apply Hn|].
    destruct (ap_upstream a) as [up|]; [|by intros [= <- _ _]].
    destruct (cache_get _ _ _ _) as [c [h|]]; [by intros [= <- _ _]|]. destruct (cache_put _ _ _ _ _ _ _); [|done].
    intros [= <- _ _]. exact (Hn (upstream_resolve (ev_net e) up qname qtype) (with_cache c a)). }
  unfold resolve_external. destruct (decide_name _ _).
  - destruct (is_suspicious _ _); [by intros [= <- _ _]|apply Hup].
  - apply Hup.
  - intros [= <- _ _]. by destruct (blocklist_hit _ _).
  - destruct (rewrite_answer _ _ _ _ _ _). by intros [= <- _ _].
Qed.

Lemma static_resolve e a qname qtype client dnssec_ok a' out :
  resolve_query e a qname qtype client dnssec_ok = Some (a', out) -> static_part a' = static_part a.
Proof.
  unfold resolve_query. destruct (asn_blocked e a client); [intros [= <- _]; apply static_record_stat|].
  destruct (mdns_answer e a qname qtype); [intros [= <- _]; apply static_record_stat|].
  destruct (apex_records _ _ _ _ _); [intros [= <- _]; apply static_record_stat|].
  unfold resolve_main. cbv zeta.
  destruct (match lr_outcome _ with NotAuthoritative => _ | _ => _ end) as [[[a1 out1] stat]|] eqn:E; [|done].
  assert (static_part a1 = static_part a) as Ha.
  { destruct (lr_outcome _); [..|by eapply static_external];
      (destruct (local_output _ _); by injection E as <- _ _). }
  rewrite <- Ha. match goal with |- context [takes_rotation (ro_answers ?o) _] => generalize o end. intros o.
  destruct (takes_rotation _ _); cbn [next_rotation]; intros [= <- _];
    exact (static_record_stat _ (with_stats _ _) _ _ _ _ _ _).
Qed.

Lemma static_request `{CR : Credentials} `{TS : !TSigners} `{DQ : !DnsQueries} env sends rq a a' out :
  handle_request env sends rq a = Some (a', out) -> static_part a' = static_part a.
Proof.
  unfold handle_request. destruct (rq_info rq) as [i|]; [|by intros [= <- _]].
  destruct (negb _); [by intros [= <- _]|]. destruct (is_transfer _); [by intros [= <- _]|].
  destruct (resolve_query _ _ _ _ _ _) as [[a1 o]|] eqn:E; [|done]. intros [= <- _]. by apply static_resolve in E.
Qed.

Lemma static_doh `{!DnsQueries} `{!DnsWire} e client bytes a a' r :
  doh_handle e client bytes a = Some (a', r) -> static_part a' = static_part a.
Proof.
  unfold doh_handle. destruct (message_from_vec bytes) as [m|]; [|by intros [= <- _]].
  destruct (wm_queries m) as [|q qs]; [by intros [= <- _]|].
  destruct (resolve_query _ _ _ _ _ _) as [[a1 out]|] eqn:E; [|done]. intros [= <- _]. by apply static_resolve in E.
Qed.
End Static.

(** ** Handlers with their extractors *)

Section Endpoints.
Context `{NETS : IpNets} `{HN : HickoryNames} `{TEXT : !HickoryText} `{SIGN : !Signers} `{RES : !HickoryResolvers}
  `{UNI : Unicode} `{DT : DateTimes} `{CR : Credentials} `{TS : !TSigners} `{TOOLS : !DnssecTools} `{ZF : !ZoneFiles}
  `{ERR : !ErrorTexts} `{DQ : !DnsQueries} `{WIRE : !DnsWire} `{DEC : Decoders} `{MM : MaxMind}.
Context (e : WebEnv).

Definition hkeeps (P : AppState -> Prop) (h : Handler) : Prop := forall a, P a -> P (fst (h a)).

Section HKeeps.
Context (P : AppState -> Prop).

Lemma hkeeps_pure r : hkeeps P (pure r).
Proof. by intros a Ha. Qed.
Lemma hkeeps_of_w m : keeps P m -> hkeeps P (of_w m).
Proof. intros Hm a Ha. specialize (Hm a Ha). unfold of_w, respond. by destruct (m a) as [a' [r|err]]. Qed.
Lemma hkeeps_of_opt m : (forall m', m = Some m' -> keeps P m') -> hkeeps P (of_opt m).
Proof. intros Hm a Ha. destruct m as [m|]; [by apply hkeeps_of_w; auto|done]. Qed.
Lemma hkeeps_with_id seg k : (forall id, hkeeps P (k id)) -> hkeeps P (with_id seg k).
Proof. intros Hk. unfold with_id. destruct (seg ≫= parse_i64); [apply Hk|apply hkeeps_pure]. Qed.
Lemma hkeeps_with_decoded {X} (o : option X) k : (forall x, o = Some x -> hkeeps P (k x)) -> hkeeps P (with_decoded o k).
Proof. intros Hk. destruct o; [by apply Hk|apply hkeeps_pure]. Qed.
Lemma hkeeps_with_body {X} rq (o : option X) k : (forall x, o = Some x -> hkeeps P (k x)) -> hkeeps P (with_body rq o k).
Proof. intros Hk. unfold with_body. destruct (over_limit rq); [apply hkeeps_pure|by apply hkeeps_with_decoded]. Qed.
Lemma hkeeps_with_auth rq k :
  keeps P (from_request_parts e (hr_method rq) (hr_headers rq)) -> (forall auth, hkeeps P (k auth)) ->
  hkeeps P (with_auth e rq k).
Proof.
  intros Hf Hk a Ha. unfold with_auth. specialize (Hf a Ha).
  destruct (from_request_parts _ _ _ a) as [a' [auth|err]]; [by apply Hk|done].
Qed.
Lemma hkeeps_of_doh m :
  (forall a a' r, m a = Some (a', r) -> static_part a' = static_part a) ->
  (forall a a', static_part a' = static_part a -> P a -> P a') -> hkeeps P (of_doh m).
Proof. intros Hm HP a Ha. unfold of_doh. destruct (m a) as [[a' r]|] eqn:E; [|done]. eapply HP; eauto. Qed.
End HKeeps.
End Endpoints.

Ltac endpoint :=
  repeat match goal with
  | |- forall _, _ => intro
  | |- hkeeps _ (pure _) => apply hkeeps_pure
  | |- hkeeps _ (with_id _ _) => apply hkeeps_with_id
  | |- hkeeps _ (with_decoded _ _) => apply hkeeps_with_decoded
  | |- hkeeps _ (with_body _ _ _) => apply hkeeps_with_body
  | |- hkeeps _ (with_auth _ _ _) => apply hkeeps_with_auth
  | |- hkeeps _ (of_w _) => first [apply hkeeps_of_w, observes_keeps; solve [auto with observes] | apply hkeeps_of_w]
  end.

Ltac optional_endpoint tac :=
  apply hkeeps_of_opt; intros ?m' Hm;
  unfold api_create_dhcp_scope, api_update_dhcp_scope, api_create_dhcp_reservation, api_update_dhcp_reservation in Hm;
  repeat case_hyp Hm; try discriminate Hm; injection Hm as <-; tac.

(** ** Requests *)

Section Serve.
Context `{NETS : IpNets} `{HN : HickoryNames} `{TEXT : !HickoryText} `{SIGN : !Signers} `{RES : !HickoryResolvers}
  `{UNI : Unicode} `{DT : DateTimes} `{CR : Credentials} `{TS : !TSigners} `{TOOLS : !DnssecTools} `{ZF : !ZoneFiles}
  `{ERR : !ErrorTexts} `{DQ : !DnsQueries} `{WIRE : !DnsWire} `{DEC : Decoders} `{MM : MaxMind}.
Context (e : WebEnv) (net : Primaries) (env : Env) (tsig_text : TsigError -> string)
  (option_text : DhcpOption -> OptionError -> string) (VERSION : string) (vt : Vantage)
  (assets : string -> option Asset).

Abbreviation run_endpoint := (handle e net env tsig_text option_text VERSION vt).
Abbreviation run_route := (route e net env tsig_text option_text VERSION vt assets).
Abbreviation run_request := (serve e net env tsig_text option_text VERSION vt assets).

Lemma not_audited rq r : is_success (rp_status r) = false -> audited rq r = false.
Proof. intros Hr. unfold audited. rewrite Hr. by destruct (is_mutating _). Qed.

Lemma hkeeps_security P h : hkeeps P h -> hkeeps P (security_headers h).
Proof. intros Hh a Ha. rewrite security_headers_eq. by apply Hh. Qed.

(** The middleware turns a request away, or the handler runs with the headers and the
    audit around it. *)
Lemma serve_cases rq a :
  (exists r, run_request rq a = (a, Some r) /\ (r = plain 403 "forbidden" \/ r = secured body_too_large)) \/
  run_request rq a = audit_mw e (security_headers (run_route rq)) rq a.
Proof.
  unfold serve. cbv zeta. set (allow := omap _ _).
  assert ((exists r, audit_mw e (security_headers (body_limit (run_route rq) rq)) rq a = (a, Some r) /\
             (r = plain 403 "forbidden" \/ r = secured body_too_large)) \/
          audit_mw e (security_headers (body_limit (run_route rq) rq)) rq a =
            audit_mw e (security_headers (run_route rq)) rq a) as H.
  { unfold body_limit. destruct (negb _ && _); [|by right]. left. exists (secured body_too_large). split; [|by right].
    unfold audit_mw. rewrite security_headers_eq. cbn [pure fst snd fmap option_fmap option_map]. by rewrite not_audited. }
  destruct (is_nil _); [done|]. unfold ip_guard. destruct (_ || _); [done|]. left. eauto.
Qed.

Section Middleware.
Context (P : AppState -> Prop).

(** The middleware around a handler. *)
Lemma hkeeps_serve rq :
  keeps P (resolve_session e (hr_headers rq)) ->
  (forall u x s i, keeps P (run (insert_audit (we_ts e) u x s i))) ->
  hkeeps P (run_route rq) -> hkeeps P (run_request rq).
Proof.
  intros Hs Hi Hr%hkeeps_security. assert (hkeeps P (audit_mw e (security_headers (run_route rq)) rq)) as Ha.
  { intros a Ha. unfold audit_mw. specialize (Hr a Ha). destruct (security_headers _ a) as [a' [r|]]; [|done].
    cbn [fst] in *. destruct (audited rq r); [|done]. unfold write_audit. specialize (Hs a' Hr).
    destruct (resolve_session _ _ a') as [a2 who]. apply keeps_attempt; [apply Hi|done]. }
  intros a Ha'. destruct (serve_cases rq a) as [(r & -> & _)| ->]; [done|by apply Ha].
Qed.
End Middleware.

Lemma static_db a a' : static_part a' = static_part a -> ap_db a' = ap_db a.
Proof. unfold static_part. congruence. Qed.

Lemma keeps_first_transfer P zid name primary key :
  keeps P (transfer e net zid name primary key) ->
  (forall err, keeps P (record_error (E := AppError) transfer_text e zid err)) ->
  keeps P (first_transfer e net zid name primary key).
Proof.
  intros Ht Hr a Ha. unfold first_transfer. specialize (Ht a Ha).
  destruct (transfer _ _ _ _ _ _ a) as [a' [n|err]]; [done|by apply Hr].
Qed.

Lemma doh_get_static client dns a a' r : doh_get env client dns a = Some (a', r) -> static_part a' = static_part a.
Proof.
  unfold doh_get. destruct dns as [b64|]; [|by intros [= <- _]].
  destruct (base64_url_decode _); [apply static_doh|by intros [= <- _]].
Qed.

Lemma endpoint_ok ep rq seg : hkeeps (db_prop db_ok) (run_endpoint ep rq seg).
Proof.
  destruct ep; cbn [handle]; endpoint; try solve [handler_ok]; try solve [optional_endpoint handler_ok].
  - apply ok_delete_view.
  - unfold api_create_secondary. do 3 (apply keeps_wbind; [handler_ok|intros ?]).
    apply keeps_wbind; [apply keeps_first_transfer; handler_ok|]. handler_ok.
  - intros a Ha. pose proof (ok_nic_update e (hr_peer rq) (hr_headers rq) x a Ha) as Hn.
    by destruct (nic_update _ _ _ _ a).
  - apply hkeeps_of_doh; [intros ? ? ?; apply doh_get_static|]. intros a a' E Ha. unfold db_prop.
    by rewrite (static_db _ _ E).
  - apply hkeeps_of_doh; [intros ? ? ?; apply static_doh|]. intros a a' E Ha. unfold db_prop.
    by rewrite (static_db _ _ E).
Qed.

(** whatever a client sends, the database stays consistent: names and keys are
    unique, every record's zone and view, every token's view, every lease's and
    reservation's scope and every session's account exist, the default view stays,
    and there is never a second account. *)
Theorem serve_integrity rq a : db_ok (ap_db a) -> db_ok (ap_db (fst (run_request rq a))).
Proof.
  apply (hkeeps_serve (db_prop db_ok)).
  - handler_ok.
  - intros. handler_ok.
  - unfold route. destruct (find_route _) as [[methods seg]|]; [|apply hkeeps_pure].
    destruct (find_method _ _); [apply endpoint_ok|apply hkeeps_pure].
Qed.

(** ** The live state *)

Definition endpoint_of (rq : HttpRequest) : option Endpoint :=
  match find_route (hr_path rq) with
  | Some (methods, _) => find_method (hr_method rq) methods
  | None => None
  end.

(** A request to no endpoint changes nothing. *)
Lemma route_none rq : endpoint_of rq = None -> exists r, run_route rq = pure r.
Proof.
  unfold endpoint_of, route. destruct (find_route (hr_path rq)) as [[methods seg]|]; [|by eexists]. intros ->. by eexists.
Qed.

Lemma route_some rq ep : endpoint_of rq = Some ep -> exists seg, run_route rq = run_endpoint ep rq seg.
Proof.
  unfold endpoint_of, route. destruct (find_route (hr_path rq)) as [[methods seg]|]; [|done]. intros ->. by exists seg.
Qed.

Lemma static_synced a a' : static_part a' = static_part a -> synced a -> synced a'.
Proof.
  unfold static_part. intros [= E1 E2 E3 E4 E5 E6] [H1 H2 H3 H4 H5]. split; intros; rewrite ?E1, ?E2, ?E3, ?E4, ?E5, ?E6; auto.
Qed.

Lemma endpoint_synced ep rq seg :
  ep <> E_create_secondary -> ep <> E_nic_update -> hkeeps synced (run_endpoint ep rq seg).
Proof.
  intros H1 H2. destruct ep; try done; cbn [handle]; endpoint; try solve [synch]; try solve [optional_endpoint synch].
  - unfold api_refresh_secondary. do 4 (apply keeps_wbind; [synch|intros ?]).
    apply keeps_wbind; [apply keeps_map_err, synced_transfer|synch].
  - apply synced_put_settings.
  - apply synced_create_blocklist.
  - apply keeps_wbind; [apply synced_refresh_all|synch].
  - apply synced_refresh_blocklist.
  - apply hkeeps_of_doh; [intros ? ? ?; apply doh_get_static|intros a a'; apply static_synced].
  - apply hkeeps_of_doh; [intros ? ? ?; apply static_doh|intros a a'; apply static_synced].
Qed.

Lemma session_ok h : keeps (db_prop db_ok) (resolve_session e h).
Proof. handler_ok. Qed.
Lemma session_synced h : keeps synced (resolve_session e h).
Proof. synch. Qed.
Lemma audit_ok u x st i : keeps (db_prop db_ok) (run (insert_audit (we_ts e) u x st i)).
Proof. handler_ok. Qed.
Lemma audit_synced u x st i : keeps synced (run (insert_audit (we_ts e) u x st i)).
Proof. synch. Qed.

Definition live (a : AppState) : Prop := db_prop db_ok a /\ synced a.

Lemma keeps_live {E X} (m : Step E X) : keeps (db_prop db_ok) m -> keeps synced m -> keeps live m.
Proof. intros H1 H2 a [Ha1 Ha2]. split; [by apply H1|by apply H2]. Qed.

Lemma nic_update_synced rq seg : hkeeps live (run_endpoint E_nic_update rq seg).
Proof.
  intros a [Ha1 Ha2]. split; [by apply endpoint_ok|]. cbn [handle]. unfold with_decoded.
  destruct (nic_params rq) as [x|]; [|done].
  pose proof (synced_nic_update e (hr_peer rq) (hr_headers rq) x a (ok_dns _ Ha1) (ok_tokens _ Ha1) Ha2) as H.
  by destruct (nic_update _ _ _ _ a).
Qed.

Lemma endpoint_live ep rq seg : ep <> E_create_secondary -> hkeeps live (run_endpoint ep rq seg).
Proof.
  intros H. destruct (decide (ep = E_nic_update)) as [->|Hn]; [apply nic_update_synced|].
  intros a [Ha1 Ha2]. split; [by apply endpoint_ok|by apply endpoint_synced].
Qed.

Lemma route_live rq : endpoint_of rq <> Some E_create_secondary -> hkeeps live (run_route rq).
Proof.
  intros He. destruct (endpoint_of rq) as [ep|] eqn:Ee.
  - apply route_some in Ee as [seg ->]. apply endpoint_live. congruence.
  - apply route_none in Ee as [r ->]. apply hkeeps_pure.
Qed.

(** what the resolver uses is what the database holds: after every request the
    zone store, the filter, the conditional forwarders, the upstream and the
    settings in memory are again the ones the database describes.  The exception
    is the creation of a secondary zone, whose empty zone is stored before the
    first transfer and not loaded if that fails. *)
Theorem serve_synced rq a :
  endpoint_of rq <> Some E_create_secondary -> db_ok (ap_db a) -> synced a -> synced (fst (run_request rq a)).
Proof.
  intros He Hd Hs. apply (hkeeps_serve live); [..|done].
  - apply keeps_live; [apply session_ok|apply session_synced].
  - intros. apply keeps_live; [apply audit_ok|apply audit_synced].
  - by apply route_live.
Qed.

(** ** Who may call *)

(** The endpoints outside the session gate. *)
Definition public (ep : Endpoint) : bool :=
  match ep with
  | E_health | E_metrics | E_login | E_me | E_setup | E_nic_update | E_doh_get | E_doh_post => true
  | _ => false
  end.

(** The request carries a live session and, if it may change something, its CSRF token. *)
Definition authenticated (rq : HttpRequest) (a : AppState) : Prop :=
  exists auth, resolve_session e (hr_headers rq) a = (a, Ok auth) /\
    (is_mutating (hr_method rq) = true -> default "" (hd_csrf_token (hr_headers rq) ≫= to_str) = at_csrf_token auth).

(** Refused: nothing happened, but that a session which has ended may be deleted. *)
Definition refused (rq : HttpRequest) (a : AppState) (x : AppState * option Response) : Prop :=
  exists r, snd x = Some r /\ rp_status r ∈ [400; 401; 403; 413] /\
    (fst x = a \/ fst x = fst (resolve_session e (hr_headers rq) a)).

Lemma gate_with_auth rq k a : authenticated rq a \/ refused rq a (with_auth e rq k a).
Proof.
  unfold with_auth. pose proof (extractor_cases e (hr_method rq) (hr_headers rq) a) as H.
  destruct (from_request_parts _ _ _ a) as [a' [auth|err]].
  - destruct H as (-> & Hs & Hc). left. exists auth. split; [|done]. rewrite resolve_session_eq in *.
    repeat case_goal; cbn in Hs; by rewrite ?Hs.
  - right. destruct H as (-> & Hst). eexists. split; [reflexivity|]. split; [|by right].
    cbn. destruct Hst as [[-> _]|[-> _]]; set_solver.
Qed.

Lemma gate_with_id rq seg k a :
  (forall id, authenticated rq a \/ refused rq a (k id a)) -> authenticated rq a \/ refused rq a (with_id seg k a).
Proof.
  intros Hk. unfold with_id. destruct (seg ≫= parse_i64); [apply Hk|]. right. eexists. split; [reflexivity|].
  split; [set_solver|by left].
Qed.

Lemma gate_endpoint ep rq seg a : public ep = false -> authenticated rq a \/ refused rq a (run_endpoint ep rq seg a).
Proof.
  intros Hp. destruct ep; try done; cbn [handle]; try (apply gate_with_id; intros ?id); apply gate_with_auth.
Qed.

(** C1: every management endpoint but the public ones is behind the session gate:
    either the request carries a live session, and for a method that may change
    something its CSRF token, or it is refused and nothing happens. *)
Theorem serve_gate rq a ep :
  endpoint_of rq = Some ep -> public ep = false -> authenticated rq a \/ refused rq a (run_request rq a).
Proof.
  intros He Hp. apply route_some in He as [seg Er].
  assert (authenticated rq a \/ refused rq a (audit_mw e (security_headers (run_route rq)) rq a)) as H.
  { unfold audit_mw. rewrite security_headers_eq, Er. destruct (gate_endpoint ep rq seg a Hp) as [|Hr]; [by left|right].
    destruct (run_endpoint ep rq seg a) as [a' o]. destruct Hr as (r & Hr & Hst & Ha). cbn [snd fst] in *. subst o.
    cbn [fmap option_fmap option_map]. assert (audited rq (secured r) = false) as ->; [|by exists (secured r)].
    apply not_audited. rewrite secured_status. repeat (apply elem_of_cons in Hst as [->|Hst]; [done|]). by apply elem_of_nil in Hst. }
  destruct (serve_cases rq a) as [(r & -> & Hr)| ->]; [right|done]. exists r. split; [done|].
  split; [|by left]. destruct Hr as [-> | ->]; cbn; set_solver.
Qed.

(** with an allow-list, a client outside of it gets a 403 and changes nothing,
    whatever it asks for; only the DynDNS update is exempt. *)
Theorem serve_allow_list rq a :
  omap parse_ipnet (wc_allow_networks (cg_web (we_config e))) <> [] ->
  (forall text n, In text (wc_allow_networks (cg_web (we_config e))) -> parse_ipnet text = Some n ->
     ipnet_contains n (hr_peer rq) = false) ->
  hr_path rq <> "/nic/update" -> hr_path rq <> "/v3/update" ->
  serve e net env tsig_text option_text VERSION vt assets rq a = (a, Some (plain 403 "forbidden")).
Proof.
  intros Hne Hout H1 H2. unfold serve. cbv zeta. destruct (omap parse_ipnet _) eqn:El; [done|].
  cbn [is_nil]. unfold ip_guard, dyndns_path. rewrite !bool_decide_eq_false_2 by done. cbn [orb].
  replace (existsb _ _) with false; [done|]. symmetry. apply existsb_false. intros n Hn. rewrite <- El in Hn.
  apply list_elem_of_In, list_elem_of_omap in Hn as (t & Ht & Hp). apply (Hout t); [by apply list_elem_of_In|done].
Qed.

(** What every answer that passes the guard carries. *)
Definition SECURITY_HEADERS : list (string * string) :=
  [("content-security-policy", CSP); ("x-content-type-options", "nosniff"); ("x-frame-options", "DENY");
   ("referrer-policy", "strict-origin-when-cross-origin")].

Lemma secured_values n v r : In (n, v) SECURITY_HEADERS -> header_values n (secured r) = [v].
Proof.
  intros H. cbn in H. destruct H as [E|[E|[E|[E|[]]]]]; injection E as <- <-; unfold secured;
    rewrite ?header_set_other by discriminate; apply header_set_same.
Qed.

Lemma audit_mw_response h rq a : snd (audit_mw e h rq a) = snd (h a).
Proof. unfold audit_mw. by destruct (h a) as [a' [r|]]. Qed.

Lemma serve_secured rq a :
  run_request rq a = (a, Some (plain 403 "forbidden")) \/ exists o, snd (run_request rq a) = secured <$> o.
Proof.
  destruct (serve_cases rq a) as [(r' & E & [-> | ->])|E]; [by left|right; rewrite E..].
  - by exists (Some body_too_large).
  - exists (snd (run_route rq a)). rewrite audit_mw_response, security_headers_eq. reflexivity.
Qed.

(** every answer of the web server carries the security headers, each exactly once,
    also the ones of the body limit, of unknown paths and of the user interface; the
    exception is the refusal of a client outside of the allow-list. *)
Theorem serve_headers rq a r :
  snd (run_request rq a) = Some r ->
  run_request rq a = (a, Some (plain 403 "forbidden")) \/
  forall n v, In (n, v) SECURITY_HEADERS -> header_values n r = [v].
Proof.
  intros H. destruct (serve_secured rq a) as [E|[o E]]; [by left|right]. rewrite H in E.
  destruct o as [r0|]; [|discriminate E]. injection E as ->. intros n v. apply secured_values.
Qed.

(** ** The audit log *)

Ltac handler_leaves := handler_steps leave_steps.

Definition user_names (d : Db) : list (Z * string) := (fun u => (us_id u, us_username u)) <$> users d.

Lemma names_set_password x id h : preserves (fun d => (user_names d, sessions d) = x) (set_password id h).
Proof. intros d Hd. rewrite <- Hd. unfold user_names. cbn. by rewrite map_update_where. Qed.
#[local] Hint Resolve names_set_password : preserve.

Lemma hkeeps_nic P peer h x :
  keeps P (nic_update_steps e peer h x) ->
  hkeeps P (fun a => let '(a, r) := nic_update e peer h x a in (a, Some r)).
Proof.
  intros Hk a Ha. specialize (Hk a Ha). unfold nic_update. by destruct (nic_update_steps _ _ _ _ a) as [a' [r|r]].
Qed.

(** An endpoint that leaves a part of the database alone. *)
Ltac endpoint_leaves :=
  cbn [handle]; endpoint;
  first [ solve [handler_leaves]
        | solve [optional_endpoint handler_leaves]
        | solve [apply hkeeps_nic; handler_leaves]
        | solve [apply hkeeps_of_doh; [intros ? ? ?; first [apply doh_get_static | apply static_doh]|];
            let Es := fresh "Es" in intros ? ? Es ?; unfold db_prop; by rewrite (static_db _ _ Es)]
        | solve [unfold api_create_secondary; do 3 (apply keeps_wbind; [handler_leaves|intros ?]);
            apply keeps_wbind; [apply keeps_first_transfer; handler_leaves|]; handler_leaves] ].

Lemma endpoint_audit ep rq seg x : hkeeps (db_prop (fun d => audit_log d = x)) (run_endpoint ep rq seg).
Proof. destruct ep; endpoint_leaves. Qed.

(** Who a session belongs to does not change during a request but a logout. *)
Lemma endpoint_names ep rq seg a auth x :
  public ep = false -> ep <> E_logout ->
  from_request_parts e (hr_method rq) (hr_headers rq) a = (a, Ok auth) ->
  db_prop (fun d => (user_names d, sessions d) = x) a ->
  db_prop (fun d => (user_names d, sessions d) = x) (fst (run_endpoint ep rq seg a)).
Proof.
  intros Hp Hl Hf Ha.
  assert (forall k, with_auth e rq k a = k auth a) as Hk by (intros k; unfold with_auth; by rewrite Hf).
  destruct ep; try done; cbn [handle]; rewrite ?Hk;
    repeat match goal with
    | |- context [with_id ?seg ?k a] => unfold with_id; destruct (seg ≫= parse_i64); [rewrite ?Hk|done]
    end;
    match goal with |- db_prop ?Q (fst (?h a)) => assert (hkeeps (db_prop Q) h) as H; [|by apply H] end;
    endpoint_leaves.
Qed.

Lemma user_names_find d d' id :
  user_names d = user_names d' ->
  us_username <$> List.find (fun u => us_id u =? id) (users d) = us_username <$> List.find (fun u => us_id u =? id) (users d').
Proof.
  unfold user_names. generalize (users d) (users d'). clear. intros l. induction l as [|u l IH]; intros [|u' l'] H; try done.
  injection H as H1 H2 H3. cbn. rewrite H1. destruct (_ =? id); [cbn; by rewrite H2|by apply IH].
Qed.

(** The name a session stands for. *)
Definition session_name (h : Headers) (a : AppState) : option string :=
  match resolve_session e h a with (_, Ok auth) => Some (ur_username (at_user auth)) | _ => None end.

Lemma session_name_eq h a a' :
  (user_names (ap_db a), sessions (ap_db a)) = (user_names (ap_db a'), sessions (ap_db a')) ->
  session_name h a = session_name h a'.
Proof.
  intros [= Hn Hs]. unfold session_name. rewrite !resolve_session_eq.
  destruct (parse_cookies h !! SESSION_COOKIE) as [token|]; [|done]. unfold session_row. rewrite Hs.
  destruct (List.find _ (sessions _)) as [s|]; [|done]. destruct (session_end s <? we_clock e); [done|].
  unfold session_owner. pose proof (user_names_find (ap_db a) (ap_db a') (ss_user_id s) Hn) as E.
  destruct (List.find _ (users (ap_db a))), (List.find _ (users (ap_db a'))); cbn in *; congruence.
Qed.

Definition action_of (rq : HttpRequest) : string := method_str (hr_method rq) +:+ " " +:+ hr_path rq.
(** The log with one more row, trimmed. *)
Definition audit_with (d : Db) (who : string) (rq : HttpRequest) (status : Z) : list AuditEntry :=
  audit_log (fst (insert_audit (we_ts e) who (action_of rq) status (show_ip (hr_peer rq)) d)).

Lemma write_audit_eq rq status a :
  audit_log (ap_db (write_audit e rq status a)) =
  audit_with (ap_db a) (default "?" (session_name (hr_headers rq) a)) rq status.
Proof.
  unfold write_audit, session_name. pose proof (ltac:(handler_leaves) :
    keeps (db_prop (fun d => audit_log d = audit_log (ap_db a))) (resolve_session e (hr_headers rq))) as H.
  specialize (H a eq_refl). destruct (resolve_session _ _ a) as [a' [auth|err]]; cbn [fst] in H; unfold db_prop in H;
    unfold audit_with, insert_audit, attempt; rewrite run_modify; cbn; by rewrite H.
Qed.

(** What the middleware writes around a handler that leaves the log alone. *)
Lemma audit_mw_eq (h : Handler) rq a a' r :
  audit_log (ap_db (fst (h a))) = audit_log (ap_db a) -> audit_mw e h rq a = (a', Some r) ->
  audit_log (ap_db a') =
    if audited rq r then audit_with (ap_db a) (default "?" (session_name (hr_headers rq) (fst (h a)))) rq (rp_status r)
    else audit_log (ap_db a).
Proof.
  unfold audit_mw. destruct (h a) as [a1 [r1|]]; [|done]. cbn [fst]. intros Ha [= <- <-].
  destruct (audited rq r1); [|done]. rewrite write_audit_eq. unfold audit_with, insert_audit, modify. cbn. by rewrite Ha.
Qed.

Lemma extracted_name rq a auth :
  from_request_parts e (hr_method rq) (hr_headers rq) a = (a, Ok auth) ->
  session_name (hr_headers rq) a = Some (ur_username (at_user auth)).
Proof.
  intros Hf. unfold session_name. pose proof (extractor_cases e (hr_method rq) (hr_headers rq) a) as Hx. rewrite Hf in Hx.
  destruct Hx as (_ & Hs & _). destruct (resolve_session _ _ a) as [a2 x]. cbn in Hs. by subst x.
Qed.

Lemma served_audit rq a ep a' r :
  endpoint_of rq = Some ep -> run_request rq a = (a', Some r) ->
  exists seg, audit_log (ap_db a') =
    if audited rq r
    then audit_with (ap_db a) (default "?" (session_name (hr_headers rq) (fst (run_endpoint ep rq seg a)))) rq (rp_status r)
    else audit_log (ap_db a).
Proof.
  intros He H. apply route_some in He as [seg Er]. exists seg. destruct (serve_cases rq a) as [(r' & E & Hr)|E]; rewrite E in H; clear E.
  - injection H as <- <-. by rewrite not_audited by by destruct Hr as [-> | ->].
  - rewrite Er in H. apply audit_mw_eq in H; rewrite security_headers_eq in *; [done|].
    exact (endpoint_audit ep rq seg (audit_log (ap_db a)) a eq_refl).
Qed.

(** C23: a request with a live session to an endpoint that requires one, other than the logout, leaves exactly one new row,
    with the account's name, the method and path, the status and the client's
    address, if it was a successful change under [/api/], and otherwise leaves the
    log as it is; this is the log once the task that writes the row has run.  The
    logout itself is recorded without a name ([logout_unattributed]). *)
Theorem serve_audit rq a ep auth a' r :
  endpoint_of rq = Some ep -> public ep = false -> ep <> E_logout ->
  from_request_parts e (hr_method rq) (hr_headers rq) a = (a, Ok auth) -> run_request rq a = (a', Some r) ->
  audit_log (ap_db a') =
    if audited rq r then audit_with (ap_db a) (ur_username (at_user auth)) rq (rp_status r) else audit_log (ap_db a).
Proof.
  intros He Hp Hl Hf H. destruct (served_audit rq a ep a' r He H) as [seg ->].
  rewrite (session_name_eq _ _ a) by exact (endpoint_names ep rq seg a auth _ Hp Hl Hf eq_refl).
  by rewrite (extracted_name rq a auth Hf).
Qed.

Lemma logout_name rq seg a auth :
  from_request_parts e (hr_method rq) (hr_headers rq) a = (a, Ok auth) ->
  session_name (hr_headers rq) (fst (run_endpoint E_logout rq seg a)) = None.
Proof.
  intros Hf. cbn [handle]. unfold with_auth. rewrite Hf. unfold of_w, respond, logout.
  pose proof (extractor_cases e (hr_method rq) (hr_headers rq) a) as Hx. rewrite Hf in Hx. destruct Hx as (_ & Hs & _).
  rewrite resolve_session_eq in Hs. destruct (parse_cookies (hr_headers rq) !! SESSION_COOKIE) as [token|] eqn:Ec; [|done].
  unfold wbind, attempt, delete_session. rewrite run_modify. cbn [fst wret].
  unfold session_name. rewrite resolve_session_eq, Ec. unfold session_row at 1.
  destruct (List.find _ _) as [s|] eqn:Ef; [|done]. apply List.find_some in Ef as [Hin Hid].
  apply in_delete_where in Hin as [_ Hn]. congruence.
Qed.

(** A logout is recorded without a name: the session is gone when the row is written. *)
Theorem logout_unattributed rq a auth a' r :
  endpoint_of rq = Some E_logout -> from_request_parts e (hr_method rq) (hr_headers rq) a = (a, Ok auth) ->
  run_request rq a = (a', Some r) -> audited rq r = true ->
  audit_log (ap_db a') = audit_with (ap_db a) "?" rq (rp_status r).
Proof.
  intros He Hf H Hr. destruct (served_audit rq a E_logout a' r He H) as [seg ->].
  by rewrite Hr, (logout_name rq seg a auth Hf).
Qed.
End Serve.
