(* ===== verification/Startup.v ===== *)
(** * Start-up ([src/main.rs], [src/tls.rs], [src/privileges.rs], [src/net.rs])

    What happens before the first packet is served: the configuration, the
    bootstrap of the database, the structures in memory, the TLS material, the
    sockets, and the privileges that are given up once they are bound.  What the
    operating system and the TLS libraries answer are parameters. *)

From S2P Require Import DhcpServer.
From S2P Require Import Prelude Strs Net Geo External Models Serde DhcpOptions Db DbDns DbFilter DbDhcp DbAdmin Filter Upstream.
From S2P Require Import Cache Stats Mdns Dnssec Store State Config.

(** ** TLS material *)

(** Paths and the text of the files under them. *)
Abbreviation Files := (gmap string string).

(** rustls-pemfile, rcgen and rustls: reading a PEM file ([None] is an error), a
    new self-signed pair, and whether a pair makes a server configuration. *)
Class TlsTools := {
  Certificate : Type;
  PrivateKey : Type;
  pem_certs : string -> option (list Certificate);
  pem_private_key : string -> option (option PrivateKey);
  simple_self_signed : list string -> option (string * string);
  with_single_cert : list Certificate -> PrivateKey -> bool }.

Inductive TlsError : Type :=
| TlsNotFound (cert key : string)
| TlsUnreadable (path : string)
| TlsNoCertificates (path : string)
| TlsNoPrivateKey (path : string)
| TlsGeneration
| TlsNotWritten (path : string)
| TlsNotConfigured
| TlsRejected.

Definition file_exists (fs : Files) (path : string) : bool := bool_decide (is_Some (fs !! path)).

Section Tls.
Context `{TLS : TlsTools}.

Record TlsMaterial : Type := mkTlsMaterial { tm_certs : list Certificate; tm_key : PrivateKey }.

Definition load_pem (cert_path key_path : string) (fs : Files) : result TlsMaterial TlsError :=
  let? certs := ok_or (fs !! cert_path ≫= pem_certs) (TlsUnreadable cert_path) in
  match certs with
  | [] => Err (TlsNoCertificates cert_path)
  | _ :: _ =>
      let? key := ok_or (fs !! key_path ≫= pem_private_key) (TlsUnreadable key_path) in
      let? key := ok_or key (TlsNoPrivateKey key_path) in
      Ok (mkTlsMaterial certs key)
  end.

(** [sans.dedup()] on two names. *)
Definition certificate_names (hostname : string) : list string :=
  if bool_decide (hostname = "localhost") then [hostname] else [hostname; "localhost"].

(** [std::fs::write]; [writable] is the file system's answer. *)
Definition fs_write (writable : string -> bool) (path text : string) (fs : Files) : result Files TlsError :=
  if writable path then Ok (<[path := text]> fs) else Err (TlsNotWritten path).

Definition generate_self_signed (writable : string -> bool) (hostname cert_path key_path : string) (fs : Files)
    : Files * result TlsMaterial TlsError :=
  match simple_self_signed (certificate_names hostname) with
  | None => (fs, Err TlsGeneration)
  | Some (cert_pem, key_pem) =>
      match fs_write writable cert_path cert_pem fs with
      | Err e => (fs, Err e)
      | Ok fs =>
          match fs_write writable key_path key_pem fs with
          | Err e => (fs, Err e)
          | Ok fs => (fs, load_pem cert_path key_path fs)
          end
      end
  end.

Definition load_or_generate (writable : string -> bool) (c : Config) (fs : Files)
    : Files * result TlsMaterial TlsError :=
  match tc_cert_path (cg_tls c), tc_key_path (cg_tls c) with
  | Some cert, Some key =>
      (fs, if negb (file_exists fs cert) || negb (file_exists fs key) then Err (TlsNotFound cert key)
           else load_pem cert key fs)
  | _, _ =>
      let cert_path := path_join (cg_data_dir c) "nomina-cert.pem" in
      let key_path := path_join (cg_data_dir c) "nomina-key.pem" in
      if file_exists fs cert_path && file_exists fs key_path then (fs, load_pem cert_path key_path fs)
      else if tc_auto_self_signed (cg_tls c) then
        generate_self_signed writable (tc_hostname (cg_tls c)) cert_path key_path fs
      else (fs, Err TlsNotConfigured)
  end.

(** A server configuration: the material and the protocols it negotiates. *)
Definition server_config (m : TlsMaterial) (alpn : list string) : result (TlsMaterial * list string) TlsError :=
  if with_single_cert (tm_certs m) (tm_key m) then Ok (m, alpn) else Err TlsRejected.

Record TlsSetup : Type := mkTlsSetup {
  tu_web : option (TlsMaterial * list string); tu_dot : option (TlsMaterial * list string);
  tu_doh : option (TlsMaterial * list string); tu_doq : option (TlsMaterial * list string);
  tu_doh3 : option (TlsMaterial * list string) }.

(** [if enabled { Some(server_config(...)?) } else { None }]. *)
Definition config_if (enabled : bool) (m : TlsMaterial) (alpn : list string)
    : result (option (TlsMaterial * list string)) TlsError :=
  if enabled then let? c := server_config m alpn in Ok (Some c) else Ok None.

Definition tls_setup (writable : string -> bool) (c : Config) (fs : Files) : Files * result TlsSetup TlsError :=
  if tls_required c then
    let '(fs, material) := load_or_generate writable c fs in
    (fs,
     let? m := material in
     let? web := config_if (wc_tls (cg_web c)) m ["h2"; "http/1.1"] in
     let? dot := config_if (negb (is_nil (dn_dot_listen (cg_dns c)))) m ["dot"] in
     let? doh := config_if (negb (is_nil (dn_doh_listen (cg_dns c)))) m ["h2"; "http/1.1"] in
     let? doq := config_if (negb (is_nil (dn_doq_listen (cg_dns c)))) m ["doq"] in
     let? doh3 := config_if (negb (is_nil (dn_doh3_listen (cg_dns c)))) m ["h3"] in
     Ok (mkTlsSetup web dot doh doq doh3))
  else (fs, Ok (mkTlsSetup None None None None None)).
End Tls.

(** ** Privileges *)

(** The ids of the process; its real, effective and saved user ids agree. *)
Record Cred : Type := mkCred { cr_uid : Z; cr_gid : Z; cr_groups : list Z }.

(** The user database and the system calls, which say whether they succeeded. *)
Class Unix := {
  user_from_name : string -> result (option (Z * Z)) unit;
  group_from_name : string -> result (option Z) unit;
  setgroups_none : Cred -> Cred * bool;
  setgid : Z -> Cred -> Cred * bool;
  setuid : Z -> Cred -> Cred * bool }.

Inductive PrivilegeError : Type :=
| LookupFailed | NoSuchUser (name : string) | NoSuchGroup (name : string) | SetgidFailed | SetuidFailed
| StillRoot.

Section Privileges.
Context `{UNIX : Unix}.

(** The user and group to become. *)
Definition target_ids (cfg : PrivilegesConfig) : result (option Z * option Z) PrivilegeError :=
  let? user := match pc_user cfg with
               | None => Ok None
               | Some uname =>
                   match user_from_name uname with
                   | Err _ => Err LookupFailed
                   | Ok None => Err (NoSuchUser uname)
                   | Ok (Some ids) => Ok (Some ids)
                   end
               end in
  let? group := match pc_group cfg with
                | None => Ok None
                | Some gname =>
                    match group_from_name gname with
                    | Err _ => Err LookupFailed
                    | Ok None => Err (NoSuchGroup gname)
                    | Ok (Some gid) => Ok (Some gid)
                    end
                end in
  Ok (fst <$> user, match group with Some gid => Some gid | None => snd <$> user end).

(** Set the user, then try to become root again. *)
Definition become_user (uid : Z) (c : Cred) : Cred * result unit PrivilegeError :=
  match setuid uid c with
  | (c, false) => (c, Err SetuidFailed)
  | (c, true) =>
      match setuid 0 c with
      | (c, true) => (c, Err StillRoot)
      | (c, false) => (c, Ok tt)
      end
  end.

Definition drop_privileges (cfg : PrivilegesConfig) (c : Cred) : Cred * result unit PrivilegeError :=
  match pc_user cfg, pc_group cfg with
  | None, None => (c, Ok tt)
  | _, _ =>
      if negb (cr_uid c =? 0) then (c, Ok tt)
      else match target_ids cfg with
      | Err e => (c, Err e)
      | Ok (target_uid, target_gid) =>
          (** a failure to clear the groups is only logged *)
          let c := fst (setgroups_none c) in
          match match target_gid with Some gid => setgid gid c | None => (c, true) end with
          | (c, false) => (c, Err SetgidFailed)
          | (c, true) =>
              match target_uid with
              | None => (c, Ok tt)
              | Some uid => become_user uid c
              end
          end
      end
  end.
End Privileges.

(** ** Sockets *)

(** Whether a socket can be bound, which interfaces have which addresses
    ([getifaddrs], [None] if it fails), and what a file holds. *)
Record Host : Type := mkHost {
  ho_writable : string -> bool;
  ho_udp : SocketAddr -> bool;
  ho_tcp : SocketAddr -> bool;
  ho_dhcp : SocketAddr -> bool;
  ho_device : string -> bool;
  ho_ifaddrs : option (list IfAddr) }.

Record DnsSockets : Type := mkDnsSockets {
  ds_plain : list SocketAddr; ds_dot : list SocketAddr; ds_doq : list SocketAddr; ds_doh3 : list SocketAddr }.

(** [None]: some address cannot be bound. *)
Definition bind_dns (h : Host) (c : Config) : option DnsSockets :=
  let dns := cg_dns c in
  if forallb (fun a => ho_udp h a && ho_tcp h a) (dn_listen dns) && forallb (ho_tcp h) (dn_dot_listen dns) &&
     forallb (ho_udp h) (dn_doq_listen dns) && forallb (ho_udp h) (dn_doh3_listen dns)
  then Some (mkDnsSockets (dn_listen dns) (dn_dot_listen dns) (dn_doq_listen dns) (dn_doh3_listen dns))
  else None.

(** The first IPv4 address of an interface. *)
Definition interface_ipv4 (h : Host) (name : string) : option Z :=
  let! ifas := ho_ifaddrs h in
  head (omap (fun ifa => if bool_decide (ia_name ifa = name) then ia_v4 ifa else None) ifas).

(** An address stands for the interface that owns it. *)
Definition resolve_bind_target (h : Host) (target : string) : option (string * option Z) :=
  match parse_v4 target with
  | Some ip =>
      let! ifas := ho_ifaddrs h in
      let! ifa := List.find (fun ifa => bool_decide (ia_v4 ifa = Some ip)) ifas in
      Some (ia_name ifa, Some ip)
  | None => Some (target, interface_ipv4 h target)
  end.

(** The address of the interface a socket was bound to. *)
Definition bind_v4_device (h : Host) (target : string) : option (option Z) :=
  let! r := resolve_bind_target h target in
  if ho_device h (fst r) then Some (snd r) else None.

Record DhcpSockets : Type := mkDhcpSockets {
  dk_v4 : list (SocketAddr * option DhcpServer.RecvIface); dk_v6 : list SocketAddr }.

Definition no_dhcp (s : DhcpSockets) : bool := is_nil (dk_v4 s) && is_nil (dk_v6 s).

(** An interface that cannot be bound is skipped, a configured address is an error. *)
Definition bind_dhcp (h : Host) (c : Config) (interfaces : list string) : option DhcpSockets :=
  if forallb (ho_dhcp h) (dc_v4_listen (cg_dhcp c)) && forallb (ho_dhcp h) (dc_v6_listen (cg_dhcp c)) then
    Some (mkDhcpSockets
      (((fun a => (a, None)) <$> dc_v4_listen (cg_dhcp c)) ++
       omap (fun name => (fun addr => (SockV4 UNSPECIFIED DhcpServer.V4_RELAY_PORT, Some (DhcpServer.mkRecvIface name addr)))
                         <$> bind_v4_device h name) interfaces)
      (dc_v6_listen (cg_dhcp c)))
  else None.

(** The interfaces of the enabled DHCPv4 scopes. *)
Definition scope_interfaces (d : Db) : list string :=
  let scopes := default [] (ok (snd (list_dhcp_scopes d))) in
  dedup (sort_with String.leb (omap sc_interface
    (List.filter (fun s => sc_enabled s && bool_decide (sc_family s = FamV4)) scopes))).

Record Listeners : Type := mkListeners {
  li_dns : DnsSockets; li_dhcp : DhcpSockets; li_web : option SocketAddr; li_doh : list SocketAddr }.

Inductive BindError : Type := BindDns | BindDhcp | BindWeb | BindDoh.

Section Listeners.
Context `{TLS : TlsTools}.

Definition bind_listeners (h : Host) (c : Config) (tls : TlsSetup) (interfaces : list string)
    : result Listeners BindError :=
  let? dns := ok_or (bind_dns h c) BindDns in
  let? dhcp := ok_or (bind_dhcp h c interfaces) BindDhcp in
  let? web := if wc_disabled (cg_web c) then Ok None
              else if ho_tcp h (wc_listen (cg_web c)) then Ok (Some (wc_listen (cg_web c))) else Err BindWeb in
  let? doh := match tu_doh tls with
              | None => Ok []
              | Some _ => if forallb (ho_tcp h) (dn_doh_listen (cg_dns c)) then Ok (dn_doh_listen (cg_dns c))
                          else Err BindDoh
              end in
  Ok (mkListeners dns dhcp web doh).
End Listeners.

(** ** From the files to a running process *)

(** The closure of [main]: the defaults are written on the first run. *)
Definition bootstrap (ts : string) : M Settings :=
  ensure_default_view ts ;;;
  let* s := get_settings in
  put_settings s ;;;
  ret s.

Section Start.
Context `{NETS : IpNets} `{HN : HickoryNames} `{TEXT : !HickoryText} `{SIGN : !Signers} `{RES : !HickoryResolvers}
  `{TLS : TlsTools} `{UNIX : Unix} `{MM : MaxMind} `{JT : JsonText} `{HS : !HickorySerde}.

(** What is kept between runs: the database, the TLS files and the cache file
    ([None] if there is none), under the paths the configuration names. *)
Record Disk : Type := mkDisk { dk_db : Db; dk_files : Files; dk_cache : option JsonDoc }.

(** A start: the clocks, the file system with its GeoIP databases and the TOML parser,
    the command line, the machine, and who started the program. *)
Record Boot : Type := mkBoot {
  bt_ts : string; bt_now : Z; bt_read : string -> option string; bt_open_readfile : string -> option Reader;
  bt_toml : string -> option Config; bt_cli : Cli; bt_host : Host; bt_cred : Cred }.

(** The attempts of the task that locates the server. *)
Definition ORIGIN_ATTEMPTS : Z := 6.

(** What does not change while a process runs: the configuration, the sockets, the
    user, the fields of the shared state that are set once ([started], [started_at],
    [geo]), and the files. *)
Record Fixed : Type := mkFixed {
  fx_config : Config; fx_listeners : Listeners; fx_cred : Cred; fx_started : Z; fx_started_at : string; fx_geo : GeoDb;
  fx_files : Files; fx_cache_file : option JsonDoc }.

(** The running process; the sets, the supervisor and the attempts left are the local
    variables of the background workers, and the database is in [ps_app]. *)
Record Process : Type := mkProcess {
  ps_fixed : Fixed; ps_app : AppState; ps_seen : gset string; ps_supervisor : Supervisor; ps_queried : gset string;
  ps_attempts : Z }.
Definition ps_config (p : Process) : Config := fx_config (ps_fixed p).
Definition ps_listeners (p : Process) : Listeners := fx_listeners (ps_fixed p).
Definition ps_cred (p : Process) : Cred := fx_cred (ps_fixed p).
Definition ps_geo (p : Process) : GeoDb := fx_geo (ps_fixed p).
Definition ps_files (p : Process) : Files := fx_files (ps_fixed p).
Definition ps_cache_file (p : Process) : option JsonDoc := fx_cache_file (ps_fixed p).

Inductive StartError : Type :=
| StConfig | StDatabase (e : DbError) | StTls (e : TlsError) | StBind (e : BindError) | StPrivileges (e : PrivilegeError).

(** The state [main] shares: an upstream that cannot be built is a warning. *)
Definition initial_state (d : Db) (s : Settings) : AppState :=
  let upstream := match build_upstream s with Ok up => up | Err _ => None end in
  AppState_new d (build_from d) upstream (build_conditional d s) (build_filter d (st_blocking_enabled s)) s.

(** [main] up to the point where the servers run; the disk is what a failed start
    leaves behind. *)
Definition start (b : Boot) (k : Disk) : Disk * result Process StartError :=
  match Config_load (bt_read b) (bt_toml b) (cl_config (bt_cli b)) with
  | None => (k, Err StConfig)
  | Some loaded =>
      let overridden := apply_overrides loaded (bt_cli b) in
      match bootstrap (bt_ts b) (dk_db k) with
      | (d, Err e) => (mkDisk d (dk_files k) (dk_cache k), Err (StDatabase e))
      | (d, Ok s) =>
          let config := apply_settings_to_config overridden s in
          let a := initial_state d s in
          let geo := geo_load (bt_open_readfile b) (gc_geoip_db (cg_geo config)) (gc_asn_db (cg_geo config)) in
          let '(fs, tls) := tls_setup (ho_writable (bt_host b)) config (dk_files k) in
          let k := mkDisk d fs (dk_cache k) in
          match tls with
          | Err e => (k, Err (StTls e))
          | Ok tls =>
              let a := with_cache (fst (cache_load (ap_cache a) (dk_cache k) (bt_now b))) a in
              match bind_listeners (bt_host b) config tls (scope_interfaces d) with
              | Err e => (k, Err (StBind e))
              | Ok listeners =>
                  match drop_privileges (cg_privileges config) (bt_cred b) with
                  | (_, Err e) => (k, Err (StPrivileges e))
                  | (cred, Ok _) =>
                      (k, Ok (mkProcess
                                (mkFixed config listeners cred (bt_now b) (bt_ts b) geo fs (dk_cache k)) a ∅
                                (mkSupervisor false (st_mdns_publish_public s)) ∅
                                (if has_geoip geo then ORIGIN_ATTEMPTS else 0)))
                  end
              end
          end
      end
  end.

(** ** The end of a run *)

(** What a process that is killed leaves. *)
Definition killed (p : Process) : Disk := mkDisk (ap_db (ps_app p)) (ps_files p) (ps_cache_file p).

(** What [DnsCache::save] did: the file is written, or was not touched, or the write
    failed on the way and left [part] of it. *)
Inductive SaveOutcome : Type := Saved | NotTouched | Interrupted (part : option JsonDoc).

(** A shutdown saves the cache; the queued query-log entries are dropped. *)
Definition shutdown (now : Z) (o : SaveOutcome) (p : Process) : Disk :=
  mkDisk (ap_db (ps_app p)) (ps_files p)
    match o with
    | Saved => Some (cache_save (ap_cache (ps_app p)) now)
    | NotTouched => ps_cache_file p
    | Interrupted part => part
    end.
End Start.

(** ** Theorems: TLS material *)

Section TlsLemmas.
Context `{TLS : TlsTools}.

Lemma load_pem_files cert key fs m : load_pem cert key fs = Ok m -> file_exists fs cert = true /\ file_exists fs key = true.
Proof.
  unfold load_pem, file_exists. destruct (fs !! cert) as [t|] eqn:Ec; [|done]. cbn.
  destruct (pem_certs t) as [[|x certs]|]; try done. cbn. destruct (fs !! key) as [t'|] eqn:Ek; [|done].
  intros _. by rewrite !bool_decide_eq_true_2.
Qed.

Lemma generate_loads writable hostname cert key fs fs' m :
  generate_self_signed writable hostname cert key fs = (fs', Ok m) -> load_pem cert key fs' = Ok m.
Proof.
  unfold generate_self_signed, fs_write. destruct (simple_self_signed _) as [[c k]|]; [|done].
  destruct (writable cert); [|done]. destruct (writable key); [|done]. by intros [= <- ->].
Qed.

(** the certificate is stable: whatever material a start used, the next start with
    the same configuration finds it on disk and uses the same, also when a new
    self-signed pair could be generated or the disk has become read-only. *)
Theorem tls_stable writable writable' c fs fs' m :
  load_or_generate writable c fs = (fs', Ok m) -> load_or_generate writable' c fs' = (fs', Ok m).
Proof.
  unfold load_or_generate. cbv zeta. set (cert := path_join _ "nomina-cert.pem"). set (key := path_join _ "nomina-key.pem").
  assert (forall fs1 fs2 m1,
    (if file_exists fs1 cert && file_exists fs1 key then (fs1, load_pem cert key fs1)
     else if tc_auto_self_signed (cg_tls c) then generate_self_signed writable (tc_hostname (cg_tls c)) cert key fs1
     else (fs1, Err TlsNotConfigured)) = (fs2, Ok m1) -> load_pem cert key fs2 = Ok m1) as H.
  { intros fs1 fs2 m1. destruct (_ && _); [by intros [= <- ->]|]. destruct (tc_auto_self_signed _); [|done].
    apply generate_loads. }
  destruct (tc_cert_path (cg_tls c)) as [p|], (tc_key_path (cg_tls c)) as [q|]; [by intros [= <- ->]|..];
    intros E; apply H in E; destruct (load_pem_files _ _ _ _ E) as [-> ->]; cbn; by rewrite E.
Qed.
End TlsLemmas.

(** ** Theorems: privileges *)

(** What POSIX documents of the calls: root may set any id, setting the user id sets
    all three, and no other user may become root.  [setgroups] can be denied. *)
Class UnixLaws `{!Unix} : Prop := {
  setgroups_spec c : fst (setgroups_none c) = c \/ fst (setgroups_none c) = mkCred (cr_uid c) (cr_gid c) [];
  setgid_root g c : cr_uid c = 0 -> setgid g c = (mkCred (cr_uid c) g (cr_groups c), true);
  setgid_other g c : cr_uid c <> 0 -> g <> cr_gid c -> setgid g c = (c, false);
  setuid_root u c : cr_uid c = 0 -> setuid u c = (mkCred u (cr_gid c) (cr_groups c), true);
  setuid_other c : cr_uid c <> 0 -> setuid 0 c = (c, false) }.

Section PrivilegeLemmas.
Context `{UNIX : Unix} `{LAWS : !UnixLaws}.

(** C40: started as root with a user to become, the program ends up as exactly that user
    and group, with the supplementary groups that [setgroups] left, and cannot
    become root again; a user that is root itself is refused. *)
Theorem drop_privileges_final cfg c uid gid :
  cr_uid c = 0 -> target_ids cfg = Ok (Some uid, gid) ->
  let groups := cr_groups (fst (setgroups_none c)) in
  let c' := mkCred uid (default (cr_gid c) gid) groups in
  drop_privileges cfg c = (c', if uid =? 0 then Err StillRoot else Ok tt) /\
  (uid <> 0 -> setuid 0 c' = (c', false)).
Proof.
  intros Hr Ht groups c'. assert (uid <> 0 -> setuid 0 c' = (c', false)) as Hno by (intros H; by apply setuid_other).
  split; [|done]. unfold drop_privileges.
  assert (forall k : Cred * result unit PrivilegeError,
    match pc_user cfg, pc_group cfg with None, None => (c, Ok tt) | _, _ => k end = k) as Hk.
  { intros k. unfold target_ids in Ht. destruct (pc_user cfg); [done|]. by destruct (pc_group cfg). }
  rewrite Hk, Hr. cbn [Z.eqb negb]. rewrite Ht. cbv zeta.
  set (c1 := fst (setgroups_none c)) in *. assert (cr_uid c1 = 0 /\ cr_gid c1 = cr_gid c) as [H1 H2].
  { subst c1. destruct (setgroups_spec c) as [-> | ->]; by rewrite ?Hr. }
  assert (match gid with Some g => setgid g c1 | None => (c1, true) end = (mkCred 0 (default (cr_gid c) gid) groups, true)) as ->.
  { destruct gid as [g|]; [by rewrite setgid_root, H1|]. cbn. subst groups. rewrite <- H2, <- H1. by destruct c1. }
  unfold become_user. rewrite setuid_root by done. cbn [cr_gid cr_groups].
  destruct (Z.eqb_spec uid 0) as [->|Hu]; [by rewrite setuid_root|]. fold c'. by rewrite Hno.
Qed.

(** A group alone leaves the program root: the ids it was started with but the group. *)
Lemma group_only_stays_root cfg c gid :
  cr_uid c = 0 -> target_ids cfg = Ok (None, Some gid) ->
  cr_uid (fst (drop_privileges cfg c)) = 0 /\ snd (drop_privileges cfg c) = Ok tt.
Proof.
  intros Hr Ht. unfold drop_privileges. rewrite Hr. cbn [Z.eqb negb]. rewrite Ht. cbv zeta.
  destruct (pc_user cfg); [|destruct (pc_group cfg); [|done]];
    (assert (cr_uid (fst (setgroups_none c)) = 0) as H0 by (destruct (setgroups_spec c) as [-> | ->]; done));
    rewrite setgid_root by done; cbn; done.
Qed.
End PrivilegeLemmas.
