(* ===== verification/Services.v ===== *)
(** * What a started process serves ([run] of [src/dns/server.rs] and [src/dhcp/server.rs], the end of [main])

    The sockets that the start bound are handed to servers: each becomes a
    [Service], with the TLS configuration it negotiates.  The theorems say that
    the list of listeners on the status page is the list of the services, and that
    nothing configured for TLS is served in the clear. *)

From S2P Require Import DhcpServer.
From S2P Require Import Prelude Strs Net Geo External Models DhcpOptions Db DbDns DbFilter DbDhcp DbAdmin Filter Upstream.
From S2P Require Import Cache Stats Mdns Dnssec Store State Config Web Reports Startup.

Section Services.
Context `{TLS : TlsTools}.

Abbreviation ServerConfig := (TlsMaterial * list string)%type.

Inductive Service : Type :=
| DnsUdp (addr : SocketAddr)
| DnsTcp (addr : SocketAddr) (timeout : Z)
| DnsTls (addr : SocketAddr) (timeout : Z) (tls : ServerConfig)
| DnsQuic (addr : SocketAddr) (timeout : Z) (tls : ServerConfig)
| DnsH3 (addr : SocketAddr) (timeout : Z) (tls : ServerConfig)
| DohHttps (addr : SocketAddr) (tls : ServerConfig)
| Dhcp4Loop (addr : SocketAddr) (iface : option RecvIface)
| Dhcp6Loop (addr : SocketAddr)
| LeaseSweep
| WebPlain (addr : SocketAddr)
| WebTls (addr : SocketAddr) (tls : ServerConfig)
| WebAcme (addr : SocketAddr) (domains contact : list string) (staging : bool) (cache_dir : string).

(** Sockets without TLS material are skipped. *)
Definition over_tls (f : SocketAddr -> ServerConfig -> Service) (sockets : list SocketAddr) (tls : option ServerConfig)
    : list Service :=
  match tls with Some tls => (fun a => f a tls) <$> sockets | None => [] end.

(** [run] of the DNS server: a registration over TLS can fail, and then the server
    stops ([None]), and with it the program. *)
Definition dns_run (registers : Service -> bool) (c : Config) (s : DnsSockets)
    (dot_config doq_config doh3_config : option ServerConfig) : option (list Service) :=
  let timeout := dn_tcp_timeout_secs (cg_dns c) in
  let plain := ds_plain s ≫= fun a => [DnsUdp a; DnsTcp a timeout] in
  let over := over_tls (fun a => DnsTls a timeout) (ds_dot s) dot_config ++
              over_tls (fun a => DnsQuic a timeout) (ds_doq s) doq_config ++
              over_tls (fun a => DnsH3 a timeout) (ds_doh3 s) doh3_config in
  if forallb registers over then Some (plain ++ over) else None.

Definition dhcp_run (s : DhcpSockets) : list Service :=
  ((fun '(a, iface) => Dhcp4Loop a iface) <$> dk_v4 s) ++ (Dhcp6Loop <$> dk_v6 s).
Definition dhcp_services (s : DhcpSockets) : list Service :=
  if no_dhcp s then [] else dhcp_run s ++ [LeaseSweep].

Definition web_service (c : Config) (listener : option SocketAddr) (web_tls : option ServerConfig) : option Service :=
  let! listener := listener in
  Some (if tc_acme (cg_tls c) && wc_tls (cg_web c) then
          let t := cg_tls c in
          WebAcme listener (if is_nil (tc_acme_domains t) then [tc_hostname t] else tc_acme_domains t)
            ((fun e => "mailto:" +:+ e) <$> option_list (tc_acme_contact t)) (tc_acme_staging t)
            (path_join (cg_data_dir c) "acme")
        else match web_tls with Some tls => WebTls listener tls | None => WebPlain listener end).

(** "Spawn servers": [None] when the DNS server stops at once. *)
Definition spawn_servers (registers : Service -> bool) (c : Config) (l : Listeners) (tls : TlsSetup) : option (list Service) :=
  let! dns := dns_run registers c (li_dns l) (tu_dot tls) (tu_doq tls) (tu_doh3 tls) in
  Some (dns ++ dhcp_services (li_dhcp l) ++ over_tls DohHttps (li_doh l) (tu_doh tls) ++
        option_list (web_service c (li_web l) (tu_web tls))).

(** ** The status page *)

(** How the status page describes a service. *)
Definition described (s : Service) : option ListenerInfo :=
  let info kind addr := Some (mkListenerInfo kind (show_socket_addr addr) true) in
  match s with
  | DnsUdp a => info "udp" a
  | DnsTcp a _ => info "tcp" a
  | DnsTls a _ _ => info "dot" a
  | DnsQuic a _ _ => info "doq" a
  | DnsH3 a _ _ => info "doh3" a
  | DohHttps a _ => info "doh" a
  | _ => None
  end.
Definition management_of (s : Service) : option (SocketAddr * string) :=
  match s with
  | WebPlain a => Some (a, "http")
  | WebTls a _ | WebAcme a _ _ _ _ => Some (a, "https")
  | _ => None
  end.

(** ** Lemmas *)

Lemma described_app l l' : omap described (l ++ l') = omap described l ++ omap described l'.
Proof. apply omap_app. Qed.
Lemma omap_none {A B} (f : A -> option B) l : Forall (fun x => f x = None) l -> omap f l = [].
Proof. induction 1 as [|x l H _ IH]; [done|]. cbn. by rewrite H. Qed.

(** A configuration is made exactly for the lists that have an address. *)
Lemma config_if_over {A} (l : list A) m alpn o :
  config_if (negb (is_nil l)) m alpn = Ok o -> l = [] \/ is_Some o.
Proof.
  destruct l as [|a l]; [by left|]. right. revert H. cbn. unfold server_config. destruct (with_single_cert _ _); [|done].
  by intros [= <-].
Qed.
Lemma over_tls_described f kind l (o : option ServerConfig) :
  (forall a t, described (f a t) = Some (mkListenerInfo kind (show_socket_addr a) true)) ->
  l = [] \/ is_Some o ->
  omap described (over_tls f l o) = (fun a => mkListenerInfo kind (show_socket_addr a) true) <$> l.
Proof.
  intros Hf [->|[t ->]]; [by destruct o|]. cbn. induction l as [|a l IH]; [done|]. cbn. by rewrite Hf, IH.
Qed.
Lemma plain_described l timeout :
  omap described (l ≫= fun a => [DnsUdp a; DnsTcp a timeout]) =
  (l ≫= fun a => [mkListenerInfo "udp" (show_socket_addr a) true; mkListenerInfo "tcp" (show_socket_addr a) true]).
Proof. induction l as [|a l IH]; [done|]. cbn. by do 2 f_equal. Qed.
Lemma over_tls_forall (P : Service -> Prop) f l o : (forall a t, P (f a t)) -> Forall P (over_tls f l o).
Proof. intros Hf. destruct o as [t|]; [|constructor]. apply Forall_fmap, Forall_true. intros a. apply Hf. Qed.
Lemma dhcp_forall (P : Service -> Prop) s :
  (forall a i, P (Dhcp4Loop a i)) -> (forall a, P (Dhcp6Loop a)) -> P LeaseSweep -> Forall P (dhcp_services s).
Proof.
  intros H4 H6 Hs. unfold dhcp_services, dhcp_run. destruct (no_dhcp s); [constructor|].
  repeat apply Forall_app_2; [apply Forall_fmap, Forall_true; intros []; apply H4|apply Forall_fmap, Forall_true; exact H6|by constructor].
Qed.
Lemma web_described c o t : omap described (option_list (web_service c o t)) = [].
Proof. unfold web_service. destruct o; [|done]. cbn. destruct (_ && _); [done|]. by destruct t. Qed.
Lemma web_management c o t :
  is_Some t <-> wc_tls (cg_web c) = true ->
  omap management_of (option_list (web_service c o t)) =
    (fun a => (a, if wc_tls (cg_web c) then "https" else "http")) <$> option_list o.
Proof.
  intros Ht. unfold web_service. destruct o; [|done]. cbn. destruct t as [t|].
  - rewrite (proj1 Ht) by done. by destruct (_ && _).
  - destruct (wc_tls _); [by destruct (proj2 Ht eq_refl)|]. by rewrite andb_false_r.
Qed.

(** Every list with an address has its configuration, and the management interface has
    one exactly when TLS is on. *)
Record tls_matches (c : Config) (tls : TlsSetup) : Prop := {
  tm_web : is_Some (tu_web tls) <-> wc_tls (cg_web c) = true;
  tm_dot : dn_dot_listen (cg_dns c) = [] \/ is_Some (tu_dot tls);
  tm_doh : dn_doh_listen (cg_dns c) = [] \/ is_Some (tu_doh tls);
  tm_doq : dn_doq_listen (cg_dns c) = [] \/ is_Some (tu_doq tls);
  tm_doh3 : dn_doh3_listen (cg_dns c) = [] \/ is_Some (tu_doh3 tls) }.

Lemma tls_setup_matches writable c fs fs' tls : tls_setup writable c fs = (fs', Ok tls) -> tls_matches c tls.
Proof.
  unfold tls_setup. destruct (tls_required c) eqn:Er.
  - destruct (load_or_generate _ _ _) as [fs1 [m|e]]; [|done]. cbn.
    destruct (config_if (wc_tls _) _ _) as [web|] eqn:Ew; [|done]. cbn.
    destruct (config_if _ m ["dot"]) as [dot|] eqn:E1; [|done]. cbn.
    destruct (config_if (negb (is_nil (dn_doh_listen _))) _ _) as [doh|] eqn:E2; [|done]. cbn.
    destruct (config_if _ m ["doq"]) as [doq|] eqn:E3; [|done]. cbn.
    destruct (config_if _ m ["h3"]) as [doh3|] eqn:E4; [|done]. intros [= _ <-].
    split; cbn; try by eapply config_if_over. revert Ew. unfold config_if, server_config.
    destruct (wc_tls _); [|intros [= <-]; by split; [intros []|]]. destruct (with_single_cert _ _); [|done].
    by intros [= <-].
  - intros [= _ <-]. unfold tls_required in Er. apply orb_false_iff in Er as [Er H4].
    apply orb_false_iff in Er as [Er H3]. apply orb_false_iff in Er as [Er H2]. apply orb_false_iff in Er as [H0 H1].
    assert (forall A (l : list A), negb (is_nil l) = false -> l = []) as Hn by by intros A [].
    split; cbn; [rewrite H0; by split; [intros []|]|left; by apply Hn..].
Qed.

(** The sockets are those of the configuration. *)
Lemma bind_listeners_eq h c tls ifs l :
  bind_listeners h c tls ifs = Ok l ->
  li_dns l = mkDnsSockets (dn_listen (cg_dns c)) (dn_dot_listen (cg_dns c)) (dn_doq_listen (cg_dns c)) (dn_doh3_listen (cg_dns c)) /\
  li_web l = (if wc_disabled (cg_web c) then None else Some (wc_listen (cg_web c))) /\
  li_doh l = match tu_doh tls with Some _ => dn_doh_listen (cg_dns c) | None => [] end.
Proof.
  unfold bind_listeners. destruct (bind_dns h c) as [d|] eqn:Ed; [|done]. destruct (bind_dhcp h c ifs) as [k|]; [|done]. cbn.
  unfold bind_dns in Ed. destruct (_ && _); [|done]. injection Ed as <-.
  destruct (wc_disabled _); [|destruct (ho_tcp _ _); [|done]]; cbn;
    (destruct (tu_doh tls); [destruct (forallb _ _); [|done]|]); by intros [= <-].
Qed.

(** The status page tells what is served: after a start whose registrations succeed,
    the services are, up to their order, the listeners the page lists, each enabled;
    the management interface is served at the address and with the scheme it shows, or
    not at all when it is shown as disabled. *)
Theorem status_tells_services registers writable h c fs fs' tls ifs l :
  tls_setup writable c fs = (fs', Ok tls) -> bind_listeners h c tls ifs = Ok l -> (forall s, registers s = true) ->
  exists services, spawn_servers registers c l tls = Some services /\
    omap described services ≡ₚ listener_infos c /\
    omap management_of services =
      (if wc_disabled (cg_web c) then [] else [(wc_listen (cg_web c), if wc_tls (cg_web c) then "https" else "http")]).
Proof.
  intros Ht Hl Hr. apply tls_setup_matches in Ht as [Hw H1 H2 H3 H4].
  apply bind_listeners_eq in Hl as (E1 & E2 & E3). unfold spawn_servers, dns_run.
  assert (forall x, forallb registers x = true) as -> by (intros x; apply forallb_forall; auto).
  assert (li_doh l = dn_doh_listen (cg_dns c)) as E4 by (destruct H2 as [E|[t E]]; rewrite E3, E; by destruct (tu_doh tls)).
  cbn [mbind option_bind]. eexists; split; [done|]. rewrite E1, E2, E4. cbn [ds_plain ds_dot ds_doq ds_doh3]. split.
  - unfold listener_infos. cbv zeta. rewrite !described_app, plain_described, web_described, (omap_none described (dhcp_services _)) by by apply dhcp_forall.
    rewrite (over_tls_described (fun a => DnsTls a _) "dot"), (over_tls_described (fun a => DnsQuic a _) "doq"),
      (over_tls_described (fun a => DnsH3 a _) "doh3"), (over_tls_described DohHttps "doh") by done.
    rewrite app_nil_r. solve_Permutation.
  - rewrite omap_app, omap_none; cbn [app].
    + rewrite !omap_app, (omap_none _ (dhcp_services _)) by by apply dhcp_forall.
      rewrite (omap_none _ (over_tls _ _ _)) by by apply over_tls_forall.
      rewrite web_management by done. by destruct (wc_disabled _).
    + repeat apply Forall_app_2; try by apply over_tls_forall. apply Forall_bind, Forall_true. intros a. by repeat constructor.
Qed.
End Services.
