(* ===== verification/Program.v ===== *)
(** * The whole program ([src/main.rs])

    The process as a state machine: a start, then requests, packets, background
    workers and timers in any order, and in the end a shutdown or a kill.  The
    servers and the workers are the definitions of the other files; here they
    share one state, and an event is one turn of one of them.  The overlap of
    requests inside a turn is [Concurrent]. *)

From S2P Require Import DhcpServer DhcpDns.
From S2P Require Import Prelude Strs Net Geo External Models Serde DhcpOptions Db DbDns DbFilter DbDhcp DbAdmin Filter Upstream.
From S2P Require Import Cache Stats Mdns Dnssec Store State Config Web Auth DynDns Transfer ApiZones ApiFilter.
From S2P Require Import ApiDhcp Reports Sync Resolve Handler Router Integrity Serve Startup.

#[local] Existing Instance DhcpDns.zone_store.

(** The [MAX_ROWS] and the batch of the query-log writer, the cap of [seen]. *)
Definition QLOG_MAX_ROWS : Z := 500000.
Definition QLOG_BATCH : nat := 500.
Definition SEEN_CAP : Z := 8192.
(** The capacities of the channels to the background workers. *)
Definition QLOG_CHANNEL : Z := 10000.
Definition BLOCKED_CHANNEL : Z := 4096.

(** ** Parts of the state *)

Section Parts.
Context `{NETS : IpNets} `{HN : HickoryNames} `{TEXT : !HickoryText} `{SIGN : !Signers} `{RES : !HickoryResolvers}
  `{MM : MaxMind} `{JT : JsonText}.

Definition with_qlog (q : list RecentQuery) (a : AppState) : AppState :=
  mkAppState (ap_db a) (ap_stats a) (ap_store a) (ap_upstream a) (ap_conditional a) (ap_filter a) (ap_cache a)
    (ap_settings a) (ap_mdns a) (ap_rr_counter a) (ap_throttle a) q (ap_blocked a).
Definition with_blocked (b : list string) (a : AppState) : AppState :=
  mkAppState (ap_db a) (ap_stats a) (ap_store a) (ap_upstream a) (ap_conditional a) (ap_filter a) (ap_cache a)
    (ap_settings a) (ap_mdns a) (ap_rr_counter a) (ap_throttle a) (ap_qlog a) b.
Definition with_mdns (m : MdnsRegistry) (a : AppState) : AppState :=
  mkAppState (ap_db a) (ap_stats a) (ap_store a) (ap_upstream a) (ap_conditional a) (ap_filter a) (ap_cache a)
    (ap_settings a) m (ap_rr_counter a) (ap_throttle a) (ap_qlog a) (ap_blocked a).
Definition with_store (d : Db) (s : ZoneStore) (a : AppState) : AppState :=
  mkAppState d (ap_stats a) s (ap_upstream a) (ap_conditional a) (ap_filter a) (ap_cache a)
    (ap_settings a) (ap_mdns a) (ap_rr_counter a) (ap_throttle a) (ap_qlog a) (ap_blocked a).

Definition with_app (a : AppState) (p : Process) : Process :=
  mkProcess (ps_fixed p) a (ps_seen p) (ps_supervisor p) (ps_queried p) (ps_attempts p).
Definition with_seen (s : gset string) (p : Process) : Process :=
  mkProcess (ps_fixed p) (ps_app p) s (ps_supervisor p) (ps_queried p) (ps_attempts p).
Definition with_discovery (sv : Supervisor) (queried : gset string) (p : Process) : Process :=
  mkProcess (ps_fixed p) (ps_app p) (ps_seen p) sv queried (ps_attempts p).
Definition with_attempts (n : Z) (p : Process) : Process :=
  mkProcess (ps_fixed p) (ps_app p) (ps_seen p) (ps_supervisor p) (ps_queried p) n.

(** The DHCP server's part of the state, and the state with it replaced. *)
Definition dhcp_part (a : AppState) : DhcpServer.AppState := DhcpServer.mkAppState (ap_db a) (ap_store a).
Definition after_dhcp (a : AppState) (r : option (DhcpServer.AppState * list (IpAddr * Z * list Z) * result unit DhcpServer.HandlerError))
    : option AppState :=
  let! r := r in
  let '(s, _, _) := r in
  Some (with_store (DhcpServer.as_db s) (DhcpServer.as_store s) a).

(** ** The background workers *)

(** One domain of the geolocation worker. *)
Definition blocked_turn (net : Network) (p : Process) : Process :=
  match ap_blocked (ps_app p) with
  | [] => p
  | domain :: rest =>
      let p := with_app (with_blocked rest (ps_app p)) p in
      if negb (has_geoip (ps_geo p)) then p
      else
        let seen := if SEEN_CAP <=? Z.of_nat (size (ps_seen p)) then ∅ else ps_seen p in
        if bool_decide (domain ∈ seen) then with_seen seen p
        else
          let p := with_seen ({[domain]} ∪ seen) p in
          match ap_upstream (ps_app p), Name_from_ascii (domain +:+ ".") with
          | Some up, Some name =>
              let r := upstream_resolve net up name A in
              let note s rec := match rec_data rec with RD_A a => record_blocked_dest (V4 a) s | _ => s end in
              with_app (with_stats (fun s => fold_left note (up_answers r) s) (ps_app p)) p
          | _, _ => p
          end
  end.

(** [public_ip]: the first echo service that answers with an address. *)
Definition public_ip (get : string -> option string) : option IpAddr :=
  head (omap (fun url => let! text := get url in parse_ip (trim text))
          ["https://api.ipify.org"; "https://icanhazip.com"; "https://ifconfig.me/ip"]).

(** One attempt of the task that locates the server; the last is the first that finds
    coordinates, or the sixth. *)
Definition origin_turn (get : string -> option string) (p : Process) : Process :=
  if ps_attempts p <=? 0 then p
  else
    match (let! ip := public_ip get in
           let g := geo_lookup (ps_geo p) ip in
           match cg_lat g, cg_lon g with
           | Some lat, Some lon =>
               Some (mkOriginGeo (show_ip ip) lat lon (default "" (cg_city g)) (default "" (cg_country g)))
           | _, _ => None
           end) with
    | Some o => with_attempts 0 (with_app (with_stats (set_origin o) (ps_app p)) p)
    | None => with_attempts (ps_attempts p - 1) p
    end.

(** One batch of the query-log writer; errors are logged and dropped. *)
Definition qlog_turn (a : AppState) : AppState :=
  match ap_qlog a with
  | [] => a
  | q =>
      let entries := take QLOG_BATCH q in
      let a := with_qlog (drop QLOG_BATCH q) a in
      let a := fst (run (insert_queries entries) a) in
      fst (run (prune_query_log QLOG_MAX_ROWS) a)
  end.

(** The blocklist timer, when it fires: the interval is read again. *)
Definition refresh_turn `{DT : DateTimes} (e : WebEnv) (a : AppState) : AppState :=
  if 0 <? st_blocklist_refresh_hours (ap_settings a) then fst (refresh_all_lists e a) else a.

Definition prune_sessions_turn (ts : string) (a : AppState) : AppState := fst (run (prune_sessions ts) a).
Definition sweep_turn (now : string) (a : AppState) : AppState := fst (run (prune_expired_leases now) a).

(** ** mDNS discovery *)

(** A datagram, while the listener runs. *)
Definition mdns_turn (now : Z) (msg : option Message) (p : Process) : Process :=
  if sv_running (ps_supervisor p) then
    let a := ps_app p in
    let '(reg, queried, _) :=
      learn_and_plan msg (mdns_ttl a) (st_mdns_publish_public (ap_settings a)) now (ap_mdns a) (ps_queried p) in
    with_discovery (ps_supervisor p) queried (with_app (with_mdns reg a) p)
  else p.

(** Thirty seconds: the set of asked questions is cleared. *)
Definition mdns_cycle (p : Process) : Process :=
  if sv_running (ps_supervisor p) then with_discovery (ps_supervisor p) ∅ p else p.

(** A listener that is started begins with an empty set; one that cannot bind its
    sockets has finished by the next tick. *)
Definition supervise_turn (h : MdnsHost) (p : Process) : Process :=
  let a := ps_app p in
  let s := ps_supervisor p in
  let enabled := st_mdns_enabled (ap_settings a) in
  let '(s', reg) := supervise_tick enabled (st_mdns_publish_public (ap_settings a)) s (ap_mdns a) in
  let started := negb (sv_running s) && sv_running s' in
  let s' := if started && negb (mdns_listens h) then mkSupervisor false (sv_last_public s') else s' in
  with_discovery s' (if started then ∅ else ps_queried p) (with_app (with_mdns reg a) p).
End Parts.

(** ** Events *)

Section Program.
Context `{NETS : IpNets} `{HN : HickoryNames} `{TEXT : !HickoryText} `{SIGN : !Signers} `{RES : !HickoryResolvers}
  `{UNI : Unicode} `{TIME : Rfc3339} `{DT : DateTimes} `{CR : Credentials} `{TS : !TSigners} `{TOOLS : !DnssecTools}
  `{ZF : !ZoneFiles} `{ERR : !ErrorTexts} `{DQ : !DnsQueries} `{WIRE : !DnsWire} `{DEC : Decoders} `{MM : MaxMind} `{TLS : TlsTools}
  `{UNIX : Unix} `{JT : JsonText} `{HS : !HickorySerde}.
Context (tsig_text : TsigError -> string) (option_text : DhcpOption -> OptionError -> string) (VERSION : string)
  (assets : string -> option Asset) (hash : string -> Z).

(** What can happen to a running process, with what the world answers meanwhile. *)
Inductive Event : Type :=
| EvHttp (e : WebEnv) (net : Primaries) (env : Env) (vt : Vantage) (rq : HttpRequest)
| EvDns (env : Env) (sends : bool) (rq : Request)
| EvDohGet (env : Env) (client : IpAddr) (dns : option string)
| EvDohPost (env : Env) (client : IpAddr) (body : list Z)
| EvDhcp4 (ts : string) (now : Z) (socket : nat) (sent : bool) (frame : list Z)
| EvDhcp6 (ts : string) (now : Z) (socket : nat) (host_file host_env : option string) (src : IpAddr) (sent : bool)
    (frame : list Z)
| EvMdns (now : Z) (msg : option Message)
| EvMdnsCycle
| EvSupervise (h : MdnsHost)
| EvBlocked (net : Network)
| EvOrigin (get : string -> option string)
| EvQueryLog
| EvRefresh (e : WebEnv)
| EvPruneSessions (ts : string)
| EvPoll (e : WebEnv) (net : Primaries)
| EvSweep (now : string).

(** The configuration the web server sees is the one the process started with. *)
Definition running_env (p : Process) (e : WebEnv) : WebEnv :=
  mkWebEnv (ps_config p) (we_clock e) (we_instant e) (we_token e) (we_csrf e) (we_salt e) (we_fetch e).

(** A report is written with the start time and the databases of the process. *)
Definition running_vantage (p : Process) (vt : Vantage) : Vantage :=
  mkVantage (fx_started (ps_fixed p)) (fx_started_at (ps_fixed p)) (ps_geo p) (vt_ifaddrs vt) (vt_nanos vt) (vt_exec vt)
    (vt_read_error vt) (vt_order vt).

(** A query uses the databases of the process; a channel has room while fewer entries
    than its capacity wait. *)
Definition with_channels (p : Process) (env : Env) : Env :=
  mkEnv (ev_ts env) (ev_sec env) (ev_now env) (ev_unix env) (ev_latency env) (ev_net env) (ev_shuffle env)
    (geo_lookup (ps_geo p))
    (Z.of_nat (length (ap_qlog (ps_app p))) <? QLOG_CHANNEL)
    (Z.of_nat (length (ap_blocked (ps_app p))) <? BLOCKED_CHANNEL).

Definition on_app (f : AppState -> option AppState) (p : Process) : option Process :=
  let! a := f (ps_app p) in Some (with_app a p).

(** Whether the DNS server listens at all, whether a DoH listener was bound. *)
Definition serves_dns (l : Listeners) : bool :=
  negb (is_nil (ds_plain (li_dns l)) && is_nil (ds_dot (li_dns l)) && is_nil (ds_doq (li_dns l)) &&
        is_nil (ds_doh3 (li_dns l))).
Definition serves_doh (l : Listeners) : bool := negb (is_nil (li_doh l)).

(** One turn.  [None]: the task of the event panics.  An event of a socket that is not
    bound does not happen. *)
Definition turn (ev : Event) (p : Process) : option Process :=
  let l := ps_listeners p in
  match ev with
  | EvHttp e net env vt rq =>
      match li_web l with
      | Some _ =>
          on_app (fun a => Some (fst (serve (running_env p e) net (with_channels p env) tsig_text option_text VERSION
                                        (running_vantage p vt) assets rq a))) p
      | None => Some p
      end
  | EvDns env sends rq =>
      if serves_dns l then on_app (fun a => fst <$> handle_request (with_channels p env) sends rq a) p else Some p
  | EvDohGet env client dns =>
      if serves_doh l then on_app (fun a => fst <$> doh_get (with_channels p env) client dns a) p else Some p
  | EvDohPost env client body =>
      if serves_doh l then on_app (fun a => fst <$> doh_post (with_channels p env) client body a) p else Some p
  | EvDhcp4 ts now socket sent frame =>
      match dk_v4 (li_dhcp l) !! socket with
      | Some (_, iface) => on_app (fun a => after_dhcp a (v4_turn ts now iface sent frame (dhcp_part a))) p
      | None => Some p
      end
  | EvDhcp6 ts now socket host_file host_env src sent frame =>
      match dk_v6 (li_dhcp l) !! socket with
      | Some _ =>
          on_app (fun a =>
            after_dhcp a (v6_turn ts now (own_server_duid hash host_file host_env) src sent frame (dhcp_part a))) p
      | None => Some p
      end
  | EvMdns now msg => Some (mdns_turn now msg p)
  | EvMdnsCycle => Some (mdns_cycle p)
  | EvSupervise h => Some (supervise_turn h p)
  | EvBlocked net => Some (blocked_turn net p)
  | EvOrigin get => Some (origin_turn get p)
  | EvQueryLog => on_app (fun a => Some (qlog_turn a)) p
  | EvRefresh e => on_app (fun a => Some (refresh_turn (running_env p e) a)) p
  | EvPruneSessions ts => on_app (fun a => Some (prune_sessions_turn ts a)) p
  | EvPoll e net => on_app (fun a => Some (poll_tick transfer_text (running_env p e) net a)) p
  | EvSweep now => if no_dhcp (li_dhcp l) then Some p else on_app (fun a => Some (sweep_turn now a)) p
  end.

(** ** Runs *)

(** The program runs, or is down and its files remain. *)
Inductive System : Type := Up (p : Process) | Down (k : Disk).

Inductive Action : Type := Boots (b : Boot) | Takes (ev : Event) | Stops (now : Z) (o : SaveOutcome) | Dies.

Definition step (act : Action) (s : System) : option System :=
  match act, s with
  | Boots b, Down k =>
      let '(k, r) := start b k in
      Some match r with Ok p => Up p | Err _ => Down k end
  | Takes ev, Up p => let! p := turn ev p in Some (Up p)
  | Stops now o, Up p => Some (Down (shutdown now o p))
  | Dies, Up p => Some (Down (killed p))
  | _, _ => Some s
  end.

(** Actions one after the other. *)
Fixpoint run_actions (acts : list Action) (s : System) : option System :=
  match acts with
  | [] => Some s
  | act :: rest => let! s := step act s in run_actions rest s
  end.

(** An empty data directory. *)
Definition fresh_disk : Disk := mkDisk empty_db ∅ None.

(** The states that actions satisfying [allowed] lead to. *)
Inductive reachable (allowed : Process -> Event -> Prop) : System -> Prop :=
| reach_fresh : reachable allowed (Down fresh_disk)
| reach_step s act s' :
    reachable allowed s -> (forall p ev, s = Up p -> act = Takes ev -> allowed p ev) -> step act s = Some s' ->
    reachable allowed s'.
End Program.

(** ** Lemmas: what leaves the database and the structures alone *)

Section ProgramLemmas.
Context `{NETS : IpNets} `{HN : HickoryNames} `{TEXT : !HickoryText} `{SIGN : !Signers} `{RES : !HickoryResolvers}
  `{UNI : Unicode} `{TIME : Rfc3339} `{DT : DateTimes} `{CR : Credentials} `{TS : !TSigners} `{TOOLS : !DnssecTools}
  `{ZF : !ZoneFiles} `{ERR : !ErrorTexts} `{DQ : !DnsQueries} `{WIRE : !DnsWire} `{DEC : Decoders} `{MM : MaxMind} `{TLS : TlsTools}
  `{UNIX : Unix} `{JT : JsonText} `{HS : !HickorySerde}.
Context (tsig_text : TsigError -> string) (option_text : DhcpOption -> OptionError -> string) (VERSION : string)
  (assets : string -> option Asset) (hash : string -> Z).

Abbreviation run_turn := (turn tsig_text option_text VERSION assets hash).
Abbreviation run_step := (step tsig_text option_text VERSION assets hash).
Abbreviation run_reachable := (reachable tsig_text option_text VERSION assets hash).

Lemma static_blocked net p : static_part (ps_app (blocked_turn net p)) = static_part (ps_app p).
Proof.
  unfold blocked_turn. destruct (ap_blocked (ps_app p)) as [|d rest]; [done|]. cbv zeta.
  destruct (negb _); [done|]. case_bool_decide; [done|]. destruct (ap_upstream _); [|done]. by destruct (Name_from_ascii _).
Qed.
Lemma static_origin get p : static_part (ps_app (origin_turn get p)) = static_part (ps_app p).
Proof. unfold origin_turn. destruct (_ <=? _); [done|]. by case_match. Qed.
Lemma static_mdns now msg p : static_part (ps_app (mdns_turn now msg p)) = static_part (ps_app p).
Proof. unfold mdns_turn. destruct (sv_running _); [|done]. by destruct (learn_and_plan _ _ _ _ _ _) as [[? ?] ?]. Qed.
Lemma static_cycle p : static_part (ps_app (mdns_cycle p)) = static_part (ps_app p).
Proof. unfold mdns_cycle. by destruct (sv_running _). Qed.
Lemma static_supervise b p : static_part (ps_app (supervise_turn b p)) = static_part (ps_app p).
Proof. unfold supervise_turn. by destruct (supervise_tick _ _ _ _). Qed.

(** A turn keeps a property that the state's structures decide, if the turns that
    change the database keep it. *)
Definition static_prop (P : AppState -> Prop) : Prop := forall a a', static_part a' = static_part a -> P a -> P a'.

Lemma turn_keeps (P : AppState -> Prop) ev p p' :
  static_prop P ->
  (forall e net env vt rq, ev = EvHttp e net env vt rq ->
     hkeeps P (serve (running_env p e) net (with_channels p env) tsig_text option_text VERSION (running_vantage p vt) assets rq)) ->
  (forall ts now iface sent frame a', after_dhcp (ps_app p) (v4_turn ts now iface sent frame (dhcp_part (ps_app p))) = Some a' ->
     (exists k, ev = EvDhcp4 ts now k sent frame) -> P (ps_app p) -> P a') ->
  (forall ts now duid src sent frame a', after_dhcp (ps_app p) (v6_turn ts now duid src sent frame (dhcp_part (ps_app p))) = Some a' ->
     (exists k f e, ev = EvDhcp6 ts now k f e src sent frame) -> P (ps_app p) -> P a') ->
  (forall a, P a -> P (qlog_turn a)) -> (forall e a, P a -> P (refresh_turn e a)) ->
  (forall ts a, P a -> P (prune_sessions_turn ts a)) -> (forall now a, P a -> P (sweep_turn now a)) ->
  (forall e net a, (exists e0, ev = EvPoll e0 net) -> P a -> P (poll_tick transfer_text e net a)) ->
  run_turn ev p = Some p' -> P (ps_app p) -> P (ps_app p').
Proof.
  intros Hst Hh H4 H6 Hq Hr Hs Hw Hp H Ha. destruct ev; cbn [turn] in H; unfold on_app in H;
    try (injection H as <-; first [eapply Hst; [|exact Ha]; first
      [apply static_mdns | apply static_origin | apply static_cycle | apply static_supervise | apply static_blocked] | cbn [ps_app with_app]; eauto; fail]).
  - destruct (li_web _); injection H as <-; [|done]. by eapply Hh.
  - destruct (serves_dns _); [|by injection H as <-].
    destruct (handle_request _ _ _ _) as [[a o]|] eqn:E; [|done]. injection H as <-. apply static_request in E. by eapply Hst.
  - destruct (serves_doh _); [|by injection H as <-].
    destruct (doh_get _ _ _ _) as [[a o]|] eqn:E; [|done]. injection H as <-. apply doh_get_static in E. by eapply Hst.
  - destruct (serves_doh _); [|by injection H as <-].
    destruct (doh_post _ _ _ _) as [[a o]|] eqn:E; [|done]. injection H as <-. apply static_doh in E. by eapply Hst.
  - destruct (dk_v4 _ !! _) as [[x iface]|]; [|by injection H as <-].
    destruct (after_dhcp _ _) as [a|] eqn:E; [|done]. injection H as <-. eapply H4; eauto.
  - destruct (dk_v6 _ !! _); [|by injection H as <-].
    destruct (after_dhcp _ _) as [a|] eqn:E; [|done]. injection H as <-. eapply H6; eauto.
  - destruct (no_dhcp _); injection H as <-; [done|]. by apply Hw.
Qed.
(** ** The database stays consistent *)

Lemma db_ok_static : static_prop (db_prop db_ok).
Proof. intros a a' E Ha. unfold db_prop in *. by rewrite (static_db _ _ E). Qed.

Lemma keeps_fst {E X} (P : AppState -> Prop) (m : Step E X) a : keeps P m -> P a -> P (fst (m a)).
Proof. intros Hm Ha. by apply Hm. Qed.

(** The refresh loop, from its statements. *)
Lemma poll_tick_keeps (P : AppState -> Prop) text e net a :
  keeps P (run list_secondaries) ->
  (forall zid name primary key, keeps P (transfer e net zid name primary key)) ->
  (forall zid err refresh, keeps P (run (set_secondary_status (we_ts e) zid err refresh))) ->
  P a -> P (poll_tick text e net a).
Proof.
  intros Hl Ht Hs Ha. unfold poll_tick.
  pose proof (keeps_fst P _ a (keeps_attempt (E := AppError) P _ Hl) Ha) as H1.
  destruct (attempt _ a) as [a1 [[l|]|err]]; [|done..]. cbn [fst] in H1. apply (keeps_fst P); [|done].
  assert (forall zid err, keeps P (record_error (E := AppError) text e zid err)) as Hrec.
  { intros. unfold record_error. apply keeps_wbind; [apply keeps_attempt, Hs|intros; apply keeps_wret]. }
  apply keeps_wfold. intros _ sec. unfold poll_one. destruct (negb _); [apply keeps_wret|].
  destruct (parse_primary _) as [primary|]; [|apply Hrec]. destruct (Name_from_utf8 _); [|apply keeps_wret].
  apply keeps_wbind; [apply keeps_reads|intros signer]. destruct (soa_serial _ _ _ _) as [serial|]; [|apply Hrec].
  destruct (negb _); [|apply keeps_wbind; [apply keeps_attempt, Hs|intros; apply keeps_wret]].
  intros a2 Ha2. specialize (Ht (sz_zone_id sec) (sz_name sec) primary (sz_tsig_key sec) a2 Ha2).
  destruct (transfer _ _ _ _ _ _ a2) as [a3 [count|err]]; [done|]. by apply Hrec.
Qed.

(** What a turn of the DHCP server can run on the database. *)
Record dhcp_preserves (P : Db -> Prop) : Prop := {
  dp_lease : forall m, lease_statement m -> preserves P m;
  dp_address : forall ts n ip ttl, preserves P (dyndns_set_address ts n ip None ttl);
  dp_pointer : forall ts n target ttl, preserves P (register_ptr ts n target ttl) }.

Lemma register_dns_preserves P ts scope ip host x :
  dhcp_preserves P -> P (as_db x) -> P (as_db (register_dns ts scope ip host x)).
Proof.
  intros HP Hx. unfold register_dns. destruct (negb _); [done|]. destruct (sc_dns_zone scope) as [z|]; [|done].
  destruct (host ≫= sanitize_label) as [h|]; [|done]. cbv zeta.
  pose proof (run_db_preserves P _ x (dp_address _ HP ts (h +:+ "." +:+ z) ip (Z.max (sc_lease_secs scope) 60)) Hx) as H1.
  destruct (run_db _ x) as [x1 [r|err]]; [|done]. apply run_db_preserves; [apply (dp_pointer _ HP)|]. by rewrite reload_store_db.
Qed.

Lemma dhcp_statement_keeps P m x : dhcp_preserves P -> lease_statement m -> P (as_db x) -> P (as_db (fst (run_db m x))).
Proof. intros HP Hm Hx. apply run_db_preserves; [by apply (dp_lease _ HP)|done]. Qed.

(** Only the database and the store are the DHCP server's. *)
Lemma after_dhcp_spec a r a' :
  after_dhcp a r = Some a' -> exists s ps o, r = Some (s, ps, o) /\ a' = with_store (as_db s) (as_store s) a.
Proof. unfold after_dhcp. destruct r as [[[s ps] o]|]; [|done]. intros [= <-]. by exists s, ps, o. Qed.

Lemma v4_after_keeps P ts now iface sent frame a a' :
  dhcp_preserves P -> after_dhcp a (v4_turn ts now iface sent frame (dhcp_part a)) = Some a' -> P (ap_db a) -> P (ap_db a').
Proof.
  intros HP (s & ps & o & E & ->)%after_dhcp_spec Ha.
  apply (v4_turn_keeps (fun x => P (as_db x))) in E; [done|..|done]; intros.
  - by apply dhcp_statement_keeps.
  - by apply register_dns_preserves.
Qed.
Lemma v6_after_keeps P ts now duid src sent frame a a' :
  dhcp_preserves P -> after_dhcp a (v6_turn ts now duid src sent frame (dhcp_part a)) = Some a' -> P (ap_db a) -> P (ap_db a').
Proof.
  intros HP (s & ps & o & E & ->)%after_dhcp_spec Ha.
  apply (v6_turn_keeps (fun x => P (as_db x))) in E; [done|..|done]; intros.
  - by apply dhcp_statement_keeps.
  - by apply register_dns_preserves.
Qed.

(** A property of the database, by what the turns run on it. *)
Lemma turn_keeps_db (P : Db -> Prop) ev p p' :
  (forall e net env vt rq, (exists e0 env0 vt0, ev = EvHttp e0 net env0 vt0 rq) ->
     hkeeps (db_prop P) (serve e net env tsig_text option_text VERSION vt assets rq)) ->
  dhcp_preserves P -> (forall a, P (ap_db a) -> P (ap_db (qlog_turn a))) ->
  (forall e, keeps (db_prop P) (refresh_all_lists e)) ->
  (forall ts, preserves P (prune_sessions ts)) -> (forall now, preserves P (prune_expired_leases now)) ->
  (forall e net a, (exists e0, ev = EvPoll e0 net) -> P (ap_db a) -> P (ap_db (poll_tick transfer_text e net a))) ->
  run_turn ev p = Some p' -> P (ap_db (ps_app p)) -> P (ap_db (ps_app p')).
Proof.
  intros Hh Hd Hq Hr Hs Hw Hp. apply (turn_keeps (db_prop P)); unfold db_prop.
  - intros a a' E Ha. by rewrite (static_db _ _ E).
  - intros e net env vt rq ->. apply Hh; eauto.
  - intros ts now iface sent frame a' H _. by apply (v4_after_keeps _ _ _ _ _ _ _ _ Hd H).
  - intros ts now duid src sent frame a' H _. by apply (v6_after_keeps _ _ _ _ _ _ _ _ _ Hd H).
  - apply Hq.
  - intros e a Ha. unfold refresh_turn. destruct (0 <? _); [|done]. by apply (keeps_fst (db_prop P)).
  - intros ts a Ha. apply (keeps_fst (db_prop P)); [apply keeps_run, Hs|done].
  - intros now a Ha. apply (keeps_fst (db_prop P)); [apply keeps_run, Hw|done].
  - apply Hp.
Qed.

Lemma dhcp_preserves_ok : dhcp_preserves db_ok.
Proof. split; [intros m []|..]; intros; db_statement. Qed.

Lemma turn_ok ev p p' : run_turn ev p = Some p' -> db_ok (ap_db (ps_app p)) -> db_ok (ap_db (ps_app p')).
Proof.
  apply (turn_keeps_db db_ok); [|apply dhcp_preserves_ok|..].
  - intros e net env vt rq _ a Ha. by apply serve_integrity.
  - intros a Ha. unfold qlog_turn. destruct (ap_qlog a) as [|x q] eqn:E; [done|]. cbv zeta.
    repeat (apply (keeps_fst (db_prop db_ok)); [apply keeps_run; db_statement|]). exact Ha.
  - intros e. handler_ok.
  - intros ts. db_statement.
  - intros now. db_statement.
  - intros e net a _ Ha. apply (poll_tick_keeps (db_prop db_ok)); [handler_ok..|done].
Qed.

(** ** Starting *)

(** A data directory the program can start from. *)
Definition disk_ok (d : Db) : Prop := db_ok d \/ d = empty_db.

Lemma bootstrap_first ts : db_ok (fst (bootstrap ts empty_db)).
Proof.
  split; [split|split|split|split; apply consecutive_nil|..]; try (by constructor); try (cbn; by repeat constructor);
    try done; cbn; try lia; apply NoDup_singleton.
Qed.

Lemma bootstrap_ok ts d :
  disk_ok d -> exists d' s, bootstrap ts d = (d', Ok s) /\ db_ok d' /\ s = db_settings d' /\ s = db_settings d.
Proof.
  intros [Hd | ->]; [|by exists (fst (bootstrap ts empty_db)), Settings_default; split_and!; [..|apply bootstrap_first|done|done]].
  pose proof (ok_default _ Hd) as Hv. unfold default_view in Hv.
  assert (db_ok (fst (put_settings (db_settings d) d))) as H2.
  { assert (preserves db_ok (put_settings (db_settings d))) as Hp by db_statement. by apply Hp. }
  eexists _, (db_settings d). split; [unfold bootstrap, bind, ensure_default_view; rewrite Hv; reflexivity|]. done.
Qed.

(** What a start leaves, and the process it makes. *)
Lemma start_spec b k k' r :
  start b k = (k', r) -> disk_ok (dk_db k) ->
  disk_ok (dk_db k') /\ dk_cache k' = dk_cache k /\
  forall p, r = Ok p -> exists s, bootstrap (bt_ts b) (dk_db k) = (dk_db k', Ok s) /\ db_ok (dk_db k') /\
    ps_app p = with_cache (fst (cache_load (new_cache s) (dk_cache k) (bt_now b))) (initial_state (dk_db k') s) /\
    ps_seen p = ∅ /\ ps_queried p = ∅ /\ ps_cache_file p = dk_cache k.
Proof.
  intros H Hk. unfold start in H. destruct (Config_load _ _ _) as [loaded|]; [|by injection H as <- <-].
  cbv zeta in H. destruct (bootstrap_ok (bt_ts b) _ Hk) as (d & s & E & Hd & _). rewrite E in H.
  destruct (tls_setup _ _ _) as [fs [tls|err]] eqn:Et; [|injection H as <- <-; cbn; split; [by left|by split]].
  destruct (bind_listeners _ _ _ _) as [li|err]; [|injection H as <- <-; cbn; split; [by left|by split]].
  destruct (drop_privileges _ _) as [cred [u|err]]; injection H as <- <-; cbn; (split; [by left|split; [done|]]); [|done].
  intros p [= <-]. by exists s.
Qed.

(** The database after a start, also one that fails. *)
Lemma start_keeps (P : Db -> Prop) b k :
  P (fst (bootstrap (bt_ts b) (dk_db k))) -> P (dk_db k) -> P (dk_db (fst (start b k))).
Proof.
  intros Hb Hk. destruct (start b k) as [k' r] eqn:E. cbn [fst]. unfold start in E.
  destruct (Config_load _ _ _) as [loaded|]; [|by injection E as <- _]. cbv zeta in E.
  destruct (bootstrap _ _) as [d [s|err]]; [|by injection E as <- _].
  destruct (tls_setup _ _ _) as [fs [tls|err]]; [|by injection E as <- _].
  destruct (bind_listeners _ _ _ _); [|by injection E as <- _].
  destruct (drop_privileges _ _) as [cred [u|err]]; by injection E as <- _.
Qed.

(** ** Invariants of every run *)

Definition sys_db (s : System) : Db := match s with Up p => ap_db (ps_app p) | Down k => dk_db k end.

(** A property of the running process and of the files between runs, by cases. *)
Lemma reachable_invariant (allowed : Process -> Event -> Prop) (I : Process -> Prop) (J : Disk -> Prop) :
  J fresh_disk ->
  (forall b k k' p, J k -> start b k = (k', Ok p) -> I p) ->
  (forall b k k' e, J k -> start b k = (k', Err e) -> J k') ->
  (forall ev p p', allowed p ev -> I p -> run_turn ev p = Some p' -> I p') ->
  (forall p now o, I p -> J (shutdown now o p)) -> (forall p, I p -> J (killed p)) ->
  forall s, run_reachable allowed s -> match s with Up p => I p | Down k => J k end.
Proof.
  intros H0 Hs1 Hs2 Ht Hd Hk s. induction 1 as [|s act s' _ IH Hall E]; [done|].
  destruct act as [b|ev|now o|], s as [p|k]; cbn [step] in E; try (injection E as <-; eauto; done).
  - destruct (start b k) as [k' [p|e]] eqn:Es; injection E as <-; eauto.
  - destruct (run_turn ev p) as [p'|] eqn:Er; [|done]. injection E as <-. eauto.
Qed.

Lemma reachable_ok p : run_reachable (fun _ _ => True) (Up p) -> db_ok (ap_db (ps_app p)).
Proof.
  apply (reachable_invariant _ (fun p => db_ok (ap_db (ps_app p))) (fun k => disk_ok (dk_db k))).
  - by right.
  - intros b k k' q Hk Hs. destruct (start_spec _ _ _ _ Hs Hk) as (_ & _ & Hq).
    destruct (Hq q eq_refl) as (s & _ & Hd & -> & _). exact Hd.
  - intros b k k' e Hk Hs. by destruct (start_spec _ _ _ _ Hs Hk) as (H & _).
  - intros ev q q' _ Hq Ht. by eapply turn_ok.
  - intros q now o Hq. by left.
  - intros q Hq. by left.
Qed.

Lemma reachable_actions (allowed : Process -> Event -> Prop) acts s s' :
  Forall (fun act => forall p ev, act = Takes ev -> allowed p ev) acts -> run_reachable allowed s ->
  run_actions tsig_text option_text VERSION assets hash acts s = Some s' -> run_reachable allowed s'.
Proof.
  intros Ha. revert s. induction Ha as [|act acts Hact _ IH]; intros s Hs; cbn [run_actions]; [by intros [= <-]|].
  destruct (run_step act s) as [s1|] eqn:E; [|done]. apply IH. eapply reach_step; eauto.
Qed.

(** C3: the database is consistent at every moment of every run: whatever requests,
    packets, timers, restarts and kills the program goes through from an empty data
    directory, every PRIMARY KEY, UNIQUE and REFERENCES constraint of the migrations
    holds ([Integrity.db_ok] lists them table by table), the default view is there,
    and there is at most one account. *)
Theorem process_integrity p : run_reachable (fun _ _ => True) (Up p) -> db_ok (ap_db (ps_app p)).
Proof. apply reachable_ok. Qed.

(** ** The live state follows the database *)

(** The events after which the zone store may lag behind the database: a secondary
    zone that is created but not transferred, and a DHCP lease that registers a name. *)
Definition quiet (p : Process) (ev : Event) : Prop :=
  match ev with
  | EvHttp _ _ _ _ rq => endpoint_of rq <> Some E_create_secondary
  | EvDhcp4 _ _ _ _ _ | EvDhcp6 _ _ _ _ _ _ _ _ =>
      forall s, In s (dhcp_scopes (ap_db (ps_app p))) -> sc_dns_register s = false
  | _ => True
  end.

Lemma register_dns_quiet ts scope ip host a : sc_dns_register scope = false -> register_dns ts scope ip host a = a.
Proof. intros H. unfold register_dns. by rewrite H. Qed.

(** The state around the DHCP server's part is live. *)
Definition live_around (a : AppState) (x : DhcpServer.AppState) : Prop :=
  live (with_store (as_db x) (as_store x) a).

Lemma dhcp_statement_live a m x : lease_statement m -> live_around a x -> live_around a (fst (run_db m x)).
Proof.
  intros Hm [Hd Hs]. split; [by apply (dhcp_statement_keeps db_ok); [apply dhcp_preserves_ok|..]|].
  assert (leaves live_part m) as Hl by (destruct Hm; leave).
  unfold run_db. pose proof (leaves_eq live_part m (as_db x) Hl) as E. destruct (m (as_db x)) as [d r]. cbn [fst as_db as_store] in *.
  unfold live_part, dns_part, filter_part in E. injection E as E.
  apply (synced_with_db _ _ _ d (with_store (as_db x) (as_store x) a)); [done|cbn; congruence|..];
    intros _; unfold dns_part, filter_part; cbn; congruence.
Qed.

Lemma live_static : static_prop live.
Proof. intros a a' E [H1 H2]. split; [by eapply db_ok_static|by eapply static_synced]. Qed.

Lemma keeps_live_quiet {X} (m : M X) : preserves db_ok m -> leaves live_part m -> keeps live (run m).
Proof. intros H1 H2. apply keeps_live; [by apply keeps_run|by apply synced_quiet]. Qed.
Ltac quiet_statement := apply keeps_live_quiet; [db_statement|leave].

Lemma turn_live ev p p' : quiet p ev -> run_turn ev p = Some p' -> live (ps_app p) -> live (ps_app p').
Proof.
  intros Hq. apply (turn_keeps live).
  - apply live_static.
  - intros e net env vt rq -> a [Ha1 Ha2]. split; [by apply serve_integrity|by apply serve_synced].
  - intros ts now iface sent frame a' H [k ->] Ha. unfold after_dhcp in H. destruct (v4_turn _ _ _ _ _ _) as [[[s ps] r]|] eqn:E; [|done].
    injection H as <-. apply (v4_turn_keeps (live_around (ps_app p))) in E; [done|..].
    + apply dhcp_statement_live.
    + intros scope ip host x Hin Hx. by rewrite register_dns_quiet by by apply Hq.
    + unfold live_around. destruct (ps_app p). exact Ha.
  - intros ts now duid src sent frame a' H (k & f & e & ->) Ha. unfold after_dhcp in H. destruct (v6_turn _ _ _ _ _ _ _) as [[[s ps] r]|] eqn:E; [|done].
    injection H as <-. apply (v6_turn_keeps (live_around (ps_app p))) in E; [done|..].
    + apply dhcp_statement_live.
    + intros scope ip host x Hin Hx. by rewrite register_dns_quiet by by apply Hq.
    + unfold live_around. destruct (ps_app p). exact Ha.
  - intros a Ha. unfold qlog_turn. destruct (ap_qlog a) as [|x q] eqn:E; [done|]. cbv zeta.
    repeat (apply (keeps_fst live); [quiet_statement|]). by apply (live_static a).
  - intros e a Ha. unfold refresh_turn. destruct (0 <? _); [|done].
    apply (keeps_fst live); [|done]. apply keeps_live; [handler_ok|apply synced_refresh_all].
  - intros ts a Ha. apply (keeps_fst live); [quiet_statement|done].
  - intros now a Ha. apply (keeps_fst live); [quiet_statement|done].
  - intros e net a _ Ha. apply (poll_tick_keeps live); [quiet_statement|..|done].
    + intros. apply keeps_live; [handler_ok|apply synced_transfer].
    + intros. quiet_statement.
Qed.

Lemma initial_synced d s c : s = db_settings d -> synced (with_cache c (initial_state d s)).
Proof. intros ->. by split. Qed.

Lemma start_live b k k' p : disk_ok (dk_db k) -> start b k = (k', Ok p) -> live (ps_app p) /\ ap_db (ps_app p) = dk_db k'.
Proof.
  intros Hk H. destruct (start_spec _ _ _ _ H Hk) as (_ & _ & Hp).
  destruct (Hp p eq_refl) as (s & E & Hd & -> & _). split; [|done]. split; [done|].
  apply initial_synced. destruct (bootstrap_ok (bt_ts b) _ Hk) as (d & s' & E' & _ & H' & _). by rewrite E in E'; injection E' as <- <-.
Qed.

(** C2: what is served is what is stored, throughout a run whose requests, packets and
    timers are handled one after the other: between two of them the zone store, the
    filter, the conditional forwarders, the upstream and the settings in memory are
    the ones the database describes, also after restarts and kills, as long as no
    secondary zone is created and no DHCP scope registers names.  Two changes that
    overlap can leave a stale store ([Concurrent.reload_race]), until some other
    change or a restart reloads it. *)
Theorem process_synced p : run_reachable quiet (Up p) -> synced (ps_app p).
Proof.
  intros Hp. refine (proj2 (reachable_invariant quiet (fun p => live (ps_app p)) (fun k => disk_ok (dk_db k)) _ _ _ _ _ _ _ Hp)).
  - by right.
  - intros b k k' q Hk Hs. by eapply start_live.
  - intros b k k' e Hk Hs. by destruct (start_spec _ _ _ _ Hs Hk) as (H & _).
  - intros ev q q' Hq Hl Ht. by eapply turn_live.
  - intros q now o [Hq _]. by left.
  - intros q [Hq _]. by left.
Qed.

(** C5: a restart repairs the live state: however a run ended up, whatever it served, a
    process that is stopped or killed and started again serves exactly what its
    database holds, with the tables and the settings it had; only the defaults of a
    first run are written. *)
Theorem restart_heals p b k k' q :
  run_reachable (fun _ _ => True) (Up p) -> k = killed p \/ (exists now o, k = shutdown now o p) ->
  start b k = (k', Ok q) ->
  synced (ps_app q) /\ ap_db (ps_app q) = set_settings (Some (db_settings (ap_db (ps_app p)))) (ap_db (ps_app p)).
Proof.
  intros Hp%reachable_ok Hk H. assert (dk_db k = ap_db (ps_app p)) as E by by destruct Hk as [->|(? & ? & ->)].
  assert (disk_ok (dk_db k)) as Hd by (left; by rewrite E).
  destruct (start_live _ _ _ _ Hd H) as [[_ Hs] Eq]. split; [done|]. rewrite Eq.
  destruct (start_spec _ _ _ _ H Hd) as (_ & _ & Hq). destruct (Hq q eq_refl) as (s & Eb & _).
  unfold bootstrap, bind, ensure_default_view in Eb. rewrite E in Eb. pose proof (ok_default _ Hp) as Hv. unfold default_view in Hv.
  rewrite Hv in Eb. by injection Eb as <- _.
Qed.

End ProgramLemmas.
