(* ===== verification/Bounds.v ===== *)
(** * Bounded resources

    Whatever is asked of it, the program keeps its memory and its logs within the
    capacities the code names: the answer cache, the statistics, the channels, the
    workers' sets, and the audit and query logs of the database. *)

From S2P Require Import DhcpServer DhcpDns.
From S2P Require Import Prelude Strs Net Geo External Models Serde DhcpOptions Db DbDns DbFilter DbDhcp DbAdmin Filter Upstream.
From S2P Require Import Cache Stats Mdns Dnssec Store State Config Web Auth DynDns Transfer ApiZones ApiFilter.
From S2P Require Import ApiDhcp Reports Sync Resolve Handler Router Integrity Serve Startup Program.

#[local] Existing Instance DhcpDns.zone_store.

(** ** The logs of the database *)

(** The rows carry consecutive ids, the latest [AUDIT_CAP] and [QLOG_MAX_ROWS] of them. *)
Record logs_ok (d : Db) : Prop := {
  lo_audit : consecutive au_id (audit_log d);
  lo_audit_len : Z.of_nat (length (audit_log d)) <= AUDIT_CAP;
  lo_qlog : consecutive ql_id (query_log d);
  lo_qlog_len : Z.of_nat (length (query_log d)) <= QLOG_MAX_ROWS }.

Lemma frame_logs {Y} (m : M Y) : leaves (fun d => (audit_log d, query_log d)) m -> preserves logs_ok m.
Proof.
  intros Hl d Hd. pose proof (leaves_eq _ m d Hl) as E. injection E as E1 E2. destruct Hd. split; rewrite ?E1, ?E2; done.
Qed.

(** Trimming keeps the last rows. *)
Lemma trimmed {A} (id : A -> Z) t cap :
  0 <= cap -> consecutive id t ->
  let t' := delete_where (fun r => id r <=? max_id id t - cap) t in
  consecutive id t' /\ Z.of_nat (length t') <= cap.
Proof.
  intros Hc Ht. cbv zeta. rewrite consecutive_trim by done. split; [by apply consecutive_drop|]. rewrite length_drop. lia.
Qed.

Lemma logs_audit ts u x st i : preserves logs_ok (insert_audit ts u x st i).
Proof.
  intros d [H1 H2 H3 H4]. unfold insert_audit, modify. cbn [fst].
  edestruct (trimmed au_id) as [Ht1 Ht2]; cycle 2; [by split; [exact Ht1|exact Ht2|..]|unfold AUDIT_CAP; lia|].
  by apply consecutive_snoc.
Qed.

(** A batch: the rows stay consecutive, and the pruning that follows bounds them. *)
Definition logs_loose (d : Db) : Prop :=
  consecutive au_id (audit_log d) /\ Z.of_nat (length (audit_log d)) <= AUDIT_CAP /\ consecutive ql_id (query_log d).

Lemma loose_insert_query q : preserves logs_loose (insert_query q).
Proof. intros d (H1 & H2 & H3). split_and!; [done..|]. by apply consecutive_snoc. Qed.
Lemma loose_insert_queries qs : preserves logs_loose (insert_queries qs).
Proof. apply preserves_transaction, preserves_for_each. intros. apply loose_insert_query. Qed.
Lemma logs_prune n d : 0 <= n <= QLOG_MAX_ROWS -> logs_loose d -> logs_ok (fst (prune_query_log n d)).
Proof.
  intros Hn (H1 & H2 & H3). unfold prune_query_log, modify. cbn [fst].
  edestruct (trimmed ql_id) as [Ht1 Ht2]; cycle 2; [split; [done|done|exact Ht1|cbn in *; lia]|lia|done].
Qed.
(** The management page clears the log by pruning it to no rows. *)
Lemma logs_clear : preserves logs_ok (prune_query_log 0).
Proof. intros d []. apply logs_prune; [unfold QLOG_MAX_ROWS; lia|done]. Qed.
#[export] Hint Resolve logs_audit logs_clear : preserve.

Ltac logs_statement :=
  first [ solve [auto 2 with preserve] | apply frame_logs; solve [leave] ].

Ltac logs_handler := handler_steps logs_statement.

(** ** The memory of the resolver *)

Section Memory.
Context `{NETS : IpNets} `{HN : HickoryNames} `{TEXT : !HickoryText} `{SIGN : !Signers} `{RES : !HickoryResolvers}
  `{UNI : Unicode}.

Record memory_ok (a : AppState) : Prop := {
  mo_cache : cache_ok (ap_cache a);
  mo_stats : stats_ok (ap_stats a);
  mo_qlog : Z.of_nat (length (ap_qlog a)) <= QLOG_CHANNEL;
  mo_blocked : Z.of_nat (length (ap_blocked a)) <= BLOCKED_CHANNEL }.

Definition memory_part (a : AppState) := (ap_cache a, ap_stats a, ap_qlog a, ap_blocked a).
Lemma memory_same a a' : memory_part a' = memory_part a -> memory_ok a -> memory_ok a'.
Proof. intros [= E1 E2 E3 E4] []. by split; rewrite ?E1, ?E2, ?E3, ?E4. Qed.

Lemma memory_stats op a : memory_ok a -> memory_ok (with_stats (run_stats op) a).
Proof. intros []. split; [done|by apply stats_ok_step|done..]. Qed.
Lemma memory_cache c a : cache_ok c -> memory_ok a -> memory_ok (with_cache c a).
Proof. intros Hc []. by split. Qed.

(** What the environment says of the channels is what the queues leave. *)
Definition rooms (e : Env) (a : AppState) : Prop :=
  ev_qlog_room e = (Z.of_nat (length (ap_qlog a)) <? QLOG_CHANNEL) /\
  ev_blocked_room e = (Z.of_nat (length (ap_blocked a)) <? BLOCKED_CHANNEL).

Lemma try_queue_bound {X} cap room (x : X) q :
  room = (Z.of_nat (length q) <? cap) -> Z.of_nat (length q) <= cap -> Z.of_nat (length (try_queue room x q)) <= cap.
Proof.
  intros -> Hq. unfold try_queue. destruct (Z.ltb_spec (Z.of_nat (length q)) cap); [|done]. rewrite length_app. cbn. lia.
Qed.

Lemma memory_record_stat e a client view qname qtype stat out :
  rooms e a -> memory_ok a -> memory_ok (record_stat e a client view qname qtype stat out).
Proof.
  intros [Hq Hb] Ha. unfold record_stat. cbv zeta.
  set (a1 := if bool_decide (stat = QBlocked) then _ else a).
  assert (memory_ok a1 /\ ap_qlog a1 = ap_qlog a) as [H1 E1].
  { subst a1. destruct (bool_decide _); [|done]. split; [|done]. apply (memory_stats (StBlockedClient client)) in Ha as [].
    split; try done. by apply try_queue_bound. }
  rewrite <- E1 in Hq. clearbody a1. destruct (stats_record _ _ _ _ _ _ _ _ _ _) as [s entry] eqn:Es.
  assert (memory_ok (with_stats (fun _ => s) a1)) as H2.
  { pose proof (memory_stats (StRecord (ev_ts e) (ev_sec e) (st_query_log (ap_settings a1)) client view (plain_text qname)
      (RecordType_to_string qtype) stat (to_ascii_uppercase (ResponseCode_debug (ro_rcode out)))) a1 H1) as H.
    destruct H as [? Hs ? ?]. cbn in Hs. rewrite Es in Hs. by split. }
  destruct entry as [q|]; [|done]. destruct H2. split; try done. by apply try_queue_bound.
Qed.

Lemma memory_latency e a : memory_ok a -> memory_ok (record_latency_stat e a).
Proof. apply (memory_stats (StLatency (ev_latency e))). Qed.

Lemma memory_validation r a : memory_ok a -> memory_ok (note_validation r a).
Proof. intros Ha. unfold note_validation. destruct (_ && _); [|done]. by apply (memory_stats StDnssecFailure). Qed.

(** The queues stay, and the rest stays within bounds. *)
Definition advances (a a' : AppState) : Prop :=
  memory_ok a' /\ ap_qlog a' = ap_qlog a /\ ap_blocked a' = ap_blocked a.

Lemma queues_validation r a : ap_qlog (note_validation r a) = ap_qlog a /\ ap_blocked (note_validation r a) = ap_blocked a.
Proof. unfold note_validation. by destruct (_ && _). Qed.

Lemma advances_upstream e a key qname qtype ra a' out stat :
  memory_ok a -> resolve_upstream e a key qname qtype ra = Some (a', out, stat) -> advances a a'.
Proof.
  intros Ha. unfold resolve_upstream. destruct (match_for _ _) as [up|].
  { intros [= <- _ _]. split; [by apply memory_validation|apply queues_validation]. }
  destruct (ap_upstream a) as [up|]; [|by intros [= <- _ _]].
  destruct (cache_get _ _ _ _) as [c hit] eqn:Eg. pose proof (cache_ok_get _ qname qtype (ev_now e) (mo_cache _ Ha)) as Hc.
  rewrite Eg in Hc. cbn [fst] in Hc. assert (memory_ok (with_cache c a)) as H1 by (by apply memory_cache).
  destruct hit as [h|]; [by intros [= <- _ _]|]. set (r := upstream_resolve _ _ _ _).
  pose proof (memory_validation r _ H1) as H2. destruct (queues_validation r (with_cache c a)) as [E1 E2].
  destruct (cache_put _ _ _ _ _ _ _) as [c'|] eqn:Ep; [|done]. intros [= <- _ _].
  split; [|done]. apply memory_cache; [|done]. eapply cache_ok_put; [|exact Ep]. apply H2.
Qed.

Lemma advances_external e a qname qtype ra a' out stat :
  memory_ok a -> resolve_external e a qname qtype ra = Some (a', out, stat) -> advances a a'.
Proof.
  intros Ha. unfold resolve_external. destruct (decide_name _ _).
  - destruct (is_suspicious _ _); [by intros [= <- _ _]|by apply advances_upstream].
  - by apply advances_upstream.
  - intros [= <- _ _]. destruct (blocklist_hit _ _) as [id|]; [|done].
    split; [by apply (memory_stats (StBlocklistHit id))|done].
  - destruct (rewrite_answer _ _ _ _ _ _). by intros [= <- _ _].
Qed.

Lemma memory_resolve e a qname qtype client dnssec_ok a' out :
  rooms e a -> memory_ok a -> resolve_query e a qname qtype client dnssec_ok = Some (a', out) -> memory_ok a'.
Proof.
  intros Hr Ha. unfold resolve_query.
  destruct (asn_blocked e a client); [intros [= <- _]; by apply memory_latency, memory_record_stat|].
  destruct (mdns_answer e a qname qtype); [intros [= <- _]; by apply memory_latency, memory_record_stat|].
  destruct (apex_records _ _ _ _ _); [intros [= <- _]; by apply memory_record_stat|]. unfold resolve_main. cbv zeta.
  destruct (match lr_outcome _ with NotAuthoritative => _ | _ => _ end) as [[[a1 out1] stat]|] eqn:E; [|done].
  assert (advances a a1) as (H1 & E1 & E2).
  { destruct (lr_outcome _); [..|by eapply advances_external]; (destruct (local_output _ _); by injection E as <- _ _). }
  match goal with |- context [takes_rotation (ro_answers ?o) _] => generalize o end. intros o.
  destruct (if takes_rotation _ _ then next_rotation a1 else (0, a1)) as [offset a2] eqn:Er. intros [= <- _].
  assert (memory_part a2 = memory_part a1) as E3 by (destruct (takes_rotation _ _); by injection Er as _ <-).
  apply memory_latency, memory_record_stat.
  - unfold rooms. cbn [ap_qlog ap_blocked with_stats]. unfold memory_part in E3. injection E3 as _ _ E4 E5. by rewrite E4, E5, E1, E2.
  - apply (memory_stats (StResolved (omap answer_ip _))). by eapply memory_same.
Qed.

(** Handlers touch the memory in two places: the settings and the cleared logs. *)
Lemma memory_run {X} (m : M X) : keeps memory_ok (run m).
Proof. intros a Ha. unfold run. destruct (m (ap_db a)) as [d r]. by apply (memory_same a). Qed.

Lemma memory_apply_settings s a : memory_ok a -> memory_ok (apply_settings s a).
Proof. intros Ha. unfold apply_settings. apply memory_cache; [apply cache_ok_new|by apply (memory_same a)]. Qed.

Lemma memory_clear a : memory_ok a -> memory_ok (with_cache (cache_clear (ap_cache a)) (with_stats clear_log a)).
Proof.
  intros Ha. apply memory_cache; [apply cache_ok_clear, Ha|by apply (memory_stats StClear)].
Qed.
End Memory.

Ltac memory_update :=
  let a := fresh "a" in let Ha := fresh "Ha" in
  intros a Ha; first [ by apply (memory_same a) | by apply memory_apply_settings | by apply memory_clear ].
(** Follow a handler down to its statements and its updates of the state. *)
Ltac memory_steps :=
  walk_handler ltac:(apply memory_run) memory_update ltac:(fun a Ha => first [exact Ha | by apply (memory_same a)]).

(** ** Requests *)

Section Requests.
Context `{NETS : IpNets} `{HN : HickoryNames} `{TEXT : !HickoryText} `{SIGN : !Signers} `{RES : !HickoryResolvers}
  `{UNI : Unicode} `{DT : DateTimes} `{CR : Credentials} `{TS : !TSigners} `{TOOLS : !DnssecTools} `{ZF : !ZoneFiles}
  `{ERR : !ErrorTexts} `{DQ : !DnsQueries} `{WIRE : !DnsWire} `{DEC : Decoders} `{MM : MaxMind}.
Context (e : WebEnv) (net : Primaries) (env : Env) (tsig_text : TsigError -> string)
  (option_text : DhcpOption -> OptionError -> string) (VERSION : string) (vt : Vantage)
  (assets : string -> option Asset).

Abbreviation run_endpoint := (handle e net env tsig_text option_text VERSION vt).
Abbreviation run_request := (serve e net env tsig_text option_text VERSION vt assets).

Definition is_doh (ep : Endpoint) : bool := match ep with E_doh_get | E_doh_post => true | _ => false end.

Lemma endpoint_memory ep rq seg : is_doh ep = false -> hkeeps memory_ok (run_endpoint ep rq seg).
Proof.
  intros Hd. destruct ep; try done; cbn [handle]; endpoint;
    try first [ solve [memory_steps] | solve [optional_endpoint memory_steps] | solve [apply hkeeps_nic; memory_steps] ].
  unfold api_create_secondary. do 3 (apply keeps_wbind; [memory_steps|intros ?]).
  apply keeps_wbind; [apply keeps_first_transfer; memory_steps|]. memory_steps.
Qed.

Lemma endpoint_logs ep rq seg : hkeeps (db_prop logs_ok) (run_endpoint ep rq seg).
Proof.
  destruct ep; cbn [handle]; endpoint;
    try first [ solve [logs_handler] | solve [optional_endpoint logs_handler] | solve [apply hkeeps_nic; logs_handler] ].
  - unfold api_create_secondary. do 3 (apply keeps_wbind; [logs_handler|intros ?]).
    apply keeps_wbind; [apply keeps_first_transfer; logs_handler|]. logs_handler.
  - apply hkeeps_of_doh; [intros ? ? ?; apply doh_get_static|]. intros a a' E Ha. unfold db_prop. by rewrite (static_db _ _ E).
  - apply hkeeps_of_doh; [intros ? ? ?; apply static_doh|]. intros a a' E Ha. unfold db_prop. by rewrite (static_db _ _ E).
Qed.

Lemma request_logs rq : hkeeps (db_prop logs_ok) (run_request rq).
Proof.
  apply hkeeps_serve; [logs_handler|intros; logs_handler|].
  destruct (endpoint_of rq) as [ep|] eqn:E.
  - destruct (route_some e net env tsig_text option_text VERSION vt assets rq ep E) as [seg ->]. apply endpoint_logs.
  - destruct (route_none e net env tsig_text option_text VERSION vt assets rq E) as [r ->]. apply hkeeps_pure.
Qed.

Lemma memory_doh client bytes a a' r :
  rooms env a -> memory_ok a -> doh_handle env client bytes a = Some (a', r) -> memory_ok a'.
Proof.
  intros Hr Ha. unfold doh_handle. destruct (message_from_vec bytes) as [m|]; [|by intros [= <- _]].
  destruct (wm_queries m) as [|q qs]; [by intros [= <- _]|].
  destruct (resolve_query _ _ _ _ _ _) as [[a1 out]|] eqn:E; [|done]. intros [= <- _]. by eapply memory_resolve.
Qed.

Lemma memory_doh_get client dns a a' r :
  rooms env a -> memory_ok a -> doh_get env client dns a = Some (a', r) -> memory_ok a'.
Proof.
  intros Hr Ha. unfold doh_get. destruct dns as [b64|]; [|by intros [= <- _]].
  destruct (base64_url_decode _); [by apply memory_doh|by intros [= <- _]].
Qed.

Lemma request_memory rq a : rooms env a -> memory_ok a -> memory_ok (fst (run_request rq a)).
Proof.
  intros Hr Ha.
  destruct (serve_cases e net env tsig_text option_text VERSION vt assets rq a) as [(r & -> & _)| ->]; [done|].
  assert (memory_ok (fst (route e net env tsig_text option_text VERSION vt assets rq a))) as H1.
  { destruct (endpoint_of rq) as [ep|] eqn:E;
      [destruct (route_some e net env tsig_text option_text VERSION vt assets rq ep E) as [seg ->]
      |by destruct (route_none e net env tsig_text option_text VERSION vt assets rq E) as [r ->]].
    destruct (is_doh ep) eqn:Ed; [|by apply endpoint_memory]. unfold is_doh in Ed.
    destruct ep; try done; cbn [handle]; unfold with_decoded.
    - destruct (doh_params rq) as [x|]; [|done]. unfold of_doh. destruct (doh_get _ _ _ a) as [[a' r]|] eqn:Eg; [|done].
      by eapply memory_doh_get.
    - unfold with_body. destruct (over_limit rq); [done|]. cbn [with_decoded]. unfold of_doh.
      destruct (doh_post env (hr_peer rq) (hr_body rq) a) as [[a' r]|] eqn:Eg; [|done]. by eapply memory_doh. }
  unfold audit_mw. rewrite security_headers_eq. revert H1. generalize (route e net env tsig_text option_text VERSION vt assets rq a).
  intros [a1 [r|]] H1; [|done]. cbn [fst snd fmap option_fmap option_map] in *. destruct (audited _ _); [|done].
  unfold write_audit.
  pose proof (ltac:(memory_steps) : keeps memory_ok (resolve_session e (hr_headers rq))) as Hs. specialize (Hs a1 H1).
  destruct (resolve_session _ _ a1) as [a2 who]. apply keeps_attempt; [apply memory_run|done].
Qed.
End Requests.

(** ** The process *)

Section Process.
Context `{NETS : IpNets} `{HN : HickoryNames} `{TEXT : !HickoryText} `{SIGN : !Signers} `{RES : !HickoryResolvers}
  `{UNI : Unicode} `{TIME : Rfc3339} `{DT : DateTimes} `{CR : Credentials} `{TS : !TSigners} `{TOOLS : !DnssecTools}
  `{ZF : !ZoneFiles} `{ERR : !ErrorTexts} `{DQ : !DnsQueries} `{WIRE : !DnsWire} `{DEC : Decoders} `{MM : MaxMind} `{TLS : TlsTools}
  `{UNIX : Unix} `{JT : JsonText} `{HS : !HickorySerde}.
Context (tsig_text : TsigError -> string) (option_text : DhcpOption -> OptionError -> string) (VERSION : string)
  (assets : string -> option Asset) (hash : string -> Z).

Abbreviation run_turn := (turn tsig_text option_text VERSION assets hash).
Abbreviation run_reachable := (reachable tsig_text option_text VERSION assets hash).

Record bounded (p : Process) : Prop := {
  bo_memory : memory_ok (ps_app p);
  bo_logs : logs_ok (ap_db (ps_app p));
  bo_seen : Z.of_nat (size (ps_seen p)) <= SEEN_CAP;
  bo_queried : Z.of_nat (size (ps_queried p)) <= QUERIED_CAP }.

Lemma rooms_channels p env : rooms (with_channels p env) (ps_app p).
Proof. by split. Qed.

(** *** The logs *)

Lemma logs_dhcp : dhcp_preserves logs_ok.
Proof. split; [intros m []|..]; intros; logs_statement. Qed.

Lemma logs_qlog_turn a : logs_ok (ap_db a) -> logs_ok (ap_db (qlog_turn a)).
Proof.
  intros Ha. unfold qlog_turn. destruct (ap_qlog a) as [|x q] eqn:E; [done|]. cbv zeta. rewrite <- E. clear E x q.
  set (a1 := with_qlog _ a). assert (logs_loose (ap_db a1)) as H1 by by destruct Ha.
  assert (logs_loose (ap_db (fst (run (insert_queries (take QLOG_BATCH (ap_qlog a))) a1)))) as H2.
  { apply (keeps_fst (db_prop logs_loose)); [|done]. apply keeps_run, loose_insert_queries. }
  unfold run at 1. pose proof (logs_prune QLOG_MAX_ROWS _ ltac:(unfold QLOG_MAX_ROWS; lia) H2) as H3.
  destruct (prune_query_log _ _) as [d r]. exact H3.
Qed.

Lemma turn_logs ev p p' : run_turn ev p = Some p' -> logs_ok (ap_db (ps_app p)) -> logs_ok (ap_db (ps_app p')).
Proof.
  apply (turn_keeps_db _ _ _ _ _ logs_ok); [|apply logs_dhcp|apply logs_qlog_turn|..].
  - intros. apply request_logs.
  - intros e. logs_handler.
  - intros ts. logs_statement.
  - intros now. logs_statement.
  - intros e net a _ Ha. apply (poll_tick_keeps (db_prop logs_ok)); [logs_handler..|done].
Qed.

(** *** The memory *)

Lemma memory_request env sends rq a a' out :
  rooms env a -> memory_ok a -> handle_request env sends rq a = Some (a', out) -> memory_ok a'.
Proof.
  intros Hr Ha. unfold handle_request. destruct (rq_info rq) as [i|]; [|by intros [= <- _]].
  destruct (negb _); [by intros [= <- _]|]. destruct (is_transfer _); [by intros [= <- _]|].
  destruct (resolve_query _ _ _ _ _ _) as [[a1 o]|] eqn:E; [|done]. intros [= <- _]. by eapply memory_resolve.
Qed.

Lemma memory_after_dhcp a r a' : after_dhcp a r = Some a' -> memory_ok a -> memory_ok a'.
Proof.
  intros (s & ps & o & _ & ->)%after_dhcp_spec. by apply memory_same.
Qed.

Lemma memory_blocked_dests rs a :
  memory_ok a ->
  memory_ok (with_stats (fun s => fold_left (fun s rec => match rec_data rec with RD_A x => record_blocked_dest (V4 x) s
                                                         | _ => s end) rs s) a).
Proof.
  intros [H1 H2 H3 H4]. split; try done. cbn. clear -H2. revert H2. generalize (ap_stats a).
  induction rs as [|r rs IH]; intros s Hs; [done|]. cbn [fold_left]. apply IH.
  destruct (rec_data r); try done. by apply (stats_ok_step (StBlockedDest _)).
Qed.

Lemma bounded_app a p : memory_ok a -> logs_ok (ap_db a) -> bounded p -> bounded (with_app a p).
Proof. intros H1 H2 []. by split. Qed.

Lemma bounded_blocked net p : bounded p -> bounded (blocked_turn net p).
Proof.
  intros Hp. unfold blocked_turn. destruct (ap_blocked (ps_app p)) as [|d rest] eqn:E; [done|]. cbv zeta.
  set (p1 := with_app _ p). assert (bounded p1) as H1.
  { apply bounded_app; [|apply Hp|done]. destruct (bo_memory _ Hp) as [? ? ? Hb]. split; try done. cbn. rewrite E in Hb. cbn in Hb. lia. }
  change (ps_seen p1) with (ps_seen p). set (seen := if _ <=? _ then ∅ else ps_seen p).
  assert (Z.of_nat (size seen) < SEEN_CAP) as Hs.
  { subst seen. destruct (Z.leb_spec SEEN_CAP (Z.of_nat (size (ps_seen p)))); [by rewrite size_empty|done]. }
  destruct (negb _); [done|]. case_bool_decide as Hin; [destruct H1; split; try done; cbn; lia|].
  assert (bounded (with_seen ({[d]} ∪ seen) p1)) as H2.
  { destruct H1. split; try done. cbn. rewrite size_union by set_solver. rewrite size_singleton. lia. }
  cbn [ps_app with_seen]. destruct (ap_upstream _) as [up|]; [|done]. destruct (Name_from_ascii _) as [name|]; [|done].
  apply bounded_app; [|apply H2|done]. apply memory_blocked_dests, H2.
Qed.

Lemma bounded_attempts n p : bounded p -> bounded (with_attempts n p).
Proof. intros []. by split. Qed.
Lemma bounded_origin get p : bounded p -> bounded (origin_turn get p).
Proof.
  intros Hp. unfold origin_turn. destruct (_ <=? _); [done|]. case_match; [|by apply bounded_attempts].
  apply bounded_attempts, bounded_app; [|apply Hp|done]. destruct (bo_memory _ Hp) as [? Hs ? ?]. split; try done.
  by apply (stats_ok_step (StOrigin _)).
Qed.

Lemma bounded_mdns now msg p : bounded p -> bounded (mdns_turn now msg p).
Proof.
  intros Hp. unfold mdns_turn. destruct (sv_running _); [|done]. cbv zeta.
  destruct (learn_and_plan _ _ _ _ _ _) as [[reg queried] out] eqn:E.
  assert (Z.of_nat (size queried) <= QUERIED_CAP) as Hq.
  { unfold learn_and_plan in E. destruct msg as [m|]; [|injection E as _ <- _; apply Hp].
    destruct (follow_up_questions m (ps_queried p)) as [q o] eqn:Ef. injection E as _ <- _.
    unfold follow_up_questions in Ef. destruct (want_fold (wanted m) (ps_queried p) [] (bo_queried _ Hp)) as (new & _ & Hb & _).
    by rewrite Ef in Hb. }
  destruct Hp as [H1 H2 H3 H4]. split; try done. by apply (memory_same (ps_app p)).
Qed.

Lemma bounded_supervise b p : bounded p -> bounded (supervise_turn b p).
Proof.
  intros [H1 H2 H3 H4]. unfold supervise_turn. cbv zeta. destruct (supervise_tick _ _ _ _) as [s reg]. split; try done.
  - by apply (memory_same (ps_app p)).
  - cbn. destruct (_ && _); [by rewrite size_empty|done].
Qed.

Lemma bounded_cycle p : bounded p -> bounded (mdns_cycle p).
Proof. intros []. unfold mdns_cycle. by destruct (sv_running _). Qed.

Lemma memory_qlog_turn a : memory_ok a -> memory_ok (qlog_turn a).
Proof.
  intros Ha. unfold qlog_turn. destruct (ap_qlog a) as [|x q] eqn:E; [done|]. cbv zeta. rewrite <- E.
  repeat (apply (keeps_fst memory_ok); [apply memory_run|]). destruct Ha as [? ? Hq ?]. split; try done.
  cbn [ap_qlog with_qlog]. rewrite length_drop. lia.
Qed.

Lemma turn_bounded ev p p' : run_turn ev p = Some p' -> bounded p -> bounded p'.
Proof.
  intros H Hp. pose proof (turn_logs ev p p' H (bo_logs _ Hp)) as Hl.
  assert (forall a, memory_ok a -> with_app a p = p' -> bounded p') as Happ.
  { intros a Ha <-. by apply bounded_app. }
  pose proof (bo_memory _ Hp) as Hm. destruct ev; cbn [turn] in H; unfold on_app in H; clear Hl.
  - destruct (li_web _); injection H as <-; [|done]. eapply Happ; [|done]. apply request_memory; [apply rooms_channels|done].
  - destruct (serves_dns _); [|by injection H as <-]. destruct (handle_request _ _ _ _) as [[a o]|] eqn:E; [|done].
    injection H as <-. eapply Happ; [|done]. eapply memory_request; [apply rooms_channels|done|exact E].
  - destruct (serves_doh _); [|by injection H as <-]. destruct (doh_get _ _ _ _) as [[a o]|] eqn:E; [|done].
    injection H as <-. eapply Happ; [|done]. eapply memory_doh_get; [apply rooms_channels|done|exact E].
  - destruct (serves_doh _); [|by injection H as <-]. destruct (doh_post _ _ _ _) as [[a o]|] eqn:E; [|done].
    injection H as <-. eapply Happ; [|done]. eapply memory_doh; [apply rooms_channels|done|exact E].
  - destruct (dk_v4 _ !! _) as [[x iface]|]; [|by injection H as <-]. destruct (after_dhcp _ _) as [a|] eqn:E; [|done].
    injection H as <-. eapply Happ; [|done]. by eapply memory_after_dhcp.
  - destruct (dk_v6 _ !! _); [|by injection H as <-]. destruct (after_dhcp _ _) as [a|] eqn:E; [|done].
    injection H as <-. eapply Happ; [|done]. by eapply memory_after_dhcp.
  - injection H as <-. by apply bounded_mdns.
  - injection H as <-. by apply bounded_cycle.
  - injection H as <-. by apply bounded_supervise.
  - injection H as <-. by apply bounded_blocked.
  - injection H as <-. by apply bounded_origin.
  - injection H as <-. eapply Happ; [|done]. by apply memory_qlog_turn.
  - injection H as <-. eapply Happ; [|done]. unfold refresh_turn. destruct (0 <? _); [|done].
    apply (keeps_fst memory_ok); [memory_steps|done].
  - injection H as <-. eapply Happ; [|done]. apply (keeps_fst memory_ok); [apply memory_run|done].
  - injection H as <-. eapply Happ; [|done]. apply (poll_tick_keeps memory_ok); [memory_steps..|done].
  - destruct (no_dhcp _); injection H as <-; [done|]. eapply Happ; [|done]. apply (keeps_fst memory_ok); [apply memory_run|done].
Qed.

(** *** Runs *)

Lemma logs_bootstrap ts : preserves logs_ok (bootstrap ts).
Proof. unfold bootstrap. preserve; logs_statement. Qed.

(** Between runs: a data directory to start from, and its logs. *)
Definition disk_bounded (k : Disk) : Prop := disk_ok (dk_db k) /\ logs_ok (dk_db k).

Lemma start_logs b k : logs_ok (dk_db k) -> logs_ok (dk_db (fst (start b k))).
Proof. intros Hl. by apply start_keeps; [apply logs_bootstrap|]. Qed.

Lemma initial_memory c d s : cache_ok c -> memory_ok (with_cache c (initial_state d s)).
Proof. intros Hc. split; [done|apply stats_ok_new|vm_compute; discriminate..]. Qed.

Lemma reachable_bounded p : run_reachable (fun _ _ => True) (Up p) -> bounded p.
Proof.
  intros Hp. apply (reachable_invariant _ _ _ _ _ _ (fun p => bounded p /\ db_ok (ap_db (ps_app p))) disk_bounded) in Hp.
  - by apply Hp.
  - split; [by right|]. split; cbn; try lia; try apply consecutive_nil; vm_compute; discriminate.
  - intros b k k' q (Hd & Hl) Hs. pose proof (start_logs b k Hl) as Hl'. rewrite Hs in Hl'.
    destruct (start_spec _ _ _ _ Hs Hd) as (_ & _ & Hq). destruct (Hq q eq_refl) as (s & _ & Hd' & E & E1 & E2 & E3).
    split; [|by rewrite E]. split; rewrite ?E1, ?E2, ?E3, ?size_empty; try done; rewrite E; [|exact Hl'].
    apply initial_memory, cache_ok_load, cache_ok_new.
  - intros b k k' err (Hd & Hl) Hs. pose proof (start_logs b k Hl) as Hl'. rewrite Hs in Hl'.
    destruct (start_spec _ _ _ _ Hs Hd) as (Hd' & Ec & _). by split.
  - intros ev q q' _ [Hb Hd] Ht. split; [by eapply turn_bounded|by eapply turn_ok].
  - intros q now o [Hb Hd]. split; [by left|apply Hb].
  - intros q [Hb Hd]. split; [by left|apply Hb].
Qed.

(** C7: in every state of every run, whatever the clients send, these structures stay
    within their caps: the answer cache holds at most its capacity of entries; the
    statistics hold at most 200 recent queries, 4000 latencies, and 5000 entries in
    each of the two rankings of names and the three maps of addresses; the queues to
    the query-log writer and to the worker that locates blocked names hold at most
    10,000 and 4096 entries; that worker remembers at most 8192 names and the mDNS
    listener at most 4096; and the audit log has at most 10,000 rows and the query
    log 500,000.  Nothing is said of the others: the login throttle, for one, has no
    bound ([Auth.throttle_grows]), and neither have the tables of records and
    leases. *)
Theorem process_bounded p : run_reachable (fun _ _ => True) (Up p) -> bounded p.
Proof. apply reachable_bounded. Qed.

(** The query counters add up in every state of every run: the total is the sum of
    the counters of the outcomes the metrics list and of the dangerous ones, which
    they do not list, the sum of the two address families, and the sum over the
    record types, all as 64-bit numbers. *)
Theorem process_counts p :
  run_reachable (fun _ _ => True) (Up p) ->
  let c := sts_counters (ap_stats (ps_app p)) in
  same_u64 (ct_total c) (outcome_total c + ct_dangerous c) /\
  same_u64 (ct_total c) (ct_ipv4 c + ct_ipv6 c) /\
  same_u64 (ct_total c) (map_total (sts_by_qtype (ap_stats (ps_app p)))).
Proof. intros Hp%reachable_bounded. destruct (so_counters _ (mo_stats _ (bo_memory _ Hp))) as []. done. Qed.
End Process.
