(* ===== verification/Unlogged.v ===== *)
(** * The query log that is off

    The contract of the API promises that with [query_log] off no client and no name
    is kept: the table of queries, the entries on their way to it, the recent queries
    and the rankings of names stay empty, in every state of every run in which nobody
    turns the log on. *)

From S2P Require Import DhcpServer DhcpDns.
From S2P Require Import Prelude Strs Net Geo External Models Serde DhcpOptions Db DbDns DbFilter DbDhcp DbAdmin Filter Upstream.
From S2P Require Import Cache Stats Mdns Dnssec Store State Config Web Auth DynDns Transfer ApiZones ApiFilter.
From S2P Require Import ApiDhcp Reports Sync Resolve Handler Router Integrity Serve Startup Program.

#[local] Existing Instance DhcpDns.zone_store.

(** ** The database *)

Record db_unlogged (d : Db) : Prop := {
  du_mode : st_query_log (db_settings d) = QlOff;
  du_rows : query_log d = [] }.

Lemma frame_unlogged {Y} (m : M Y) : leaves (fun d => (settings d, query_log d)) m -> preserves db_unlogged m.
Proof.
  intros Hl d [H1 H2]. pose proof (leaves_eq _ m d Hl) as E. injection E as E1 E2.
  split; unfold db_settings in *; by rewrite ?E1, ?E2.
Qed.

(** Pruning an empty table, and a batch of no queries. *)
Lemma unlogged_prune n : preserves db_unlogged (prune_query_log n).
Proof. intros d [H1 H2]. split; [done|]. cbn. by rewrite H2. Qed.
Lemma unlogged_insert_none : preserves db_unlogged (insert_queries []).
Proof. by intros d. Qed.
Lemma unlogged_put_settings s : st_query_log s = QlOff -> preserves db_unlogged (put_settings s).
Proof. intros Hs d [H1 H2]. by split. Qed.
#[export] Hint Resolve unlogged_prune unlogged_insert_none : preserve.

Ltac unlogged_statement :=
  first [ solve [auto 2 with preserve] | apply frame_unlogged; solve [leave] ].

(** ** The statistics *)

Record silent (s : Stats) : Prop := {
  sl_recent : sts_recent s = [];
  sl_domains : sts_top_domains s = ∅;
  sl_blocked : sts_top_blocked s = ∅ }.

(** An operation that keeps nothing of a query. *)
Definition unlogging (op : StatsOp) : Prop :=
  match op with StRecord _ _ mode _ _ _ _ _ _ => mode = QlOff | _ => True end.

Lemma silent_step op s : unlogging op -> silent s -> silent (run_stats op s).
Proof. intros Hop []. destruct op; cbn in Hop; subst; by split. Qed.

(** ** The resolver *)

Section Resolver.
Context `{NETS : IpNets} `{HN : HickoryNames} `{TEXT : !HickoryText} `{SIGN : !Signers} `{RES : !HickoryResolvers}
  `{UNI : Unicode}.

Record unlogged (a : AppState) : Prop := {
  un_mode : st_query_log (ap_settings a) = QlOff;
  un_db : db_unlogged (ap_db a);
  un_queue : ap_qlog a = [];
  un_stats : silent (ap_stats a) }.

Definition log_part (a : AppState) := (ap_settings a, ap_db a, ap_qlog a, ap_stats a).
Lemma unlogged_same a a' : log_part a' = log_part a -> unlogged a -> unlogged a'.
Proof. intros [= E1 E2 E3 E4] []. by split; rewrite ?E1, ?E2, ?E3, ?E4. Qed.

Lemma unlogged_stats op a : unlogging op -> unlogged a -> unlogged (with_stats (run_stats op) a).
Proof. intros Hop []. split; [done..|by apply silent_step]. Qed.

Lemma unlogged_record_stat e a client view qname qtype stat out :
  unlogged a -> unlogged (record_stat e a client view qname qtype stat out).
Proof.
  intros Ha. unfold record_stat. cbv zeta. set (a1 := if bool_decide (stat = QBlocked) then _ else a).
  assert (unlogged a1) as H1.
  { subst a1. destruct (bool_decide _); [|done]. apply (unlogged_same (with_stats (run_stats (StBlockedClient client)) a)); [done|].
    by apply unlogged_stats. }
  clearbody a1. rewrite (un_mode _ H1).
  by apply (unlogged_stats (StRecord (ev_ts e) (ev_sec e) QlOff client view (plain_text qname) (RecordType_to_string qtype) stat
    (to_ascii_uppercase (ResponseCode_debug (ro_rcode out))))).
Qed.

Lemma unlogged_latency e a : unlogged a -> unlogged (record_latency_stat e a).
Proof. by apply (unlogged_stats (StLatency (ev_latency e))). Qed.

Lemma unlogged_validation r a : unlogged a -> unlogged (note_validation r a).
Proof. intros Ha. unfold note_validation. destruct (_ && _); [|done]. by apply (unlogged_stats StDnssecFailure). Qed.

Lemma unlogged_upstream e a key qname qtype ra a' out stat :
  unlogged a -> resolve_upstream e a key qname qtype ra = Some (a', out, stat) -> unlogged a'.
Proof.
  intros Ha. unfold resolve_upstream. destruct (match_for _ _) as [up|].
  { intros [= <- _ _]. by apply unlogged_validation. }
  destruct (ap_upstream a) as [up|]; [|by intros [= <- _ _]].
  destruct (cache_get _ _ _ _) as [c [h|]]; [by intros [= <- _ _]; apply (unlogged_same a)|].
  destruct (cache_put _ _ _ _ _ _ _) as [c'|]; [|done]. intros [= <- _ _].
  apply (unlogged_same (note_validation (upstream_resolve (ev_net e) up qname qtype) (with_cache c a))); [done|].
  by apply unlogged_validation, (unlogged_same a).
Qed.

Lemma unlogged_external e a qname qtype ra a' out stat :
  unlogged a -> resolve_external e a qname qtype ra = Some (a', out, stat) -> unlogged a'.
Proof.
  intros Ha. unfold resolve_external. destruct (decide_name _ _).
  - destruct (is_suspicious _ _); [by intros [= <- _ _]|by apply unlogged_upstream].
  - by apply unlogged_upstream.
  - intros [= <- _ _]. destruct (blocklist_hit _ _) as [id|]; [|done]. by apply (unlogged_stats (StBlocklistHit id)).
  - destruct (rewrite_answer _ _ _ _ _ _). by intros [= <- _ _].
Qed.

Lemma unlogged_resolve e a qname qtype client dnssec_ok a' out :
  resolve_query e a qname qtype client dnssec_ok = Some (a', out) -> unlogged a -> unlogged a'.
Proof.
  intros H Ha. revert H. unfold resolve_query.
  destruct (asn_blocked e a client); [intros [= <- _]; by apply unlogged_latency, unlogged_record_stat|].
  destruct (mdns_answer e a qname qtype); [intros [= <- _]; by apply unlogged_latency, unlogged_record_stat|].
  destruct (apex_records _ _ _ _ _); [intros [= <- _]; by apply unlogged_record_stat|]. unfold resolve_main. cbv zeta.
  destruct (match lr_outcome _ with NotAuthoritative => _ | _ => _ end) as [[[a1 out1] stat]|] eqn:E; [|done].
  assert (unlogged a1) as H1.
  { destruct (lr_outcome _); [..|by eapply unlogged_external]; (destruct (local_output _ _); by injection E as <- _ _). }
  match goal with |- context [takes_rotation (ro_answers ?o) _] => generalize o end. intros o.
  destruct (if takes_rotation _ _ then next_rotation a1 else (0, a1)) as [offset a2] eqn:Er. intros [= <- _].
  apply unlogged_latency, unlogged_record_stat, (unlogged_stats (StResolved (omap answer_ip _))); [done|].
  apply (unlogged_same a1); [|done]. destruct (takes_rotation _ _); by injection Er as _ <-.
Qed.

(** ** Handlers *)

Lemma unlogged_run {X} (m : M X) : preserves db_unlogged m -> keeps unlogged (run m).
Proof.
  intros Hm a [H1 H2 H3 H4]. unfold run. specialize (Hm _ H2). destruct (m (ap_db a)) as [d r]. by split.
Qed.

Lemma unlogged_clear a : unlogged a -> unlogged (with_cache (cache_clear (ap_cache a)) (with_stats clear_log a)).
Proof. intros []. by split. Qed.
End Resolver.

Ltac unlogged_update :=
  let a := fresh "a" in let Ha := fresh "Ha" in
  intros a Ha; first [ by apply (unlogged_same a) | by apply unlogged_clear ].
Ltac unlogged_steps :=
  walk_handler ltac:(apply unlogged_run; unlogged_statement) unlogged_update
    ltac:(fun a Ha => first [exact Ha | by apply (unlogged_same a)]).

(** ** Requests *)

Section Requests.
Context `{NETS : IpNets} `{HN : HickoryNames} `{TEXT : !HickoryText} `{SIGN : !Signers} `{RES : !HickoryResolvers}
  `{UNI : Unicode} `{DT : DateTimes} `{CR : Credentials} `{TS : !TSigners} `{TOOLS : !DnssecTools} `{ZF : !ZoneFiles}
  `{ERR : !ErrorTexts} `{DQ : !DnsQueries} `{WIRE : !DnsWire} `{DEC : Decoders} `{MM : MaxMind}.
Context (e : WebEnv) (net : Primaries) (env : Env) (tsig_text : TsigError -> string)
  (option_text : DhcpOption -> OptionError -> string) (VERSION : string) (vt : Vantage)
  (assets : string -> option Asset).

Abbreviation run_endpoint := (handle e net env tsig_text option_text VERSION vt).
Abbreviation run_request := (serve e net env tsig_text option_text VERSION vt assets).

(** The request does not turn the log on. *)
Definition leaves_log_off (req : SettingsUpdate) : bool :=
  bool_decide (su_query_log req = None) || bool_decide (su_query_log req = Some QlOff).

Lemma unlogged_settings req : leaves_log_off req = true -> keeps unlogged (api_put_settings tsig_text req).
Proof.
  intros Hreq a Ha. unfold api_put_settings, wbind, get_settings. rewrite run_query. unfold lift.
  destruct (update_settings tsig_text req _) as [s|err] eqn:E; [|done].
  assert (st_query_log s = QlOff) as Hs.
  { unfold update_settings in E.
    repeat match type of E with (let? _ := ?c in _) = _ => destruct c as [[]|?]; [|done] end.
    injection E as <-. cbn [st_query_log]. unfold leaves_log_off in Hreq.
    destruct (su_query_log req) as [[]|]; try discriminate Hreq; [done|]. apply (du_mode _ (un_db _ Ha)). }
  destruct Ha as [H1 H2 H3 H4]. split; [done| |done..]. by apply (unlogged_put_settings s Hs).
Qed.

Lemma unlogged_doh client bytes a a' r : doh_handle env client bytes a = Some (a', r) -> unlogged a -> unlogged a'.
Proof.
  unfold doh_handle. destruct (message_from_vec bytes) as [m|]; [|by intros [= <- _]].
  destruct (wm_queries m) as [|q qs]; [by intros [= <- _]|].
  destruct (resolve_query _ _ _ _ _ _) as [[a1 out]|] eqn:E; [|done]. intros [= <- _]. by eapply unlogged_resolve.
Qed.
Lemma unlogged_doh_get client dns a a' r : doh_get env client dns a = Some (a', r) -> unlogged a -> unlogged a'.
Proof.
  unfold doh_get. destruct dns as [b64|]; [|by intros [= <- _]].
  destruct (base64_url_decode _); [apply unlogged_doh|by intros [= <- _]].
Qed.

Definition request_leaves_log_off (rq : HttpRequest) : Prop :=
  endpoint_of rq = Some E_put_settings -> forall req, settings_update rq = Some req -> leaves_log_off req = true.

Lemma endpoint_unlogged ep rq seg :
  (ep = E_put_settings -> forall req, settings_update rq = Some req -> leaves_log_off req = true) ->
  hkeeps unlogged (run_endpoint ep rq seg).
Proof.
  intros Hset. destruct ep; cbn [handle]; endpoint;
    try first [ solve [unlogged_steps] | solve [optional_endpoint unlogged_steps] | solve [apply hkeeps_nic; unlogged_steps] ].
  - unfold api_create_secondary. do 3 (apply keeps_wbind; [unlogged_steps|intros ?]).
    apply keeps_wbind; [apply keeps_first_transfer; unlogged_steps|]. unlogged_steps.
  - by apply unlogged_settings, (Hset eq_refl).
  - intros a Ha. unfold of_doh. destruct (doh_get _ _ _ a) as [[a' r]|] eqn:E; [|done]. by eapply unlogged_doh_get.
  - intros a Ha. unfold of_doh. destruct (doh_post _ _ _ a) as [[a' r]|] eqn:E; [|done]. by eapply unlogged_doh.
Qed.
End Requests.

(** ** The process *)

Section Process.
Context `{NETS : IpNets} `{HN : HickoryNames} `{TEXT : !HickoryText} `{SIGN : !Signers} `{RES : !HickoryResolvers}
  `{UNI : Unicode} `{TIME : Rfc3339} `{DT : DateTimes} `{CR : Credentials} `{TS : !TSigners} `{TOOLS : !DnssecTools}
  `{ZF : !ZoneFiles} `{ERR : !ErrorTexts} `{DQ : !DnsQueries} `{WIRE : !DnsWire} `{DEC : Decoders} `{MM : MaxMind} `{TLS : TlsTools}
  `{UNIX : Unix} `{JT : JsonText} `{HS : !HickorySerde}.
Context (tsig_text : TsigError -> string) (option_text : DhcpOption -> OptionError -> string) (VERSION : string)
  (assets : string -> option Asset) (hash : string -> Z).

Abbreviation run_turn := (turn tsig_text option_text VERSION assets hash).
Abbreviation run_reachable := (reachable tsig_text option_text VERSION assets hash).

(** The events of a run in which nobody turns the log on. *)
Definition log_stays_off (p : Process) (ev : Event) : Prop :=
  match ev with EvHttp _ _ _ _ rq => request_leaves_log_off rq | _ => True end.

Lemma unlogged_request e net env vt rq :
  request_leaves_log_off rq -> hkeeps unlogged (serve e net env tsig_text option_text VERSION vt assets rq).
Proof.
  intros Hrq. apply hkeeps_serve; [unlogged_steps|intros; unlogged_steps|].
  destruct (endpoint_of rq) as [ep|] eqn:E.
  - destruct (route_some e net env tsig_text option_text VERSION vt assets rq ep E) as [seg ->].
    apply endpoint_unlogged. intros ->. by apply Hrq.
  - destruct (route_none e net env tsig_text option_text VERSION vt assets rq E) as [r ->]. apply hkeeps_pure.
Qed.

Lemma unlogged_query env sends rq a a' out : handle_request env sends rq a = Some (a', out) -> unlogged a -> unlogged a'.
Proof.
  unfold handle_request. destruct (rq_info rq) as [i|]; [|by intros [= <- _]].
  destruct (negb _); [by intros [= <- _]|]. destruct (is_transfer _); [by intros [= <- _]|].
  destruct (resolve_query _ _ _ _ _ _) as [[a1 o]|] eqn:E; [|done]. intros [= <- _]. by eapply unlogged_resolve.
Qed.

Lemma unlogged_dhcp : dhcp_preserves db_unlogged.
Proof. split; [intros m []|..]; intros; unlogged_statement. Qed.

Lemma unlogged_after_v4 ts now iface sent frame a a' :
  after_dhcp a (v4_turn ts now iface sent frame (dhcp_part a)) = Some a' -> unlogged a -> unlogged a'.
Proof.
  intros E [H1 H2 H3 H4]. pose proof (v4_after_keeps _ _ _ _ _ _ _ _ unlogged_dhcp E H2).
  apply after_dhcp_spec in E as (s & ps & o & _ & ->). by split.
Qed.
Lemma unlogged_after_v6 ts now duid src sent frame a a' :
  after_dhcp a (v6_turn ts now duid src sent frame (dhcp_part a)) = Some a' -> unlogged a -> unlogged a'.
Proof.
  intros E [H1 H2 H3 H4]. pose proof (v6_after_keeps _ _ _ _ _ _ _ _ _ unlogged_dhcp E H2).
  apply after_dhcp_spec in E as (s & ps & o & _ & ->). by split.
Qed.

Lemma unlogged_poll e net a : unlogged a -> unlogged (poll_tick transfer_text e net a).
Proof. intros Ha. apply poll_tick_keeps; [unlogged_steps..|done]. Qed.

(** A worker with nothing in its queue. *)
Lemma unlogged_qlog_turn a : unlogged a -> unlogged (qlog_turn a).
Proof. intros Ha. unfold qlog_turn. by rewrite (un_queue _ Ha). Qed.

Lemma unlogged_blocked net p : unlogged (ps_app p) -> unlogged (ps_app (blocked_turn net p)).
Proof.
  intros Hp. unfold blocked_turn. destruct (ap_blocked (ps_app p)) as [|d rest]; [done|]. cbv zeta.
  set (p1 := with_app _ p). assert (unlogged (ps_app p1)) as H1 by by apply (unlogged_same (ps_app p)).
  destruct (negb _); [done|]. case_bool_decide; [done|]. destruct (ap_upstream _); [|done].
  destruct (Name_from_ascii _); [|done]. destruct H1 as [? ? ? Hs]. split; try done. cbn.
  cbn in Hs. revert Hs. generalize (ap_stats (ps_app p)).
  induction (up_answers _) as [|r rs IH]; intros s Hs; [done|]. cbn [fold_left]. apply IH.
  destruct (rec_data r); try done. by apply (silent_step (StBlockedDest _)).
Qed.

(** What the other turns leave of the log. *)
Lemma unlogged_origin get p : unlogged (ps_app p) -> unlogged (ps_app (origin_turn get p)).
Proof.
  intros Hp. unfold origin_turn. destruct (_ <=? _); [done|]. case_match; [|done]. by apply (unlogged_stats (StOrigin _)).
Qed.
Lemma log_part_mdns now msg p : log_part (ps_app (mdns_turn now msg p)) = log_part (ps_app p).
Proof. unfold mdns_turn. destruct (sv_running _); [|done]. by destruct (learn_and_plan _ _ _ _ _ _) as [[? ?] ?]. Qed.
Lemma log_part_cycle p : log_part (ps_app (mdns_cycle p)) = log_part (ps_app p).
Proof. unfold mdns_cycle. by destruct (sv_running _). Qed.
Lemma log_part_supervise h p : log_part (ps_app (supervise_turn h p)) = log_part (ps_app p).
Proof. unfold supervise_turn. by destruct (supervise_tick _ _ _ _). Qed.

Lemma turn_unlogged ev p p' :
  log_stays_off p ev -> run_turn ev p = Some p' -> unlogged (ps_app p) -> unlogged (ps_app p').
Proof.
  intros Hev H Hp. destruct ev; cbn [turn] in H; unfold on_app in H.
  - destruct (li_web _); injection H as <-; [|done]. by apply unlogged_request.
  - destruct (serves_dns _); [|by injection H as <-]. destruct (handle_request _ _ _ _) as [[a o]|] eqn:E; [|done].
    injection H as <-. by eapply unlogged_query.
  - destruct (serves_doh _); [|by injection H as <-]. destruct (doh_get _ _ _ _) as [[a o]|] eqn:E; [|done].
    injection H as <-. by eapply unlogged_doh_get.
  - destruct (serves_doh _); [|by injection H as <-]. destruct (doh_post _ _ _ _) as [[a o]|] eqn:E; [|done].
    injection H as <-. by eapply unlogged_doh.
  - destruct (dk_v4 _ !! _) as [[x iface]|]; [|by injection H as <-]. destruct (after_dhcp _ _) as [a|] eqn:E; [|done].
    injection H as <-. by eapply unlogged_after_v4.
  - destruct (dk_v6 _ !! _); [|by injection H as <-]. destruct (after_dhcp _ _) as [a|] eqn:E; [|done].
    injection H as <-. by eapply unlogged_after_v6.
  - injection H as <-. by eapply unlogged_same; [apply log_part_mdns|].
  - injection H as <-. by eapply unlogged_same; [apply log_part_cycle|].
  - injection H as <-. by eapply unlogged_same; [apply log_part_supervise|].
  - injection H as <-. by apply unlogged_blocked.
  - injection H as <-. by apply unlogged_origin.
  - injection H as <-. by apply unlogged_qlog_turn.
  - injection H as <-. cbn [ps_app with_app]. unfold refresh_turn. destruct (0 <? _); [|done].
    apply (keeps_fst unlogged); [unlogged_steps|done].
  - injection H as <-. apply (keeps_fst unlogged); [apply unlogged_run; unlogged_statement|done].
  - injection H as <-. by apply unlogged_poll.
  - destruct (no_dhcp _); injection H as <-; [done|]. apply (keeps_fst unlogged); [apply unlogged_run; unlogged_statement|done].
Qed.

(** *** Runs *)

Definition disk_unlogged (k : Disk) : Prop := disk_ok (dk_db k) /\ db_unlogged (dk_db k).

Lemma unlogged_bootstrap ts d : disk_ok d -> db_unlogged d -> db_unlogged (fst (bootstrap ts d)).
Proof.
  intros Hd [H1 H2]. assert (leaves query_log (bootstrap ts)) as Hl by (unfold bootstrap; leave).
  apply (leaves_eq _ _ d) in Hl. destruct (bootstrap_ok ts d Hd) as (d' & s & E & _ & Es & Es'). rewrite E in *.
  split; [|by rewrite <- H2]. cbn [fst]. by rewrite <- Es, Es'.
Qed.

Lemma start_unlogged b k : disk_unlogged k -> db_unlogged (dk_db (fst (start b k))).
Proof. intros [Hd Hl]. by apply start_keeps; [apply unlogged_bootstrap|]. Qed.

(** C8: with the query log off no query is listed: in every state of every run in which
    no request turns the query log on, the table of queries, the entries on their way
    to it, the recent queries and the rankings of names and of blocked names are
    empty.  Other statistics are kept whatever the setting, the addresses of the
    public clients of blocked queries among them ([Privacy.blocked_client_kept]). *)
Theorem process_unlogged p : run_reachable log_stays_off (Up p) -> unlogged (ps_app p).
Proof.
  intros Hp. refine (proj2 (reachable_invariant _ _ _ _ _ _ (fun p => db_ok (ap_db (ps_app p)) /\ unlogged (ps_app p)) disk_unlogged
    _ _ _ _ _ _ _ Hp)).
  - split; [by right|by split].
  - intros b k k' q Hk Hs. pose proof (start_unlogged b k Hk) as Hl. rewrite Hs in Hl. destruct Hk as [Hd _].
    destruct (start_spec _ _ _ _ Hs Hd) as (_ & _ & Hq). destruct (Hq q eq_refl) as (s & Hb & Hd' & -> & _).
    split; [done|]. destruct (bootstrap_ok (bt_ts b) _ Hd) as (d & s' & E & _ & Es & _). rewrite Hb in E.
    injection E as <- <-. split; [cbn; rewrite Es; apply Hl|done..].
  - intros b k k' err Hk Hs. pose proof (start_unlogged b k Hk) as Hl. rewrite Hs in Hl.
    split; [by destruct (start_spec _ _ _ _ Hs (proj1 Hk))|done].
  - intros ev q q' Hev [Hb Hq] Ht. split; [by eapply turn_ok|by eapply turn_unlogged].
  - intros q now o [Hb Hq]. split; [by left|apply Hq].
  - intros q [Hb Hq]. split; [by left|apply Hq].
Qed.
End Process.
