(* ===== verification/Wellformed.v ===== *)
(** * The settings stay well formed

    The settings in the table and the ones in memory are well formed in every state of
    every run: a start stores the defaults or what it finds, and a change is checked
    field by field before it is stored and put in memory. *)

From S2P Require Import DhcpServer DhcpDns.
From S2P Require Import Prelude Strs Net Geo External Models Serde DhcpOptions Db DbDns DbFilter DbDhcp DbAdmin Filter Upstream.
From S2P Require Import Cache Stats Mdns Dnssec Store State Config Web Auth DynDns Transfer ApiZones ApiFilter.
From S2P Require Import ApiDhcp Reports Sync Resolve Handler Router Integrity Serve Startup Program.

#[local] Existing Instance DhcpDns.zone_store.

(** ** The state *)

Section State.
Context `{NETS : IpNets} `{HN : HickoryNames} `{TEXT : !HickoryText} `{SIGN : !Signers} `{RES : !HickoryResolvers}
  `{UNI : Unicode} `{CR : Credentials} `{TS : !TSigners}.

(** The settings in the table. *)
Definition stored_ok (d : Db) : Prop := settings_ok (db_settings d).
(** The stored settings and the ones in memory are well formed. *)
Record settings_live (a : AppState) : Prop := {
  se_stored : stored_ok (ap_db a);
  se_memory : settings_ok (ap_settings a) }.

Lemma frame_stored {Y} (m : M Y) : leaves settings m -> preserves stored_ok m.
Proof. intros Hl d H. unfold stored_ok, db_settings in *. by rewrite (leaves_eq _ m d Hl). Qed.

Definition settings_part (a : AppState) := (ap_settings a, ap_db a).
Lemma live_same a a' : settings_part a' = settings_part a -> settings_live a -> settings_live a'.
Proof. intros [= E1 E2] []. by split; rewrite ?E1, ?E2. Qed.

Lemma live_run {X} (m : M X) : preserves stored_ok m -> keeps settings_live (run m).
Proof. intros Hm a [H1 H2]. unfold run. specialize (Hm _ H1). destruct (m (ap_db a)) as [d r]. by split. Qed.

Lemma static_live : static_prop settings_live.
Proof. intros a a' E. apply live_same. injection E as E1 E2 E3 E4 E5 E6. unfold settings_part. congruence. Qed.
End State.

Ltac stored_statement := apply frame_stored; solve [leave].
Ltac settings_update :=
  let a := fresh "a" in let Ha := fresh "Ha" in intros a Ha; by apply (live_same a).
Ltac settings_steps :=
  walk_handler ltac:(apply live_run; stored_statement) settings_update
    ltac:(fun a Ha => first [exact Ha | by apply (live_same a)]).

(** ** Requests *)

Section Requests.
Context `{NETS : IpNets} `{HN : HickoryNames} `{TEXT : !HickoryText} `{SIGN : !Signers} `{RES : !HickoryResolvers}
  `{UNI : Unicode} `{DT : DateTimes} `{CR : Credentials} `{TS : !TSigners} `{TOOLS : !DnssecTools} `{ZF : !ZoneFiles}
  `{ERR : !ErrorTexts} `{DQ : !DnsQueries} `{WIRE : !DnsWire} `{DEC : Decoders} `{MM : MaxMind}.
Context (e : WebEnv) (net : Primaries) (env : Env) (tsig_text : TsigError -> string)
  (option_text : DhcpOption -> OptionError -> string) (VERSION : string) (vt : Vantage)
  (assets : string -> option Asset).

Abbreviation run_endpoint := (handle e net env tsig_text option_text VERSION vt).
Abbreviation run_request := (serve e net env tsig_text option_text VERSION vt assets).

Lemma live_put_settings req : keeps settings_live (api_put_settings tsig_text req).
Proof.
  intros a [H1 H2]. pose proof (put_settings_cases tsig_text req a H1) as H. cbv zeta in H.
  destruct (api_put_settings tsig_text req a) as [a' [r|err]]; cbn [fst].
  - destruct H as (s' & _ & Hs & E1 & E2). split; unfold stored_ok, db_settings; rewrite ?E1, ?E2; done.
  - by destruct H as [-> _].
Qed.

Lemma endpoint_settings ep rq seg : hkeeps settings_live (run_endpoint ep rq seg).
Proof.
  destruct ep; cbn [handle]; endpoint;
    try first [ solve [settings_steps] | solve [optional_endpoint settings_steps] | solve [apply hkeeps_nic; settings_steps] ].
  - unfold api_create_secondary. do 3 (apply keeps_wbind; [settings_steps|intros ?]).
    apply keeps_wbind; [apply keeps_first_transfer; settings_steps|]. settings_steps.
  - apply live_put_settings.
  - apply hkeeps_of_doh; [intros ? ? ?; apply doh_get_static|apply static_live].
  - apply hkeeps_of_doh; [intros ? ? ?; apply static_doh|apply static_live].
Qed.

Lemma request_live rq : hkeeps settings_live (run_request rq).
Proof.
  apply hkeeps_serve; [settings_steps|intros; settings_steps|].
  destruct (endpoint_of rq) as [ep|] eqn:E.
  - destruct (route_some e net env tsig_text option_text VERSION vt assets rq ep E) as [seg ->]. apply endpoint_settings.
  - destruct (route_none e net env tsig_text option_text VERSION vt assets rq E) as [r ->]. apply hkeeps_pure.
Qed.
End Requests.

(** ** Runs *)

Section Process.
Context `{NETS : IpNets} `{HN : HickoryNames} `{TEXT : !HickoryText} `{SIGN : !Signers} `{RES : !HickoryResolvers}
  `{UNI : Unicode} `{TIME : Rfc3339} `{DT : DateTimes} `{CR : Credentials} `{TS : !TSigners} `{TOOLS : !DnssecTools}
  `{ZF : !ZoneFiles} `{ERR : !ErrorTexts} `{DQ : !DnsQueries} `{WIRE : !DnsWire} `{DEC : Decoders} `{MM : MaxMind} `{TLS : TlsTools}
  `{UNIX : Unix} `{JT : JsonText} `{HS : !HickorySerde}.
Context (tsig_text : TsigError -> string) (option_text : DhcpOption -> OptionError -> string) (VERSION : string)
  (assets : string -> option Asset) (hash : string -> Z).

Abbreviation run_turn := (turn tsig_text option_text VERSION assets hash).
Abbreviation run_reachable := (reachable tsig_text option_text VERSION assets hash).

Lemma stored_dhcp : dhcp_preserves stored_ok.
Proof. split; [intros m []|..]; intros; stored_statement. Qed.

Lemma turn_settings ev p p' : run_turn ev p = Some p' -> settings_live (ps_app p) -> settings_live (ps_app p').
Proof.
  apply (turn_keeps tsig_text option_text VERSION assets hash settings_live); [apply static_live|..].
  - intros e net env vt rq _. apply request_live.
  - intros ts now iface sent frame a' E _ [H1 H2]. pose proof (v4_after_keeps _ _ _ _ _ _ _ _ stored_dhcp E H1).
    apply after_dhcp_spec in E as (s & ps & o & _ & ->). by split.
  - intros ts now duid src sent frame a' E _ [H1 H2]. pose proof (v6_after_keeps _ _ _ _ _ _ _ _ _ stored_dhcp E H1).
    apply after_dhcp_spec in E as (s & ps & o & _ & ->). by split.
  - intros a Ha. unfold qlog_turn. destruct (ap_qlog a) as [|x q]; [done|]. cbv zeta.
    repeat (apply (keeps_fst settings_live); [apply live_run; stored_statement|]). by apply (live_same a).
  - intros e a Ha. unfold refresh_turn. destruct (0 <? _); [|done]. apply (keeps_fst settings_live); [settings_steps|done].
  - intros ts a Ha. apply (keeps_fst settings_live); [apply live_run; stored_statement|done].
  - intros now a Ha. apply (keeps_fst settings_live); [apply live_run; stored_statement|done].
  - intros e net a _ Ha. apply poll_tick_keeps; [settings_steps..|done].
Qed.

Definition disk_live (k : Disk) : Prop := disk_ok (dk_db k) /\ stored_ok (dk_db k).

Lemma stored_bootstrap ts d : disk_ok d -> stored_ok d -> stored_ok (fst (bootstrap ts d)).
Proof.
  intros Hd H. destruct (bootstrap_ok ts d Hd) as (d' & s & E & _ & Es & Es'). rewrite E. cbn [fst].
  unfold stored_ok in *. by rewrite <- Es, Es'.
Qed.
Lemma start_stored b k : disk_live k -> stored_ok (dk_db (fst (start b k))).
Proof. intros [Hd Hl]. by apply start_keeps; [apply stored_bootstrap|]. Qed.

Lemma reachable_live p : run_reachable (fun _ _ => True) (Up p) -> settings_live (ps_app p).
Proof.
  intros Hp. refine (proj2 (reachable_invariant _ _ _ _ _ _
    (fun p => db_ok (ap_db (ps_app p)) /\ settings_live (ps_app p)) disk_live _ _ _ _ _ _ _ Hp)).
  - split; [by right|apply default_settings_ok].
  - intros b k k' q Hk Hs. pose proof (start_stored b k Hk) as Hl. rewrite Hs in Hl. destruct Hk as [Hd Hk].
    destruct (start_spec _ _ _ _ Hs Hd) as (_ & _ & Hq). destruct (Hq q eq_refl) as (s & Hb & Hd' & -> & _).
    split; [done|]. destruct (bootstrap_ok (bt_ts b) _ Hd) as (d & s' & E & _ & Es & Es'). rewrite Hb in E.
    injection E as <- <-. split; [exact Hl|]. cbn. by rewrite Es'.
  - intros b k k' err Hk Hs. pose proof (start_stored b k Hk) as Hl. rewrite Hs in Hl.
    split; [by destruct (start_spec _ _ _ _ Hs (proj1 Hk))|done].
  - intros ev q q' _ [Hb Hq] Ht. split; [by eapply turn_ok|by eapply turn_settings].
  - intros q now o [Hb Hq]. split; [by left|apply Hq].
  - intros q [Hb Hq]. split; [by left|apply Hq].
Qed.

(** C37: the settings are well formed in every state of every run, the stored ones and the
    ones in memory: every forwarder has an address and, over TLS or HTTPS, a name to
    verify, every network and listener address parses, every TSIG key builds a
    signer, and the mDNS records have a TTL.  A request that would break this is
    refused and leaves everything as it was; an accepted one is stored, and the
    settings in memory are the stored ones from then on.  What a start alone reads of
    them (the listeners, TLS, the GeoIP databases, the networks of the management
    pages) changes at the next start. *)
Theorem settings_wellformed p req :
  run_reachable (fun _ _ => True) (Up p) ->
  let a := ps_app p in
  settings_live a /\
  match api_put_settings tsig_text req a with
  | (a', Ok _) => exists s', update_settings tsig_text req (db_settings (ap_db a)) = Ok s' /\ settings_ok s' /\
      settings (ap_db a') = Some s' /\ ap_settings a' = s'
  | (a', Err err) => a' = a /\ update_settings tsig_text req (db_settings (ap_db a)) = Err err
  end.
Proof.
  intros Hp%reachable_live. cbv zeta. split; [done|]. apply put_settings_cases, Hp.
Qed.
End Process.
