(* ===== verification/Typed.v ===== *)
(** * What the program stores, it can read back

    The integers of the stored documents, and the columns narrower than 64 bits,
    stay in their types over every run: a request's are those serde has checked, a
    transferred zone's are those of its wire format.  So the database of every
    state of every run is what a later start reads from the file. *)

From S2P Require Import DhcpServer DhcpDns.
From S2P Require Import Prelude Strs Net Geo External Models Serde Documents DhcpOptions Db DbDns DbFilter DbDhcp DbAdmin Schema.
From S2P Require Import Filter Upstream.
From S2P Require Import Cache Stats Mdns Dnssec Store State Config Web Auth DynDns Transfer ApiZones ApiFilter.
From S2P Require Import ApiDhcp Reports Sync Resolve Handler Router Integrity Serve Startup Program.

#[local] Existing Instance DhcpDns.zone_store.

(** ** Statements *)

Definition given {A} (P : A -> Prop) (o : option A) : Prop := forall a, o = Some a -> P a.
Lemma given_some {A} (P : A -> Prop) a : P a -> given P (Some a).
Proof. by intros Ha b [= <-]. Qed.
Lemma given_default {A} (P : A -> Prop) a o : P a -> given P o -> P (default a o).
Proof. intros Ha Ho. destruct o; [by apply Ho|done]. Qed.
#[export] Hint Resolve given_some : preserve.

Lemma Forall_update_where {A} (P : A -> Prop) (p : A -> bool) f t :
  (forall a, P a -> P (f a)) -> Forall P t -> Forall P (update_where p f t).
Proof. intros Hf Ht. apply Forall_fmap. eapply Forall_impl; [exact Ht|]. intros a Ha. cbn. destruct (p a); auto. Qed.
Lemma Forall_delete_where {A} (P : A -> Prop) (p : A -> bool) t : Forall P t -> Forall P (delete_where p t).
Proof. rewrite !Forall_forall. intros Ht a Ha%list_elem_of_In. apply in_delete_where in Ha as [Ha%list_elem_of_In _]. auto. Qed.
Lemma Forall_snoc {A} (P : A -> Prop) t a : Forall P t -> P a -> Forall P (t ++ [a]).
Proof. intros Ht Ha. apply Forall_app. split; [done|]. by repeat constructor. Qed.

Lemma preserves_given {A} (Q : Db -> Prop) (P : A -> Prop) o f :
  given P o -> (forall a, P a -> preserves Q (f a)) -> preserves Q (when_some o f).
Proof. intros Ho Hf. destruct o as [a|]; [apply Hf; by apply Ho|apply preserves_ret]. Qed.

(** One [if let Some] after the other; a typed value is used as such. *)
Ltac fields_given :=
  repeat match goal with |- preserves _ (bind _ _) => apply preserves_bind; [|intros _] end;
  match goal with
  | H : given _ ?o |- preserves _ (when_some ?o _) => apply (preserves_given _ _ _ _ H); intros ? ?
  | |- preserves _ (when_some _ _) => apply preserves_when_some; intros ?
  | _ => idtac
  end.

(** The tables with such integers. *)
Definition typed_part (d : Db) :=
  (views d, zones d, settings d, conditional_forwards d, dhcp_scopes d, dhcp_reservations d).
Lemma frame_typed {Y} (m : M Y) : leaves typed_part m -> preserves db_typed m.
Proof.
  intros Hl d []. pose proof (leaves_eq _ m d Hl) as E. injection E as E1 E2 E3 E4 E5 E6.
  by split; rewrite ?E1, ?E2, ?E3, ?E4, ?E5, ?E6.
Qed.

(** One table replaced by another of the same kind. *)
Ltac typed_table :=
  let d := fresh "d" in intros d []; split; cbn; try done;
  repeat first [ apply Forall_update_where | apply Forall_delete_where | apply Forall_snoc ]; cbn; auto.

Lemma typed_create_view ts n nets p cs cts asns :
  Forall is_u32 asns -> preserves db_typed (create_view ts n nets p cs cts asns).
Proof. intros Ha d Hd. unfold create_view. destruct (view_name_taken n d); [done|]. revert d Hd. typed_table. Qed.
Lemma typed_update_view_row id f :
  (forall v, Forall is_u32 (vw_asns v) -> Forall is_u32 (vw_asns (f v))) -> preserves db_typed (update_view_row id f).
Proof. intros Hf. apply preserves_modify. typed_table. Qed.
Lemma typed_update_view id n nets p cs cts asns :
  given (Forall is_u32) asns -> preserves db_typed (update_view id n nets p cs cts asns).
Proof.
  intros Ha. unfold update_view. fields_given; try by apply typed_update_view_row.
  intros d Hd. destruct (_ && _); [done|]. by apply typed_update_view_row.
Qed.
Lemma typed_delete_view id : preserves db_typed (delete_view id).
Proof. apply preserves_modify. typed_table. Qed.
Lemma typed_default_view ts : preserves db_typed (ensure_default_view ts).
Proof.
  intros d Hd. unfold ensure_default_view. destruct (existsb _ _); [done|]. destruct (view_name_taken _ d); [done|].
  revert d Hd. typed_table.
Qed.

Lemma typed_create_zone ts n soa ttl : Soa_ok soa -> preserves db_typed (create_zone ts n soa ttl).
Proof. intros Hs d Hd. unfold create_zone. destruct (existsb _ _); [done|]. revert d Hd. typed_table. Qed.
Lemma typed_update_zone_row id f :
  (forall z, Soa_ok (zr_soa z) -> Soa_ok (zr_soa (f z))) -> preserves db_typed (update_zone_row id f).
Proof. intros Hf. apply preserves_modify. typed_table. Qed.
Lemma typed_bump_serial ts id : preserves db_typed (bump_serial ts id).
Proof. by apply typed_update_zone_row. Qed.
Lemma typed_update_zone ts id e soa ttl : given Soa_ok soa -> preserves db_typed (update_zone ts id e soa ttl).
Proof.
  intros Hs. unfold update_zone. fields_given; by apply typed_update_zone_row.
Qed.
Lemma typed_delete_zone id : preserves db_typed (delete_zone id).
Proof. apply preserves_modify. typed_table. Qed.
#[export] Hint Resolve typed_create_view typed_update_view typed_delete_view typed_default_view typed_create_zone
  typed_update_zone typed_bump_serial typed_delete_zone : preserve.

(** A statement of the tables that hold no such integer, or of one that does. *)
Ltac typed_statement :=
  first [ solve [auto 4 with preserve] | apply frame_typed; solve [leave]
        | match goal with |- preserves _ ?m => let h := head_of m in unfold h; preserve; typed_statement end ].

Lemma typed_replace_secondary ts zid soa serial rs :
  Soa_ok soa -> preserves db_typed (replace_secondary_zone ts zid soa serial rs).
Proof.
  intros Hs. unfold replace_secondary_zone. preserve; try (apply frame_typed; solve [leave]).
  by apply typed_update_zone_row.
Qed.
Lemma typed_put_settings s : Settings_ok s -> preserves db_typed (put_settings s).
Proof. intros Hs. apply preserves_modify. typed_table. by intros s' [= <-]. Qed.

Lemma typed_create_conditional ts domain fs :
  Forall Forwarder_ok fs -> preserves db_typed (create_conditional_forward ts domain fs).
Proof.
  intros Hf d Hd. unfold create_conditional_forward. destruct (existsb _ _); [done|]. revert d Hd. typed_table.
Qed.
Lemma typed_update_conditional id fs e :
  given (Forall Forwarder_ok) fs -> preserves db_typed (update_conditional_forward id fs e).
Proof.
  intros Hf. unfold update_conditional_forward. fields_given; apply preserves_modify; typed_table.
Qed.
Lemma typed_delete_conditional id : preserves db_typed (delete_conditional_forward id).
Proof. apply preserves_modify. typed_table. Qed.

Definition scope_typed (s : DhcpScope) : Prop := is_u32 (sc_lease_secs s) /\ Forall DhcpOption_ok (sc_options s).
Lemma typed_create_scope ts n e f s rs re ls dr dz si i o :
  is_u32 ls -> Forall DhcpOption_ok o -> preserves db_typed (create_dhcp_scope ts n e f s rs re ls dr dz si i o).
Proof.
  intros Hl Ho d Hd. unfold create_dhcp_scope. destruct (existsb _ _); [done|]. revert d Hd. typed_table.
Qed.
Lemma typed_update_scope_row id f :
  (forall s, scope_typed s -> scope_typed (f s)) -> preserves db_typed (update_scope_row id f).
Proof. intros Hf. apply preserves_modify. typed_table. Qed.
Lemma typed_update_scope id n e s rs re ls dr dz si i o :
  given is_u32 ls -> given (Forall DhcpOption_ok) o ->
  preserves db_typed (update_dhcp_scope id n e s rs re ls dr dz si i o).
Proof.
  intros Hl Ho. unfold update_dhcp_scope. fields_given; try by apply typed_update_scope_row.
  - intros d Hd. unfold update_scope_name. destruct (_ && _); [done|]. by apply typed_update_scope_row.
  - apply typed_update_scope_row. by intros s' [].
  - apply typed_update_scope_row. by intros s' [].
Qed.
Lemma typed_delete_scope id : preserves db_typed (delete_dhcp_scope id).
Proof. apply preserves_modify. typed_table. Qed.
Lemma typed_create_reservation ts sid ident ip h o :
  Forall DhcpOption_ok o -> preserves db_typed (create_dhcp_reservation ts sid ident ip h o).
Proof.
  intros Ho d Hd. unfold create_dhcp_reservation. destruct (negb _); [done|]. revert d Hd. typed_table.
Qed.
Lemma typed_update_reservation id ident ip h o :
  given (Forall DhcpOption_ok) o -> preserves db_typed (update_dhcp_reservation id ident ip h o).
Proof. intros Ho. unfold update_dhcp_reservation. fields_given; apply preserves_modify; typed_table. Qed.
Lemma typed_delete_reservation id : preserves db_typed (delete_dhcp_reservation id).
Proof. apply preserves_modify. typed_table. Qed.
#[export] Hint Resolve typed_update_reservation typed_delete_reservation typed_replace_secondary typed_put_settings typed_create_conditional typed_update_conditional
  typed_delete_conditional typed_create_scope typed_update_scope typed_delete_scope typed_create_reservation : preserve.

(** ** Requests *)

Definition update_typed (req : SettingsUpdate) : Prop :=
  given (Forall Forwarder_ok) (su_forwarders req) /\ given (fits u64_codec) (su_cache_size req) /\
  given (fits u32_codec) (su_cache_min_ttl req) /\ given (fits u32_codec) (su_cache_max_ttl req) /\
  given (Forall (fits u32_codec)) (su_blocked_asns req) /\ given (fits u32_codec) (su_mdns_ttl req) /\
  given (fits u32_codec) (su_tcp_timeout_secs req) /\ given (fits u32_codec) (su_blocklist_refresh_hours req).

Lemma soa_default_typed zone : Soa_ok (Soa_default_for zone).
Proof. unfold Soa_ok. cbn. lia. Qed.
Lemma soa_given_typed name o : given Soa_ok o -> Soa_ok (default (Soa_default_for name) o).
Proof. apply given_default, soa_default_typed. Qed.
Lemma default_settings_typed : Settings_ok Settings_default.
Proof. repeat split; repeat constructor; cbn; lia. Qed.
#[export] Hint Resolve soa_default_typed soa_given_typed : preserve.

(** serde refuses a body with an integer out of the range of its field. *)
Class DecodersTyped `{DEC : Decoders} : Prop := {
  view_create_typed rq b : view_create rq = Some b -> Forall is_u32 (vc_asns b);
  view_update_typed rq b : view_update rq = Some b -> given (Forall is_u32) (vu_asns b);
  zone_create_typed rq b : zone_create rq = Some b -> given Soa_ok (zc_soa b);
  zone_update_typed rq b : zone_update rq = Some b -> given Soa_ok (zu_soa b);
  settings_update_typed rq b : settings_update rq = Some b -> update_typed b;
  conditional_create_typed rq b : conditional_create rq = Some b -> Forall Forwarder_ok (cc_forwarders b);
  conditional_update_typed rq b : conditional_update rq = Some b -> given (Forall Forwarder_ok) (cu_forwarders b);
  scope_input_typed rq b : scope_input rq = Some b -> is_u32 (si_lease_secs b) /\ Forall DhcpOption_ok (si_options b);
  reservation_input_typed rq b : reservation_input rq = Some b -> Forall DhcpOption_ok (ri_options b) }.

Section Transfers.
Context `{NETS : IpNets} `{HN : HickoryNames} `{TEXT : !HickoryText} `{SIGN : !Signers} `{RES : !HickoryResolvers}
  `{DT : DateTimes} `{CR : Credentials} `{TS : !TSigners}.

(** What a primary answers decodes to an authority with the wire's integers. *)
Definition authority_typed (r : DRecord) : Prop :=
  match rec_data r with RD_SOA s => Soa_ok (soa_model s) | _ => True end.
Definition net_typed (net : Primaries) : Prop :=
  forall bytes rs, pr_answers net bytes = Some rs -> Forall authority_typed rs.

Lemma messages_typed net fuel stream :
  net_typed net -> Forall (Forall authority_typed) (read_messages (pr_answers net) fuel stream).
Proof.
  intros Hn. revert stream. induction fuel as [|fuel IH]; intros stream; [constructor|]. cbn [read_messages].
  destruct (read_frame stream) as [[mbuf rest]|]; [|constructor].
  destruct (pr_answers net mbuf) as [rs|] eqn:E; constructor; [by eapply Hn|done].
Qed.

Lemma loop_typed msgs records rs :
  Forall (Forall authority_typed) msgs -> Forall authority_typed records ->
  fst (axfr_loop msgs records) = Ok rs -> Forall authority_typed rs.
Proof.
  intros Hm. revert records. induction Hm as [|m msgs Hm _ IH]; intros records Hr; cbn [axfr_loop]; [done|].
  assert (Forall authority_typed (records ++ m)) by by apply Forall_app. cbv zeta.
  destruct (is_nil records && _); [done|]. destruct (MAX_RECORDS <? _); [done|].
  destruct (_ && _); [by intros [= <-]|by apply IH].
Qed.

Lemma transfer_typed net primary zone signer rs :
  net_typed net -> axfr_transfer net primary zone signer = Ok rs -> Forall authority_typed rs.
Proof.
  intros Hn. unfold axfr_transfer. destruct (pr_encode _ _ _ _); [|done]. cbn [ok_or]. destruct (pr_tcp _ _ _); [|done].
  apply loop_typed; [by apply messages_typed|constructor].
Qed.

Lemma taken_typed zone_lc rs soa tuples :
  Forall authority_typed rs -> given (fun ss => Soa_ok (fst ss)) soa ->
  given (fun ss => Soa_ok (fst ss)) (fst (fold_left (take_record zone_lc) rs (soa, tuples))).
Proof.
  intros Hr. revert soa tuples. induction Hr as [|r rs Hr _ IH]; intros soa tuples Hs; [done|]. cbn [fold_left].
  unfold take_record at 2. unfold authority_typed in Hr.
  destruct (rec_data r); try (case_goal; by apply IH). apply IH. destruct soa; [done|]. by intros ss [= <-].
Qed.

Lemma typed_transfer e net zid name primary key :
  net_typed net -> keeps (db_prop db_typed) (transfer e net zid name primary key).
Proof.
  intros Hn. unfold transfer. do 2 (apply keeps_wbind; [handler_steps typed_statement|intros ?]).
  intros a Ha. unfold wbind at 1, lift. destruct (axfr_transfer _ _ _ _) as [rs|err] eqn:E; [|done].
  pose proof (taken_typed (to_ascii_lowercase (trim_end_matches "."%char name)) rs None [] (transfer_typed _ _ _ _ _ Hn E)
    ltac:(done)) as Hs. cbv zeta. destruct (fold_left _ rs _) as [[ss|] tuples]; [|done].
  specialize (Hs ss eq_refl). cbn [fst] in Hs. unfold wbind at 1, or_throw, wret at 1.
  apply (keeps_fst (db_prop db_typed)); [|done]. handler_steps typed_statement.
Qed.
End Transfers.

Section Requests.
Context `{NETS : IpNets} `{HN : HickoryNames} `{TEXT : !HickoryText} `{SIGN : !Signers} `{RES : !HickoryResolvers}
  `{UNI : Unicode} `{DT : DateTimes} `{CR : Credentials} `{TS : !TSigners} `{TOOLS : !DnssecTools} `{ZF : !ZoneFiles}
  `{ERR : !ErrorTexts} `{DQ : !DnsQueries} `{WIRE : !DnsWire} `{DEC : Decoders} `{DECT : !DecodersTyped} `{MM : MaxMind}.
Context (e : WebEnv) (net : Primaries) (env : Env) (tsig_text : TsigError -> string)
  (option_text : DhcpOption -> OptionError -> string) (VERSION : string) (vt : Vantage)
  (assets : string -> option Asset) (Hnet : net_typed net).

Abbreviation run_endpoint := (handle e net env tsig_text option_text VERSION vt).
Abbreviation run_request := (serve e net env tsig_text option_text VERSION vt assets).

Lemma typed_zone_with_ns ts name soa ttl : Soa_ok soa -> preserves db_typed (create_zone_with_ns ts name soa ttl).
Proof. intros Hs. unfold create_zone_with_ns. preserve. typed_statement. Qed.
Lemma typed_secondary_zone ts name soa primary tsig :
  Soa_ok soa -> preserves db_typed (create_secondary_zone ts name soa primary tsig).
Proof. intros Hs. unfold create_secondary_zone. preserve. typed_statement. Qed.
#[local] Hint Resolve typed_zone_with_ns typed_secondary_zone : preserve.

(** The integers of the decoded body. *)
Ltac learn :=
  repeat match goal with
  | H : view_create _ = Some _ |- _ => apply view_create_typed in H
  | H : view_update _ = Some _ |- _ => apply view_update_typed in H
  | H : zone_create _ = Some _ |- _ => apply zone_create_typed in H
  | H : zone_update _ = Some _ |- _ => apply zone_update_typed in H
  | H : settings_update _ = Some _ |- _ => apply settings_update_typed in H
  | H : conditional_create _ = Some _ |- _ => apply conditional_create_typed in H
  | H : conditional_update _ = Some _ |- _ => apply conditional_update_typed in H
  | H : scope_input _ = Some _ |- _ => apply scope_input_typed in H as [? ?]
  | H : reservation_input _ = Some _ |- _ => apply reservation_input_typed in H
  end.

Lemma typed_settings req : update_typed req -> keeps (db_prop db_typed) (api_put_settings tsig_text req).
Proof.
  intros Hreq a Ha. unfold api_put_settings, wbind, get_settings. rewrite run_query. unfold lift.
  destruct (update_settings tsig_text req _) as [s|err] eqn:E; [|done].
  enough (Settings_ok s) as Hs by by apply (typed_put_settings s Hs).
  assert (Settings_ok (default Settings_default (settings (ap_db a)))) as H0.
  { destruct (settings (ap_db a)) eqn:Es; [by apply (ty_settings _ Ha)|]. exact default_settings_typed. }
  revert H0 E. generalize (default Settings_default (settings (ap_db a))). intros s0 (F1 & F2 & F3 & F4 & F5 & F6 & F7 & F8) E.
  unfold update_settings in E.
  repeat match type of E with (let? _ := ?c in _) = _ => destruct c as [[]|?]; [|done] end.
  destruct Hreq as (R1 & R2 & R3 & R4 & R5 & R6 & R7 & R8). injection E as <-.
  split_and!; cbn -[Z.max]; try by apply given_default.
  apply given_default; [done|]. intros v. destruct (su_mdns_ttl req) as [w|]; [|done]. intros [= <-].
  specialize (R6 w eq_refl). cbn in *. lia.
Qed.

Lemma endpoint_typed ep rq seg : hkeeps (db_prop db_typed) (run_endpoint ep rq seg).
Proof.
  destruct ep; cbn [handle]; endpoint; learn;
    try first [ solve [handler_steps typed_statement] | solve [optional_endpoint ltac:(handler_steps typed_statement)]
              | solve [apply hkeeps_nic; handler_steps typed_statement] ].
  - unfold api_create_secondary. do 3 (apply keeps_wbind; [handler_steps typed_statement|intros ?]).
    apply keeps_wbind; [|handler_steps typed_statement].
    apply keeps_first_transfer; [by apply typed_transfer|handler_steps typed_statement].
  - unfold api_refresh_secondary. do 4 (apply keeps_wbind; [handler_steps typed_statement|intros ?]).
    apply keeps_wbind; [|handler_steps typed_statement]. by apply keeps_map_err, typed_transfer.
  - by apply typed_settings.
  - apply hkeeps_of_doh; [intros ? ? ?; apply doh_get_static|]. intros a a' E Ha. unfold db_prop.
    by rewrite (static_db _ _ E).
  - apply hkeeps_of_doh; [intros ? ? ?; apply static_doh|]. intros a a' E Ha. unfold db_prop.
    by rewrite (static_db _ _ E).
Qed.

Lemma typed_request rq : hkeeps (db_prop db_typed) (run_request rq).
Proof.
  apply hkeeps_serve; [handler_steps typed_statement|intros; handler_steps typed_statement|].
  destruct (endpoint_of rq) as [ep|] eqn:E.
  - destruct (route_some e net env tsig_text option_text VERSION vt assets rq ep E) as [seg ->]. apply endpoint_typed.
  - destruct (route_none e net env tsig_text option_text VERSION vt assets rq E) as [r ->]. apply hkeeps_pure.
Qed.
End Requests.

(** ** Runs *)

Section Process.
Context `{NETS : IpNets} `{HN : HickoryNames} `{TEXT : !HickoryText} `{SIGN : !Signers} `{RES : !HickoryResolvers}
  `{UNI : Unicode} `{TIME : Rfc3339} `{DT : DateTimes} `{CR : Credentials} `{TS : !TSigners} `{TOOLS : !DnssecTools}
  `{ZF : !ZoneFiles} `{ERR : !ErrorTexts} `{DQ : !DnsQueries} `{WIRE : !DnsWire} `{DEC : Decoders} `{DECT : !DecodersTyped}
  `{MM : MaxMind} `{TLS : TlsTools} `{UNIX : Unix} `{JT : JsonText} `{JTL : !JsonTextLaws JT} `{HS : !HickorySerde}.
Context (tsig_text : TsigError -> string) (option_text : DhcpOption -> OptionError -> string) (VERSION : string)
  (assets : string -> option Asset) (hash : string -> Z).

Abbreviation run_turn := (turn tsig_text option_text VERSION assets hash).
Abbreviation run_reachable := (reachable tsig_text option_text VERSION assets hash).

(** The primaries answer with zones of the wire format. *)
Definition event_typed (p : Process) (ev : Event) : Prop :=
  match ev with EvHttp _ net _ _ _ | EvPoll _ net => net_typed net | _ => True end.

Lemma typed_dhcp : dhcp_preserves db_typed.
Proof. split; [intros m []|..]; intros; typed_statement. Qed.

Lemma turn_typed ev p p' :
  event_typed p ev -> run_turn ev p = Some p' -> db_typed (ap_db (ps_app p)) -> db_typed (ap_db (ps_app p')).
Proof.
  intros Hev. apply (turn_keeps_db _ _ _ _ _ db_typed); [|apply typed_dhcp|..].
  - intros e net env vt rq (e0 & env0 & vt0 & ->). by apply typed_request.
  - intros a Ha. unfold qlog_turn. destruct (ap_qlog a) as [|x q] eqn:E; [done|]. cbv zeta.
    repeat (apply (keeps_fst (db_prop db_typed)); [apply keeps_run; typed_statement|]). exact Ha.
  - intros e. handler_steps typed_statement.
  - intros ts. typed_statement.
  - intros now. typed_statement.
  - intros e net a (e0 & ->) Ha. apply (poll_tick_keeps (db_prop db_typed)); [handler_steps typed_statement|..|done].
    + intros. by apply typed_transfer.
    + intros. handler_steps typed_statement.
Qed.

Lemma typed_bootstrap ts d : db_typed d -> db_typed (fst (bootstrap ts d)).
Proof.
  intros Hd. unfold bootstrap. apply preserves_bind; [apply typed_default_view| |done]. intros _ d1 H1.
  unfold bind at 1, get_settings, query. apply preserves_bind; [|intros ?; apply preserves_ret|done].
  apply typed_put_settings. destruct (settings d1) eqn:Es; [by apply (ty_settings _ H1)|exact default_settings_typed].
Qed.

(** A process starts with the database of the disk. *)
Lemma start_db b k k' p : start b k = (k', Ok p) -> ap_db (ps_app p) = dk_db k'.
Proof.
  unfold start. destruct (Config_load _ _ _); [|done]. cbv zeta. destruct (bootstrap _ _) as [d [s|err]]; [|done].
  destruct (tls_setup _ _ _) as [fs [tls|err]]; [|done]. destruct (bind_listeners _ _ _ _); [|done].
  destruct (drop_privileges _ _) as [cred [u|err]]; [|done]. by intros [= <- <-].
Qed.

Lemma reachable_typed p : run_reachable event_typed (Up p) -> db_typed (ap_db (ps_app p)).
Proof.
  refine (reachable_invariant _ _ _ _ _ event_typed (fun p => db_typed (ap_db (ps_app p))) (fun k => db_typed (dk_db k))
    _ _ _ _ _ _ (Up p)).
  - split; cbn; by repeat constructor.
  - intros b k k' q Hk Hs. pose proof (start_keeps db_typed b k (typed_bootstrap _ _ Hk) Hk) as Hl.
    rewrite Hs in Hl. by rewrite (start_db _ _ _ _ Hs).
  - intros b k k' err Hk Hs. pose proof (start_keeps db_typed b k (typed_bootstrap _ _ Hk) Hk) as Hl. by rewrite Hs in Hl.
  - intros ev q q' Hev Hq Ht. by eapply turn_typed.
  - done.
  - done.
Qed.

(** C6: nothing the program writes is lost or misread by its own next start: in every state of
    every run in which the primaries answer with zones of the wire format, the stored
    form of the database - documents as JSON, enumerations by name, 32-bit numbers in
    64-bit columns - is read back, row by row and without an error, as the database
    itself, and the joins on the stored rows give the zones and blocklists the
    program works with. *)
Theorem process_stored p :
  run_reachable event_typed (Up p) ->
  let d := ap_db (ps_app p) in
  load_db (store_db d) = Ok d /\ ok (raw_list_zones (store_db d)) = ok (snd (list_zones d)) /\
  Ok (raw_list_blocklists (store_db d)) = snd (list_blocklists d).
Proof. intros Hp. by apply db_stored, reachable_typed. Qed.
End Process.
