(* ===== verification/Concurrent.v ===== *)
(** * Concurrent requests

    Requests overlap: a handler waits for the connection between its statements,
    and while it waits the others run.  Every handler of the management server is
    cut into the steps of [Tasks], and the invariant of the database holds between
    any two steps of any number of them; so does what the resolver relies on, that
    the structures in memory were each built from one state of the database.  What
    does not hold under overlap is that they were built from the latest one, and
    that a change of the settings keeps another's: two theorems show how. *)

From S2P Require Import DhcpServer DhcpDns.
From S2P Require Import Prelude Strs Net Geo External Models DhcpOptions Db DbDns DbFilter DbDhcp DbAdmin Filter Upstream.
From S2P Require Import Cache Stats Mdns Dnssec Store State Config Web Tasks Auth DynDns Transfer ApiZones ApiFilter.
From S2P Require Import ApiDhcp Reports Sync Resolve Handler Router Integrity Serve.

#[local] Existing Instance DhcpDns.zone_store.

(** ** What a task may rely on *)

(** The views that cannot be deleted. *)
Definition default_ids (d : Db) : list Z := vw_id <$> List.filter vw_is_default (views d).

(** The default views, and every state the database has had. *)
Record World : Type := mkWorld { wd_defaults : list Z; wd_seen : list Db }.
Definition later (w w' : World) : Prop := wd_defaults w' = wd_defaults w /\ incl (wd_seen w) (wd_seen w').
#[export] Instance later_preorder : PreOrder later.
Proof.
  split; [by intros w; split; [|apply incl_refl]|]. intros w1 w2 w3 [H1 H2] [H3 H4].
  split; [congruence|by eapply incl_tran].
Qed.

Section Concurrent.
Context `{NETS : IpNets} `{HN : HickoryNames} `{TEXT : !HickoryText} `{SIGN : !Signers} `{RES : !HickoryResolvers}.

Definition observed (a : AppState) (w : World) : World := mkWorld (wd_defaults w) (ap_db a :: wd_seen w).

(** Each structure in memory is that of one state of the database. *)
Record snapshots (seen : list Db) (a : AppState) : Prop := {
  sn_store : exists d, In d seen /\ ap_store a = build_from d;
  sn_filter : exists d blocking, In d seen /\ ap_filter a = build_filter d blocking;
  sn_conditional : exists d s, In d seen /\ ap_conditional a = build_conditional d s }.
Record Inv (w : World) (a : AppState) : Prop := {
  iv_db : db_ok (ap_db a);
  iv_defaults : default_ids (ap_db a) = wd_defaults w;
  iv_seen : In (ap_db a) (wd_seen w);
  iv_snapshots : snapshots (wd_seen w) a }.

Abbreviation Il := (Interleaved later observed Inv).

Lemma snapshots_incl seen seen' a : incl seen seen' -> snapshots seen a -> snapshots seen' a.
Proof.
  intros Hi [(d1 & H1 & E1) (d2 & b & H2 & E2) (d3 & s & H3 & E3)]. split; [exists d1|exists d2, b|exists d3, s]; auto.
Qed.
Definition structures (a : AppState) := (ap_store a, ap_filter a, ap_conditional a).
Lemma snapshots_same seen a a' : structures a' = structures a -> snapshots seen a -> snapshots seen a'.
Proof. unfold structures. intros [= E1 E2 E3] [H1 H2 H3]. split; by rewrite ?E1, ?E2, ?E3. Qed.
Lemma later_observed (a : AppState) w : later w (observed a w).
Proof. split; [done|]. intros d Hd. by right. Qed.
Lemma inv_observed w (a' : AppState) :
  db_ok (ap_db a') -> default_ids (ap_db a') = wd_defaults w -> snapshots (ap_db a' :: wd_seen w) a' ->
  Inv (observed a' w) a' /\ later w (observed a' w).
Proof. intros H1 H2 H3. split; [|apply later_observed]. split; [done|done|by left|done]. Qed.

(** ** The steps of handlers *)

Section Steps.
Context {E : Type}.

Definition il_step {X} (x : result X E) : Il (fun a => (a, x)) := il_done _ _ _ x.
Definition il_wbind {X Y} (m : Step E X) (k : X -> Step E Y) (i : Il m) (j : forall x, Il (k x)) : Il (wbind m k).
Proof.
  apply (il_ext _ _ _ (sbind m (fun r => match r with Ok x => k x | Err e => fun a => (a, Err e) end))).
  - intros a. unfold sbind, wbind. by destruct (m a) as [a' [x|e]].
  - apply (il_bind later observed Inv m _ i). intros [x|e]; [apply j|apply il_step].
Defined.
Definition il_attempt {X} (m : W X) (i : Il m) : Il (attempt (E := E) m).
Proof.
  apply (il_ext _ _ _ (sbind m (fun r a => (a, Ok (match r with Ok x => Some x | Err _ => None end))))).
  - intros a. unfold sbind, attempt. by destruct (m a) as [a' [x|e]].
  - apply (il_bind later observed Inv m _ i). intros r. apply il_step.
Defined.
Definition il_map_err {E' X} (f : E' -> E) (m : Step E' X) (i : Il m) : Il (map_err f m).
Proof.
  apply (il_ext _ _ _ (sbind m (fun r a => (a, match r with Ok x => Ok x | Err e => Err (f e) end)))).
  - intros a. unfold sbind, map_err. by destruct (m a) as [a' [x|e]].
  - apply (il_bind later observed Inv m _ i). intros r. apply il_step.
Defined.
Definition il_wfold {X Y} (f : Y -> X -> Step E Y) l (i : forall y x, Il (f y x)) : forall acc, Il (wfold f l acc).
Proof. induction l as [|x l IH]; intros acc; cbn; [apply il_step|by apply il_wbind]. Defined.
Definition il_or_throw {X} (o : option X) (e : E) : Il (or_throw o e).
Proof. destruct o; apply il_step. Defined.

Definition il_reads {X} (f : AppState -> X) (H : forall d a, f (with_db d a) = f a) : Il (reads (E := E) f).
Proof.
  apply il_memory.
  - intros d a. unfold reads. cbn [fst snd]. by rewrite H.
  - intros w a []. apply inv_observed; [done..|]. eapply snapshots_incl; [|done]. intros d Hd. by right.
Defined.

Definition il_read_db : Il (reads (E := E) ap_db).
Proof.
  apply (il_ext _ _ _ (fun a => (with_db (ap_db a) a, Ok (ap_db a)))); [intros a; by rewrite with_db_id|].
  apply (il_db later observed Inv (fun d => (d, Ok d))). intros w a []. cbn [fst]. rewrite with_db_id.
  apply inv_observed; [done..|]. eapply snapshots_incl; [|done]. intros d Hd. by right.
Defined.

(** A step in memory that is not of a structure of the resolver. *)
Definition il_in_memory {X} (f : Step E X) (H : memory_only f) (Hs : forall a, structures (fst (f a)) = structures a) : Il f.
Proof.
  apply il_memory; [exact H|]. intros w a []. assert (ap_db (fst (f a)) = ap_db a) as Hd.
  { rewrite <- (with_db_id a) at 1. by rewrite H. }
  apply inv_observed; rewrite ?Hd; [done..|]. eapply snapshots_same; [apply Hs|].
  eapply snapshots_incl; [|done]. intros d Hin. by right.
Defined.
Definition il_updates (f : AppState -> AppState) (H : forall d a, f (with_db d a) = with_db d (f a))
  (Hs : forall a, structures (f a) = structures a) : Il (updates (E := E) f).
Proof. apply il_in_memory; [|exact Hs]. intros d a. unfold updates. cbn [fst snd]. by rewrite H. Defined.
End Steps.

Definition il_run {X} (m : M X) (H : preserves db_ok m) (Hd : leaves default_ids m) : Il (run m).
Proof.
  apply (il_ext _ _ _ (fun a => (with_db (fst (m (ap_db a))) a,
    match snd (m (ap_db a)) with Ok x => Ok x | Err e => Err (from_db_error e) end))).
  - intros a. unfold run. by destruct (m (ap_db a)).
  - apply (il_db _ _ _ (fun d => (fst (m d), match snd (m d) with Ok x => Ok x | Err e => Err (from_db_error e) end))).
    intros w a [H1 H2 H3 H4]. cbn [fst]. apply inv_observed.
    + by apply H.
    + cbn [ap_db with_db]. by rewrite (leaves_eq _ m _ Hd).
    + apply (snapshots_same _ a); [done|]. eapply snapshots_incl; [|exact H4]. intros d Hin. by right.
Defined.

(** ** Reloading: a read of the database, then a replacement in memory *)

Definition reload_task {E S} (load : Db -> S) (put : S -> AppState -> AppState) : Task (result unit E) :=
  db_atom (fun d => (d, Atom (fun a => (put (load d) a, Finished (Ok tt))))).

Definition il_reload {E S} (load : Db -> S) (put : S -> AppState -> AppState)
  (Hp : forall s d a, put s (with_db d a) = with_db d (put s a))
  (Hs : forall seen d a, In d seen -> snapshots seen a -> snapshots seen (put (load d) a)) :
  Il (fun a => (put (load (ap_db a)) a, Ok (E := E) tt)).
Proof.
  assert (Hdb : forall s a, ap_db (put s a) = ap_db a).
  { intros s a. rewrite <- (with_db_id a) at 1. by rewrite Hp. }
  exists (reload_task load put).
  - intros a. cbn. by rewrite with_db_id.
  - apply fine_db. intros d. apply fine_memory; [|constructor]. intros d' a. cbn. by rewrite Hp.
  - intros w w1 a _ [H1 H2 H3 H4]. cbn -[with_db]. rewrite with_db_id. split_and!.
    + apply inv_observed; [done..|]. eapply snapshots_incl; [|exact H4]. intros d Hin. by right.
    + apply later_observed.
    + intros w2 a2 [Hw Hi] [G1 G2 G3 G4].
      destruct (inv_observed w2 (put (load (ap_db a)) a2)); rewrite ?Hdb; [done|done| |by split_and!].
      apply Hs; [right; apply Hi; by left|]. eapply snapshots_incl; [|exact G4]. intros d Hin. by right.
Defined.

Definition put_store (s : ZoneStore) (a : AppState) : AppState :=
  mkAppState (ap_db a) (ap_stats a) s (ap_upstream a) (ap_conditional a) (ap_filter a) (ap_cache a) (ap_settings a)
    (ap_mdns a) (ap_rr_counter a) (ap_throttle a) (ap_qlog a) (ap_blocked a).
Definition put_filter (f : FilterSet) (a : AppState) : AppState :=
  mkAppState (ap_db a) (ap_stats a) (ap_store a) (ap_upstream a) (ap_conditional a) f (ap_cache a) (ap_settings a)
    (ap_mdns a) (ap_rr_counter a) (ap_throttle a) (ap_qlog a) (ap_blocked a).
Definition put_conditional (c : list Rule) (a : AppState) : AppState :=
  mkAppState (ap_db a) (ap_stats a) (ap_store a) (ap_upstream a) c (ap_filter a) (ap_cache a) (ap_settings a)
    (ap_mdns a) (ap_rr_counter a) (ap_throttle a) (ap_qlog a) (ap_blocked a).

Definition il_reload_store {E} : Il (updates (E := E) reload_store).
Proof.
  apply (il_ext _ _ _ _ _ (fun a => eq_refl)), (il_reload build_from put_store); [done|].
  intros seen d a Hd [H1 H2 H3]. split; [by exists d|done|done].
Defined.

(** The switch of the filter and the settings are read first. *)
Definition il_reload_filter {E} : Il (updates (E := E) reload_filter).
Proof.
  apply (il_ext _ _ _ (wbind (reads (fun a => st_blocking_enabled (ap_settings a)))
    (fun b a => (put_filter (build_filter (ap_db a) b) a, Ok tt)))); [done|].
  apply il_wbind; [by apply il_reads|]. intros b. apply (il_reload (fun d => build_filter d b) put_filter); [done|].
  intros seen d a Hd [H1 H2 H3]. split; [done|by exists d, b|done].
Defined.
Definition il_reload_conditional {E} : Il (updates (E := E) reload_conditional).
Proof.
  apply (il_ext _ _ _ (wbind (reads ap_settings)
    (fun s a => (put_conditional (build_conditional (ap_db a) s) a, Ok tt)))); [done|].
  apply il_wbind; [by apply il_reads|]. intros s. apply (il_reload (fun d => build_conditional d s) put_conditional); [done|].
  intros seen d a Hd [H1 H2 H3]. split; [done|done|by exists d, s].
Defined.

Definition put_settings_in (s : Settings) (a : AppState) : AppState :=
  mkAppState (ap_db a) (ap_stats a) (ap_store a) (ap_upstream a) (ap_conditional a) (ap_filter a) (ap_cache a) s
    (ap_mdns a) (ap_rr_counter a) (ap_throttle a) (ap_qlog a) (ap_blocked a).
Definition put_upstream (u : option Upstream) (a : AppState) : AppState :=
  mkAppState (ap_db a) (ap_stats a) (ap_store a) u (ap_conditional a) (ap_filter a) (ap_cache a) (ap_settings a)
    (ap_mdns a) (ap_rr_counter a) (ap_throttle a) (ap_qlog a) (ap_blocked a).

(** The settings, the upstream, the filter, the forwarders and the cache, each under its lock. *)
Definition il_apply_settings {E} s : Il (updates (E := E) (apply_settings s)).
Proof.
  apply (il_ext _ _ _ (
    updates (put_settings_in s) >>>
    updates (put_upstream (match build_upstream s with Ok up => up | Err _ => None end)) >>>
    updates reload_filter >>> updates reload_conditional >>> updates (with_cache (new_cache s)))); [done|].
  do 2 (apply il_wbind; [by apply il_updates|intros _]). apply il_wbind; [apply il_reload_filter|intros _].
  apply il_wbind; [apply il_reload_conditional|intros _]. by apply il_updates.
Defined.

(** ** Handlers *)

Definition il_of_w (m : W Response) (i : Il m) : Il (of_w m).
Proof.
  apply (il_ext _ _ _ (sbind m (fun r a => (a, Some (match r with Ok r => r | Err e => error_response e end))))).
  - intros a. unfold sbind, of_w, respond. by destruct (m a) as [a' [r|e]].
  - apply (il_bind later observed Inv m _ i). intros r. apply il_done.
Defined.
Definition il_of_opt (m : option (W Response)) (i : forall m', m = Some m' -> Il m') : Il (of_opt m).
Proof. destruct m as [m|]; [by apply il_of_w, i|apply il_done]. Defined.
Definition il_with_id seg k (i : forall id, Il (k id)) : Il (with_id seg k).
Proof. unfold with_id. destruct (seg ≫= parse_i64); [apply i|apply il_done]. Defined.
Definition il_with_decoded {X} (o : option X) k (i : forall x, o = Some x -> Il (k x)) : Il (with_decoded o k).
Proof. destruct o as [x|]; [by apply i|apply il_done]. Defined.
Definition il_with_body {X} rq (o : option X) k (i : forall x, o = Some x -> Il (k x)) : Il (with_body rq o k).
Proof. unfold with_body. destruct (over_limit rq); [apply il_done|by apply il_with_decoded]. Defined.

(** ** Views, the one table whose rows the others rely on *)

Lemma frame_defaults {Y} (m : M Y) : leaves views m -> leaves default_ids m.
Proof. intros Hl x d <-. unfold default_ids. by rewrite (leaves_eq _ m d Hl). Qed.

Lemma default_ids_create ts n nets p cs cts asns : leaves default_ids (create_view ts n nets p cs cts asns).
Proof.
  intros x d <-. unfold create_view. destruct (view_name_taken n d); [done|]. unfold default_ids. cbn.
  by rewrite List.filter_app, app_nil_r.
Qed.
Lemma default_ids_update_row id f :
  (forall v, vw_is_default (f v) = vw_is_default v) -> (forall v, vw_id (f v) = vw_id v) ->
  leaves default_ids (update_view_row id f).
Proof.
  intros Hf Hid x d <-. unfold default_ids. cbn. unfold update_where. induction (views d) as [|v vs IH]; [done|]. cbn in *.
  assert (vw_is_default (if vw_id v =? id then f v else v) = vw_is_default v) as -> by (destruct (_ =? _); [apply Hf|done]).
  destruct (vw_is_default v); [|exact IH]. cbn. rewrite IH. f_equal. destruct (vw_id v =? id); [apply Hid|done].
Qed.
Lemma default_ids_update id n nets p cs cts asns : leaves default_ids (update_view id n nets p cs cts asns).
Proof.
  intros x. unfold update_view. preserve; try by apply default_ids_update_row.
  intros d Hd. destruct (_ && _); [done|]. by apply default_ids_update_row.
Qed.

Lemma found_not_default d v id : db_ok d -> List.find (fun v => vw_id v =? id) (views d) = Some v ->
  vw_is_default v = false -> id ∉ default_ids d.
Proof.
  intros Hd Ef Ed (v' & E & Hv')%list_elem_of_fmap. apply list_elem_of_In, filter_In in Hv' as [Hin Hdef].
  assert (Some v' = Some v) as [= ->]; [|congruence]. rewrite <- Ef. symmetry.
  apply (find_unique vw_id); [intros; rewrite E; apply eqb_bool_decide|apply (ok_dns _ Hd)|done].
Qed.
(** A view that is not a default one can go at any later moment. *)
Lemma delete_view_inv id d : db_ok d -> id ∉ default_ids d ->
  db_ok (fst (delete_view id d)) /\ default_ids (fst (delete_view id d)) = default_ids d.
Proof.
  intros Hok Hid. pose proof (ok_default _ Hok) as H3.
  assert (Hdef : forall v, In v (views d) -> vw_is_default v = true -> vw_id v <> id).
  { intros v Hv Hd E. apply Hid, list_elem_of_fmap. exists v. split; [done|]. by apply list_elem_of_In, filter_In. }
  split.
  - apply db_ok_delete_view; [done|]. unfold default_view in *. cbn. apply existsb_exists in H3 as (w & Hw & Hd). apply existsb_exists. exists w.
    split; [|done]. apply in_delete_where. split; [done|]. apply Z.eqb_neq. by apply Hdef.
  - unfold default_ids. cbn. clear -Hdef. unfold delete_where. induction (views d) as [|v vs IH]; [done|]. cbn in *.
    destruct (vw_id v =? id) eqn:E; cbn.
    + destruct (vw_is_default v) eqn:Ed; [|apply IH; auto]. apply Z.eqb_eq in E. by destruct (Hdef v (or_introl eq_refl) Ed).
    + destruct (vw_is_default v) eqn:Ed; cbn; rewrite <- IH; auto.
Qed.
End Concurrent.

Create HintDb defaults.
#[export] Hint Resolve default_ids_create default_ids_update : defaults.

(** The statement keeps the invariant and the default views. *)
Ltac il_statement :=
  apply il_run; [db_statement | first [solve [auto with defaults] | apply frame_defaults; solve [leave]]].
(** Follow a handler down, and cut it at its statements and reloads. *)
Ltac il_steps :=
  repeat match goal with
  | |- forall _, _ => intro
  | |- Interleaved _ _ _ (wbind _ _) => apply il_wbind
  | |- Interleaved _ _ _ (attempt _) => apply il_attempt
  | |- Interleaved _ _ _ (map_err _ _) => apply il_map_err
  | |- Interleaved _ _ _ (wfold _ _ _) => apply il_wfold
  | |- Interleaved _ _ _ (or_throw _ _) => apply il_or_throw
  | |- Interleaved _ _ _ (wret _) => apply il_step
  | |- Interleaved _ _ _ (throw _) => apply il_step
  | |- Interleaved _ _ _ (lift _) => apply il_step
  | |- Interleaved _ _ _ (reads ap_db) => apply il_read_db
  | |- Interleaved _ _ _ (reads _) => apply il_reads; by intros ? []
  | |- Interleaved _ _ _ (updates reload_store) => apply il_reload_store
  | |- Interleaved _ _ _ (updates reload_filter) => apply il_reload_filter
  | |- Interleaved _ _ _ (updates reload_conditional) => apply il_reload_conditional
  | |- Interleaved _ _ _ (updates (apply_settings _)) => apply il_apply_settings
  | |- Interleaved _ _ _ (updates _) => apply il_updates; [by intros ? []|by intros []]
  | |- Interleaved _ _ _ (run _) => solve [il_statement]
  | |- Interleaved _ _ _ (match ?x with _ => _ end) => destruct x
  | |- Interleaved _ _ _ (fun _ => _) =>
      apply il_in_memory; [intros ? []; cbn; by repeat case_goal|intros []; cbn; by repeat case_goal]
  | |- Interleaved _ _ _ ?m => let h := head_of m in unfold h
  end.

(** ** Requests *)

Section Requests.
Context `{NETS : IpNets} `{HN : HickoryNames} `{TEXT : !HickoryText} `{SIGN : !Signers} `{RES : !HickoryResolvers}
  `{UNI : Unicode} `{DT : DateTimes} `{CR : Credentials} `{TS : !TSigners} `{TOOLS : !DnssecTools} `{ZF : !ZoneFiles}
  `{ERR : !ErrorTexts} `{DQ : !DnsQueries} `{WIRE : !DnsWire} `{DEC : Decoders} `{MM : MaxMind}.
Context (e : WebEnv) (net : Primaries) (env : Env) (tsig_text : TsigError -> string)
  (option_text : DhcpOption -> OptionError -> string) (VERSION : string) (vt : Vantage)
  (assets : string -> option Asset).

Abbreviation Il := (Interleaved later observed Inv).
Abbreviation run_endpoint := (handle e net env tsig_text option_text VERSION vt).
Abbreviation run_route := (route e net env tsig_text option_text VERSION vt assets).
Abbreviation run_request := (serve e net env tsig_text option_text VERSION vt assets).

Definition il_session h : Il (resolve_session e h).
Proof. il_steps. Defined.
Definition il_request_parts m h : Il (from_request_parts e m h).
Proof. il_steps. Defined.

Definition il_after_delete : Il (updates (E := AppError) reload_store >>> wret no_content).
Proof. il_steps. Defined.

(** The check and the deletion are two statements: what the first has seen, that the
    view is not a default one, is still so at the second. *)
Definition il_delete_view id : Il (api_delete_view id).
Proof.
  exists (db_atom (fun d => (d,
    match List.find (fun v => vw_id v =? id) (views d) with
    | None => Finished (Err (not_found "view not found"))
    | Some v =>
        if vw_is_default v then Finished (Err (conflict "cannot delete the default view"))
        else db_atom (fun d => (fst (delete_view id d), task il_after_delete))
    end))).
  - intros a. cbn -[with_db]. rewrite with_db_id. unfold api_delete_view, found, wbind at 1, wbind at 1, view.
    rewrite run_query. destruct (List.find _ _) as [v|]; [|done]. cbn [or_throw]. unfold wret at 1.
    destruct (vw_is_default v); [done|]. exact (task_alone il_after_delete _).
  - apply fine_db. intros d. cbn [snd]. destruct (List.find _ _) as [v|]; [|constructor].
    destruct (vw_is_default v); [constructor|]. apply fine_db. intros d'. apply task_fine.
  - intros w w1 a _ [H1 H2 H3 H4]. cbn -[with_db delete_view]. rewrite with_db_id. split_and!.
    + apply inv_observed; [done..|]. eapply snapshots_incl; [|exact H4]. intros d Hin. by right.
    + apply later_observed.
    + destruct (List.find _ _) as [v|] eqn:Ef; [|done]. destruct (vw_is_default v) eqn:Ed; [done|].
      intros w2 a2 [Hw Hi] [G1 G2 G3 G4]. cbn [fst snd].
      destruct (delete_view_inv id (ap_db a2) G1) as [D1 D2].
      { rewrite G2, Hw. cbn [observed wd_defaults]. rewrite <- H2. by apply (found_not_default _ v). }
      destruct (inv_observed w2 (with_db (fst (delete_view id (ap_db a2))) a2)) as [I1 I2];
        [exact D1|exact (eq_trans D2 G2)| |exact (conj I1 (conj I2 (task_safe il_after_delete _)))].
      apply (snapshots_same _ a2); [done|]. eapply snapshots_incl; [|exact G4]. intros d Hin. by right.
Defined.

Definition il_first_transfer zid name primary key : Il (first_transfer e net zid name primary key).
Proof.
  apply (il_ext _ _ _ (sbind (transfer e net zid name primary key)
    (fun r => match r with Ok _ => fun a => (a, Ok tt) | Err err => record_error transfer_text e zid err end))).
  - intros a. unfold sbind, first_transfer. by destruct (transfer _ _ _ _ _ _ a) as [a' [n|err]].
  - apply il_bind; [apply _| |]; [il_steps|]. intros [n|err]; [apply il_done|il_steps].
Defined.

Definition il_nic_update peer h params :
  Il (fun a => let '(a', r) := nic_update e peer h params a in (a', Some r)).
Proof.
  apply (il_ext _ _ _ (sbind (nic_update_steps e peer h params)
    (fun r a => (a, Some (match r with Ok r => r | Err r => r end))))).
  - intros a. unfold sbind, nic_update. by destruct (nic_update_steps _ _ _ _ a) as [a' [r|r]].
  - apply il_bind; [apply _| |]; [il_steps|]. intros r. apply il_done.
Defined.

Definition il_with_auth rq k (i : forall auth, Il (k auth)) : Il (with_auth e rq k).
Proof.
  apply (il_ext _ _ _ (sbind (from_request_parts e (hr_method rq) (hr_headers rq))
    (fun r => match r with Ok auth => k auth | Err err => fun a => (a, Some (error_response err)) end))).
  - intros a. unfold sbind, with_auth. by destruct (from_request_parts _ _ _ a) as [a' [auth|err]].
  - apply (il_bind later observed Inv _ _ (il_request_parts _ _)). intros [auth|err]; [apply i|apply il_done].
Defined.

Ltac il_endpoint :=
  repeat match goal with
  | |- forall _, _ => intro
  | |- Interleaved _ _ _ (pure _) => apply il_done
  | |- Interleaved _ _ _ (with_id _ _) => apply il_with_id
  | |- Interleaved _ _ _ (with_decoded _ _) => apply il_with_decoded
  | |- Interleaved _ _ _ (with_body _ _ _) => apply il_with_body
  | |- Interleaved _ _ _ (with_auth _ _ _) => apply il_with_auth
  | |- Interleaved _ _ _ (of_w _) => apply il_of_w
  end.

Ltac il_optional :=
  apply il_of_opt; intros ?m' Hm;
  unfold api_create_dhcp_scope, api_update_dhcp_scope, api_create_dhcp_reservation, api_update_dhcp_reservation in Hm;
  repeat case_hyp Hm; try discriminate Hm; injection Hm as <-; il_steps.

Lemma il_endpoints ep rq seg : ep <> E_doh_get -> ep <> E_doh_post -> Il (run_endpoint ep rq seg).
Proof.
  intros H1 H2. destruct ep; try done; cbn [handle]; il_endpoint; try solve [il_steps].
  - apply il_delete_view.
  - unfold api_create_secondary. do 3 (apply il_wbind; [il_steps|intros ?]).
    apply il_wbind; [apply il_first_transfer|il_steps].
  - il_optional.
  - il_optional.
  - il_optional.
  - il_optional.
  - apply il_nic_update.
Qed.

(** A request to the management API, with the audit of the middleware. *)
Definition il_security h (i : Il h) : Il (security_headers h).
Proof.
  apply (il_ext _ _ _ (sbind h (fun r a => (a, secured <$> r)))).
  - intros a. rewrite security_headers_eq. unfold sbind. by destruct (h a).
  - apply (il_bind later observed Inv h _ i). intros r. apply il_done.
Defined.
Definition il_audit rq status : Il (fun a => (write_audit e rq status a, tt)).
Proof.
  apply (il_ext _ _ _ (sbind (resolve_session e (hr_headers rq)) (fun who =>
    sbind (attempt (E := AppError) (run (insert_audit (we_ts e)
      (match who with Ok auth => ur_username (at_user auth) | Err _ => "?" end)
      (method_str (hr_method rq) +:+ " " +:+ hr_path rq) status (show_ip (hr_peer rq))))) (fun _ a => (a, tt))))).
  - intros a. unfold sbind, write_audit. destruct (resolve_session _ _ a) as [a1 who].
    by destruct (attempt _ a1).
  - apply (il_bind later observed Inv _ _ (il_session _)). intros who. apply il_bind; [apply _|il_steps|].
    intros r. apply il_done.
Defined.
Definition il_audit_mw h rq (i : Il h) : Il (audit_mw e h rq).
Proof.
  apply (il_ext _ _ _ (sbind h (fun r => match r with
    | Some r => if audited rq r then sbind (fun a => (write_audit e rq (rp_status r) a, tt)) (fun _ a => (a, Some r))
                else fun a => (a, Some r)
    | None => fun a => (a, None) end))).
  - intros a. unfold sbind, audit_mw. destruct (h a) as [a' [r|]]; [|done]. by destruct (audited rq r).
  - apply (il_bind later observed Inv h _ i). intros [r|]; [|apply il_done]. destruct (audited rq r); [|apply il_done].
    apply (il_bind later observed Inv _ _ (il_audit _ _)). intros u. apply il_done.
Defined.

Definition management (rq : HttpRequest) : Prop :=
  endpoint_of rq <> Some E_doh_get /\ endpoint_of rq <> Some E_doh_post.

Definition segment_of (rq : HttpRequest) : option string :=
  match find_route (hr_path rq) with Some (_, seg) => seg | None => None end.
Definition no_handler (rq : HttpRequest) : Response :=
  match find_route (hr_path rq) with Some _ => mkResponse 405 NoBody [] | None => static_handler assets (hr_path rq) end.
Lemma route_eq rq :
  run_route rq =
    match endpoint_of rq with Some ep => run_endpoint ep rq (segment_of rq) | None => pure (no_handler rq) end.
Proof.
  unfold route, endpoint_of, segment_of, no_handler. destruct (find_route (hr_path rq)) as [[methods seg]|]; [|done].
  by destruct (find_method (hr_method rq) methods).
Qed.

Lemma il_route rq : management rq -> Il (run_route rq).
Proof.
  intros [H1 H2]. apply (il_ext _ _ _ _ _ (fun a => f_equal (fun h => h a) (eq_sym (route_eq rq)))).
  destruct (endpoint_of rq) as [ep|]; [|apply il_done]. apply il_endpoints; intros ->; contradiction.
Qed.
Definition il_app h rq (i : Il h) : Il (audit_mw e (security_headers (body_limit h rq)) rq).
Proof. apply il_audit_mw, il_security. unfold body_limit. destruct (_ && _); [apply il_done|exact i]. Defined.
Lemma il_request rq : management rq -> Il (run_request rq).
Proof.
  intros Hm. unfold serve. cbv zeta. pose proof (il_app _ rq (il_route rq Hm)) as j.
  destruct (is_nil _); [exact j|]. unfold ip_guard. destruct (_ || _); [exact j|apply il_done].
Qed.
End Requests.

(** ** Tasks of the background *)

Section Background.
Context `{NETS : IpNets} `{HN : HickoryNames} `{TEXT : !HickoryText} `{SIGN : !Signers} `{RES : !HickoryResolvers}
  `{UNI : Unicode} `{DT : DateTimes} `{CR : Credentials} `{TS : !TSigners} `{ERR : !ErrorTexts}.
Abbreviation Il := (Interleaved later observed Inv).

Definition il_refresh (e : WebEnv) : Il (refresh_all_lists e).
Proof. il_steps. Defined.

Definition il_poll (e : WebEnv) (net : Primaries) : Il (fun a => (poll_tick transfer_text e net a, tt)).
Proof.
  apply (il_ext _ _ _ (sbind (attempt (E := AppError) (run list_secondaries)) (fun r =>
    match r with
    | Ok (Some l) => sbind (wfold (E := AppError) (fun _ sec => poll_one transfer_text e net sec) l tt) (fun _ a => (a, tt))
    | _ => fun a => (a, tt)
    end))).
  - intros a. unfold sbind, poll_tick. destruct (attempt _ a) as [a1 [[l|]|err]]; [|done|done]. by destruct (wfold _ _ _ a1).
  - apply il_bind; [apply _|il_steps|]. intros [[l|]|err]; [|apply il_done..].
    apply il_bind; [apply _| |intros; apply il_done]. apply il_wfold. intros _ sec. unfold poll_one.
    destruct (negb _); [apply il_step|]. destruct (parse_primary _) as [primary|]; [|il_steps].
    destruct (Name_from_utf8 _); [|apply il_step]. apply il_wbind; [il_steps|intros signer].
    destruct (soa_serial _ _ _ _) as [serial|]; [|il_steps]. destruct (negb _); [|il_steps].
    apply (il_ext _ _ _ (sbind (transfer e net (sz_zone_id sec) (sz_name sec) primary (sz_tsig_key sec))
      (fun r => match r with Ok _ => fun a => (a, Ok tt) | Err err => record_error transfer_text e (sz_zone_id sec) err end))).
    + intros a. unfold sbind. by destruct (transfer _ _ _ _ _ _ a) as [a' [k|err]].
    + apply il_bind; [apply _|il_steps|]. intros [k|err]; [apply il_done|il_steps].
Defined.
End Background.

(** ** Any number of tasks *)

Section Overlap.
Context `{NETS : IpNets} `{HN : HickoryNames} `{TEXT : !HickoryText} `{SIGN : !Signers} `{RES : !HickoryResolvers}
  `{UNI : Unicode} `{TIME : Rfc3339} `{DT : DateTimes} `{CR : Credentials} `{TS : !TSigners} `{TOOLS : !DnssecTools} `{ZF : !ZoneFiles}
  `{ERR : !ErrorTexts} `{DQ : !DnsQueries} `{WIRE : !DnsWire} `{DEC : Decoders} `{MM : MaxMind}.
Context (tsig_text : TsigError -> string) (option_text : DhcpOption -> OptionError -> string) (VERSION : string)
  (assets : string -> option Asset).

Definition request_task (e : WebEnv) (net : Primaries) (env : Env) (vt : Vantage) (rq : HttpRequest)
    (H : management rq) : Task (option Response) :=
  task (il_request e net env tsig_text option_text VERSION vt assets rq H).
Definition worker_task {X} {m : St X} (i : Interleaved later observed Inv m) : Task (option Response) :=
  tbind (task i) (fun _ => Finished None).
(** What the DHCP server and the other workers run on the database, a statement at a time. *)
Inductive background : forall {X}, M X -> Prop :=
| bg_lease m : lease_statement m -> background m
| bg_address ts n ip ttl : background (dyndns_set_address ts n ip None ttl)
| bg_pointer ts n target ttl : background (register_ptr ts n target ttl)
| bg_log entries : background (insert_queries entries)
| bg_prune_log n : background (prune_query_log n)
| bg_sessions ts : background (prune_sessions ts)
| bg_leases now : background (prune_expired_leases now).

(** The shared state, the tasks that are under way, and the states the database has had.
    The audit of a request is a task of its own, which may start at any time
    ([ov_audit]); one that follows its request at once is in [request_task]. *)
Record Pool : Type := mkPool { pl_seen : list Db; pl_state : AppState; pl_tasks : list (Task (option Response)) }.

Inductive overlap : Pool -> Pool -> Prop :=
| ov_request seen a ts e net env vt rq H :
    overlap (mkPool seen a ts) (mkPool seen a (ts ++ [request_task e net env vt rq H]))
| ov_refresh seen a ts e : overlap (mkPool seen a ts) (mkPool seen a (ts ++ [worker_task (il_refresh e)]))
| ov_poll seen a ts e net : overlap (mkPool seen a ts) (mkPool seen a (ts ++ [worker_task (il_poll e net)]))
| ov_reload seen a ts : overlap (mkPool seen a ts) (mkPool seen a (ts ++ [worker_task (il_reload_store (E := AppError))]))
| ov_audit seen a ts e rq status : overlap (mkPool seen a ts) (mkPool seen a (ts ++ [worker_task (il_audit e rq status)]))
| ov_statement seen a ts X (m : M X) : background m ->
    overlap (mkPool seen a ts) (mkPool (fst (m (ap_db a)) :: seen) (with_db (fst (m (ap_db a))) a) ts)
| ov_query seen a ts env sends rq a' out : handle_request env sends rq a = Some (a', out) ->
    overlap (mkPool seen a ts) (mkPool seen a' ts)
| ov_doh seen a ts env client bytes a' r : doh_handle env client bytes a = Some (a', r) ->
    overlap (mkPool seen a ts) (mkPool seen a' ts)
| ov_step seen a ts a' ts' : sched (a, ts) (a', ts') -> overlap (mkPool seen a ts) (mkPool (ap_db a' :: seen) a' ts').

(** The invariant, with what each task under way relies on. *)
Definition pool_ok (ids : list Z) (p : Pool) : Prop :=
  let w := mkWorld ids (pl_seen p) in Inv w (pl_state p) /\ Forall (safe later observed Inv w) (pl_tasks p).

Lemma background_ok {X} (m : M X) : background m -> preserves db_ok m /\ leaves default_ids m.
Proof.
  intros []; (split; [|apply frame_defaults]); try db_statement; try solve [leave].
  all: destruct H; first [db_statement | leave].
Qed.

Lemma worker_safe {X} {m : St X} (i : Interleaved later observed Inv m) w : safe later observed Inv w (worker_task i).
Proof. apply safe_tbind; [apply _|apply task_safe|done]. Qed.
Lemma tasks_arrive ids seen a ts t :
  pool_ok ids (mkPool seen a ts) -> safe later observed Inv (mkWorld ids seen) t -> pool_ok ids (mkPool seen a (ts ++ [t])).
Proof. intros [Ha Hts] Ht. split; [done|]. cbn in *. apply Forall_app. split; [done|]. by repeat constructor. Qed.

Lemma static_pool ids seen a a' ts :
  static_part a' = static_part a -> pool_ok ids (mkPool seen a ts) -> pool_ok ids (mkPool seen a' ts).
Proof.
  intros Hs [[H1 H2 H3 H4] Hts]. injection Hs as E1 E2 E3 E4 E5 E6. split; [|done]. cbn in *.
  split; cbn; rewrite ?E1; [done..|]. apply (snapshots_same _ a); [|done]. unfold structures. congruence.
Qed.

Lemma pool_step ids p p' : overlap p p' -> pool_ok ids p -> pool_ok ids p'.
Proof.
  intros Ho Hp. destruct Ho as [seen a ts e net env vt rq H|seen a ts e|seen a ts e net|seen a ts|seen a ts e rq status|seen a ts X m Hm
    |seen a ts env sends rq a' out H|seen a ts env client bytes a' r H|seen a ts a' ts' Hs].
  - apply tasks_arrive; [done|apply task_safe].
  - apply tasks_arrive; [done|apply worker_safe].
  - apply tasks_arrive; [done|apply worker_safe].
  - apply tasks_arrive; [done|apply worker_safe].
  - apply tasks_arrive; [done|apply worker_safe].
  - destruct Hp as [[H1 H2 H3 H4] Hts]. apply background_ok in Hm as [Hm Hd]. cbn [pl_seen pl_state pl_tasks] in *.
    set (w := mkWorld ids seen) in *. set (a' := with_db _ a).
    destruct (inv_observed w a') as [I1 I2].
    + by apply Hm.
    + etransitivity; [|exact H2]. apply (leaves_eq _ m _ Hd).
    + apply (snapshots_same _ a); [done|]. eapply snapshots_incl; [|exact H4]. intros d Hin. by right.
    + split; [exact I1|]. eapply Forall_impl; [exact Hts|]. intros t Ht. by apply (safe_later _ _ _ _ w).
  - eapply static_pool; [by eapply static_request|done].
  - eapply static_pool; [by eapply static_doh|done].
  - destruct Hp as [Ha Hts]. cbn [pl_seen pl_state pl_tasks] in *. inversion Hs as [ts1 f ts2 a0 a1 t' Ef]; subst.
    apply Forall_app in Hts as [F1 [Ft F2]%Forall_cons]. cbn [safe] in Ft.
    specialize (Ft _ a (reflexivity _) Ha). rewrite Ef in Ft. destruct Ft as (I1 & I2 & I3).
    split; [exact I1|]. cbn [pl_tasks]. apply Forall_app. split; [|constructor; [exact I3|]];
      (eapply Forall_impl; [eassumption|]; intros t Ht; by apply (safe_later _ _ _ _ (mkWorld ids seen))).
Qed.

(** C4: the invariants hold between any two steps of overlapping requests: from a state with a
    consistent database and structures built from it, through any number of
    management requests, their audits, blocklist refreshes, zone transfers and reloads
    under way at once, with DNS and DoH queries and the statements of the other workers between
    their steps, the database stays consistent (so two concurrent set-ups never make
    two accounts), the default views stay, and the zone store, the filter and the
    conditional forwarders are each built from one state the database has had. *)
Theorem overlap_integrity a p :
  db_ok (ap_db a) -> snapshots [ap_db a] a -> rtc overlap (mkPool [ap_db a] a []) p ->
  db_ok (ap_db (pl_state p)) /\ default_ids (ap_db (pl_state p)) = default_ids (ap_db a) /\
  snapshots (pl_seen p) (pl_state p).
Proof.
  intros Ha Hs Hp. assert (pool_ok (default_ids (ap_db a)) p) as [[H1 H2 _ H4] _]; [|done].
  assert (pool_ok (default_ids (ap_db a)) (mkPool [ap_db a] a [])) as H0.
  { split; [|constructor]. split; [done|done|by left|done]. }
  clear Ha Hs. induction Hp as [|p1 p2 p3 Ho _ IH]; [done|]. by apply IH, (pool_step _ _ _ Ho).
Qed.
End Overlap.

(** ** What overlapping requests can do to each other *)

Section Races.
Context `{NETS : IpNets} `{HN : HickoryNames} `{TEXT : !HickoryText} `{SIGN : !Signers} `{RES : !HickoryResolvers}
  `{DT : DateTimes} `{CR : Credentials} `{TS : !TSigners} `{TOOLS : !DnssecTools} `{ZF : !ZoneFiles} `{ERR : !ErrorTexts}.
Context (tsig_text : TsigError -> string).
Abbreviation Il := (Interleaved later observed Inv).

Definition il_delete_zone id : Il (api_delete_zone id).
Proof. il_steps. Defined.
Definition il_get_settings : Il (run get_settings).
Proof. il_statement. Defined.
Definition il_store_settings req s :
  Il (let+ s := lift (update_settings tsig_text req s) in
      run (put_settings s) >>> updates (apply_settings s) >>> wret (ok_json (JObj [("settings", JData (PSettings s))]))).
Proof. il_steps. Defined.
Definition il_put_settings req : Il (api_put_settings tsig_text req) :=
  il_wbind _ _ il_get_settings (il_store_settings req).

(** The deletion of a zone, its second step the read for the reload, its third the replacement. *)
Definition swap_store (s : ZoneStore) : Task (result Response AppError) :=
  Atom (fun a => (put_store s a, Finished (Ok no_content))).
Lemma zone_task_eq id :
  task (il_delete_zone id) =
    db_atom (fun d => (fst (delete_zone id d), db_atom (fun d => (d, swap_store (build_from d))))).
Proof. reflexivity. Qed.

(** two deletions of zones may overlap so that both succeed, the database has neither zone,
    and the zone store is the one from before the second deletion: the reload reads the
    database and replaces the store in two steps, and the older store is put in place
    last. *)
Theorem reload_race z1 z2 a :
  let d1 := fst (delete_zone z1 (ap_db a)) in
  exists a', rtc sched (a, [task (il_delete_zone z1); task (il_delete_zone z2)])
               (a', [Finished (Ok no_content); Finished (Ok no_content)]) /\
    ap_db a' = fst (delete_zone z2 d1) /\ ap_store a' = build_from d1.
Proof.
  intros d1. rewrite !zone_task_eq.
  exists (put_store (build_from d1) (put_store (build_from (fst (delete_zone z2 d1)))
            (with_db (fst (delete_zone z2 d1)) a))). split; [|done].
  eapply rtc_l; [by apply (sched_step [])|]. eapply rtc_l; [by apply (sched_step [])|]. cbn [fst snd app].
  etransitivity; [by eapply (sched_alone [swap_store (build_from d1)] _ [])|].
  eapply rtc_l; [by apply (sched_step [])|]. apply rtc_refl.
Qed.

Definition settings_response (s : Settings) : Response := ok_json (JObj [("settings", JData (PSettings s))]).
Lemma store_settings_alone req s0 s a :
  update_settings tsig_text req s0 = Ok s ->
  alone (task (il_store_settings req s0)) a =
    (apply_settings s (with_db (set_settings (Some s) (ap_db a)) a), Ok (settings_response s)).
Proof. intros H. rewrite task_alone. unfold wbind at 1, lift. by rewrite H. Qed.

(** two changes of the settings may overlap so that both succeed and nothing is left of the
    first: each is computed from the settings it read, and the second is stored over
    the first. *)
Theorem settings_race r1 r2 a s1 s2 :
  let s0 := default Settings_default (settings (ap_db a)) in
  update_settings tsig_text r1 s0 = Ok s1 -> update_settings tsig_text r2 s0 = Ok s2 ->
  exists a', rtc sched (a, [task (il_put_settings r1); task (il_put_settings r2)])
               (a', [Finished (Ok (settings_response s1)); Finished (Ok (settings_response s2))]) /\
    settings (ap_db a') = Some s2 /\ ap_settings a' = s2.
Proof.
  intros s0 H1 H2.
  assert (Hread : forall req, exists f, task (il_put_settings req) = Atom f /\
    forall b, default Settings_default (settings (ap_db b)) = s0 -> f b = (b, task (il_store_settings req s0))).
  { intros req. eexists. split; [reflexivity|]. intros b <-. cbn -[with_db il_store_settings]. by rewrite with_db_id. }
  destruct (Hread r1) as (f1 & -> & F1), (Hread r2) as (f2 & -> & F2).
  set (a1 := apply_settings s1 (with_db (set_settings (Some s1) (ap_db a)) a)).
  exists (apply_settings s2 (with_db (set_settings (Some s2) (ap_db a1)) a1)). split; [|done].
  eapply rtc_l; [apply (sched_step []); by apply F1|]. eapply rtc_l; [apply (sched_step [_]); by apply F2|].
  etransitivity; [apply (sched_alone [] _ [_]); by apply store_settings_alone|].
  apply (sched_alone [_] _ []). by apply store_settings_alone.
Qed.
End Races.
