(* ===== verification/DnsExamples.v ===== *)
(** * Witnesses for the store and the query path

    The theorems of the DNS side at a concrete database: a zone with a
    split-horizon name, a CNAME chain and a wildcard, evaluated with the
    instances of [Instances]. *)

From S2P Require Import Prelude Strs Net Geo External Models Serde Instances Db DbDns DbFilter Filter Upstream Cache Stats.
From S2P Require Import Mdns Dnssec Store State Resolve.

Definition ex_dns_db : Db :=
  fold_left (fun d o => run_op o d)
    [OpDefaultView "t0";
     OpCreateView "t0" "office" ["10.0.0.0/8"] 10 [] [] [];
     OpCreateZone "t0" "lan" (Soa_default_for "lan") 300;
     OpCreateZone "t0" "home.lan" (Soa_default_for "home.lan") 300;
     OpCreateRecord "t1" 2 None "nas" "A" None "192.168.1.7";
     OpCreateRecord "t1" 2 (Some 2) "nas" "A" (Some 60) "10.0.0.7";
     OpCreateRecord "t1" 2 None "www" "CNAME" None "nas";
     OpCreateRecord "t1" 2 None "*" "A" None "192.168.1.99"]
    empty_db.

Definition ex_host : Name := ["nas"; "home"; "lan"].
Definition ex_store : ZoneStore := build_from ex_dns_db.
Definition ex_office : IpAddr := V4 (Ipv4Addr_new 10 1 2 3).
Definition ex_public : IpAddr := V4 (Ipv4Addr_new 8 8 8 8).

(** The office sees the view's address through the alias; the others see the
    general one. *)
Example store_office :
  rec_data <$> lr_answers (lookup ex_store ["www"; "home"; "lan"] A ex_office ClientGeo_default) =
  [RD_CNAME ["nas"; "home"; "lan"]; RD_A (Ipv4Addr_new 10 0 0 7)].
Proof. vm_refl. Qed.

Example store_public :
  rec_data <$> lr_answers (lookup ex_store ["www"; "home"; "lan"] A ex_public ClientGeo_default) =
  [RD_CNAME ["nas"; "home"; "lan"]; RD_A (Ipv4Addr_new 192 168 1 7)].
Proof. vm_refl. Qed.

Example store_wildcard :
  rec_data <$> lr_answers (lookup ex_store ["a"; "b"; "home"; "lan"] A ex_public ClientGeo_default) =
  [RD_A (Ipv4Addr_new 192 168 1 99)].
Proof. vm_refl. Qed.

Definition ex_home : StoredZone :=
  match zone_for ex_store ["home"; "lan"] with
  | Some z => z
  | None => mkStoredZone [] 0 (mkSOA [] [] 0 0 0 0 0) 0 ∅ None
  end.
Definition ex_nas : DRecord := mkRecord ex_host 60 (RD_A (Ipv4Addr_new 10 0 0 7)).

Lemma lookup_no_leak_witness :
  exists z, zone_for ex_store ex_host = Some z /\
    (ex_nas = soa_record z \/ from_view z (client_view ex_store ex_office ClientGeo_default) ex_nas).
Proof.
  apply (lookup_no_leak ex_store ex_host A ex_office ClientGeo_default ex_nas).
  apply list_elem_of_In. change (ex_nas ∈ lr_answers (lookup ex_store ex_host A ex_office ClientGeo_default)).
  eapply bool_decide_eq_true. vm_refl.
Defined.

Lemma zone_for_longest_witness :
  forall z', In z' (zs_zones (build_from ex_dns_db)) -> zone_of (sd_apex z') ex_host = true ->
    sd_label_count z' <= sd_label_count ex_home.
Proof.
  intros z' Hin Hz. apply (zone_for_longest ex_dns_db ex_host ex_home z'); [|exact Hin|exact Hz].
  vm_refl.
Defined.

Definition ex_axfr : list DRecord := default [] (axfr ex_store ["home"; "lan"] ex_office).

Lemma axfr_stream_witness :
  exists z body, In z (zs_zones ex_store) /\ name_key (sd_apex z) = name_key ["home"; "lan"] /\
    ex_axfr = soa_record z :: body ++ [soa_record z] /\
    forall r, In r body <->
      exists key recs owner x, sd_records z !! key = Some recs /\ Name_from_utf8 (key +:+ ".") = Some owner /\
        visible recs (client_view ex_store ex_office ClientGeo_default) x /\ r = mkRecord owner (sr_ttl x) (sr_rdata x).
Proof.
  apply (axfr_stream ex_store ["home"; "lan"] ex_office ex_axfr). vm_refl.
Defined.

Definition ex_zone : Zone :=
  match snd (list_zones ex_dns_db) with Ok (z :: _) => z | _ => mkZone 0 "" false (Soa_default_for "") 0 0 0 false None None None false "" "" end.

Lemma store_load_witness :
  zn_enabled ex_zone = true /\
  forall k, default [] (sd_records ex_home !! k) =
    snd <$> List.filter (fun e => bool_decide (fst e = k))
              (omap (record_entry ex_zone)
                 (match snd (list_records (zn_id ex_zone) ex_dns_db) with Ok rs => rs | Err _ => [] end)).
Proof. apply (store_load ex_dns_db ex_zone ex_home). vm_refl. Defined.

(** A self-referring alias: the chain is cut after nine records. *)
Definition ex_loop : StoredZone :=
  mkStoredZone ["lan"] 1 (mkSOA [] [] 0 0 0 0 0) 60
    {[ "a.lan" := [mkStoredRecord CNAME 60 None (RD_CNAME ["a"; "lan"])] ]} None.
Definition ex_loop_recs : list StoredRecord := [mkStoredRecord CNAME 60 None (RD_CNAME ["a"; "lan"])].

Lemma chase_bounded_witness :
  length (chase 8 ex_loop NO_VIEW A ["a"; "lan"] (resolve ex_loop_recs NO_VIEW CNAME)) = 9%nat /\
  (length (chase 8 ex_loop NO_VIEW A ["a"; "lan"] (resolve ex_loop_recs NO_VIEW CNAME)) <= 9 * 1)%nat.
Proof.
  split; [vm_refl|]. apply (chase_bounded ex_loop NO_VIEW A ["a"; "lan"] ex_loop_recs 1).
  - intros key rs t Hk. cbn [sd_records ex_loop] in Hk. apply lookup_singleton_Some in Hk as [_ <-].
    assert (forall l : list StoredRecord, length l = 1%nat -> (length (resolve l NO_VIEW t) <= 1)%nat) as H.
    { intros l Hl. unfold resolve. destruct (List.filter _ l) eqn:E; [|rewrite <- E]; rewrite <- Hl; apply filter_length_le. }
    by apply H.
  - vm_compute. lia.
Defined.

(** ** Filtering *)

Definition ex_filter_db : Db :=
  fst (create_rewrite "t1" "printer.lan" "192.168.1.20" None
    (fst (create_block_rule "t1" "*.ok.example." Allow None
      (fst (create_blocklist "t0" "ads" "https://lists/ads" Hosts true ex_dns_db))))).
Definition ex_list_text : string :=
  concat_str ["# ads"; String newline ""; "0.0.0.0 Ads.Example.COM"; String newline ""; "0.0.0.0 localhost"].

Lemma blocklist_refresh_witness :
  exists d', replace_blocklist_entries "t2" 1 (parse_blocklist ex_list_text Hosts) None ex_filter_db = (d', Ok tt) /\
    decide_name (build_filter d' true) "ads.example.com" = DBlock.
Proof.
  destruct (blocklist_refresh "t2" 1 ex_list_text Hosts ex_filter_db) as (d' & Hrun & _ & _ & Hblock).
  - exists (mkBlocklistRow 1 "ads" "https://lists/ads" Hosts true None None "t0").
    split; [left; reflexivity|split; reflexivity].
  - exists d'. split; [exact Hrun|]. apply (Hblock "ads.example.com"); [vm_compute; left; reflexivity| |].
    + intros rw t ([<-|[]] & _ & _ & Hc). vm_compute in Hc. discriminate.
    + intros (r & [<-|[]] & _ & Hc). vm_compute in Hc. discriminate.
Defined.

(** Relative names in record data are completed with the zone's (the unit test of [parse_rdata]). *)
Definition rdata_text (rtype : RecordType) (data zone : string) : string :=
  match parse_rdata rtype data zone with Ok d => RData_to_string d | Err _ => "" end.
Example relative_names :
  rdata_text SRV "0 5 5060 sip" "home.lan" = "0 5 5060 sip.home.lan." /\
  rdata_text CNAME "host.example.com." "home.lan" = "host.example.com.".
Proof. split; vm_refl. Qed.

(** ** The cache *)

Definition ex_answer : list DRecord := [mkRecord ex_host 300 (RD_A (Ipv4Addr_new 93 184 216 34))].
Definition ex_cache0 : DnsCache := DnsCache_new 2 0 86400.
Definition ex_cache : DnsCache := default ex_cache0 (cache_put ex_cache0 ex_host A ex_answer [] NoError 0).

Lemma ex_cache_put : cache_put ex_cache0 ex_host A ex_answer [] NoError 0 = Some ex_cache.
Proof. vm_refl. Qed.

Lemma ex_cache_map : dc_map ex_cache = {[cache_key ex_host A := mkEntry ex_answer [] NoError (300 * NANOS)]}.
Proof. vm_refl. Qed.

(** The types of the crate that it holds fit the file. *)
Lemma ex_cache_fits : cache_fits ex_cache.
Proof.
  intros name t e He. rewrite ex_cache_map in He. apply lookup_singleton_Some in He as [E <-].
  assert (t = A) as -> by (vm_compute in E; congruence).
  split; [split; vm_refl|]. split; [split; vm_refl|]. split; [|apply List.Forall_nil].
  apply List.Forall_cons; [split; vm_refl|apply List.Forall_nil].
Qed.

(** The cache of the next run, which loads the file of this one. *)
Definition ex_loaded : DnsCache := fst (cache_load ex_cache0 (Some (cache_save ex_cache NANOS)) 7).
Example ex_loaded_size : map_len (dc_map ex_loaded) = 1.
Proof. vm_refl. Qed.

Lemma ex_persisted : persisted ex_cache NANOS = [mkPersisted "nas.home.lan" A NoError 299 ex_answer []].
Proof. vm_refl. Qed.

Lemma cache_invariant_witness :
  map_len (dc_map ex_loaded) <= dc_cap ex_loaded /\ forall k e, dc_map ex_loaded !! k = Some e -> en_rcode e <> ServFail.
Proof.
  destruct (cache_invariant (fun text => text = cache_save ex_cache NANOS) ex_loaded) as [H1 H2].
  - apply cr_load; [apply cr_new|reflexivity].
  - split; [exact H1|]. apply H2. intros text entries p -> Hr Hp. rewrite read_cache_save in Hr by exact ex_cache_fits.
    rewrite ex_persisted in Hr. injection Hr as <-. destruct Hp as [<-|[]]. discriminate.
Defined.

Lemma cache_put_get_witness :
  snd (cache_get ex_cache ex_host A (299 * NANOS)) = Some (mkCachedAnswer ex_answer [] NoError).
Proof.
  destruct (cache_put_get ex_cache0 ex_host A ex_answer [] NoError 0 ex_cache) as (ttl & _ & Hc & H).
  - exact ex_cache_put.
  - discriminate.
  - vm_compute. reflexivity.
  - rewrite (H ex_host A (299 * NANOS)) by (vm_compute; discriminate). rewrite decide_True by reflexivity.
    assert (ttl = 300) as -> by (vm_compute in Hc; congruence). reflexivity.
Defined.

Lemma cache_save_load_witness :
  snd (cache_get (fst (cache_load (DnsCache_new (dc_cap ex_cache) 0 86400) (Some (cache_save ex_cache NANOS)) 7))
         ex_host A 8) = Some (mkCachedAnswer ex_answer [] NoError).
Proof.
  destruct (cache_save_load ex_cache NANOS 7 0 86400 ex_host A) as [_ H].
  - constructor; vm_compute; discriminate.
  - exact ex_cache_fits.
  - intros k e Hk. rewrite ex_cache_map in Hk. apply lookup_singleton_Some in Hk as [_ <-]. vm_compute. discriminate.
  - apply (H (mkEntry ex_answer [] NoError (300 * NANOS)) 1); [vm_refl|split; vm_compute; [discriminate|reflexivity]].
Defined.

(** ** Statistics *)

Lemma series_exact_witness :
  series_recent (series_of [0; 400; 400; 401]) 401 = count_at [0; 400; 400; 401] <$> last_seconds 401 SERIES_OUTPUT /\
  qps_sum (series_of [0; 400; 400; 401]) 401 10 = 3.
Proof.
  destruct (series_exact [0; 400; 400; 401] 401 10) as [H1 H2].
  - repeat (apply List.Forall_cons; [lia|]). constructor.
  - unfold is_u64. lia.
  - repeat constructor; lia.
  - unfold SERIES_WINDOW. lia.
  - split; [exact H1|]. rewrite H2. reflexivity.
Defined.

Lemma stats_privacy_witness :
  anonymize (V4 (Ipv4Addr_new 10 1 2 3)) = "10.1.2.0/24" /\
  snd (stats_record "t" 0 Anonymized (V4 (Ipv4Addr_new 10 1 2 3)) None "a.lan" "A" QForwarded "NOERROR" Stats_new) =
  snd (stats_record "t" 0 Anonymized (V4 (Ipv4Addr_new 10 1 2 99)) None "a.lan" "A" QForwarded "NOERROR" Stats_new).
Proof.
  split; [reflexivity|].
  destruct (stats_privacy "t" 0 (V4 (Ipv4Addr_new 10 1 2 3)) (V4 (Ipv4Addr_new 10 1 2 99)) None None "a.lan" "b.lan" "A"
              QForwarded "NOERROR" "NOERROR" Stats_new) as [H _]; [reflexivity|]. rewrite H. reflexivity.
Defined.

(** ** The query path *)

#[export] Instance ex_resolvers : HickoryResolvers := {|
  TokioResolver := unit; build_resolver _ _ := Some tt; Recursor := unit; recursor_new _ _ _ := Some tt |}.
#[export] Instance ex_unicode : Unicode := {|
  domain_to_unicode s := s; is_alphabetic c := negb (bool_decide (c = "-")); Script := bool;
  script c := is_ascii c; neutral_script _ := false |}.

Definition ex_net (answers : list DRecord) : Network :=
  mkNetwork (fun _ _ _ => FlAnswers answers []) (fun _ _ _ => RlMessage answers [] NoError).
Definition ex_env (now : Z) (answers : list DRecord) : Env :=
  mkEnv "t" 0 now 0 5 (ex_net answers) (fun l => l) (fun _ => ClientGeo_default) true true.
Definition ex_app : AppState :=
  AppState_new ex_filter_db ex_store (Some (UpForward tt)) [] (build_filter ex_filter_db true) Settings_default.
Definition ex_remote : Name := ["www"; "example"; "com"].
Definition ex_remote_answer : list DRecord := [mkRecord ex_remote 300 (RD_A (Ipv4Addr_new 93 184 216 34))].

Definition ex_result : option (AppState * ResolveOutput) :=
  resolve_query (ex_env 0 ex_remote_answer) ex_app ex_remote A ex_public false.

Example resolve_forwards : option_map (fun r => ro_answers (snd r)) ex_result = Some ex_remote_answer.
Proof. vm_refl. Qed.

Lemma load_balance_spread_witness :
  apply_load_balance ex_answer RoundRobin 5 (fun l => l) ≡ₚ ex_answer.
Proof. apply (load_balance_spread ex_answer RoundRobin 5 (fun l => l)). reflexivity. Defined.

Lemma resolve_no_leak_witness :
  resolve_query (with_net (ex_net []) (ex_env 0 [])) ex_app ex_host A ex_office false =
  resolve_query (with_net (ex_net ex_remote_answer) (ex_env 0 [])) ex_app ex_host A ex_office false.
Proof.
  apply (resolve_no_leak (ex_net []) (ex_net ex_remote_answer) (ex_env 0 []) ex_app ex_host A ex_office false).
  left. assert (is_Some (zone_for (ap_store ex_app) ex_host)) as [z Hz]; [|rewrite Hz; discriminate].
  exists ex_home. vm_refl.
Defined.

Definition ex_after : AppState := match ex_result with Some r => fst r | None => ex_app end.
Definition ex_out : ResolveOutput := match ex_result with Some r => snd r | None => mkResolveOutput [] [] NoError false false end.

Lemma resolve_counts_once_witness : queries_total ex_after = u64_succ (queries_total ex_app).
Proof.
  apply (resolve_counts_once (ex_env 0 ex_remote_answer) ex_app ex_remote A ex_public false ex_after ex_out). vm_refl.
Defined.

Lemma resolve_no_panic_witness :
  exists a' out, resolve_query (ex_env 0 ex_remote_answer) ex_app ex_remote A ex_public false = Some (a', out).
Proof.
  apply (resolve_no_panic (ex_env 0 ex_remote_answer) ex_app ex_remote A ex_public false). vm_compute. discriminate.
Defined.

Lemma resolve_authoritative_witness :
  exists a' out, resolve_query (ex_env 0 []) ex_app ex_host A ex_office false = Some (a', out) /\
    ro_authoritative out = true /\ ap_cache a' = ap_cache ex_app.
Proof.
  destruct (resolve_authoritative (ex_env 0 []) ex_app ex_host A ex_office) as (a' & out & H & _ & _ & _ & Haa & Hc).
  - reflexivity.
  - assert (is_Some (zone_for (ap_store ex_app) ex_host)) as [z Hz]; [|rewrite Hz; discriminate].
    exists ex_home. vm_refl.
  - reflexivity.
  - reflexivity.
  - exists a', out. split; [exact H|]. split; [exact Haa|exact Hc].
Defined.

Definition ex_fetch : option (AppState * ResolveOutput * QueryOutcome) :=
  resolve_upstream (ex_env 0 ex_remote_answer) ex_app "www.example.com" ex_remote A true.
Definition ex_fetched : AppState * ResolveOutput * QueryOutcome :=
  default (ex_app, ex_out, QRefused) ex_fetch.

Lemma resolve_cached_witness :
  (forall e2, 0 <= ev_now e2 < 300 * NANOS ->
    exists a2, resolve_upstream e2 (fst (fst ex_fetched)) "www.example.com" ex_remote A true =
               Some (a2, snd (fst ex_fetched), QCached)) /\
  (forall e2 a2 out2 stat2, 300 * NANOS <= ev_now e2 ->
    resolve_upstream e2 (fst (fst ex_fetched)) "www.example.com" ex_remote A true = Some (a2, out2, stat2) ->
    stat2 <> QCached).
Proof.
  destruct (resolve_cached (ex_env 0 ex_remote_answer) ex_app "www.example.com" ex_remote A true (fst (fst ex_fetched))
           (snd (fst ex_fetched)) QForwarded) as (raw & ttl & Hraw & Httl & H1 & H2).
  - reflexivity.
  - vm_refl.
  - left. reflexivity.
  - vm_compute. reflexivity.
  - assert (ttl = 300) as ->.
    { assert (ro_answers (snd (fst ex_fetched)) ++ ro_authority (snd (fst ex_fetched)) = ex_remote_answer) as E by vm_refl.
      rewrite E in Hraw. destruct Hraw as [(r & [<-|[]] & ->) _]. subst ttl. vm_compute. reflexivity. }
    split; [exact H1|]. intros e2 a2 out2 stat2 He2 Hr. destruct (H2 e2 a2 out2 stat2 He2 Hr) as (up & _ & -> & _).
    unfold upstream_stat. by repeat case_match.
Defined.
