(* ===== verification/WebExamples.v ===== *)
(** * Witnesses for the web side, transfers and protocol handlers

    The theorems at a server with one account, one live session, a zone and a
    DynDNS token, evaluated with the instances of [Instances]. *)

From S2P Require Import Prelude Strs Float Net Geo External Instances Models DhcpOptions Db DbDns DbFilter DbDhcp DbAdmin.
From S2P Require Import Filter Upstream Cache Stats Mdns Dnssec Store State Config Web Auth DynDns Transfer Replicate ApiZones.
From S2P Require Import ApiFilter ApiDhcp Reports Sync Resolve Handler Router Privacy Integrity Serve DnsExamples.

#[export] Instance ex_texts : ErrorTexts := {|
  model_text _ _ := "bad"; name_text _ := "bad name"; transfer_text _ := "transfer failed" |}.

(** ** The server *)

Definition ex_web (clock : Z) : WebEnv :=
  mkWebEnv Config_default clock clock (to_be 8 clock) (to_be 8 (clock + 1)) [5] (fun _ => Err "offline").

Definition ex_token_db : Db :=
  fst (create_dyndns_token "t1" "router" "router" "s3cret" ["nas.home.lan"; "cam.home.lan"] None 60 ex_dns_db).

(** What the program holds after its start on a database. *)
Definition ex_boot (d : Db) : AppState :=
  apply_settings (db_settings d) (AppState_new d (build_from d) None [] (build_filter d true) (db_settings d)).

Definition ex_start : AppState := ex_boot ex_token_db.

Definition ex_setup_request : SetupRequest := mkSetupRequest "admin" "correct horse battery".
Definition ex_ready : AppState := fst (setup (ex_web 0) ex_setup_request ex_start).
Definition ex_login_request : LoginRequest := mkLoginRequest "admin" "correct horse battery".
Definition ex_logged_in : AppState := fst (login (ex_web NANOS) ex_login_request ex_ready).
(** The texts a session started at a time gets. *)
Definition ex_token (clock : Z) : string := random_token (we_token (ex_web clock)).
Definition ex_csrf (clock : Z) : string := random_token (we_csrf (ex_web clock)).
Definition ex_cookies : Headers := browser_headers (ex_token NANOS) (ex_csrf NANOS).

Ltac decided := apply (bool_decide_unpack _); vm_compute; exact I.
Ltac all_rows := apply List.Forall_forall; decided.

Lemma ex_ready_ok : db_ok (ap_db ex_ready).
Proof.
  constructor.
  - constructor; try decided; [all_rows|].
    intros r v Hr Hv. assert (forallb (fun r => match rr_view_id r with
      | Some v => bool_decide (v ∈ vw_id <$> views (ap_db ex_ready)) | None => true end) (records (ap_db ex_ready)) = true)
      as H by vm_refl.
    rewrite forallb_forall in H. specialize (H r Hr). rewrite Hv in H. by apply bool_decide_eq_true in H.
  - constructor; try decided; by intros x Hx%elem_of_nil.
  - constructor; try decided; by intros x Hx%elem_of_nil.
  - split; apply consecutive_nil.
  - unfold tokens_ok. decided.
  - reflexivity.
  - constructor; try decided; all_rows.
  - constructor; try decided. all_rows.
  - vm_compute. lia.
Qed.

Lemma ex_logged_in_ok : admin_ok (ap_db ex_logged_in).
Proof. constructor; try decided. all_rows. Qed.

Lemma ex_ready_synced : synced ex_ready.
Proof. split; intros; vm_refl. Qed.

(** A step runs to the state it computes; only its result is evaluated. *)
Lemma runs_to {S X} (p : S * X) x : snd p = x -> p = (fst p, x).
Proof. intros <-. apply surjective_pairing. Qed.

Definition response_of (r : result Response AppError) : Response := match r with Ok r => r | Err e => error_response e end.
Lemma runs_ok {S} (p : S * result Response AppError) : is_ok (snd p) = true -> p = (fst p, Ok (response_of (snd p))).
Proof. destruct p as [s [r|err]]; [done|discriminate]. Qed.

(** ** Accounts and sessions *)

Definition ex_user : UserRow := mkUserRow 1 "admin" "correct horse battery" false (we_ts (ex_web 0)).

Lemma session_valid_witness :
  (exists auth, snd (resolve_session (ex_web 2) ex_cookies ex_logged_in) = Ok auth) /\
  forall err, snd (resolve_session (ex_web 2) ex_cookies ex_logged_in) = Err err -> err = unauthorized.
Proof.
  destruct (session_valid (ex_web 2) ex_cookies ex_logged_in) as (H & He & _); [exact ex_logged_in_ok|].
  split; [|exact He]. exists (mkAuthed (user_public ex_user) (ex_csrf NANOS)). vm_refl.
Defined.


Lemma setup_once_witness :
  users (ap_db ex_start) = [] /\ exists err, setup (ex_web 9) (mkSetupRequest "eve" "let me in please") ex_ready = (ex_ready, Err err).
Proof.
  destruct (setup_once (ex_web 0) ex_setup_request ex_start ex_ready
    (with_cookies 201 (JObj [("user", JData (PUser (user_public ex_user)))])
       (session_cookies (ex_web 0) (ex_token 0) (ex_csrf 0)))
    (ex_web 9) (mkSetupRequest "eve" "let me in please")) as (H1 & _ & H3).
  - vm_refl.
  - split; [exact H1|exact H3].
Defined.

Definition ex_logged_out : AppState := fst (logout (ex_web 2) ex_cookies ex_logged_in).

Lemma logout_ends_witness : snd (resolve_session (ex_web 3) ex_cookies ex_logged_out) = Err unauthorized.
Proof.
  destruct (logout_ends (ex_web 2) ex_cookies ex_logged_in ex_logged_out
    (with_cookies 204 (JObj []) [session_cookie "" false 0; csrf_cookie "" false 0]) (ex_web 3)) as [H _];
    [vm_refl|exact H].
Defined.

Definition ex_guess : LoginRequest := mkLoginRequest "admin" "guess".


Lemma throttle_grows_witness :
  size (ap_throttle (fst (login (ex_web 1) ex_guess ex_ready))) = S (size (ap_throttle ex_ready)).
Proof. apply (throttle_grows (ex_web 1) ex_guess ex_ready); [vm_compute; reflexivity|vm_refl]. Defined.

Definition ex_admin : Authed := mkAuthed (user_public ex_user) (ex_csrf NANOS).

Lemma password_change_witness :
  let req := mkChangePasswordRequest "correct horse battery" "another long one" in
  12 <= len "another long one" /\
  sessions (ap_db (fst (change_password (ex_web 2) ex_admin req ex_logged_in))) = sessions (ap_db ex_logged_in).
Proof.
  intros req.
  destruct (password_change (ex_web 2) ex_admin req ex_logged_in
              (fst (change_password (ex_web 2) ex_admin req ex_logged_in)) no_content) as (H & u & h & _ & _ & _ & _ & Hs).
  - vm_refl.
  - split; [exact H|exact Hs].
Defined.

(** ** DynDNS *)

Definition ex_basic : Headers := mkHeaders None None (Some "Basic router:s3cret").
Definition ex_params : gmap string string := {[ "hostname" := "nas.home.lan,other.home.lan"; "myip" := "203.0.113.9" ]}.
Definition ex_router : DynDnsAuthRow := default (mkAuthRow 0 "" [] None 0 false) (token_of ex_basic (ap_db ex_ready)).
Definition ex_wan : IpAddr := V4 (Ipv4Addr_new 203 0 113 9).

Lemma ex_router_token : token_of ex_basic (ap_db ex_ready) = Some ex_router.
Proof. vm_refl. Qed.

Lemma nic_update_scope_witness :
  da_hostnames ex_router = ["nas.home.lan"; "cam.home.lan"] /\
  within ex_router (ap_db ex_ready) (ap_db (fst (nic_update (ex_web 5) ex_public ex_basic ex_params ex_ready))).
Proof.
  split; [vm_refl|].
  pose proof (nic_update_scope (ex_web 5) ex_public ex_basic ex_params ex_ready (ok_dns _ ex_ready_ok)) as H.
  rewrite ex_router_token in H. exact H.
Defined.

Definition ex_updated : AppState * Response := nic_update (ex_web 5) ex_public ex_basic ex_params ex_ready.

Lemma nic_update_points_witness :
  rp_body (snd ex_updated) <> NoBody /\ settled ex_router (ap_db (fst ex_updated)) "nas.home.lan" ex_wan.
Proof.
  split; [vm_compute; discriminate|].
  apply (nic_update_points (ex_web 5) ex_public ex_basic ex_params ex_ready (fst ex_updated) (snd ex_updated) ex_router
           "nas.home.lan" ex_wan).
  - apply ex_ready_ok.
  - exact ex_router_token.
  - apply surjective_pairing.
  - vm_refl.
  - exists "nas.home.lan,other.home.lan". split; [vm_refl|decided].
  - decided.
  - vm_compute. discriminate.
  - decided.
Defined.

(** ** Zone transfers *)

Definition ex_soa : DRecord := mkRecord ["home"; "lan"] 300 (RD_SOA (mkSOA ["ns"; "lan"] ["admin"; "lan"] 42 1 2 3 4)).
Definition ex_primaries : Primaries :=
  mkPrimaries (fun _ rt _ => Some [if bool_decide (rt = SOA) then 6 else 252])
    (fun bytes => if bool_decide (bytes = [6]) then Some [ex_soa]
                  else if bool_decide (bytes = [1; 1]) then Some [ex_soa; mkRecord ["nas"; "home"; "lan"] 60 (RD_A (Ipv4Addr_new 10 9 9 9))]
                  else None)
    (fun _ _ query => Some query)
    (fun _ query => if bool_decide (query = [0; 1; 252]) then Some [0; 2; 1; 1; 0; 1; 6; 0] else None).
Definition ex_transferred : AppState :=
  fst (transfer (ex_web 7) ex_primaries 2 "home.lan" (SockV4 (Ipv4Addr_new 10 0 0 1) 53) None ex_ready).

Lemma transfer_installs_witness :
  exists new, length new = 1%nat /\
    records (ap_db ex_transferred) = delete_where (fun r => rr_zone_id r =? 2) (records (ap_db ex_ready)) ++ new /\
    ap_store ex_transferred = build_from (ap_db ex_transferred).
Proof.
  destruct (transfer_installs (ex_web 7) ex_primaries 2 "home.lan" (SockV4 (Ipv4Addr_new 10 0 0 1) 53) None ex_ready
    ex_transferred 1) as (origin & recs & s & new & _ & _ & _ & _ & Hnew & _ & Hn & Hst).
  - vm_refl.
  - unfold ex_transferred. apply runs_to. vm_refl.
  - exists new. split; [symmetry; exact Hn|]. split; [exact Hnew|exact Hst].
Defined.

(** An answer in two messages, with another message behind it. *)
Definition ex_nas_record : DRecord := mkRecord ["nas"; "home"; "lan"] 60 (RD_A (Ipv4Addr_new 10 9 9 9)).
Definition ex_messages : list (list DRecord) := [[ex_soa]; [ex_nas_record; ex_soa]; [ex_nas_record]].

Lemma axfr_bounded_witness :
  exists read, ex_messages = read ++ [[ex_nas_record]] /\ Z.of_nat (length read) <= MAX_RECORDS + 1 /\
    concat read = [ex_soa; ex_nas_record; ex_soa].
Proof.
  pose proof (axfr_bounded ex_messages) as H.
  assert (axfr_loop ex_messages [] = (Ok [ex_soa; ex_nas_record; ex_soa], [[ex_nas_record]])) as E by vm_refl.
  rewrite E in H. destruct H as (read & Hm & Hb & Ho). exists read. split; [exact Hm|]. split.
  - apply Hb. apply (app_inj_tail [[ex_soa]; [ex_nas_record; ex_soa]]) in Hm as [<- _]. repeat (apply List.Forall_cons; [discriminate|]). constructor.
  - destruct (Ho _ eq_refl) as [Hc _]. symmetry. exact Hc.
Defined.

(** ** The protocol handlers *)

Definition ex_key : TsigKey := mkTsigKey "transfer" "hmac-sha256" "k1".
Definition ex_axfr_settings : Settings :=
  mkSettings [mkForwarder "1.1.1.1" Udp 53 None] Forward BlockNxDomain true QlOff HmOff 1024 0 86400 false
    ["10.0.0.0/8"] [ex_key] true LbOff [] false "" 120 false
    [] [] [] [] [] "" 0 "" false [] "" false "" "" None "" "" [] 0.
Definition ex_axfr_app : AppState := apply_settings ex_axfr_settings ex_ready.
Definition ex_axfr_info : RequestInfo := mkRequestInfo ex_office ProtoTcp ["home"; "lan"] AXFR OpQuery 9.
(** The signed request carries the key's bytes. *)
Definition ex_signed : Request := mkRequest (Some ex_axfr_info) None (Some ["transfer"]) (as_bytes "k1").
Definition ex_unsigned : Request := mkRequest (Some ex_axfr_info) None None [].
Definition answer_count (x : option (AppState * (list DnsResponse * ResponseInfo))) : list (ResponseCode * nat) :=
  match x with Some (_, (rs, _)) => (fun r => (dr_code r, length (dr_answers r))) <$> rs | None => [] end.

Example signed_transfer : answer_count (handle_request (ex_env 0 []) true ex_signed ex_axfr_app) = [(NoError, 5%nat)].
Proof. vm_refl. Qed.

(** A primary that sends what the example's server answers to a signed request. *)
Definition ex_sent : list DRecord := default [] (axfr (ap_store ex_axfr_app) ["home"; "lan"] ex_office).
Definition ex_primary : Primaries :=
  mkPrimaries (fun _ _ _ => Some [7]) (fun bytes => if bool_decide (bytes = [9]) then Some ex_sent else None)
    (fun _ _ _ => None) (fun _ query => if bool_decide (query = [0; 1; 7]) then Some [0; 1; 9] else None).

Lemma ex_permitted : transfer_permitted (ex_env 0 []) ex_axfr_app ex_signed ex_axfr_info.
Proof.
  split_and!; [discriminate| |intros _; apply signature_ok_spec; vm_refl].
  apply axfr_allowed_spec. vm_refl.
Qed.

Lemma transfer_replicates_witness :
  exists r info a' z new,
    handle_request (ex_env 0 []) true ex_signed ex_axfr_app = Some (ex_axfr_app, ([r], info)) /\ dr_code r = NoError /\
    transfer (ex_web 7) ex_primary 2 "home.lan" (SockV4 (Ipv4Addr_new 10 0 0 1) 53) None ex_ready = (a', Ok (length new)) /\
    In z (zs_zones (ap_store ex_axfr_app)) /\
    records (ap_db a') = delete_where (fun r => rr_zone_id r =? 2) (records (ap_db ex_ready)) ++ new.
Proof.
  destruct (transfer_replicates (ex_env 0 []) ex_axfr_app ex_signed ex_axfr_info ex_sent (ex_web 7) ex_primary 2 "home.lan"
    (SockV4 (Ipv4Addr_new 10 0 0 1) 53) None ex_ready ["home"; "lan"] [7] [9])
    as (r & info & a' & z & new & H1 & H2 & _ & H3 & H4 & _ & _ & H5 & _);
    [reflexivity|reflexivity|reflexivity|reflexivity|exact ex_permitted|vm_refl|vm_refl|vm_refl|vm_compute; discriminate|vm_refl
    |vm_refl|vm_compute; discriminate|vm_refl|].
  exists r, info, a', z, new. split; [exact H1|]. split; [exact H2|]. split; [exact H3|]. split; [exact H4|exact H5].
Defined.

Lemma axfr_gate_witness :
  answer_count (handle_request (ex_env 0 []) true ex_unsigned ex_axfr_app) = [(Refused, 0%nat)] /\
  exists r info, handle_request (ex_env 0 []) true ex_unsigned ex_axfr_app = Some (ex_axfr_app, ([r], info)) /\
    dr_info r = ex_axfr_info.
Proof.
  split; [vm_refl|].
  destruct (axfr_gate (ex_env 0 []) ex_unsigned ex_axfr_info ex_axfr_app) as (r & info & H & Hi & _);
    [reflexivity|reflexivity|reflexivity|].
  exists r, info. split; [exact H|exact Hi].
Defined.

Definition ex_doh_bytes : list Z := as_bytes "nas.home.lan".
Definition ex_doh_message : WireMessage :=
  mkWireMessage 7 false OpQuery true false false NoError [(ex_host, A)] [] [] None.
Definition ex_udp : Request :=
  mkRequest (Some (mkRequestInfo ex_office ProtoUdp ex_host A OpQuery 7)) None None ex_doh_bytes.

Example doh_office :
  match doh_handle (ex_env 0 []) ex_office ex_doh_bytes ex_ready with
  | Some (_, reply) => reply = DohMessage (to_be 4 (Ipv4Addr_new 10 0 0 7))
  | None => False
  end.
Proof. vm_compute. reflexivity. Qed.

Lemma doh_equals_dns_witness :
  match handle_request (ex_env 0 []) true ex_udp ex_ready, doh_handle (ex_env 0 []) ex_office ex_doh_bytes ex_ready with
  | Some (a1, (sent, _)), Some (a2, _) => a1 = a2 /\ exists r, sent = [r]
  | _, _ => True
  end.
Proof.
  pose proof (doh_equals_dns (ex_env 0 []) true ex_office ex_doh_bytes ex_doh_message (ex_host, A) ex_udp
    (mkRequestInfo ex_office ProtoUdp ex_host A OpQuery 7) ex_ready) as H.
  specialize (H ltac:(vm_refl) ltac:(reflexivity) ltac:(reflexivity) ltac:(reflexivity) ltac:(reflexivity)
    ltac:(reflexivity) ltac:(reflexivity) ltac:(reflexivity) ltac:(reflexivity)).
  destruct (handle_request _ _ _ _) as [[a1 [sent info]]|], (doh_handle _ _ _ _) as [[a2 reply]|]; try exact I.
  destruct H as (H1 & r & H2 & _). split; [exact H1|exists r; exact H2].
Defined.

Lemma doh_get_post_witness :
  doh_get (ex_env 0 []) ex_office (Some (base64_url_encode ex_doh_bytes +:+ "==")) ex_ready =
  doh_post (ex_env 0 []) ex_office ex_doh_bytes ex_ready.
Proof. apply (doh_get_post (ex_env 0 []) ex_office ex_doh_bytes 2 ex_ready). unfold is_byte. decided. Defined.

(** ** The API *)

Definition ex_home_zone : Zone :=
  match snd (zone 2 (ap_db ex_ready)) with Ok (Some z) => z | _ => ex_zone end.
Definition ex_record : RecordCreate := mkRecordCreate "printer" "a" "192.168.1.30" (Some 120) (Some 2).
Definition ex_recorded : AppState * result Response AppError := api_create_record (ex_web 6) 2 ex_record ex_ready.

Definition ex_created : Response := response_of (snd ex_recorded).

Lemma created_record_served_witness :
  exists sz, rp_status ex_created = 201 /\ In sz (zs_zones (ap_store (fst ex_recorded))) /\
    exists owner, In (mkStoredRecord A 120 (Some 2) (RD_A (Ipv4Addr_new 192 168 1 30)))
      (default [] (sd_records sz !! name_key owner)).
Proof.
  destruct (created_record_served (ex_web 6) 2 ex_record ex_ready (fst ex_recorded) ex_created ex_home_zone ["home"; "lan"])
    as (rtype & rdata & owner & sz & Hs & Ht & Hd & _ & Hz & _ & Hin).
  - apply ex_ready_ok.
  - vm_refl.
  - vm_refl.
  - vm_refl.
  - reflexivity.
  - reflexivity.
  - unfold ex_created, ex_recorded. apply runs_ok. vm_refl.
  - exists sz. split; [exact Hs|]. split; [exact Hz|]. exists owner.
    assert (parse_record_type (rc_rtype ex_record) = Ok A) as Et by vm_refl. rewrite Et in Ht. injection Ht as <-.
    assert (parse_rdata A (rc_data ex_record) (zn_name ex_home_zone) = Ok (RD_A (Ipv4Addr_new 192 168 1 30))) as Ed
      by vm_refl. rewrite Ed in Hd. injection Hd as <-. exact Hin.
Defined.

(** ** Requests *)

(** The body of a new view is its name, the query string of an update its host. *)
#[export] Instance ex_decoders : Decoders := {|
  view_create rq := Some (mkViewCreate (string_of_bytes (hr_body rq)) [] 5 [] [] []);
  nic_params rq := Some {[ "hostname" := hr_query rq ]};
  login_request rq := Some (mkLoginRequest "admin" (string_of_bytes (hr_body rq)));
  setup_request rq := Some (mkSetupRequest "admin" (string_of_bytes (hr_body rq)));
  query_log_params _ := None; change_password_request _ := None; view_update _ := None;
  zone_create _ := None; zone_update _ := None; record_create _ := None; record_update _ := None;
  zone_import _ := None; dnssec_enable _ := None; secondary_create _ := None; settings_update _ := None;
  blocklist_create _ := None; blocklist_update _ := None; block_rule_create _ := None; rewrite_create _ := None;
  rewrite_update _ := None; conditional_create _ := None; conditional_update _ := None; token_create _ := None;
  scope_input _ := None; reservation_input _ := None; lease_query _ := None; catalog_query _ := None;
  doh_params _ := None |}.

(** A process started at 0 that knows the place of one address. *)
Definition ex_client : IpAddr := V4 (Ipv4Addr_new 81 2 69 142).
Definition ex_geo : GeoDb :=
  mkGeoDb (Some [(ex_client, mkPlace "gb" "London" (f64_literal 5151 2) (f64_literal (-13) 2) None "81.2.69.0/24")]) None.
Definition ex_vantage : Vantage :=
  mkVantage 0 "t0" ex_geo (Some [mkIfAddr "eth0" true false true (Some ex_office)]) 1 (fun _ _ => Ok [1; 2; 3]) None
    (fun A l => l).

Definition ex_serve (e : WebEnv) (rq : HttpRequest) (a : AppState) : AppState * option Response :=
  serve e ex_primaries (ex_env 0 []) (fun _ => "bad key") (fun _ _ => "bad option") "1.0" ex_vantage
    (fun _ => None) rq a.

Definition ex_view_request (h : Headers) : HttpRequest :=
  mkHttpRequest POST "/api/views" "" h ex_office (as_bytes "guests") false.
Definition ex_served : AppState * option Response := ex_serve (ex_web (2 * NANOS)) (ex_view_request ex_cookies) ex_logged_in.

Example served_created : rp_status <$> snd ex_served = Some 201.
Proof. vm_refl. Qed.

Lemma serve_integrity_witness : db_ok (ap_db (fst (ex_serve (ex_web 2) (ex_view_request ex_cookies) ex_ready))).
Proof.
  apply (serve_integrity (ex_web 2) ex_primaries (ex_env 0 []) (fun _ => "bad key") (fun _ _ => "bad option") "1.0"
           ex_vantage (fun _ => None) (ex_view_request ex_cookies) ex_ready).
  exact ex_ready_ok.
Defined.

Lemma serve_synced_witness : synced (fst (ex_serve (ex_web 2) (ex_view_request ex_cookies) ex_ready)).
Proof.
  apply (serve_synced (ex_web 2) ex_primaries (ex_env 0 []) (fun _ => "bad key") (fun _ _ => "bad option") "1.0"
           ex_vantage (fun _ => None) (ex_view_request ex_cookies) ex_ready).
  - vm_compute. discriminate.
  - exact ex_ready_ok.
  - exact ex_ready_synced.
Defined.

Definition ex_anonymous : Headers := mkHeaders None None None.

Lemma serve_gate_witness :
  authenticated (ex_web 2) (ex_view_request ex_anonymous) ex_ready \/
  refused (ex_web 2) (ex_view_request ex_anonymous) ex_ready (ex_serve (ex_web 2) (ex_view_request ex_anonymous) ex_ready).
Proof.
  apply (serve_gate (ex_web 2) ex_primaries (ex_env 0 []) (fun _ => "bad key") (fun _ _ => "bad option") "1.0"
           ex_vantage (fun _ => None) (ex_view_request ex_anonymous) ex_ready E_create_view).
  - vm_refl.
  - reflexivity.
Defined.

Definition ex_guarded (allow : list string) : WebEnv :=
  mkWebEnv (mkConfig "./data" None "info" DnsConfig_default (mkWebConfig (SockV4 0 8080) false false allow)
              TlsConfig_default (mkPrivilegesConfig None None) (mkGeoConfig None None) (mkDhcpConfig [] []))
    2 2 [1] [2] [3] (fun _ => Err "offline").

Lemma serve_allow_list_witness :
  ex_serve (ex_guarded ["192.168.0.0/16"]) (ex_view_request ex_cookies) ex_ready = (ex_ready, Some (plain 403 "forbidden")).
Proof.
  apply (serve_allow_list (ex_guarded ["192.168.0.0/16"]) ex_primaries (ex_env 0 []) (fun _ => "bad key")
           (fun _ _ => "bad option") "1.0" ex_vantage (fun _ => None) (ex_view_request ex_cookies) ex_ready).
  - vm_compute. discriminate.
  - intros text n [<-|[]] Hn. vm_compute in Hn. injection Hn as <-. reflexivity.
  - discriminate.
  - discriminate.
Defined.

Definition ex_served_response : Response := default no_content (snd ex_served).

Lemma serve_audit_witness :
  audit_log (ap_db (fst ex_served)) =
    audit_with (ex_web (2 * NANOS)) (ap_db ex_logged_in) "admin" (ex_view_request ex_cookies) 201.
Proof.
  pose proof (serve_audit (ex_web (2 * NANOS)) ex_primaries (ex_env 0 []) (fun _ => "bad key") (fun _ _ => "bad option") "1.0"
           ex_vantage (fun _ => None) (ex_view_request ex_cookies) ex_logged_in E_create_view ex_admin
           (fst ex_served) ex_served_response) as H.
  specialize (H ltac:(vm_refl) ltac:(reflexivity) ltac:(discriminate) ltac:(vm_refl) ltac:(vm_refl)).
  assert (audited (ex_view_request ex_cookies) ex_served_response = true) as E by vm_refl. rewrite E in H.
  assert (rp_status ex_served_response = 201) as Es by vm_refl. rewrite Es in H. exact H.
Defined.

(** ** Reports *)

Definition ex_get (path : string) (h : Headers) : HttpRequest := mkHttpRequest GET path "" h ex_office [] false.
Definition ex_history : list StatsOp :=
  [StRecord "t0" 1 Full ex_client None "a.lan" "A" QForwarded "NOERROR"; StLatency 12].
Definition ex_other_history : list StatsOp :=
  [StBlockedClient ex_client; StRecord "t9" 1 QlOff ex_office (Some "lan") "b.example" "A" QForwarded "NOERROR"].


(** The text, in part. *)
Definition ex_metrics : string := prometheus 60 (run_history ex_history Stats_new).
Example metrics_lines :
  starts_with ex_metrics (prom_counter "nomina_queries_total" "Total DNS queries handled." 1) &&
  ends_with ex_metrics (prom_gauge "nomina_qps_1m" "Queries per second over the last 60s." (f64_literal 2 2)) = true.
Proof. vm_refl. Qed.

Lemma map_points_exact_witness :
  sum_by pt_count (geo_points ex_vantage [(ex_client, 2); (ex_office, 1); (ex_client, 3)]) = 5.
Proof.
  destruct (map_points_exact ex_vantage [(ex_client, 2); (ex_office, 1); (ex_client, 3)]) as [H _].
  - intros A l. reflexivity.
  - rewrite H. vm_refl.
Defined.

Example interfaces_listed :
  snd (ex_serve (ex_web (2 * NANOS)) (ex_get "/api/interfaces" ex_cookies) ex_logged_in) =
  Some (secured (ok_json (JObj [("interfaces", JArr [JObj [("name", JStr "eth0"); ("addresses", JArr [JStr "10.1.2.3"])]])]))).
Proof. vm_refl. Qed.
Example backup_bytes :
  match snd (ex_serve (ex_web (2 * NANOS)) (ex_get "/api/backup" ex_cookies) ex_logged_in) with
  | Some r => rp_status r = 200 /\ rp_body r = Bytes [1; 2; 3] /\ header_values "content-type" r = ["application/octet-stream"]
  | None => False
  end.
Proof. vm_compute. done. Qed.

Lemma serve_headers_witness :
  match snd (ex_serve (ex_web (2 * NANOS)) (ex_get "/no/such/page" ex_cookies) ex_logged_in) with
  | Some r => header_values "x-frame-options" r = ["DENY"]
  | None => False
  end.
Proof.
  destruct (snd (ex_serve (ex_web (2 * NANOS)) (ex_get "/no/such/page" ex_cookies) ex_logged_in)) as [r|] eqn:E;
    [|vm_compute in E; discriminate E].
  destruct (serve_headers _ _ _ _ _ _ _ _ _ _ _ E) as [H|H]; [|apply H; right; right; left; reflexivity].
  exfalso. apply (f_equal snd) in H. revert H. vm_compute. discriminate.
Defined.
