(* ===== verification/ProgramExamples.v ===== *)
(** * Witnesses for the whole program

    One run of the program from an empty data directory: a start, the first
    account, a query, the timers of the workers, a shutdown and the next start. *)

From S2P Require Import DhcpServer DhcpDns.
From S2P Require Import Prelude Strs Float Net Geo External Instances Models DhcpOptions Db DbDns DbFilter DbDhcp DbAdmin.
From S2P Require Import Filter Upstream Cache Stats Mdns Dnssec Store State Config Web Auth DynDns Transfer ApiZones.
From S2P Require Import ApiFilter ApiDhcp Reports Sync Resolve Handler Router Integrity Serve Startup Program Bounds Unlogged Wellformed DnsExamples.
From S2P Require Import Serde Documents Schema Typed Tasks Concurrent Services.
From S2P Require Import WebExamples.

#[local] Existing Instance DhcpDns.zone_store.

(** Certificates are their text; root becomes whom it names. *)
#[export] Instance plain_tls : TlsTools := {|
  Certificate := string; PrivateKey := string;
  pem_certs text := Some [text]; pem_private_key text := Some (Some text);
  simple_self_signed names := Some (concat_str names, "key"); with_single_cert _ _ := true |}.

#[export] Instance plain_unix : Unix := {|
  user_from_name name := Ok (if bool_decide (name = "nomina") then Some (100, 101) else None);
  group_from_name name := Ok (if bool_decide (name = "dns") then Some 200 else None);
  setgroups_none c := if cr_uid c =? 0 then (mkCred (cr_uid c) (cr_gid c) [], true) else (c, false);
  setgid g c := if (cr_uid c =? 0) || (g =? cr_gid c) then (mkCred (cr_uid c) g (cr_groups c), true) else (c, false);
  setuid u c := if (cr_uid c =? 0) || (u =? cr_uid c) then (mkCred u (cr_gid c) (cr_groups c), true) else (c, false) |}.

#[export] Instance plain_unix_laws : UnixLaws.
Proof.
  split; cbn -[Z.eqb]; intros;
    repeat match goal with |- context [?x =? ?y] => destruct (Z.eqb_spec x y) end; cbn -[Z.eqb]; auto; congruence.
Qed.

(** ** Start-up *)

Definition ex_config : Config :=
  mkConfig "/var/lib/nomina" None "info" DnsConfig_default (mkWebConfig (SockV4 0 8053) true false [])
    TlsConfig_default (mkPrivilegesConfig (Some "nomina") None) (mkGeoConfig None None) (mkDhcpConfig [SockV4 0 67] []).
Definition ex_host_os : Host :=
  mkHost (fun _ => true) (fun _ => true) (fun _ => true) (fun _ => true) (fun _ => true) (Some [mkIfAddr "eth0" true false true (Some ex_office)]).
Definition ex_cli : Cli := mkCli (Some "nomina.toml") None [] [] [] [] [] None false None None.
Definition ex_boots (now : Z) : Boot :=
  mkBoot "t0" now (fun _ => Some "") (fun _ => None) (fun _ => Some ex_config) ex_cli ex_host_os (mkCred 0 0 [0; 10]).

Lemma tls_stable_witness :
  load_or_generate (fun _ => false) ex_config (fst (load_or_generate (fun _ => true) ex_config ∅)) =
  (fst (load_or_generate (fun _ => true) ex_config ∅), Ok (mkTlsMaterial ["nomina.locallocalhost"] "key")).
Proof. apply (tls_stable (fun _ => true) (fun _ => false) ex_config ∅). vm_refl. Defined.

(** A server for DNS over TLS and a web interface with TLS. *)
Definition ex_tls_config : Config :=
  mkConfig "/var/lib/nomina" None "info"
    (mkDnsConfig [SockV4 0 53] [SockV4 0 853] [] [] [] "/dns-query" 5) (mkWebConfig (SockV4 0 8053) true false [])
    TlsConfig_default (mkPrivilegesConfig None None) (mkGeoConfig None None) (mkDhcpConfig [SockV4 0 67] []).
Definition ex_tls_start : Files * result TlsSetup TlsError := tls_setup (fun _ => true) ex_tls_config ∅.
Definition ex_tls : TlsSetup := default (mkTlsSetup None None None None None) (ok (snd ex_tls_start)).
Definition ex_listeners : Listeners :=
  default (mkListeners (mkDnsSockets [] [] [] []) (mkDhcpSockets [] []) None [])
    (ok (bind_listeners ex_host_os ex_tls_config ex_tls [])).

Lemma status_tells_services_witness :
  (lf_kind <$> listener_infos ex_tls_config) = ["udp"; "tcp"; "dot"] /\
  option_map (omap management_of) (spawn_servers (fun _ => true) ex_tls_config ex_listeners ex_tls) =
    Some [(SockV4 0 8053, "https")].
Proof.
  split; [vm_refl|].
  destruct (status_tells_services (fun _ => true) (fun _ => true) ex_host_os ex_tls_config ∅ (fst ex_tls_start) ex_tls []
              ex_listeners) as (services & -> & _ & H); [vm_refl|vm_refl|done|]. cbn [option_map]. by rewrite H.
Defined.

Lemma drop_privileges_final_witness :
  drop_privileges (mkPrivilegesConfig (Some "nomina") (Some "dns")) (mkCred 0 0 [0; 10]) = (mkCred 100 200 [], Ok tt) /\
  setuid 0 (mkCred 100 200 []) = (mkCred 100 200 [], false).
Proof.
  destruct (drop_privileges_final (mkPrivilegesConfig (Some "nomina") (Some "dns")) (mkCred 0 0 [0; 10]) 100 (Some 200))
    as [H1 H2]; [reflexivity|vm_refl|]. split; [exact H1|]. apply H2. discriminate.
Defined.

(** ** A run *)

Definition ex_actions (acts : list Action) : option System :=
  run_actions (fun _ => "bad key") (fun _ _ => "bad option") "1.0" (fun _ => None) (fun _ => 7)
    acts (Down fresh_disk).

Definition is_up (s : option System) : bool := match s with Some (Up _) => true | _ => false end.
Definition ex_process (acts : list Action) : Process :=
  match ex_actions acts with
  | Some (Up p) => p
  | _ => mkProcess (mkFixed ex_config (mkListeners (mkDnsSockets [] [] [] []) (mkDhcpSockets [] []) None [])
                      (mkCred 0 0 []) 0 "t0" ex_geo ∅ None) ex_ready ∅ (mkSupervisor false false) ∅ 0
  end.
Lemma ex_process_up acts : is_up (ex_actions acts) = true -> ex_actions acts = Some (Up (ex_process acts)).
Proof. unfold ex_process. by destruct (ex_actions acts) as [[p|k]|]. Qed.

Definition ex_setup : Event :=
  EvHttp (ex_web 0) ex_primaries (ex_env 0 []) ex_vantage (mkHttpRequest POST "/api/setup" "" ex_anonymous ex_office (as_bytes "long enough password") false).
Definition ex_mdns_host : MdnsHost :=
  mkMdnsHost true (fun _ => true) true (Some [mkIfAddr "eth0" true false true (Some ex_office)]).
Definition ex_run : list Action :=
  [Boots (ex_boots 0); Takes ex_setup; Takes (EvDns (ex_env 0 []) true ex_udp); Takes EvQueryLog; Takes (EvSupervise ex_mdns_host)].

Abbreviation ex_reachable allowed s :=
  (reachable (fun _ => "bad key") (fun _ _ => "bad option") "1.0" (fun _ => None) (fun _ => 7) allowed s).

Lemma ex_run_reachable allowed acts :
  Forall (fun act => forall p ev, act = Takes ev -> allowed p ev) acts -> is_up (ex_actions acts) = true ->
  ex_reachable allowed (Up (ex_process acts)).
Proof.
  intros Ha Hup. eapply reachable_actions; [exact Ha|apply reach_fresh|]. exact (ex_process_up acts Hup).
Qed.

Example ex_run_accounts : us_username <$> users (ap_db (ps_app (ex_process ex_run))) = ["admin"].
Proof. vm_refl. Qed.
Example ex_run_counted : ct_total (sts_counters (ap_stats (ps_app (ex_process ex_run)))) = 1.
Proof. vm_refl. Qed.
Example ex_run_dropped : ps_cred (ex_process ex_run) = mkCred 100 101 [].
Proof. vm_refl. Qed.

Lemma anything acts : Forall (fun act => forall (p : Process) (ev : Event), act = Takes ev -> True) acts.
Proof. apply List.Forall_forall. done. Qed.

Lemma process_integrity_witness : db_ok (ap_db (ps_app (ex_process ex_run))).
Proof.
  apply (process_integrity (fun _ => "bad key") (fun _ _ => "bad option") "1.0" (fun _ => None)
           (fun _ => 7)).
  apply ex_run_reachable; [apply anything|vm_refl].
Defined.

Lemma process_bounded_witness : bounded (ex_process ex_run).
Proof.
  apply (process_bounded (fun _ => "bad key") (fun _ _ => "bad option") "1.0" (fun _ => None)
           (fun _ => 7)).
  apply ex_run_reachable; [apply anything|vm_refl].
Defined.

Lemma process_unlogged_witness :
  ct_total (sts_counters (ap_stats (ps_app (ex_process ex_run)))) = 1 /\ unlogged (ps_app (ex_process ex_run)).
Proof.
  split; [exact ex_run_counted|].
  apply (process_unlogged (fun _ => "bad key") (fun _ _ => "bad option") "1.0" (fun _ => None) (fun _ => 7)).
  apply ex_run_reachable; [|vm_refl].
  repeat (apply List.Forall_cons; [intros p ev Hev; try discriminate Hev; injection Hev as <-; try exact I;
    intros Hep; vm_compute in Hep; discriminate Hep|]).
  apply List.Forall_nil.
Defined.

Definition ex_forwarders : SettingsUpdate :=
  ltac:(constructor; first [exact (Some [mkForwarder "9.9.9.9" Tls 853 (Some "dns.quad9.net")]) | exact None]).
Definition ex_put : AppState * result Response AppError :=
  api_put_settings (fun _ => "bad key") ex_forwarders (ps_app (ex_process ex_run)).

Lemma settings_wellformed_witness :
  settings_ok (ap_settings (ps_app (ex_process ex_run))) /\
  exists s', settings_ok s' /\ ap_settings (fst ex_put) = s' /\ length (st_forwarders s') = 1%nat.
Proof.
  destruct (settings_wellformed (fun _ => "bad key") (fun _ _ => "bad option") "1.0" (fun _ => None) (fun _ => 7)
    (ex_process ex_run) ex_forwarders) as [[_ H1] H].
  - apply ex_run_reachable; [apply anything|vm_refl].
  - split; [exact H1|]. fold ex_put in H. assert (is_ok (snd ex_put) = true) as Hr by vm_refl.
    destruct ex_put as [a' [r|err]]; [|discriminate Hr]. destruct H as (s' & Hu & Hok & _ & Hs).
    exists s'. split; [exact Hok|]. split; [exact Hs|].
    assert (length <$> (match update_settings (fun _ => "bad key") ex_forwarders
              (db_settings (ap_db (ps_app (ex_process ex_run)))) with Ok s => Some (st_forwarders s) | Err _ => None end) =
            Some 1%nat) as Hl by vm_refl. rewrite Hu in Hl. injection Hl as Hl. exact Hl.
Defined.

Lemma process_counts_witness :
  let c := sts_counters (ap_stats (ps_app (ex_process ex_run))) in same_u64 (ct_total c) (outcome_total c + ct_dangerous c).
Proof.
  apply (process_counts (fun _ => "bad key") (fun _ _ => "bad option") "1.0" (fun _ => None) (fun _ => 7)).
  apply ex_run_reachable; [apply anything|vm_refl].
Defined.

Lemma process_synced_witness : synced (ps_app (ex_process ex_run)).
Proof.
  apply (process_synced (fun _ => "bad key") (fun _ _ => "bad option") "1.0" (fun _ => None)
           (fun _ => 7)).
  apply ex_run_reachable; [|vm_refl].
  repeat (apply List.Forall_cons; [intros p ev Hev; try discriminate Hev; injection Hev as <-; try exact I; vm_compute; discriminate|]).
  apply List.Forall_nil.
Defined.

Definition ex_down : Disk := shutdown 9 Saved (ex_process ex_run).
Definition ex_restarted : Disk * result Process StartError := start (ex_boots 20) ex_down.
Definition ex_second (r : result Process StartError) : Process := match r with Ok p => p | Err _ => ex_process [] end.

Lemma restart_heals_witness :
  synced (ps_app (ex_second (snd ex_restarted))) /\
  ap_db (ps_app (ex_second (snd ex_restarted))) =
    set_settings (Some (db_settings (ap_db (ps_app (ex_process ex_run))))) (ap_db (ps_app (ex_process ex_run))).
Proof.
  apply (restart_heals (fun _ => "bad key") (fun _ _ => "bad option") "1.0" (fun _ => None)
           (fun _ => 7) (ex_process ex_run) (ex_boots 20) ex_down (fst ex_restarted)).
  - apply ex_run_reachable; [apply anything|vm_refl].
  - right. by exists 9, Saved.
  - unfold ex_second. assert (is_ok (snd ex_restarted) = true) as E by vm_refl.
    change (start (ex_boots 20) ex_down) with ex_restarted. destruct ex_restarted as [k [p|e]]; [reflexivity|discriminate E].
Defined.

(** ** The stored form *)

#[export] Instance ex_decoders_typed : DecodersTyped.
Proof. split; try discriminate. intros rq b [= <-]. constructor. Qed.

Lemma ex_primaries_typed : net_typed ex_primaries.
Proof.
  intros bytes rs. unfold ex_primaries. cbn [pr_answers]. repeat case_bool_decide; intros [= <-];
    repeat (apply List.Forall_cons; [unfold authority_typed, Soa_ok; cbn; first [exact I | lia]|]); apply List.Forall_nil.
Qed.

Lemma process_stored_witness :
  let d := ap_db (ps_app (ex_process ex_run)) in
  length (views d) = 1%nat /\ load_db (store_db d) = Ok d.
Proof.
  split; [vm_refl|].
  apply (process_stored (fun _ => "bad key") (fun _ _ => "bad option") "1.0" (fun _ => None) (fun _ => 7)).
  apply ex_run_reachable; [|vm_refl].
  repeat (apply List.Forall_cons; [intros p ev Hev; try discriminate Hev; injection Hev as <-;
    first [exact I | exact ex_primaries_typed]|]).
  apply List.Forall_nil.
Defined.

(** Settings from before mDNS and the filter switch, and with a field since removed. *)
Definition ex_keep (field : string) : bool := negb (bool_decide (field ∈ ["blocking_enabled"; "mdns_ttl"; "tsig_keys"])).
Definition ex_custom : Settings :=
  mkSettings [mkForwarder "9.9.9.9" Tls 853 (Some "dns.quad9.net")] ResOff ZeroIp false Full AllIdn 64 5 600 true ["10.0.0.0/8"]
    [mkTsigKey "k" "hmac-sha256" "c2VjcmV0"] true RoundRobin [64512] true "lan" 60 false [] [] [] [] [] "/q" 3 "ns" false
    [] "" false "" "" (Some true) "" "" [] 24.

Lemma settings_upgrade_witness :
  settings_from (Some (json_to_string (Settings_object ex_keep [("ui_theme", VStr "dark")] ex_custom))) =
    Ok (Some (upgraded ex_keep ex_custom)) /\
  (let s := upgraded ex_keep ex_custom in (st_blocking_enabled s, st_mdns_ttl s, st_tsig_keys s, st_mdns_zone s)) =
    (true, 120, [], "lan").
Proof.
  split; [|vm_refl]. rewrite settings_upgrade.
  - reflexivity.
  - repeat split; repeat constructor; cbn; lia.
  - intros x Hx Hin. cbn in Hin. apply list_elem_of_singleton in Hin as ->. revert Hx.
    apply (bool_decide_unpack (_ ∉ _)). vm_compute; exact I.
  - apply List.Forall_cons; [vm_refl|apply List.Forall_nil].
Defined.

(** ** Overlapping requests *)

Definition ex_fresh : AppState := initial_state (fst (bootstrap "t0" empty_db)) Settings_default.
Definition ex_setup_http : HttpRequest :=
  mkHttpRequest POST "/api/setup" "" ex_anonymous ex_office (as_bytes "long enough password") false.
Lemma ex_management : management ex_setup_http.
Proof. split; vm_compute; discriminate. Qed.
Abbreviation ex_task := (request_task (fun _ => "bad key") (fun _ _ => "bad option") "1.0" (fun _ => None) (ex_web 0) ex_primaries
  (ex_env 0 []) ex_vantage ex_setup_http ex_management).
Definition ex_pool : Pool :=
  let d0 := ap_db ex_fresh in let d1 := fst (prune_sessions "t1" d0) in
  mkPool [d1; d1; d0; d0] (put_store (build_from d0) (with_db d1 (with_db d0 ex_fresh))) [ex_task; Finished None].

(** A set-up waits while a reload is cut in two by another worker's statement. *)
Lemma overlap_integrity_witness :
  db_ok (ap_db (pl_state ex_pool)) /\ default_ids (ap_db (pl_state ex_pool)) = [1].
Proof.
  destruct (overlap_integrity (fun _ => "bad key") (fun _ _ => "bad option") "1.0" (fun _ => None) ex_fresh ex_pool)
    as (H1 & H2 & _).
  - apply bootstrap_first.
  - split; [eexists; split; [by left|reflexivity]|eexists _, _; split; [by left|reflexivity]
      |eexists _, Settings_default; split; [by left|reflexivity]].
  - eapply rtc_l; [apply (ov_request _ _ _ _ _ _ _ (ex_web 0) ex_primaries (ex_env 0 []) ex_vantage _ ex_management)|].
    eapply rtc_l; [apply ov_reload|].
    eapply rtc_l; [apply ov_step, (sched_step [ex_task] _ []); reflexivity|].
    eapply rtc_l; [apply ov_statement, (bg_sessions "t1")|].
    eapply rtc_l; [apply ov_step, (sched_step [ex_task] _ []); reflexivity|]. apply rtc_refl.
  - split; [exact H1|]. rewrite H2. vm_refl.
Defined.
